(* ===== verification/_CoqProject ===== *)
-Q . S2P
Prelude.v
GoStrings.v
Strconv.v
Duration.v
Settings.v
Net.v
Url.v
Regex.v
Base64.v
Os.v
Json.v
Secrets.v
StrictJson.v
UrlFacts.v
Fs.v
JsonPrint.v
FsFacts.v
DevSecrets.v
GeneratedFiles.v
DevSecretsFacts.v
GeneratorSuccess.v
Policies.v
Endpoints.v
Config.v
EnvFile.v
Isolation.v
Fixtures.v
Readiness.v
ReadinessSpec.v
Dependency.v
Connection.v
Lifecycle.v
Observability.v
Telemetry.v
Service.v
ConfigGuarantees.v
ServiceGuarantees.v
StartupGuarantees.v
SecretGuarantees.v
Flag.v
Commands.v
Mounting.v
CommandGuarantees.v
