(* ===== verification/Prelude.v ===== *)
(** * NexusRelay: a verification development

    NexusRelay is a gateway in front of language-model providers.  At this
    commit its Go code is the foundation of four processes (gateway, control
    plane, worker and the bootstrap command) and of three commands beside them:
    configuration from environment variables and secret files, clients of the
    dependencies and their readiness, process lifetime, operational HTTP and
    telemetry, the secrets of a development deployment.  This library models
    that code and proves what the processes rely on.

    ** The program's parts and where they are modelled

    A process reads its environment and its secret files once
    ([internal/config]), builds its telemetry ([internal/observability]), and
    runs its operational HTTP server ([internal/httpserver]) under the readiness
    loop ([internal/dependency]); [internal/runtime] turns signals into the
    context that all of them observe.  A deployment is validated beforehand by
    reading the same environment file and running the parsers of all processes
    (cmd/validate-deployment), on secrets that cmd/generate-dev-secrets may have
    written; apps/health-probe asks a running process for its readiness.

    - [Settings]: config.go, the setting inventory, the readers of one setting,
      [preflight]; envfile.go, [ValuesForProcess].
    - [Policies], [Endpoints]: config.go, the parsers of groups of settings that
      touch no file.
    - [Secrets], [StrictJson]: secret.go, protected files, the strict JSON
      reader, key rings; the relation between the reader's two passes.
    - [Config]: config.go, the records and parsers of the processes and of the
      deployment.
    - [EnvFile]: envfile.go, the environment file and [ValidateComplete].
    - [DevSecrets]: devsecrets.go, the generation, validation and resolution of
      development secrets, over the file system of [Fs]; [FsFacts],
      [GeneratedFiles], [DevSecretsFacts] and [GeneratorSuccess] hold its lemmas:
      paths and frames, what was written is read back, what a run leaves, that
      a run on a calm host succeeds.
    - [Readiness]: dependency/readiness.go, [Run] and [runProbes];
      [ReadinessSpec]: the contract that the loop refines, and its liveness.
    - [Dependency], [Connection]: dependency.go, the connection URL, the options
      and the clients; what [url.Parse] gives back of a connection URL.
    - [Lifecycle]: runtime/runtime.go (module [Runtime]), httpserver
      (modules [Health] and [HttpServer]), buildinfo (module [BuildInfo]).
    - [Observability]: logging.go (module [Logging]), http.go and the metric
      operations of observability.go (module [Http]); [Telemetry]:
      observability.go, the metric vectors, the choice of the tracer provider,
      the shutdown, the routes of httpserver/health.go and the middleware
      around them.
    - [Service]: the [run] and [main] of apps/gateway, apps/control-plane,
      apps/worker and apps/bootstrap.
    - [Commands]: cmd/validate-deployment, cmd/generate-dev-secrets and
      apps/health-probe, a module each.
    - [ConfigGuarantees], [ServiceGuarantees], [StartupGuarantees],
      [SecretGuarantees], [CommandGuarantees] and the end of [ReadinessSpec]:
      the properties, each after the name C<n> of its doc comment, and the
      concrete inputs that meet their hypotheses; [Isolation] (what a process
      reads of its environment), [Mounting] (one secret under two names) and
      [Fixtures] serve them.

    Definitions keep the names of the code.  A loop of the source that is a
    function here is named after its function with the suffix [_loop] or a
    plain description.

    ** The language and its standard library

    [GoStrings], [Strconv], [Duration], [Net], [Url], [UrlFacts], [Regex],
    [Base64], [Json], [JsonPrint], [Flag], [Os] and [Fs] model what the code uses
    of strings, unicode, utf8, strconv, time, net, net/netip, net/url, regexp,
    encoding/base64, encoding/json, flag, os, io, crypto/rand and path/filepath.  Strings are bytes, integers are [Z] with [wrap64] and
    [int32] where the code computes at a width, durations are nanoseconds.
    What is not code is an argument of the definitions that use it:

    - [OS] (in [Os]): what [Lstat], [Stat], [Open] and [ReadDir] observe, the
      environment block and GOOS.  Nothing relates [Lstat] to [Open], so a file that is
      replaced between the two calls is a behaviour of the model;
    - [MapOrder] (in [Prelude]): the iteration order of a Go map, any
      permutation of its entries;
    - [UnicodeTables] (in [GoStrings]): the Unicode data beyond ASCII;
    - [MailParser] (in [Config]): [net/mail.ParseAddress];
    - [HostOS] (in [Fs]): the host of the generator: which system calls fail, how
      much a failing write has written, the umask, the random suffixes of
      temporary names and the bytes of [rand.Read];
    - [Pgx] and [GoRedis] (in [Dependency]): the URL parsers of the two client
      libraries;
    - [Client] (in [Commands]): what a GET request of the probe is answered.

    The metric and tracing libraries are third-party code; their use is modelled
    by the list of the calls made on them.

    ** State, errors and concurrency

    Fallible code returns [res], with the text of the error; the generator is
    written in [Gen], a state monad over the file system that keeps the state
    when it fails, so that deferred clean-up runs on it.  The readiness loop
    and [RunInitialized] are goroutines that share contexts, channels and
    timers with their environment; each is a state record and a function [exec]
    that performs the transition the environment chooses, so that [step] is a
    relation, [reachable] its closure from the start, and invariants are proved
    by induction on it.  A panic is [None] where one can occur.

    ** What the theorems show

    - Configuration: validation of a deployment implies that every service
      starts with the configuration that was validated; each process is
      influenced by the settings it consumes only; the result does not depend
      on the order of map iterations; production deployments are hardened,
      credentials are kept apart, a tunnel is guarded; policies are within
      their bounds, and absent settings give the documented defaults.
    - Secrets: a secret comes from the file that was checked, a key ring is
      well-formed whatever the file holds, the strict reader is total, and a
      document it accepts is one JSON text that conforms to its schema.
    - Development secrets: whatever fails, the generator touches no existing
      file; when it succeeds its directory is complete, valid and readable by
      the configuration; on a host where nothing fails it succeeds; a secret
      root is resolved to exactly the files under it.
    - Commands: a deployment that validate-deployment accepts against a secret
      root loads in the containers that mount the root; the exit codes of the
      generator and of the health probe say what they seem to say.
    - Environment files: printing and parsing is the identity; filtering keeps
      exactly what a process consumes.
    - Readiness: readiness is claimed on evidence only, cleared before a service
      is cancelled, and false when the loop has returned; the loop returns after
      a shutdown; retries stay within their bounds; a probe round is
      deterministic although its goroutines are not.  The loop refines a
      contract on what its service observes, and a service that is left alone
      becomes ready and stays so, also when its startup timer fires later.
    - Services: a service whose configuration loads enters its readiness loop
      with the policy, probes and server that were configured, its routes
      inside the HTTP middleware, and releases what it opened on every path; the
      database URL, for a host that is a name or an IPv6 address, is read back
      unchanged, and the pool gets the sizes of the configuration.
    - Telemetry: log records are redacted at the first level, metric labels are
      bounded and every metric call carries one value per label.  Theorems also state where the code stops short of what it
      promises: groups in log records, an attribute named time, an informational
      status, a policy whose delays wrap around, an error that quotes a secret
      file.

    ** Bounds and fuel

    [scanJSONValue] has fuel: twice the length of the text and one, which
    [scan_terminates] proves sufficient, since every token consumes a byte and
    every level of recursion a token.  [Tree.parse] likewise, and a document on
    which the scan succeeds is parsed ([strictJSON_ok]).  The other functions on
    text recurse on it or have its length as fuel, each step consuming a byte.
    [trim_space], [unquote_fuel] and the like say so at their definition.

    [MkdirTemp] tries as many names as the library does, [Parse] of [Flag]
    recurses on the arguments, and [follow] gives up after 40 symbolic links, as
    the kernel does.

    ** Not modelled

    The generated transport (control_plane.gen.go), the chi router, pgx, go-redis
    and the metric and tracing exporters behind the calls that are recorded, the
    delivery of signals, time itself (a timer is a choice of the environment),
    the compose files and scripts, and the front end.  In [Fs] a directory is
    not renamed or listed while another process changes it: the generator has
    the file system to itself but for the faults of its host. *)
From stdpp Require Export base tactics option list strings gmap.
From Stdlib Require Export ZArith Lia Ascii.

#[global] Set Default Goal Selector "!".

(** * Fallible code

    A Go function that returns [(T, error)] is modelled by a function into
    [res T].  [Err e] carries the text of the error ([err.Error()]); the zero
    value that Go returns beside a non-nil error is never used by the callers
    and has no counterpart. *)
Inductive res (A : Type) : Type :=
| Ok (a : A)
| Err (e : string).
Arguments Ok {_} _.
Arguments Err {_} _%_string.

#[global] Instance res_ret : MRet res := fun A a => Ok a.
#[global] Instance res_bind : MBind res := fun A B f m =>
  match m with Ok a => f a | Err e => Err e end.
#[global] Instance res_fmap : FMap res := fun A B f m =>
  match m with Ok a => Ok (f a) | Err e => Err e end.

#[global] Instance res_eq_dec {A} `{EqDecision A} : EqDecision (res A).
Proof. solve_decision. Defined.

Definition is_ok {A} (m : res A) : bool :=
  match m with Ok _ => true | Err _ => false end.

(** [reject e when c ;; k] is the early return [if c { return ..., e }; k]. *)
Notation "'reject' e 'when' c ';;' k" :=
  (if c then Err e else k)
  (at level 100, e at level 99, c at level 99, k at level 200,
   right associativity) : stdpp_scope.

Section res_lemmas.
Context {A B : Type}.
Implicit Types (m : res A) (f : A → res B).

Lemma bind_ok m f b : m ≫= f = Ok b ↔ ∃ a, m = Ok a ∧ f a = Ok b.
Proof. destruct m; split; naive_solver. Qed.

Lemma bind_err m f e :
  m ≫= f = Err e ↔ m = Err e ∨ ∃ a, m = Ok a ∧ f a = Err e.
Proof. destruct m; split; naive_solver. Qed.

Lemma reject_ok (c : bool) e (k : res B) b :
  (if c then Err e else k) = Ok b ↔ c = false ∧ k = Ok b.
Proof. destruct c; naive_solver. Qed.

Lemma is_ok_true m : is_ok m = true ↔ ∃ a, m = Ok a.
Proof. destruct m; naive_solver. Qed.
End res_lemmas.

(** A run that succeeds where another does, with the same result. *)
Definition implies_ok {A} (m1 m2 : res A) : Prop := ∀ a, m1 = Ok a → m2 = Ok a.

Lemma implies_ok_refl {A} (m : res A) : implies_ok m m.
Proof. by intros a. Qed.

Lemma implies_ok_bind {A B} (m1 m2 : res A) (f g : A → res B) :
  implies_ok m1 m2 → (∀ a, implies_ok (f a) (g a)) → implies_ok (m1 ≫= f) (m2 ≫= g).
Proof. intros Hm Hf b (a & ->%Hm & Hb)%bind_ok. cbn. by apply Hf. Qed.

Lemma implies_ok_reject {A} (c : bool) e (k1 k2 : res A) :
  implies_ok k1 k2 → implies_ok (if c then Err e else k1) (if c then Err e else k2).
Proof. intros Hk a. destruct c; [done|apply Hk]. Qed.

(** [res_inv H] takes a successful run [H : ... = Ok b] apart: one hypothesis
    per call that succeeded and per guard that let the run through. *)
Ltac res_inv_step H :=
  lazymatch type of H with
  | _ ≫= _ = Ok _ =>
      let a := fresh "a" in let Ha := fresh "Hr" in
      apply bind_ok in H as (a & Ha & H); cbv beta iota in H;
      try (lazymatch type of a with prod _ _ => destruct a end);
      cbv beta iota in H
  | (if _ then Err _ else _) = Ok _ =>
      let Hc := fresh "Hg" in
      apply reject_ok in H as [Hc H]
  | mbind _ _ = Ok _ =>
      let a := fresh "a" in let Ha := fresh "Hr" in
      apply bind_ok in H as (a & Ha & H); cbv beta iota in H;
      try (lazymatch type of a with prod _ _ => destruct a end);
      cbv beta iota in H
  | match ?p with (_, _) => _ end = Ok _ => destruct p; cbv beta iota in H
  | Ok _ = Ok _ => injection H as H
  | mret _ = Ok _ => unfold mret, res_ret in H; injection H as H
  end.
Ltac res_inv H := repeat (progress (res_inv_step H)).

(** * Machine integers *)

Definition int64_min : Z := - 2 ^ 63.
Definition int64_max : Z := 2 ^ 63 - 1.

(** Two's complement wrap-around of Go's [int64] (and 64-bit [int]). *)
Definition wrap64 (z : Z) : Z := (z + 2 ^ 63) mod 2 ^ 64 - 2 ^ 63.
Definition uint64 (z : Z) : Z := z mod 2 ^ 64.
Definition uint32 (z : Z) : Z := z mod 2 ^ 32.
Definition uint8 (z : Z) : Z := z mod 2 ^ 8.
Definition int32 (z : Z) : Z := (z + 2 ^ 31) mod 2 ^ 32 - 2 ^ 31.

Lemma wrap64_id z : (int64_min ≤ z ≤ int64_max)%Z → wrap64 z = z.
Proof. unfold wrap64, int64_min, int64_max. intros H. rewrite Z.mod_small; lia. Qed.

Lemma wrap64_range z : (int64_min ≤ wrap64 z ≤ int64_max)%Z.
Proof.
  unfold wrap64, int64_min, int64_max.
  pose proof (Z.mod_pos_bound (z + 2 ^ 63) (2 ^ 64) ltac:(lia)). lia.
Qed.

Lemma uint32_id z : (0 ≤ z < 2 ^ 32)%Z → uint32 z = z.
Proof. intros H. apply Z.mod_small, H. Qed.

Lemma uint8_id z : (0 ≤ z < 2 ^ 8)%Z → uint8 z = z.
Proof. intros H. apply Z.mod_small, H. Qed.

Lemma int32_id z : (- 2 ^ 31 ≤ z < 2 ^ 31)%Z → int32 z = z.
Proof. unfold int32. intros H. rewrite Z.mod_small; lia. Qed.

(** * Go maps

    A Go map is a [gmap string]; [for k, v := range m] visits its entries in
    an order the language leaves open.  [MapOrder] is that order: any function
    that lists the entries of each map once.  Every definition that ranges
    over a map takes it as an argument, so theorems hold for all orders. *)
Class MapOrder := {
  map_range : ∀ {A : Type}, gmap string A → list (string * A);
  map_range_perm : ∀ {A : Type} (m : gmap string A), map_range m ≡ₚ map_to_list m
}.

#[global] Instance: Params (@map_range) 2 := {}.

Section map_order.
Context `{MapOrder} {A : Type}.
Implicit Types m : gmap string A.

Lemma elem_of_map_range m k (x : A) : (k, x) ∈ map_range m ↔ m !! k = Some x.
Proof. rewrite map_range_perm. apply elem_of_map_to_list. Qed.

Lemma NoDup_map_range_fst m : NoDup (map_range m).*1.
Proof. rewrite map_range_perm. apply NoDup_fst_map_to_list. Qed.
End map_order.

(** Two concrete orders, for the witnesses. *)
Definition forward_order : MapOrder := {|
  map_range A m := map_to_list m;
  map_range_perm A m := reflexivity _
|}.

Lemma reverse_perm {A} (m : gmap string A) : reverse (map_to_list m) ≡ₚ map_to_list m.
Proof. apply reverse_Permutation. Qed.

Definition backward_order : MapOrder := {|
  map_range A m := reverse (map_to_list m);
  map_range_perm A m := reverse_perm m
|}.

(** * Hints *)

Create HintDb nexus.
Create Rewrite HintDb nexus.
#[export] Hint Resolve NoDup_map_range_fst : nexus.
#[export] Hint Resolve implies_ok_refl implies_ok_bind implies_ok_reject : nexus.
#[export] Hint Rewrite @bind_ok @reject_ok @elem_of_map_range : nexus.

(** Case analysis on every [bool] test the model takes from the code. *)
Ltac split_tests :=
  repeat match goal with
  | H : context [if ?c then _ else _] |- _ => destruct c eqn:?; try done
  | |- context [if ?c then _ else _] => destruct c eqn:?; try done
  end.

(** Turn boolean comparisons of [Z] into arithmetic, then [lia]. *)
Ltac zbool :=
  repeat match goal with
  | H : negb _ = true |- _ => apply negb_true_iff in H
  | H : negb _ = false |- _ => apply negb_false_iff in H
  | H : (_ || _)%bool = false |- _ => apply orb_false_iff in H as [? ?]
  | H : (_ && _)%bool = true |- _ => apply andb_true_iff in H as [? ?]
  | H : (_ <? _)%Z = true |- _ => apply Z.ltb_lt in H
  | H : (_ <? _)%Z = false |- _ => apply Z.ltb_ge in H
  | H : (_ <=? _)%Z = true |- _ => apply Z.leb_le in H
  | H : (_ <=? _)%Z = false |- _ => apply Z.leb_gt in H
  | H : (_ =? _)%Z = true |- _ => apply Z.eqb_eq in H
  | H : (_ =? _)%Z = false |- _ => apply Z.eqb_neq in H
  end.
Ltac zlia := zbool; lia.
