(* ===== verification/GoStrings.v ===== *)
(** Byte strings, UTF-8 and the part of Go's [strings], [unicode] and
    [unicode/utf8] packages that the repository calls.

    A Go [string] is a sequence of bytes: a Rocq [string], one [ascii] per
    byte.  A rune is a [Z].  The Unicode data tables of package [unicode] are
    generated data; the three functions of them that the repository reaches
    for code points outside ASCII are the class [UnicodeTables]. *)
From S2P Require Import Prelude.

Local Open Scope string_scope.
Local Open Scope Z_scope.

#[global] Arguments String.append !_ _ : simpl nomatch.

(** The generated Unicode tables: [unicode.SimpleFold], and [unicode.ToLower]
    and [strconv.IsPrint] for runes of at least [0x80]. *)
Class UnicodeTables := {
  simple_fold : Z → Z;
  rune_to_lower : Z → Z;
  rune_is_print : Z → bool
}.

(** Tables that map every rune outside ASCII to itself, for the witnesses. *)
Definition identity_tables : UnicodeTables := {|
  simple_fold r := r;
  rune_to_lower r := r;
  rune_is_print _ := true
|}.

Module Bytes.

Definition byte (c : ascii) : Z := Z.of_N (N_of_ascii c).
Definition chr (z : Z) : ascii := ascii_of_N (Z.to_N z).

Lemma byte_range c : 0 ≤ byte c < 256.
Proof. unfold byte. pose proof (N_ascii_bounded c). lia. Qed.

Lemma chr_byte c : chr (byte c) = c.
Proof. unfold chr, byte. rewrite N2Z.id. apply ascii_N_embedding. Qed.

Lemma byte_chr z : 0 ≤ z < 256 → byte (chr z) = z.
Proof.
  intros Hz. unfold byte, chr. rewrite N_ascii_embedding; lia.
Qed.

Lemma byte_inj c d : byte c = byte d → c = d.
Proof. intros H. by rewrite <-(chr_byte c), <-(chr_byte d), H. Qed.

(** [len(s)] *)
Definition len (s : string) : Z := Z.of_nat (String.length s).

(** [s[:n]] and [s[n:]] for [n] within [s]. *)
Fixpoint take (n : nat) (s : string) : string :=
  match n, s with
  | S n', String c s' => String c (take n' s')
  | _, _ => ""
  end.

Fixpoint drop (n : nat) (s : string) : string :=
  match n, s with
  | S n', String _ s' => drop n' s'
  | _, _ => s
  end.

Fixpoint all_bytes (p : ascii → bool) (s : string) : bool :=
  match s with
  | EmptyString => true
  | String c s' => p c && all_bytes p s'
  end.

Definition any_byte (p : ascii → bool) (s : string) : bool :=
  negb (all_bytes (λ c, negb (p c)) s).

Lemma take_drop n s : take n s +:+ drop n s = s.
Proof.
  revert s. induction n as [|n IH]; intros [|c s]; simpl; [done..|].
  by rewrite IH.
Qed.

Lemma slen_take n s : (String.length (take n s) = n `min` String.length s)%nat.
Proof. revert s. induction n as [|n IH]; intros [|c s]; simpl; [done..|]. by rewrite IH. Qed.

Lemma slen_drop n s : (String.length (drop n s) = String.length s - n)%nat.
Proof. revert s. induction n as [|n IH]; intros [|c s]; simpl; [done..|]. by rewrite IH. Qed.

Lemma slen_app s t : (String.length (s +:+ t) = String.length s + String.length t)%nat.
Proof. induction s as [|c s IH]; simpl; [done|]. by rewrite IH. Qed.

Lemma sapp_assoc s t u : (s +:+ t) +:+ u = s +:+ (t +:+ u).
Proof. induction s as [|c s IH]; simpl; [done|]. by rewrite IH. Qed.

Lemma sapp_nil_r s : s +:+ "" = s.
Proof. induction s as [|c s IH]; simpl; [done|]. by rewrite IH. Qed.

Lemma stake_app s t : take (String.length s) (s +:+ t) = s.
Proof. induction s as [|c s IH]; cbn; [by destruct t|]. by rewrite IH. Qed.

Lemma sdrop_app s t : drop (String.length s) (s +:+ t) = t.
Proof. induction s as [|c s IH]; [by destruct t|exact IH]. Qed.

Lemma all_bytes_app p s t : all_bytes p (s +:+ t) = all_bytes p s && all_bytes p t.
Proof. induction s as [|c s IH]; simpl; [done|]. by rewrite IH, andb_assoc. Qed.

Lemma all_bytes_impl (p q : ascii → bool) s :
  (∀ c, p c = true → q c = true) → all_bytes p s = true → all_bytes q s = true.
Proof.
  intros Hpq. induction s as [|c s IH]; simpl; [done|].
  rewrite !andb_true_iff. naive_solver.
Qed.

End Bytes.
Export Bytes.

(** * Package [strings], on bytes *)
Module Strs.

Fixpoint has_prefix (s p : string) : bool :=
  match p, s with
  | EmptyString, _ => true
  | String c p', String d s' => Ascii.eqb c d && has_prefix s' p'
  | String _ _, EmptyString => false
  end.

(** [strings.HasSuffix(s, p)]: [len(s) >= len(p) && s[len(s)-len(p):] == p]. *)
Definition has_suffix (s p : string) : bool :=
  (String.length p <=? String.length s)%nat &&
  String.eqb (drop (String.length s - String.length p) s) p.

Definition trim_suffix (s p : string) : string :=
  if has_suffix s p then take (String.length s - String.length p) s else s.

Definition trim_prefix (s p : string) : string :=
  if has_prefix s p then drop (String.length p) s else s.

Fixpoint contains (s sub : string) : bool :=
  has_prefix s sub ||
  match s with
  | EmptyString => false
  | String _ s' => contains s' sub
  end.

(** [strings.Cut(s, string(sep))] for a one-byte separator. *)
Fixpoint cut (sep : ascii) (s : string) : option (string * string) :=
  match s with
  | EmptyString => None
  | String c s' =>
      if Ascii.eqb c sep then Some ("", s')
      else match cut sep s' with
           | Some (a, b) => Some (String c a, b)
           | None => None
           end
  end.

(** [before, after, _ := strings.Cut(s, sep)]: all of [s] when absent. *)
Definition cut_or_all (sep : ascii) (s : string) : string * string :=
  match cut sep s with Some ab => ab | None => (s, "") end.

(** [strings.Split(s, string(sep))]: never empty. *)
Fixpoint split (sep : ascii) (s : string) : list string :=
  match s with
  | EmptyString => [""]
  | String c s' =>
      if Ascii.eqb c sep then "" :: split sep s'
      else match split sep s' with
           | [] => [String c ""]
           | x :: xs => String c x :: xs
           end
  end.

Fixpoint join (sep : string) (l : list string) : string :=
  match l with
  | [] => ""
  | [x] => x
  | x :: xs => x +:+ sep +:+ join sep xs
  end.

(** [strings.Index] and [strings.LastIndex] of one byte. *)
Fixpoint index (c : ascii) (s : string) : option nat :=
  match s with
  | EmptyString => None
  | String d s' => if Ascii.eqb c d then Some O else S <$> index c s'
  end.

Fixpoint last_index (c : ascii) (s : string) : option nat :=
  match s with
  | EmptyString => None
  | String d s' =>
      match last_index c s' with
      | Some i => Some (S i)
      | None => if Ascii.eqb c d then Some O else None
      end
  end.

Fixpoint count (c : ascii) (s : string) : nat :=
  match s with
  | EmptyString => O
  | String d s' => ((if Ascii.eqb c d then 1 else 0) + count c s')%nat
  end.

Definition contains_byte (c : ascii) (s : string) : bool :=
  match index c s with Some _ => true | None => false end.

(** [strings.Trim] with a cutset of ASCII bytes. *)
Fixpoint trim_left_set (cutset s : string) : string :=
  match s with
  | String c s' => if contains_byte c cutset then trim_left_set cutset s' else s
  | EmptyString => ""
  end.

Fixpoint trim_right_set (cutset s : string) : string :=
  match s with
  | String c s' =>
      let s2 := trim_right_set cutset s' in
      if contains_byte c cutset && String.eqb s2 "" then "" else String c s2
  | EmptyString => ""
  end.

Definition trim_set (cutset s : string) : string := trim_right_set cutset (trim_left_set cutset s).

Lemma trim_set_empty cutset s :
  trim_set cutset s = "" ↔ all_bytes (λ c, contains_byte c cutset) s = true.
Proof.
  assert (Hr : ∀ s, trim_right_set cutset s = "" ↔ all_bytes (λ c, contains_byte c cutset) s = true).
  { induction s0 as [|c s0 IH]; [done|]. cbn. destruct (contains_byte c cutset); [|done].
    cbn [andb]. destruct (String.eqb_spec (trim_right_set cutset s0) "") as [E|E]; [by rewrite <- IH|].
    split; [done|]. by intros H%IH. }
  unfold trim_set. rewrite Hr. clear Hr. induction s as [|c s IH]; [done|].
  cbn. destruct (contains_byte c cutset) eqn:E; cbn; by rewrite ?E.
Qed.

Lemma has_prefix_spec s p : has_prefix s p = true ↔ ∃ t, s = p +:+ t.
Proof.
  revert s. induction p as [|c p IH]; intros s; simpl.
  - split; [eexists; done|by destruct s].
  - destruct s as [|d s]; simpl; [naive_solver|].
    rewrite andb_true_iff, IH, Ascii.eqb_eq. naive_solver.
Qed.

Lemma contains_has_prefix s p : has_prefix s p = true → contains s p = true.
Proof. intros H. destruct s; cbn [contains]; by rewrite H. Qed.

Lemma cut_spec sep s a b :
  cut sep s = Some (a, b) ↔
  s = a +:+ String sep b ∧ all_bytes (λ c, negb (Ascii.eqb c sep)) a = true.
Proof.
  revert a b. induction s as [|c s IH]; intros a b; simpl.
  - split; [done|]. intros [Hs _]. by destruct a.
  - destruct (Ascii.eqb_spec c sep) as [->|Hne].
    + split; [intros [= <- <-]; done|].
      intros [Hs Ha]. destruct a as [|d a]; simpl in *; simplify_eq; [done|].
      by rewrite Ascii.eqb_refl in Ha.
    + split.
      * destruct (cut sep s) as [[a' b']|]; [|done]. intros [= <- <-].
        destruct (proj1 (IH a' b') eq_refl) as [-> Ha]. simpl.
        rewrite Ha, andb_true_r. split; [done|].
        by apply negb_true_iff, Ascii.eqb_neq.
      * intros [Hs Ha]. destruct a as [|d a]; simpl in *; simplify_eq.
        apply andb_true_iff in Ha as [_ Ha].
        by rewrite (proj2 (IH a b)).
Qed.

Lemma cut_none sep s :
  cut sep s = None ↔ all_bytes (λ c, negb (Ascii.eqb c sep)) s = true.
Proof.
  induction s as [|c s IH]; simpl; [done|].
  destruct (Ascii.eqb c sep); simpl; [done|].
  destruct (cut sep s) as [[]|]; naive_solver.
Qed.

Lemma split_cons sep s : ∃ x xs, split sep s = x :: xs.
Proof.
  destruct s as [|c s]; simpl; [by eexists _, _|].
  destruct (Ascii.eqb c sep); [by eexists _, _|].
  destruct (split sep s); by eexists _, _.
Qed.

(** Splitting and joining are inverse. *)
Lemma join_split sep s : join (String sep "") (split sep s) = s.
Proof.
  induction s as [|c s IH]; [done|]. simpl.
  destruct (split_cons sep s) as (x & xs & Hs). rewrite Hs in *.
  destruct (Ascii.eqb_spec c sep) as [->|Hne].
  - change (String sep (join (String sep "") (x :: xs)) = String sep s). by rewrite IH.
  - rewrite <-IH. by destruct xs.
Qed.

(** A suffix, as a split. *)
Lemma has_suffix_split s p : has_suffix s p = true → ∃ t, s = t +:+ p.
Proof.
  unfold has_suffix. rewrite andb_true_iff, String.eqb_eq. intros [_ Hs].
  exists (take (String.length s - String.length p) s).
  rewrite <- (take_drop (String.length s - String.length p) s) at 1. by rewrite Hs.
Qed.

Lemma has_suffix_app t p : has_suffix (t +:+ p) p = true.
Proof.
  unfold has_suffix. rewrite slen_app, Nat.add_sub, sdrop_app, String.eqb_refl, andb_true_r.
  apply Nat.leb_le. lia.
Qed.

End Strs.
Export Strs.

(** * Package [unicode/utf8] *)
Module Utf8.

Definition RuneError : Z := 65533.

Definition cont_byte (b : Z) : bool := (128 <=? b) && (b <=? 191).

(** [utf8.DecodeRuneInString] on a non-empty string: the rune and its width.
    An invalid sequence gives [(RuneError, 1)]. *)
Definition decode_rune (s : string) : Z * nat :=
  match s with
  | EmptyString => (RuneError, 0%nat)
  | String c0 s0 =>
    let b0 := byte c0 in
    if b0 <? 128 then (b0, 1%nat)
    else if (b0 <? 194) || (244 <? b0) then (RuneError, 1%nat)
    else match s0 with
    | EmptyString => (RuneError, 1%nat)
    | String c1 s1 =>
      let b1 := byte c1 in
      let lo := if b0 =? 224 then 160 else if b0 =? 240 then 144 else 128 in
      let hi := if b0 =? 237 then 159 else if b0 =? 244 then 143 else 191 in
      if (b1 <? lo) || (hi <? b1) then (RuneError, 1%nat)
      else if b0 <? 224 then ((Z.land b0 31) * 64 + Z.land b1 63, 2%nat)
      else match s1 with
      | EmptyString => (RuneError, 1%nat)
      | String c2 s2 =>
        let b2 := byte c2 in
        if negb (cont_byte b2) then (RuneError, 1%nat)
        else if b0 <? 240
        then ((Z.land b0 15) * 4096 + Z.land b1 63 * 64 + Z.land b2 63, 3%nat)
        else match s2 with
        | EmptyString => (RuneError, 1%nat)
        | String c3 _ =>
          let b3 := byte c3 in
          if negb (cont_byte b3) then (RuneError, 1%nat)
          else ((Z.land b0 7) * 262144 + Z.land b1 63 * 4096
                + Z.land b2 63 * 64 + Z.land b3 63, 4%nat)
        end
      end
    end
  end.

(** The runes that [for _, r := range s] visits, each with its width;
    [skip] bytes still belong to the rune decoded last. *)
Fixpoint runes_from (skip : nat) (s : string) : list (Z * nat) :=
  match s with
  | EmptyString => []
  | String _ s' =>
      match skip with
      | S k => runes_from k s'
      | O => let rw := decode_rune s in rw :: runes_from (snd rw - 1) s'
      end
  end.

Definition runes (s : string) : list Z := fst <$> runes_from 0 s.

(** [utf8.Valid]: no decoding step hits an invalid sequence. *)
Definition valid (s : string) : bool :=
  forallb (λ rw, negb ((fst rw =? RuneError) && (snd rw =? 1)%nat)) (runes_from 0 s).

(** [utf8.RuneStart] *)
Definition rune_start (b : Z) : bool := negb (Z.land b 192 =? 128).

(** [utf8.DecodeLastRuneInString] on [s]: search back for a start byte over at
    most [utf8.UTFMax] bytes, and accept it when its rune ends [s]. *)
Fixpoint last_start (fuel : nat) (s : string) (start : nat) : nat :=
  match fuel, start with
  | S f, S p =>
      match drop start s with
      | String c _ => if rune_start (byte c) then start else last_start f s p
      | EmptyString => last_start f s p
      end
  | _, _ => start
  end.

Definition decode_last_rune (s : string) : Z * nat :=
  let n := String.length s in
  match drop (n - 1) s with
  | EmptyString => (RuneError, 0%nat)
  | String c _ =>
      if byte c <? 128 then (byte c, 1%nat)
      else let start := last_start 3 s (n - 1 - 1) in
           let '(r, w) := decode_rune (drop start s) in
           if (start + w =? n)%nat then (r, w) else (RuneError, 1%nat)
  end.

Lemma runes_from_ascii s :
  all_bytes (λ c, byte c <? 128) s = true →
  runes_from 0 s = (λ c, (byte c, 1%nat)) <$> String.list_ascii_of_string s.
Proof.
  induction s as [|c s IH]; [done|]. simpl.
  intros [Hc Hs]%andb_true_iff. rewrite Hc. simpl. by rewrite IH.
Qed.

Lemma valid_ascii s : all_bytes (λ c, byte c <? 128) s = true → valid s = true.
Proof.
  intros Hs. unfold valid. rewrite runes_from_ascii by done.
  apply forallb_forall. intros [r w] Hin.
  apply in_map_iff in Hin as (c & [= <- <-] & Hc). simpl.
  rewrite andb_true_r, negb_true_iff, Z.eqb_neq.
  pose proof (byte_range c). unfold RuneError. lia.
Qed.

End Utf8.

(** * Package [unicode], and the [strings] functions built on it *)
Module Unicode.
Import Utf8.

(** [unicode.IsControl]: category Cc lies within Latin-1. *)
Definition is_control (r : Z) : bool :=
  ((0 <=? r) && (r <=? 31)) || ((127 <=? r) && (r <=? 159)).

(** [unicode.IsSpace]: the White_Space property. *)
Definition is_space (r : Z) : bool :=
  ((9 <=? r) && (r <=? 13)) || (r =? 32) || (r =? 133) || (r =? 160) ||
  (r =? 5760) || ((8192 <=? r) && (r <=? 8202)) || (r =? 8232) || (r =? 8233) ||
  (r =? 8239) || (r =? 8287) || (r =? 12288).

(** [strings.TrimLeftFunc(s, unicode.IsSpace)] *)
Fixpoint trim_left_fuel (fuel : nat) (s : string) : string :=
  match fuel with
  | O => s
  | S f =>
      match s with
      | EmptyString => ""
      | String _ _ =>
          let '(r, w) := decode_rune s in
          if is_space r then trim_left_fuel f (drop w s) else s
      end
  end.

(** [strings.TrimRightFunc(s, unicode.IsSpace)] *)
Fixpoint trim_right_fuel (fuel : nat) (s : string) : string :=
  match fuel with
  | O => s
  | S f =>
      match s with
      | EmptyString => ""
      | String _ _ =>
          let '(r, w) := decode_last_rune s in
          if is_space r then trim_right_fuel f (take (String.length s - w) s) else s
      end
  end.

(** [strings.TrimSpace]: every step drops at least one byte, so the length is
    enough fuel. *)
Definition trim_space (s : string) : string :=
  let l := trim_left_fuel (String.length s) s in
  trim_right_fuel (String.length l) l.

Definition rune_lower (tables : UnicodeTables) (r : Z) : Z :=
  if r <? 128 then (if (65 <=? r) && (r <=? 90) then r + 32 else r)
  else rune_to_lower r.

(** [utf8.AppendRune] *)
Definition encode_rune (r : Z) : string :=
  if (0 <=? r) && (r <? 128) then String (chr r) ""
  else if (0 <=? r) && (r <? 2048) then
    String (chr (192 + Z.shiftr r 6)) (String (chr (128 + Z.land r 63)) "")
  else
    let r := if (r <? 0) || (1114111 <? r) || ((55296 <=? r) && (r <=? 57343))
             then RuneError else r in
    if r <? 65536 then
      String (chr (224 + Z.shiftr r 12))
        (String (chr (128 + Z.land (Z.shiftr r 6) 63))
           (String (chr (128 + Z.land r 63)) ""))
    else
      String (chr (240 + Z.shiftr r 18))
        (String (chr (128 + Z.land (Z.shiftr r 12) 63))
           (String (chr (128 + Z.land (Z.shiftr r 6) 63))
              (String (chr (128 + Z.land r 63)) ""))).

Definition concat_strings (l : list string) : string := foldr String.append "" l.

(** [strings.ToLower] *)
Definition to_lower {tables : UnicodeTables} (s : string) : string :=
  concat_strings (encode_rune ∘ rune_lower tables <$> runes s).

(** The loop over [unicode.SimpleFold]: [for r != sr && r < tr].  Orbits have
    at most four members (K, k, KELVIN SIGN; theta and its three relatives). *)
Fixpoint fold_orbit {tables : UnicodeTables} (fuel : nat) (sr tr r : Z) : Z :=
  match fuel with
  | O => r
  | S f => if negb (r =? sr) && (r <? tr) then fold_orbit f sr tr (simple_fold r) else r
  end.

(** One step of [strings.EqualFold] on a pair of runes. *)
Definition fold_eq {tables : UnicodeTables} (a b : Z) : bool :=
  let sr := Z.min a b in
  let tr := Z.max a b in
  if a =? b then true
  else if tr <? 128 then (65 <=? sr) && (sr <=? 90) && (tr =? sr + 32)
  else fold_orbit 4 sr tr (simple_fold sr) =? tr.

(** [strings.EqualFold].  The ASCII fast path of the library computes the same
    comparison rune by rune. *)
Fixpoint fold_eq_runes {tables : UnicodeTables} (a b : list Z) : bool :=
  match a, b with
  | [], [] => true
  | x :: a', y :: b' => fold_eq x y && fold_eq_runes a' b'
  | _, _ => false
  end.

Definition equal_fold {tables : UnicodeTables} (s t : string) : bool :=
  fold_eq_runes (runes s) (runes t).

Definition hex_digit (z : Z) : ascii := chr (if z <? 10 then 48 + z else 87 + z).

Fixpoint hex_digits (n : nat) (z : Z) : string :=
  match n with
  | O => ""
  | S n' => hex_digits n' (z / 16) +:+ String (hex_digit (z mod 16)) ""
  end.

Definition is_print {tables : UnicodeTables} (r : Z) : bool :=
  if r <? 128 then (32 <=? r) && (r <? 127) else rune_is_print r.

Definition backslash : ascii := "\"%char.

(** [strconv.appendEscapedRune] for the quote character [034]. *)
Definition escape_rune {tables : UnicodeTables} (r : Z) : string :=
  if (r =? 34) || (r =? 92) then String backslash (String (chr r) "")
  else if is_print r then encode_rune r
  else if r =? 7 then "\a"
  else if r =? 8 then "\b"
  else if r =? 12 then "\f"
  else if r =? 10 then "\n"
  else if r =? 13 then "\r"
  else if r =? 9 then "\t"
  else if r =? 11 then "\v"
  else if (r <? 32) || (r =? 127) then "\x" +:+ hex_digits 2 r
  else if r <? 65536 then "\u" +:+ hex_digits 4 r
  else "\U" +:+ hex_digits 8 r.

Fixpoint quote_body {tables : UnicodeTables} (skip : nat) (s : string) : string :=
  match s with
  | EmptyString => ""
  | String c s' =>
      match skip with
      | S k => quote_body k s'
      | O =>
          let '(r, w) := decode_rune s in
          (if (r =? RuneError) && (w =? 1)%nat
           then "\x" +:+ hex_digits 2 (byte c) else escape_rune r)
          +:+ quote_body (w - 1) s'
      end
  end.

(** [fmt.Sprintf("%q", s)] *)
Definition quote {tables : UnicodeTables} (s : string) : string :=
  String "034" (quote_body 0 s) +:+ String "034" "".

Lemma fold_eq_refl {tables : UnicodeTables} a : fold_eq a a = true.
Proof. unfold fold_eq. by rewrite Z.eqb_refl. Qed.

Lemma equal_fold_refl {tables : UnicodeTables} s : equal_fold s s = true.
Proof.
  unfold equal_fold. induction (runes s) as [|r rs IH]; simpl; [done|].
  by rewrite fold_eq_refl, IH.
Qed.

Lemma fold_eq_sym {tables : UnicodeTables} a b : fold_eq a b = fold_eq b a.
Proof. unfold fold_eq. by rewrite (Z.eqb_sym a b), (Z.min_comm a b), (Z.max_comm a b). Qed.

Lemma equal_fold_sym {tables : UnicodeTables} s t : equal_fold s t = equal_fold t s.
Proof.
  unfold equal_fold. generalize (runes s) as a, (runes t) as b.
  induction a as [|x a IH]; intros [|y b]; simpl; try done.
  by rewrite fold_eq_sym, IH.
Qed.

(** A string of printable ASCII has no byte that any of the above touches. *)
Definition plain (s : string) : bool :=
  all_bytes (λ c, (33 <=? byte c) && (byte c <=? 126)) s.

Lemma trim_left_plain n c s :
  33 ≤ byte c ≤ 126 → trim_left_fuel n (String c s) = String c s.
Proof.
  intros Hc. destruct n as [|n]; [done|]. simpl.
  destruct (Z.ltb_spec (byte c) 128); [|lia]. unfold is_space.
  destruct (_ || _)%bool eqn:E; [|done]. exfalso.
  rewrite ?orb_true_iff, ?andb_true_iff, ?Z.leb_le, ?Z.eqb_eq in E. lia.
Qed.

Lemma trim_left_shorter n s :
  trim_left_fuel n s = s ∨ (String.length (trim_left_fuel n s) < String.length s)%nat.
Proof.
  revert s. induction n as [|n IH]; intros s; [by left|]. destruct s as [|c s]; [by left|].
  cbn [trim_left_fuel]. destruct (decode_rune (String c s)) as [r w].
  destruct (is_space r); [|by left].
  destruct w as [|w]; [destruct (IH (String c s)) as [E|E]; cbn [drop]; [left|right]; done|].
  right. cbn [drop String.length]. pose proof (slen_drop w s).
  destruct (IH (drop w s)) as [E|E]; [rewrite E|]; lia.
Qed.

Lemma trim_right_length n s : (String.length (trim_right_fuel n s) ≤ String.length s)%nat.
Proof.
  revert s. induction n as [|n IH]; intros s; [done|]. destruct s as [|c s]; [done|].
  cbn [trim_right_fuel]. destruct (decode_last_rune (String c s)) as [r w].
  destruct (is_space r); [|done].
  specialize (IH (take (String.length (String c s) - w) (String c s))).
  rewrite slen_take in IH. lia.
Qed.

Lemma decode_last_ascii t c : byte c < 128 → decode_last_rune (t +:+ String c "") = (byte c, 1%nat).
Proof.
  intros Hc. unfold decode_last_rune. rewrite slen_app. cbn [String.length].
  rewrite Nat.add_sub, sdrop_app. by rewrite (proj2 (Z.ltb_lt _ _) Hc).
Qed.

(** What survives [strings.TrimSpace] unchanged does not end in an ASCII
    space. *)
Lemma trimmed_end t c : byte c < 128 → is_space (byte c) = true →
  trim_space (t +:+ String c "") ≠ t +:+ String c "".
Proof.
  intros Hc Hsp. unfold trim_space. cbv zeta. set (s := t +:+ String c "").
  destruct (trim_left_shorter (String.length s) s) as [E|E].
  - rewrite E. destruct s as [|d s'] eqn:Es; [by destruct t|].
    cbn [String.length trim_right_fuel]. rewrite <- Es. unfold s in *.
    rewrite decode_last_ascii, Hsp by done. intros Heq%(f_equal String.length).
    match type of Heq with String.length (trim_right_fuel ?n ?x) = _ =>
      pose proof (trim_right_length n x) as Hl end.
    rewrite Heq, slen_take, Es in Hl. cbn [String.length] in Hl. lia.
  - intros Heq%(f_equal String.length).
    match type of Heq with String.length (trim_right_fuel ?n ?x) = _ =>
      pose proof (trim_right_length n x) as Hl end. lia.
Qed.

Example trim_space_ex :
  trim_space (String "032" (String "009" "a b") +:+ String "010" "") = "a b".
Proof. reflexivity. Qed.

Example trim_space_nbsp :
  trim_space (String "194" (String "160" "x")) = "x".
Proof. reflexivity. Qed.

End Unicode.
Export Unicode.

(** * Facts on all bytes, by enumeration *)

Definition all_ascii : list ascii := ascii_of_nat <$> seq 0 256.

Lemma ascii_forall (P : ascii → bool) : forallb P all_ascii = true → ∀ c, P c = true.
Proof.
  rewrite forallb_forall. intros H c. apply H, list_elem_of_In. unfold all_ascii.
  apply list_elem_of_fmap. exists (nat_of_ascii c). split; [by rewrite ascii_nat_embedding|].
  apply elem_of_seq. pose proof (nat_ascii_bounded c). lia.
Qed.

Lemma ascii_impl (P Q : ascii → bool) :
  forallb (λ c, negb (P c) || Q c) all_ascii = true → ∀ c, P c = true → Q c = true.
Proof. intros H c Hc. pose proof (ascii_forall _ H c) as H'. cbn in H'. by rewrite Hc in H'. Qed.

(** * Searching a byte *)

Definition free (sep : ascii) (s : string) : bool := all_bytes (λ c, negb (Ascii.eqb c sep)) s.

Lemma free_app sep s t : free sep (s +:+ t) = free sep s && free sep t.
Proof. apply all_bytes_app. Qed.

Lemma cut_app sep a b : free sep a = true → cut sep (a +:+ String sep b) = Some (a, b).
Proof. intros H. by apply cut_spec. Qed.

Lemma cut_free sep s : free sep s = true → cut_or_all sep s = (s, "").
Proof. intros H. unfold cut_or_all. by rewrite (proj2 (cut_none sep s)). Qed.

Lemma free_cons sep c s : free sep (String c s) = true ↔ c ≠ sep ∧ free sep s = true.
Proof. unfold free. cbn. rewrite andb_true_iff, negb_true_iff, Ascii.eqb_neq. done. Qed.

Lemma index_app sep a b : free sep a = true →
  index sep (a +:+ String sep b) = Some (String.length a).
Proof.
  induction a as [|c a IH]; cbn; [by rewrite Ascii.eqb_refl|].
  intros [Hc Ha]%free_cons. rewrite (proj2 (Ascii.eqb_neq sep c)) by congruence.
  by rewrite IH.
Qed.

Lemma last_index_free sep s : free sep s = true → last_index sep s = None.
Proof.
  induction s as [|c s IH]; [done|]. intros [Hc Hs]%free_cons. cbn. rewrite IH by done.
  by rewrite (proj2 (Ascii.eqb_neq sep c)) by congruence.
Qed.

Lemma last_index_app sep a b : free sep b = true →
  last_index sep (a +:+ String sep b) = Some (String.length a).
Proof.
  intros Hb. induction a as [|c a IH]; cbn.
  - by rewrite last_index_free, Ascii.eqb_refl.
  - by rewrite IH.
Qed.

Lemma last_index_none sep s : last_index sep s = None → free sep s = true.
Proof.
  induction s as [|c s IH]; [done|]. cbn. destruct (last_index sep s); [done|].
  destruct (Ascii.eqb_spec sep c) as [|Hc]; [done|]. intros _. apply free_cons. by split; [|apply IH].
Qed.

Lemma last_index_split sep s : ∀ i, last_index sep s = Some i →
  ∃ a b, s = a +:+ String sep b ∧ String.length a = i ∧ free sep b = true.
Proof.
  induction s as [|c s IH]; intros i; [done|]. cbn.
  destruct (last_index sep s) as [j|] eqn:Hj.
  - intros [= <-]. destruct (IH j eq_refl) as (a & b & -> & <- & Hb). by exists (String c a), b.
  - destruct (Ascii.eqb_spec sep c) as [<-|]; [|done]. intros [= <-].
    exists "", s. split_and!; [done..|]. by apply last_index_none.
Qed.

Lemma take_S_app a c b : take (S (String.length a)) (a +:+ String c b) = a +:+ String c "".
Proof. induction a as [|d a IH]; [by destruct b|]. cbn in *. by rewrite IH. Qed.

Lemma contains_byte_free c s : free c s = true → contains_byte c s = false.
Proof.
  unfold contains_byte. induction s as [|d s IH]; [done|]. intros [Hd Hs]%free_cons. cbn.
  rewrite (proj2 (Ascii.eqb_neq c d)) by congruence. by destruct (index c s); [apply IH in Hs|].
Qed.

Lemma sdrop_app_S s c t : drop (S (String.length s)) (s +:+ String c t) = t.
Proof. induction s as [|d s IH]; [by destruct t|exact IH]. Qed.

Lemma has_suffix_free c s t : free c t = true → t ≠ "" → has_suffix (s +:+ t) (String c "") = false.
Proof.
  intros Ht Hne. unfold has_suffix. cbn [String.length].
  rewrite andb_false_iff. right. apply String.eqb_neq.
  assert (Hx : ∃ u d, t = u +:+ String d "" ∧ d ≠ c).
  { clear s. induction t as [|d t IH]; [done|]. apply free_cons in Ht as [Hd Ht].
    destruct t as [|e t].
    - by exists "", d.
    - destruct IH as (u & d' & Hu & Hd'); [done|done|]. exists (String d u), d'.
      by rewrite Hu. }
  destruct Hx as (u & d & -> & Hd). rewrite <- sapp_assoc, slen_app. cbn [String.length].
  rewrite Nat.add_sub, sdrop_app. congruence.
Qed.

Lemma has_prefix_empty s : has_prefix s "" = true.
Proof. by destruct s. Qed.

(** Normalize a concatenation. *)
Ltac sapp := repeat (progress (rewrite ?sapp_assoc, ?sapp_nil_r; cbn [String.append])).

(** * Splitting *)

Lemma split_free sep s : free sep s = true → split sep s = [s].
Proof.
  induction s as [|c s IH]; [done|]. intros [Hc Hs]%free_cons. cbn.
  rewrite (proj2 (Ascii.eqb_neq c sep)) by congruence. by rewrite IH.
Qed.

Lemma split_app sep a b : split sep (a +:+ String sep b) = (split sep a ++ split sep b)%list.
Proof.
  induction a as [|c a IH]; cbn; [by rewrite Ascii.eqb_refl|].
  rewrite IH. destruct (Ascii.eqb c sep); [done|].
  by destruct (split_cons sep a) as (x & xs & ->).
Qed.

Lemma split_join sep l : l ≠ [] → Forall (λ s, free sep s = true) l →
  split sep (join (String sep "") l) = l.
Proof.
  intros Hne Hl. induction Hl as [|s l Hs Hl IH]; [done|]. destruct l as [|s' l].
  - by apply split_free.
  - change (join (String sep "") (s :: s' :: l)) with
      (s +:+ String sep (join (String sep "") (s' :: l))).
    rewrite split_app, split_free, IH by done. done.
Qed.

(** The names of a split hold no separator. *)
Lemma split_all_free sep s : Forall (λ x, free sep x = true) (split sep s).
Proof.
  induction s as [|c s IH]; [by repeat constructor|]. cbn.
  destruct (Ascii.eqb c sep) eqn:E; [by constructor|].
  destruct (split_cons sep s) as (x & xs & Hx). rewrite Hx in *.
  apply Forall_cons in IH as [Hf Hfs]. constructor; [|done].
  apply free_cons. split; [by apply Ascii.eqb_neq|done].
Qed.
