(* ===== verification/Strconv.v ===== *)
(** Package [strconv]: [Itoa]/[FormatInt], [Atoi]/[ParseInt] in base ten and
    [FormatBool], with the round trip that makes the default of an absent
    integer setting come back unchanged. *)
From S2P Require Import Prelude GoStrings.

Local Open Scope string_scope.
Local Open Scope Z_scope.

Definition is_digit (c : ascii) : bool := (48 <=? byte c) && (byte c <=? 57).
Definition digit_value (c : ascii) : Z := byte c - 48.
Definition digit_char (d : Z) : ascii := chr (48 + d).

(** Decimal digits of [n >= 0], most significant first, in front of [acc]. *)
Fixpoint dec_fuel (fuel : nat) (n : Z) (acc : string) : string :=
  match fuel with
  | O => acc
  | S f =>
      let acc' := String (digit_char (n mod 10)) acc in
      if n <? 10 then acc' else dec_fuel f (n / 10) acc'
  end.

(** [n] has at most [log2 n + 1] decimal digits. *)
Definition format_uint (n : Z) : string := dec_fuel (S (Z.to_nat (Z.log2 n))) n "".

(** [strconv.Itoa], [strconv.FormatInt(z, 10)] *)
Definition itoa (z : Z) : string :=
  if z <? 0 then String "-" (format_uint (- z)) else format_uint z.

(** Value of a digit string read after [acc]; [None] on a non-digit. *)
Fixpoint digits_value (acc : Z) (s : string) : option Z :=
  match s with
  | EmptyString => Some acc
  | String c s' =>
      if is_digit c then digits_value (acc * 10 + digit_value c) s' else None
  end.

(** [strconv.ParseInt(s, 10, 64)] and, on a 64-bit [int], [strconv.Atoi]:
    an optional sign, one or more digits, a value of the type. *)
Definition parse_int (s : string) : option Z :=
  let '(neg, ds) :=
    match s with
    | String c s' =>
        if Ascii.eqb c "-" then (true, s')
        else if Ascii.eqb c "+" then (false, s') else (false, s)
    | EmptyString => (false, s)
    end in
  if String.eqb ds "" then None
  else match digits_value 0 ds with
       | None => None
       | Some n =>
           let z := if neg : bool then - n else n in
           if (int64_min <=? z) && (z <=? int64_max) then Some z else None
       end.

Definition format_bool (b : bool) : string := if b then "true" else "false".

Lemma digit_char_digit d : 0 ≤ d < 10 →
  is_digit (digit_char d) = true ∧ digit_value (digit_char d) = d.
Proof.
  intros Hd. unfold is_digit, digit_value, digit_char.
  rewrite byte_chr by lia. rewrite andb_true_iff, !Z.leb_le. lia.
Qed.

Lemma digits_value_cons a d s : 0 ≤ d < 10 →
  digits_value a (String (digit_char d) s) = digits_value (a * 10 + d) s.
Proof.
  intros Hd. destruct (digit_char_digit d Hd) as [H1 H2].
  simpl. by rewrite H1, H2.
Qed.

Lemma digits_value_dec fuel n acc :
  0 ≤ n < 10 ^ Z.of_nat fuel →
  digits_value 0 (dec_fuel fuel n acc) = digits_value n acc.
Proof.
  revert n acc. induction fuel as [|fuel IH]; intros n acc Hn.
  { simpl in *. by assert (n = 0) as -> by lia. }
  cbn [dec_fuel]. pose proof (Z.mod_pos_bound n 10 ltac:(lia)) as Hm.
  destruct (Z.ltb_spec n 10) as [Hlt|Hge].
  - rewrite digits_value_cons by done. f_equal.
    rewrite Z.mod_small by lia. lia.
  - rewrite IH.
    + rewrite digits_value_cons by done. f_equal.
      rewrite (Z.div_mod n 10) at 3 by lia. lia.
    + rewrite Nat2Z.inj_succ, Z.pow_succ_r in Hn by lia.
      split; [apply Z.div_pos; lia|]. apply Z.div_lt_upper_bound; lia.
Qed.

Lemma pow2_le_pow10 n : 0 ≤ n → 2 ^ n ≤ 10 ^ n.
Proof. intros Hn. apply Z.pow_le_mono_l. lia. Qed.

Lemma digits_value_format n acc :
  0 ≤ n → digits_value 0 (dec_fuel (S (Z.to_nat (Z.log2 n))) n acc) = digits_value n acc.
Proof.
  intros Hn. apply digits_value_dec. split; [done|].
  rewrite Nat2Z.inj_succ, Z2Nat.id by apply Z.log2_nonneg.
  eapply Z.lt_le_trans; [|apply pow2_le_pow10; pose proof (Z.log2_nonneg n); lia].
  destruct (Z.eq_dec n 0) as [->|]; [done|]. apply Z.log2_spec. lia.
Qed.

Lemma dec_fuel_digits fuel n acc :
  0 ≤ n → all_bytes is_digit acc = true → all_bytes is_digit (dec_fuel fuel n acc) = true.
Proof.
  revert n acc. induction fuel as [|fuel IH]; intros n acc Hn Hacc; [done|].
  cbn [dec_fuel]. pose proof (Z.mod_pos_bound n 10 ltac:(lia)) as Hm.
  assert (all_bytes is_digit (String (digit_char (n mod 10)) acc) = true) as Hd.
  { simpl. by rewrite (proj1 (digit_char_digit _ Hm)). }
  destruct (n <? 10); [done|]. apply IH; [apply Z.div_pos; lia|done].
Qed.

Lemma format_uint_digits n : 0 ≤ n → all_bytes is_digit (format_uint n) = true.
Proof. intros Hn. by apply dec_fuel_digits. Qed.

Lemma dec_fuel_length fuel n acc :
  (String.length acc ≤ String.length (dec_fuel fuel n acc))%nat.
Proof.
  revert n acc. induction fuel as [|fuel IH]; intros n acc; [done|]. cbn [dec_fuel].
  destruct (n <? 10); simpl; [lia|].
  specialize (IH (n / 10) (String (digit_char (n mod 10)) acc)). simpl in IH. lia.
Qed.

Lemma dec_fuel_nonempty fuel n acc :
  (String.length acc < String.length (dec_fuel (S fuel) n acc))%nat.
Proof.
  cbn [dec_fuel]. destruct (n <? 10); simpl; [lia|].
  pose proof (dec_fuel_length fuel (n / 10) (String (digit_char (n mod 10)) acc)) as H.
  simpl in H. lia.
Qed.

Lemma format_uint_nonempty n : format_uint n ≠ "".
Proof.
  intros H. pose proof (dec_fuel_nonempty (Z.to_nat (Z.log2 n)) n "") as Hl.
  unfold format_uint in H. rewrite H in Hl. simpl in Hl. lia.
Qed.

Lemma format_uint_head n : 0 ≤ n →
  ∃ c s, format_uint n = String c s ∧ is_digit c = true.
Proof.
  intros Hn. pose proof (format_uint_digits n Hn) as Hd.
  pose proof (format_uint_nonempty n) as Hne.
  destruct (format_uint n) as [|c s]; [done|].
  simpl in Hd. apply andb_true_iff in Hd as [Hc _]. by exists c, s.
Qed.

Lemma digit_not_sign c : is_digit c = true →
  Ascii.eqb c "-" = false ∧ Ascii.eqb c "+" = false.
Proof.
  unfold is_digit. rewrite andb_true_iff, !Z.leb_le. intros Hc.
  split; apply Ascii.eqb_neq; intros ->; exact (proj1 Hc eq_refl).
Qed.

(** [ParseInt (FormatInt z) = z] for every [int64]. *)
Lemma parse_int_itoa z : int64_min ≤ z ≤ int64_max → parse_int (itoa z) = Some z.
Proof.
  intros Hz. unfold parse_int, itoa. destruct (Z.ltb_spec z 0) as [Hneg|Hpos].
  - rewrite Ascii.eqb_refl.
    rewrite (proj2 (String.eqb_neq _ _) (format_uint_nonempty _)).
    unfold format_uint. rewrite digits_value_format by lia. cbn [digits_value].
    rewrite Z.opp_involutive. destruct (_ && _) eqn:E; [done|].
    apply andb_false_iff in E as [E|E]; zlia.
  - pose proof (digits_value_format z "" Hpos) as Hv. fold (format_uint z) in Hv.
    destruct (format_uint_head z Hpos) as (c & s & Hs & Hc). rewrite Hs in *.
    destruct (digit_not_sign c Hc) as [-> ->].
    rewrite Hv. cbn [digits_value String.eqb]. destruct (_ && _) eqn:E; [done|].
    apply andb_false_iff in E as [E|E]; zlia.
Qed.

Lemma parse_int_range s z : parse_int s = Some z → int64_min ≤ z ≤ int64_max.
Proof.
  unfold parse_int. intros H.
  destruct (match s with EmptyString => _ | _ => _ end) as [neg ds].
  destruct (String.eqb ds ""); [done|]. destruct (digits_value 0 ds); [|done].
  destruct (_ && _) eqn:E; [|done]. simplify_eq. zlia.
Qed.

Example parse_int_plus : parse_int "+42" = Some 42.
Proof. reflexivity. Qed.
Example parse_int_overflow : parse_int "9223372036854775808" = None.
Proof. reflexivity. Qed.
