(* ===== verification/Duration.v ===== *)
(** Package [time]: [Duration], its [String] method and [ParseDuration], at
    the width the library uses ([uint64] accumulators, [int64] result, IEEE
    double precision for fractions), with the round trip on the durations the
    configuration uses as defaults. *)
From Stdlib Require Import SpecFloat.
From S2P Require Import Prelude GoStrings Strconv.

Local Open Scope string_scope.
Local Open Scope Z_scope.

(** A [time.Duration]: nanoseconds, within [int64]. *)
Abbreviation Duration := Z (only parsing).

Definition Nanosecond : Duration := 1.
Definition Microsecond : Duration := 1000.
Definition Millisecond : Duration := 1000000.
Definition Second : Duration := 1000000000.
Definition Minute : Duration := 60 * Second.
Definition Hour : Duration := 60 * Minute.

Module Parse.

(** [leadingInt]: the digits in front of [s], [None] past [1 << 63]. *)
Fixpoint leading_int (x : Z) (s : string) : option (Z * string) :=
  match s with
  | String c s' =>
      if is_digit c then
        if 2 ^ 63 / 10 <? x then None
        else let y := x * 10 + digit_value c in
             if 2 ^ 63 <? y then None else leading_int y s'
      else Some (x, s)
  | EmptyString => Some (x, s)
  end.

(** [leadingFraction]: digits that would overflow are dropped; [scale] is a
    [float64] that only takes the values [10^k], [k <= 19], all exact. *)
Fixpoint leading_fraction (overflow : bool) (x scale : Z) (s : string) : Z * Z * string :=
  match s with
  | String c s' =>
      if is_digit c then
        if overflow then leading_fraction true x scale s'
        else if (2 ^ 63 - 1) / 10 <? x then leading_fraction true x scale s'
        else let y := x * 10 + digit_value c in
             if 2 ^ 63 <? y then leading_fraction true x scale s'
             else leading_fraction false y (scale * 10) s'
      else (x, scale, s)
  | EmptyString => (x, scale, s)
  end.

(** The unit: everything up to the next period or digit. *)
Fixpoint span_unit (s : string) : string * string :=
  match s with
  | String c s' =>
      if Ascii.eqb c "." || is_digit c then ("", s)
      else let '(u, r) := span_unit s' in (String c u, r)
  | EmptyString => ("", s)
  end.

(** [unitMap]; the two micro signs are U+00B5 and U+03BC. *)
Definition micro_sign : string := String "194" (String "181" "").
Definition greek_mu : string := String "206" (String "188" "").

Definition unit_of (u : string) : option Duration :=
  if String.eqb u "ns" then Some Nanosecond
  else if String.eqb u "us" then Some Microsecond
  else if String.eqb u (micro_sign +:+ "s") then Some Microsecond
  else if String.eqb u (greek_mu +:+ "s") then Some Microsecond
  else if String.eqb u "ms" then Some Millisecond
  else if String.eqb u "s" then Some Second
  else if String.eqb u "m" then Some Minute
  else if String.eqb u "h" then Some Hour
  else None.

(** IEEE 754 binary64, round to nearest even. *)
Definition float64 (z : Z) : spec_float := binary_normalize 53 1024 z 0 false.

(** [uint64(f)] of a non-negative double: truncation. *)
Definition truncate (f : spec_float) : Z :=
  match f with
  | S754_finite false m e => if 0 <=? e then Zpos m * 2 ^ e else Zpos m / 2 ^ (- e)
  | _ => 0
  end.

(** [uint64(float64(f) * (float64(unit) / scale))] *)
Definition fraction_ns (f unit scale : Z) : Z :=
  truncate (SFmul 53 1024 (float64 f) (SFdiv 53 1024 (float64 unit) (float64 scale))).

(** One [number unit] group: its nanoseconds and the rest of the input. *)
Definition group (s : string) : option (Z * string) :=
  match s with
  | EmptyString => None
  | String c _ =>
    if negb (Ascii.eqb c "." || is_digit c) then None else
    match leading_int 0 s with
    | None => None
    | Some (v, s1) =>
      let pre := negb (String.length s =? String.length s1)%nat in
      let '(f, scale, s2, post) :=
        match s1 with
        | String d s1' =>
            if Ascii.eqb d "." then
              let '(f, scale, r) := leading_fraction false 0 1 s1' in
              (f, scale, r, negb (String.length s1' =? String.length r)%nat)
            else (0, 1, s1, false)
        | EmptyString => (0, 1, s1, false)
        end in
      if negb pre && negb post then None else
      let '(u, s3) := span_unit s2 in
      if String.eqb u "" then None else
      match unit_of u with
      | None => None
      | Some unit =>
        if 2 ^ 63 / unit <? v then None else
        let v := v * unit in
        if 0 <? f then
          let v := v + fraction_ns f unit scale in
          if 2 ^ 63 <? v then None else Some (v, s3)
        else Some (v, s3)
      end
    end
  end.

(** The loop [for s != ""]; every group consumes a byte, so the length of the
    input is enough fuel. *)
Fixpoint groups (fuel : nat) (d : Z) (s : string) : option Z :=
  match s with
  | EmptyString => Some d
  | String _ _ =>
      match fuel with
      | O => None
      | S n =>
          match group s with
          | None => None
          | Some (v, s') =>
              let d := uint64 (d + v) in
              if 2 ^ 63 <? d then None else groups n d s'
          end
      end
  end.

Definition sign (s : string) : bool * string :=
  match s with
  | String c s' =>
      if Ascii.eqb c "-" || Ascii.eqb c "+" then (Ascii.eqb c "-", s') else (false, s)
  | EmptyString => (false, s)
  end.

End Parse.

(** [time.ParseDuration]; every error reads the same to the caller. *)
Definition parse_duration (orig : string) : option Duration :=
  let '(neg, s) := Parse.sign orig in
  if String.eqb s "0" then Some 0
  else if String.eqb s "" then None
  else match Parse.groups (String.length s) 0 s with
       | None => None
       | Some d =>
           if neg : bool then Some (- d)
           else if 2 ^ 63 - 1 <? d then None else Some d
       end.

Module Format.

(** [fmtFrac]: the [prec] last digits of [v] behind a period, trailing zeros
    and an all-zero fraction omitted, and [v / 10^prec]. *)
Fixpoint frac (prec : nat) (print : bool) (v : Z) (acc : string) : string * Z :=
  match prec with
  | O => (if print then String "." acc else acc, v)
  | S p =>
      let digit := v mod 10 in
      let print := print || negb (digit =? 0) in
      frac p print (v / 10) (if print then String (digit_char digit) acc else acc)
  end.

(** [time.Duration.String] *)
Definition duration (d : Duration) : string :=
  let neg := d <? 0 in
  let u := if neg then uint64 (- d) else d in
  if u =? 0 then "0s" else
  let body :=
    if u <? Second then
      let '(prec, suffix) :=
        if u <? Microsecond then (0%nat, "ns")
        else if u <? Millisecond then (3%nat, Parse.micro_sign +:+ "s")
        else (6%nat, "ms") in
      let '(acc, v) := frac prec false u suffix in
      format_uint v +:+ acc
    else
      let '(acc, secs) := frac 9 false u "s" in
      let out := format_uint (secs mod 60) +:+ acc in
      let mins := secs / 60 in
      if 0 <? mins then
        let out := format_uint (mins mod 60) +:+ String "m" out in
        let hours := mins / 60 in
        if 0 <? hours then format_uint hours +:+ String "h" out else out
      else out in
  if neg then String "-" body else body.

End Format.

Abbreviation show_duration := Format.duration.

Example show_60s : show_duration (60 * Second) = "1m0s". Proof. reflexivity. Qed.
Example show_100ms : show_duration (100 * Millisecond) = "100ms". Proof. reflexivity. Qed.
Example show_168h : show_duration (168 * Hour) = "168h0m0s". Proof. reflexivity. Qed.
Example show_frac : show_duration 1500000000 = "1.5s". Proof. reflexivity. Qed.
Example parse_frac : parse_duration "1.5h" = Some (90 * Minute). Proof. reflexivity. Qed.
Example parse_frac_inexact : parse_duration "0.1234567890123s" = Some 123456789.
Proof. reflexivity. Qed.
Example parse_min : parse_duration "-2562047h47m16.854775808s" = Some (- 2 ^ 63).
Proof. reflexivity. Qed.
Example parse_no_unit : parse_duration "5" = None. Proof. reflexivity. Qed.
Example parse_micro : parse_duration (String "." (String "5" (Parse.greek_mu +:+ "s"))) = Some 500.
Proof. reflexivity. Qed.

(** * Termination: a group consumes input, so the fuel is never short *)
Section consumption.
Import Parse.

Lemma leading_int_length x s v r :
  leading_int x s = Some (v, r) → (String.length r ≤ String.length s)%nat.
Proof.
  revert x. induction s as [|c s IH]; intros x; simpl; [naive_solver|].
  destruct (is_digit c); [|naive_solver].
  case_match; [done|]. case_match; [done|]. intros Hr%IH. lia.
Qed.

Lemma leading_fraction_length o x sc s v sc' r :
  leading_fraction o x sc s = (v, sc', r) → (String.length r ≤ String.length s)%nat.
Proof.
  revert o x sc. induction s as [|c s IH]; intros o x sc; simpl; [naive_solver|].
  destruct (is_digit c); [|naive_solver].
  repeat case_match; intros Hr%IH; lia.
Qed.

Lemma span_unit_length s u r :
  span_unit s = (u, r) → String.length s = (String.length u + String.length r)%nat.
Proof.
  revert u r. induction s as [|c s IH]; intros u r; simpl; [naive_solver|].
  case_match; [naive_solver|].
  destruct (span_unit s) as [u' r']. intros [= <- <-]. simpl. by rewrite (IH u' r').
Qed.

Lemma span_unit_nonempty s u r :
  span_unit s = (u, r) → u ≠ "" → (String.length r < String.length s)%nat.
Proof. intros H%span_unit_length Hu. destruct u; [done|]. simpl in H. lia. Qed.

Lemma group_consumes s v r :
  group s = Some (v, r) → (String.length r < String.length s)%nat.
Proof.
  destruct s as [|c s]; [done|]. unfold group.
  case_match; [done|].
  destruct (leading_int 0 _) as [[i s1]|] eqn:Hi; [|done].
  apply leading_int_length in Hi.
  destruct (match s1 with EmptyString => _ | _ => _ end) as [[[f sc] s2] post] eqn:Hf.
  assert (String.length s2 ≤ String.length s1)%nat as Hl.
  { destruct s1 as [|d s1']; [by simplify_eq|].
    destruct (Ascii.eqb d "."); [|by simplify_eq].
    destruct (leading_fraction _ _ _ _) as [[? ?] ?] eqn:E.
    apply leading_fraction_length in E. simplify_eq. simpl. lia. }
  destruct (negb (negb _) && _); [done|].
  destruct (span_unit s2) as [u s3] eqn:Hu.
  destruct (String.eqb_spec u "") as [|Hne]; [done|].
  apply span_unit_nonempty in Hu; [|done].
  intros Hres. repeat (case_match; try done); simplify_eq; lia.
Qed.

Lemma groups_fuel_irrelevant n f1 f2 d s :
  (String.length s ≤ n)%nat → (String.length s ≤ f1)%nat → (String.length s ≤ f2)%nat →
  groups f1 d s = groups f2 d s.
Proof.
  revert f1 f2 d s. induction n as [|n IH]; intros f1 f2 d [|c s] Hn H1 H2;
    [by destruct f1, f2|simpl in *; lia|by destruct f1, f2|].
  destruct f1 as [|f1], f2 as [|f2]; simpl in Hn, H1, H2; try lia.
  cbn [groups]. destruct (group (String c s)) as [[v r]|] eqn:Hg; [|done].
  apply group_consumes in Hg. simpl in Hg.
  case_match; [done|]. apply IH; lia.
Qed.

Lemma groups_fuel f d s :
  (String.length s ≤ f)%nat → groups f d s = groups (String.length s) d s.
Proof. intros Hf. by apply (groups_fuel_irrelevant (String.length s)). Qed.

Lemma groups_step d s v r :
  group s = Some (v, r) →
  groups (String.length s) d s =
  if 2 ^ 63 <? uint64 (d + v) then None
  else groups (String.length r) (uint64 (d + v)) r.
Proof.
  intros Hg. pose proof (group_consumes _ _ _ Hg) as Hl.
  destruct s as [|c s]; [done|]. cbn [groups String.length]. rewrite Hg.
  case_match; [done|]. apply groups_fuel. simpl in Hl. lia.
Qed.
End consumption.

(** * Round trip *)
Section roundtrip.
Import Parse Format.

Lemma dec_fuel_app fuel n a b :
  dec_fuel fuel n (a +:+ b) = dec_fuel fuel n a +:+ b.
Proof.
  revert n a. induction fuel as [|fuel IH]; intros n a; [done|]. cbn [dec_fuel].
  destruct (n <? 10); [done|]. by rewrite <-IH.
Qed.

Lemma leading_int_dec fuel n acc :
  0 ≤ n ≤ 2 ^ 63 → n < 10 ^ Z.of_nat fuel →
  leading_int 0 (dec_fuel fuel n acc) = leading_int n acc.
Proof.
  revert n acc. induction fuel as [|fuel IH]; intros n acc Hn Hf.
  { simpl in *. by assert (n = 0) as -> by lia. }
  cbn [dec_fuel]. pose proof (Z.mod_pos_bound n 10 ltac:(lia)) as Hm.
  pose proof (Z.div_mod n 10 ltac:(lia)) as Hdm.
  destruct (digit_char_digit _ Hm) as [Hd Hv].
  destruct (Z.ltb_spec n 10) as [Hlt|Hge].
  - cbn [leading_int]. rewrite Hd, Hv, Z.mod_small by lia.
    replace (0 * 10 + n) with n by lia. simpl (_ <? 0).
    destruct (Z.ltb_spec (2 ^ 63) n); [lia|done].
  - rewrite Nat2Z.inj_succ, Z.pow_succ_r in Hf by lia.
    rewrite IH; [|split; [apply Z.div_pos; lia|lia]|apply Z.div_lt_upper_bound; lia].
    cbn [leading_int]. rewrite Hd, Hv.
    destruct (Z.ltb_spec (2 ^ 63 / 10) (n / 10)) as [Hc|_].
    { pose proof (Z.div_le_mono n (2 ^ 63) 10). lia. }
    replace (n / 10 * 10 + n mod 10) with n by lia.
    destruct (Z.ltb_spec (2 ^ 63) n); [lia|done].
Qed.

Lemma log2_digits n : 0 ≤ n → n < 10 ^ Z.of_nat (S (Z.to_nat (Z.log2 n))).
Proof.
  intros Hn. rewrite Nat2Z.inj_succ, Z2Nat.id by apply Z.log2_nonneg.
  eapply Z.lt_le_trans; [|apply pow2_le_pow10; pose proof (Z.log2_nonneg n); lia].
  destruct (Z.eq_dec n 0) as [->|]; [done|]. apply Z.log2_spec. lia.
Qed.

Lemma leading_int_format n r :
  0 ≤ n ≤ 2 ^ 63 → leading_int 0 (format_uint n +:+ r) = leading_int n r.
Proof.
  intros Hn. unfold format_uint. rewrite <-dec_fuel_app. cbn [String.append].
  apply leading_int_dec; [done|apply log2_digits; lia].
Qed.

(** A string the scanner of a number stops at. *)
Definition stops (r : string) : bool :=
  match r with
  | EmptyString => true
  | String c _ => is_digit c
  end.

Definition unit_char (c : ascii) : bool := negb (Ascii.eqb c "." || is_digit c).

Lemma span_unit_app u r :
  all_bytes unit_char u = true → stops r = true → span_unit (u +:+ r) = (u, r).
Proof.
  intros Hu Hr. induction u as [|c u IH]; simpl in *.
  - destruct r as [|d r]; simpl in *; [done|]. by rewrite Hr, orb_true_r.
  - apply andb_true_iff in Hu as [Hc%negb_true_iff Hu]. rewrite Hc. by rewrite IH.
Qed.

Lemma group_whole n u unit r :
  0 ≤ n → unit_of u = Some unit → 0 < unit → n * unit ≤ 2 ^ 63 →
  all_bytes unit_char u = true → u ≠ "" → stops r = true →
  group (format_uint n +:+ (u +:+ r)) = Some (n * unit, r).
Proof.
  intros Hn Hu Hpos Hmax Hchars Hne Hr.
  assert (n ≤ 2 ^ 63) by nia.
  destruct u as [|uc u]; [done|]. pose proof Hchars as Hall.
  simpl in Hall. apply andb_true_iff in Hall as [Huc%negb_true_iff Hall].
  apply orb_false_iff in Huc as [Hdot Hdig].
  destruct (format_uint_head n Hn) as (c & s & Hs & Hc).
  assert (∀ t, String.length (format_uint n +:+ t) ≠ String.length t) as Hlen.
  { intros t. rewrite Hs, slen_app. simpl. lia. }
  unfold group. rewrite leading_int_format by lia.
  assert (leading_int n (String uc u +:+ r) = Some (n, String uc u +:+ r)) as ->
    by (simpl; by rewrite Hdig).
  rewrite (proj2 (Nat.eqb_neq _ _) (Hlen _)).
  rewrite Hs at 1. cbn [String.append]. rewrite Hc, orb_true_r, Hdot. cbn [negb andb].
  change (String uc (u +:+ r)) with (String uc u +:+ r).
  rewrite span_unit_app by done. rewrite Hu. cbn [String.eqb].
  destruct (Z.ltb_spec (2 ^ 63 / unit) n) as [Hov|_]; [|done].
  exfalso. apply (Z.lt_irrefl n). eapply Z.le_lt_trans; [|exact Hov].
  apply Z.div_le_lower_bound; lia.
Qed.
Lemma groups_whole d n u unit r :
  0 ≤ d → 0 ≤ n → unit_of u = Some unit → 0 < unit → d + n * unit < 2 ^ 63 →
  all_bytes unit_char u = true → u ≠ "" → stops r = true →
  groups (String.length (format_uint n +:+ (u +:+ r))) d (format_uint n +:+ (u +:+ r))
  = groups (String.length r) (d + n * unit) r.
Proof.
  intros Hd Hn Hu Hpos Hmax Hchars Hne Hr.
  rewrite (groups_step d _ (n * unit) r) by (apply group_whole; auto with lia).
  unfold uint64. rewrite Z.mod_small by nia.
  destruct (Z.ltb_spec (2 ^ 63) (d + n * unit)); [lia|done].
Qed.

Lemma frac_zero p v acc : frac p false (v * 10 ^ Z.of_nat p) acc = (acc, v).
Proof.
  revert v. induction p as [|p IH]; intros v.
  { simpl. by rewrite Z.mul_1_r. }
  cbn [frac]. rewrite Nat2Z.inj_succ, Z.pow_succ_r by lia.
  replace (v * (10 * 10 ^ Z.of_nat p)) with (v * 10 ^ Z.of_nat p * 10) by lia.
  rewrite Z.mod_mul, Z.div_mul by lia. simpl. apply IH.
Qed.

Lemma stops_format n r : 0 ≤ n → stops (format_uint n +:+ r) = true.
Proof. intros Hn. destruct (format_uint_head n Hn) as (c & s & -> & Hc). done. Qed.

(** Reading back a positive number of groups, whatever comes after the sign. *)
Lemma parse_groups n s d :
  0 ≤ n → s ≠ "" →
  groups (String.length (format_uint n +:+ s)) 0 (format_uint n +:+ s) = Some d →
  d < 2 ^ 63 → parse_duration (format_uint n +:+ s) = Some d.
Proof.
  intros Hn Hs Hg Hd. unfold parse_duration.
  destruct (format_uint_head n Hn) as (c & t & Hf & Hc). rewrite Hf in *.
  cbn [String.append] in *. destruct (digit_not_sign c Hc) as [Hm Hp].
  cbn [sign]. rewrite Hm, Hp. cbn [orb].
  destruct (String.eqb_spec (String c (t +:+ s)) "0") as [He|_].
  { injection He as -> He. destruct t, s; done. }
  cbn [String.eqb]. rewrite Hg. destruct (Z.ltb_spec (2 ^ 63 - 1) d); [lia|done].
Qed.

Lemma show_seconds k : 0 < k → k * Second < 2 ^ 63 →
  show_duration (k * Second) =
  let s := format_uint (k mod 60) +:+ "s" in
  if 0 <? k / 60 then
    let m := format_uint ((k / 60) mod 60) +:+ String "m" s in
    if 0 <? k / 60 / 60 then format_uint (k / 60 / 60) +:+ String "h" m else m
  else s.
Proof.
  intros Hk Hmax. unfold Format.duration, Second in *.
  destruct (Z.ltb_spec (k * 1000000000) 0) as [|_]; [lia|].
  destruct (Z.eqb_spec (k * 1000000000) 0) as [|_]; [lia|].
  destruct (Z.ltb_spec (k * 1000000000) 1000000000) as [|_]; [lia|].
  change 1000000000 with (10 ^ Z.of_nat 9). by rewrite frac_zero.
Qed.

(** [ParseDuration (d.String()) = d] for whole seconds. *)
Lemma parse_show_seconds k : 0 ≤ k → k * Second < 2 ^ 63 →
  parse_duration (show_duration (k * Second)) = Some (k * Second).
Proof.
  intros Hk Hmax. destruct (Z.eq_dec k 0) as [->|]; [done|].
  rewrite show_seconds by lia. cbv zeta.
  pose proof (Z.mod_pos_bound k 60 ltac:(lia)) as H1.
  pose proof (Z.div_mod k 60 ltac:(lia)) as H2.
  pose proof (Z.mod_pos_bound (k / 60) 60 ltac:(lia)) as H3.
  pose proof (Z.div_mod (k / 60) 60 ltac:(lia)) as H4.
  pose proof (Z.div_pos k 60 ltac:(lia) ltac:(lia)) as H5.
  pose proof (Z.div_pos (k / 60) 60 ltac:(lia) ltac:(lia)) as H6.
  unfold Second in *.
  assert (∀ d, 0 ≤ d → d + (k mod 60) * 1000000000 < 2 ^ 63 →
    groups (String.length (format_uint (k mod 60) +:+ "s")) d (format_uint (k mod 60) +:+ "s")
    = Some (d + (k mod 60) * 1000000000)) as Hs.
  { intros d Hd Hb. by apply (groups_whole d _ "s" 1000000000 ""); try done; lia. }
  destruct (Z.ltb_spec 0 (k / 60)) as [Hm|Hm].
  2:{ apply parse_groups; [lia|done| |lia]. rewrite Hs by lia. f_equal. lia. }
  set (secs := format_uint (k mod 60) +:+ "s") in *.
  assert (stops secs = true) as Hstop by (apply stops_format; lia).
  assert (∀ d, 0 ≤ d → d + ((k / 60) mod 60) * (60 * 1000000000) + (k mod 60) * 1000000000 < 2 ^ 63 →
    groups (String.length (format_uint ((k / 60) mod 60) +:+ String "m" secs)) d
      (format_uint ((k / 60) mod 60) +:+ String "m" secs)
    = Some (d + ((k / 60) mod 60) * (60 * 1000000000) + (k mod 60) * 1000000000)) as Hms.
  { intros d Hd Hb. rewrite <-Hs by lia.
    by apply (groups_whole d _ "m" (60 * 1000000000) secs); try done; lia. }
  destruct (Z.ltb_spec 0 (k / 60 / 60)) as [Hh|Hh].
  2:{ apply parse_groups; [lia|done| |lia]. rewrite Hms by lia. f_equal. lia. }
  set (mins := format_uint ((k / 60) mod 60) +:+ String "m" secs) in *.
  assert (stops mins = true) as Hstop' by (apply stops_format; lia).
  apply parse_groups; [lia|done| |lia].
  transitivity (groups (String.length mins) (0 + k / 60 / 60 * (60 * (60 * 1000000000))) mins).
  { by apply (groups_whole 0 _ "h" (60 * (60 * 1000000000)) mins); try done; lia. }
  rewrite Hms by lia. f_equal. lia.
Qed.

(** [ParseDuration (d.String()) = d] for whole milliseconds below a second. *)
Lemma parse_show_millis k : 0 < k < 1000 →
  parse_duration (show_duration (k * Millisecond)) = Some (k * Millisecond).
Proof.
  intros Hk. assert (show_duration (k * Millisecond) = format_uint k +:+ "ms") as ->.
  { unfold Format.duration, Second, Millisecond, Microsecond.
    destruct (Z.ltb_spec (k * 1000000) 0) as [|_]; [lia|].
    destruct (Z.eqb_spec (k * 1000000) 0) as [|_]; [lia|].
    destruct (Z.ltb_spec (k * 1000000) 1000000000) as [_|]; [|lia].
    destruct (Z.ltb_spec (k * 1000000) 1000) as [|_]; [lia|].
    destruct (Z.ltb_spec (k * 1000000) 1000000) as [|_]; [lia|].
    change 1000000 with (10 ^ Z.of_nat 6). by rewrite frac_zero. }
  unfold Millisecond. apply parse_groups; [lia|done| |lia].
  by apply (groups_whole 0 k "ms" 1000000 ""); try done; lia.
Qed.
End roundtrip.

(** * The durations the configuration uses as defaults and bounds *)

(** Whole seconds, or whole milliseconds below one second. *)
Definition whole (d : Duration) : bool :=
  ((0 <=? d) && (d <? 2 ^ 63) && (d mod Second =? 0)) ||
  ((0 <? d) && (d <? Second) && (d mod Millisecond =? 0)).

Lemma parse_show d : whole d = true → parse_duration (show_duration d) = Some d.
Proof.
  unfold whole. rewrite orb_true_iff. intros [Hw|Hw]; zbool.
  - rewrite (Z.div_mod d Second) by done.
    replace (Second * (d / Second) + d mod Second) with (d / Second * Second) by lia.
    assert (0 ≤ d / Second) by (apply Z.div_pos; done).
    pose proof (Z.div_mod d Second ltac:(done)).
    apply parse_show_seconds; lia.
  - pose proof (Z.div_mod d Millisecond ltac:(done)) as Hd.
    replace d with (d / Millisecond * Millisecond) by lia.
    apply parse_show_millis. unfold Millisecond, Second in *. lia.
Qed.

Lemma groups_range f d s r :
  0 ≤ d ≤ 2 ^ 63 → Parse.groups f d s = Some r → 0 ≤ r ≤ 2 ^ 63.
Proof.
  revert d s. induction f as [|f IH]; intros d [|c s] Hd; cbn [Parse.groups];
    try (intros; by simplify_eq).
  destruct (Parse.group _) as [[v s']|]; [|done].
  destruct (Z.ltb_spec (2 ^ 63) (uint64 (d + v))) as [|Hle]; [done|].
  apply IH. pose proof (Z.mod_pos_bound (d + v) (2 ^ 64) ltac:(lia)).
  unfold uint64 in *. lia.
Qed.

Lemma parse_duration_range s d : parse_duration s = Some d → int64_min ≤ d ≤ int64_max.
Proof.
  unfold parse_duration, int64_min, int64_max. destruct (Parse.sign s) as [neg t].
  destruct (String.eqb t "0"); [intros; simplify_eq; lia|].
  destruct (String.eqb t ""); [done|].
  destruct (Parse.groups _ _ _) as [r|] eqn:Hg; [|done].
  apply groups_range in Hg; [|lia].
  destruct neg; [intros; simplify_eq; lia|].
  destruct (Z.ltb_spec (2 ^ 63 - 1) r); [done|]. intros; simplify_eq; lia.
Qed.
