(* ===== verification/Settings.v ===== *)
(** The setting inventory of [internal/config/config.go] and the functions that
    read one setting: [value], [duration], [integer], [int64Value], [boolean],
    [requiredText], [cleanNonempty], [oneOf], [preflight] and the projection
    [ValuesForProcess] of [envfile.go].

    The set of settings is a [gmap string string], as in the code.  The two
    loops over it take the iteration order from [MapOrder]. *)
From S2P Require Import Prelude GoStrings Strconv Duration.

Local Open Scope string_scope.
Local Open Scope Z_scope.

Inductive Process :=
| ProcessGateway
| ProcessControlPlane
| ProcessWorker
| ProcessBootstrap
| ProcessDeployment.

#[global] Instance Process_eq_dec : EqDecision Process.
Proof. solve_decision. Defined.

Record SettingClass := {
  class_Secret : bool;
  class_Consumers : list Process
}.

Definition plain_setting (consumers : list Process) : SettingClass :=
  {| class_Secret := false; class_Consumers := consumers |}.
Definition secret (consumers : list Process) : SettingClass :=
  {| class_Secret := true; class_Consumers := consumers |}.

(** Abbreviation of the environment of a process. *)
Abbreviation env := (gmap string string).

Definition inventory_entries : list (string * SettingClass) := [
  ("NEXUSRELAY_ENV", plain_setting [ProcessGateway; ProcessControlPlane; ProcessWorker; ProcessBootstrap; ProcessDeployment]);
  ("NEXUSRELAY_VERSION", plain_setting [ProcessGateway; ProcessControlPlane; ProcessWorker; ProcessBootstrap; ProcessDeployment]);
  ("PUBLIC_API_BASE_URL", plain_setting [ProcessGateway; ProcessControlPlane; ProcessDeployment]);
  ("ADMIN_BASE_URL", plain_setting [ProcessControlPlane; ProcessDeployment]);
  ("PUBLIC_API_HOST", plain_setting [ProcessDeployment]);
  ("ADMIN_HOST", plain_setting [ProcessDeployment]);
  ("ADMIN_EXPOSURE_MODE", plain_setting [ProcessDeployment]);
  ("ADMIN_ORIGINS", plain_setting [ProcessControlPlane; ProcessDeployment]);
  ("TRUSTED_PROXY_CIDRS", plain_setting [ProcessGateway; ProcessControlPlane; ProcessDeployment]);
  ("HTTP_BIND_ADDRESS", plain_setting [ProcessGateway; ProcessControlPlane; ProcessWorker; ProcessDeployment]);
  ("HTTP_PORT", plain_setting [ProcessGateway; ProcessControlPlane; ProcessWorker; ProcessDeployment]);
  ("HTTPS_PORT", plain_setting [ProcessDeployment]);
  ("TLS_MODE", plain_setting [ProcessDeployment]);
  ("TLS_CERT_FILE", plain_setting [ProcessDeployment]);
  ("TLS_KEY_FILE", secret [ProcessDeployment]);
  ("ACME_EMAIL", plain_setting [ProcessDeployment]);
  ("ACME_DNS_PROVIDER", plain_setting [ProcessDeployment]);
  ("ACME_DNS_API_TOKEN_FILE", secret [ProcessDeployment]);
  ("POSTGRES_DB", plain_setting [ProcessDeployment]);
  ("POSTGRES_USER", plain_setting [ProcessDeployment]);
  ("POSTGRES_PASSWORD_FILE", secret [ProcessDeployment]);
  ("DATABASE_HOST", plain_setting [ProcessGateway; ProcessControlPlane; ProcessWorker; ProcessBootstrap]);
  ("DATABASE_PORT", plain_setting [ProcessGateway; ProcessControlPlane; ProcessWorker; ProcessBootstrap]);
  ("DATABASE_NAME", plain_setting [ProcessGateway; ProcessControlPlane; ProcessWorker; ProcessBootstrap; ProcessDeployment]);
  ("DATABASE_MIGRATION_USER", plain_setting [ProcessDeployment]);
  ("DATABASE_MIGRATION_PASSWORD_FILE", secret [ProcessDeployment]);
  ("DATABASE_GATEWAY_USER", plain_setting [ProcessGateway; ProcessDeployment]);
  ("DATABASE_GATEWAY_PASSWORD_FILE", secret [ProcessGateway; ProcessDeployment]);
  ("DATABASE_CONTROL_PLANE_USER", plain_setting [ProcessControlPlane; ProcessBootstrap; ProcessDeployment]);
  ("DATABASE_CONTROL_PLANE_PASSWORD_FILE", secret [ProcessControlPlane; ProcessBootstrap; ProcessDeployment]);
  ("DATABASE_WORKER_USER", plain_setting [ProcessWorker; ProcessDeployment]);
  ("DATABASE_WORKER_PASSWORD_FILE", secret [ProcessWorker; ProcessDeployment]);
  ("DATABASE_SSLMODE", plain_setting [ProcessGateway; ProcessControlPlane; ProcessWorker; ProcessBootstrap; ProcessDeployment]);
  ("DATABASE_MIN_CONNECTIONS_GATEWAY", plain_setting [ProcessGateway]);
  ("DATABASE_MAX_CONNECTIONS_GATEWAY", plain_setting [ProcessGateway]);
  ("DATABASE_MIN_CONNECTIONS_CONTROL_PLANE", plain_setting [ProcessControlPlane; ProcessBootstrap]);
  ("DATABASE_MAX_CONNECTIONS_CONTROL_PLANE", plain_setting [ProcessControlPlane; ProcessBootstrap]);
  ("DATABASE_MIN_CONNECTIONS_WORKER", plain_setting [ProcessWorker]);
  ("DATABASE_MAX_CONNECTIONS_WORKER", plain_setting [ProcessWorker]);
  ("DATABASE_STATEMENT_TIMEOUT", plain_setting [ProcessGateway; ProcessControlPlane; ProcessWorker; ProcessBootstrap]);
  ("DATABASE_TRANSACTION_TIMEOUT", plain_setting [ProcessGateway; ProcessControlPlane; ProcessWorker; ProcessBootstrap]);
  ("REDIS_URL_FILE", secret [ProcessGateway; ProcessControlPlane; ProcessWorker; ProcessDeployment]);
  ("REDIS_PASSWORD_FILE", secret [ProcessDeployment]);
  ("REDIS_MAX_CONNECTIONS_GATEWAY", plain_setting [ProcessGateway]);
  ("REDIS_MAX_CONNECTIONS_CONTROL_PLANE", plain_setting [ProcessControlPlane]);
  ("REDIS_MAX_CONNECTIONS_WORKER", plain_setting [ProcessWorker]);
  ("DEPENDENCY_STARTUP_TIMEOUT", plain_setting [ProcessGateway; ProcessControlPlane; ProcessWorker]);
  ("DEPENDENCY_PROBE_TIMEOUT", plain_setting [ProcessGateway; ProcessControlPlane; ProcessWorker]);
  ("DEPENDENCY_PROBE_INTERVAL", plain_setting [ProcessGateway; ProcessControlPlane; ProcessWorker]);
  ("DEPENDENCY_RETRY_MIN_DELAY", plain_setting [ProcessGateway; ProcessControlPlane; ProcessWorker]);
  ("DEPENDENCY_RETRY_MAX_DELAY", plain_setting [ProcessGateway; ProcessControlPlane; ProcessWorker]);
  ("MASTER_KEYRING_FILE", secret [ProcessGateway; ProcessControlPlane; ProcessWorker]);
  ("API_KEY_PEPPER_RING_FILE", secret [ProcessGateway; ProcessControlPlane]);
  ("SESSION_SECRET_FILE", secret [ProcessControlPlane]);
  ("CSRF_SECRET_RING_FILE", secret [ProcessControlPlane]);
  ("SESSION_COOKIE_NAME", plain_setting [ProcessControlPlane]);
  ("SESSION_IDLE_TTL", plain_setting [ProcessControlPlane]);
  ("SESSION_ABSOLUTE_TTL", plain_setting [ProcessControlPlane]);
  ("SESSION_LAST_SEEN_WRITE_INTERVAL", plain_setting [ProcessControlPlane]);
  ("PASSWORD_ARGON2_MEMORY_KIB", plain_setting [ProcessControlPlane; ProcessBootstrap]);
  ("PASSWORD_ARGON2_ITERATIONS", plain_setting [ProcessControlPlane; ProcessBootstrap]);
  ("PASSWORD_ARGON2_PARALLELISM", plain_setting [ProcessControlPlane; ProcessBootstrap]);
  ("REQUEST_BODY_MAX_BYTES", plain_setting [ProcessGateway]);
  ("UPSTREAM_CONNECT_TIMEOUT", plain_setting [ProcessGateway]);
  ("UPSTREAM_FIRST_BYTE_TIMEOUT", plain_setting [ProcessGateway]);
  ("UPSTREAM_IDLE_TIMEOUT", plain_setting [ProcessGateway]);
  ("UPSTREAM_TOTAL_TIMEOUT", plain_setting [ProcessGateway; ProcessWorker]);
  ("SHUTDOWN_GRACE_PERIOD", plain_setting [ProcessGateway; ProcessControlPlane; ProcessWorker; ProcessDeployment]);
  ("MAX_UPSTREAM_ATTEMPTS", plain_setting [ProcessGateway]);
  ("LOG_LEVEL", plain_setting [ProcessGateway; ProcessControlPlane; ProcessWorker; ProcessBootstrap]);
  ("LOG_FORMAT", plain_setting [ProcessGateway; ProcessControlPlane; ProcessWorker; ProcessBootstrap]);
  ("METRICS_ENABLED", plain_setting [ProcessGateway; ProcessControlPlane; ProcessWorker]);
  ("OTEL_ENABLED", plain_setting [ProcessGateway; ProcessControlPlane; ProcessWorker]);
  ("OTEL_EXPORTER_OTLP_ENDPOINT", plain_setting [ProcessGateway; ProcessControlPlane; ProcessWorker]);
  ("REQUEST_RETENTION_DAYS", plain_setting [ProcessWorker]);
  ("AUDIT_RETENTION_DAYS", plain_setting [ProcessWorker]);
  ("HEALTH_OBSERVATION_RETENTION_DAYS", plain_setting [ProcessWorker]);
  ("PROCESSED_OUTBOX_RETENTION_DAYS", plain_setting [ProcessWorker]);
  ("ANALYTICS_TARGET_LAG", plain_setting [ProcessWorker]);
  ("STALE_REQUEST_RECONCILIATION_INTERVAL", plain_setting [ProcessWorker]);
  ("WORKER_CONCURRENCY", plain_setting [ProcessWorker]);
  ("OUTBOX_LEASE_DURATION", plain_setting [ProcessWorker]);
  ("OUTBOX_RETRY_BASE_DELAY", plain_setting [ProcessWorker]);
  ("OUTBOX_RETRY_MAX_DELAY", plain_setting [ProcessWorker]);
  ("HEALTH_PROBE_INTERVAL", plain_setting [ProcessWorker]);
  ("HEALTH_FAST_WINDOW", plain_setting [ProcessWorker]);
  ("HEALTH_STABILIZING_WINDOW", plain_setting [ProcessWorker]);
  ("HEALTH_MIN_SAMPLES", plain_setting [ProcessWorker]);
  ("HEALTH_POLICY_VERSION", plain_setting [ProcessWorker]);
  ("RETENTION_BATCH_SIZE", plain_setting [ProcessWorker]);
  ("HEALTH_UNAVAILABLE_ENTRY_THRESHOLD_BPS", plain_setting [ProcessWorker]);
  ("HEALTH_UNAVAILABLE_EXIT_THRESHOLD_BPS", plain_setting [ProcessWorker]);
  ("HEALTH_CONSECUTIVE_FAILURES", plain_setting [ProcessWorker]);
  ("HEALTH_CONSECUTIVE_SUCCESSES", plain_setting [ProcessWorker]);
  ("AGENT_API_KEY_ENV", plain_setting [ProcessControlPlane]);
  ("OPENCODE_PROVIDER_ID", plain_setting [ProcessControlPlane]);
  ("OPENCODE_PROVIDER_NAME", plain_setting [ProcessControlPlane]);
  ("ENABLE_CLOUDFLARE_TUNNEL", plain_setting [ProcessDeployment]);
  ("CLOUDFLARE_TUNNEL_ID", plain_setting [ProcessDeployment]);
  ("CLOUDFLARE_TUNNEL_CREDENTIALS_FILE", secret [ProcessDeployment]);
  ("ENABLE_TAILSCALE_PRIVATE_ADMIN", plain_setting [ProcessDeployment]);
  ("TAILSCALE_AUTH_KEY_FILE", secret []);
  ("TAILSCALE_STATE_DIR", plain_setting []);
  ("TAILSCALE_HOSTNAME", plain_setting []);
  ("PRIVATE_INGRESS_SUBNET", plain_setting []);
  ("PRIVATE_TRAEFIK_IP", plain_setting []);
  ("PRIVATE_DNS_IP", plain_setting []);
  ("TAILSCALE_ADVERTISE_ROUTES", plain_setting []);
  ("BOOTSTRAP_OWNER_EMAIL", plain_setting [ProcessBootstrap]);
  ("BOOTSTRAP_OWNER_NAME", plain_setting [ProcessBootstrap]);
  ("BOOTSTRAP_ORGANIZATION_NAME", plain_setting [ProcessBootstrap]);
  ("BOOTSTRAP_ORGANIZATION_SLUG", plain_setting [ProcessBootstrap]);
  ("BOOTSTRAP_PASSWORD_FILE", secret [ProcessBootstrap])
].

Definition inventory : gmap string SettingClass := list_to_map inventory_entries.

Lemma inventory_entry name class :
  inventory !! name = Some class → (name, class) ∈ inventory_entries.
Proof. apply elem_of_list_to_map_2. Qed.

(** The map is only ever evaluated by [vm_compute]. *)
#[global] Opaque inventory.

Definition unmistakableOwnedPrefixes : list string := ["NEXUSRELAY_"; "BOOTSTRAP_"].

Definition obsoleteSettings : list string := [
  "CSRF_SECRET_FILE"; "DATABASE_USER"; "DATABASE_PASSWORD_FILE";
  "SHARED_DATABASE_PASSWORD_FILE"
].

Definition known (name : string) : bool := bool_decide (is_Some (inventory !! name)).

Definition mem (name : string) (l : list string) : bool := existsb (String.eqb name) l.

(** * Reading one setting *)

Definition value (v : env) (name fallback : string) : string :=
  match v !! name with Some raw => raw | None => fallback end.

Definition requiredPath (v : env) (name fallback : string) : string :=
  value v name fallback.

Definition oneOf (value : string) (choices : list string) : bool := mem value choices.

Definition cleanNonempty (name raw : string) : res unit :=
  reject (name +:+ " must be non-empty and contain no surrounding whitespace")
    when String.eqb raw "" || negb (String.eqb (trim_space raw) raw) ;;
  Ok tt.

Definition requiredText (v : env) (name : string) : res string :=
  let raw := default "" (v !! name) in
  reject (name +:+ " is required")
    when negb (bool_decide (is_Some (v !! name))) || String.eqb raw "" ;;
  cleanNonempty name raw ≫= λ _,
  Ok raw.

Definition duration (v : env) (name : string) (fallback min max : Duration) : res Duration :=
  let e := name +:+ " must be between " +:+ show_duration min +:+ " and " +:+ show_duration max in
  match parse_duration (value v name (show_duration fallback)) with
  | None => Err e
  | Some parsed =>
      reject e when (parsed <? min) || (max <? parsed) ;; Ok parsed
  end.

Definition integer (v : env) (name : string) (fallback min max : Z) : res Z :=
  let e := name +:+ " must be an integer from " +:+ itoa min +:+ " through " +:+ itoa max in
  match parse_int (value v name (itoa fallback)) with
  | None => Err e
  | Some n => reject e when (n <? min) || (max <? n) ;; Ok n
  end.

Definition int64Value (v : env) (name : string) (fallback min max : Z) : res Z :=
  let e := name +:+ " must be an integer from " +:+ itoa min +:+ " through " +:+ itoa max in
  match parse_int (value v name (itoa fallback)) with
  | None => Err e
  | Some n => reject e when (n <? min) || (max <? n) ;; Ok n
  end.

Definition boolean (v : env) (name : string) (fallback : bool) : res bool :=
  let raw := value v name (format_bool fallback) in
  reject (name +:+ " must be true or false")
    when negb (String.eqb raw "true") && negb (String.eqb raw "false") ;;
  Ok (String.eqb raw "true").

Definition isProductionGrade (environment : string) : bool :=
  String.eqb environment "production".

Definition validateEnvironment (environment : string) : res unit :=
  reject "NEXUSRELAY_ENV must be development, test, or production"
    when negb (oneOf environment ["development"; "test"; "production"]) ;;
  Ok tt.

(** * Preflight *)

Definition undocumented (name : string) : string :=
  name +:+ " is not a documented NexusRelay setting".

(** [for name := range v]: the names are visited in the order of the map. *)
Fixpoint check_names (names : list string) : res unit :=
  match names with
  | [] => Ok tt
  | name :: rest =>
      if known name then check_names rest
      else
        reject undocumented name when mem name obsoleteSettings ;;
        reject undocumented name
          when existsb (has_prefix name) unmistakableOwnedPrefixes ;;
        check_names rest
  end.

Definition commandOnlySettings : list string := [
  "BOOTSTRAP_OWNER_EMAIL"; "BOOTSTRAP_OWNER_NAME"; "BOOTSTRAP_ORGANIZATION_NAME";
  "BOOTSTRAP_ORGANIZATION_SLUG"; "BOOTSTRAP_PASSWORD_FILE"
].

Fixpoint reject_present (v : env) (names : list string) : res unit :=
  match names with
  | [] => Ok tt
  | name :: rest =>
      reject (name +:+ " is command-only and is not accepted by long-running services")
        when bool_decide (is_Some (v !! name)) ;;
      reject_present v rest
  end.

Definition long_running (process : Process) : bool :=
  match process with
  | ProcessGateway | ProcessControlPlane | ProcessWorker => true
  | ProcessBootstrap | ProcessDeployment => false
  end.

Definition preflight `{MapOrder} (v : env) (process : Process) : res unit :=
  check_names (map_range v).*1 ≫= λ _,
  if long_running process then reject_present v commandOnlySettings else Ok tt.

(** * The settings a process consumes *)

Definition consumed_by (process : Process) (name : string) : bool :=
  match inventory !! name with
  | Some class => existsb (λ c, bool_decide (c = process)) (class_Consumers class)
  | None => false
  end.

Definition ValuesForProcess `{MapOrder} (values : env) (process : Process) : env :=
  fold_left
    (λ filtered '(name, value),
       if consumed_by process name then <[name := value]> filtered else filtered)
    (map_range values) ∅.

(** * Lemmas *)

Lemma mem_spec name l : mem name l = true ↔ name ∈ l.
Proof.
  unfold mem. rewrite existsb_exists. setoid_rewrite String.eqb_eq.
  setoid_rewrite <-list_elem_of_In. naive_solver.
Qed.

Lemma oneOf_spec x l : oneOf x l = true ↔ x ∈ l.
Proof. apply mem_spec. Qed.

Lemma value_absent v name fallback : v !! name = None → value v name fallback = fallback.
Proof. unfold value. by intros ->. Qed.

Section bounded.
Variables (v : env) (name : string) (fallback min max : Z).

Lemma duration_bounds d : duration v name fallback min max = Ok d → min ≤ d ≤ max.
Proof.
  unfold duration. destruct (parse_duration _); [|done].
  intros H. res_inv H. simplify_eq. zlia.
Qed.

Lemma integer_bounds n : integer v name fallback min max = Ok n → min ≤ n ≤ max.
Proof.
  unfold integer. destruct (parse_int _); [|done].
  intros H. res_inv H. simplify_eq. zlia.
Qed.

Lemma int64Value_bounds n : int64Value v name fallback min max = Ok n → min ≤ n ≤ max.
Proof.
  unfold int64Value. destruct (parse_int _); [|done].
  intros H. res_inv H. simplify_eq. zlia.
Qed.

Lemma bounds_test d : min ≤ d ≤ max → (d <? min) || (max <? d) = false.
Proof.
  intros. destruct (Z.ltb_spec d min), (Z.ltb_spec max d); try done; lia.
Qed.

(** An absent setting yields its default: the default survives being printed
    and parsed again. *)
Lemma duration_default :
  v !! name = None → whole fallback = true → min ≤ fallback ≤ max →
  duration v name fallback min max = Ok fallback.
Proof.
  intros Hv Hw Hb. unfold duration. rewrite value_absent, parse_show by done.
  by rewrite bounds_test.
Qed.

Lemma integer_default :
  v !! name = None → int64_min ≤ fallback ≤ int64_max → min ≤ fallback ≤ max →
  integer v name fallback min max = Ok fallback.
Proof.
  intros Hv Hw Hb. unfold integer. rewrite value_absent, parse_int_itoa by done.
  by rewrite bounds_test.
Qed.

Lemma int64Value_default :
  v !! name = None → int64_min ≤ fallback ≤ int64_max → min ≤ fallback ≤ max →
  int64Value v name fallback min max = Ok fallback.
Proof.
  intros Hv Hw Hb. unfold int64Value. rewrite value_absent, parse_int_itoa by done.
  by rewrite bounds_test.
Qed.
End bounded.

Lemma boolean_default v name fallback :
  v !! name = None → boolean v name fallback = Ok fallback.
Proof. intros Hv. unfold boolean. rewrite value_absent by done. by destruct fallback. Qed.

Lemma boolean_ok v name fallback b :
  boolean v name fallback = Ok b ↔ value v name (format_bool fallback) = format_bool b.
Proof.
  unfold boolean. rewrite reject_ok. generalize (value v name (format_bool fallback)) as raw.
  intros raw. destruct (String.eqb_spec raw "true") as [->|Ht].
  { destruct b; naive_solver. }
  destruct (String.eqb_spec raw "false") as [->|Hf].
  { destruct b; naive_solver. }
  destruct b; naive_solver.
Qed.

Lemma oneOf_production e : validateEnvironment e = Ok tt →
  e = "development" ∨ e = "test" ∨ e = "production".
Proof.
  unfold validateEnvironment. rewrite reject_ok, negb_false_iff, oneOf_spec.
  set_solver.
Qed.

(** A name that is not one of the documented settings and is recognisably
    NexusRelay's. *)
Definition foreign (name : string) : bool :=
  negb (known name) &&
  (mem name obsoleteSettings || existsb (has_prefix name) unmistakableOwnedPrefixes).

Lemma check_names_ok names :
  check_names names = Ok tt ↔ Forall (λ name, foreign name = false) names.
Proof.
  unfold foreign. induction names as [|name names IH]; cbn [check_names]; [done|].
  rewrite Forall_cons, <-IH. destruct (known name); cbn [negb andb]; [tauto|].
  rewrite !reject_ok, orb_false_iff. tauto.
Qed.

Lemma check_names_err names e :
  check_names names = Err e → ∃ name, name ∈ names ∧ foreign name = true ∧ e = undocumented name.
Proof.
  unfold foreign. induction names as [|name names IH]; cbn [check_names]; [done|].
  intros H. assert (check_names names = Err e ∨
    (negb (known name) && (mem name obsoleteSettings ||
       existsb (has_prefix name) unmistakableOwnedPrefixes) = true ∧ e = undocumented name))
    as [He|[Hf He]].
  { destruct (known name); [by left|]. cbn [negb andb].
    destruct (mem name obsoleteSettings); [right; by injection H|].
    destruct (existsb _ _); [right; by injection H|by left]. }
  - destruct (IH He) as (n & Hn & Hf & Hu). exists n. split; [by right|exact (conj Hf Hu)].
  - exists name. split; [by left|exact (conj Hf He)].
Qed.

Lemma reject_present_ok v names :
  reject_present v names = Ok tt ↔ Forall (λ name, v !! name = None) names.
Proof.
  induction names as [|name names IH]; cbn [reject_present]; [done|].
  rewrite reject_ok, Forall_cons, IH, bool_decide_eq_false, eq_None_not_Some. done.
Qed.

(** Success of the preflight does not depend on the order of the map. *)
Lemma preflight_iff `{MapOrder} v p :
  preflight v p = Ok tt ↔
  (∀ name, is_Some (v !! name) → foreign name = false) ∧
  (long_running p = true → ∀ name, name ∈ commandOnlySettings → v !! name = None).
Proof.
  unfold preflight. rewrite bind_ok. split.
  - intros ([] & Hn & Hr). apply check_names_ok in Hn. split.
    + intros name [x Hx]. rewrite Forall_forall in Hn. apply Hn.
      apply list_elem_of_fmap. exists (name, x). split; [done|].
      by apply elem_of_map_range.
    + intros Hl. rewrite Hl, reject_present_ok, Forall_forall in Hr. exact Hr.
  - intros [Hf Hc]. exists tt. split.
    + apply check_names_ok, Forall_forall. intros name Hin.
      apply list_elem_of_fmap in Hin as ([k x] & -> & Hin).
      apply elem_of_map_range in Hin. apply Hf. by eexists.
    + destruct (long_running p); [|done].
      rewrite reject_present_ok, Forall_forall. exact (Hc eq_refl).
Qed.

Lemma fold_insert_lookup (f : string → bool) (l : list (string * string)) (m : env) name :
  NoDup l.*1 →
  fold_left (λ acc '(n, x), if f n then <[n := x]> acc else acc) l m !! name =
  match (list_to_map l : env) !! name with
  | Some x => if f name then Some x else m !! name
  | None => m !! name
  end.
Proof.
  revert m. induction l as [|[k x] l IH]; intros m Hnd.
  { cbn [fold_left]. simpl. by rewrite lookup_empty. }
  cbn [fold_left]. apply NoDup_cons in Hnd as [Hk Hnd]. rewrite IH by done. simpl.
  destruct (decide (k = name)) as [->|Hne].
  - rewrite lookup_insert_eq.
    rewrite (not_elem_of_list_to_map_1 _ _ Hk).
    destruct (f name); [by rewrite lookup_insert_eq|done].
  - rewrite lookup_insert_ne by done.
    destruct (f k); [by rewrite lookup_insert_ne|done].
Qed.

Lemma ValuesForProcess_lookup `{MapOrder} values p name :
  ValuesForProcess values p !! name =
  if consumed_by p name then values !! name else None.
Proof.
  unfold ValuesForProcess. rewrite fold_insert_lookup by apply NoDup_map_range_fst.
  rewrite lookup_empty.
  assert ((list_to_map (map_range values) : env) = values) as ->.
  { apply map_eq. intros k. apply option_eq. intros x.
    rewrite <-elem_of_list_to_map by apply NoDup_map_range_fst.
    apply elem_of_map_range. }
  destruct (values !! name), (consumed_by p name); done.
Qed.

Lemma consumed_known p name : consumed_by p name = true → known name = true.
Proof.
  unfold consumed_by, known. destruct (inventory !! name); [|done].
  intros _. by apply bool_decide_eq_true.
Qed.

Lemma foreign_known name : known name = true → foreign name = false.
Proof. unfold foreign. by intros ->. Qed.
#[export] Hint Resolve consumed_known foreign_known : nexus.

(** The command-only settings are consumed by the bootstrap command alone. *)
Lemma commandOnly_not_consumed p name :
  name ∈ commandOnlySettings → long_running p = true → consumed_by p name = false.
Proof.
  intros Hin Hp.
  assert (Forall (λ n, consumed_by p n = false) commandOnlySettings) as Hall
    by (destruct p; try discriminate Hp; repeat constructor; vm_compute; reflexivity).
  rewrite Forall_forall in Hall. exact (Hall _ Hin).
Qed.
