(* ===== verification/Net.v ===== *)
(** The part of Go's [net] and [net/netip] that the configuration calls:
    [netip.ParseAddr], [net.ParseIP], [net.ParseCIDR] and [net.JoinHostPort].
    An address is the list of its bytes. *)
From S2P Require Import Prelude GoStrings Strconv.

Local Open Scope string_scope.
Local Open Scope Z_scope.

(** [netip.Addr]: four or sixteen bytes and, for IPv6, a zone. *)
Record Addr := { addr_bytes : list Z; addr_zone : string }.

Definition Is4 (a : Addr) : bool := (length (addr_bytes a) =? 4)%nat.
Definition BitLen (a : Addr) : Z := 8 * Z.of_nat (length (addr_bytes a)).

(** [parseIPv4Fields]: [fields] holds the octets read so far, latest first;
    [digits] is the number of digits of the current octet. *)
Fixpoint ipv4_fields (fields : list Z) (val : Z) (digits : nat) (s : string) : option (list Z) :=
  match s with
  | EmptyString =>
      (* an empty last octet is [1.2.3.], refused at the period *)
      if (digits =? 0)%nat then None
      else if (length fields =? 3)%nat then Some (reverse (val :: fields)) else None
  | String c s' =>
      if is_digit c then
        if (digits =? 1)%nat && (val =? 0) then None
        else let val := val * 10 + digit_value c in
             if 255 <? val then None else ipv4_fields fields val (S digits) s'
      else if Ascii.eqb c "." then
        if (digits =? 0)%nat then None
        else if (length fields =? 3)%nat then None
        else ipv4_fields (val :: fields) 0 0 s'
      else None
  end.

Definition parse_ipv4 (s : string) : option (list Z) := ipv4_fields [] 0 0 s.

Definition hex_value (c : ascii) : option Z :=
  let b := byte c in
  if (48 <=? b) && (b <=? 57) then Some (b - 48)
  else if (97 <=? b) && (b <=? 102) then Some (b - 87)
  else if (65 <=? b) && (b <=? 70) then Some (b - 55)
  else None.

(** The hexadecimal digits in front of [s]: value, count and rest; [None] on
    more than four. *)
Fixpoint hex_group (acc : Z) (off : nat) (s : string) : option (Z * nat * string) :=
  match s with
  | EmptyString => Some (acc, off, s)
  | String c s' =>
      match hex_value c with
      | None => Some (acc, off, s)
      | Some d => if (3 <? off)%nat then None else hex_group (acc * 16 + d) (S off) s'
      end
  end.

(** The loop of [parseIPv6]: [ip] holds the bytes read so far, in order, and
    [ellipsis] the position of [::].  At most eight groups are read. *)
Fixpoint ipv6_loop (fuel : nat) (ip : list Z) (ellipsis : option nat) (s : string)
    : option (list Z * option nat * string) :=
  if (16 <=? length ip)%nat then Some (ip, ellipsis, s) else
  match fuel with
  | O => None
  | S f =>
      match hex_group 0 0 s with
      | None => None
      | Some (acc, off, rest) =>
          if (off =? 0)%nat then None else
          let follows_dot :=
            match rest with String c _ => Ascii.eqb c "." | EmptyString => false end in
          if follows_dot then
            if bool_decide (ellipsis = None) && negb (length ip =? 12)%nat then None
            else if (16 <? length ip + 4)%nat then None
            else match parse_ipv4 s with
                 | None => None
                 | Some fields => Some ((ip ++ fields)%list, ellipsis, "")
                 end
          else
            let ip := (ip ++ [acc / 256; acc mod 256])%list in
            match rest with
            | EmptyString => Some (ip, ellipsis, "")
            | String c rest' =>
                if negb (Ascii.eqb c ":") then None else
                match rest' with
                | EmptyString => None
                | String d rest'' =>
                    if Ascii.eqb d ":" then
                      if bool_decide (ellipsis ≠ None) then None
                      else match rest'' with
                           | EmptyString => Some (ip, Some (length ip), "")
                           | String _ _ => ipv6_loop f ip (Some (length ip)) rest''
                           end
                    else ipv6_loop f ip ellipsis rest'
                end
            end
      end
  end.

Definition expand (ip : list Z) (ellipsis : option nat) : option (list Z) :=
  if (length ip <? 16)%nat then
    match ellipsis with
    | None => None
    | Some e => Some (firstn e ip ++ repeat 0 (16 - length ip) ++ skipn e ip)%list
    end
  else if bool_decide (ellipsis = None) then Some ip else None.

Definition parse_ipv6 (s : string) : option Addr :=
  let zoned := match cut "%" s with
               | Some (a, z) => if String.eqb z "" then None else Some (a, z)
               | None => Some (s, "")
               end in
  match zoned with
  | None => None
  | Some (a, zone) =>
      let '(ellipsis, body) :=
        if has_prefix a "::" then (Some O, drop 2 a) else (None, a) in
      if bool_decide (ellipsis = Some O) && String.eqb body ""
      then Some {| addr_bytes := repeat 0 16; addr_zone := zone |}
      else match ipv6_loop 8 [] ellipsis body with
           | Some (ip, ell, rest) =>
               if negb (String.eqb rest "") then None
               else match expand ip ell with
                    | Some bytes => Some {| addr_bytes := bytes; addr_zone := zone |}
                    | None => None
                    end
           | None => None
           end
  end.

(** [netip.ParseAddr]: the first of [.], [:] and [%] decides. *)
Fixpoint addr_family (s : string) : option ascii :=
  match s with
  | EmptyString => None
  | String c s' =>
      if Ascii.eqb c "." || Ascii.eqb c ":" || Ascii.eqb c "%" then Some c
      else addr_family s'
  end.

Definition ParseAddr (s : string) : option Addr :=
  match addr_family s with
  | Some c =>
      if Ascii.eqb c "." then
        match parse_ipv4 s with
        | Some bytes => Some {| addr_bytes := bytes; addr_zone := "" |}
        | None => None
        end
      else if Ascii.eqb c ":" then parse_ipv6 s
      else None
  | None => None
  end.

(** [net.ParseIP]: [nil] on a zone. *)
Definition ParseIP (s : string) : option (list Z) :=
  match ParseAddr s with
  | Some a => if String.eqb (addr_zone a) "" then Some (addr_bytes a) else None
  | None => None
  end.

(** [net.IPNet]: the masked address and the number of leading ones. *)
Record IPNet := { net_IP : list Z; net_ones : Z }.

(** Byte [i] of [CIDRMask(ones, _)]. *)
Definition mask_byte (ones : Z) (i : nat) : Z :=
  let n := Z.max 0 (Z.min 8 (ones - 8 * Z.of_nat i)) in
  256 - 2 ^ (8 - n).

Definition mask (ones : Z) (ip : list Z) : list Z :=
  imap (λ i b, Z.land b (mask_byte ones i)) ip.

(** [dtoi]: the decimal number in front of [s], refused from [0xFFFFFF] on. *)
Fixpoint dtoi (n : Z) (s : string) : option (Z * string) :=
  match s with
  | String c s' =>
      if is_digit c then
        let n := n * 10 + digit_value c in
        if 16777215 <=? n then None else dtoi n s'
      else Some (n, s)
  | EmptyString => Some (n, s)
  end.

Definition ParseCIDR (s : string) : option IPNet :=
  match cut "/" s with
  | None => None
  | Some (a, m) =>
      match ParseAddr a with
      | None => None
      | Some addr =>
          if negb (String.eqb (addr_zone addr) "") then None
          else if String.eqb m "" then None
          else match dtoi 0 m with
               | Some (n, rest) =>
                   if negb (String.eqb rest "") || (BitLen addr <? n) then None
                   else Some {| net_IP := mask n (addr_bytes addr); net_ones := n |}
               | None => None
               end
      end
  end.

Definition JoinHostPort (host port : string) : string :=
  if contains_byte ":" host then "[" +:+ host +:+ "]:" +:+ port
  else host +:+ ":" +:+ port.

Example ip4 : ParseIP "127.0.0.1" = Some [127; 0; 0; 1]. Proof. reflexivity. Qed.
Example ip4_zero : ParseIP "127.0.0.01" = None. Proof. reflexivity. Qed.
Example ip4_trailing : ParseIP "1.2.3." = None. Proof. reflexivity. Qed.
Example ip6_any : ParseIP "::" = Some (repeat 0 16). Proof. reflexivity. Qed.
Example ip6_lo : ParseIP "::1" = Some (repeat 0 15 ++ [1])%list. Proof. reflexivity. Qed.
Example ip6_mid : ParseIP "fe80::1:2" =
  Some [254; 128; 0; 0; 0; 0; 0; 0; 0; 0; 0; 0; 0; 1; 0; 2]. Proof. reflexivity. Qed.
Example ip6_v4 : ParseIP "::ffff:1.2.3.4" =
  Some [0; 0; 0; 0; 0; 0; 0; 0; 0; 0; 255; 255; 1; 2; 3; 4]. Proof. reflexivity. Qed.
Example ip6_double : ParseIP "1::2::3" = None. Proof. reflexivity. Qed.
Example ip6_full_ellipsis : ParseIP "1:2:3:4:5:6:7::8" = None. Proof. reflexivity. Qed.
Example ip6_zone : ParseIP "fe80::1%eth0" = None. Proof. reflexivity. Qed.
Example cidr4 : ParseCIDR "10.1.2.3/8" = Some {| net_IP := [10; 0; 0; 0]; net_ones := 8 |}.
Proof. reflexivity. Qed.
Example cidr4_bits : ParseCIDR "10.255.2.3/12" = Some {| net_IP := [10; 240; 0; 0]; net_ones := 12 |}.
Proof. reflexivity. Qed.
Example cidr_long : ParseCIDR "10.0.0.0/33" = None. Proof. reflexivity. Qed.
Example join6 : JoinHostPort "::1" "8080" = "[::1]:8080". Proof. reflexivity. Qed.

(** * Every accepted address is well formed *)

Definition octet (b : Z) : Prop := 0 ≤ b < 256.

Definition wf_bytes (l : list Z) : Prop :=
  Forall octet l ∧ (length l = 4%nat ∨ length l = 16%nat).

Lemma digit_value_bounds c : is_digit c = true → 0 ≤ digit_value c ≤ 9.
Proof. unfold is_digit, digit_value. intros H. zlia. Qed.

Lemma ipv4_fields_wf fields val digits s l :
  Forall octet fields → octet val → ipv4_fields fields val digits s = Some l →
  Forall octet l ∧ length l = 4%nat.
Proof.
  revert fields val digits. induction s as [|c s IH]; intros fields val digits Hf Hv;
    cbn [ipv4_fields].
  - destruct (digits =? 0)%nat; [done|]. destruct (Nat.eqb_spec (length fields) 3); [|done].
    intros [= <-]. rewrite Forall_reverse, length_reverse. simpl. split; [by constructor|lia].
  - destruct (is_digit c) eqn:Hd.
    + destruct (_ && _); [done|].
      destruct (Z.ltb_spec 255 (val * 10 + digit_value c)); [done|].
      apply digit_value_bounds in Hd. apply IH; [done|unfold octet in *; lia].
    + destruct (Ascii.eqb c "."); [|done].
      destruct (digits =? 0)%nat; [done|]. destruct (length fields =? 3)%nat; [done|].
      apply IH; [by constructor|unfold octet; lia].
Qed.

Lemma hex_value_bounds c d : hex_value c = Some d → 0 ≤ d < 16.
Proof.
  unfold hex_value. intros H. repeat case_match; simplify_eq; zlia.
Qed.

Lemma hex_group_bounds acc off s v n r :
  0 ≤ acc < 16 ^ Z.of_nat off → (off ≤ 4)%nat →
  hex_group acc off s = Some (v, n, r) → 0 ≤ v < 65536.
Proof.
  revert acc off. induction s as [|c s IH]; intros acc off Hacc Hoff; cbn [hex_group].
  { intros [= <- <- <-]. assert (16 ^ Z.of_nat off ≤ 16 ^ 4) by (apply Z.pow_le_mono_r; lia). lia. }
  destruct (hex_value c) as [d|] eqn:Hd.
  - destruct (Nat.ltb_spec 3 off); [done|]. apply hex_value_bounds in Hd.
    apply IH; [|lia]. rewrite Nat2Z.inj_succ, Z.pow_succ_r by lia. lia.
  - intros [= <- <- <-]. assert (16 ^ Z.of_nat off ≤ 16 ^ 4) by (apply Z.pow_le_mono_r; lia). lia.
Qed.

Lemma octets_of_group v : 0 ≤ v < 65536 → octet (v / 256) ∧ octet (v mod 256).
Proof. intros Hv. unfold octet. Z.div_mod_to_equations. lia. Qed.

Lemma ipv6_loop_wf fuel ip ell s ip' ell' r :
  Forall octet ip → (length ip ≤ 16)%nat → Nat.Even (length ip) →
  ipv6_loop fuel ip ell s = Some (ip', ell', r) →
  Forall octet ip' ∧ (length ip' ≤ 16)%nat.
Proof.
  revert ip ell s. induction fuel as [|fuel IH]; intros ip ell s Hip Hlen [k Hk];
    cbn [ipv6_loop]; (destruct (Nat.leb_spec 16 (length ip)); [naive_solver|]); [done|].
  destruct (hex_group 0 0 s) as [[[acc off] rest]|] eqn:Hg; [|done].
  apply hex_group_bounds in Hg; [|lia..].
  destruct (octets_of_group acc Hg) as [Ho1 Ho2].
  destruct (off =? 0)%nat; [done|].
  assert (Forall octet (ip ++ [acc / 256; acc mod 256])%list) as Hip'
    by (rewrite Forall_app, !Forall_cons, Forall_nil; done).
  assert (length (ip ++ [acc / 256; acc mod 256])%list = S (S (length ip))) as Hl'
    by (rewrite length_app; simpl; lia).
  assert (∀ e t, ipv6_loop fuel (ip ++ [acc / 256; acc mod 256])%list e t = Some (ip', ell', r) →
    Forall octet ip' ∧ (length ip' ≤ 16)%nat) as Hrec.
  { intros e t. apply IH; [done|lia|exists (S k); lia]. }
  destruct (match rest with EmptyString => false | String c _ => _ end).
  - destruct (_ && _); [done|]. destruct (Nat.ltb_spec 16 (length ip + 4)); [done|].
    destruct (parse_ipv4 s) as [f|] eqn:Hf; [|done]. intros [= <- <- <-].
    apply ipv4_fields_wf in Hf as [Hf1 Hf2]; [|done|unfold octet; lia].
    rewrite Forall_app, length_app. split; [done|lia].
  - destruct rest as [|c rest]; [intros [= <- <- <-]; split; [done|lia]|].
    destruct (negb _); [done|]. destruct rest as [|d rest]; [done|].
    destruct (Ascii.eqb d ":"); [|by apply Hrec].
    destruct (bool_decide _); [done|].
    destruct rest; [intros [= <- <- <-]; split; [done|lia]|by apply Hrec].
Qed.

Lemma zeros_wf n : Forall octet (repeat 0 n).
Proof.
  apply Forall_forall. intros x Hx%list_elem_of_In%repeat_spec. subst. unfold octet. lia.
Qed.

Lemma expand_wf ip ell l :
  Forall octet ip → (length ip ≤ 16)%nat → expand ip ell = Some l →
  Forall octet l ∧ length l = 16%nat.
Proof.
  intros Hip Hlen. unfold expand. destruct (Nat.ltb_spec (length ip) 16).
  - destruct ell as [e|]; [|done]. intros [= <-]. rewrite !Forall_app, !length_app.
    rewrite length_firstn, repeat_length, length_skipn.
    split; [|lia]. split; [by apply Forall_take|split; [|by apply Forall_drop]].
    apply zeros_wf.
  - destruct (bool_decide _); [|done]. intros [= <-]. split; [done|lia].
Qed.

Lemma ParseAddr_wf s a : ParseAddr s = Some a → wf_bytes (addr_bytes a).
Proof.
  unfold ParseAddr, wf_bytes. destruct (addr_family s) as [c|]; [|done].
  destruct (Ascii.eqb c ".").
  { destruct (parse_ipv4 s) as [b|] eqn:Hb; [|done]. intros [= <-].
    apply ipv4_fields_wf in Hb as [? ?]; [naive_solver|done|unfold octet; lia]. }
  destruct (Ascii.eqb c ":"); [|done]. unfold parse_ipv6.
  destruct (match cut "%" s with Some _ => _ | None => _ end) as [[h zone]|]; [|done].
  destruct (if has_prefix h "::" then _ else _) as [ell body].
  destruct (_ && _).
  { intros [= <-]. split; [apply (zeros_wf 16)|by right]. }
  destruct (ipv6_loop _ _ _ _) as [[[ip ell'] rest]|] eqn:Hl; [|done].
  apply ipv6_loop_wf in Hl as [Hip Hlen]; [|done|simpl; lia|by exists 0%nat].
  destruct (negb _); [done|]. destruct (expand ip ell') as [b|] eqn:He; [|done].
  intros [= <-]. apply expand_wf in He as [? ?]; naive_solver.
Qed.

Lemma mask_length n l : length (mask n l) = length l.
Proof. apply length_imap. Qed.

Lemma mask_idemp n l : mask n (mask n l) = mask n l.
Proof.
  apply list_eq. intros i. unfold mask. rewrite !list_lookup_imap.
  destruct (l !! i); [|done]. simpl. by rewrite <-Z.land_assoc, Z.land_diag.
Qed.

Lemma dtoi_bounds n s v r : 0 ≤ n < 16777215 → dtoi n s = Some (v, r) → 0 ≤ v < 16777215.
Proof.
  revert n. induction s as [|c s IH]; intros n Hn; cbn [dtoi]; [naive_solver|].
  destruct (is_digit c) eqn:Hd; [|naive_solver]. apply digit_value_bounds in Hd.
  destruct (Z.leb_spec 16777215 (n * 10 + digit_value c)); [done|]. apply IH. lia.
Qed.

(** A network that is in canonical form: its host bits are zero. *)
Definition wf_net (n : IPNet) : Prop :=
  (length (net_IP n) = 4%nat ∨ length (net_IP n) = 16%nat) ∧
  mask (net_ones n) (net_IP n) = net_IP n ∧
  0 ≤ net_ones n ≤ 8 * Z.of_nat (length (net_IP n)).

Lemma ParseCIDR_wf s n : ParseCIDR s = Some n → wf_net n.
Proof.
  unfold ParseCIDR. destruct (cut "/" s) as [[a m]|]; [|done].
  destruct (ParseAddr a) as [addr|] eqn:Ha; [|done]. apply ParseAddr_wf in Ha as [_ Hl].
  destruct (negb _); [done|]. destruct (String.eqb m ""); [done|].
  destruct (dtoi 0 m) as [[v r]|] eqn:Hd; [|done]. apply dtoi_bounds in Hd; [|lia].
  destruct (_ || _) eqn:Ht; [done|]. intros [= <-].
  unfold wf_net. simpl. rewrite mask_length, mask_idemp. unfold BitLen in Ht. zbool.
  split; [done|]. split; [done|lia].
Qed.
