(* ===== verification/Url.v ===== *)
(** The part of Go's [net/url] (Go 1.25) that the repository calls: [Parse],
    [URL.String], [URL.Hostname], [URL.IsAbs] and [Userinfo].  Parse errors
    are not told apart: no caller looks at them. *)
From S2P Require Import Prelude GoStrings Strconv Net.

Local Open Scope string_scope.
Local Open Scope Z_scope.

(** [url.Userinfo]; a nil pointer is [None] in [URL]. *)
Record Userinfo := {
  ui_username : string;
  ui_password : string;
  ui_passwordSet : bool
}.

Record URL := {
  Scheme : string;
  Opaque_ : string;
  User : option Userinfo;
  Host : string;
  Path : string;
  RawPath : string;
  OmitHost : bool;
  ForceQuery : bool;
  RawQuery : string;
  Fragment : string;
  RawFragment : string
}.

#[global] Instance Userinfo_eq_dec : EqDecision Userinfo.
Proof. solve_decision. Defined.
#[global] Instance URL_eq_dec : EqDecision URL.
Proof. solve_decision. Defined.

Definition set_path_raw (u : URL) (path rawPath : string) : URL := {|
  Scheme := Scheme u; Opaque_ := Opaque_ u; User := User u; Host := Host u;
  Path := path; RawPath := rawPath; OmitHost := OmitHost u;
  ForceQuery := ForceQuery u; RawQuery := RawQuery u;
  Fragment := Fragment u; RawFragment := RawFragment u |}.

Definition set_fragment_raw (u : URL) (fragment raw : string) : URL := {|
  Scheme := Scheme u; Opaque_ := Opaque_ u; User := User u; Host := Host u;
  Path := Path u; RawPath := RawPath u; OmitHost := OmitHost u;
  ForceQuery := ForceQuery u; RawQuery := RawQuery u;
  Fragment := fragment; RawFragment := raw |}.

Module Escape.

Inductive encoding :=
| encodePath
| encodeHost
| encodeZone
| encodeUserPassword
| encodeFragment.

#[global] Instance encoding_eq_dec : EqDecision encoding.
Proof. solve_decision. Defined.

Definition is_alpha (c : ascii) : bool :=
  let b := byte c in
  ((97 <=? b) && (b <=? 122)) || ((65 <=? b) && (b <=? 90)).

Definition is_alnum (c : ascii) : bool := is_alpha c || is_digit c.

Definition among (c : ascii) (set : string) : bool := contains_byte c set.

Definition host_mode (mode : encoding) : bool :=
  match mode with encodeHost | encodeZone => true | _ => false end.

Definition quote_char : string := String "034" "".

Definition shouldEscape (c : ascii) (mode : encoding) : bool :=
  if is_alnum c then false
  else if host_mode mode && among c ("!$&'()*+,;=:[]<>" +:+ quote_char) then false
  else if among c "-_.~" then false
  else
    let reserved := among c "$&+,/:;=?@" in
    match mode with
    | encodePath => if reserved then Ascii.eqb c "?" else true
    | encodeUserPassword => if reserved then among c "@/?:" else true
    | encodeFragment => if reserved then false else negb (among c "!()*")
    | encodeHost | encodeZone => true
    end.

Definition hex_pair (a b : ascii) : option Z :=
  match hex_value a, hex_value b with
  | Some x, Some y => Some (x * 16 + y)
  | _, _ => None
  end.

(** [unescape]: the check and the decoding in one pass. *)
Fixpoint unescape (s : string) (mode : encoding) : option string :=
  match s with
  | EmptyString => Some ""
  | String c s' =>
      if Ascii.eqb c "%" then
        match s' with
        | String a (String b rest) =>
            match hex_pair a b with
            | None => None
            | Some v =>
                let is25 := Ascii.eqb a "2" && Ascii.eqb b "5" in
                if bool_decide (mode = encodeHost) && (v <? 128) && negb is25 then None
                else if bool_decide (mode = encodeZone) && negb is25 && negb (v =? 32)
                        && shouldEscape (chr v) encodeHost then None
                else String (chr v) <$> unescape rest mode
            end
        | _ => None
        end
      else if host_mode mode && (byte c <? 128) && shouldEscape c mode then None
      else String c <$> unescape s' mode
  end.

Definition upper_hex (z : Z) : ascii := chr (if z <? 10 then 48 + z else 55 + z).

Fixpoint escape (s : string) (mode : encoding) : string :=
  match s with
  | EmptyString => ""
  | String c s' =>
      if shouldEscape c mode
      then String "%" (String (upper_hex (byte c / 16))
                         (String (upper_hex (byte c mod 16)) (escape s' mode)))
      else String c (escape s' mode)
  end.

Definition validEncoded (s : string) (mode : encoding) : bool :=
  all_bytes (λ c, among c "!$&'()*+,;=:@[]%" || negb (shouldEscape c mode)) s.

End Escape.
Export Escape.

Module ParseURL.

(** [getScheme]: [None] is the error, [Some ("", _)] means no scheme. *)
Fixpoint scheme_loop (first : bool) (seen rest whole : string) : option (string * string) :=
  match rest with
  | EmptyString => Some ("", whole)
  | String c rest' =>
      if is_alpha c then scheme_loop false (seen +:+ String c "") rest' whole
      else if is_digit c || among c "+-." then
        if first then Some ("", whole)
        else scheme_loop false (seen +:+ String c "") rest' whole
      else if Ascii.eqb c ":" then
        if first then None else Some (seen, rest')
      else Some ("", whole)
  end.

Definition getScheme (rawURL : string) : option (string * string) :=
  scheme_loop true "" rawURL rawURL.

Fixpoint ascii_lower (s : string) : string :=
  match s with
  | EmptyString => ""
  | String c s' =>
      let b := byte c in
      String (if (65 <=? b) && (b <=? 90) then chr (b + 32) else c) (ascii_lower s')
  end.

Definition validOptionalPort (port : string) : bool :=
  match port with
  | EmptyString => true
  | String c ds => Ascii.eqb c ":" && all_bytes is_digit ds
  end.

Definition validUserinfo (s : string) : bool :=
  all_bytes (λ c, is_alnum c || among c "-._:~!$&'()*+,;=%@") s.

(** Index of the first ["%25"]. *)
Fixpoint zone_index (s : string) : option nat :=
  match s with
  | EmptyString => None
  | String _ s' => if has_prefix s "%25" then Some O else S <$> zone_index s'
  end.

(** [parseHost].  A bracketed host must be an IPv6 address that starts the
    host. *)
Definition parseHost (host : string) : option string :=
  match last_index "[" host with
  | Some open_ =>
      if negb (open_ =? 0)%nat then None else
      match last_index "]" host with
      | None => None
      | Some close =>
          let colonPort := drop (S close) host in
          if negb (validOptionalPort colonPort) then None else
          let hostname := take (close - 1) (drop 1 host) in
          let unescaped :=
            match zone_index hostname with
            | Some z =>
                match unescape (take z hostname) encodeHost,
                      unescape (drop z hostname) encodeZone with
                | Some h, Some zone => Some (h +:+ zone)
                | _, _ => None
                end
            | None => unescape hostname encodeHost
            end in
          match unescape colonPort encodeHost, unescaped with
          | Some port, Some name =>
              match ParseAddr name with
              | Some a => if Is4 a then None else Some ("[" +:+ name +:+ "]" +:+ port)
              | None => None
              end
          | _, _ => None
          end
      end
  | None =>
      let port_ok := match last_index ":" host with
                     | Some i => validOptionalPort (drop i host)
                     | None => true
                     end in
      if port_ok then unescape host encodeHost else None
  end.

Definition parse_userinfo (userinfo : string) : option Userinfo :=
  if negb (validUserinfo userinfo) then None else
  match cut ":" userinfo with
  | None =>
      match unescape userinfo encodeUserPassword with
      | Some name => Some {| ui_username := name; ui_password := ""; ui_passwordSet := false |}
      | None => None
      end
  | Some (name, password) =>
      match unescape name encodeUserPassword, unescape password encodeUserPassword with
      | Some name, Some password =>
          Some {| ui_username := name; ui_password := password; ui_passwordSet := true |}
      | _, _ => None
      end
  end.

Definition parseAuthority (authority : string) : option (option Userinfo * string) :=
  match last_index "@" authority with
  | None => pair None <$> parseHost authority
  | Some i =>
      match parseHost (drop (S i) authority), parse_userinfo (take i authority) with
      | Some host, Some user => Some (Some user, host)
      | _, _ => None
      end
  end.

Definition contains_ctl (s : string) : bool :=
  any_byte (λ c, (byte c <? 32) || (byte c =? 127)) s.

(** [URL.setPath] and [URL.setFragment] *)
Definition setPath (u : URL) (p : string) : option URL :=
  match unescape p encodePath with
  | None => None
  | Some path =>
      Some (set_path_raw u path (if String.eqb p (escape path encodePath) then "" else p))
  end.

Definition setFragment (u : URL) (f : string) : option URL :=
  match unescape f encodeFragment with
  | None => None
  | Some frag =>
      Some (set_fragment_raw u frag (if String.eqb f (escape frag encodeFragment) then "" else f))
  end.

Definition bare (scheme opaque : string) (user : option Userinfo) (host path : string)
    (omit force : bool) (query : string) : URL := {|
  Scheme := scheme; Opaque_ := opaque; User := user; Host := host; Path := path;
  RawPath := ""; OmitHost := omit; ForceQuery := force; RawQuery := query;
  Fragment := ""; RawFragment := "" |}.

(** The unexported [parse(rawURL, false)]. *)
Definition parse (rawURL : string) : option URL :=
  if contains_ctl rawURL then None
  else if String.eqb rawURL "*" then Some (bare "" "" None "" "*" false false "")
  else match getScheme rawURL with
  | None => None
  | Some (scheme, rest) =>
    let scheme := ascii_lower scheme in
    let '(force, rest, query) :=
      if has_suffix rest "?" && (count "?" rest =? 1)%nat
      then (true, take (String.length rest - 1) rest, "")
      else let '(a, b) := cut_or_all "?" rest in (false, a, b) in
    if negb (has_prefix rest "/") && negb (String.eqb scheme "")
    then Some (bare scheme rest None "" "" false force query)
    else if negb (has_prefix rest "/") && contains_byte ":" (fst (cut_or_all "/" rest))
    then None
    else if (negb (String.eqb scheme "") || negb (has_prefix rest "///")) && has_prefix rest "//"
    then
      let authority := drop 2 rest in
      let '(authority, path) :=
        match index "/" authority with
        | Some i => (take i authority, drop i authority)
        | None => (authority, "")
        end in
      match parseAuthority authority with
      | None => None
      | Some (user, host) => setPath (bare scheme "" user host "" false force query) path
      end
    else
      setPath (bare scheme "" None "" "" (negb (String.eqb scheme "") && has_prefix rest "/")
                 force query) rest
  end.

End ParseURL.

(** [url.Parse] *)
Definition url_Parse (rawURL : string) : option URL :=
  let '(u, frag) := cut_or_all "#" rawURL in
  match ParseURL.parse u with
  | None => None
  | Some url => if String.eqb frag "" then Some url else ParseURL.setFragment url frag
  end.

Definition IsAbs (u : URL) : bool := negb (String.eqb (Scheme u) "").

Definition Hostname (u : URL) : string :=
  let host := match last_index ":" (Host u) with
              | Some i => if ParseURL.validOptionalPort (drop i (Host u))
                          then take i (Host u) else Host u
              | None => Host u
              end in
  if has_prefix host "[" && has_suffix host "]"
  then take (String.length host - 2) (drop 1 host) else host.

Definition Userinfo_String (ui : Userinfo) : string :=
  if negb (String.eqb (ui_username ui) "") || ui_passwordSet ui then
    escape (ui_username ui) encodeUserPassword +:+
    (if ui_passwordSet ui then ":" +:+ escape (ui_password ui) encodeUserPassword else "")
  else "".

Definition EscapedPath (u : URL) : string :=
  if negb (String.eqb (RawPath u) "") && validEncoded (RawPath u) encodePath
     && bool_decide (unescape (RawPath u) encodePath = Some (Path u))
  then RawPath u
  else if String.eqb (Path u) "*" then "*" else escape (Path u) encodePath.

Definition EscapedFragment (u : URL) : string :=
  if negb (String.eqb (RawFragment u) "") && validEncoded (RawFragment u) encodeFragment
     && bool_decide (unescape (RawFragment u) encodeFragment = Some (Fragment u))
  then RawFragment u
  else escape (Fragment u) encodeFragment.

(** [URL.String] *)
Definition URL_String (u : URL) : string :=
  let nonempty s := negb (String.eqb s "") in
  let has_user := bool_decide (is_Some (User u)) in
  let scheme := if nonempty (Scheme u) then Scheme u +:+ ":" else "" in
  let body :=
    if nonempty (Opaque_ u) then scheme +:+ Opaque_ u
    else
      let authority :=
        if (nonempty (Scheme u) || nonempty (Host u) || has_user)
           && negb (OmitHost u && negb (nonempty (Host u)) && negb has_user)
        then (if nonempty (Host u) || nonempty (Path u) || has_user then "//" else "") +:+
             match User u with Some ui => Userinfo_String ui +:+ "@" | None => "" end +:+
             escape (Host u) encodeHost
        else "" in
      let path := EscapedPath u in
      let slash := if nonempty path && negb (has_prefix path "/") && nonempty (Host u)
                   then "/" else "" in
      let buf := scheme +:+ authority +:+ slash in
      let dot := if String.eqb buf "" && contains_byte ":" (fst (cut_or_all "/" path))
                 then "./" else "" in
      buf +:+ dot +:+ path in
  body +:+
  (if ForceQuery u || nonempty (RawQuery u) then "?" +:+ RawQuery u else "") +:+
  (if nonempty (Fragment u) then "#" +:+ EscapedFragment u else "").

(** [url.QueryEscape] *)
Fixpoint QueryEscape (s : string) : string :=
  match s with
  | EmptyString => ""
  | String c s' =>
      if is_alnum c || among c "-_.~" then String c (QueryEscape s')
      else if Ascii.eqb c " " then String "+" (QueryEscape s')
      else String "%" (String (upper_hex (byte c / 16))
                         (String (upper_hex (byte c mod 16)) (QueryEscape s')))
  end.

(** [url.Values.Encode] of one key with one value. *)
Definition encode_value (key value : string) : string :=
  QueryEscape key +:+ "=" +:+ QueryEscape value.

Example query_escape : QueryEscape "a b/c" = "a+b%2Fc". Proof. reflexivity. Qed.
Example url_v1 : url_Parse "http://localhost:8080/v1" =
  Some (set_path_raw (ParseURL.bare "http" "" None "localhost:8080" "" false false "") "/v1" "").
Proof. reflexivity. Qed.
Example url_string : URL_String <$> url_Parse "HTTPS://user:p%40ss@[::1]:8443/a%2fb?q=1#frag" =
  Some "https://user:p%40ss@[::1]:8443/a%2fb?q=1#frag".
Proof. reflexivity. Qed.
Example url_hostname : Hostname <$> url_Parse "https://[fe80::1%25en0]:443" = Some "fe80::1%en0".
Proof. reflexivity. Qed.
Example url_bad_bracket : url_Parse "http://x[::1]/" = None. Proof. reflexivity. Qed.
Example url_v4_bracket : url_Parse "http://[1.2.3.4]/" = None. Proof. reflexivity. Qed.
Example url_opaque : Host <$> url_Parse "mailto:a@b" = Some "". Proof. reflexivity. Qed.
Example url_bad_port : url_Parse "http://h:x/" = None. Proof. reflexivity. Qed.
Example url_force : ForceQuery <$> url_Parse "http://h/v1?" = Some true. Proof. reflexivity. Qed.
Example url_redis : (λ u, (User u, Path u)) <$> url_Parse "redis://:secret@redis:6379/0" =
  Some (Some {| ui_username := ""; ui_password := "secret"; ui_passwordSet := true |}, "/0").
Proof. reflexivity. Qed.
