(* ===== verification/Regex.v ===== *)
(** Anchored regular expressions, for the [regexp.MatchString] calls of the
    configuration.  A pattern [^...$] without flags matches the whole string;
    matching is by derivatives and is proved to decide the language. *)
From S2P Require Import Prelude GoStrings.

Local Open Scope string_scope.

Inductive re :=
| Void
| Eps
| Cls (p : ascii → bool)
| Cat (a b : re)
| Alt (a b : re)
| Star (a : re).

Fixpoint nullable (r : re) : bool :=
  match r with
  | Void | Cls _ => false
  | Eps | Star _ => true
  | Cat a b => nullable a && nullable b
  | Alt a b => nullable a || nullable b
  end.

Fixpoint deriv (c : ascii) (r : re) : re :=
  match r with
  | Void | Eps => Void
  | Cls p => if p c then Eps else Void
  | Cat a b =>
      if nullable a then Alt (Cat (deriv c a) b) (deriv c b) else Cat (deriv c a) b
  | Alt a b => Alt (deriv c a) (deriv c b)
  | Star a => Cat (deriv c a) (Star a)
  end.

Fixpoint MatchString (r : re) (s : string) : bool :=
  match s with
  | EmptyString => nullable r
  | String c s' => MatchString (deriv c r) s'
  end.

(** [r+], [r{0,n}] and [(?:r)?] *)
Definition plus (r : re) : re := Cat r (Star r).
Definition opt (r : re) : re := Alt Eps r.
Fixpoint upto (n : nat) (r : re) : re :=
  match n with
  | O => Eps
  | S n' => opt (Cat r (upto n' r))
  end.

(** [r{n,}] *)
Fixpoint atleast (n : nat) (r : re) : re :=
  match n with
  | O => Star r
  | S n' => Cat r (atleast n' r)
  end.

(** * The language of an expression *)

Inductive lang : re → string → Prop :=
| lang_eps : lang Eps ""
| lang_cls p c : p c = true → lang (Cls p) (String c "")
| lang_cat a b s t : lang a s → lang b t → lang (Cat a b) (s +:+ t)
| lang_alt_l a b s : lang a s → lang (Alt a b) s
| lang_alt_r a b s : lang b s → lang (Alt a b) s
| lang_star_nil a : lang (Star a) ""
| lang_star_cons a s t : lang a s → lang (Star a) t → lang (Star a) (s +:+ t).

Lemma sapp_empty s t : s +:+ t = "" → s = "" ∧ t = "".
Proof. by destruct s. Qed.

Lemma nullable_lang r : nullable r = true ↔ lang r "".
Proof.
  split.
  - induction r; simpl; try done; rewrite ?andb_true_iff, ?orb_true_iff.
    + constructor.
    + intros [? ?]. change "" with ("" +:+ ""). constructor; auto.
    + intros [?|?]; [apply lang_alt_l|apply lang_alt_r]; auto.
    + constructor.
  - intros H. remember "" as e eqn:He. induction H; simpl; try done.
    + apply sapp_empty in He as [-> ->]. by rewrite IHlang1, IHlang2.
    + by rewrite IHlang.
    + by rewrite IHlang, orb_true_r.
Qed.

Lemma deriv_sound c r s : lang (deriv c r) s → lang r (String c s).
Proof.
  revert s. induction r as [| |p|a IHa b IHb|a IHa b IHb|a IHa]; intros s; simpl.
  - inversion 1.
  - inversion 1.
  - destruct (p c) eqn:Hp; inversion 1. by constructor.
  - destruct (nullable a) eqn:Hn.
    + inversion 1 as [| | |? ? ? Hl|? ? ? Hl| |]; subst.
      * inversion Hl as [| |? ? s1 s2 H1 H2| | | |]; subst.
        change (String c (s1 +:+ s2)) with (String c s1 +:+ s2). constructor; auto.
      * change (String c s) with ("" +:+ String c s). constructor; [by apply nullable_lang|auto].
    + inversion 1 as [| |? ? s1 s2 H1 H2| | | |]; subst.
      change (String c (s1 +:+ s2)) with (String c s1 +:+ s2). constructor; auto.
  - inversion 1; subst; [apply lang_alt_l|apply lang_alt_r]; auto.
  - inversion 1 as [| |? ? s1 s2 H1 H2| | | |]; subst.
    change (String c (s1 +:+ s2)) with (String c s1 +:+ s2). apply lang_star_cons; auto.
Qed.

Lemma deriv_complete c r s : lang r (String c s) → lang (deriv c r) s.
Proof.
  intros H. remember (String c s) as t eqn:Ht. revert s Ht.
  induction H as [|p d Hp|a b s t Ha IHa Hb IHb|a b s Ha IHa|a b s Hb IHb|a|a s t Ha IHa Hs IHs];
    intros u Hu; simpl; try done.
  - injection Hu as -> <-. rewrite Hp. constructor.
  - destruct s as [|d s].
    + simpl in Hu. subst t. rewrite (proj2 (nullable_lang a) Ha). apply lang_alt_r. auto.
    + injection Hu as -> <-.
      assert (lang (Cat (deriv c a) b) (s +:+ t)) by (constructor; auto).
      destruct (nullable a); [by apply lang_alt_l|done].
  - apply lang_alt_l. auto.
  - apply lang_alt_r. auto.
  - destruct s as [|d s]; [by apply IHs|].
    injection Hu as -> <-. constructor; auto.
Qed.

(** The matcher decides the language of the pattern. *)
Lemma MatchString_lang r s : MatchString r s = true ↔ lang r s.
Proof.
  revert r. induction s as [|c s IH]; intros r; simpl; [apply nullable_lang|].
  rewrite IH. split; [apply deriv_sound|apply deriv_complete].
Qed.

(** * The shapes the patterns use *)

Lemma lang_cls_inv p s : lang (Cls p) s ↔ ∃ c, s = String c "" ∧ p c = true.
Proof. split; [inversion 1; subst; eauto|intros (c & -> & Hc); by constructor]. Qed.

Lemma lang_cat_inv a b s :
  lang (Cat a b) s ↔ ∃ s1 s2, s = s1 +:+ s2 ∧ lang a s1 ∧ lang b s2.
Proof.
  split; [inversion 1; subst; eauto 6|intros (? & ? & -> & ? & ?); by constructor].
Qed.

Lemma lang_cls_cat p b s :
  lang (Cat (Cls p) b) s ↔ ∃ c t, s = String c t ∧ p c = true ∧ lang b t.
Proof.
  rewrite lang_cat_inv. split.
  - intros (s1 & s2 & -> & (c & -> & Hc)%lang_cls_inv & Hb). eauto.
  - intros (c & t & -> & Hc & Hb). exists (String c ""), t. split; [done|].
    split; [by constructor|done].
Qed.

Lemma lang_opt r s : lang (opt r) s ↔ s = "" ∨ lang r s.
Proof.
  unfold opt. split.
  - inversion 1 as [| | |? ? ? Hl| | |]; subst; [inversion Hl; by left|by right].
  - intros [->|H]; [apply lang_alt_l; constructor|by apply lang_alt_r].
Qed.

Lemma lang_star_cls p s : lang (Star (Cls p)) s ↔ all_bytes p s = true.
Proof.
  split.
  - remember (Star (Cls p)) as r eqn:Hr. induction 1; simplify_eq; [done|].
    rewrite all_bytes_app, IHlang2 by done.
    match goal with H : lang (Cls _) _ |- _ => apply lang_cls_inv in H as (c & -> & Hc) end.
    simpl. by rewrite Hc.
  - induction s as [|c s IH]; simpl; [constructor|].
    rewrite andb_true_iff. intros [Hc Hs].
    change (String c s) with (String c "" +:+ s).
    apply lang_star_cons; [by constructor|auto].
Qed.

Lemma lang_upto_cls n p s :
  lang (upto n (Cls p)) s ↔ all_bytes p s = true ∧ (String.length s ≤ n)%nat.
Proof.
  revert s. induction n as [|n IH]; intros s; cbn [upto].
  - split; [inversion 1; subst; done|].
    intros [_ Hl]. destruct s; simpl in Hl; [constructor|lia].
  - rewrite lang_opt, lang_cls_cat. setoid_rewrite IH. split.
    + intros [->|(c & t & -> & Hc & Ht & Hl)]; simpl; [split; [done|lia]|].
      rewrite Hc, Ht. split; [done|lia].
    + destruct s as [|c t]; [by left|]. simpl. rewrite andb_true_iff.
      intros [[Hc Ht] Hl]. right. exists c, t. repeat split; try done. lia.
Qed.

Lemma lang_atleast_cls n p s :
  lang (atleast n (Cls p)) s ↔ all_bytes p s = true ∧ (n ≤ String.length s)%nat.
Proof.
  revert s. induction n as [|n IH]; intros s; cbn [atleast].
  - rewrite lang_star_cls. split; [intros; split; [done|lia]|tauto].
  - rewrite lang_cls_cat. setoid_rewrite IH. split.
    + intros (c & t & -> & Hc & Ht & Hl). simpl. rewrite Hc, Ht. split; [done|lia].
    + destruct s as [|c t]; simpl; [lia|]. rewrite andb_true_iff.
      intros [[Hc Ht] Hl]. exists c, t. repeat split; try done. lia.
Qed.

Lemma lang_plus_cls p s :
  lang (plus (Cls p)) s ↔ all_bytes p s = true ∧ s ≠ "".
Proof.
  unfold plus. rewrite lang_cls_cat. setoid_rewrite lang_star_cls. split.
  - intros (c & t & -> & Hc & Ht). simpl. by rewrite Hc, Ht.
  - destruct s as [|c t]; [tauto|]. simpl. rewrite andb_true_iff. intros [[Hc Ht] _].
    eauto 6.
Qed.

(** * Character classes *)

Local Open Scope Z_scope.

(** A range of bytes, [a-z], and a set of single characters. *)
Definition range (lo hi : ascii) (c : ascii) : bool :=
  (byte lo <=? byte c) && (byte c <=? byte hi).
Definition oneof (set : string) (c : ascii) : bool := contains_byte c set.
Definition either (p q : ascii → bool) (c : ascii) : bool := p c || q c.

Definition az : ascii → bool := range "a" "z".
Definition AZ : ascii → bool := range "A" "Z".
Definition digit09 : ascii → bool := range "0" "9".
Definition alnum : ascii → bool := either AZ (either az digit09).
