(* ===== verification/Base64.v ===== *)
(** Package [encoding/base64]: [StdEncoding.EncodeToString],
    [StdEncoding.Strict().DecodeString] and [RawURLEncoding.EncodeToString],
    with the round trip and the characterisation of canonical keys. *)
From S2P Require Import Prelude GoStrings.

Local Open Scope string_scope.
Local Open Scope Z_scope.

Definition std_alphabet : string :=
  "ABCDEFGHIJKLMNOPQRSTUVWXYZabcdefghijklmnopqrstuvwxyz0123456789+/".
Definition url_alphabet : string :=
  "ABCDEFGHIJKLMNOPQRSTUVWXYZabcdefghijklmnopqrstuvwxyz0123456789-_".

Definition sextet_char (alphabet : string) (z : Z) : ascii :=
  default "A"%char (String.get (Z.to_nat z) alphabet).

(** [decodeMap]: [None] is [0xff]. *)
Definition char_sextet (alphabet : string) (c : ascii) : option Z :=
  Z.of_nat <$> index c alphabet.

Definition sextet (val : Z) (shift : Z) : Z := Z.land (Z.shiftr val shift) 63.

(** [enc.Encode]: groups of three bytes; [pad] is the padding character. *)
Fixpoint encode (alphabet : string) (pad : string) (s : string) : string :=
  let ch := sextet_char alphabet in
  match s with
  | EmptyString => ""
  | String a EmptyString =>
      let val := Z.shiftl (byte a) 16 in
      String (ch (sextet val 18)) (String (ch (sextet val 12)) (pad +:+ pad))
  | String a (String b EmptyString) =>
      let val := Z.lor (Z.shiftl (byte a) 16) (Z.shiftl (byte b) 8) in
      String (ch (sextet val 18)) (String (ch (sextet val 12))
        (String (ch (sextet val 6)) pad))
  | String a (String b (String c rest)) =>
      let val := Z.lor (Z.lor (Z.shiftl (byte a) 16) (Z.shiftl (byte b) 8)) (byte c) in
      String (ch (sextet val 18)) (String (ch (sextet val 12))
        (String (ch (sextet val 6)) (String (ch (sextet val 0))
          (encode alphabet pad rest))))
  end.

Definition StdEncode : string → string := encode std_alphabet "=".
Definition RawURLEncode : string → string := encode url_alphabet "".

Definition is_newline (c : ascii) : bool := Ascii.eqb c "010" || Ascii.eqb c "013".

Fixpoint strip_newlines (s : string) : string :=
  match s with
  | EmptyString => ""
  | String c s' => if is_newline c then strip_newlines s' else String c (strip_newlines s')
  end.

Definition assemble (x0 x1 x2 x3 : Z) : Z :=
  Z.lor (Z.lor (Z.lor (Z.shiftl x0 18) (Z.shiftl x1 12)) (Z.shiftl x2 6)) x3.

Definition out_byte (val shift : Z) : Z := Z.land (Z.shiftr val shift) 255.

(** [decodeQuantum] of the strict decoder, iterated, on input without line
    breaks: padding ends the input and the bits it leaves over must be zero. *)
Fixpoint decode_quanta (s : string) : option string :=
  let val_of := char_sextet std_alphabet in
  match s with
  | EmptyString => Some ""
  | String c0 (String c1 (String c2 (String c3 rest))) =>
      match val_of c0, val_of c1 with
      | Some x0, Some x1 =>
          match val_of c2 with
          | Some x2 =>
              match val_of c3 with
              | Some x3 =>
                  let val := assemble x0 x1 x2 x3 in
                  (λ r, String (chr (out_byte val 16)) (String (chr (out_byte val 8))
                          (String (chr (out_byte val 0)) r))) <$> decode_quanta rest
              | None =>
                  let val := assemble x0 x1 x2 0 in
                  if Ascii.eqb c3 "=" && String.eqb rest "" && (out_byte val 0 =? 0)
                  then Some (String (chr (out_byte val 16)) (String (chr (out_byte val 8)) ""))
                  else None
              end
          | None =>
              let val := assemble x0 x1 0 0 in
              if Ascii.eqb c2 "=" && Ascii.eqb c3 "=" && String.eqb rest "" &&
                 (out_byte val 8 =? 0) && (out_byte val 0 =? 0)
              then Some (String (chr (out_byte val 16)) "")
              else None
          end
      | _, _ => None
      end
  | _ => None
  end.

(** The library skips line breaks wherever they stand. *)
Definition StrictDecode (s : string) : option string := decode_quanta (strip_newlines s).

(** The test [err != nil || len(decoded) != 32 || Encode(decoded) != s] of
    [ReadBase64Key] and [validateRing], negated: the key it yields. *)
Definition canonical_key (s : string) : option string :=
  match StrictDecode s with
  | Some decoded =>
      if (String.length decoded =? 32)%nat && String.eqb (StdEncode decoded) s
      then Some decoded else None
  | None => None
  end.

Example encode_hello : StdEncode "hello" = "aGVsbG8=". Proof. reflexivity. Qed.
Example decode_hello : StrictDecode "aGVsbG8=" = Some "hello". Proof. reflexivity. Qed.
Example decode_nonzero_tail : StrictDecode "aGVsbG9=" = None. Proof. reflexivity. Qed.
Example decode_newline :
  StrictDecode ("aGVs" +:+ String "010" "bG8=") = Some "hello". Proof. reflexivity. Qed.
Example raw_url : RawURLEncode (String "255" (String "254" "")) = "__4". Proof. reflexivity. Qed.

(** * Round trip *)

Lemma sextet_bounds val shift : 0 ≤ sextet val shift < 64.
Proof.
  unfold sextet. change 63 with (Z.ones 6). rewrite Z.land_ones by lia.
  apply Z.mod_pos_bound. lia.
Qed.

Definition sextets : list Z := Z.of_nat <$> seq 0 64.

Lemma sextets_complete z : 0 ≤ z < 64 → z ∈ sextets.
Proof.
  intros Hz. apply list_elem_of_fmap. exists (Z.to_nat z).
  rewrite elem_of_seq. lia.
Qed.

Lemma char_sextet_char z :
  0 ≤ z < 64 → char_sextet std_alphabet (sextet_char std_alphabet z) = Some z.
Proof.
  intros Hz%sextets_complete. revert z Hz. apply Forall_forall.
  repeat constructor.
Qed.

(** No character of the alphabets is a line break or padding, and all are
    visible ASCII. *)
Definition std_char (c : ascii) : bool :=
  bool_decide (is_Some (char_sextet std_alphabet c)).
Definition url_char (c : ascii) : bool :=
  bool_decide (is_Some (char_sextet url_alphabet c)).

Lemma sextet_char_not_newline z :
  0 ≤ z < 64 → is_newline (sextet_char std_alphabet z) = false.
Proof.
  intros Hz%sextets_complete. revert z Hz. apply Forall_forall. repeat constructor.
Qed.

Lemma sextet_char_url z : 0 ≤ z < 64 → url_char (sextet_char url_alphabet z) = true.
Proof.
  intros Hz%sextets_complete. revert z Hz. apply Forall_forall. repeat constructor.
Qed.

(** Disjoint bits add up. *)
Lemma lor_low a b k : 0 ≤ k → 0 ≤ b < 2 ^ k → Z.lor (a * 2 ^ k) b = a * 2 ^ k + b.
Proof.
  intros Hk Hb. rewrite <- Z.add_lor_land.
  replace (Z.land (a * 2 ^ k) b) with 0; [lia|]. symmetry.
  apply Z.bits_inj'. intros n Hn. rewrite Z.land_spec, Z.bits_0.
  destruct (Z.lt_ge_cases n k) as [Hlt|Hge].
  - rewrite Z.mul_pow2_bits_low by lia. done.
  - rewrite <- (Z.mod_small b (2 ^ k)) by lia.
    rewrite Z.mod_pow2_bits_high by lia. apply andb_false_r.
Qed.

Lemma sextet_div val shift : 0 ≤ shift → sextet val shift = (val / 2 ^ shift) mod 64.
Proof.
  intros Hs. unfold sextet. change 63 with (Z.ones 6).
  rewrite Z.land_ones by lia. rewrite Z.shiftr_div_pow2 by lia. done.
Qed.

Lemma out_byte_div val shift : 0 ≤ shift → out_byte val shift = (val / 2 ^ shift) mod 256.
Proof.
  intros Hs. unfold out_byte. change 255 with (Z.ones 8).
  rewrite Z.land_ones by lia. rewrite Z.shiftr_div_pow2 by lia. done.
Qed.

Lemma assemble_sum x0 x1 x2 x3 :
  0 ≤ x1 < 64 → 0 ≤ x2 < 64 → 0 ≤ x3 < 64 →
  assemble x0 x1 x2 x3 = x0 * 262144 + x1 * 4096 + x2 * 64 + x3.
Proof.
  intros H1 H2 H3. unfold assemble. rewrite !Z.shiftl_mul_pow2 by lia.
  rewrite (lor_low x0 (x1 * 2 ^ 12)) by lia.
  replace (x0 * 2 ^ 18 + x1 * 2 ^ 12) with ((x0 * 64 + x1) * 2 ^ 12) by lia.
  rewrite (lor_low _ (x2 * 2 ^ 6)) by lia.
  replace ((x0 * 64 + x1) * 2 ^ 12 + x2 * 2 ^ 6)
    with ((x0 * 4096 + x1 * 64 + x2) * 2 ^ 6) by lia.
  rewrite (lor_low _ x3) by lia. lia.
Qed.

Lemma assemble_sextets val :
  0 ≤ val < 2 ^ 24 →
  assemble (sextet val 18) (sextet val 12) (sextet val 6) (sextet val 0) = val.
Proof.
  intros Hval. rewrite assemble_sum by apply sextet_bounds.
  rewrite !sextet_div by lia. Z.to_euclidean_division_equations. lia.
Qed.

(** The value of a group of three bytes. *)
Lemma group_value a b c :
  0 ≤ b < 256 → 0 ≤ c < 256 →
  Z.lor (Z.lor (Z.shiftl a 16) (Z.shiftl b 8)) c = a * 65536 + b * 256 + c.
Proof.
  intros Hb Hc. rewrite !Z.shiftl_mul_pow2 by lia.
  rewrite (lor_low a (b * 2 ^ 8)) by lia.
  replace (a * 2 ^ 16 + b * 2 ^ 8) with ((a * 256 + b) * 2 ^ 8) by lia.
  rewrite (lor_low _ c) by lia. lia.
Qed.

Lemma out_bytes a b c :
  0 ≤ a < 256 → 0 ≤ b < 256 → 0 ≤ c < 256 →
  let val := a * 65536 + b * 256 + c in
  out_byte val 16 = a ∧ out_byte val 8 = b ∧ out_byte val 0 = c.
Proof.
  intros Ha Hb Hc val. unfold val. rewrite !out_byte_div by lia.
  split_and!; Z.to_euclidean_division_equations; lia.
Qed.

Lemma assemble_bytes a b c :
  let val := byte a * 65536 + byte b * 256 + byte c in
  assemble (sextet val 18) (sextet val 12) (sextet val 6) (sextet val 0) = val.
Proof.
  intros val. apply assemble_sextets. unfold val.
  pose proof (byte_range a). pose proof (byte_range b). pose proof (byte_range c). lia.
Qed.

(** Induction three bytes at a time, as [Encode] walks its input. *)
Lemma string_ind3 (P : string → Prop) :
  P "" → (∀ a, P (String a "")) → (∀ a b, P (String a (String b ""))) →
  (∀ a b c s, P s → P (String a (String b (String c s)))) → ∀ s, P s.
Proof.
  intros H0 H1 H2 H3. fix IH 1. intros [|a [|b [|c s]]];
    [apply H0 | apply H1 | apply H2 | apply H3, IH].
Qed.

Lemma strip_encode s : strip_newlines (StdEncode s) = StdEncode s.
Proof.
  unfold StdEncode. induction s as [|a|a b|a b c s IH] using string_ind3; cbn [encode];
    cbn [strip_newlines]; rewrite ?sextet_char_not_newline by apply sextet_bounds;
    [done..|]. by rewrite IH.
Qed.

Lemma group_bytes a b c :
  Z.lor (Z.lor (Z.shiftl (byte a) 16) (Z.shiftl (byte b) 8)) (byte c)
  = byte a * 65536 + byte b * 256 + byte c.
Proof. apply group_value; apply byte_range. Qed.

Lemma group_bytes2 a b :
  Z.lor (Z.shiftl (byte a) 16) (Z.shiftl (byte b) 8)
  = byte a * 65536 + byte b * 256 + byte "000".
Proof. rewrite <- group_bytes. change (byte "000") with 0. by rewrite Z.lor_0_r. Qed.

Lemma group_bytes1 a :
  Z.shiftl (byte a) 16 = byte a * 65536 + byte "000" * 256 + byte "000".
Proof.
  rewrite <- group_bytes2. change (byte "000") with 0. by rewrite Z.shiftl_0_l, Z.lor_0_r.
Qed.

Lemma out_bytes_byte a b c :
  let val := byte a * 65536 + byte b * 256 + byte c in
  out_byte val 16 = byte a ∧ out_byte val 8 = byte b ∧ out_byte val 0 = byte c.
Proof. apply out_bytes; apply byte_range. Qed.

(** A sextet the padding stands for is zero. *)
Lemma low_sextets a b :
  sextet (byte a * 65536 + byte b * 256 + byte "000") 0 = 0 ∧
  sextet (byte a * 65536 + byte "000" * 256 + byte "000") 6 = 0.
Proof.
  change (byte "000") with 0. rewrite !sextet_div by lia.
  pose proof (byte_range a). pose proof (byte_range b).
  split; Z.to_euclidean_division_equations; lia.
Qed.

Lemma decode_encode s : decode_quanta (StdEncode s) = Some s.
Proof.
  unfold StdEncode. induction s as [|a|a b|a b c s IH] using string_ind3.
  - done.
  - cbn [encode]. rewrite group_bytes1. cbn [decode_quanta String.append].
    rewrite !char_sextet_char by apply sextet_bounds. cbn.
    pose proof (assemble_bytes a "000" "000") as Hv.
    cbv zeta in Hv. destruct (low_sextets a "000") as [E0 E6]. rewrite E0, E6 in Hv.
    rewrite Hv. destruct (out_bytes_byte a "000" "000") as (-> & -> & ->).
    cbn. by rewrite chr_byte.
  - cbn [encode]. rewrite group_bytes2. cbn [decode_quanta String.append].
    rewrite !char_sextet_char by apply sextet_bounds. cbn.
    pose proof (assemble_bytes a b "000") as Hv.
    cbv zeta in Hv. destruct (low_sextets a b) as [E0 _]. rewrite E0 in Hv.
    rewrite Hv. destruct (out_bytes_byte a b "000") as (-> & -> & ->).
    cbn. by rewrite !chr_byte.
  - cbn [encode]. rewrite group_bytes. cbn [decode_quanta].
    rewrite !char_sextet_char by apply sextet_bounds. rewrite IH, assemble_bytes.
    destruct (out_bytes_byte a b c) as (-> & -> & ->). cbn. by rewrite !chr_byte.
Qed.

(** Decoding an encoding gives the bytes back. *)
Lemma StrictDecode_StdEncode s : StrictDecode (StdEncode s) = Some s.
Proof. unfold StrictDecode. rewrite strip_encode. apply decode_encode. Qed.

(** The check accepts exactly the encodings of 32 bytes. *)
Lemma canonical_key_iff s b :
  canonical_key s = Some b ↔ String.length b = 32%nat ∧ s = StdEncode b.
Proof.
  unfold canonical_key. split.
  - destruct (StrictDecode s) as [d|]; [|done].
    destruct (String.length d =? 32)%nat eqn:Hl; [|done]. cbn [andb].
    destruct (String.eqb (StdEncode d) s) eqn:He; [|done].
    intros [= <-]. apply Nat.eqb_eq in Hl. apply String.eqb_eq in He. done.
  - intros [Hl ->]. rewrite StrictDecode_StdEncode, Hl, String.eqb_refl. done.
Qed.

Lemma RawURLEncode_chars s : all_bytes url_char (RawURLEncode s) = true.
Proof.
  unfold RawURLEncode. induction s as [|a|a b|a b c s IH] using string_ind3; cbn [encode String.append];
    cbn [all_bytes]; rewrite ?sextet_char_url by apply sextet_bounds; done.
Qed.

Lemma RawURLEncode_length3 s n :
  String.length s = (3 * n)%nat → String.length (RawURLEncode s) = (4 * n)%nat.
Proof.
  unfold RawURLEncode. revert n.
  induction s as [|a|a b|a b c s IH] using string_ind3; intros n; cbn [encode String.length String.append].
  1-3: lia.
  intros Hn. destruct n as [|n]; [lia|]. rewrite (IH n); lia.
Qed.

Lemma encode_length2 alphabet pad s n :
  String.length s = (3 * n + 2)%nat →
  String.length (encode alphabet pad s) = (4 * n + 3 + String.length pad)%nat.
Proof.
  revert n. induction s as [|a|a b|a b c s IH] using string_ind3; intros n;
    cbn [encode String.length String.append]; [lia|lia| |].
  - intros Hn. assert (n = 0%nat) as -> by lia. lia.
  - intros Hn. destruct n as [|n]; [lia|]. rewrite (IH n); lia.
Qed.

Lemma RawURLEncode_32 s : String.length s = 32%nat → String.length (RawURLEncode s) = 43%nat.
Proof. intros H. by apply (encode_length2 url_alphabet "" s 10). Qed.

Lemma StdEncode_32 s : String.length s = 32%nat → String.length (StdEncode s) = 44%nat.
Proof. intros H. by apply (encode_length2 std_alphabet "=" s 10). Qed.

Lemma sextet_char_std z : 0 ≤ z < 64 → std_char (sextet_char std_alphabet z) = true.
Proof.
  intros Hz. apply sextets_complete in Hz. revert z Hz. apply Forall_forall.
  apply (bool_decide_unpack _). vm_compute. exact I.
Qed.

Definition std_or_pad (c : ascii) : bool := std_char c || Ascii.eqb c "=".

Lemma StdEncode_chars s : all_bytes std_or_pad (StdEncode s) = true.
Proof.
  unfold StdEncode, std_or_pad. induction s as [|a|a b|a b c s IH] using string_ind3;
    cbn [encode String.append]; cbn [all_bytes];
    rewrite ?sextet_char_std by apply sextet_bounds; done.
Qed.

(** The two alphabets spell the same sextets, so texts of equal length without
    padding are as distinct as the padded ones. *)
Definition to_std (c : ascii) : ascii :=
  if Ascii.eqb c "-" then "+"%char else if Ascii.eqb c "_" then "/"%char else c.

Fixpoint map_bytes (f : ascii → ascii) (s : string) : string :=
  match s with EmptyString => "" | String c s' => String (f c) (map_bytes f s') end.

Lemma sextet_char_to_std z : 0 ≤ z < 64 →
  to_std (sextet_char url_alphabet z) = sextet_char std_alphabet z.
Proof.
  intros Hz. apply sextets_complete in Hz. revert z Hz. apply Forall_forall.
  apply (bool_decide_unpack _). vm_compute. exact I.
Qed.

Lemma encode_to_std s : map_bytes to_std (RawURLEncode s) = encode std_alphabet "" s.
Proof.
  unfold RawURLEncode. induction s as [|a|a b|a b c s IH] using string_ind3;
    cbn [encode String.append]; cbn [map_bytes];
    rewrite ?sextet_char_to_std by apply sextet_bounds; [done..|]. by rewrite IH.
Qed.

Lemma encode_pad s t : String.length s = String.length t →
  encode std_alphabet "" s = encode std_alphabet "" t → StdEncode s = StdEncode t.
Proof.
  unfold StdEncode. revert t.
  induction s as [|a|a b|a b c s IH] using string_ind3; intros [|a' [|b' [|c' t]]];
    cbn [encode String.append String.length]; intros Hl; try discriminate Hl; [done|..].
  - by intros [= -> ->].
  - by intros [= -> -> ->].
  - intros [= -> -> -> -> He]. rewrite (IH t); [done|congruence|done].
Qed.

Lemma RawURLEncode_inj s t : String.length s = String.length t →
  RawURLEncode s = RawURLEncode t → s = t.
Proof.
  intros Hl He. apply (f_equal (map_bytes to_std)) in He. rewrite !encode_to_std in He.
  apply encode_pad in He; [|done]. apply (f_equal StrictDecode) in He.
  rewrite !StrictDecode_StdEncode in He. congruence.
Qed.

#[global] Opaque StdEncode RawURLEncode canonical_key.
