(* ===== verification/Os.v ===== *)
(** The operating system as the program sees it: what one call of [Lstat],
    [Stat] or [Open] observes, the environment block, and the pieces of
    packages [os], [io], [io/fs] and [path/filepath] around them.

    [Lstat] and [Open] are unrelated functions: nothing says that the file
    opened is the file inspected, so a file swapped between the two calls is
    one of the behaviours of the model. *)
From S2P Require Import Prelude GoStrings.

Local Open Scope string_scope.
Local Open Scope Z_scope.

(** [fs.FileMode] is a 32-bit mask; [os.SameFile] compares device and inode. *)
Record FileInfo := { fi_mode : Z; fi_dev : Z; fi_ino : Z; fi_size : Z }.

Definition ModeDir : Z := Z.shiftl 1 31.
Definition ModeSymlink : Z := Z.shiftl 1 27.
Definition ModeDevice : Z := Z.shiftl 1 26.
Definition ModeNamedPipe : Z := Z.shiftl 1 25.
Definition ModeSocket : Z := Z.shiftl 1 24.
Definition ModeCharDevice : Z := Z.shiftl 1 21.
Definition ModeIrregular : Z := Z.shiftl 1 19.
Definition ModeType : Z :=
  foldr Z.lor 0 [ModeDir; ModeSymlink; ModeNamedPipe; ModeSocket; ModeDevice;
                 ModeCharDevice; ModeIrregular].

(** [m&mask != 0] *)
Definition has_mode (m mask : Z) : bool := negb (Z.land m mask =? 0).
Definition IsRegular (m : Z) : bool := Z.land m ModeType =? 0.
Definition Perm (m : Z) : Z := Z.land m 511.
Definition SameFile (a b : FileInfo) : bool :=
  (fi_dev a =? fi_dev b) && (fi_ino a =? fi_ino b).

(** An open file: what [Stat] on the descriptor says, the bytes that reading
    it yields, the position at which reading fails, if it does, and what
    [Close] returns. *)
Record File := {
  f_stat : option FileInfo;
  f_content : string;
  f_fault : option nat;
  f_close : res unit
}.

Class OS := {
  GOOS : string;
  Environ : list string;
  Lstat : string → option FileInfo;
  Stat : string → option FileInfo;
  Open : string → option File;
  (** the names of the entries of a directory *)
  ReadDir : string → option (list string)
}.

(** [io.ReadAll(io.LimitReader(file, limit))]; [None] is an error. *)
Definition read_limited (file : File) (limit : Z) : option string :=
  let n := Z.to_nat limit in
  match f_fault file with
  | Some k =>
      if (k <? n)%nat && (k <=? String.length (f_content file))%nat then None
      else Some (take n (f_content file))
  | None => Some (take n (f_content file))
  end.

Lemma read_limited_len file limit s :
  0 ≤ limit → read_limited file limit = Some s → len s ≤ limit.
Proof.
  intros Hl. unfold read_limited.
  assert (len (take (Z.to_nat limit) (f_content file)) ≤ limit).
  { unfold len. rewrite slen_take. lia. }
  destruct (f_fault file) as [k|]; [destruct (_ && _)|]; naive_solver.
Qed.

(** [filepath.Clean] on a slash-separated path: the names that remain, last
    one first. *)
Definition clean_step (rooted : bool) (stack : list string) (name : string) : list string :=
  if String.eqb name "" || String.eqb name "." then stack
  else if String.eqb name ".." then
    match stack with
    | top :: rest => if String.eqb top ".." then name :: stack else rest
    | [] => if rooted then [] else [name]
    end
  else name :: stack.

Definition Clean (path : string) : string :=
  let rooted := has_prefix path "/" in
  let names := reverse (foldl (clean_step rooted) [] (split "/" path)) in
  match names, rooted with
  | [], true => "/"
  | [], false => "."
  | _, true => "/" +:+ join "/" names
  | _, false => join "/" names
  end.

(** [filepath.Join] of two elements; empty ones are skipped. *)
Definition Join (dir name : string) : string :=
  if String.eqb dir "" then (if String.eqb name "" then "" else Clean name)
  else if String.eqb name "" then Clean dir
  else Clean (dir +:+ "/" +:+ name).

(** [filepath.Dir]: everything up to the last slash. *)
Definition Dir (path : string) : string :=
  match last_index "/" path with
  | Some i => Clean (take (S i) path)
  | None => "."
  end.

Example join_dot : Join "." "redis_url" = "redis_url". Proof. reflexivity. Qed.
Example dir_relative : Dir ".local-secrets" = ".". Proof. reflexivity. Qed.
Example dir_slash : Dir "out/secrets/" = "out/secrets". Proof. reflexivity. Qed.
Example clean_dots : Clean "/run//secrets/./a/../b/" = "/run/secrets/b". Proof. reflexivity. Qed.
Example clean_up : Clean "../../a/../.." = "../../..". Proof. reflexivity. Qed.
Example clean_root : Clean "/../a" = "/a". Proof. reflexivity. Qed.
Example clean_empty : Clean "" = ".". Proof. reflexivity. Qed.
