(* ===== verification/Json.v ===== *)
(** Package [encoding/json], as [strictJSON] uses it: the token reader
    [Decoder.Token] with its error texts, and [Decoder.Decode] into a struct
    with [DisallowUnknownFields].

    [Token] reads one scalar at a time with the byte scanner of the package
    (module [Scan]); the state machine around it (module [Tokens]) is the
    decoder's own.  [Decode] is modelled by a recursive-descent reading of the
    same grammar into a tree (module [Tree]) and a decoding of the tree. *)
From S2P Require Import Prelude GoStrings Strconv.

Local Open Scope string_scope.
Local Open Scope Z_scope.

(** * Scalars *)
Module Scan.

Definition dquote : ascii := "034"%char.

(** JSON white space. *)
Definition is_space (c : ascii) : bool :=
  Ascii.eqb c " " || Ascii.eqb c "009" || Ascii.eqb c "013" || Ascii.eqb c "010".

Definition is_hex (c : ascii) : bool :=
  is_digit c || ((97 <=? byte c) && (byte c <=? 102)) || ((65 <=? byte c) && (byte c <=? 70)).

(** The scanner's step functions, named after them. *)
Inductive state :=
| stateInString | stateInStringEsc | stateInStringEscU (missing : nat)
| stateNeg | state1 | state0 | stateDot | stateDot0 | stateE | stateESign | stateE0
| stateLiteral (whole missing : string)
| stateEndValue.

Inductive outcome := Continue (next : state) | End | Bad (context : string).

Definition literal_context (whole : string) (expected : ascii) : string :=
  "in literal " +:+ whole +:+ " (expecting '" +:+ String expected "')".

Definition step (st : state) (c : ascii) : outcome :=
  match st with
  | stateInString =>
      if Ascii.eqb c dquote then Continue stateEndValue
      else if Ascii.eqb c "\" then Continue stateInStringEsc
      else if byte c <? 32 then Bad "in string literal"
      else Continue stateInString
  | stateInStringEsc =>
      if contains_byte c ("bfnrt\/" +:+ String dquote "") then Continue stateInString
      else if Ascii.eqb c "u" then Continue (stateInStringEscU 4)
      else Bad "in string escape code"
  | stateInStringEscU missing =>
      if is_hex c then
        Continue (match missing with
                  | S (S n) => stateInStringEscU (S n)
                  | _ => stateInString
                  end)
      else Bad "in \u hexadecimal character escape"
  | stateNeg =>
      if Ascii.eqb c "0" then Continue state0
      else if is_digit c then Continue state1
      else Bad "in numeric literal"
  | state1 =>
      if is_digit c then Continue state1
      else if Ascii.eqb c "." then Continue stateDot
      else if Ascii.eqb c "e" || Ascii.eqb c "E" then Continue stateE
      else End
  | state0 =>
      if Ascii.eqb c "." then Continue stateDot
      else if Ascii.eqb c "e" || Ascii.eqb c "E" then Continue stateE
      else End
  | stateDot =>
      if is_digit c then Continue stateDot0
      else Bad "after decimal point in numeric literal"
  | stateDot0 =>
      if is_digit c then Continue stateDot0
      else if Ascii.eqb c "e" || Ascii.eqb c "E" then Continue stateE
      else End
  | stateE =>
      if Ascii.eqb c "+" || Ascii.eqb c "-" then Continue stateESign
      else if is_digit c then Continue stateE0
      else Bad "in exponent of numeric literal"
  | stateESign =>
      if is_digit c then Continue stateE0 else Bad "in exponent of numeric literal"
  | stateE0 => if is_digit c then Continue stateE0 else End
  | stateLiteral whole missing =>
      match missing with
      | String e missing' =>
          if Ascii.eqb c e then
            Continue (if String.eqb missing' "" then stateEndValue
                      else stateLiteral whole missing')
          else Bad (literal_context whole e)
      | EmptyString => End
      end
  | stateEndValue => End
  end.

(** [stateBeginValue] on a byte that is neither a delimiter nor a space. *)
Definition begin_value (c : ascii) : outcome :=
  if Ascii.eqb c dquote then Continue stateInString
  else if Ascii.eqb c "-" then Continue stateNeg
  else if Ascii.eqb c "0" then Continue state0
  else if is_digit c then Continue state1
  else if Ascii.eqb c "t" then Continue (stateLiteral "true" "rue")
  else if Ascii.eqb c "f" then Continue (stateLiteral "false" "alse")
  else if Ascii.eqb c "n" then Continue (stateLiteral "null" "ull")
  else Bad "looking for beginning of value".

(** A scalar's text and what follows it, or the error. *)
Inductive result := Scanned (lexeme rest : string) | Invalid (c : ascii) (context : string)
| UnexpectedEOF.

(** At the end of the input the decoder feeds the scanner one space. *)
Definition at_eof (st : state) : bool :=
  match step st " " with End => true | _ => false end.

Fixpoint run (st : state) (acc : string) (s : string) : result :=
  match s with
  | EmptyString => if at_eof st then Scanned acc "" else UnexpectedEOF
  | String c s' =>
      match step st c with
      | Continue st' => run st' (acc +:+ String c "") s'
      | End => Scanned acc s
      | Bad context => Invalid c context
      end
  end.

Definition scalar (c : ascii) (s : string) : result :=
  match begin_value c with
  | Continue st => run st (String c "") s
  | End => Invalid c ""
  | Bad context => Invalid c context
  end.

(** [scanner.quoteChar], [scanner.error] *)
Definition quoteChar {tables : UnicodeTables} (c : ascii) : string :=
  if Ascii.eqb c "'" then "'\''"
  else if Ascii.eqb c dquote then "'" +:+ String dquote "'"
  else "'" +:+ escape_rune (byte c) +:+ "'".

Definition syntax_error {tables : UnicodeTables} (c : ascii) (context : string) : string :=
  "invalid character " +:+ quoteChar c +:+ " " +:+ context.

Lemma run_shorter st acc s lexeme rest :
  run st acc s = Scanned lexeme rest → (String.length rest ≤ String.length s)%nat.
Proof.
  revert st acc. induction s as [|c s IH]; intros st acc; cbn [run].
  - destruct (at_eof st); [|done]. by intros [= _ <-].
  - destruct (step st c); [|by intros [= _ <-]|done].
    intros H%IH. cbn [String.length]. lia.
Qed.

Lemma scalar_shorter c s lexeme rest :
  scalar c s = Scanned lexeme rest → (String.length rest ≤ String.length s)%nat.
Proof. unfold scalar. destruct (begin_value c); [apply run_shorter|done|done]. Qed.

End Scan.

(** * The value of a scalar's text *)
Module Literal.

Definition hex_value (c : ascii) : Z :=
  if is_digit c then byte c - 48
  else if 97 <=? byte c then byte c - 87 else byte c - 55.

(** [getu4]: the value of a [\uXXXX] escape at the head of [s], or -1. *)
Definition getu4 (s : string) : Z :=
  match s with
  | String b (String u (String h3 (String h2 (String h1 (String h0 _))))) =>
      if Ascii.eqb b "\" && Ascii.eqb u "u" &&
         Scan.is_hex h3 && Scan.is_hex h2 && Scan.is_hex h1 && Scan.is_hex h0
      then ((hex_value h3 * 16 + hex_value h2) * 16 + hex_value h1) * 16 + hex_value h0
      else -1
  | _ => -1
  end.

(** [utf16.IsSurrogate], [utf16.DecodeRune] *)
Definition is_surrogate (r : Z) : bool := (55296 <=? r) && (r <? 57344).
Definition utf16_decode (r1 r2 : Z) : Z :=
  if (55296 <=? r1) && (r1 <? 56320) && (56320 <=? r2) && (r2 <? 57344)
  then (r1 - 55296) * 1024 + (r2 - 56320) + 65536
  else Utf8.RuneError.

Definition escape_char (c : ascii) : option ascii :=
  if Ascii.eqb c "b" then Some "008"%char
  else if Ascii.eqb c "f" then Some "012"%char
  else if Ascii.eqb c "n" then Some "010"%char
  else if Ascii.eqb c "r" then Some "013"%char
  else if Ascii.eqb c "t" then Some "009"%char
  else if contains_byte c ("\/'" +:+ String Scan.dquote "") then Some c
  else None.

(** [unquoteBytes] between the quotes; the length of the text is enough
    fuel, since every round consumes at least one byte. *)
Fixpoint unquote_fuel (fuel : nat) (s : string) : option string :=
  match fuel, s with
  | _, EmptyString => Some ""
  | O, _ => None
  | S f, String c s' =>
      if Ascii.eqb c "\" then
        match s' with
        | EmptyString => None
        | String e s2 =>
            if Ascii.eqb e "u" then
              let rr := getu4 s in
              if rr <? 0 then None
              else
                let dec := if is_surrogate rr
                           then utf16_decode rr (getu4 (drop 6 s)) else Utf8.RuneError in
                if is_surrogate rr && negb (dec =? Utf8.RuneError)
                then String.append (encode_rune dec) <$> unquote_fuel f (drop 12 s)
                else String.append
                       (encode_rune (if is_surrogate rr then Utf8.RuneError else rr))
                       <$> unquote_fuel f (drop 6 s)
            else match escape_char e with
                 | Some x => String x <$> unquote_fuel f s2
                 | None => None
                 end
        end
      else if Ascii.eqb c Scan.dquote || (byte c <? 32) then None
      else if byte c <? 128 then String c <$> unquote_fuel f s'
      else let '(r, w) := Utf8.decode_rune s in
           String.append (encode_rune r) <$> unquote_fuel f (drop w s)
  end.

(** [unquote] of a scanned string literal, quotes included. *)
Definition unquote (lexeme : string) : option string :=
  let inner := take (String.length lexeme - 2) (drop 1 lexeme) in
  unquote_fuel (String.length inner) inner.

(** [strconv.ParseFloat(s, 64)] fails on a JSON number exactly when the number
    rounds to an infinity.  Like the library, read at most five digits of the
    exponent. *)
Fixpoint split_digits (acc count : Z) (s : string) : Z * Z * string :=
  match s with
  | String c s' =>
      if is_digit c then split_digits (acc * 10 + digit_value c) (count + 1) s'
      else (acc, count, s)
  | EmptyString => (acc, count, "")
  end.

Fixpoint exponent_value (e : Z) (s : string) : Z :=
  match s with
  | String c s' =>
      exponent_value (if e <? 10000 then e * 10 + digit_value c else e) s'
  | EmptyString => e
  end.

Definition signed_exponent (s : string) : Z :=
  match s with
  | String _ (String c s') =>
      if Ascii.eqb c "-" then - exponent_value 0 s'
      else if Ascii.eqb c "+" then exponent_value 0 s'
      else exponent_value 0 (String c s')
  | _ => 0
  end.

Definition float_overflow : Z := 2 ^ 1024 - 2 ^ 970.

Definition float_out_of_range (lexeme : string) : bool :=
  let body := trim_prefix lexeme "-" in
  let '(whole, _, s1) := split_digits 0 0 body in
  let '(mant, scale, s2) :=
    match s1 with
    | String c s' => if Ascii.eqb c "." then split_digits whole 0 s' else (whole, 0, s1)
    | EmptyString => (whole, 0, "")
    end in
  let e := signed_exponent s2 - scale in
  if mant =? 0 then false
  else if 0 <=? e then float_overflow <=? mant * 10 ^ e
  else float_overflow * 10 ^ (- e) <=? mant.

Example unquote_pair :
  unquote (String Scan.dquote ("\ud83d\ude00" +:+ String Scan.dquote "")) =
  Some (String "240" (String "159" (String "152" (String "128" "")))).
Proof. reflexivity. Qed.
Example range_small : float_out_of_range "1e400" = true. Proof. vm_compute. reflexivity. Qed.
Example range_big : float_out_of_range "-17.5e-3" = false. Proof. vm_compute. reflexivity. Qed.

End Literal.

(** * [Decoder.Token] and [Decoder.More] *)
Module Tokens.

Inductive tokenState :=
| tokenTopValue | tokenArrayStart | tokenArrayValue | tokenArrayComma
| tokenObjectStart | tokenObjectKey | tokenObjectColon | tokenObjectValue
| tokenObjectComma.

#[global] Instance tokenState_eq_dec : EqDecision tokenState.
Proof. solve_decision. Defined.

(** The unread input, the decoder's state and its stack. *)
Record Decoder := { d_buf : string; d_state : tokenState; d_stack : list tokenState }.

Definition NewDecoder (s : string) : Decoder :=
  {| d_buf := s; d_state := tokenTopValue; d_stack := [] |}.

Inductive token := TDelim (c : ascii) | TString (s : string) | TScalar (lexeme : string).

Inductive outcome := EOF | Failed (e : string) | Tok (t : token) (d : Decoder).

(** The text of a read error; [io.EOF] prints as EOF. *)
Definition tokenValueAllowed (st : tokenState) : bool :=
  match st with
  | tokenTopValue | tokenArrayStart | tokenArrayValue | tokenObjectValue => true
  | _ => false
  end.

Definition tokenValueEnd (st : tokenState) : tokenState :=
  match st with
  | tokenArrayStart | tokenArrayValue => tokenArrayComma
  | tokenObjectValue => tokenObjectComma
  | _ => st
  end.

Definition token_context (st : tokenState) : string :=
  match st with
  | tokenTopValue | tokenArrayStart | tokenArrayValue | tokenObjectValue =>
      " looking for beginning of value"
  | tokenArrayComma => " after array element"
  | tokenObjectKey => " looking for beginning of object key string"
  | tokenObjectColon => " after object key"
  | tokenObjectComma => " after object key:value pair"
  | tokenObjectStart => ""
  end.

Definition tokenError {tables : UnicodeTables} (st : tokenState) (c : ascii) : outcome :=
  Failed ("invalid character " +:+ Scan.quoteChar c +:+ token_context st).

(** [dec.Decode(&x)] on the scalar that starts with [c]: a key is decoded into
    a [string], a value into an [any]. *)
Definition read_scalar {tables : UnicodeTables} (c : ascii) (s : string)
    : (token * string) + string :=
  match Scan.scalar c s with
  | Scan.Scanned lexeme rest =>
      if Ascii.eqb c Scan.dquote then
        match Literal.unquote lexeme with
        | Some text => inl (TString text, rest)
        | None => inr "json: invalid use of ,string struct tag"
        end
      else if (is_digit c || Ascii.eqb c "-") && Literal.float_out_of_range lexeme
      then inr ("json: cannot unmarshal number " +:+ lexeme +:+ " into Go value of type float64")
      else inl (TScalar lexeme, rest)
  | Scan.Invalid b context => inr (Scan.syntax_error b context)
  | Scan.UnexpectedEOF => inr "unexpected EOF"
  end.

(** One call of [Token]: white space, colons and commas are consumed on the
    way to the token. *)
Fixpoint next {tables : UnicodeTables} (st : tokenState) (stack : list tokenState)
    (s : string) : outcome :=
  match s with
  | EmptyString => EOF
  | String c s' =>
      let open d st' :=
        if tokenValueAllowed st
        then Tok (TDelim d) {| d_buf := s'; d_state := st'; d_stack := st :: stack |}
        else tokenError st c in
      let close d a b :=
        match stack with
        | top :: below =>
            if bool_decide (st = a) || bool_decide (st = b)
            then Tok (TDelim d)
                   {| d_buf := s'; d_state := tokenValueEnd top; d_stack := below |}
            else tokenError st c
        | [] => tokenError st c
        end in
      if Scan.is_space c then next st stack s'
      else if Ascii.eqb c "[" then open "["%char tokenArrayStart
      else if Ascii.eqb c "]" then close "]"%char tokenArrayStart tokenArrayComma
      else if Ascii.eqb c "{" then open "{"%char tokenObjectStart
      else if Ascii.eqb c "}" then close "}"%char tokenObjectStart tokenObjectComma
      else if Ascii.eqb c ":" then
        if bool_decide (st = tokenObjectColon) then next tokenObjectValue stack s'
        else tokenError st c
      else if Ascii.eqb c "," then
        if bool_decide (st = tokenArrayComma) then next tokenArrayValue stack s'
        else if bool_decide (st = tokenObjectComma) then next tokenObjectKey stack s'
        else tokenError st c
      else if Ascii.eqb c Scan.dquote &&
              (bool_decide (st = tokenObjectStart) || bool_decide (st = tokenObjectKey))
      then
        match read_scalar c s' with
        | inl (t, rest) =>
            Tok t {| d_buf := rest; d_state := tokenObjectColon; d_stack := stack |}
        | inr e => Failed e
        end
      else if tokenValueAllowed st then
        match read_scalar c s' with
        | inl (t, rest) =>
            Tok t {| d_buf := rest; d_state := tokenValueEnd st; d_stack := stack |}
        | inr e => Failed e
        end
      else tokenError st c
  end.

Definition Token {tables : UnicodeTables} (d : Decoder) : outcome :=
  next (d_state d) (d_stack d) (d_buf d).

(** The byte [dec.peek] finds. *)
Fixpoint peek (s : string) : option ascii :=
  match s with
  | EmptyString => None
  | String c s' => if Scan.is_space c then peek s' else Some c
  end.

Definition More (d : Decoder) : bool :=
  match peek (d_buf d) with
  | Some c => negb (Ascii.eqb c "]") && negb (Ascii.eqb c "}")
  | None => false
  end.

Lemma read_scalar_shorter {tables : UnicodeTables} c s t rest :
  read_scalar c s = inl (t, rest) → (String.length rest ≤ String.length s)%nat.
Proof.
  unfold read_scalar. destruct (Scan.scalar c s) as [lexeme r| |] eqn:E; [|done|done].
  apply Scan.scalar_shorter in E.
  destruct (Ascii.eqb c Scan.dquote); [destruct (Literal.unquote lexeme)|destruct (_ && _)];
    try done; by intros [= _ <-].
Qed.

(** Every token consumes at least one byte. *)
Lemma next_shorter {tables : UnicodeTables} s : ∀ st stack t d,
  next st stack s = Tok t d → (String.length (d_buf d) < String.length s)%nat.
Proof.
  induction s as [|c s IH]; intros st stack t d; cbn [next]; [done|].
  cbn [String.length].
  repeat match goal with
  | |- (if ?b then _ else _) = _ → _ => destruct b
  | |- match stack with _ => _ end = _ → _ => destruct stack
  | |- match read_scalar c s with _ => _ end = _ → _ =>
      destruct (read_scalar c s) as [[t' rest]|e] eqn:E; [apply read_scalar_shorter in E|]
  end; try done; try (by intros [= _ <-]; cbn; lia);
  intros H; apply IH in H; lia.
Qed.

Lemma Token_shorter {tables : UnicodeTables} d t d' :
  Token d = Tok t d' → (String.length (d_buf d') < String.length (d_buf d))%nat.
Proof. apply next_shorter. Qed.

End Tokens.

(** * [Decoder.Decode] *)
Module Tree.

Inductive json :=
| JNull | JBool (b : bool) | JNumber (lexeme : string) | JString (s : string)
| JArray (items : list json) | JObject (fields : list (string * json)).

Definition scalar_value (c : ascii) (lexeme : string) : option json :=
  if Ascii.eqb c Scan.dquote then JString <$> Literal.unquote lexeme
  else if Ascii.eqb c "t" then Some (JBool true)
  else if Ascii.eqb c "f" then Some (JBool false)
  else if Ascii.eqb c "n" then Some JNull
  else Some (JNumber lexeme).

Fixpoint skip_space (s : string) : string :=
  match s with
  | String c s' => if Scan.is_space c then skip_space s' else s
  | EmptyString => ""
  end.

(** A value, the items of an array after its first, the fields of an object
    after its first; each with the input that follows. *)
Fixpoint value (fuel : nat) (s : string) : option (json * string) :=
  match fuel with
  | O => None
  | S f =>
      match skip_space s with
      | EmptyString => None
      | String c s' =>
          if Ascii.eqb c "[" then
            match skip_space s' with
            | String d s2 => if Ascii.eqb d "]" then Some (JArray [], s2)
                             else '(items, rest) ← array_items f s'; Some (JArray items, rest)
            | EmptyString => None
            end
          else if Ascii.eqb c "{" then
            match skip_space s' with
            | String d s2 => if Ascii.eqb d "}" then Some (JObject [], s2)
                             else '(fields, rest) ← object_fields f s'; Some (JObject fields, rest)
            | EmptyString => None
            end
          else match Scan.scalar c s' with
               | Scan.Scanned lexeme rest => v ← scalar_value c lexeme; Some (v, rest)
               | _ => None
               end
      end
  end
with array_items (fuel : nat) (s : string) : option (list json * string) :=
  match fuel with
  | O => None
  | S f =>
      '(v, rest) ← value f s;
      match skip_space rest with
      | String c s' =>
          if Ascii.eqb c "]" then Some ([v], s')
          else if Ascii.eqb c "," then '(vs, rest') ← array_items f s'; Some (v :: vs, rest')
          else None
      | EmptyString => None
      end
  end
with object_fields (fuel : nat) (s : string) : option (list (string * json) * string) :=
  match fuel with
  | O => None
  | S f =>
      match skip_space s with
      | EmptyString => None
      | String q s1 =>
          if negb (Ascii.eqb q Scan.dquote) then None
          else match Scan.scalar q s1 with
          | Scan.Scanned lexeme rest =>
              name ← Literal.unquote lexeme;
              match skip_space rest with
              | String colon s2 =>
                  if negb (Ascii.eqb colon ":") then None
                  else
                    '(v, rest2) ← value f s2;
                    match skip_space rest2 with
                    | String c s3 =>
                        if Ascii.eqb c "}" then Some ([(name, v)], s3)
                        else if Ascii.eqb c "," then
                          '(fields, rest') ← object_fields f s3;
                          Some ((name, v) :: fields, rest')
                        else None
                    | EmptyString => None
                    end
              | EmptyString => None
              end
          | _ => None
          end
      end
  end.

(** Each level of recursion but the calls of [value] from the two loops
    consumes input. *)
Definition parse (s : string) : option (json * string) :=
  value (2 * String.length s + 2) s.

(** Decoding a tree into a destination that holds [w]: [null] leaves it
    alone, a value of another type is an [UnmarshalTypeError]. *)
Definition into_string (w : string) (j : json) : option string :=
  match j with JString s => Some s | JNull => Some w | _ => None end.

(** [int] and [int64]: [strconv.ParseInt(lexeme, 10, 64)]. *)
Definition into_int (w : Z) (j : json) : option Z :=
  match j with JNumber lexeme => parse_int lexeme | JNull => Some w | _ => None end.

Definition into_slice {W} (zero : W) (decode : W → json → option W) (w : list W) (j : json)
    : option (list W) :=
  match j with
  | JArray items => mapM (decode zero) items
  | JNull => Some []
  | _ => None
  end.

(** A field of a struct: its name and how a value is stored into it. *)
Definition setter (W : Type) : Type := string * (W → json → option W).

(** The field an object key selects: the exact name, or else the one that is
    equal under case folding. *)
Definition select {tables : UnicodeTables} {W} (setters : list (setter W)) (key : string)
    : option (W → json → option W) :=
  match list_find (λ f, fst f = key) setters with
  | Some (_, f) => Some (snd f)
  | None => snd ∘ snd <$> list_find (λ f, equal_fold key (fst f) = true) setters
  end.

(** A struct, with [DisallowUnknownFields]. *)
Definition into_struct {tables : UnicodeTables} {W} (setters : list (setter W)) (w : W)
    (j : json) : option W :=
  match j with
  | JObject fields =>
      foldl (λ acc field, w ← acc; set ← select setters (fst field); set w (snd field))
        (Some w) fields
  | JNull => Some w
  | _ => None
  end.

(** A field that is selected is one of the struct's, and what every store
    keeps, the whole decoding keeps. *)
Section invariants.
Context {tables : UnicodeTables} {W : Type}.

Lemma select_elem (setters : list (setter W)) key f :
  select setters key = Some f → ∃ s, s ∈ setters ∧ f = snd s.
Proof.
  unfold select. intros H.
  assert (K : ∀ (Q : setter W → Prop) `{∀ x, Decision (Q x)} i s,
    list_find Q setters = Some (i, s) → s ∈ setters).
  { intros Q ? i s (Hi & _)%list_find_Some. by apply list_elem_of_lookup_2 in Hi. }
  destruct (list_find (λ f, f.1 = key) setters) as [[i s]|] eqn:Hfind.
  - injection H as <-. exists s. split; [exact (K _ _ _ _ Hfind)|done].
  - destruct (list_find (λ f, equal_fold key f.1 = true) setters) as [[i s]|] eqn:Hfold; [|done].
    injection H as <-. exists s. split; [exact (K _ _ _ _ Hfold)|done].
Qed.

Lemma into_struct_inv (P : W → Prop) setters zero tree w :
  P zero → (∀ s, s ∈ setters → ∀ w j w', P w → snd s w j = Some w' → P w') →
  into_struct setters zero tree = Some w → P w.
Proof.
  intros Hz Hall. destruct tree as [| | | | |fields]; cbn; try done; [by intros [= <-]|].
  assert (G : ∀ fs acc, (∀ w0, acc = Some w0 → P w0) →
    foldl (λ acc field, w ← acc; set ← select setters field.1; set w field.2) acc fs = Some w →
    P w).
  { induction fs as [|f fs IH]; intros acc Hacc; cbn; [apply Hacc|]. apply IH.
    intros w0. destruct acc as [w1|]; [|done]. cbn.
    destruct (select setters f.1) as [set|] eqn:Hsel; [|done]. cbn.
    apply select_elem in Hsel as (s & Hin & ->).
    exact (Hall s Hin w1 f.2 w0 (Hacc _ eq_refl)). }
  apply G. by intros w0 [= <-].
Qed.
End invariants.

End Tree.
