(* ===== verification/Secrets.v ===== *)
(** [internal/config/secret.go]: reading secret files, the strict JSON reader
    and the key rings. *)
From S2P Require Import Prelude GoStrings Strconv Url Regex Base64 Os Json.

Local Open Scope string_scope.
Local Open Scope Z_scope.

Definition keyRingMaximumBytes : Z := 64 * 1024.

(** [^[A-Za-z0-9][A-Za-z0-9._-]{0,63}$] *)
Definition key_id_tail (c : ascii) : bool := either alnum (oneof "._-") c.
Definition keyIDPattern : re := Cat (Cls alnum) (upto 63 (Cls key_id_tail)).

Record Secret := mkSecret { secret_value : string }.
#[global] Instance Secret_eq_dec : EqDecision Secret.
Proof. solve_decision. Defined.

Definition Secret_String (s : Secret) : string := "[REDACTED]".
Definition Secret_GoString (s : Secret) : string := "config.Secret{[REDACTED]}".
Definition Reveal (s : Secret) : string := secret_value s.

(** A [map[string][32]byte] is a finite map to strings of 32 bytes. *)
Record KeyRing := mkKeyRing { activeKeyID : string; keys : gmap string string }.

Definition KeyRing_String (r : KeyRing) : string := "[REDACTED KEY RING]".
Definition KeyRing_GoString (r : KeyRing) : string := "config.KeyRing{[REDACTED]}".
Definition ActiveKeyID (r : KeyRing) : string := activeKeyID r.
Definition KeyCount (r : KeyRing) : nat := size (keys r).

Record ProviderKeyRing := mkProviderKeyRing { pkr_KeyRing : KeyRing; expectedEpoch : Z }.

Definition ProviderKeyRing_String (r : ProviderKeyRing) : string := "[REDACTED PROVIDER KEY RING]".
Definition ProviderKeyRing_GoString (r : ProviderKeyRing) : string :=
  "config.ProviderKeyRing{[REDACTED]}".
Definition ExpectedEpoch (r : ProviderKeyRing) : Z := expectedEpoch r.

Record CloudflareCredentials := mkCredentials {
  AccountTag : string; TunnelSecret : string; cred_TunnelID : string
}.

(** * Protected files *)
Section files.
Context {os : OS}.

Definition openProtectedFile (setting path : string) : res File :=
  reject (setting +:+ " must name a secret file") when (String.eqb path "") ;;
  match Lstat path with
  | None => Err ("read " +:+ setting +:+ ": secret file is unavailable")
  | Some linkInfo =>
      reject ("read " +:+ setting +:+ ": secret file must not be a symbolic link")
        when (has_mode (fi_mode linkInfo) ModeSymlink) ;;
      reject ("read " +:+ setting +:+ ": secret file must be a regular file")
        when (negb (IsRegular (fi_mode linkInfo))) ;;
      reject ("read " +:+ setting +:+ ": secret file must not be group/world accessible")
        when (negb (String.eqb GOOS "windows") &&
              negb (Z.land (Perm (fi_mode linkInfo)) 63 =? 0)) ;;
      match Open path with
      | None => Err ("read " +:+ setting +:+ ": secret file is unavailable")
      | Some file =>
          match f_stat file with
          | None => Err ("read " +:+ setting +:+ ": secret file changed while opening")
          | Some openedInfo =>
              reject ("read " +:+ setting +:+ ": secret file changed while opening")
                when (negb (SameFile linkInfo openedInfo)) ;;
              Ok file
          end
      end
  end.

Definition validateProtectedFile (setting path : string) : res unit :=
  file ← openProtectedFile setting path; f_close file.

(** The line ending at the end of the file, and nothing else, is dropped. *)
Definition strip_line_end (contents : string) : string :=
  let n := String.length contents in
  if has_suffix contents (String "013" (String "010" "")) then take (n - 2) contents
  else if has_suffix contents (String "010" "") then take (n - 1) contents
  else contents.

Definition readSecretBytes (setting path : string) (maximumBytes : Z) : res string :=
  reject "secret setting name is required" when (String.eqb setting "") ;;
  reject (setting +:+ " has an invalid maximum size") when (maximumBytes <=? 0) ;;
  file ← openProtectedFile setting path;
  match read_limited file (wrap64 (maximumBytes + 1)) with
  | None => Err ("read " +:+ setting +:+ ": secret file could not be read")
  | Some contents =>
      reject ("read " +:+ setting +:+ ": secret file exceeds " +:+ itoa maximumBytes +:+ " bytes")
        when (maximumBytes <? len contents) ;;
      reject ("read " +:+ setting +:+ ": secret file must contain valid UTF-8")
        when (negb (Utf8.valid contents)) ;;
      let contents := strip_line_end contents in
      reject ("read " +:+ setting +:+ ": secret file must not be empty")
        when (String.length contents =? 0)%nat ;;
      reject ("read " +:+ setting +:+ ": secret file contains unintended surrounding whitespace")
        when (negb (String.eqb (trim_space contents) contents)) ;;
      Ok contents
  end.

Definition ReadSecretFile (setting path : string) (maximumBytes : Z) : res Secret :=
  contents ← readSecretBytes setting path maximumBytes; Ok (mkSecret contents).

Definition ReadSimpleSecret (setting path : string) (maximumBytes : Z) : res Secret :=
  secret ← ReadSecretFile setting path maximumBytes;
  reject ("read " +:+ setting +:+ ": secret contains a control character")
    when (existsb is_control (Utf8.runes (secret_value secret))) ;;
  Ok secret.

Definition ReadURISecret (setting path : string) (maximumBytes : Z) (schemes : list string)
    : res (Secret * URL) :=
  secret ← ReadSimpleSecret setting path maximumBytes;
  match url_Parse (secret_value secret) with
  | None => Err ("read " +:+ setting +:+ ": secret must contain one absolute URI")
  | Some parsed =>
      reject ("read " +:+ setting +:+ ": secret must contain one absolute URI")
        when (negb (IsAbs parsed) || String.eqb (Host parsed) "" ||
              negb (String.eqb (Fragment parsed) "")) ;;
      let allowed := foldl (λ allowed scheme, allowed || String.eqb (Scheme parsed) scheme)
                       false schemes in
      reject ("read " +:+ setting +:+ ": URI scheme is not allowed") when (negb allowed) ;;
      Ok (secret, parsed)
  end.

Definition ReadBase64Key (setting path : string) (maximumBytes : Z) : res Secret :=
  secret ← ReadSimpleSecret setting path maximumBytes;
  match canonical_key (secret_value secret) with
  | None => Err ("read " +:+ setting +:+
                 ": key must be canonical padded base64 for exactly 32 bytes")
  | Some _ => Ok secret
  end.

End files.

(** * Strict JSON *)

(** [jsonSchema]: nil, [objectSchema] (a map with constant keys) and
    [arraySchema]. *)
Inductive jsonSchema :=
| schemaNil
| objectSchema (fields : list (string * jsonSchema))
| arraySchema (element : jsonSchema).

Fixpoint schema_field (fields : list (string * jsonSchema)) (name : string) : option jsonSchema :=
  match fields with
  | [] => None
  | (n, s) :: rest => if String.eqb n name then Some s else schema_field rest name
  end.

(** The error of a call of [Token], or its token. *)
Definition token_or_error (o : Tokens.outcome) : res (Tokens.token * Tokens.Decoder) :=
  match o with
  | Tokens.EOF => Err "EOF"
  | Tokens.Failed e => Err e
  | Tokens.Tok t d => Ok (t, d)
  end.

(** [scanJSONValue] and its two loops; [None] is lack of fuel. *)
Fixpoint scanJSONValue {tables : UnicodeTables} (fuel : nat) (d : Tokens.Decoder)
    (schema : jsonSchema) : option (res Tokens.Decoder) :=
  match fuel with
  | O => None
  | S f =>
      match token_or_error (Tokens.Token d) with
      | Err e => Some (Err e)
      | Ok (Tokens.TDelim c, d) =>
          if Ascii.eqb c "{" then
            match schema with
            | objectSchema fields => scan_fields f d fields []
            | _ => Some (Err "unexpected object")
            end
          else if Ascii.eqb c "[" then
            match schema with
            | arraySchema element => scan_items f d element
            | _ => Some (Err "unexpected array")
            end
          else Some (Err "unexpected delimiter")
      | Ok (_, d) => Some (Ok d)
      end
  end
with scan_fields {tables : UnicodeTables} (fuel : nat) (d : Tokens.Decoder)
    (fields : list (string * jsonSchema)) (seen : list string) : option (res Tokens.Decoder) :=
  match fuel with
  | O => None
  | S f =>
      if Tokens.More d then
        match token_or_error (Tokens.Token d) with
        | Err e => Some (Err e)
        | Ok (Tokens.TString name, d) =>
            if bool_decide (name ∈ seen) then Some (Err ("duplicate field " +:+ quote name))
            else match schema_field fields name with
            | None => Some (Err ("unknown field " +:+ quote name))
            | Some child =>
                match scanJSONValue f d child with
                | None => None
                | Some (Err e) => Some (Err e)
                | Some (Ok d) => scan_fields f d fields (name :: seen)
                end
            end
        | Ok _ => Some (Err "object key is not a string")
        end
      else match Tokens.Token d with
      | Tokens.Tok (Tokens.TDelim c) d =>
          if Ascii.eqb c "}" then Some (Ok d) else Some (Err "unterminated object")
      | _ => Some (Err "unterminated object")
      end
  end
with scan_items {tables : UnicodeTables} (fuel : nat) (d : Tokens.Decoder)
    (element : jsonSchema) : option (res Tokens.Decoder) :=
  match fuel with
  | O => None
  | S f =>
      if Tokens.More d then
        match scanJSONValue f d element with
        | None => None
        | Some (Err e) => Some (Err e)
        | Some (Ok d) => scan_items f d element
        end
      else match Tokens.Token d with
      | Tokens.Tok (Tokens.TDelim c) d =>
          if Ascii.eqb c "]" then Some (Ok d) else Some (Err "unterminated array")
      | _ => Some (Err "unterminated array")
      end
  end.

(** [strictJSON] with a destination that holds [zero] and is filled by
    [decode].  The fuel exceeds what the scan needs ([scan_enough_fuel]), so
    the [None] branch is not reached. *)
Definition strictJSON {tables : UnicodeTables} {W} (setting contents : string) (zero : W)
    (decode : W → Tree.json → option W) (schema : jsonSchema) : res W :=
  match scanJSONValue (S (2 * String.length contents)) (Tokens.NewDecoder contents) schema with
  | None => Err "unreachable"
  | Some (Err e) => Err ("read " +:+ setting +:+ ": invalid JSON: " +:+ e)
  | Some (Ok d) =>
      match Tokens.Token d with
      | Tokens.EOF =>
          match Tree.parse contents with
          | None => Err ("read " +:+ setting +:+ ": invalid JSON")
          | Some (tree, rest) =>
              match decode zero tree with
              | None => Err ("read " +:+ setting +:+ ": invalid JSON")
              | Some w =>
                  reject ("read " +:+ setting +:+ ": trailing JSON value")
                    when (negb (String.eqb (Tree.skip_space rest) "")) ;;
                  Ok w
              end
          end
      | _ => Err ("read " +:+ setting +:+ ": trailing JSON value")
      end
  end.

(** * Key rings *)

Record ring_entry := mkEntry { e_KeyID : string; e_Key : string }.

(** The struct both ring readers decode into; [w_ExpectedEpoch] is a field of
    the provider ring only. *)
Record ring_wire := mkWire {
  w_Version : Z; w_ExpectedEpoch : Z; w_ActiveKeyID : string; w_Keys : list ring_entry
}.

Definition entry_setters : list (Tree.setter ring_entry) :=
  [("key_id", λ w j, (λ x, mkEntry x (e_Key w)) <$> Tree.into_string (e_KeyID w) j);
   ("key", λ w j, mkEntry (e_KeyID w) <$> Tree.into_string (e_Key w) j)].

Definition wire_setters {tables : UnicodeTables} (provider : bool) : list (Tree.setter ring_wire) :=
  [("version", λ w j,
      (λ x, mkWire x (w_ExpectedEpoch w) (w_ActiveKeyID w) (w_Keys w))
        <$> Tree.into_int (w_Version w) j)] ++
  (if provider then
     [("expected_epoch", λ w j,
        (λ x, mkWire (w_Version w) x (w_ActiveKeyID w) (w_Keys w))
          <$> Tree.into_int (w_ExpectedEpoch w) j)]
   else []) ++
  [("active_key_id", λ w j,
      (λ x, mkWire (w_Version w) (w_ExpectedEpoch w) x (w_Keys w))
        <$> Tree.into_string (w_ActiveKeyID w) j);
   ("keys", λ w j,
      mkWire (w_Version w) (w_ExpectedEpoch w) (w_ActiveKeyID w)
        <$> Tree.into_slice (mkEntry "" "") (Tree.into_struct entry_setters) (w_Keys w) j)]%list.

Definition ring_schema (provider : bool) : jsonSchema :=
  objectSchema ([("version", schemaNil)] ++
    (if provider then [("expected_epoch", schemaNil)] else []) ++
    [("active_key_id", schemaNil);
     ("keys", arraySchema (objectSchema [("key_id", schemaNil); ("key", schemaNil)]))])%list.

(** The loop of [validateRing] over the entries. *)
Fixpoint ring_loop (setting : string) (m : gmap string string) (entries : list ring_entry)
    : res (gmap string string) :=
  match entries with
  | [] => Ok m
  | entry :: rest =>
      reject ("read " +:+ setting +:+ ": key_id is invalid")
        when (negb (MatchString keyIDPattern (e_KeyID entry))) ;;
      reject ("read " +:+ setting +:+ ": duplicate key_id")
        when (bool_decide (is_Some (m !! e_KeyID entry))) ;;
      match canonical_key (e_Key entry) with
      | None => Err ("read " +:+ setting +:+
                     ": key must be canonical padded base64 for exactly 32 bytes")
      | Some key => ring_loop setting (<[e_KeyID entry := key]> m) rest
      end
  end.

Definition validateRing (setting : string) (version : Z) (active : string)
    (entries : list ring_entry) : res KeyRing :=
  reject ("read " +:+ setting +:+ ": version must be 1") when (negb (version =? 1)) ;;
  reject ("read " +:+ setting +:+ ": active_key_id is invalid")
    when (negb (MatchString keyIDPattern active)) ;;
  reject ("read " +:+ setting +:+ ": keys must not be empty")
    when (length entries =? 0)%nat ;;
  m ← ring_loop setting ∅ entries;
  reject ("read " +:+ setting +:+ ": active_key_id must name one key")
    when (negb (bool_decide (is_Some (m !! active)))) ;;
  Ok (mkKeyRing active m).

Section rings.
Context {os : OS} {tables : UnicodeTables}.

Definition ReadKeyRing (setting path : string) : res KeyRing :=
  contents ← readSecretBytes setting path keyRingMaximumBytes;
  wire ← strictJSON setting contents (mkWire 0 0 "" [])
           (Tree.into_struct (wire_setters false)) (ring_schema false);
  validateRing setting (w_Version wire) (w_ActiveKeyID wire) (w_Keys wire).

Definition ReadProviderKeyRing (path : string) : res ProviderKeyRing :=
  let setting := "MASTER_KEYRING_FILE" in
  contents ← readSecretBytes setting path keyRingMaximumBytes;
  wire ← strictJSON setting contents (mkWire 0 0 "" [])
           (Tree.into_struct (wire_setters true)) (ring_schema true);
  reject ("read " +:+ setting +:+ ": expected_epoch must be a positive signed 64-bit integer")
    when (w_ExpectedEpoch wire <? 1) ;;
  ring ← validateRing setting (w_Version wire) (w_ActiveKeyID wire) (w_Keys wire);
  Ok (mkProviderKeyRing ring (w_ExpectedEpoch wire)).

Definition credential_setters : list (Tree.setter CloudflareCredentials) :=
  [("AccountTag", λ w j,
      (λ x, mkCredentials x (TunnelSecret w) (cred_TunnelID w))
        <$> Tree.into_string (AccountTag w) j);
   ("TunnelSecret", λ w j,
      (λ x, mkCredentials (AccountTag w) x (cred_TunnelID w))
        <$> Tree.into_string (TunnelSecret w) j);
   ("TunnelID", λ w j,
      mkCredentials (AccountTag w) (TunnelSecret w)
        <$> Tree.into_string (cred_TunnelID w) j)].

Definition ReadCloudflareCredentials (path : string) : res CloudflareCredentials :=
  let setting := "CLOUDFLARE_TUNNEL_CREDENTIALS_FILE" in
  contents ← readSecretBytes setting path keyRingMaximumBytes;
  credentials ← strictJSON setting contents (mkCredentials "" "" "")
    (Tree.into_struct credential_setters)
    (objectSchema [("AccountTag", schemaNil); ("TunnelSecret", schemaNil);
                   ("TunnelID", schemaNil)]);
  reject ("read " +:+ setting +:+ ": AccountTag, TunnelSecret, and TunnelID are required")
    when (String.eqb (AccountTag credentials) "" || String.eqb (TunnelSecret credentials) "" ||
          String.eqb (cred_TunnelID credentials) "") ;;
  Ok credentials.

End rings.

(** * Reading a protected file *)

(** The bits of an [Lstat] mode a secret file must have: regular, and, but on
    Windows, closed to group and world. *)
Definition safe_mode {os : OS} (m : Z) : Prop :=
  has_mode m ModeSymlink = false ∧ IsRegular m = true ∧
  (GOOS = "windows" ∨ Z.land (Perm m) 63 = 0).

(** The file behind [path] that passes the checks. *)
Definition protected {os : OS} (path : string) (file : File) : Prop :=
  path ≠ "" ∧ ∃ linkInfo openedInfo,
    Lstat path = Some linkInfo ∧ safe_mode (fi_mode linkInfo) ∧
    Open path = Some file ∧ f_stat file = Some openedInfo ∧
    SameFile linkInfo openedInfo = true.

(** What a secret file must hold for [contents] to be read from it. *)
Definition secret_contents (file : File) (maximumBytes : Z) (contents : string) : Prop :=
  ∃ raw, read_limited file (wrap64 (maximumBytes + 1)) = Some raw ∧
    len raw ≤ maximumBytes ∧ Utf8.valid raw = true ∧ contents = strip_line_end raw ∧
    contents ≠ "" ∧ trim_space contents = contents.

(** A line feed, and a carriage return before one. *)
Definition LF : string := String "010" "".
Definition CRLF : string := String "013" LF.

Lemma strip_line_end_spec contents raw :
  trim_space contents = contents →
  contents = strip_line_end raw ↔ raw ∈ [contents; contents +:+ LF; contents +:+ CRLF].
Proof.
  intros Htrim. unfold strip_line_end. change (String "013" (String "010" "")) with CRLF.
  change (String "010" "") with LF. rewrite !elem_of_cons, elem_of_nil.
  assert (Hend : ∀ t c, contents = t +:+ String c "" → byte c ≠ 10 ∧ byte c ≠ 13).
  { intros t c ->. split; intros E; apply (trimmed_end t c); rewrite ?E; done. }
  assert (Hlf : has_suffix contents LF = false).
  { destruct (has_suffix _ _) eqn:E; [|done]. apply has_suffix_split in E as [t E].
    by apply Hend in E as []. }
  assert (Htake : ∀ p, take (String.length (contents +:+ p) - String.length p) (contents +:+ p) = contents).
  { intros p. by rewrite slen_app, Nat.add_sub, stake_app. }
  assert (Hcr : ∀ t, t +:+ CRLF = (t +:+ String "013" "") +:+ LF) by (intros t; by rewrite sapp_assoc).
  assert (Hcrlf : ∀ p q, p +:+ CRLF = q +:+ LF → q = p +:+ String "013" "").
  { intros p q. rewrite Hcr. intros H.
    assert (Hq : take (String.length (p +:+ String "013" "" +:+ LF) - 1) (q +:+ LF) = p +:+ String "013" "").
    { rewrite <- H, <- !sapp_assoc. rewrite slen_app. cbn [String.length LF]. by rewrite Nat.add_sub, stake_app. }
    rewrite <- Hq, <- sapp_assoc, H, slen_app. cbn [String.length LF]. by rewrite Nat.add_sub, stake_app. }
  split.
  - destruct (has_suffix raw CRLF) eqn:E1; [|destruct (has_suffix raw LF) eqn:E2].
    + apply has_suffix_split in E1 as [t ->]. intros ->. right; right; left.
      change 2%nat with (String.length CRLF). by rewrite slen_app, Nat.add_sub, stake_app.
    + apply has_suffix_split in E2 as [t ->]. intros ->. right; left.
      change 1%nat with (String.length LF). by rewrite slen_app, Nat.add_sub, stake_app.
    + intros ->. by left.
  - intros [->|[->|[->|[]]]].
    + destruct (has_suffix contents CRLF) eqn:E; [|by rewrite Hlf].
      apply has_suffix_split in E as [t E]. rewrite E, Hcr, has_suffix_app in Hlf. done.
    + destruct (has_suffix (contents +:+ LF) CRLF) eqn:E.
      * apply has_suffix_split in E as [t E]. symmetry in E. apply Hcrlf in E. by apply Hend in E as [].
      * rewrite has_suffix_app. symmetry. apply Htake.
    + rewrite has_suffix_app. symmetry. apply Htake.
Qed.

Section file_lemmas.
Context {os : OS}.

Lemma openProtectedFile_iff setting path file :
  openProtectedFile setting path = Ok file ↔ protected path file.
Proof.
  unfold openProtectedFile, protected, safe_mode. rewrite reject_ok, String.eqb_neq.
  apply and_iff_compat_l. destruct (Lstat path) as [li|]; [|naive_solver].
  rewrite !reject_ok, negb_false_iff.
  rewrite andb_false_iff, !negb_false_iff, String.eqb_eq, Z.eqb_eq.
  destruct (Open path) as [f|]; [|naive_solver].
  destruct (f_stat f) as [oi|] eqn:Hs.
  - rewrite reject_ok, negb_false_iff. naive_solver.
  - naive_solver.
Qed.

Lemma readSecretBytes_iff setting path maximumBytes contents :
  readSecretBytes setting path maximumBytes = Ok contents ↔
  setting ≠ "" ∧ 0 < maximumBytes ∧
  ∃ file, protected path file ∧ secret_contents file maximumBytes contents.
Proof.
  unfold readSecretBytes. rewrite !reject_ok, bind_ok, String.eqb_neq, Z.leb_gt.
  setoid_rewrite openProtectedFile_iff. unfold secret_contents.
  apply and_iff_compat_l, and_iff_compat_l.
  f_equiv. intros file. apply and_iff_compat_l.
  destruct (read_limited _ _) as [raw|]; [|naive_solver].
  cbv zeta. rewrite !reject_ok.
  rewrite Z.ltb_ge, !negb_false_iff, Nat.eqb_neq, String.eqb_eq.
  assert (Hlen : ∀ s, String.length s ≠ 0%nat ↔ s ≠ "") by (intros []; naive_solver).
  rewrite Hlen. naive_solver.
Qed.

Lemma readSecretBytes_ok setting path maximumBytes contents :
  readSecretBytes setting path maximumBytes = Ok contents →
  (∃ file, protected path file) ∧ contents ≠ "" ∧ trim_space contents = contents ∧
  len contents ≤ maximumBytes.
Proof.
  rewrite readSecretBytes_iff.
  intros (_ & _ & file & Hp & raw & _ & Hlen & _ & -> & Hne & Htrim).
  split; [by exists file|]. split_and!; try done.
  revert Hlen. unfold strip_line_end, len.
  destruct (has_suffix _ _); [|destruct (has_suffix _ _)]; rewrite ?slen_take; lia.
Qed.

Lemma ReadSimpleSecret_iff setting path maximumBytes s :
  ReadSimpleSecret setting path maximumBytes = Ok s ↔
  readSecretBytes setting path maximumBytes = Ok (secret_value s) ∧
  existsb is_control (Utf8.runes (secret_value s)) = false.
Proof.
  unfold ReadSimpleSecret, ReadSecretFile. rewrite bind_ok. setoid_rewrite bind_ok.
  setoid_rewrite reject_ok. destruct s as [v]. naive_solver.
Qed.

Lemma ReadBase64Key_ok setting path maximumBytes s :
  ReadBase64Key setting path maximumBytes = Ok s →
  ∃ key, String.length key = 32%nat ∧ Reveal s = StdEncode key.
Proof.
  unfold ReadBase64Key. rewrite bind_ok. intros (s' & _ & H).
  destruct (canonical_key _) as [key|] eqn:Hk; [|done].
  injection H as <-. apply canonical_key_iff in Hk as [Hl Hs]. by exists key.
Qed.

Lemma ReadURISecret_ok setting path maximumBytes schemes s u :
  ReadURISecret setting path maximumBytes schemes = Ok (s, u) →
  url_Parse (Reveal s) = Some u ∧ Host u ≠ "" ∧ Fragment u = "" ∧ Scheme u ∈ schemes.
Proof.
  unfold ReadURISecret, Reveal. rewrite bind_ok. intros (s' & _ & H).
  destruct (url_Parse _) as [u'|] eqn:Hu; [|done].
  cbv zeta in H. rewrite !reject_ok in H. destruct H as (Hg & Ha & [= -> ->]).
  rewrite !orb_false_iff, String.eqb_neq, !negb_false_iff, String.eqb_eq in Hg.
  destruct Hg as [[_ Hh] Hf]. split_and!; try done.
  apply negb_false_iff in Ha. clear -Ha.
  assert (G : ∀ l b, foldl (λ allowed scheme, allowed || String.eqb (Scheme u) scheme) b l = true →
              b = true ∨ Scheme u ∈ l).
  { induction l as [|x l IH]; intros b; simpl; [auto|].
    intros [[?|?%String.eqb_eq]%orb_true_iff|?]%IH; rewrite ?elem_of_cons; auto. }
  apply G in Ha as [?|?]; done.
Qed.

End file_lemmas.

(** * Key rings *)

Lemma keyIDPattern_match s :
  MatchString keyIDPattern s = true ↔
  ∃ c t, s = String c t ∧ alnum c = true ∧ all_bytes key_id_tail t = true ∧
         (String.length t ≤ 63)%nat.
Proof.
  rewrite MatchString_lang. unfold keyIDPattern. rewrite lang_cls_cat.
  by setoid_rewrite lang_upto_cls.
Qed.

(** An entry the loop accepts, with the 32 bytes it stands for. *)
Definition entry_ok (e : ring_entry) (kv : string * string) : Prop :=
  kv.1 = e_KeyID e ∧ MatchString keyIDPattern (e_KeyID e) = true ∧
  String.length kv.2 = 32%nat ∧ e_Key e = StdEncode kv.2.

Lemma ring_loop_iff setting m entries m' :
  ring_loop setting m entries = Ok m' ↔
  ∃ kvs, Forall2 entry_ok entries kvs ∧ NoDup kvs.*1 ∧
         (∀ k, k ∈ kvs.*1 → m !! k = None) ∧ m' = list_to_map kvs ∪ m.
Proof.
  revert m. induction entries as [|e entries IH]; intros m; cbn [ring_loop].
  - split.
    + intros [= <-]. exists []. simpl. rewrite (left_id_L ∅ (∪)).
      split_and!; [constructor|constructor|set_solver|done].
    + intros (kvs & Hf%Forall2_nil_inv_l & _ & _ & ->). subst kvs. simpl.
      by rewrite (left_id_L ∅ (∪)).
  - rewrite !reject_ok, negb_false_iff, bool_decide_eq_false, <- eq_None_not_Some.
    destruct (canonical_key (e_Key e)) as [key|] eqn:Hk.
    + apply canonical_key_iff in Hk as [Hl Hs]. rewrite IH. split.
      * intros (Hid & Hnew & kvs & Hf & Hnd & Hdis & ->).
        exists ((e_KeyID e, key) :: kvs). simpl. split_and!.
        -- by constructor.
        -- constructor; [|done]. intros Hin%Hdis. by rewrite lookup_insert_eq in Hin.
        -- intros k [->|Hin]%elem_of_cons; [done|].
           apply Hdis, lookup_insert_None in Hin. tauto.
        -- rewrite <- insert_union_r, insert_union_l; [done|].
           apply not_elem_of_list_to_map. intros Hin%Hdis. by rewrite lookup_insert_eq in Hin.
      * intros (kvs & Hf & Hnd & Hdis & ->).
        inversion Hf as [|? [k v] ? kvs' He Hf']; subst.
        destruct He as (Hk1 & Hid & Hl' & Hs'). simpl in *. subst k.
        apply NoDup_cons in Hnd as [Hni Hnd].
        assert (v = key) as ->.
        { apply (f_equal StrictDecode) in Hs as Hs2. rewrite Hs' in Hs2.
          rewrite !StrictDecode_StdEncode in Hs2. congruence. }
        split_and!; [done|set_solver|]. exists kvs'. split_and!; [done|done| |].
        -- intros k Hin. rewrite lookup_insert_ne; [set_solver|]. by intros <-.
        -- rewrite <- insert_union_r, insert_union_l; [done|].
           by apply not_elem_of_list_to_map.
    + split; [naive_solver|]. intros (kvs & Hf & _).
      inversion Hf as [|? [k v] ? kvs' He Hf']; subst.
      destruct He as (_ & _ & Hl & Hs). simpl in *.
      assert (canonical_key (e_Key e) = Some v) by (by apply canonical_key_iff). congruence.
Qed.

(** What a key ring promises to its users. *)
Definition ring_ok (r : KeyRing) : Prop :=
  is_Some (keys r !! activeKeyID r) ∧
  map_Forall (λ id key, MatchString keyIDPattern id = true ∧ String.length key = 32%nat) (keys r).

Lemma validateRing_iff setting version active entries r :
  validateRing setting version active entries = Ok r ↔
  version = 1 ∧ ∃ kvs, Forall2 entry_ok entries kvs ∧ NoDup kvs.*1 ∧ active ∈ kvs.*1 ∧
    r = mkKeyRing active (list_to_map kvs).
Proof.
  unfold validateRing. rewrite !reject_ok, bind_ok. setoid_rewrite reject_ok.
  setoid_rewrite ring_loop_iff. rewrite !negb_false_iff, Z.eqb_eq, Nat.eqb_neq.
  setoid_rewrite negb_false_iff. setoid_rewrite bool_decide_eq_true. split.
  - intros (-> & Hid & _ & m & (kvs & Hf & Hnd & _ & ->) & Hact & [= <-]).
    split; [done|]. exists kvs. rewrite (right_id_L ∅ (∪)) in *. split_and!; try done.
    destruct Hact as [v Hv]. apply elem_of_list_to_map_2 in Hv.
    apply list_elem_of_fmap. by exists (active, v).
  - intros (-> & kvs & Hf & Hnd & Hact & ->). split_and!; [done| | |].
    + apply list_elem_of_fmap in Hact as ([k v] & Hk & Hin). simpl in Hk. subst k.
      apply list_elem_of_lookup in Hin as [i Hi].
      destruct (Forall2_lookup_r _ _ _ _ _ Hf Hi) as (e & _ & Hek & Hid & _).
      simpl in Hek. by rewrite Hek.
    + intros He%length_zero_iff_nil. subst entries. inversion Hf; subst.
      simpl in Hact. set_solver.
    + exists (list_to_map kvs). split_and!; [|by apply list_elem_of_fmap in Hact as
        ([k v] & -> & Hin); exists v; apply elem_of_list_to_map|done].
      exists kvs. rewrite (right_id_L ∅ (∪)). by split_and!.
Qed.

Lemma entries_keys_ok entries kvs :
  Forall2 entry_ok entries kvs →
  map_Forall (λ id key, MatchString keyIDPattern id = true ∧ String.length key = 32%nat)
    (list_to_map kvs : gmap string string).
Proof.
  intros Hf k v Hin%elem_of_list_to_map_2.
  apply list_elem_of_lookup in Hin as [i Hi].
  destruct (Forall2_lookup_r _ _ _ _ _ Hf Hi) as (e & _ & Hk & Hid & Hl & _).
  simpl in *. by subst k.
Qed.

Lemma validateRing_ok setting version active entries r :
  validateRing setting version active entries = Ok r →
  ring_ok r ∧ size (keys r) = length entries.
Proof.
  rewrite validateRing_iff. intros (_ & kvs & Hf & Hnd & Hact & ->).
  split; [split|]; simpl.
  - apply list_elem_of_fmap in Hact as ([k v] & -> & Hin).
    by exists v; apply elem_of_list_to_map.
  - by apply entries_keys_ok with entries.
  - rewrite <- (length_map_to_list (list_to_map kvs : gmap string string)).
    rewrite map_to_list_to_map by done. symmetry. by apply Forall2_length in Hf.
Qed.

(** * Termination of the scan *)

(** The number of unread bytes. *)
Definition unread (d : Tokens.Decoder) : nat := String.length (Tokens.d_buf d).

(** A finished scan that left fewer bytes to read, if it succeeded. *)
Definition progressed (n : nat) (o : option (res Tokens.Decoder)) : Prop :=
  match o with None => False | Some (Ok d) => (unread d < n)%nat | Some (Err _) => True end.

Section scan_lemmas.
Context {tables : UnicodeTables}.

Lemma progressed_mono n m o : (n ≤ m)%nat → progressed n o → progressed m o.
Proof. destruct o as [[d|]|]; simpl; auto with lia. Qed.

Lemma close_progressed d c e :
  progressed (unread d)
    match Tokens.Token d with
    | Tokens.Tok (Tokens.TDelim b) d' => if Ascii.eqb b c then Some (Ok d') else Some (Err e)
    | _ => Some (Err e)
    end.
Proof.
  destruct (Tokens.Token d) as [| |t d'] eqn:Ht; [done..|].
  apply Tokens.Token_shorter in Ht. destruct t as [b| |]; [destruct (Ascii.eqb b c)|..]; done.
Qed.

(** Fuel above twice the number of unread bytes lets every scan finish: a round
    of the array loop reads its first byte in the call it makes. *)
Lemma scan_enough_fuel fuel :
  (∀ d schema, (2 * unread d < fuel)%nat → progressed (unread d) (scanJSONValue fuel d schema)) ∧
  (∀ d fields seen, (2 * unread d < fuel)%nat →
     progressed (unread d) (scan_fields fuel d fields seen)) ∧
  (∀ d element, (2 * unread d + 1 < fuel)%nat → progressed (unread d) (scan_items fuel d element)).
Proof.
  induction fuel as [|f (IHv & IHf & IHi)]; [split_and!; intros; lia|].
  split_and!.
  - intros d schema Hlt. cbn [scanJSONValue].
    destruct (Tokens.Token d) as [|e|t d'] eqn:Ht; [done..|].
    apply Tokens.Token_shorter in Ht. cbn [token_or_error].
    fold (unread d) (unread d') in Ht.
    destruct t as [c| |]; [|exact Ht..].
    destruct (Ascii.eqb c "{"); [|destruct (Ascii.eqb c "["); [|done]].
    + destruct schema as [|fields|]; [done| |done].
      apply progressed_mono with (unread d'); [lia|]. apply IHf. lia.
    + destruct schema as [| |element]; [done..|].
      apply progressed_mono with (unread d'); [lia|]. apply IHi. lia.
  - intros d fields seen Hlt. cbn [scan_fields].
    destruct (Tokens.More d); [|apply close_progressed].
    destruct (Tokens.Token d) as [|e|t d'] eqn:Ht; [done..|].
    apply Tokens.Token_shorter in Ht. cbn [token_or_error].
    fold (unread d) (unread d') in Ht.
    destruct t as [|name|]; [done| |done].
    destruct (bool_decide _); [done|].
    destruct (schema_field fields name) as [child|]; [|done].
    assert (Hv : progressed (unread d') (scanJSONValue f d' child)) by (apply IHv; lia).
    destruct (scanJSONValue f d' child) as [[d2|e]|]; [|done..]. simpl in Hv.
    apply progressed_mono with (unread d2); [lia|]. apply IHf. lia.
  - intros d element Hlt. cbn [scan_items].
    destruct (Tokens.More d); [|apply close_progressed].
    assert (Hv : progressed (unread d) (scanJSONValue f d element)) by (apply IHv; lia).
    destruct (scanJSONValue f d element) as [[d2|e]|]; [|done..]. simpl in Hv.
    apply progressed_mono with (unread d2); [lia|]. apply IHi. lia.
Qed.

Lemma scan_terminates s schema :
  ∃ r, scanJSONValue (S (2 * String.length s)) (Tokens.NewDecoder s) schema = Some r.
Proof.
  destruct (scan_enough_fuel (S (2 * String.length s))) as (Hv & _).
  assert (H : progressed (unread (Tokens.NewDecoder s))
                (scanJSONValue (S (2 * String.length s)) (Tokens.NewDecoder s) schema))
    by (apply Hv, Nat.lt_succ_diag_r).
  destruct (scanJSONValue _ _ _) as [r|]; [by exists r|done].
Qed.

End scan_lemmas.
