(* ===== verification/StrictJson.v ===== *)
(** The two readings of [strictJSON] agree: a document that passes
    [scanJSONValue] is the text of one JSON tree, and that tree conforms to
    the schema: at every level its fields are known and none is repeated. *)
From S2P Require Import Prelude GoStrings Strconv Json Secrets.

Local Open Scope string_scope.

Import Tokens Tree.

(** * One call of [Token], as a relation *)

Section relation.
Context {tables : UnicodeTables}.

(** What [Token] does at the byte [c] followed by [s], white space skipped. *)
Inductive token_step (st : tokenState) (stack : list tokenState) (c : ascii) (s : string)
    : token → Decoder → Prop :=
| step_open_array :
    c = "["%char → tokenValueAllowed st = true →
    token_step st stack c s (TDelim "[")
      {| d_buf := s; d_state := tokenArrayStart; d_stack := st :: stack |}
| step_open_object :
    c = "{"%char → tokenValueAllowed st = true →
    token_step st stack c s (TDelim "{")
      {| d_buf := s; d_state := tokenObjectStart; d_stack := st :: stack |}
| step_close_array top below :
    c = "]"%char → stack = top :: below → st = tokenArrayStart ∨ st = tokenArrayComma →
    token_step st stack c s (TDelim "]")
      {| d_buf := s; d_state := tokenValueEnd top; d_stack := below |}
| step_close_object top below :
    c = "}"%char → stack = top :: below → st = tokenObjectStart ∨ st = tokenObjectComma →
    token_step st stack c s (TDelim "}")
      {| d_buf := s; d_state := tokenValueEnd top; d_stack := below |}
| step_colon t d :
    c = ":"%char → st = tokenObjectColon → next tokenObjectValue stack s = Tok t d →
    token_step st stack c s t d
| step_array_comma t d :
    c = ","%char → st = tokenArrayComma → next tokenArrayValue stack s = Tok t d →
    token_step st stack c s t d
| step_object_comma t d :
    c = ","%char → st = tokenObjectComma → next tokenObjectKey stack s = Tok t d →
    token_step st stack c s t d
| step_key t rest :
    c = Scan.dquote → st = tokenObjectStart ∨ st = tokenObjectKey →
    read_scalar c s = inl (t, rest) →
    token_step st stack c s t {| d_buf := rest; d_state := tokenObjectColon; d_stack := stack |}
| step_scalar t rest :
    Ascii.eqb c "[" = false → Ascii.eqb c "{" = false → tokenValueAllowed st = true →
    read_scalar c s = inl (t, rest) →
    token_step st stack c s t {| d_buf := rest; d_state := tokenValueEnd st; d_stack := stack |}.

Lemma either_state (P Q : Prop) `{Decision P, Decision Q} {A} (x y z : A) :
  (if bool_decide P || bool_decide Q then x else y) = z →
  (P ∨ Q) ∧ x = z ∨ ¬ (P ∨ Q) ∧ y = z.
Proof. destruct (decide P), (decide Q); case_bool_decide; case_bool_decide; naive_solver. Qed.

Lemma one_state (P : Prop) `{Decision P} {A} (x y z : A) :
  (if bool_decide P then x else y) = z → P ∧ x = z ∨ ¬ P ∧ y = z.
Proof. case_bool_decide; auto. Qed.

Lemma next_step s : ∀ st stack t d,
  next st stack s = Tok t d →
  ∃ c s', skip_space s = String c s' ∧ token_step st stack c s' t d.
Proof.
  induction s as [|c s IH]; intros st stack t d; cbn [next]; [done|].
  cbn [skip_space]. destruct (Scan.is_space c) eqn:Hsp; [apply IH|]. intros H.
  exists c, s. split; [done|].
  destruct (Ascii.eqb c "[") eqn:E1.
  { apply Ascii.eqb_eq in E1. destruct (tokenValueAllowed st) eqn:Ea; [|discriminate H].
    injection H as <- <-. by apply step_open_array. }
  destruct (Ascii.eqb c "]") eqn:E2.
  { apply Ascii.eqb_eq in E2. destruct stack as [|top below]; [discriminate H|].
    apply either_state in H as [[Hst H]|[_ H]]; [|discriminate H].
    injection H as <- <-. by apply step_close_array. }
  destruct (Ascii.eqb c "{") eqn:E3.
  { apply Ascii.eqb_eq in E3. destruct (tokenValueAllowed st) eqn:Ea; [|discriminate H].
    injection H as <- <-. by apply step_open_object. }
  destruct (Ascii.eqb c "}") eqn:E4.
  { apply Ascii.eqb_eq in E4. destruct stack as [|top below]; [discriminate H|].
    apply either_state in H as [[Hst H]|[_ H]]; [|discriminate H].
    injection H as <- <-. by apply step_close_object. }
  destruct (Ascii.eqb c ":") eqn:E5.
  { apply Ascii.eqb_eq in E5. apply one_state in H as [[Hst H]|[_ H]]; [|discriminate H].
    by apply step_colon. }
  destruct (Ascii.eqb c ",") eqn:E6.
  { apply Ascii.eqb_eq in E6. apply one_state in H as [[Hst H]|[_ H]].
    - by apply step_array_comma.
    - apply one_state in H as [[Hst H]|[_ H]]; [|discriminate H].
      by apply step_object_comma. }
  assert (Hcase : (c = Scan.dquote ∧ (st = tokenObjectStart ∨ st = tokenObjectKey)) ∨
                  tokenValueAllowed st = true).
  { destruct (Ascii.eqb c Scan.dquote) eqn:Eq; simpl in H.
    - apply either_state in H as [[Hst _]|[_ H]];
        [left; apply Ascii.eqb_eq in Eq; by split|].
      destruct (tokenValueAllowed st); [by right|discriminate H].
    - destruct (tokenValueAllowed st); [by right|discriminate H]. }
  destruct Hcase as [[-> Hst]|Ha].
  - assert (bool_decide (st = tokenObjectStart) || bool_decide (st = tokenObjectKey) = true)
      as Hb by (destruct Hst as [->| ->]; reflexivity).
    rewrite Hb, Ascii.eqb_refl in H. simpl in H.
    destruct (read_scalar Scan.dquote s) as [[t' rest]|e] eqn:Er; [|discriminate H].
    injection H as <- <-. by apply step_key.
  - assert (bool_decide (st = tokenObjectStart) || bool_decide (st = tokenObjectKey) = false)
      as Hb by (destruct st; try discriminate Ha; reflexivity).
    rewrite Hb, andb_false_r, Ha in H.
    destruct (read_scalar c s) as [[t' rest]|e] eqn:Er; [|discriminate H].
    injection H as <- <-. by apply step_scalar.
Qed.

End relation.

(** * Conformance *)

(** A tree has the shape of a schema. *)
Inductive conforms : jsonSchema → json → Prop :=
| conforms_scalar schema j :
    (∀ items, j ≠ JArray items) → (∀ fields, j ≠ JObject fields) → conforms schema j
| conforms_array element items :
    Forall (conforms element) items → conforms (arraySchema element) (JArray items)
| conforms_object schemas fields :
    NoDup fields.*1 →
    Forall (λ field, ∃ child, schema_field schemas field.1 = Some child ∧
                     conforms child field.2) fields →
    conforms (objectSchema schemas) (JObject fields).

Definition field_conforms (schemas : list (string * jsonSchema)) (field : string * json) : Prop :=
  ∃ child, schema_field schemas field.1 = Some child ∧ conforms child field.2.

(** ** Facts on the two readers *)

Lemma skip_space_shorter s : (String.length (skip_space s) ≤ String.length s)%nat.
Proof.
  induction s as [|c s IH]; cbn [skip_space]; [done|].
  destruct (Scan.is_space c); cbn [String.length]; lia.
Qed.

Lemma skip_space_head s c s' : skip_space s = String c s' → peek s = Some c.
Proof.
  induction s as [|d s IH]; cbn; [done|].
  destruct (Scan.is_space d); [apply IH|by intros [= -> ->]].
Qed.

Lemma skip_space_len s c s' :
  skip_space s = String c s' → (String.length s' < String.length s)%nat.
Proof. intros H. pose proof (skip_space_shorter s) as Hl. rewrite H in Hl. cbn in Hl. lia. Qed.

(** The fuel of a call of the tree reader, by what is left to read. *)
Definition reads {A} (parser : nat → string → option (A * string)) (extra : nat)
    (s : string) (r : A) (rest : string) : Prop :=
  ∀ n, (2 * String.length s + extra < n)%nat → parser n s = Some (r, rest).

Lemma reads_scalar s c s' lexeme rest j :
  skip_space s = String c s' → Ascii.eqb c "[" = false → Ascii.eqb c "{" = false →
  Scan.scalar c s' = Scan.Scanned lexeme rest → scalar_value c lexeme = Some j →
  reads value 0 s j rest.
Proof.
  intros Hs Ha Ho Hsc Hv [|n] Hn; [lia|]. cbn [value]. by rewrite Hs, Ha, Ho, Hsc, Hv.
Qed.

Lemma reads_array s s' c s'' items rest :
  skip_space s = String "[" s' → skip_space s' = String c s'' → Ascii.eqb c "]" = false →
  reads array_items 1 s' items rest → reads value 0 s (JArray items) rest.
Proof.
  intros Hs Hs' Hc Hr [|n] Hn; [lia|]. apply skip_space_len in Hs as Hl.
  cbn [value]. rewrite Hs. cbn [Ascii.eqb Bool.eqb]. rewrite Hs', Hc, Hr by lia. done.
Qed.

Lemma reads_array_nil s s' rest :
  skip_space s = String "[" s' → skip_space s' = String "]" rest →
  reads value 0 s (JArray []) rest.
Proof. intros Hs Hs' [|n] Hn; [lia|]. cbn [value]. rewrite Hs. cbn. by rewrite Hs'. Qed.

Lemma reads_object s s' c s'' fields rest :
  skip_space s = String "{" s' → skip_space s' = String c s'' → Ascii.eqb c "}" = false →
  reads object_fields 1 s' fields rest → reads value 0 s (JObject fields) rest.
Proof.
  intros Hs Hs' Hc Hr [|n] Hn; [lia|]. apply skip_space_len in Hs as Hl.
  cbn [value]. rewrite Hs. cbn [Ascii.eqb Bool.eqb]. rewrite Hs', Hc, Hr by lia. done.
Qed.

Lemma reads_object_nil s s' rest :
  skip_space s = String "{" s' → skip_space s' = String "}" rest →
  reads value 0 s (JObject []) rest.
Proof. intros Hs Hs' [|n] Hn; [lia|]. cbn [value]. rewrite Hs. cbn. by rewrite Hs'. Qed.

(** The last item of an array, or one more. *)
Lemma reads_item_last s j rest s' :
  reads value 0 s j rest → skip_space rest = String "]" s' →
  reads array_items 1 s [j] s'.
Proof.
  intros Hv Hr [|n] Hn; [lia|]. cbn [array_items]. rewrite Hv by lia.
  cbn [mbind option_bind]. by rewrite Hr.
Qed.

Lemma reads_item_cons s j rest s' items rest' :
  reads value 0 s j rest → skip_space rest = String "," s' →
  (String.length s' < String.length s)%nat →
  reads array_items 1 s' items rest' → reads array_items 1 s (j :: items) rest'.
Proof.
  intros Hv Hr Hl Hi [|n] Hn; [lia|]. cbn [array_items]. rewrite Hv by lia.
  cbn [mbind option_bind]. rewrite Hr. cbn [Ascii.eqb Bool.eqb]. by rewrite Hi by lia.
Qed.

Lemma reads_nonempty s j rest :
  reads value 0 s j rest → ∃ c s', skip_space s = String c s'.
Proof.
  intros Hr. specialize (Hr (S (2 * String.length s)) ltac:(lia)).
  cbn [value] in Hr. destruct (skip_space s) as [|c s']; [done|]. by exists c, s'.
Qed.

(** A field: its quoted name, a colon and its value. *)
Definition field_head (s : string) (name : string) (j : json) (rest : string) : Prop :=
  ∃ s1 lexeme rest1 s2, skip_space s = String Scan.dquote s1 ∧
    Scan.scalar Scan.dquote s1 = Scan.Scanned lexeme rest1 ∧
    Literal.unquote lexeme = Some name ∧ skip_space rest1 = String ":" s2 ∧
    reads value 0 s2 j rest ∧ (String.length s2 < String.length s)%nat.

Lemma reads_field_last s name j rest s' :
  field_head s name j rest → skip_space rest = String "}" s' →
  reads object_fields 1 s [(name, j)] s'.
Proof.
  intros (s1 & lexeme & rest1 & s2 & Hs & Hsc & Hu & Hc & Hv & Hl) Hr [|n] Hn; [lia|].
  cbn [object_fields]. rewrite Hs, Ascii.eqb_refl, Hsc. cbn [negb]. rewrite Hu.
  cbn [mbind option_bind]. rewrite Hc. cbn [Ascii.eqb Bool.eqb negb].
  rewrite Hv by lia. cbn [mbind option_bind]. by rewrite Hr.
Qed.

Lemma reads_field_cons s name j rest s' fields rest' :
  field_head s name j rest → skip_space rest = String "," s' →
  (String.length s' < String.length s)%nat →
  reads object_fields 1 s' fields rest' → reads object_fields 1 s ((name, j) :: fields) rest'.
Proof.
  intros (s1 & lexeme & rest1 & s2 & Hs & Hsc & Hu & Hc & Hv & Hl) Hr Hl' Hi [|n] Hn; [lia|].
  cbn [object_fields]. rewrite Hs, Ascii.eqb_refl, Hsc. cbn [negb]. rewrite Hu.
  cbn [mbind option_bind]. rewrite Hc. cbn [Ascii.eqb Bool.eqb negb].
  rewrite Hv by lia. cbn [mbind option_bind]. rewrite Hr. cbn [Ascii.eqb Bool.eqb].
  by rewrite Hi by lia.
Qed.

(** * Agreement *)

Section agreement.
Context {tables : UnicodeTables}.

Lemma read_key s t rest :
  read_scalar Scan.dquote s = inl (t, rest) →
  ∃ lexeme name, Scan.scalar Scan.dquote s = Scan.Scanned lexeme rest ∧
    Literal.unquote lexeme = Some name ∧ t = TString name.
Proof.
  unfold read_scalar. destruct (Scan.scalar _ s) as [lexeme r| |]; [|done..].
  rewrite Ascii.eqb_refl. destruct (Literal.unquote lexeme) as [name|] eqn:Hu; [|done].
  intros [= <- <-]. by exists lexeme, name.
Qed.

Lemma read_value c s t rest :
  read_scalar c s = inl (t, rest) →
  (∀ b, t ≠ TDelim b) ∧
  ∃ lexeme j, Scan.scalar c s = Scan.Scanned lexeme rest ∧
    scalar_value c lexeme = Some j ∧ ∀ schema, conforms schema j.
Proof.
  unfold read_scalar, scalar_value.
  destruct (Scan.scalar c s) as [lexeme r| |]; [|done..].
  destruct (Ascii.eqb c Scan.dquote).
  - destruct (Literal.unquote lexeme) as [name|] eqn:Hu; [|done].
    intros [= <- <-]. split; [done|]. exists lexeme, (JString name).
    rewrite Hu. split_and!; [done..|]. intros. by constructor.
  - destruct (_ && _); [done|]. intros [= <- <-]. split; [done|].
    exists lexeme. repeat case_match; eexists; (split_and!; [done..|]);
      intros; by constructor.
Qed.

(** In front of a value, a separator is read on the way. *)
Lemma scan_after_colon f d schema d' :
  d_state d = tokenObjectColon → scanJSONValue f d schema = Some (Ok d') →
  ∃ s2, skip_space (d_buf d) = String ":" s2 ∧
    scanJSONValue f {| d_buf := s2; d_state := tokenObjectValue; d_stack := d_stack d |}
      schema = Some (Ok d').
Proof.
  intros Hst. destruct f as [|f]; [done|]. cbn [scanJSONValue]. unfold Token. rewrite Hst.
  destruct (next tokenObjectColon _ _) as [| |t d1] eqn:Hn; [done..|].
  apply next_step in Hn as (c & s' & Hs & Hstep). intros H. exists s'.
  inversion Hstep; subst; try discriminate; try (by naive_solver).
  split; [done|]. cbn [d_state d_stack d_buf].
  match goal with H : next tokenObjectValue _ _ = _ |- _ => by rewrite H end.
Qed.

Lemma scan_after_comma f d schema d' :
  d_state d = tokenArrayComma → scanJSONValue f d schema = Some (Ok d') →
  ∃ s2, skip_space (d_buf d) = String "," s2 ∧
    scanJSONValue f {| d_buf := s2; d_state := tokenArrayValue; d_stack := d_stack d |}
      schema = Some (Ok d').
Proof.
  intros Hst. destruct f as [|f]; [done|]. cbn [scanJSONValue]. unfold Token. rewrite Hst.
  destruct (next tokenArrayComma _ _) as [| |t d1] eqn:Hn; [done..|].
  apply next_step in Hn as (c & s' & Hs & Hstep). intros H. exists s'.
  inversion Hstep; subst; try discriminate; try (by naive_solver).
  split; [done|]. cbn [d_state d_stack d_buf].
  match goal with H : next tokenArrayValue _ _ = _ |- _ => by rewrite H end.
Qed.

(** Where [More] is false, a successful [Token] closes what is open. *)
Lemma close_token d c top below d' t :
  d_stack d = top :: below → More d = false → Token d = Tok t d' → t = TDelim c →
  c = "]"%char ∨ c = "}"%char →
  (d_state d = tokenArrayStart ∨ d_state d = tokenArrayComma → c = "]"%char) ∧
  skip_space (d_buf d) = String c (d_buf d') ∧
  d_state d' = tokenValueEnd top ∧ d_stack d' = below.
Proof.
  intros Hstk Hm Ht -> Hc. unfold Token in Ht. apply next_step in Ht as (b & s' & Hs & Hstep).
  unfold More in Hm. rewrite (skip_space_head _ _ _ Hs) in Hm.
  assert (Hb : b = "]"%char ∨ b = "}"%char).
  { apply andb_false_iff in Hm as [Hm|Hm]; apply negb_false_iff, Ascii.eqb_eq in Hm; auto. }
  rewrite Hstk in Hstep.
  inversion Hstep; subst; try (destruct Hc; discriminate); try (destruct Hb; discriminate);
    simplify_eq; cbn [d_buf d_state d_stack].
  - done.
  - split_and!; try done. match goal with H : _ ∨ _ |- _ => destruct H as [E|E] end;
      rewrite E; intros [|]; discriminate.
  - match goal with H : read_scalar _ _ = _ |- _ => apply read_value in H as [Hd _] end.
    by destruct (Hd c).
Qed.

(** At the name of a field. *)
Lemma key_token d name d1 :
  d_state d = tokenObjectStart ∨ d_state d = tokenObjectComma →
  Token d = Tok (TString name) d1 →
  ∃ s, (d_state d = tokenObjectStart ∧ s = d_buf d ∨
        d_state d = tokenObjectComma ∧ skip_space (d_buf d) = String "," s) ∧
    d_state d1 = tokenObjectColon ∧ d_stack d1 = d_stack d ∧
    ∃ s1 lexeme, skip_space s = String Scan.dquote s1 ∧
      Scan.scalar Scan.dquote s1 = Scan.Scanned lexeme (d_buf d1) ∧
      Literal.unquote lexeme = Some name.
Proof.
  intros Hst Ht. unfold Token in Ht. apply next_step in Ht as (c & s' & Hs & Hstep).
  inversion Hstep; subst; try (destruct Hst; congruence);
    try (match goal with H : tokenValueAllowed _ = true |- _ =>
           destruct Hst as [E|E]; rewrite E in H; discriminate H end).
  - match goal with H : next _ _ _ = _ |- _ =>
      apply next_step in H as (c & s2 & Hs2 & Hstep2) end.
    exists s'. split; [by right|].
    inversion Hstep2; subst; try discriminate.
    match goal with H : read_scalar _ _ = _ |- _ =>
      apply read_key in H as (lexeme & nm & Hsc & Hu & [= ->]) end.
    split_and!; [done..|]. by exists s2, lexeme.
  - exists (d_buf d). split.
    { left. split; [|done]. destruct Hst as [E|E]; [done|].
      rewrite E in *. naive_solver. }
    match goal with H : read_scalar _ _ = _ |- _ =>
      apply read_key in H as (lexeme & nm & Hsc & Hu & [= ->]) end.
    split_and!; [done..|]. by exists s', lexeme.
Qed.

(** What the scan of a value, of the rest of an object and of the rest of an
    array say about the tree reader. *)
Definition value_read (d : Decoder) (schema : jsonSchema) (d' : Decoder) : Prop :=
  (unread d' < unread d)%nat ∧
  ∃ j, reads value 0 (d_buf d) j (d_buf d') ∧ conforms schema j ∧
    d_state d' = tokenValueEnd (d_state d) ∧ d_stack d' = d_stack d.

(** The head of the unread input is not the closing delimiter [c]. *)
Definition not_closing (c : ascii) (s : string) : Prop :=
  ∃ b s', skip_space s = String b s' ∧ Ascii.eqb b c = false.

(** The rest of a composite after [d], in front of [closing]: nothing, a first
    element, or a comma and an element. *)
Definition rest_read {A} (parser : nat → string → option (list A * string)) (closing : ascii)
    (start comma : tokenState) (d : Decoder) (l : list A) (d' : Decoder) : Prop :=
  (l = [] ∧ skip_space (d_buf d) = String closing (d_buf d')) ∨
  (d_state d = start ∧ not_closing closing (d_buf d) ∧ reads parser 1 (d_buf d) l (d_buf d')) ∨
  (d_state d = comma ∧ ∃ s, skip_space (d_buf d) = String "," s ∧
     reads parser 1 s l (d_buf d')).

(** A composite is closed in front of [d']. *)
Definition closed (d d' : Decoder) : Prop :=
  (unread d' < unread d)%nat ∧
  ∀ top below, d_stack d = top :: below → d_state d' = tokenValueEnd top ∧ d_stack d' = below.

Definition fields_read (d : Decoder) (schemas : list (string * jsonSchema)) (seen : list string)
    (d' : Decoder) : Prop :=
  ∃ fields,
    NoDup fields.*1 ∧ (∀ name, name ∈ fields.*1 → name ∉ seen) ∧
    Forall (field_conforms schemas) fields ∧
    rest_read object_fields "}" tokenObjectStart tokenObjectComma d fields d'.

Definition items_read (d : Decoder) (element : jsonSchema) (d' : Decoder) : Prop :=
  ∃ items, Forall (conforms element) items ∧
    rest_read array_items "]" tokenArrayStart tokenArrayComma d items d'.

Definition agree_value (f : nat) : Prop := ∀ d schema d',
  tokenValueAllowed (d_state d) = true →
  scanJSONValue f d schema = Some (Ok d') → value_read d schema d'.

Definition agree_fields (f : nat) : Prop := ∀ d schemas seen d',
  d_stack d ≠ [] → d_state d = tokenObjectStart ∨ d_state d = tokenObjectComma →
  scan_fields f d schemas seen = Some (Ok d') → fields_read d schemas seen d' ∧ closed d d'.

Definition agree_items (f : nat) : Prop := ∀ d element d',
  d_stack d ≠ [] → d_state d = tokenArrayStart ∨ d_state d = tokenArrayComma →
  scan_items f d element = Some (Ok d') → items_read d element d' ∧ closed d d'.

Lemma more_head d c s : More d = true → skip_space (d_buf d) = String c s →
  Ascii.eqb c "]" = false ∧ Ascii.eqb c "}" = false.
Proof.
  unfold More. intros Hm Hs. rewrite (skip_space_head _ _ _ Hs) in Hm.
  by rewrite andb_true_iff, !negb_true_iff in Hm.
Qed.

Lemma agree_value_step f : agree_fields f → agree_items f → agree_value (S f).
Proof.
  intros IHf IHi d schema d' Hal. cbn [scanJSONValue].
  destruct (Token d) as [| |t d1] eqn:Ht; [done..|]. cbn [token_or_error].
  unfold Token in Ht. apply next_step in Ht as (c & s & Hs & Hstep).
  apply skip_space_len in Hs as Hlen. fold (unread d) in Hlen.
  unfold value_read. inversion Hstep; subst; try (by rewrite Hal in *);
    try (match goal with H : d_state d = _ |- _ => by rewrite H in Hal end);
    try (match goal with H : d_state d = _ ∨ _ |- _ =>
           destruct H as [E|E]; rewrite E in Hal; discriminate Hal end).
  - cbn [Ascii.eqb Bool.eqb]. destruct schema as [| |element]; [done..|]. intros H.
    apply IHi in H as [(items & Hc & Hr) [Hl Hcl]]; [|done|by left].
    destruct (Hcl _ _ eq_refl) as [-> ->].
    split; [unfold unread in Hl; cbn in Hl; unfold unread in *; lia|].
    exists (JArray items). split_and!; [|by constructor|done|done].
    destruct Hr as [[-> Hr]|[(_ & (b & s' & Hb & Hne) & Hr)|[? _]]]; [| |done].
    + by eapply reads_array_nil.
    + by eapply reads_array.
  - cbn [Ascii.eqb Bool.eqb]. destruct schema as [|fields|]; [done| |done]. intros H.
    apply IHf in H as [(flds & Hnd & _ & Hc & Hr) [Hl Hcl]]; [|done|by left].
    destruct (Hcl _ _ eq_refl) as [-> ->].
    split; [unfold unread in Hl; cbn in Hl; unfold unread in *; lia|].
    exists (JObject flds). split_and!; [|by constructor|done|done].
    destruct Hr as [[-> Hr]|[(_ & (b & s' & Hb & Hne) & Hr)|[? _]]]; [| |done].
    + by eapply reads_object_nil.
    + by eapply reads_object.
  - by intros H.
  - match goal with H : read_scalar _ _ = _ |- _ =>
      apply read_value in H as (Hd & lexeme & j & Hsc & Hv & Hc) end.
    destruct t as [b| |]; [by destruct (Hd b)|..]; intros [= <-]; cbn [d_buf d_state d_stack];
      apply Scan.scalar_shorter in Hsc as Hl;
      (split; [unfold unread in *; cbn; lia|]); exists j; (split_and!; [|done..]);
      by eapply reads_scalar.
Qed.

Lemma close_read d c e d' :
  d_stack d ≠ [] → More d = false →
  match Token d with
  | Tok (TDelim b) d' => if Ascii.eqb b c then Some (Ok d') else Some (Err e)
  | _ => Some (Err e)
  end = Some (Ok d') →
  c = "]"%char ∨ c = "}"%char → skip_space (d_buf d) = String c (d_buf d') ∧ closed d d'.
Proof.
  intros Hstk Hm H Hc. destruct (Token d) as [| |t d1] eqn:Ht; [done..|].
  destruct t as [b| |]; [|done..]. destruct (Ascii.eqb b c) eqn:Hb; [|done].
  apply Ascii.eqb_eq in Hb as ->. injection H as ->.
  destruct (d_stack d) as [|top below] eqn:Hs; [done|].
  destruct (close_token _ _ _ _ _ _ Hs Hm Ht eq_refl Hc) as (_ & Hsk & Hst & Hbel).
  split; [done|]. split; [by apply Token_shorter in Ht|]. intros ? ?.
  rewrite Hs. by intros [= <- <-].
Qed.

(** An element was read, and the composite goes on after it at [d2]. *)
Lemma closed_trans d d2 d' :
  (unread d2 < unread d)%nat → d_stack d2 = d_stack d → closed d2 d' → closed d d'.
Proof. intros Hl Hs [Hl' Hc]. split; [lia|]. by rewrite <- Hs. Qed.

Lemma agree_items_step f : agree_value f → agree_items f → agree_items (S f).
Proof.
  intros IHv IHi d element d' Hstk Hst. cbn [scan_items].
  destruct (More d) eqn:Hm.
  2:{ intros H. apply close_read in H as [Hs Hc]; [|done|done|by left].
      split; [|done]. exists []. split; [constructor|]. by left. }
  destruct (scanJSONValue f d element) as [[d2|e]|] eqn:Hv; [|done..]. intros Hi.
  assert (∃ s, (d_state d = tokenArrayStart ∧ s = d_buf d ∨
                d_state d = tokenArrayComma ∧ skip_space (d_buf d) = String "," s) ∧
     (unread d2 < unread d)%nat ∧
     ∃ j, reads value 0 s j (d_buf d2) ∧ conforms element j ∧
       (String.length (d_buf d2) < String.length s)%nat ∧
       d_state d2 = tokenArrayComma ∧ d_stack d2 = d_stack d) as (s & Hs & Hl & j & Hr & Hc & Hls & Hst2 & Hstk2).
  { destruct Hst as [E|E].
    - apply IHv in Hv as (Hl & j & Hr & Hc & Hs2 & Hk); [|by rewrite E].
      rewrite E in Hs2. exists (d_buf d). split_and!; [by left|done|]. by exists j.
    - apply scan_after_comma in Hv as (s & Hs & Hv); [|done].
      apply IHv in Hv as (Hl & j & Hr & Hc & Hs2 & Hk); [|done].
      apply skip_space_len in Hs as Hls. unfold unread in *. cbn in *.
      exists s. split_and!; [by right|lia|]. by exists j. }
  apply IHi in Hi as [(items & Hci & Hri) Hcl]; [|by rewrite Hstk2|by right].
  split; [|by eapply closed_trans]. exists (j :: items). split; [by constructor|].
  assert (reads array_items 1 s (j :: items) (d_buf d')) as Hrd.
  { destruct Hri as [[-> Hri]|[(E & _)|(_ & s2 & Hs2 & Hri)]]; [| by rewrite Hst2 in E|].
    - by eapply reads_item_last.
    - eapply reads_item_cons; [done|done| |done]. apply skip_space_len in Hs2. lia. }
  destruct Hs as [[E ->]|[E Hs]]; [|right; right; eauto].
  right; left. split_and!; [done| |done].
  apply reads_nonempty in Hr as (c & s' & Hh). exists c, s'. split; [done|].
  by apply (more_head d c s').
Qed.

Lemma agree_fields_step f : agree_value f → agree_fields f → agree_fields (S f).
Proof.
  intros IHv IHf d schemas seen d' Hstk Hst. cbn [scan_fields].
  destruct (More d) eqn:Hm.
  2:{ intros H. apply close_read in H as [Hs Hc]; [|done|done|by right].
      split; [|done]. exists []. split_and!; [constructor|set_solver|constructor|by left]. }
  destruct (Token d) as [| |t d1] eqn:Ht; [done..|]. cbn [token_or_error].
  destruct t as [|name|]; [done| |done].
  case_bool_decide as Hseen; [done|].
  destruct (schema_field schemas name) as [child|] eqn:Hch; [|done].
  destruct (scanJSONValue f d1 child) as [[d2|e]|] eqn:Hv; [|done..]. intros Hf.
  apply Token_shorter in Ht as Hl1.
  destruct (key_token _ _ _ Hst Ht) as (s & Hs & Hst1 & Hstk1 & s1 & lexeme & Hq & Hsc & Hu).
  apply scan_after_colon in Hv as (s2 & Hcol & Hv); [|done].
  apply IHv in Hv as (Hl & j & Hr & Hc & Hst2 & Hstk2); [|done].
  cbn in Hr, Hst2, Hstk2. rewrite Hstk1 in Hstk2.
  apply skip_space_len in Hcol as Hl2. apply skip_space_len in Hq as Hlq.
  apply Scan.scalar_shorter in Hsc as Hls. unfold unread in Hl. cbn in Hl.
  assert (field_head s name j (d_buf d2)) as Hhead.
  { exists s1, lexeme, (d_buf d1), s2. split_and!; try done. lia. }
  apply IHf in Hf as [(fields & Hnd & Hdis & Hok & Hrest) Hcl];
    [|by rewrite Hstk2|rewrite Hst2; by right].
  split; [|apply (closed_trans d d2); [unfold unread; lia|done|done]].
  exists ((name, j) :: fields). split_and!.
  - constructor; [|done]. intros Hin%Hdis. apply Hin. by left.
  - intros n [->|Hin]%elem_of_cons; [done|]. apply Hdis in Hin. set_solver.
  - constructor; [|done]. by exists child.
  - assert (reads object_fields 1 s ((name, j) :: fields) (d_buf d')) as Hrd.
    { destruct Hrest as [[-> Hri]|[(E & _)|(_ & s3 & Hs3 & Hri)]]; [| by rewrite Hst2 in E|].
      - by eapply reads_field_last.
      - eapply reads_field_cons; [done|done| |done]. apply skip_space_len in Hs3. lia. }
    destruct Hs as [[E ->]|[E Hs]]; [|right; right; eauto].
    right; left. split_and!; [done| |done]. by exists Scan.dquote, s1.
Qed.

(** A scan that succeeds has read one tree, which conforms to the schema. *)
Lemma scan_agrees f : agree_value f ∧ agree_fields f ∧ agree_items f.
Proof.
  induction f as [|f (IHv & IHf & IHi)].
  - split_and!; [by intros d schema d' _|by intros d schemas seen d' _ _|by intros d element d' _ _].
  - split_and!.
    + by apply agree_value_step.
    + by apply agree_fields_step.
    + by apply agree_items_step.
Qed.

(** [strictJSON] accepts a document only if it is one JSON text whose tree
    conforms to the schema, and returns what the decoder makes of the tree. *)
Lemma strictJSON_ok {W} setting contents (zero w : W) decode schema :
  strictJSON setting contents zero decode schema = Ok w →
  ∃ tree rest, parse contents = Some (tree, rest) ∧ skip_space rest = "" ∧
    conforms schema tree ∧ decode zero tree = Some w.
Proof.
  unfold strictJSON.
  destruct (scanJSONValue _ _ _) as [[d|e]|] eqn:Hscan; [|done..].
  apply scan_agrees in Hscan as (_ & j & Hr & Hc & _); [|done].
  destruct (Token d); [|done..].
  assert (Hp : parse contents = Some (j, d_buf d)).
  { apply Hr. cbn. lia. }
  rewrite Hp. destruct (decode zero j) as [w'|] eqn:Hd; [|done].
  rewrite reject_ok, negb_false_iff, String.eqb_eq. intros [Hsp [= <-]].
  by exists j, (d_buf d).
Qed.

End agreement.

(** * What an error of the scan says *)

(** Printable ASCII that JSON and [%q] both write as it is. *)
Definition legible (c : ascii) : bool :=
  (32 <=? byte c)%Z && (byte c <=? 126)%Z && negb (Ascii.eqb c Scan.dquote) &&
  negb (Ascii.eqb c "\").

Lemma legible_spec c : legible c = true →
  (32 ≤ byte c ≤ 126)%Z ∧ Ascii.eqb c Scan.dquote = false ∧ Ascii.eqb c "\" = false.
Proof.
  unfold legible. rewrite !andb_true_iff, !negb_true_iff, !Z.leb_le. tauto.
Qed.

Lemma run_end acc s : Scan.run Scan.stateEndValue acc s = Scan.Scanned acc s.
Proof. by destruct s. Qed.

Lemma run_legible name rest : ∀ acc, all_bytes legible name = true →
  Scan.run Scan.stateInString acc (name +:+ String Scan.dquote rest) =
  Scan.Scanned (acc +:+ name +:+ String Scan.dquote "") rest.
Proof.
  induction name as [|c name IH]; intros acc.
  - intros _. cbn. apply run_end.
  - cbn [all_bytes String.append Scan.run]. intros [Hc Hn]%andb_true_iff.
    apply legible_spec in Hc as (Hc & Hq & Hb). unfold Scan.step. rewrite Hq, Hb.
    destruct (Z.ltb_spec (byte c) 32); [lia|]. rewrite IH by done. by rewrite sapp_assoc.
Qed.

Lemma unquote_legible name : all_bytes legible name = true → ∀ fuel,
  (String.length name ≤ fuel)%nat → Literal.unquote_fuel fuel name = Some name.
Proof.
  induction name as [|c name IH]; intros Hall [|f] Hf; try done; [cbn in Hf; lia|].
  cbn [all_bytes] in Hall. apply andb_true_iff in Hall as [Hc Hn].
  apply legible_spec in Hc as (Hc & Hq & Hb). cbn [Literal.unquote_fuel].
  rewrite Hb, Hq. destruct (Z.ltb_spec (byte c) 32); [lia|].
  destruct (Z.ltb_spec (byte c) 128); [|lia]. cbn [orb]. rewrite IH; [done|done|].
  cbn in Hf. lia.
Qed.

Lemma encode_rune_ascii r : (0 ≤ r < 128)%Z → encode_rune r = String (chr r) "".
Proof.
  intros Hr. unfold encode_rune.
  repeat match goal with
  | |- context [(?a <? ?b)%Z] => destruct (Z.ltb_spec a b); try lia
  | |- context [(?a <=? ?b)%Z] => destruct (Z.leb_spec a b); try lia
  end; cbn; try done; lia.
Qed.

Lemma quote_legible {tables : UnicodeTables} name : all_bytes legible name = true →
  quote name = String Scan.dquote name +:+ String Scan.dquote "".
Proof.
  unfold quote. intros Hall. do 2 f_equal. revert Hall.
  induction name as [|c name IH]; [done|]. cbn [all_bytes]. intros [Hc Hn]%andb_true_iff.
  apply legible_spec in Hc as (Hc & Hq & Hb).
  assert (Hq' : byte c ≠ 34%Z).
  { intros E. apply Ascii.eqb_neq in Hq. apply Hq, byte_inj. exact E. }
  assert (Hb' : byte c ≠ 92%Z).
  { intros E. apply Ascii.eqb_neq in Hb. apply Hb, byte_inj. exact E. }
  cbn [quote_body]. unfold Utf8.decode_rune. cbn [drop].
  destruct (Z.ltb_spec (byte c) 128); [|lia].
  destruct (Z.eqb_spec (byte c) Utf8.RuneError) as [E|_]; [unfold Utf8.RuneError in E; lia|].
  cbn [andb]. unfold escape_rune, is_print.
  destruct (Z.eqb_spec (byte c) 34); [done|]. destruct (Z.eqb_spec (byte c) 92); [done|].
  cbn [orb]. destruct (Z.ltb_spec (byte c) 128); [|lia].
  destruct (Z.leb_spec 32 (byte c)); [|lia]. destruct (Z.ltb_spec (byte c) 127); [|lia].
  cbn [andb].
  rewrite encode_rune_ascii, chr_byte by lia. cbn. by rewrite IH.
Qed.

(** An object whose first field is not one of the schema's fails with an error
    that spells the field's name. *)
Lemma scan_unknown_field {tables : UnicodeTables} f name rest fields :
  all_bytes legible name = true → schema_field fields name = None →
  scanJSONValue (S (S f))
    (Tokens.NewDecoder (String "{" (String Scan.dquote (name +:+ String Scan.dquote rest))))
    (objectSchema fields) =
  Some (Err ("unknown field " +:+ String Scan.dquote name +:+ String Scan.dquote "")).
Proof.
  intros Hn Hf. cbn [scanJSONValue].
  assert (Hr : read_scalar Scan.dquote (name +:+ String Scan.dquote rest) =
    inl (TString name, rest)).
  { unfold read_scalar, Scan.scalar. cbn. rewrite run_legible by done. cbn.
    unfold Literal.unquote. cbn [String.length String.append drop].
    rewrite slen_app. cbn [String.length].
    rewrite Nat.add_sub.
    rewrite stake_app. by rewrite (unquote_legible name Hn). }
  set (d1 := {| d_buf := String Scan.dquote (name +:+ String Scan.dquote rest);
                d_state := tokenObjectStart; d_stack := [tokenTopValue] |}).
  assert (Hopen : Token (NewDecoder (String "{" (d_buf d1))) = Tok (TDelim "{") d1) by done.
  assert (Hname : Token d1 = Tok (TString name)
    {| d_buf := rest; d_state := tokenObjectColon; d_stack := [tokenTopValue] |}).
  { unfold Token, d1. cbn -[read_scalar]. by rewrite Hr. }
  cbn [d_buf d1] in Hopen. rewrite Hopen. cbn [token_or_error Ascii.eqb scan_fields].
  assert (More d1 = true) as -> by done. rewrite Hname. cbn [token_or_error].
  rewrite Hf, quote_legible by done. done.
Qed.
