(* ===== verification/UrlFacts.v ===== *)
(** Printing a URL and parsing it back: [url.Parse] of [URL.String] for the
    URLs the repository builds, a scheme, credentials, a host and a path,
    whatever bytes the credentials and the path hold. *)
From S2P Require Import Prelude GoStrings Strconv Net Url.

Local Open Scope string_scope.
Local Open Scope Z_scope.

(** * Escaping *)

(** What an escaped text is made of. *)
Lemma escape_bytes (P : ascii → bool) mode s :
  forallb (λ c, shouldEscape c mode || P c) all_ascii = true →
  P "%"%char = true → forallb P (upper_hex ∘ Z.of_nat <$> seq 0 16) = true →
  all_bytes P (escape s mode) = true.
Proof.
  intros Hc Hp Hx.
  assert (Hhex : ∀ z, 0 ≤ z < 16 → P (upper_hex z) = true).
  { intros z Hz. rewrite forallb_forall in Hx. apply Hx, list_elem_of_In, list_elem_of_fmap.
    exists (Z.to_nat z). split; [cbn; by rewrite Z2Nat.id by lia|apply elem_of_seq; lia]. }
  induction s as [|c s IH]; [done|]. cbn [escape].
  pose proof (byte_range c).
  destruct (shouldEscape c mode) eqn:E; cbn [all_bytes]; rewrite IH.
  - rewrite Hp, !Hhex; [done| |]; Z.to_euclidean_division_equations; lia.
  - pose proof (ascii_forall _ Hc c) as H'. cbn in H'. rewrite E in H'. cbn in H'. by rewrite H'.
Qed.

Lemma hex_pair_upper c :
  hex_pair (upper_hex (byte c / 16)) (upper_hex (byte c mod 16)) = Some (byte c).
Proof.
  assert (H : bool_decide
    (hex_pair (upper_hex (byte c / 16)) (upper_hex (byte c mod 16)) = Some (byte c)) = true).
  { revert c. apply ascii_forall. vm_compute. reflexivity. }
  by apply bool_decide_eq_true in H.
Qed.

(** Escaping is undone by unescaping, for every part but the host. *)
Lemma unescape_escape mode s : host_mode mode = false → unescape (escape s mode) mode = Some s.
Proof.
  intros Hm. induction s as [|c s IH]; [done|]. cbn [escape].
  destruct (shouldEscape c mode) eqn:E.
  - cbn [unescape]. rewrite Ascii.eqb_refl, hex_pair_upper.
    rewrite !bool_decide_eq_false_2 by (by intros ->). cbn [andb].
    by rewrite IH, chr_byte.
  - cbn [unescape]. rewrite Hm. cbn [andb].
    destruct (Ascii.eqb_spec c "%") as [->|_]; [by destruct mode|]. by rewrite IH.
Qed.

(** The bytes of a host that are written as they are. *)
Definition host_byte (c : ascii) : bool :=
  negb (shouldEscape c encodeHost) && negb (among c "[]<>").

Lemma host_plain s : all_bytes host_byte s = true →
  escape s encodeHost = s ∧ unescape s encodeHost = Some s.
Proof.
  induction s as [|c s IH]; [done|]. cbn. intros [Hc Hs]%andb_true_iff.
  destruct (IH Hs) as [-> ->]. unfold host_byte in Hc.
  apply andb_true_iff in Hc as [Hc _]. apply negb_true_iff in Hc. rewrite Hc.
  destruct (Ascii.eqb_spec c "%") as [->|_]; [done|]. by rewrite andb_false_r.
Qed.

(** Bytes that are free of a separator. *)
Lemma free_by (P : ascii → bool) sep s :
  forallb (λ c, negb (P c) || negb (Ascii.eqb c sep)) all_ascii = true →
  all_bytes P s = true → free sep s = true.
Proof. intros H. apply all_bytes_impl. apply (ascii_impl P (λ c, negb (Ascii.eqb c sep)) H). Qed.

(** The bytes of escaped credentials, of an escaped path and of a URL. *)
Definition user_byte (c : ascii) : bool := is_alnum c || among c "-_.~$&+,;=%".
Definition path_byte (c : ascii) : bool := is_alnum c || among c "-_.~$&+,/:;=@%*".

Lemma user_bytes s : all_bytes user_byte (escape s encodeUserPassword) = true.
Proof. apply escape_bytes; vm_compute; reflexivity. Qed.

Lemma path_bytes s : all_bytes path_byte (escape s encodePath) = true.
Proof. apply escape_bytes; vm_compute; reflexivity. Qed.

(** * The URLs that are built *)

Section built.
Variables (scheme user password host path query : string).

Definition built_url : URL := {|
  Scheme := scheme; Opaque_ := "";
  User := Some {| ui_username := user; ui_password := password; ui_passwordSet := true |};
  Host := host; Path := path; RawPath := ""; OmitHost := false; ForceQuery := false;
  RawQuery := query; Fragment := ""; RawFragment := "" |}.

(** A scheme of lower-case letters. *)
Definition lower (c : ascii) : bool := (97 <=? byte c) && (byte c <=? 122).
Definition scheme_ok : Prop := scheme ≠ "" ∧ all_bytes lower scheme = true.

(** A host, perhaps with a port, that is printed and parsed as it is. *)
Definition hostport_byte (c : ascii) : bool := host_byte c || among c "[]:".
Definition host_ok : Prop :=
  host ≠ "" ∧ all_bytes hostport_byte host = true ∧ escape host encodeHost = host ∧
  ParseURL.parseHost host = Some host.

(** A query that is printed as it is. *)
Definition query_byte (c : ascii) : bool := is_alnum c || among c "-_.~%=&+".
Definition query_ok : Prop := all_bytes query_byte query = true.

(** The path is printed with a slash in front. *)
Definition rooted (p : string) : string := if has_prefix p "/" then p else "/" +:+ p.

Definition credentials : string :=
  escape user encodeUserPassword +:+ ":" +:+ escape password encodeUserPassword.
Definition printed_path : string := rooted (EscapedPath built_url).
Definition printed_query : string := if String.eqb query "" then "" else "?" +:+ query.

Hypothesis Hscheme : scheme_ok.
Hypothesis Hhost : host_ok.
Hypothesis Hpath : path ≠ "".
Hypothesis Hquery : query_ok.

Lemma escaped_path_bytes :
  EscapedPath built_url ≠ "" ∧ all_bytes path_byte (EscapedPath built_url) = true ∧
  unescape (EscapedPath built_url) encodePath = Some path ∧
  has_prefix (EscapedPath built_url) "/" = has_prefix path "/".
Proof.
  unfold EscapedPath. cbn [RawPath Path built_url String.eqb negb andb].
  destruct (String.eqb_spec path "*") as [->|_]; [by vm_compute|].
  split_and!; [|apply path_bytes|by apply unescape_escape|].
  - destruct path as [|c p]; [done|]. cbn. by destruct (shouldEscape c _).
  - destruct path as [|c p]; [done|]. cbn [escape has_prefix].
    destruct (Ascii.eqb_spec "/" c) as [<-|Hne].
    { change (shouldEscape "/" encodePath) with false. cbn [has_prefix].
      by rewrite !has_prefix_empty. }
    destruct (shouldEscape c encodePath); [done|]. cbn [has_prefix].
    by rewrite (proj2 (Ascii.eqb_neq "/" c) Hne).
Qed.

Lemma URL_String_built :
  URL_String built_url =
  scheme +:+ "://" +:+ credentials +:+ "@" +:+ host +:+ printed_path +:+ printed_query.
Proof.
  destruct escaped_path_bytes as (Hne & _ & _ & Hpre).
  destruct Hhost as (Hh & _ & He & _). destruct Hscheme as [Hs _].
  unfold URL_String, printed_path, rooted, printed_query, credentials.
  set (p := EscapedPath built_url) in *. clearbody p.
  cbn [Scheme Opaque_ User Host OmitHost Path ForceQuery RawQuery Fragment built_url].
  rewrite (proj2 (String.eqb_neq _ _) Hs), (proj2 (String.eqb_neq _ _) Hh),
    (proj2 (String.eqb_neq _ _) Hne), bool_decide_eq_true_2 by done.
  cbn [negb orb andb String.eqb]. rewrite He, Hpre.
  destruct scheme as [|c s]; [done|].
  unfold Userinfo_String. cbn [ui_username ui_password ui_passwordSet].
  rewrite orb_true_r. cbn [String.append String.eqb].
  destruct (has_prefix path "/"), (String.eqb query ""); cbn [negb orb andb]; by sapp.
Qed.

(** ** Parsing *)

Lemma scheme_loop_letters s rest : ∀ first seen whole,
  all_bytes lower s = true → (first = false ∨ s ≠ "") →
  ParseURL.scheme_loop first seen (s +:+ String ":" rest) whole = Some (seen +:+ s, rest).
Proof.
  assert (Ha : ∀ c, lower c = true → is_alpha c = true) by (apply ascii_impl; vm_compute; done).
  induction s as [|c s IH]; intros first seen whole Hs Hf.
  - destruct Hf as [->|[]]; [|done]. cbn. by rewrite sapp_nil_r.
  - cbn in Hs. apply andb_true_iff in Hs as [Hc Hs]. cbn [String.append ParseURL.scheme_loop].
    rewrite (Ha c Hc), IH by auto. by sapp.
Qed.

Lemma lower_letters s : all_bytes lower s = true → ParseURL.ascii_lower s = s.
Proof.
  induction s as [|c s IH]; [done|]. cbn. intros [Hc Hs]%andb_true_iff. rewrite IH by done.
  unfold lower in Hc. rewrite andb_true_iff, !Z.leb_le in Hc.
  destruct (Z.leb_spec 65 (byte c)), (Z.leb_spec (byte c) 90); try done; lia.
Qed.

Lemma parse_userinfo_credentials :
  ParseURL.parse_userinfo credentials =
  Some {| ui_username := user; ui_password := password; ui_passwordSet := true |}.
Proof.
  unfold ParseURL.parse_userinfo, credentials.
  assert (Hv : ParseURL.validUserinfo (escape user encodeUserPassword +:+ ":" +:+
                 escape password encodeUserPassword) = true).
  { unfold ParseURL.validUserinfo. rewrite !all_bytes_app, !andb_true_iff.
    split_and!; [|done|];
      (eapply all_bytes_impl; [|apply user_bytes]; apply ascii_impl; vm_compute; done). }
  rewrite Hv. cbn [negb String.append]. rewrite cut_app.
  - by rewrite !unescape_escape.
  - apply (free_by user_byte); [vm_compute; done|apply user_bytes].
Qed.

Lemma host_free sep : forallb (λ c, negb (hostport_byte c) || negb (Ascii.eqb c sep)) all_ascii = true →
  free sep host = true.
Proof. intros H. apply (free_by hostport_byte); [exact H|]. by destruct Hhost as (_ & Hb & _). Qed.

Lemma parseAuthority_built :
  ParseURL.parseAuthority (credentials +:+ "@" +:+ host) =
  Some (Some {| ui_username := user; ui_password := password; ui_passwordSet := true |}, host).
Proof.
  unfold ParseURL.parseAuthority. cbn [String.append].
  rewrite last_index_app by (apply host_free; vm_compute; done).
  rewrite sdrop_app_S, stake_app, parse_userinfo_credentials.
  destruct Hhost as (_ & _ & _ & Hp). by rewrite Hp.
Qed.

(** The path comes back, printed in another way at most. *)
Lemma setPath_built u :
  ∃ raw, ParseURL.setPath u printed_path = Some (set_path_raw u (rooted path) raw).
Proof.
  destruct escaped_path_bytes as (_ & _ & Hu & Hpre). unfold printed_path, rooted.
  set (p := EscapedPath built_url) in *. clearbody p. rewrite Hpre.
  unfold ParseURL.setPath. destruct (has_prefix path "/").
  - rewrite Hu. eexists. done.
  - cbn [String.append unescape]. rewrite Hu. eexists. done.
Qed.

Lemma printed_path_bytes :
  all_bytes path_byte printed_path = true ∧ ∃ p, printed_path = String "/" p.
Proof.
  destruct escaped_path_bytes as (_ & Hb & _ & _). unfold printed_path, rooted.
  set (p := EscapedPath built_url) in *. clearbody p.
  destruct (has_prefix p "/") eqn:Hp.
  - split; [done|]. apply has_prefix_spec in Hp as (t & ->). by exists t.
  - split; [cbn; by rewrite Hb|by exists p].
Qed.

Lemma credentials_bytes : all_bytes (λ c, user_byte c || Ascii.eqb c ":") credentials = true.
Proof.
  unfold credentials. rewrite !all_bytes_app, !andb_true_iff.
  split_and!; [|done|]; (eapply all_bytes_impl; [|apply user_bytes]; by intros c ->).
Qed.

Lemma credentials_free sep :
  forallb (λ c, negb (user_byte c || Ascii.eqb c ":") || negb (Ascii.eqb c sep)) all_ascii = true →
  free sep credentials = true.
Proof.
  intros H. apply (free_by (λ c, user_byte c || Ascii.eqb c ":")); [exact H|].
  apply credentials_bytes.
Qed.

(** The bytes of a printed URL. *)
Definition part_byte (c : ascii) : bool :=
  lower c || hostport_byte c || query_byte c || path_byte c || user_byte c || among c ":/@?".

Lemma all_part (Q : ascii → bool) s :
  forallb (λ c, negb (Q c) || part_byte c) all_ascii = true → all_bytes Q s = true →
  all_bytes part_byte s = true.
Proof. intros H. apply all_bytes_impl. exact (ascii_impl Q part_byte H). Qed.

Lemma printed_part : all_bytes part_byte (URL_String built_url) = true.
Proof.
  rewrite URL_String_built.
  destruct Hscheme as [_ Hs], Hhost as (_ & Hh & _), printed_path_bytes as [Hp _].
  rewrite !all_bytes_app. unfold printed_query.
  rewrite (all_part lower scheme), (all_part hostport_byte host),
    (all_part path_byte printed_path),
    (all_part (λ c, user_byte c || Ascii.eqb c ":") credentials);
    try (vm_compute; reflexivity); try assumption; [|apply credentials_bytes].
  destruct (String.eqb query ""); [done|]. rewrite all_bytes_app.
  rewrite (all_part query_byte query); [done|vm_compute; reflexivity|exact Hquery].
Qed.

(** Whatever holds of these bytes holds of the printed URL. *)
Lemma printed_all P : forallb (λ c, negb (part_byte c) || P c) all_ascii = true →
  all_bytes P (URL_String built_url) = true.
Proof. intros H. eapply all_bytes_impl; [|apply printed_part]. exact (ascii_impl part_byte P H). Qed.

Definition main : string := "//" +:+ credentials +:+ "@" +:+ host +:+ printed_path.

Lemma main_free : free "?" main = true.
Proof.
  unfold main. rewrite !free_app, credentials_free, host_free by (vm_compute; done).
  rewrite (free_by path_byte "?" printed_path); [done|vm_compute; done|apply printed_path_bytes].
Qed.

Lemma query_split :
  has_suffix (main +:+ printed_query) "?" = false ∧
  cut_or_all "?" (main +:+ printed_query) = (main, query).
Proof.
  unfold printed_query. destruct (String.eqb_spec query "") as [->|Hq].
  - rewrite sapp_nil_r. split; [|apply cut_free, main_free].
    apply (has_suffix_free "?" ""); [apply main_free|done].
  - split.
    + cbn [String.append]. change (String "?" query) with ("?" +:+ query).
      rewrite <- sapp_assoc. apply has_suffix_free; [|done].
      apply (free_by query_byte); [vm_compute; done|exact Hquery].
    + unfold cut_or_all. cbn [String.append]. by rewrite cut_app by apply main_free.
Qed.

(** [url.Parse] of [URL.String] gives back the scheme, the credentials byte for
    byte, the host, the path and the query. *)
Lemma url_Parse_built :
  ∃ raw, url_Parse (URL_String built_url) = Some (set_path_raw built_url (rooted path) raw).
Proof.
  destruct (setPath_built (ParseURL.bare scheme ""
    (Some {| ui_username := user; ui_password := password; ui_passwordSet := true |}) host ""
    false false query)) as [raw Hraw].
  exists raw. unfold url_Parse.
  rewrite cut_free by (apply printed_all; vm_compute; done). cbn [String.eqb].
  assert (Hp : ParseURL.parse (URL_String built_url) =
    Some (set_path_raw built_url (rooted path) raw)); [|by rewrite Hp].
  unfold ParseURL.parse.
  assert (ParseURL.contains_ctl (URL_String built_url) = false) as ->.
  { unfold ParseURL.contains_ctl, any_byte. rewrite printed_all; [done|vm_compute; done]. }
  assert (Hstr : URL_String built_url = scheme +:+ String ":" (main +:+ printed_query)).
  { rewrite URL_String_built. unfold main. by sapp. }
  destruct Hscheme as [Hne Hlow].
  assert (String.eqb (URL_String built_url) "*" = false) as ->.
  { rewrite Hstr. apply String.eqb_neq. destruct scheme as [|c [|d s]]; done. }
  unfold ParseURL.getScheme. rewrite Hstr, scheme_loop_letters by auto. cbn [String.append].
  rewrite lower_letters by done. destruct query_split as [-> ->]. cbn [andb].
  change main with (String "/" (String "/" (credentials +:+ "@" +:+ host +:+ printed_path))).
  cbn [has_prefix Ascii.eqb Bool.eqb andb negb drop].
  rewrite (proj2 (String.eqb_neq _ _) Hne), has_prefix_empty. cbn [negb andb orb].
  destruct printed_path_bytes as [_ [pp Hpp]].
  assert (Hi : index "/" (credentials +:+ "@" +:+ host +:+ printed_path) =
    Some (String.length (credentials +:+ "@" +:+ host))).
  { rewrite Hpp, <- !sapp_assoc, index_app; [done|].
    by rewrite !free_app, credentials_free, host_free by (vm_compute; done). }
  rewrite Hi, <- !sapp_assoc, stake_app, sdrop_app, !sapp_assoc, parseAuthority_built.
  exact Hraw.
Qed.
End built.
