(* ===== verification/Fs.v ===== *)
(** A file system that changes, with faults: the state and the system calls
    behind the functions of packages [os] and [crypto/rand] that write.

    A file is known by its path as the program spells it, cleaned: nothing
    says that two paths name one file, and no directory on the way is a
    symbolic link.  Every call asks the host whether it fails, so a theorem
    for all hosts covers a disk that is full, a directory that may not be
    written and a file that another process removes from under the program,
    at any point of a run. *)
From S2P Require Import Prelude GoStrings Strconv Os.

Local Open Scope string_scope.
Local Open Scope Z_scope.

(** * Paths *)

(** A cleaned path: whether it starts at the root, and its names, last one
    first; what [Clean] prints. *)
Abbreviation key := (bool * list string)%type.

Definition locate (path : string) : key :=
  let rooted := has_prefix path "/" in
  (rooted, foldl (clean_step rooted) [] (split "/" path)).

Definition child (k : key) (name : string) : key := (k.1, name :: k.2).
Definition parent (k : key) : key := (k.1, tail k.2).

(** [k'] is [k] or lies below it. *)
Definition within (k k' : key) : bool :=
  bool_decide (k.1 = k'.1) && bool_decide (suffix k.2 k'.2).

(** * The state *)

(** A file: its mode with the type bits, its inode, and its bytes, or the path
    that a symbolic link holds. *)
Record node := mkNode { n_mode : Z; n_ino : Z; n_data : string }.

Record world := mkWorld { nodes : gmap key node; tick : nat; next_ino : Z }.

(** The host: GOOS, the mask on the modes of new files, which call (counted by
    [tick]) fails on which path and how much a failing write has written, the
    random suffixes of temporary names and the bytes of [rand.Read]. *)
Class HostOS := {
  host_GOOS : string;
  umask : Z;
  broken : nat → key → bool;
  written : nat → nat;
  random_suffix : nat → Z;
  entropy : nat → option string
}.

Inductive errno := EEXIST | ENOENT | EOTHER.

Definition Gen (A : Type) : Type := world → res A * world.

#[global] Instance gen_ret : MRet Gen := λ A a w, (Ok a, w).
#[global] Instance gen_bind : MBind Gen := λ A B f m w,
  match m w with
  | (Ok a, w') => f a w'
  | (Err e, w') => (Err e, w')
  end.

Definition fail {A} (e : string) : Gen A := λ w, (Err e, w).

(** A deferred function that runs unless the run succeeded. *)
Definition unless_ok (cleanup : world → world) (m : Gen unit) : Gen unit := λ w,
  match m w with
  | (Ok tt, w') => (Ok tt, w')
  | (Err e, w') => (Err e, cleanup w')
  end.

Definition is_dir (n : node) : bool := has_mode (n_mode n) ModeDir.
Definition dir_at (k : key) (w : world) : bool :=
  match nodes w !! k with Some n => is_dir n | None => false end.

Definition set_nodes (m : gmap key node) (w : world) : world :=
  mkWorld m (tick w) (next_ino w).

(** One system call on the path [k]: it fails, or does what [body] says. *)
Definition syscall {A} `{HostOS} (k : key) (body : world → (A + errno) * world)
    (w : world) : (A + errno) * world :=
  let w' := mkWorld (nodes w) (S (tick w)) (next_ino w) in
  if broken (tick w) k then (inr EOTHER, w') else body w'.

(** The answer of a call, with the message the code gives to any failure. *)
Definition or_fail {A} (message : string) (call : world → (A + errno) * world) : Gen A := λ w,
  match call w with
  | (inl a, w') => (Ok a, w')
  | (inr _, w') => (Err message, w')
  end.

Section calls.
Context `{HostOS}.

(** A new file of mode [mode] in a directory that exists. *)
Definition enter (k : key) (mode : Z) (w : world) : (unit + errno) * world :=
  match nodes w !! k with
  | Some _ => (inr EEXIST, w)
  | None =>
      match nodes w !! parent k with
      | None => (inr ENOENT, w)
      | Some d =>
          if is_dir d
          then (inl tt, mkWorld (<[k := mkNode mode (next_ino w) ""]> (nodes w)) (tick w)
                          (next_ino w + 1))
          else (inr EOTHER, w)
      end
  end.

(** [os.Mkdir], and [os.OpenFile] with [O_WRONLY|O_CREATE|O_EXCL]. *)
Definition Mkdir (path : string) (perm : Z) : world → (unit + errno) * world :=
  syscall (locate path) (enter (locate path) (Z.lor ModeDir (Z.ldiff perm umask))).
Definition OpenExcl (path : string) (perm : Z) : world → (unit + errno) * world :=
  syscall (locate path) (enter (locate path) (Z.ldiff perm umask)).

Definition put_data (k : key) (data : string) (w : world) : world :=
  set_nodes (alter (λ n, mkNode (n_mode n) (n_ino n) data) k (nodes w)) w.

(** [file.Write] to a file just created: all of [contents], or a part of it
    and an error. *)
Definition Write (path contents : string) (w : world) : (unit + errno) * world :=
  let k := locate path in
  let w' := mkWorld (nodes w) (S (tick w)) (next_ino w) in
  if broken (tick w) k then (inr EOTHER, put_data k (take (written (tick w)) contents) w')
  else (inl tt, put_data k contents w').

Definition CloseFile (path : string) : world → (unit + errno) * world :=
  syscall (locate path) (λ w, (inl tt, w)).

Definition Chmod (path : string) (perm : Z) : world → (unit + errno) * world :=
  let k := locate path in
  syscall k (λ w,
    match nodes w !! k with
    | None => (inr ENOENT, w)
    | Some n =>
        (inl tt, set_nodes
           (<[k := mkNode (Z.lor (Z.ldiff (n_mode n) 511) perm) (n_ino n) (n_data n)]> (nodes w)) w)
    end).

(** [os.Rename] of a file that is not a directory. *)
Definition Rename (from to : string) : world → (unit + errno) * world :=
  let k := locate from in
  let k' := locate to in
  syscall k (λ w,
    match nodes w !! k with
    | None => (inr ENOENT, w)
    | Some n =>
        if is_dir n || dir_at k' w || negb (dir_at (parent k') w) then (inr EOTHER, w)
        else (inl tt, set_nodes (<[k' := n]> (delete k (nodes w))) w)
    end).

(** The keys whose parent is [k]; the names among them that [ReadDir] lists. *)
Definition entries (k : key) (w : world) : list key :=
  filter (λ k', parent k' = k ∧ k' ≠ k) (map_to_list (nodes w)).*1.
Definition entry_names (k : key) (w : world) : list string :=
  filter (λ name, name ≠ "..") (omap (λ k', head k'.2) (entries k w)).

(** [os.Remove]: of a directory, only an empty one. *)
Definition Remove (path : string) : world → (unit + errno) * world :=
  let k := locate path in
  syscall k (λ w,
    match nodes w !! k with
    | None => (inr ENOENT, w)
    | Some n =>
        if is_dir n && negb (length (entries k w) =? 0)%nat then (inr EOTHER, w)
        else (inl tt, set_nodes (delete k (nodes w)) w)
    end).

(** [os.RemoveAll], its error ignored: everything within the path goes, or, if
    the host refuses some of it, the files it does not refuse. *)
Definition RemoveAll (path : string) (w : world) : world :=
  let k := locate path in
  let refused k' := within k k' && broken (tick w) k' in
  let complete := forallb (λ k', negb (refused k')) (map_to_list (nodes w)).*1 in
  mkWorld
    (filter (λ kn, negb (within k kn.1 && (complete || negb (is_dir kn.2 || refused kn.1))) = true)
       (nodes w))
    (S (tick w)) (next_ino w).

(** [os.MkdirTemp]: up to 10000 names are tried. *)
Definition joinPath (dir name : string) : string :=
  if has_suffix dir "/" then dir +:+ name else dir +:+ "/" +:+ name.

Fixpoint mkdirTemp (tries : nat) (dir prefix : string) (w : world) : (string + errno) * world :=
  let name := joinPath dir prefix +:+ itoa (random_suffix (tick w)) in
  match Mkdir name 448 w with
  | (inl tt, w') => (inl name, w')
  | (inr EEXIST, w') =>
      match tries with
      | O => (inr EEXIST, w')
      | S n => mkdirTemp n dir prefix w'
      end
  | (inr e, w') => (inr e, w')
  end.
Definition retries : nat := Z.to_nat 9999.
Definition MkdirTemp (dir prefix : string) : world → (string + errno) * world :=
  mkdirTemp retries dir prefix.

(** [rand.Read] into 32 bytes. *)
Definition rand_Read (w : world) : option string * world :=
  (entropy (tick w), mkWorld (nodes w) (S (tick w)) (next_ino w)).

(** * The system as it is read *)

Definition info_of (n : node) : FileInfo :=
  {| fi_mode := n_mode n; fi_dev := 1; fi_ino := n_ino n; fi_size := len (n_data n) |}.

(** The file that a path leads to; the target of a link is a path. *)
Fixpoint follow (fuel : nat) (k : key) (w : world) : option node :=
  n ← nodes w !! k;
  if has_mode (n_mode n) ModeSymlink then
    match fuel with
    | O => None
    | S f =>
        follow f (if has_prefix (n_data n) "/" then locate (n_data n)
                  else (k.1, foldl (clean_step k.1) (tail k.2) (split "/" (n_data n)))) w
    end
  else Some n.

Definition view (w : world) : OS :=
  let alive k := negb (broken (tick w) k) in
  {| GOOS := host_GOOS;
     Environ := [];
     Lstat path := let k := locate path in
       if alive k then info_of <$> nodes w !! k else None;
     Stat path := let k := locate path in
       if alive k then info_of <$> follow 40 k w else None;
     Open path := let k := locate path in
       if alive k then
         (λ n, {| f_stat := Some (info_of n); f_content := n_data n; f_fault := None;
                  f_close := Ok tt |}) <$> follow 40 k w
       else None;
     ReadDir path := let k := locate path in
       if alive k && dir_at k w then Some (entry_names k w) else None |}.

(** Code that only reads, run on the current state. *)
Definition reading {A} (f : OS → res A) : Gen A := λ w,
  (f (view w), mkWorld (nodes w) (S (tick w)) (next_ino w)).

(** The walk to a path that does not exist ends at its nearest existing
    ancestor: a file there is [ENOTDIR]. *)
Fixpoint obstructed (rooted : bool) (names : list string) (w : world) : bool :=
  match names with
  | [] => false
  | _ :: above =>
      match nodes w !! (rooted, above) with
      | Some d => negb (is_dir d)
      | None => obstructed rooted above w
      end
  end.

(** [os.Lstat] with the question whether its error is [ErrNotExist]. *)
Definition lstat_exists (path : string) (w : world) : (bool + errno) * world :=
  let k := locate path in
  syscall k (λ w,
    match nodes w !! k with
    | Some _ => (inl true, w)
    | None => if obstructed k.1 k.2 w then (inr EOTHER, w) else (inl false, w)
    end) w.
End calls.
