(* ===== verification/JsonPrint.v ===== *)
(** [json.Marshal] on trees, and its round trip through the strict reader: a
    document printed by the library is one JSON text that the scan accepts and
    the decoder reads back. *)
From S2P Require Import Prelude GoStrings Strconv Json Secrets StrictJson.

Local Open Scope string_scope.

Import Tokens Tree.

(** * Printing *)

(** [appendString] with HTML escaping: what one byte below 128 becomes. *)
Definition marshal_byte (c : ascii) : string :=
  if Ascii.eqb c Scan.dquote then String "\" (String Scan.dquote "")
  else if Ascii.eqb c "\" then "\\"
  else if Ascii.eqb c "008" then "\b"
  else if Ascii.eqb c "012" then "\f"
  else if Ascii.eqb c "010" then "\n"
  else if Ascii.eqb c "013" then "\r"
  else if Ascii.eqb c "009" then "\t"
  else if (byte c <? 32)%Z || contains_byte c "<>&" then "\u" +:+ hex_digits 4 (byte c)
  else String c "".

(** Beyond ASCII, bytes that are not UTF-8 and the two line separators of
    JavaScript are escaped; [skip] bytes belong to a rune already printed. *)
Fixpoint marshal_body (skip : nat) (s : string) : string :=
  match s with
  | EmptyString => ""
  | String c s' =>
      match skip with
      | S k => marshal_body k s'
      | O =>
          if (byte c <? 128)%Z then marshal_byte c +:+ marshal_body 0 s'
          else
            let '(r, w) := Utf8.decode_rune s in
            (if (r =? Utf8.RuneError)%Z && (w =? 1)%nat then "\ufffd"
             else if (r =? 8232)%Z || (r =? 8233)%Z then "\u" +:+ hex_digits 4 r
             else take w s) +:+ marshal_body (w - 1) s'
      end
  end.

Definition marshal_string (s : string) : string :=
  String Scan.dquote (marshal_body 0 s +:+ String Scan.dquote "").

Definition marshal_field (print : json → string) (field : string * json) : string :=
  marshal_string field.1 +:+ ":" +:+ print field.2.

Fixpoint Marshal (j : json) : string :=
  match j with
  | JNull => "null"
  | JBool b => format_bool b
  | JNumber lexeme => lexeme
  | JString s => marshal_string s
  | JArray items => "[" +:+ join "," (map Marshal items) +:+ "]"
  | JObject fields => "{" +:+ join "," (map (marshal_field Marshal) fields) +:+ "}"
  end.

Example marshal_html : Marshal (JString "a<b") = String Scan.dquote ("a\u003cb" +:+ String Scan.dquote "").
Proof. reflexivity. Qed.
Example marshal_ring :
  Marshal (JObject [("version", JNumber "1"); ("keys", JArray [JNull; JBool true])]) =
  "{" +:+ String Scan.dquote ("version" +:+ String Scan.dquote (":1," +:+
  String Scan.dquote ("keys" +:+ String Scan.dquote ":[null,true]}"))).
Proof. reflexivity. Qed.

(** * Trees that are printed as they are *)

Definition safe (c : ascii) : bool := legible c && negb (contains_byte c "<>&").

(** A whole number without sign, fraction and exponent. *)
Definition number_ok (lexeme : string) : bool :=
  match lexeme with
  | String c digits =>
      is_digit c && all_bytes is_digit digits &&
      (negb (Ascii.eqb c "0") || String.eqb digits "") &&
      negb (Literal.float_out_of_range lexeme)
  | EmptyString => false
  end.

Inductive printable : json → Prop :=
| printable_null : printable JNull
| printable_bool b : printable (JBool b)
| printable_number lexeme : number_ok lexeme = true → printable (JNumber lexeme)
| printable_string s : all_bytes safe s = true → printable (JString s)
| printable_array items : Forall printable items → printable (JArray items)
| printable_object fields :
    Forall (λ field, all_bytes safe field.1 = true ∧ printable field.2) fields →
    printable (JObject fields).

Lemma safe_legible s : all_bytes safe s = true → all_bytes legible s = true.
Proof.
  apply all_bytes_impl. intros c. unfold safe. by intros [? _]%andb_true_iff.
Qed.

Lemma marshal_byte_safe c : safe c = true → (byte c <? 128)%Z = true ∧ marshal_byte c = String c "".
Proof.
  assert (H : ∀ c, implb (safe c) ((byte c <? 128)%Z && String.eqb (marshal_byte c) (String c "")) = true).
  { intros c'. destruct c' as [[] [] [] [] [] [] [] []]; vm_compute; reflexivity. }
  intros Hc. specialize (H c). rewrite Hc in H. cbn [implb] in H.
  apply andb_true_iff in H as [-> ->%String.eqb_eq]. done.
Qed.

Lemma marshal_string_safe s : all_bytes safe s = true →
  marshal_string s = String Scan.dquote (s +:+ String Scan.dquote "").
Proof.
  unfold marshal_string. intros Hs. do 2 f_equal. induction s as [|c s IH]; [done|].
  cbn [all_bytes] in Hs. apply andb_true_iff in Hs as [Hc Hs].
  apply marshal_byte_safe in Hc as [Hb Hm]. cbn [marshal_body]. rewrite Hb, Hm.
  cbn [String.append]. by rewrite IH.
Qed.

(** * What follows a value *)

(** The input after a value that stands in a document. *)
Definition stops (rest : string) : Prop :=
  match rest with
  | EmptyString => True
  | String c _ => c = ","%char ∨ c = "]"%char ∨ c = "}"%char
  end.

Lemma scalar_string s rest : all_bytes legible s = true →
  Scan.scalar Scan.dquote (s +:+ String Scan.dquote rest) =
  Scan.Scanned (String Scan.dquote (s +:+ String Scan.dquote "")) rest.
Proof. intros Hs. unfold Scan.scalar. cbn. by rewrite run_legible. Qed.

Lemma unquote_string s : all_bytes legible s = true →
  Literal.unquote (String Scan.dquote (s +:+ String Scan.dquote "")) = Some s.
Proof.
  intros Hs. unfold Literal.unquote. cbn [String.length drop]. rewrite slen_app.
  cbn [String.length]. replace (_ - 2)%nat with (String.length s) by lia.
  rewrite stake_app. by apply unquote_legible.
Qed.

Lemma run_digits digits rest : ∀ acc, all_bytes is_digit digits = true → stops rest →
  Scan.run Scan.state1 acc (digits +:+ rest) = Scan.Scanned (acc +:+ digits) rest.
Proof.
  induction digits as [|c digits IH]; intros acc Hd Hr.
  - cbn [String.append]. rewrite sapp_nil_r. destruct rest as [|c rest]; [done|].
    cbn in Hr. by destruct Hr as [-> |[-> | ->]].
  - cbn [all_bytes String.append Scan.run] in *. apply andb_true_iff in Hd as [Hc Hd].
    cbn [Scan.step]. rewrite Hc, IH by done. by rewrite sapp_assoc.
Qed.

Lemma scalar_number c digits rest : number_ok (String c digits) = true → stops rest →
  Scan.scalar c (digits +:+ rest) = Scan.Scanned (String c digits) rest.
Proof.
  cbn [number_ok]. rewrite !andb_true_iff, orb_true_iff. intros [[[Hc Hd] Hz] _] Hr.
  destruct (digit_not_sign c Hc) as [Hm _].
  assert (Hq : Ascii.eqb c Scan.dquote = false).
  { apply Ascii.eqb_neq. intros ->. discriminate Hc. }
  unfold Scan.scalar, Scan.begin_value. rewrite Hq, Hm.
  destruct (Ascii.eqb c "0") eqn:H0.
  - destruct Hz as [Hz|Hz]; [discriminate Hz|]. apply String.eqb_eq in Hz as ->.
    destruct rest as [|d rest]; [done|]. cbn in Hr. by destruct Hr as [-> |[-> | ->]].
  - rewrite Hc. by apply run_digits.
Qed.

(** * One value in front of [rest] *)

Section values.
Context {tables : UnicodeTables}.

Definition delimiter (c : ascii) : bool := contains_byte c "[]{}:,".

(** The text of a scalar: its first byte is no delimiter, and both readers
    take it in one step. *)
Definition scalar_text (j : json) (text : string) : Prop :=
  ∃ c s, text = String c s ∧ Scan.is_space c = false ∧
    delimiter c = false ∧
    ∀ rest, stops rest →
      ∃ lexeme t, Scan.scalar c (s +:+ rest) = Scan.Scanned lexeme rest ∧
        scalar_value c lexeme = Some j ∧ read_scalar c (s +:+ rest) = inl (t, rest) ∧
        ∀ b, t ≠ TDelim b.

Lemma scalar_text_intro j c s lexeme :
  Scan.is_space c = false → delimiter c = false →
  (∀ rest, stops rest → Scan.scalar c (s +:+ rest) = Scan.Scanned lexeme rest) →
  scalar_value c lexeme = Some j →
  (Ascii.eqb c Scan.dquote = false → is_digit c || Ascii.eqb c "-" = true →
   Literal.float_out_of_range lexeme = false) →
  scalar_text j (String c s).
Proof.
  intros Hsp Hd Hs Hv Hf. exists c, s. split_and!; [done..|]. intros rest Hr.
  specialize (Hs rest Hr). exists lexeme.
  unfold read_scalar. rewrite Hs. unfold scalar_value in Hv |- *.
  destruct (Ascii.eqb c Scan.dquote).
  - destruct (Literal.unquote lexeme) as [text|]; [|done]. eexists. by split_and!.
  - eexists (TScalar lexeme). split_and!; [done|done| |done].
    destruct (is_digit c || Ascii.eqb c "-"); [|done]. by rewrite (Hf eq_refl eq_refl).
Qed.

Lemma digit_start c : is_digit c = true →
  Scan.is_space c = false ∧ delimiter c = false ∧ Ascii.eqb c Scan.dquote = false ∧
  Ascii.eqb c "t" = false ∧ Ascii.eqb c "f" = false ∧ Ascii.eqb c "n" = false.
Proof.
  intros Hc. rewrite <- !negb_true_iff. cut (forallb negb [Scan.is_space c; delimiter c;
    Ascii.eqb c Scan.dquote; Ascii.eqb c "t"; Ascii.eqb c "f"; Ascii.eqb c "n"] = true).
  { cbn [forallb]. rewrite !andb_true_iff. tauto. }
  revert c Hc. apply ascii_impl. vm_compute. reflexivity.
Qed.

Lemma scalar_printed j : printable j → (∀ items, j ≠ JArray items) →
  (∀ fields, j ≠ JObject fields) → scalar_text j (Marshal j).
Proof.
  intros Hp Ha Ho. destruct Hp as [|[]|lexeme Hn|s Hs|items _|fields _].
  - apply (scalar_text_intro _ _ _ "null"); [done|done| |done|done].
    intros rest _. cbn. apply run_end.
  - apply (scalar_text_intro _ _ _ "true"); [done|done| |done|done].
    intros rest _. cbn. apply run_end.
  - apply (scalar_text_intro _ _ _ "false"); [done|done| |done|done].
    intros rest _. cbn. apply run_end.
  - destruct lexeme as [|c digits]; [done|].
    pose proof Hn as Hn'. cbn [number_ok] in Hn'. rewrite !andb_true_iff in Hn'.
    destruct Hn' as [[[Hc _] _] Hf%negb_true_iff].
    apply digit_start in Hc as (Hsp & Hdl & Hq & Ht & Hfa & Hnu).
    apply (scalar_text_intro _ _ _ (String c digits)); [done|done| | |done].
    + intros rest Hr. by apply scalar_number.
    + unfold scalar_value. by rewrite Hq, Ht, Hfa, Hnu.
  - cbn [Marshal]. rewrite marshal_string_safe by done. apply safe_legible in Hs.
    eapply scalar_text_intro; [done|done| | |done].
    + intros rest _. rewrite sapp_assoc. by apply scalar_string.
    + unfold scalar_value. rewrite Ascii.eqb_refl. by rewrite unquote_string.
  - by destruct (Ha items).
  - by destruct (Ho fields).
Qed.

(** ** Texts of lists *)

(** The texts after the first one, each with its comma, and [close]. *)
Fixpoint tail_text (texts : list string) (close : string) : string :=
  match texts with
  | [] => close
  | t :: rest => "," +:+ t +:+ tail_text rest close
  end.

Lemma tail_cons t texts close :
  tail_text (t :: texts) close = String "," (t +:+ tail_text texts close).
Proof. done. Qed.

Lemma join_tail t texts close : join "," (t :: texts) +:+ close = t +:+ tail_text texts close.
Proof.
  revert t. induction texts as [|u texts IH]; intros t; [done|].
  change (join "," (t :: u :: texts)) with (t +:+ "," +:+ join "," (u :: texts)).
  rewrite !sapp_assoc. by rewrite IH.
Qed.

Lemma tail_stops texts close : stops close → stops (tail_text texts close).
Proof. intros Hc. destruct texts; cbn; auto. Qed.

(** The first byte of a value's text. *)
Definition starts_value (text : string) : Prop :=
  ∃ c s, text = String c s ∧ Scan.is_space c = false ∧ Ascii.eqb c "]" = false ∧
    Ascii.eqb c "}" = false.

Lemma not_delimiter c : delimiter c = false →
  Ascii.eqb c "[" = false ∧ Ascii.eqb c "]" = false ∧ Ascii.eqb c "{" = false ∧
  Ascii.eqb c "}" = false ∧ Ascii.eqb c ":" = false ∧ Ascii.eqb c "," = false.
Proof.
  rewrite <- negb_true_iff. intros Hc. rewrite <- !negb_true_iff. cut (forallb negb [Ascii.eqb c "[";
    Ascii.eqb c "]"; Ascii.eqb c "{"; Ascii.eqb c "}"; Ascii.eqb c ":"; Ascii.eqb c ","] = true).
  { cbn [forallb]. rewrite !andb_true_iff. tauto. }
  revert c Hc. apply ascii_impl. vm_compute. reflexivity.
Qed.

Lemma printed_starts j : printable j → starts_value (Marshal j).
Proof.
  intros Hp.
  assert (Hs : (∀ items, j ≠ JArray items) → (∀ fields, j ≠ JObject fields) →
    starts_value (Marshal j)).
  { intros Ha Ho. destruct (scalar_printed j Hp Ha Ho) as (c & s & -> & Hsp & Hd & _).
    apply not_delimiter in Hd as (_ & H1 & _ & H2 & _). by exists c, s. }
  destruct j as [| | | |items|fields]; try (apply Hs; discriminate); by eexists _, _.
Qed.

(** ** The scan and the tree reader on a printed value *)

Abbreviation decoder b st stk := {| d_buf := b; d_state := st; d_stack := stk |}.

Definition reads_back (j : json) : Prop := ∀ rest, stops rest →
  reads value 0 (Marshal j +:+ rest) j rest ∧
  ∀ f d st schema, tokenValueAllowed st = true → conforms schema j →
    Token d = Token (decoder (Marshal j +:+ rest) st (d_stack d)) →
    (2 * String.length (Marshal j +:+ rest) < f)%nat →
    scanJSONValue f d schema = Some (Ok (decoder rest (tokenValueEnd st) (d_stack d))).

Lemma next_scalar st stk c s :
  Scan.is_space c = false → delimiter c = false → tokenValueAllowed st = true →
  next st stk (String c s) =
  match read_scalar c s with
  | inl (t, rest) => Tok t (decoder rest (tokenValueEnd st) stk)
  | inr e => Failed e
  end.
Proof.
  intros Hsp Hd Ha. apply not_delimiter in Hd as (H1 & H2 & H3 & H4 & H5 & H6).
  cbn [next]. rewrite Hsp, H1, H2, H3, H4, H5, H6, Ha.
  assert (bool_decide (st = tokenObjectStart) || bool_decide (st = tokenObjectKey) = false) as ->
    by (by destruct st).
  by rewrite andb_false_r.
Qed.

Lemma scalar_reads_back j text : scalar_text j text → Marshal j = text → reads_back j.
Proof.
  intros (c & s & -> & Hsp & Hd & Hs) Hm rest Hr. rewrite Hm.
  destruct (Hs rest Hr) as (lexeme & t & Hsc & Hv & Hrd & Ht).
  pose proof (not_delimiter c Hd) as (H1 & _ & H2 & _). cbn [String.append]. split.
  - eapply reads_scalar; [|done..]. cbn [skip_space]. by rewrite Hsp.
  - intros f d st schema Ha _ Htok Hf. destruct f as [|f]; [lia|].
    cbn [scanJSONValue]. rewrite Htok. unfold Token. cbn [d_state d_stack d_buf].
    rewrite next_scalar, Hrd by done. cbn [token_or_error].
    by destruct t as [b| |]; [destruct (Ht b)|..].
Qed.

(** ** Arrays *)

Lemma more_head_text d text rest c s :
  d_buf d = text +:+ rest → text = String c s → Scan.is_space c = false →
  Ascii.eqb c "]" = false → Ascii.eqb c "}" = false → More d = true.
Proof.
  intros Hb -> Hsp H1 H2. unfold More. rewrite Hb. cbn. by rewrite Hsp, H1, H2.
Qed.

Lemma scan_items_tail items element st stk : ∀ f rest,
  Forall printable items → Forall reads_back items → Forall (conforms element) items →
  (2 * String.length (tail_text (map Marshal items) (String "]" rest)) + 1 < f)%nat →
  scan_items f (decoder (tail_text (map Marshal items) (String "]" rest)) tokenArrayComma (st :: stk))
    element = Some (Ok (decoder rest (tokenValueEnd st) stk)).
Proof.
  induction items as [|j items IH]; intros [|f] rest Hp Hb Hc Hf; try lia; [done|].
  apply Forall_cons in Hp as [Hp Hps], Hb as [Hj Hb], Hc as [Hc Hcl].
  set (tail := tail_text (map Marshal items) (String "]" rest)) in *.
  assert (Ht : tail_text (map Marshal (j :: items)) (String "]" rest) =
    String "," (Marshal j +:+ tail)) by done.
  rewrite Ht in Hf |- *. cbn [String.length] in Hf.
  destruct (Hj tail) as [_ Hscan]; [by apply tail_stops; cbn; auto|].
  destruct (printed_starts j Hp) as (c & s & Hcs & Hsp & H1 & H2).
  cbn [scan_items]. assert (More _ = true) as -> by done.
  erewrite (Hscan f _ tokenArrayValue); [|done..|lia]. apply IH; try done.
  fold tail. rewrite slen_app, Hcs in Hf. cbn [String.length] in Hf. lia.
Qed.

Lemma starts_skip text rest : starts_value text →
  ∃ c s, skip_space (text +:+ rest) = String c s ∧ Ascii.eqb c "]" = false ∧ Ascii.eqb c "}" = false.
Proof.
  intros (c & s & -> & Hsp & H1 & H2). exists c, (s +:+ rest). cbn. by rewrite Hsp.
Qed.

Lemma reads_items j items rest :
  reads_back j → Forall reads_back items →
  reads array_items 1 (Marshal j +:+ tail_text (map Marshal items) (String "]" rest))
    (j :: items) rest.
Proof.
  intros Hj Hb. revert j Hj. induction Hb as [|k items Hk Hb IH]; intros j Hj.
  - eapply reads_item_last; [apply Hj; cbn; auto|done].
  - apply (reads_item_cons _ _ (tail_text (map Marshal (k :: items)) (String "]" rest))
      (Marshal k +:+ tail_text (map Marshal items) (String "]" rest)));
      [apply Hj; cbn; auto|done| |by apply IH].
    rewrite (slen_app (Marshal j)), map_cons, tail_cons. cbn [String.length]. lia.
Qed.

Lemma conforms_array_inv schema items : conforms schema (JArray items) →
  ∃ element, schema = arraySchema element ∧ Forall (conforms element) items.
Proof. inversion 1 as [? ? H'|element ? H'|]; [by destruct (H' items)|by eexists]. Qed.

Lemma conforms_object_inv schema fields : conforms schema (JObject fields) →
  ∃ schemas, schema = objectSchema schemas ∧ NoDup fields.*1 ∧
    Forall (field_conforms schemas) fields.
Proof. inversion 1 as [? ? ? H'| |schemas ? ? H']; [by destruct (H' fields)|by eexists]. Qed.

Lemma array_reads_back items :
  Forall printable items → Forall reads_back items → reads_back (JArray items).
Proof.
  intros Hp Hb rest Hr. destruct items as [|j items].
  { split; [by eapply reads_array_nil|]. intros [|[|f]] d st schema Ha Hc Htok Hf; try (cbn in Hf; lia).
    cbn [scanJSONValue]. rewrite Htok. unfold Token. cbn. rewrite Ha. cbn.
    by apply conforms_array_inv in Hc as (element & -> & _). }
  assert (Hm : Marshal (JArray (j :: items)) +:+ rest =
    String "[" (Marshal j +:+ tail_text (map Marshal items) (String "]" rest))).
  { cbn [Marshal map]. rewrite !sapp_assoc. cbn [String.append]. by rewrite join_tail. }
  rewrite Hm. apply Forall_cons in Hp as [Hp Hps], Hb as [Hj Hb].
  pose proof (printed_starts j Hp) as Hst.
  destruct (starts_skip _ (tail_text (map Marshal items) (String "]" rest)) Hst)
    as (c & s & Hs & H1 & _).
  split; [eapply reads_array; [done..|by apply reads_items]|].
  intros [|f] d st schema Ha Hc Htok Hf; [lia|].
  apply conforms_array_inv in Hc as (element & -> & [Hc1 Hcs]%Forall_cons).
  cbn [scanJSONValue]. rewrite Htok. unfold Token. cbn [d_state d_stack d_buf next].
  cbn [Scan.is_space Ascii.eqb Bool.eqb orb andb]. rewrite Ha. cbn [token_or_error].
  cbn [Ascii.eqb Bool.eqb andb]. cbn [String.length] in Hf.
  set (tail := tail_text (map Marshal items) (String "]" rest)) in *.
  destruct f as [|f]; [lia|]. cbn [scan_items].
  destruct Hst as (b & s' & Hbs & Hsp & Hb1 & Hb2).
  rewrite (more_head_text _ (Marshal j) tail b s') by done.
  destruct (Hj tail) as [_ Hscan]; [by apply tail_stops; cbn; auto|].
  erewrite (Hscan f _ tokenArrayStart); [|done..|lia].
  apply scan_items_tail; try done. fold tail.
  rewrite slen_app, Hbs in Hf. cbn [String.length] in Hf. lia.
Qed.

(** ** Objects *)

Abbreviation field_text := (marshal_field Marshal).

Definition field_ok (field : string * json) : Prop :=
  all_bytes safe field.1 = true ∧ printable field.2 ∧ reads_back field.2.

(** The text of a field: a quote, the name, a quote, a colon and the value. *)
Lemma field_text_safe name j rest : all_bytes safe name = true →
  field_text (name, j) +:+ rest =
  String Scan.dquote (name +:+ String Scan.dquote (String ":" (Marshal j +:+ rest))).
Proof.
  intros Hn. unfold marshal_field. cbn [fst snd]. rewrite marshal_string_safe by done.
  cbn [String.append]. by rewrite !sapp_assoc.
Qed.

Lemma field_head_printed name j rest :
  all_bytes safe name = true → reads_back j → stops rest →
  field_head (field_text (name, j) +:+ rest) name j rest.
Proof.
  intros Hn Hj Hr. rewrite field_text_safe by done. pose proof (safe_legible name Hn) as Hl.
  eexists _, _, _, (Marshal j +:+ rest). split_and!.
  - reflexivity.
  - by apply scalar_string.
  - by apply unquote_string.
  - reflexivity.
  - by apply Hj.
  - cbn [String.length]. rewrite (slen_app name). cbn [String.length]. lia.
Qed.

Lemma reads_fields field fields rest :
  field_ok field → Forall field_ok fields →
  reads object_fields 1 (field_text field +:+ tail_text (map field_text fields) (String "}" rest))
    (field :: fields) rest.
Proof.
  intros Hj Hb. revert field Hj. induction Hb as [|k fields Hk Hb IH]; intros [name j] (Hn & _ & Hj).
  - eapply reads_field_last; [apply field_head_printed; cbn; auto|done].
  - apply (reads_field_cons _ _ _ (tail_text (map field_text (k :: fields)) (String "}" rest))
      (field_text k +:+ tail_text (map field_text fields) (String "}" rest)));
      [apply field_head_printed; cbn; auto|done| |by apply IH].
    rewrite (slen_app (field_text (name, j))), map_cons, tail_cons. cbn [String.length]. lia.
Qed.

(** The decoder at a field: [Token] reads its name, then a value stands behind
    the colon. *)
Lemma key_printed st stk name rest :
  all_bytes safe name = true → st = tokenObjectStart ∨ st = tokenObjectKey →
  next st stk (String Scan.dquote (name +:+ String Scan.dquote rest)) =
  Tok (TString name) (decoder rest tokenObjectColon stk).
Proof.
  intros Hn Hst. apply safe_legible in Hn. cbn [next].
  assert (Hr : read_scalar Scan.dquote (name +:+ String Scan.dquote rest) = inl (TString name, rest)).
  { unfold read_scalar. by rewrite scalar_string, Ascii.eqb_refl, unquote_string. }
  rewrite Hr. by destruct Hst as [-> | ->].
Qed.

(** One round of the loop over the fields, with the comma in front or not. *)
Lemma scan_field_round f d st stk s name j rest schemas seen child :
  d_stack d = stk → More d = true → Token d = next st stk s →
  s = field_text (name, j) +:+ rest → st = tokenObjectStart ∨ st = tokenObjectKey →
  field_ok (name, j) → stops rest → name ∉ seen →
  schema_field schemas name = Some child → conforms child j →
  (2 * String.length s < f)%nat →
  scan_fields (S f) d schemas seen =
  scan_fields f (decoder rest tokenObjectComma stk) schemas (name :: seen).
Proof.
  intros Hstk Hm Htok -> Hst (Hn & Hp & Hj) Hr Hseen Hch Hc Hf. cbn [fst snd] in *.
  rewrite field_text_safe in Htok, Hf by done. cbn [scan_fields]. rewrite Hm, Htok.
  rewrite key_printed by done. cbn [token_or_error].
  rewrite bool_decide_eq_false_2 by done. rewrite Hch.
  destruct (Hj rest Hr) as [_ Hscan].
  rewrite (Hscan f _ tokenObjectValue); [done|done|done|done|].
  cbn [String.length] in Hf. rewrite (slen_app name) in Hf. cbn [String.length] in Hf. lia.
Qed.

Lemma scan_fields_tail fields schemas st stk : ∀ f rest seen,
  Forall field_ok fields → Forall (field_conforms schemas) fields → NoDup fields.*1 →
  (∀ name, name ∈ fields.*1 → name ∉ seen) →
  (2 * String.length (tail_text (map field_text fields) (String "}" rest)) < f)%nat →
  scan_fields f
    (decoder (tail_text (map field_text fields) (String "}" rest)) tokenObjectComma (st :: stk))
    schemas seen = Some (Ok (decoder rest (tokenValueEnd st) stk)).
Proof.
  induction fields as [|[name j] fields IH]; intros [|f] rest seen Hok Hc Hnd Hdis Hf; try lia; [done|].
  apply Forall_cons in Hok as [Hj Hok], Hc as [(child & Hch & Hc) Hcs].
  apply NoDup_cons in Hnd as [Hni Hnd]. rewrite map_cons, tail_cons in Hf |- *.
  cbn [String.length fst snd] in *.
  set (tail := tail_text (map field_text fields) (String "}" rest)) in *.
  rewrite (scan_field_round f _ tokenObjectKey (st :: stk) (field_text (name, j) +:+ tail)
    name j tail schemas seen child); try done.
  - apply IH; try done.
    + intros n Hn [->|Hs]%elem_of_cons; [done|]. apply (Hdis n); [by right|done].
    + fold tail. rewrite slen_app in Hf. lia.
  - by right.
  - apply tail_stops. cbn. auto.
  - apply Hdis. by left.
  - lia.
Qed.

Lemma object_reads_back fields :
  Forall field_ok fields → reads_back (JObject fields).
Proof.
  intros Hok rest Hr. destruct fields as [|[name j] fields].
  { split; [by eapply reads_object_nil|]. intros [|[|f]] d st schema Ha Hc Htok Hf; try (cbn in Hf; lia).
    cbn [scanJSONValue]. rewrite Htok. unfold Token. cbn. rewrite Ha. cbn.
    by apply conforms_object_inv in Hc as (schemas & -> & _). }
  assert (Hm : Marshal (JObject ((name, j) :: fields)) +:+ rest =
    String "{" (field_text (name, j) +:+ tail_text (map field_text fields) (String "}" rest))).
  { cbn [Marshal]. rewrite map_cons, !sapp_assoc. cbn [String.append]. by rewrite <- join_tail. }
  rewrite Hm. apply Forall_cons in Hok as [Hj Hok].
  set (tail := tail_text (map field_text fields) (String "}" rest)) in *.
  assert (Hft : field_text (name, j) +:+ tail =
    String Scan.dquote (name +:+ String Scan.dquote (String ":" (Marshal j +:+ tail)))).
  { apply field_text_safe, Hj. }
  split.
  { eapply (reads_object _ (field_text (name, j) +:+ tail) Scan.dquote);
      [done|exact (f_equal skip_space Hft)|done|by apply reads_fields]. }
  intros [|f] d st schema Ha Hc Htok Hf; [lia|].
  apply conforms_object_inv in Hc as (schemas & -> & [Hni Hnd]%NoDup_cons &
    [(child & Hch & Hc) Hcs]%Forall_cons).
  cbn [scanJSONValue]. rewrite Htok. unfold Token. cbn [d_state d_stack d_buf next].
  cbn [Scan.is_space Ascii.eqb Bool.eqb orb andb]. rewrite Ha. cbn [token_or_error].
  cbn [Ascii.eqb Bool.eqb andb]. cbn [String.length] in Hf.
  destruct f as [|f]; [lia|].
  rewrite (scan_field_round f _ tokenObjectStart (st :: d_stack d) (field_text (name, j) +:+ tail)
    name j tail schemas [] child); try done.
  - apply scan_fields_tail; try done; [set_solver|]. fold tail. rewrite slen_app in Hf. lia.
  - by left.
  - apply tail_stops. cbn. auto.
  - set_solver.
  - lia.
Qed.

(** ** All trees *)

Fixpoint printable_reads_back j (Hp : printable j) {struct Hp} : reads_back j.
Proof.
  destruct Hp as [|b|lexeme Hl|s Hs|items Hi|fields Hf].
  - by apply (scalar_reads_back _ (Marshal JNull)); [apply scalar_printed; [constructor|..]|].
  - by apply (scalar_reads_back _ (Marshal (JBool b))); [apply scalar_printed; [constructor|..]|].
  - by apply (scalar_reads_back _ (Marshal (JNumber lexeme)));
      [apply scalar_printed; [constructor|..]|].
  - by apply (scalar_reads_back _ (Marshal (JString s))); [apply scalar_printed; [constructor|..]|].
  - apply array_reads_back; [done|]. induction Hi; constructor; auto.
  - apply object_reads_back. induction Hf as [|field fields [Hn Hp] Hf IH]; constructor; [|done].
    split_and!; auto.
Qed.

(** The strict reader on a printed tree that conforms to the schema does what
    the decoder does with the tree. *)
Lemma strictJSON_Marshal {W} setting j (zero : W) decode schema :
  printable j → conforms schema j →
  strictJSON setting (Marshal j) zero decode schema =
  match decode zero j with
  | Some w => Ok w
  | None => Err ("read " +:+ setting +:+ ": invalid JSON")
  end.
Proof.
  intros Hp Hc. destruct (printable_reads_back j Hp "" I) as [Hr Hs].
  rewrite sapp_nil_r in Hr, Hs. unfold strictJSON.
  rewrite (Hs _ _ tokenTopValue); [|done..|lia].
  assert (Token (decoder "" (tokenValueEnd tokenTopValue) (d_stack (NewDecoder (Marshal j)))) = EOF)
    as -> by done.
  assert (parse (Marshal j) = Some (j, "")) as -> by (apply Hr; lia).
  by destruct (decode zero j).
Qed.
End values.
