(* ===== verification/FsFacts.v ===== *)
(** The paths and the system calls of [Fs]: where a path that was put together
    leads, what a call can change, and the shape a file system keeps. *)
From S2P Require Import Prelude GoStrings Strconv Os Fs.

Local Open Scope string_scope.
Local Open Scope Z_scope.

(** * Paths *)

(** The name of an entry of a directory. *)
Definition simple (name : string) : bool :=
  negb (String.eqb name "") && negb (String.eqb name ".") && negb (String.eqb name "..") &&
  free "/" name.

Lemma simple_spec name : simple name = true →
  name ≠ "" ∧ name ≠ "." ∧ name ≠ ".." ∧ free "/" name = true.
Proof. unfold simple. by rewrite !andb_true_iff, !negb_true_iff, !String.eqb_neq; intros [[[]]]. Qed.

(** What cleaning leaves: names, and names of parent directories in front. *)
Inductive cleaned (rooted : bool) : list string → Prop :=
| cleaned_nil : cleaned rooted []
| cleaned_name name stack :
    simple name = true → cleaned rooted stack → cleaned rooted (name :: stack)
| cleaned_up stack :
    rooted = false → Forall (λ name, name = "..") stack → cleaned rooted (".." :: stack).

Lemma clean_step_simple rooted stack name :
  simple name = true → clean_step rooted stack name = name :: stack.
Proof.
  intros (H1 & H2 & H3 & _)%simple_spec. unfold clean_step.
  rewrite (proj2 (String.eqb_neq name "") H1), (proj2 (String.eqb_neq name ".") H2).
  by rewrite (proj2 (String.eqb_neq name "..") H3).
Qed.

Lemma cleaned_all_up rooted stack :
  rooted = false → Forall (λ name, name = "..") stack → cleaned rooted stack.
Proof. intros Hr [|? ? -> Hs]; by constructor. Qed.

Lemma clean_step_cleaned rooted stack name :
  cleaned rooted stack → free "/" name = true → cleaned rooted (clean_step rooted stack name).
Proof.
  intros Hc Hf. unfold clean_step.
  destruct (String.eqb_spec name "") as [|H1]; [done|].
  destruct (String.eqb_spec name ".") as [|H2]; [done|]. cbn [orb].
  destruct (String.eqb_spec name "..") as [->|H3].
  - destruct Hc as [|top stack Ht Hc|stack Hr Hs].
    + destruct rooted; [constructor|]. by constructor.
    + apply simple_spec in Ht as (_ & _ & Ht & _). by rewrite (proj2 (String.eqb_neq _ _) Ht).
    + cbn. constructor; [done|]. by constructor.
  - constructor; [|done]. unfold simple. rewrite Hf, andb_true_r.
    by rewrite !andb_true_iff, !negb_true_iff, !String.eqb_neq.
Qed.

Lemma locate_cleaned path : cleaned (locate path).1 (locate path).2.
Proof.
  cbn. generalize (has_prefix path "/") as rooted. intros rooted.
  assert (G : ∀ names stack, Forall (λ x, free "/" x = true) names → cleaned rooted stack →
    cleaned rooted (foldl (clean_step rooted) stack names)).
  { induction names as [|n names IH]; intros stack Hn Hs; [done|].
    apply Forall_cons in Hn as [Hf Hn]. apply IH; [done|]. by apply clean_step_cleaned. }
  apply G; [apply split_all_free|constructor].
Qed.

(** Cleaning what is clean changes nothing. *)
Lemma fold_cleaned rooted stack : cleaned rooted stack →
  foldl (clean_step rooted) [] (reverse stack) = stack.
Proof.
  induction 1 as [|name stack Hn _ IH|stack Hr Hs]; [done| |].
  - rewrite reverse_cons, foldl_app, IH. by apply clean_step_simple.
  - subst rooted. induction Hs as [|? stack -> Hs IH]; [done|].
    rewrite reverse_cons, foldl_app, IH. done.
Qed.

Lemma cleaned_free rooted stack : cleaned rooted stack →
  Forall (λ s, free "/" s = true ∧ s ≠ "") stack.
Proof.
  induction 1 as [|name stack Hn _ IH|stack Hr Hs]; [constructor| |].
  - apply simple_spec in Hn as (? & _ & _ & ?). by constructor.
  - constructor; [done|]. eapply Forall_impl; [exact Hs|]. by intros ? ->.
Qed.

Lemma join_head sep name names : ∃ t, join sep (name :: names) = name +:+ t.
Proof. destruct names as [|n names]; [exists ""; by rewrite sapp_nil_r|by eexists]. Qed.

Lemma locate_Clean path : locate (Clean path) = locate path.
Proof.
  pose proof (locate_cleaned path) as Hc.
  set (k := locate path) in *.
  assert (Hk : Clean path = match reverse k.2, k.1 with
    | [], true => "/" | [], false => "."
    | names, true => "/" +:+ join "/" names | names, false => join "/" names end).
  { unfold Clean, k, locate. cbn [fst snd].
    destruct (has_prefix path "/"); by destruct (reverse _). }
  rewrite Hk. clearbody k. clear Hk path. destruct k as [rooted stack]. cbn [fst snd] in *.
  pose proof (fold_cleaned rooted stack Hc) as Hf. pose proof (cleaned_free _ _ Hc) as Hn.
  apply Forall_reverse in Hn.
  destruct (reverse stack) as [|name names] eqn:Hr.
  { cbn in Hf. subst stack. by destruct rooted. }
  assert (Hfree : Forall (λ s, free "/" s = true) (name :: names)).
  { eapply Forall_impl; [exact Hn|]. by intros ? []. }
  unfold locate. destruct rooted.
  - cbn [String.append has_prefix]. rewrite Ascii.eqb_refl. cbn [andb].
    assert (has_prefix (join "/" (name :: names)) "" = true) as -> by apply has_prefix_empty.
    change (String "/" (join "/" (name :: names))) with ("" +:+ String "/" (join "/" (name :: names))).
    rewrite split_app, (split_join "/") by done. exact (f_equal (pair true) Hf).
  - assert (has_prefix (join "/" (name :: names)) "/" = false) as ->.
    { destruct (join_head "/" name names) as [t ->].
      apply Forall_cons in Hn as [[Hfr Hne] _]. destruct name as [|c name]; [done|].
      apply free_cons in Hfr as [Hc' _]. cbn [String.append has_prefix].
      by rewrite (proj2 (Ascii.eqb_neq "/" c)) by congruence. }
    rewrite (split_join "/") by done. by rewrite Hf.
Qed.

Lemma has_prefix_app_slash dir s : dir ≠ "" → has_prefix (dir +:+ s) "/" = has_prefix dir "/".
Proof. destruct dir as [|c dir]; [done|]. intros _. cbn [String.append has_prefix]. by rewrite !has_prefix_empty. Qed.

(** A directory joined with a name, as [filepath.Join] and [os.MkdirTemp] do. *)
Lemma locate_slash dir name : dir ≠ "" → simple name = true →
  locate (dir +:+ "/" +:+ name) = child (locate dir) name.
Proof.
  intros Hd Hn. pose proof (simple_spec _ Hn) as (_ & _ & _ & Hf).
  unfold locate, child. cbn [fst snd]. rewrite has_prefix_app_slash by done. f_equal.
  change (dir +:+ "/" +:+ name) with (dir +:+ String "/" name).
  rewrite split_app, foldl_app, (split_free "/" name) by done. cbn [foldl].
  by apply clean_step_simple.
Qed.

Lemma locate_Join dir name : dir ≠ "" → simple name = true →
  locate (Join dir name) = child (locate dir) name.
Proof.
  intros Hd Hn. unfold Join. rewrite (proj2 (String.eqb_neq _ _) Hd).
  rewrite (proj2 (String.eqb_neq name "")) by (by apply simple_spec in Hn as []).
  rewrite locate_Clean. by apply locate_slash.
Qed.

Lemma has_suffix_inv s c : has_suffix s (String c "") = true → ∃ t, s = t +:+ String c "".
Proof.
  unfold has_suffix. rewrite andb_true_iff, String.eqb_eq. intros [_ Hs].
  exists (take (String.length s - 1) s). rewrite <- (take_drop (String.length s - 1) s) at 1.
  f_equal. by symmetry.
Qed.

Lemma locate_joinPath dir name : dir ≠ "" → simple name = true →
  locate (joinPath dir name) = child (locate dir) name.
Proof.
  intros Hd Hn. unfold joinPath. destruct (has_suffix dir "/") eqn:Hs; [|by apply locate_slash].
  apply has_suffix_inv in Hs as [t ->].
  pose proof (simple_spec _ Hn) as (_ & _ & _ & Hf).
  rewrite sapp_assoc. cbn [String.append]. unfold locate, child. cbn [fst snd].
  assert (has_prefix (t +:+ String "/" name) "/" = has_prefix (t +:+ "/") "/") as ->.
  { destruct t as [|c t]; [cbn; by rewrite has_prefix_empty|]. by rewrite !has_prefix_app_slash. }
  f_equal. rewrite !split_app, !foldl_app, (split_free "/" name) by done. cbn [foldl split].
  rewrite clean_step_simple by done. done.
Qed.

Lemma Clean_nonempty path : Clean path ≠ "".
Proof.
  unfold Clean. pose proof (cleaned_free _ _ (locate_cleaned path)) as Hn.
  cbn [locate fst snd] in Hn. apply Forall_reverse in Hn.
  destruct (reverse _) as [|name names]; [by destruct (has_prefix path "/")|].
  destruct (has_prefix path "/"); [done|].
  destruct (join_head "/" name names) as [t ->].
  apply Forall_cons in Hn as [[_ Hne] _]. by destruct name.
Qed.

Lemma Dir_nonempty path : Dir path ≠ "".
Proof. unfold Dir. destruct (last_index "/" path); [apply Clean_nonempty|done]. Qed.

(** A path is one step from its directory. *)
Lemma locate_Dir path : ∃ name,
  locate path = ((locate (Dir path)).1, clean_step (locate (Dir path)).1 (locate (Dir path)).2 name).
Proof.
  unfold Dir. destruct (last_index "/" path) as [i|] eqn:Hi.
  - destruct (last_index_split _ _ _ Hi) as (a & b & -> & <- & Hb). exists b.
    rewrite take_S_app, locate_Clean. unfold locate. cbn [fst snd].
    assert (Hp : has_prefix (a +:+ String "/" b) "/" = has_prefix (a +:+ "/") "/").
    { destruct a as [|c a]; [cbn [String.append has_prefix]; by rewrite !has_prefix_empty|].
      by rewrite !has_prefix_app_slash. }
    rewrite Hp, !split_app, !foldl_app, (split_free "/" b) by done. done.
  - exists path. apply last_index_none in Hi. unfold locate. cbn [fst snd].
    rewrite (split_free "/" path) by done.
    assert (has_prefix path "/" = false) as ->; [|done].
    destruct path as [|c path]; [done|]. apply free_cons in Hi as [Hc _].
    cbn [has_prefix]. by rewrite (proj2 (Ascii.eqb_neq "/" c)) by congruence.
Qed.

Lemma clean_step_length rooted stack name :
  (length (clean_step rooted stack name) ≤ S (length stack))%nat.
Proof.
  unfold clean_step. destruct (_ || _); [lia|]. destruct (String.eqb name ".."); [|done].
  destruct stack as [|top stack]; [destruct rooted; cbn; lia|].
  destruct (String.eqb top ".."); cbn; lia.
Qed.

Lemma Join_nonempty dir name : dir ≠ "" → Join dir name ≠ "".
Proof.
  intros Hd. unfold Join. rewrite (proj2 (String.eqb_neq _ _) Hd).
  destruct (String.eqb name ""); apply Clean_nonempty.
Qed.

(** * The shape of a file system *)

(** Every file but the roots lies in a directory. *)
Definition fs_ok (w : world) : Prop :=
  ∀ k n, nodes w !! k = Some n → k.2 ≠ [] → dir_at (parent k) w = true.

Lemma dir_at_some k w : dir_at k w = true ↔ ∃ n, nodes w !! k = Some n ∧ is_dir n = true.
Proof. unfold dir_at. destruct (nodes w !! k); naive_solver. Qed.

Lemma unobstructed k w : dir_at (parent k) w = true → obstructed k.1 k.2 w = false.
Proof.
  destruct k as [rooted [|name above]]; [done|].
  intros (d & Hd & Hdir)%dir_at_some. cbn [obstructed fst snd].
  change (rooted, above) with (parent (rooted, name :: above)). by rewrite Hd, Hdir.
Qed.

Lemma follow_plain fuel k w n :
  nodes w !! k = Some n → has_mode (n_mode n) ModeSymlink = false → follow fuel k w = Some n.
Proof. intros Hk Hm. destruct fuel; cbn [follow]; rewrite Hk; cbn [mbind option_bind]; by rewrite Hm. Qed.

Lemma within_spec k k' : within k k' = true ↔ k.1 = k'.1 ∧ ∃ l, k'.2 = (l ++ k.2)%list.
Proof. unfold within. rewrite andb_true_iff, !bool_decide_eq_true. done. Qed.

Lemma within_refl k : within k k = true.
Proof. apply within_spec. split; [done|]. by exists []. Qed.

Lemma within_child k name : within k (child k name) = true.
Proof. apply within_spec. split; [done|]. by exists [name]. Qed.

Lemma within_trans k1 k2 k3 : within k1 k2 = true → within k2 k3 = true → within k1 k3 = true.
Proof.
  rewrite !within_spec. intros [H1 [l1 E1]] [H2 [l2 E2]]. split; [congruence|].
  exists (l2 ++ l1)%list. by rewrite E2, E1, app_assoc.
Qed.

Lemma within_parent k k' : within k (parent k') = true → within k k' = true.
Proof.
  rewrite !within_spec. intros [H [l E]]. cbn in *. split; [done|].
  destruct k'.2 as [|name stack]; cbn in E; [by exists l|]. exists (name :: l). by rewrite E.
Qed.

Lemma within_length k k' : within k k' = true → (length k'.2 ≤ length k.2)%nat → k = k'.
Proof.
  intros [H [l E]]%within_spec Hl. rewrite E, length_app in Hl.
  destruct l; [|cbn in Hl; lia]. destruct k, k'. cbn in *. by subst.
Qed.

(** Two directories with something in common: one lies below the other. *)
Lemma within_both k1 k2 k : within k1 k = true → within k2 k = true →
  within k1 k2 = true ∨ within k2 k1 = true.
Proof.
  rewrite !within_spec. intros [H1 [l1 E1]] [H2 [l2 E2]]. rewrite E1 in E2.
  apply app_eq_inv in E2 as [(m & _ & E)|(m & _ & E)]; [left|right];
    (split; [congruence|by exists m]).
Qed.

Lemma child_not_self k name : child k name ≠ k.
Proof. destruct k as [b s]. intros [= E]. apply (f_equal length) in E. cbn in E. lia. Qed.

Lemma child_inj k k' name name' : child k name = child k' name' → k = k' ∧ name = name'.
Proof. destruct k, k'. by intros [= -> -> ->]. Qed.

Lemma parent_child k name : parent (child k name) = k.
Proof. by destruct k. Qed.

(** Below a path where nothing is there is nothing. *)
Lemma none_within w r k : fs_ok w → nodes w !! r = None → within r k = true → nodes w !! k = None.
Proof.
  intros Hw Hr [Hrk [l Hl]]%within_spec. destruct k as [b stack], r as [b' stack']. cbn in *. subst.
  induction l as [|name l IH]; [done|].
  destruct (nodes w !! (b, ((name :: l) ++ stack')%list)) as [n|] eqn:E; [|done].
  pose proof (Hw _ _ E ltac:(done)) as Hd. apply dir_at_some in Hd as (d & Hd & _).
  change (nodes w !! (b, (l ++ stack')%list) = Some d) in Hd. congruence.
Qed.

(** * What may change *)

(** A change from [w] to [w'] within [owned], which keeps the shape. *)
Definition frame (owned : key → Prop) (w w' : world) : Prop :=
  (∀ k, ¬ owned k → nodes w' !! k = nodes w !! k) ∧ (fs_ok w → fs_ok w').

#[export] Instance frame_preorder owned : PreOrder (frame owned).
Proof.
  split.
  - intros w. by split.
  - intros w1 w2 w3 [Hk1 Hw1] [Hk2 Hw2]. split; [|auto].
    intros k Hk. by rewrite Hk2, Hk1.
Qed.

Lemma fs_ok_nodes w w' : nodes w' = nodes w → fs_ok w → fs_ok w'.
Proof. unfold fs_ok, dir_at. by intros ->. Qed.

Lemma frame_nodes owned w w' : nodes w' = nodes w → frame owned w w'.
Proof. intros Hn. split; [by rewrite Hn|by apply fs_ok_nodes]. Qed.

Definition keeps {A} (owned : key → Prop) (m : Gen A) : Prop := ∀ w, frame owned w (m w).2.
Definition call_keeps {A} (owned : key → Prop) (call : world → (A + errno) * world) : Prop :=
  ∀ w, frame owned w (call w).2.

Create HintDb fs.

Section keeps.
Context (owned : key → Prop).

Lemma keeps_ret {A} (a : A) : keeps owned (mret a).
Proof. intros w. by apply frame_nodes. Qed.

Lemma keeps_fail {A} e : keeps owned (fail (A := A) e).
Proof. intros w. by apply frame_nodes. Qed.

Lemma keeps_bind {A B} (m : Gen A) (f : A → Gen B) :
  keeps owned m → (∀ a, keeps owned (f a)) → keeps owned (m ≫= f).
Proof.
  intros Hm Hf w. unfold mbind, gen_bind. specialize (Hm w).
  destruct (m w) as [[a|e] w']; [|done]. cbn in Hm. etransitivity; [exact Hm|apply Hf].
Qed.

Lemma keeps_or_fail {A} message (call : world → (A + errno) * world) :
  call_keeps owned call → keeps owned (or_fail message call).
Proof.
  intros Hc w. specialize (Hc w). unfold or_fail. by destruct (call w) as [[a|e] w'].
Qed.

Lemma keeps_unless_ok cleanup m :
  keeps owned m → (∀ w, frame owned w (cleanup w)) → keeps owned (unless_ok cleanup m).
Proof.
  intros Hm Hc w. specialize (Hm w). unfold unless_ok.
  destruct (m w) as [[[]|e] w']; [done|]. etransitivity; [exact Hm|apply Hc].
Qed.

Context `{HostOS}.

Lemma keeps_reading {A} (f : OS → res A) : keeps owned (reading f).
Proof. intros w. by apply frame_nodes. Qed.

(** ** System calls *)

Lemma syscall_keeps {A} k (body : world → (A + errno) * world) :
  call_keeps owned body → call_keeps owned (syscall k body).
Proof.
  intros Hb w. unfold syscall. set (w' := mkWorld _ _ _).
  assert (Hw : frame owned w w') by by apply frame_nodes.
  destruct (broken _ _); [done|]. etransitivity; [exact Hw|apply Hb].
Qed.

Lemma enter_keeps k mode : owned k → call_keeps owned (enter k mode).
Proof.
  intros Hk w. unfold enter. destruct (nodes w !! k) eqn:Hn; [by apply frame_nodes|].
  destruct (nodes w !! parent k) as [d|] eqn:Hp; [|by apply frame_nodes].
  destruct (is_dir d) eqn:Hd; [|by apply frame_nodes]. cbn [snd]. split.
  - intros k' Hk'. cbn [nodes]. rewrite lookup_insert_ne; [done|]. by intros ->.
  - intros Hw k' n. cbn [nodes]. unfold dir_at. cbn [nodes]. intros Hl Hne.
    destruct (decide (parent k' = k)) as [<-|Hpk].
    + exfalso. destruct (decide (k' = parent k')) as [E|E].
      { rewrite <- E in *. congruence. }
      rewrite lookup_insert_ne in Hl by congruence.
      pose proof (Hw _ _ Hl Hne) as Hx. apply dir_at_some in Hx as (x & Hx & _). congruence.
    + rewrite lookup_insert_ne by congruence. destruct (decide (k' = k)) as [->|E].
      * by rewrite Hp.
      * rewrite lookup_insert_ne in Hl by congruence. exact (Hw _ _ Hl Hne).
Qed.

(** Changing one node without changing whether it is a directory. *)
Lemma alter_keeps w k f : owned k → (∀ n, is_dir (f n) = is_dir n) →
  frame owned w (set_nodes (alter f k (nodes w)) w).
Proof.
  intros Hk Hf. split.
  - intros k' Hk'. cbn. rewrite lookup_alter_ne; [done|]. by intros ->.
  - intros Hw k' n. unfold dir_at. cbn [nodes set_nodes]. intros Hl Hne.
    assert (Hd : dir_at (parent k') w = true).
    { destruct (decide (k' = k)) as [->|E].
      - rewrite lookup_alter_eq in Hl. apply fmap_Some in Hl as (x & Hx & _). exact (Hw _ _ Hx Hne).
      - rewrite lookup_alter_ne in Hl by congruence. exact (Hw _ _ Hl Hne). }
    apply dir_at_some in Hd as (x & Hx & Hdx).
    destruct (decide (k = parent k')) as [->|E].
    + rewrite lookup_alter_eq, Hx. cbn. by rewrite Hf.
    + rewrite lookup_alter_ne by congruence. by rewrite Hx.
Qed.

Lemma Mkdir_keeps path perm : owned (locate path) → call_keeps owned (Mkdir path perm).
Proof. intros Hk. by apply syscall_keeps, enter_keeps. Qed.

Lemma OpenExcl_keeps path perm : owned (locate path) → call_keeps owned (OpenExcl path perm).
Proof. intros Hk. by apply syscall_keeps, enter_keeps. Qed.

Lemma put_data_keeps w k data : owned k → frame owned w (put_data k data w).
Proof. intros Hk. by apply alter_keeps. Qed.

Lemma Write_keeps path contents : owned (locate path) → call_keeps owned (Write path contents).
Proof.
  intros Hk w. unfold Write. set (w' := mkWorld _ _ _).
  assert (Hw : frame owned w w') by by apply frame_nodes.
  destruct (broken _ _); (etransitivity; [exact Hw|by apply put_data_keeps]).
Qed.

Lemma CloseFile_keeps path : call_keeps owned (CloseFile path).
Proof. apply syscall_keeps. intros w. by apply frame_nodes. Qed.

Lemma chmod_dir m perm : Z.land perm ModeDir = 0 →
  has_mode (Z.lor (Z.ldiff m 511) perm) ModeDir = has_mode m ModeDir.
Proof.
  intros Hp. unfold has_mode. rewrite Z.land_lor_distr_l, Hp, Z.lor_0_r.
  rewrite Z.ldiff_land, <- Z.land_assoc. done.
Qed.

Lemma Chmod_keeps path perm : owned (locate path) → Z.land perm ModeDir = 0 →
  call_keeps owned (Chmod path perm).
Proof.
  intros Hk Hp. apply syscall_keeps. intros w.
  destruct (nodes w !! locate path) as [n|] eqn:Hn; [|by apply frame_nodes].
  set (f n := mkNode (Z.lor (Z.ldiff (n_mode n) 511) perm) (n_ino n) (n_data n)).
  assert (E : <[locate path:=f n]> (nodes w) = alter f (locate path) (nodes w)).
  { apply map_eq. intros k. destruct (decide (k = locate path)) as [->|].
    - by rewrite lookup_insert_eq, lookup_alter_eq, Hn.
    - by rewrite lookup_insert_ne, lookup_alter_ne by congruence. }
  fold (f n). rewrite E. apply alter_keeps; [done|]. intros x. by apply chmod_dir.
Qed.

Lemma Rename_keeps from to : owned (locate from) → owned (locate to) →
  call_keeps owned (Rename from to).
Proof.
  intros Hk Hk'. apply syscall_keeps. intros w.
  destruct (nodes w !! locate from) as [n|] eqn:Hn; [|by apply frame_nodes].
  destruct (is_dir n || dir_at (locate to) w || negb (dir_at (parent (locate to)) w)) eqn:Hg;
    [by apply frame_nodes|].
  rewrite !orb_false_iff, negb_false_iff in Hg. destruct Hg as [[Hd Ht] Hp]. cbn [snd]. split.
  - intros k Hn'. cbn. rewrite lookup_insert_ne by (by intros <-).
    rewrite lookup_delete_ne; [done|by intros <-].
  - intros Hw k x. unfold dir_at. cbn [nodes set_nodes]. intros Hl Hne.
    assert (Hpk : dir_at (parent k) w = true).
    { destruct (decide (k = locate to)) as [->|E]; [done|].
      rewrite lookup_insert_ne in Hl by congruence.
      apply lookup_delete_Some in Hl as [_ Hl]. exact (Hw _ _ Hl Hne). }
    pose proof Hpk as Hpk'. apply dir_at_some in Hpk' as (d & Hdl & Hdd).
    rewrite lookup_insert_ne by (intros E; rewrite E in *; congruence).
    rewrite lookup_delete_ne by (intros E; rewrite E in *; congruence). by rewrite Hdl.
Qed.

Lemma elem_of_entries k k' w : k' ∈ entries k w ↔ parent k' = k ∧ k' ≠ k ∧ is_Some (nodes w !! k').
Proof.
  unfold entries. rewrite list_elem_of_filter, list_elem_of_fmap. split.
  - intros [[Hp Hne] ([? n] & -> & Hl%elem_of_map_to_list)]. split_and!; [done..|]. by exists n.
  - intros (Hp & Hne & [n Hl]). split; [done|]. exists (k', n). split; [done|].
    by apply elem_of_map_to_list.
Qed.

Lemma Remove_keeps path : owned (locate path) → call_keeps owned (Remove path).
Proof.
  intros Hk. apply syscall_keeps. intros w.
  destruct (nodes w !! locate path) as [n|] eqn:Hn; [|by apply frame_nodes].
  destruct (is_dir n && negb (length (entries (locate path) w) =? 0)%nat) eqn:Hg;
    [by apply frame_nodes|]. cbn [snd]. split.
  - intros k Hn'. cbn. rewrite lookup_delete_ne; [done|by intros <-].
  - intros Hw k x. unfold dir_at. cbn [nodes set_nodes]. intros [Hne' Hl]%lookup_delete_Some Hne.
    pose proof (Hw _ _ Hl Hne) as Hd. apply dir_at_some in Hd as (d & Hdl & Hdd).
    rewrite lookup_delete_ne; [by rewrite Hdl|]. intros E.
    assert (n = d) as -> by congruence. rewrite Hdd in Hg. cbn in Hg.
    apply negb_false_iff, Nat.eqb_eq, length_zero_iff_nil in Hg.
    assert (Hin : k ∈ entries (locate path) w).
    { apply elem_of_entries. split_and!; [done|congruence|by exists x]. }
    rewrite Hg in Hin. by apply elem_of_nil in Hin.
Qed.

Lemma RemoveAll_keeps path w : (∀ k, within (locate path) k = true → owned k) →
  frame owned w (RemoveAll path w).
Proof.
  intros Hk. unfold RemoveAll.
  set (complete := forallb _ _). set (k0 := locate path) in *.
  set (P := λ kn : key * node, negb (within k0 kn.1 &&
    (complete || negb (is_dir kn.2 || within k0 kn.1 && broken (tick w) kn.1))) = true).
  split.
  - intros k Hn. cbn. assert (Hk' : within k0 k = false).
    { destruct (within k0 k) eqn:E; [by apply Hk in E|done]. }
    destruct (nodes w !! k) as [n|] eqn:Hl.
    + apply map_lookup_filter_Some. split; [done|]. unfold P. cbn [fst snd]. by rewrite Hk'.
    + apply map_lookup_filter_None. by left.
  - intros Hw k n. unfold dir_at. cbn [nodes]. intros [Hl HP]%map_lookup_filter_Some Hne.
    pose proof (Hw _ _ Hl Hne) as Hd. apply dir_at_some in Hd as (d & Hdl & Hdd).
    assert (filter P (nodes w) !! parent k = Some d) as ->; [|done].
    apply map_lookup_filter_Some. split; [done|]. unfold P in *. cbn [fst snd] in *.
    apply negb_true_iff. apply negb_true_iff in HP.
    destruct (within k0 (parent k)) eqn:Hwp; [|done]. rewrite Hdd. cbn [andb negb orb].
    apply within_parent in Hwp. rewrite Hwp in HP. cbn [andb] in HP.
    apply orb_false_iff in HP as [-> _]. done.
Qed.

Lemma rand_frame w : frame owned w (rand_Read w).2.
Proof. by apply frame_nodes. Qed.
End keeps.

#[export] Hint Resolve keeps_ret keeps_fail keeps_bind keeps_or_fail keeps_unless_ok keeps_reading
  Mkdir_keeps OpenExcl_keeps Write_keeps CloseFile_keeps Chmod_keeps Rename_keeps Remove_keeps
  RemoveAll_keeps : fs.
