(* ===== verification/DevSecrets.v ===== *)
(** [internal/config/devsecrets.go]: the secrets of a development deployment,
    generated into a directory of their own, validated, and put in the place
    of the logical paths under [/run/secrets]. *)
From stdpp Require Import sorting.
From S2P Require Import Prelude GoStrings Strconv Net Url Regex Base64 Os Json Secrets JsonPrint Fs.

Local Open Scope string_scope.
Local Open Scope Z_scope.

Definition DevSecretDirectoryName : string := ".local-secrets".

Definition devSecretFiles : list string :=
  ["api_key_pepper_ring"; "csrf_secret_ring"; "postgres_cluster_admin_password";
   "postgres_control_plane_password"; "postgres_gateway_password";
   "postgres_migration_password"; "postgres_worker_password"; "provider_master_keyring";
   "redis_password"; "redis_url"; "session_secret"].

Definition deploymentSecretFiles : gmap string string := list_to_map
  [("POSTGRES_PASSWORD_FILE", "postgres_cluster_admin_password");
   ("DATABASE_MIGRATION_PASSWORD_FILE", "postgres_migration_password");
   ("DATABASE_GATEWAY_PASSWORD_FILE", "postgres_gateway_password");
   ("DATABASE_CONTROL_PLANE_PASSWORD_FILE", "postgres_control_plane_password");
   ("DATABASE_WORKER_PASSWORD_FILE", "postgres_worker_password");
   ("REDIS_PASSWORD_FILE", "redis_password");
   ("REDIS_URL_FILE", "redis_url");
   ("MASTER_KEYRING_FILE", "provider_master_keyring");
   ("API_KEY_PEPPER_RING_FILE", "api_key_pepper_ring");
   ("SESSION_SECRET_FILE", "session_secret");
   ("CSRF_SECRET_RING_FILE", "csrf_secret_ring")].

Definition DevSecretFiles : list string := devSecretFiles.

(** [FileInfo.IsDir], [sort.Strings] *)
Definition IsDir (i : FileInfo) : bool := has_mode (fi_mode i) ModeDir.
Definition sort_strings : list string → list string := merge_sort String.le.

(** * Validation *)
Section validation.
Context {os : OS} {tables : UnicodeTables} {order : MapOrder}.

(** A directory that is no symbolic link, of mode 0700. *)
Definition is_private_dir (info : FileInfo) : bool :=
  IsDir info && negb (has_mode (fi_mode info) ModeSymlink).
Definition wrong_mode (info : FileInfo) (mode : Z) : bool :=
  negb (String.eqb GOOS "windows") && negb (Perm (fi_mode info) =? mode).

(** The loop over the file names that checks each [Lstat]. *)
Fixpoint modes_loop (directory : string) (names : list string) : res unit :=
  match names with
  | [] => Ok tt
  | name :: rest =>
      match Lstat (Join directory name) with
      | None => Err "development secret inventory contains an invalid file"
      | Some info =>
          reject "development secret inventory contains an invalid file"
            when (negb (IsRegular (fi_mode info)) || has_mode (fi_mode info) ModeSymlink) ;;
          reject "development secret files must have mode 0600"
            when (wrong_mode info 384) ;;
          modes_loop directory rest
      end
  end.

Definition database_settings : list string :=
  ["POSTGRES_PASSWORD_FILE"; "DATABASE_MIGRATION_PASSWORD_FILE"; "DATABASE_GATEWAY_PASSWORD_FILE";
   "DATABASE_CONTROL_PLANE_PASSWORD_FILE"; "DATABASE_WORKER_PASSWORD_FILE"].

(** The loop over the map of settings: only database passwords are read. *)
Fixpoint passwords_loop (directory : string) (databaseValues : gmap string string)
    (settings : list (string * string)) : res unit :=
  match settings with
  | [] => Ok tt
  | (setting, filename) :: rest =>
      if bool_decide (setting ∈ database_settings) then
        secret ← ReadSimpleSecret setting (Join directory filename) (4 * 1024);
        reject "development database passwords must be distinct"
          when (bool_decide (is_Some (databaseValues !! Reveal secret))) ;;
        passwords_loop directory (<[Reveal secret := setting]> databaseValues) rest
      else passwords_loop directory databaseValues rest
  end.

Definition base64url_cutset : string :=
  "ABCDEFGHIJKLMNOPQRSTUVWXYZabcdefghijklmnopqrstuvwxyz0123456789_-".

(** [redisURL.User.Password()] *)
Definition user_password (u : URL) : option string :=
  match User u with
  | Some ui => if ui_passwordSet ui then Some (ui_password ui) else None
  | None => None
  end.

(** What is read of the files after the names and modes were checked. *)
Definition validate_contents (directory : string) : res unit :=
  _ ← passwords_loop directory ∅ (map_range deploymentSecretFiles);
  redisPassword ← ReadSimpleSecret "REDIS_PASSWORD_FILE" (Join directory "redis_password") (4 * 1024);
  reject "REDIS_PASSWORD_FILE must contain at least 32 base64url characters"
    when ((len (Reveal redisPassword) <? 32) ||
          negb (String.eqb (trim_set base64url_cutset (Reveal redisPassword)) "")) ;;
  '(_, redisURL) ← ReadURISecret "REDIS_URL_FILE" (Join directory "redis_url") (4 * 1024) ["redis"];
  reject "REDIS_URL_FILE does not match the generated development Redis contract"
    when (negb (bool_decide (user_password redisURL = Some (Reveal redisPassword))) ||
          negb (String.eqb (Host redisURL) "redis:6379") || negb (String.eqb (Path redisURL) "/0")) ;;
  _ ← ReadProviderKeyRing (Join directory "provider_master_keyring");
  _ ← ReadKeyRing "API_KEY_PEPPER_RING_FILE" (Join directory "api_key_pepper_ring");
  _ ← ReadBase64Key "SESSION_SECRET_FILE" (Join directory "session_secret") (4 * 1024);
  _ ← ReadKeyRing "CSRF_SECRET_RING_FILE" (Join directory "csrf_secret_ring");
  Ok tt.

Definition nul : string := String "000" "".

Definition ValidateDevSecrets (directory : string) : res unit :=
  match Lstat directory with
  | None => Err "development secret root must be a directory, not a symbolic link"
  | Some info =>
      reject "development secret root must be a directory, not a symbolic link"
        when (negb (is_private_dir info)) ;;
      reject "development secret root must have mode 0700" when (wrong_mode info 448) ;;
      match ReadDir directory with
      | None => Err "read development secret inventory: unavailable"
      | Some names =>
          let actual := sort_strings names in
          reject "development secret inventory must contain exactly 11 allowlisted files"
            when (negb (String.eqb (join nul actual) (join nul devSecretFiles))) ;;
          _ ← modes_loop directory devSecretFiles;
          validate_contents directory
      end
  end.

(** * Resolution of the logical paths *)

(** The loop over the settings of the inventory. *)
Fixpoint resolve_loop (root : string) (resolved : gmap string string)
    (settings : list (string * string)) : res (gmap string string) :=
  match settings with
  | [] => Ok resolved
  | (setting, filename) :: rest =>
      let logical := "/run/secrets/" +:+ filename in
      let value := default logical (resolved !! setting) in
      reject (setting +:+ " must equal " +:+ logical +:+ " when --secret-root is used")
        when (negb (String.eqb value logical)) ;;
      resolve_loop root (<[setting := Join root filename]> resolved) rest
  end.

Definition ResolveDeploymentSecretRoot (values : gmap string string) (root : string)
    : res (gmap string string) :=
  _ ← ValidateDevSecrets root;
  resolve_loop root values (map_range deploymentSecretFiles).

Definition cloudflare_files : list string :=
  ["acme_dns_api_token"; "cloudflare_tunnel_credentials.json"].
Definition cloudflare_settings : gmap string string := list_to_map
  [("ACME_DNS_API_TOKEN_FILE", "acme_dns_api_token");
   ("CLOUDFLARE_TUNNEL_CREDENTIALS_FILE", "cloudflare_tunnel_credentials.json")].

Fixpoint cloudflare_loop (root : string) (resolved : gmap string string)
    (settings : list (string * string)) : res (gmap string string) :=
  match settings with
  | [] => Ok resolved
  | (setting, filename) :: rest =>
      let logical := "/run/secrets/" +:+ filename in
      let value := default "" (resolved !! setting) in
      reject (setting +:+ " must equal " +:+ logical +:+ " when --cloudflare-secret-root is used")
        when (negb (String.eqb value "") && negb (String.eqb value logical)) ;;
      let path := Join root filename in
      _ ← validateProtectedFile setting path;
      cloudflare_loop root (<[setting := path]> resolved) rest
  end.

Definition ResolveCloudflareSecretRoot (values : gmap string string) (root : string)
    : res (gmap string string) :=
  reject "Cloudflare secret root is required" when (String.eqb root "") ;;
  match Lstat root with
  | None => Err "Cloudflare secret root must be a directory"
  | Some info =>
      reject "Cloudflare secret root must be a directory" when (negb (is_private_dir info)) ;;
      reject "Cloudflare secret root must have mode 0700" when (wrong_mode info 448) ;;
      match ReadDir root with
      | None => Err "Cloudflare secret inventory differs from the exact allowlist"
      | Some names =>
          reject "Cloudflare secret inventory differs from the exact allowlist"
            when (negb (length names =? length cloudflare_files)%nat) ;;
          reject "Cloudflare secret inventory differs from the exact allowlist"
            when (negb (bool_decide (sort_strings names = cloudflare_files))) ;;
          cloudflare_loop root values (map_range cloudflare_settings)
      end
  end.
End validation.

(** * Generation *)
Section generation.
Context `{HostOS} {tables : UnicodeTables} {order : MapOrder}.

Definition randomBase64URL : Gen string := λ w,
  match rand_Read w with
  | (None, w) => (Err "generate development secret: secure randomness unavailable", w)
  | (Some bytes, w) => (Ok (RawURLEncode bytes), w)
  end.

Definition randomBase64 : Gen string := λ w,
  match rand_Read w with
  | (None, w) => (Err "generate development key: secure randomness unavailable", w)
  | (Some bytes, w) => (Ok (StdEncode bytes), w)
  end.

(** The write to the new file and its close, on both paths. *)
Definition write_and_close (path contents : string) : Gen unit := λ w,
  match Write path contents w with
  | (inr _, w) => (Err "write development secret file: unavailable", (CloseFile path w).2)
  | (inl _, w) => or_fail "close development secret file: unavailable" (CloseFile path) w
  end.

Definition writeNewSecret (directory name contents : string) : Gen unit :=
  let path := Join directory name in
  _ ← or_fail "create development secret file: unavailable" (OpenExcl path 384);
  write_and_close path contents.

(** [json.Marshal] does not fail on the structs it is given, which the model
    has as trees. *)
Definition writeJSONSecret (directory name : string) (value : Tree.json) : Gen unit :=
  writeNewSecret directory name (Marshal value).

Definition generated_passwords : list string :=
  ["postgres_cluster_admin_password"; "postgres_migration_password"; "postgres_gateway_password";
   "postgres_control_plane_password"; "postgres_worker_password"; "redis_password"].

(** The loop over the passwords; it returns the last one, the only one used
    later. *)
Fixpoint write_passwords (temporary : string) (names : list string)
    (passwords : gmap string string) : Gen (gmap string string) :=
  match names with
  | [] => mret passwords
  | name :: rest =>
      value ← randomBase64URL;
      _ ← writeNewSecret temporary name value;
      write_passwords temporary rest (<[name := value]> passwords)
  end.

Definition redisURL (password : string) : URL := {|
  Scheme := "redis"; Opaque_ := "";
  User := Some {| ui_username := ""; ui_password := password; ui_passwordSet := true |};
  Host := "redis:6379"; Path := "/0"; RawPath := ""; OmitHost := false; ForceQuery := false;
  RawQuery := ""; Fragment := ""; RawFragment := "" |}.

Definition ring_keys (keyID key : string) : string * Tree.json :=
  ("keys", Tree.JArray [Tree.JObject [("key_id", Tree.JString keyID); ("key", Tree.JString key)]]).

Definition providerRing (key : string) : Tree.json := Tree.JObject
  [("version", Tree.JNumber (itoa 1)); ("expected_epoch", Tree.JNumber (itoa 1));
   ("active_key_id", Tree.JString "provider-dev-1"); ring_keys "provider-dev-1" key].

Definition wire (keyID key : string) : Tree.json := Tree.JObject
  [("version", Tree.JNumber (itoa 1)); ("active_key_id", Tree.JString keyID); ring_keys keyID key].

Fixpoint write_rings (temporary : string) (rings : list (string * string)) : Gen unit :=
  match rings with
  | [] => mret tt
  | (filename, keyID) :: rest =>
      key ← randomBase64;
      _ ← writeJSONSecret temporary filename (wire keyID key);
      write_rings temporary rest
  end.

Definition write_inventory (temporary : string) : Gen unit :=
  passwords ← write_passwords temporary generated_passwords ∅;
  _ ← writeNewSecret temporary "redis_url"
        (URL_String (redisURL (default "" (passwords !! "redis_password"))));
  providerKey ← randomBase64;
  _ ← writeJSONSecret temporary "provider_master_keyring" (providerRing providerKey);
  _ ← write_rings temporary
        [("api_key_pepper_ring", "api-pepper-dev-1"); ("csrf_secret_ring", "csrf-dev-1")];
  sessionKey ← randomBase64;
  writeNewSecret temporary "session_secret" sessionKey.

Fixpoint rename_loop (temporary directory : string) (names : list string) : Gen unit :=
  match names with
  | [] => mret tt
  | name :: rest =>
      _ ← or_fail "publish development secret inventory: destination is incomplete"
            (Rename (Join temporary name) (Join directory name));
      rename_loop temporary directory rest
  end.

Definition publish (temporary directory : string) : Gen unit :=
  _ ← or_fail
        "publish development secret inventory: destination already exists or is unavailable"
        (Mkdir directory 448);
  _ ← rename_loop temporary directory devSecretFiles;
  or_fail "publish development secret inventory: temporary directory cleanup failed"
    (Remove temporary).

(** The errors of a validation, under a message of the caller. *)
Definition validated (message : string → string) (directory : string) : Gen unit := λ w,
  match reading (λ os, ValidateDevSecrets (os := os) directory) w with
  | (Ok _, w) => (Ok tt, w)
  | (Err e, w) => (Err (message e), w)
  end.

(** What is done with the temporary directory until it is gone. *)
Definition fill_and_publish (temporary directory : string) : Gen unit :=
  _ ← or_fail "protect development secret directory: unavailable" (Chmod temporary 448);
  _ ← write_inventory temporary;
  _ ← validated (String.append "validate generated development secret inventory: ") temporary;
  publish temporary directory.

Definition parent_available (os : OS) (parent : string) : res unit :=
  match Stat parent with
  | Some info => reject "output parent directory is unavailable" when (negb (IsDir info)) ;; Ok tt
  | None => Err "output parent directory is unavailable"
  end.

Definition GenerateDevSecrets (directory : string) : Gen unit :=
  if String.eqb directory "" then fail "output directory is required"
  else λ w,
    match lstat_exists directory w with
    | (inl true, w) =>
        validated (λ _, "existing development secret inventory is not complete and valid; refusing to overwrite")
          directory w
    | (inr _, w) => (Err "inspect development secret directory: unavailable", w)
    | (inl false, w) =>
        (_ ← reading (λ os, parent_available os (Dir directory));
         temporary ← or_fail "create development secret inventory: unavailable"
           (MkdirTemp (Dir directory) ".nexusrelay-dev-secrets-");
         unless_ok (RemoveAll temporary) (fill_and_publish temporary directory)) w
    end.
End generation.
