(* ===== verification/GeneratedFiles.v ===== *)
(** The files the generator writes, read back by the readers of the
    configuration: plain texts, key rings printed by [json.Marshal], and the
    URL of Redis. *)
From S2P Require Import Prelude GoStrings Strconv Net Url UrlFacts Regex Base64 Os Json Secrets StrictJson JsonPrint Fs FsFacts DevSecrets.

Local Open Scope string_scope.
Local Open Scope Z_scope.

(** * Plain texts *)

Lemma plain_byte c : (33 <=? byte c) && (byte c <=? 126) = true → 33 ≤ byte c ≤ 126.
Proof. rewrite andb_true_iff, !Z.leb_le. done. Qed.

Lemma string_last s : s ≠ "" → ∃ t c, s = t +:+ String c "".
Proof.
  induction s as [|c s IH]; [done|]. intros _. destruct s as [|d s]; [by exists "", c|].
  destruct IH as (t & e & ->); [done|]. by exists (String c t), e.
Qed.

Lemma stake_all s n : (String.length s ≤ n)%nat → take n s = s.
Proof.
  revert n. induction s as [|c s IH]; intros [|n] Hn; cbn in *; try done; [lia|]. f_equal. apply IH. lia.
Qed.

Lemma trim_space_plain s : plain s = true → trim_space s = s.
Proof.
  intros Hp. destruct s as [|c s]; [done|].
  assert (Hl : ∀ n, trim_left_fuel n (String c s) = String c s).
  { intros n. apply trim_left_plain. cbn in Hp. apply andb_true_iff in Hp as [Hc _].
    by apply plain_byte. }
  unfold trim_space. rewrite Hl. destruct (string_last (String c s)) as (t & d & Ht); [done|].
  destruct (String.length (String c s)) as [|n]; [done|]. cbn [trim_right_fuel].
  assert (Hd : Utf8.decode_last_rune (String c s) = (byte d, 1%nat) ∧ is_space (byte d) = false).
  { unfold plain in Hp. rewrite Ht, all_bytes_app in Hp. apply andb_true_iff in Hp as [_ Hd].
    cbn in Hd. rewrite andb_true_r in Hd. apply plain_byte in Hd. split.
    - unfold Utf8.decode_last_rune. rewrite Ht, slen_app. cbn [String.length].
      rewrite Nat.add_sub, sdrop_app. destruct (Z.ltb_spec (byte d) 128); [done|lia].
    - unfold is_space. destruct (_ || _)%bool eqn:E; [|done]. exfalso.
      rewrite ?orb_true_iff, ?andb_true_iff, ?Z.leb_le, ?Z.eqb_eq in E. lia. }
  destruct Hd as [-> ->]. done.
Qed.

Lemma strip_plain s : plain s = true → strip_line_end s = s.
Proof.
  intros Hp. unfold strip_line_end.
  assert (H : ∀ p, all_bytes (λ c, (33 <=? byte c) && (byte c <=? 126)) p = false → has_suffix s p = false).
  { intros p Hf. destruct (has_suffix s p) eqn:E; [|done].
    apply has_suffix_split in E as [t ->]. unfold plain in Hp.
    rewrite all_bytes_app, Hf, andb_false_r in Hp. done. }
  by rewrite !H.
Qed.

Lemma plain_ascii s : plain s = true → all_bytes (λ c, byte c <? 128) s = true.
Proof. apply all_bytes_impl. intros c Hc%plain_byte. apply Z.ltb_lt. lia. Qed.

Lemma plain_no_control s : plain s = true → existsb is_control (Utf8.runes s) = false.
Proof.
  intros Hp. unfold Utf8.runes. rewrite Utf8.runes_from_ascii by by apply plain_ascii.
  unfold plain in Hp. induction s as [|c s IH]; [done|]. cbn [all_bytes] in Hp.
  apply andb_true_iff in Hp as [Hc Hp]. apply plain_byte in Hc.
  cbn -[is_control]. rewrite IH by done. rewrite orb_false_r. unfold is_control.
  rewrite orb_false_iff, !andb_false_iff, !Z.leb_gt. lia.
Qed.

(** * Files of a healthy system *)

(** The path shows a regular file, closed to group and world, that reads as
    [contents]. *)
Definition shows {os : OS} (path contents : string) : Prop :=
  ∃ file, protected path file ∧ f_fault file = None ∧ f_content file = contents.

Section readers.
Context {os : OS} {tables : UnicodeTables}.

Lemma readSecretBytes_plain setting path maximumBytes contents :
  shows path contents → plain contents = true → contents ≠ "" → setting ≠ "" →
  len contents ≤ maximumBytes → 0 < maximumBytes < 2 ^ 62 →
  readSecretBytes setting path maximumBytes = Ok contents.
Proof.
  intros (file & Hf & Hfault & Hc) Hp Hne Hs Hl Hm. apply readSecretBytes_iff.
  split; [done|]. split; [lia|]. exists file. split; [done|]. exists contents.
  unfold read_limited. rewrite Hfault, Hc, wrap64_id by (unfold int64_min, int64_max; lia).
  rewrite stake_all by (unfold len in Hl; lia).
  split_and!; [done|done|by apply Utf8.valid_ascii, plain_ascii|by rewrite strip_plain|done|].
  by apply trim_space_plain.
Qed.

Lemma ReadSimpleSecret_plain setting path maximumBytes contents :
  shows path contents → plain contents = true → contents ≠ "" → setting ≠ "" →
  len contents ≤ maximumBytes → 0 < maximumBytes < 2 ^ 62 →
  ReadSimpleSecret setting path maximumBytes = Ok (mkSecret contents).
Proof.
  intros. apply ReadSimpleSecret_iff. split; [by apply readSecretBytes_plain|].
  by apply plain_no_control.
Qed.

(** * Base64 texts *)

Lemma url_char_plain c : url_char c = true → (33 <=? byte c) && (byte c <=? 126) = true.
Proof. revert c. apply ascii_impl. vm_compute. reflexivity. Qed.

Lemma RawURLEncode_plain s : plain (RawURLEncode s) = true.
Proof.
  pose proof (RawURLEncode_chars s) as H. revert H. apply all_bytes_impl, url_char_plain.
Qed.

Lemma trim_RawURLEncode s : trim_set base64url_cutset (RawURLEncode s) = "".
Proof.
  apply trim_set_empty. pose proof (RawURLEncode_chars s) as H. revert H.
  apply all_bytes_impl. apply ascii_impl. vm_compute. reflexivity.
Qed.

Lemma RawURLEncode_length s : String.length s = 32%nat → String.length (RawURLEncode s) = 43%nat.
Proof. apply RawURLEncode_32. Qed.
End readers.

(** * Key rings *)

Section rings.
Context {os : OS} {tables : UnicodeTables}.

Lemma key_id_safe c : alnum c || key_id_tail c = true →
  safe c && ((33 <=? byte c) && (byte c <=? 126)) = true.
Proof. revert c. apply ascii_impl. vm_compute. reflexivity. Qed.

Lemma std_or_pad_safe c : std_or_pad c = true →
  safe c && ((33 <=? byte c) && (byte c <=? 126)) = true.
Proof. revert c. apply ascii_impl. vm_compute. reflexivity. Qed.

(** A text that JSON prints as it is and that reads as a plain text. *)
Definition token_text (s : string) : Prop := all_bytes safe s = true ∧ plain s = true.

Lemma token_text_by (P : ascii → bool) s :
  (∀ c, P c = true → safe c && ((33 <=? byte c) && (byte c <=? 126)) = true) →
  all_bytes P s = true → token_text s.
Proof.
  intros HP Hs. split; revert Hs; apply all_bytes_impl; intros c Hc%HP;
    by apply andb_true_iff in Hc as [].
Qed.

Lemma keyID_text keyID : MatchString keyIDPattern keyID = true →
  token_text keyID ∧ (String.length keyID ≤ 64)%nat.
Proof.
  intros (c & t & -> & Hc & Ht & Hl)%keyIDPattern_match. split; [|cbn; lia].
  apply (token_text_by _ _ key_id_safe). cbn [all_bytes]. rewrite Hc. cbn [orb andb].
  revert Ht. apply all_bytes_impl. intros d ->. apply orb_true_r.
Qed.

Lemma key_text bytes : token_text (StdEncode bytes).
Proof. apply (token_text_by _ _ std_or_pad_safe), StdEncode_chars. Qed.

Lemma wire_printable keyID key :
  token_text keyID → token_text key → printable (wire keyID key).
Proof. intros [Hi _] [Hk _]. repeat constructor; done. Qed.

Lemma providerRing_printable key : token_text key → printable (providerRing key).
Proof. intros [Hk _]. repeat constructor; done. Qed.

Lemma wire_conforms keyID key : conforms (ring_schema false) (wire keyID key).
Proof.
  constructor; [apply (bool_decide_unpack _); vm_compute; exact I|].
  repeat (constructor; [eexists; split; [reflexivity|]|]); [by constructor..| |constructor].
  repeat constructor; [set_solver|set_solver|..]; eexists; (split; [reflexivity|by constructor]).
Qed.

Lemma providerRing_conforms key : conforms (ring_schema true) (providerRing key).
Proof.
  constructor; [apply (bool_decide_unpack _); vm_compute; exact I|].
  repeat (constructor; [eexists; split; [reflexivity|]|]); [by constructor..| |constructor].
  repeat constructor; [set_solver|set_solver|..]; eexists; (split; [reflexivity|by constructor]).
Qed.

Lemma marshal_string_text s : token_text s →
  plain (marshal_string s) = true ∧ String.length (marshal_string s) = (String.length s + 2)%nat.
Proof.
  intros [Hs Hp]. rewrite marshal_string_safe by done. unfold plain in *. cbn [all_bytes].
  rewrite all_bytes_app, Hp. split; [done|]. cbn [String.length]. rewrite slen_app. cbn. lia.
Qed.

(** The texts of the two documents, with their lengths. *)
Definition ring_text (extra id key : string) : string :=
  "{" +:+ marshal_string "version" +:+ ":1," +:+ extra +:+ marshal_string "active_key_id" +:+ ":" +:+
  id +:+ "," +:+ marshal_string "keys" +:+ ":[{" +:+ marshal_string "key_id" +:+ ":" +:+ id +:+ "," +:+
  marshal_string "key" +:+ ":" +:+ key +:+ "}]}".

Lemma ring_text_plain extra id key :
  plain extra = true → token_text id → token_text key →
  let text := ring_text extra (marshal_string id) (marshal_string key) in
  plain text = true ∧ text ≠ "" ∧
  String.length text = (String.length extra + 2 * String.length id + String.length key + 64)%nat.
Proof.
  intros He [Hi Hli]%marshal_string_text [Hk Hlk]%marshal_string_text. cbv zeta.
  unfold ring_text, plain in *. generalize dependent (marshal_string id). intros id' Hi Hli.
  generalize dependent (marshal_string key). intros key' Hk Hlk.
  rewrite !all_bytes_app, He, Hi, Hk. split_and!; [vm_compute; reflexivity|done|].
  rewrite !slen_app, Hli, Hlk.
  repeat match goal with |- context [String.length (marshal_string ?s)] =>
    let n := eval vm_compute in (String.length (marshal_string s)) in
    change (String.length (marshal_string s)) with n end.
  cbn [String.length]. lia.
Qed.

Lemma wire_text keyID key :
  Marshal (wire keyID key) = ring_text "" (marshal_string keyID) (marshal_string key).
Proof.
  unfold wire, ring_keys. cbn [Marshal map]. unfold marshal_field. cbn [fst snd join Marshal map].
  unfold marshal_field. cbn [fst snd join Marshal map]. by rewrite !sapp_assoc.
Qed.

Definition epoch_text : string := marshal_string "expected_epoch" +:+ ":1,".

Lemma epoch_text_ok : plain epoch_text = true ∧ String.length epoch_text = 19%nat.
Proof. split; vm_compute; reflexivity. Qed.

Lemma providerRing_text key :
  Marshal (providerRing key) =
  ring_text epoch_text (marshal_string "provider-dev-1") (marshal_string key).
Proof.
  unfold providerRing, ring_keys. cbn [Marshal map]. unfold marshal_field.
  cbn [fst snd join Marshal map]. unfold marshal_field. cbn [fst snd join Marshal map].
  by rewrite !sapp_assoc.
Qed.

(** ** The rings that are read back *)

Lemma read_ring_text setting path extra id key :
  shows path (ring_text extra (marshal_string id) (marshal_string key)) →
  plain extra = true → (String.length extra ≤ 100)%nat → MatchString keyIDPattern id = true →
  String.length key = 44%nat → token_text key → setting ≠ "" →
  readSecretBytes setting path keyRingMaximumBytes =
    Ok (ring_text extra (marshal_string id) (marshal_string key)).
Proof.
  intros Hsh He Hle [Hid Hlid]%keyID_text Hlk Hk Hs.
  destruct (ring_text_plain extra id key He Hid Hk) as (Hp & Hne & Hl).
  apply readSecretBytes_plain; try done.
  unfold len. rewrite Hl, Hlk. unfold keyRingMaximumBytes. lia.
Qed.

Lemma entry_ok_generated id bytes :
  MatchString keyIDPattern id = true → String.length bytes = 32%nat →
  Forall2 entry_ok [mkEntry id (StdEncode bytes)] [(id, bytes)].
Proof. intros Hid Hb. by repeat constructor. Qed.

Lemma validateRing_generated setting id bytes :
  MatchString keyIDPattern id = true → String.length bytes = 32%nat →
  validateRing setting 1 id [mkEntry id (StdEncode bytes)] = Ok (mkKeyRing id {[id := bytes]}).
Proof.
  intros Hid Hb. apply validateRing_iff. split; [done|]. exists [(id, bytes)].
  split_and!; [by apply entry_ok_generated| | |].
  - apply NoDup_singleton.
  - by left.
  - cbn. by rewrite insert_empty.
Qed.

Lemma decode_wire id key :
  Tree.into_struct (wire_setters false) (mkWire 0 0 "" []) (wire id key) =
  Some (mkWire 1 0 id [mkEntry id key]).
Proof. vm_compute. reflexivity. Qed.

Lemma decode_providerRing key :
  Tree.into_struct (wire_setters true) (mkWire 0 0 "" []) (providerRing key) =
  Some (mkWire 1 1 "provider-dev-1" [mkEntry "provider-dev-1" key]).
Proof. vm_compute. reflexivity. Qed.

Lemma ReadKeyRing_wire setting path id bytes :
  shows path (Marshal (wire id (StdEncode bytes))) → setting ≠ "" →
  MatchString keyIDPattern id = true → String.length bytes = 32%nat →
  ReadKeyRing setting path = Ok (mkKeyRing id {[id := bytes]}).
Proof.
  intros Hsh Hs Hid Hb. pose proof (keyID_text id Hid) as [Ht _].
  pose proof (key_text bytes) as Hk. unfold ReadKeyRing.
  apply bind_ok. exists (Marshal (wire id (StdEncode bytes))). split.
  { rewrite wire_text in Hsh |- *. apply read_ring_text; try done; [cbn; lia|by apply StdEncode_32]. }
  apply bind_ok. exists (mkWire 1 0 id [mkEntry id (StdEncode bytes)]). split.
  { rewrite strictJSON_Marshal by (apply wire_printable || apply wire_conforms; done).
    by rewrite decode_wire. }
  by apply validateRing_generated.
Qed.

Lemma provider_id : MatchString keyIDPattern "provider-dev-1" = true.
Proof. vm_compute. reflexivity. Qed.

Lemma ReadProviderKeyRing_generated path bytes :
  shows path (Marshal (providerRing (StdEncode bytes))) → String.length bytes = 32%nat →
  ReadProviderKeyRing path =
  Ok (mkProviderKeyRing (mkKeyRing "provider-dev-1" {["provider-dev-1" := bytes]}) 1).
Proof.
  intros Hsh Hb. pose proof (key_text bytes) as Hk. unfold ReadProviderKeyRing. cbv zeta.
  apply bind_ok. exists (Marshal (providerRing (StdEncode bytes))). split.
  { rewrite providerRing_text in Hsh |- *.
    destruct epoch_text_ok as [He Hle].
    apply read_ring_text; [exact Hsh|exact He|lia|exact provider_id|by apply StdEncode_32|exact Hk|done]. }
  apply bind_ok. exists (mkWire 1 1 "provider-dev-1" [mkEntry "provider-dev-1" (StdEncode bytes)]).
  split.
  { rewrite strictJSON_Marshal by (apply providerRing_printable || apply providerRing_conforms; done).
    by rewrite decode_providerRing. }
  apply reject_ok. split; [done|]. apply bind_ok. eexists. split; [|done].
  apply validateRing_generated; [exact provider_id|done].
Qed.
End rings.

(** * The URL of Redis *)

Section redis.
Context {os : OS}.

(** What is read back of the generated URL. *)
Definition redis_url_ok (password : string) (u : URL) : Prop :=
  Scheme u = "redis" ∧ user_password u = Some password ∧ Host u = "redis:6379" ∧ Path u = "/0" ∧
  Fragment u = "".

Lemma redis_host_ok : host_ok "redis:6379".
Proof. split_and!; [done|vm_compute; reflexivity..]. Qed.

Lemma redisURL_parsed password :
  ∃ u, url_Parse (URL_String (redisURL password)) = Some u ∧ redis_url_ok password u.
Proof.
  destruct (url_Parse_built "redis" "" password "redis:6379" "/0" "") as [raw Hraw];
    [by split|apply redis_host_ok|done|done|].
  eexists. split; [exact Hraw|]. done.
Qed.

Lemma redisURL_plain password : plain (URL_String (redisURL password)) = true.
Proof.
  apply (printed_all "redis" "" password "redis:6379" "/0" "");
    [by split|apply redis_host_ok|done|done|]. vm_compute. reflexivity.
Qed.

Lemma escape_url_chars s : all_bytes url_char s = true → escape s encodeUserPassword = s.
Proof.
  induction s as [|c s IH]; [done|]. cbn [all_bytes escape]. intros [Hc Hs]%andb_true_iff.
  assert (shouldEscape c encodeUserPassword = false) as ->; [|by rewrite IH].
  apply negb_true_iff. revert c Hc. apply ascii_impl. vm_compute. reflexivity.
Qed.

Lemma redisURL_length password : all_bytes url_char password = true →
  String.length (URL_String (redisURL password)) = (String.length password + 22)%nat.
Proof.
  intros Hp. change (redisURL password) with (built_url "redis" "" password "redis:6379" "/0" "").
  rewrite URL_String_built by (apply redis_host_ok || done).
  unfold credentials. rewrite (escape_url_chars password) by done. cbn [escape].
  rewrite !slen_app. change (String.length (printed_path "redis" "" password "redis:6379" "/0" "")) with 2%nat. cbn [String.length printed_query String.eqb]. lia.
Qed.

Lemma ReadURISecret_redis setting path password :
  shows path (URL_String (redisURL password)) → setting ≠ "" →
  all_bytes url_char password = true → (String.length password ≤ 1000)%nat →
  ∃ s u, ReadURISecret setting path (4 * 1024) ["redis"] = Ok (s, u) ∧ redis_url_ok password u.
Proof.
  intros Hsh Hs Hp Hl. destruct (redisURL_parsed password) as (u & Hu & Hok).
  exists (mkSecret (URL_String (redisURL password))), u. split; [|done].
  unfold ReadURISecret. apply bind_ok. exists (mkSecret (URL_String (redisURL password))). split.
  { apply ReadSimpleSecret_plain; try done.
    - apply redisURL_plain.
    - unfold len. rewrite redisURL_length by done. lia. }
  cbn [secret_value]. rewrite Hu. destruct Hok as (H1 & _ & H3 & _ & H5).
  unfold IsAbs. rewrite H1, H3, H5. done.
Qed.
End redis.
