(* ===== verification/DevSecretsFacts.v ===== *)
(** The generator of development secrets: what a run may touch, and what a run
    that succeeds has published. *)
From stdpp Require Import sorting.
From S2P Require Import Prelude GoStrings Strconv Net Url Regex Base64 Os Json Secrets JsonPrint Fs FsFacts DevSecrets.

Local Open Scope string_scope.
Local Open Scope Z_scope.

(** * Two views of one directory *)

Section transport.
Context {tables : UnicodeTables} {order : MapOrder}.
Variables os1 os2 : OS.
Hypothesis same_GOOS : @GOOS os1 = @GOOS os2.

(** The second system shows at [p2] at least what the first shows at [p1]. *)
Definition sees (p1 p2 : string) : Prop :=
  p2 ≠ "" ∧ (∀ i, @Lstat os1 p1 = Some i → @Lstat os2 p2 = Some i) ∧
  (∀ f, @Open os1 p1 = Some f → @Open os2 p2 = Some f).

Lemma openProtectedFile_sees setting p1 p2 : sees p1 p2 →
  implies_ok (@openProtectedFile os1 setting p1) (@openProtectedFile os2 setting p2).
Proof.
  intros (Hne & Hl & Ho) file. unfold openProtectedFile. rewrite same_GOOS.
  rewrite (proj2 (String.eqb_neq p2 "") Hne), reject_ok. intros [_ H].
  destruct (@Lstat os1 p1) as [i|] eqn:E; [|done]. rewrite (Hl i eq_refl).
  revert H. do 3 apply implies_ok_reject. clear file.
  destruct (@Open os1 p1) as [f|] eqn:Ef; [|done]. rewrite (Ho f eq_refl). apply implies_ok_refl.
Qed.

Lemma ReadSimpleSecret_sees setting p1 p2 max : sees p1 p2 →
  implies_ok (@ReadSimpleSecret os1 setting p1 max) (@ReadSimpleSecret os2 setting p2 max).
Proof.
  intros Hs. apply implies_ok_bind; [|by auto with nexus]. apply implies_ok_bind; [|by auto with nexus].
  unfold readSecretBytes. do 2 apply implies_ok_reject.
  apply implies_ok_bind; [by apply openProtectedFile_sees|auto with nexus].
Qed.

Lemma readSecretBytes_sees setting p1 p2 max : sees p1 p2 →
  implies_ok (@readSecretBytes os1 setting p1 max) (@readSecretBytes os2 setting p2 max).
Proof.
  intros Hs. unfold readSecretBytes. do 2 apply implies_ok_reject.
  apply implies_ok_bind; [by apply openProtectedFile_sees|auto with nexus].
Qed.

Lemma validate_contents_sees d1 d2 :
  (∀ name, name ∈ devSecretFiles → sees (Join d1 name) (Join d2 name)) →
  implies_ok (validate_contents (os := os1) d1) (validate_contents (os := os2) d2).
Proof.
  intros Hs. unfold validate_contents.
  apply implies_ok_bind.
  { assert (Hall : ∀ setting filename, (setting, filename) ∈ map_range deploymentSecretFiles →
      filename ∈ devSecretFiles).
    { intros s f Hin%elem_of_map_range. revert Hin.
      apply (map_Forall_lookup_1 (λ _ f, f ∈ devSecretFiles)). apply (bool_decide_unpack _).
      vm_compute. exact I. }
    generalize (∅ : gmap string string) as seen.
    induction (map_range deploymentSecretFiles) as [|[s f] settings IH]; intros seen; cbn [passwords_loop].
    { apply implies_ok_refl. }
    assert (IH' : ∀ seen, implies_ok (passwords_loop (os := os1) d1 seen settings)
                            (passwords_loop (os := os2) d2 seen settings)).
    { apply IH. intros ? ? Hin. apply (Hall setting). by right. }
    destruct (bool_decide _); [|apply IH'].
    apply implies_ok_bind; [apply ReadSimpleSecret_sees, Hs, (Hall s); by left|].
    intros secret. by apply implies_ok_reject. }
  intros _. apply implies_ok_bind; [apply ReadSimpleSecret_sees, Hs; set_solver|].
  intros password. apply implies_ok_reject.
  apply implies_ok_bind.
  { apply implies_ok_bind; [apply ReadSimpleSecret_sees, Hs; set_solver|auto with nexus]. }
  intros [_ u]. apply implies_ok_reject.
  apply implies_ok_bind; [|intros _; apply implies_ok_bind; [|intros _; apply implies_ok_bind; [|intros _; apply implies_ok_bind]]];
    try (apply implies_ok_bind; [|by auto with nexus]; apply readSecretBytes_sees, Hs; set_solver).
  - apply implies_ok_bind; [apply ReadSimpleSecret_sees, Hs; set_solver|auto with nexus].
  - auto with nexus.
Qed.

Lemma modes_loop_sees d1 d2 names :
  (∀ name, name ∈ names → sees (Join d1 name) (Join d2 name)) →
  implies_ok (modes_loop (os := os1) d1 names) (modes_loop (os := os2) d2 names).
Proof.
  induction names as [|name names IH]; intros Hs; cbn [modes_loop]; [apply implies_ok_refl|].
  destruct (Hs name ltac:(by left)) as (_ & Hl & _).
  destruct (@Lstat os1 (Join d1 name)) as [i|]; [|done]. rewrite (Hl i eq_refl).
  unfold wrong_mode. rewrite same_GOOS. do 2 apply implies_ok_reject. apply IH. set_solver.
Qed.

(** What validation asks of the directory itself. *)
Definition private_dir (os : OS) (d : string) : Prop :=
  ∃ i names, @Lstat os d = Some i ∧ is_private_dir i = true ∧ wrong_mode (os := os) i 448 = false ∧
    @ReadDir os d = Some names ∧ sort_strings names = devSecretFiles.

Lemma ValidateDevSecrets_sees d1 d2 :
  private_dir os2 d2 →
  (∀ name, name ∈ devSecretFiles → sees (Join d1 name) (Join d2 name)) →
  implies_ok (ValidateDevSecrets (os := os1) d1) (ValidateDevSecrets (os := os2) d2).
Proof.
  intros (i & names & Hi & Hp & Hm & Hn & Hsort) Hs u. unfold ValidateDevSecrets at 1.
  destruct (@Lstat os1 d1) as [i1|]; [|done]. rewrite !reject_ok. intros (_ & _ & Hv).
  destruct (@ReadDir os1 d1) as [names1|]; [|done]. apply reject_ok in Hv as [_ Hv].
  unfold ValidateDevSecrets. rewrite Hi, Hp, Hm, Hn, Hsort, String.eqb_refl. cbn [negb].
  revert Hv. apply implies_ok_bind; [by apply modes_loop_sees|].
  intros _. by apply validate_contents_sees.
Qed.
End transport.

(** * Temporary names *)

Lemma itoa_free sep z : is_digit sep = false → sep ≠ "-"%char → free sep (itoa z) = true.
Proof.
  intros Hd Hm. assert (H : ∀ n, 0 ≤ n → free sep (format_uint n) = true).
  { intros n Hn. pose proof (format_uint_digits n Hn) as Hf. revert Hf. apply all_bytes_impl.
    intros c Hc. apply negb_true_iff, Ascii.eqb_neq. by intros ->; rewrite Hc in Hd. }
  unfold itoa. destruct (Z.ltb_spec z 0); [|by apply H].
  apply free_cons. split; [congruence|apply H; lia].
Qed.

Lemma temporary_simple z : simple (".nexusrelay-dev-secrets-" +:+ itoa z) = true.
Proof.
  unfold simple. rewrite free_app, itoa_free by done. done.
Qed.

Lemma joinPath_app dir a b : joinPath dir a +:+ b = joinPath dir (a +:+ b).
Proof. unfold joinPath. destruct (has_suffix dir "/"); by rewrite !sapp_assoc. Qed.

Lemma joinPath_nonempty dir name : simple name = true → joinPath dir name ≠ "".
Proof.
  intros (Hn & _)%simple_spec. unfold joinPath.
  destruct (has_suffix dir "/"); destruct dir, name; done.
Qed.

Section generation.
Context `{HostOS} {tables : UnicodeTables} {order : MapOrder}.

(** A temporary directory is a new entry of its parent. *)
Lemma mkdirTemp_new tries dir prefix w :
  dir ≠ "" → (∀ z, simple (prefix +:+ itoa z) = true) →
  match mkdirTemp tries dir prefix w with
  | (inl name, w') =>
      name ≠ "" ∧ nodes w !! locate name = None ∧ parent (locate name) = locate dir ∧
      dir_at (locate dir) w = true ∧
      nodes w' = <[locate name := mkNode (Z.lor ModeDir (Z.ldiff 448 umask)) (next_ino w) ""]> (nodes w) ∧
      next_ino w' = next_ino w + 1
  | (inr _, w') => nodes w' = nodes w ∧ next_ino w' = next_ino w
  end.
Proof.
  intros Hd Hs. revert w. induction tries as [|tries IH]; intros w; cbn [mkdirTemp];
    rewrite joinPath_app; pose proof (Hs (random_suffix (tick w))) as Hn;
    set (name := prefix +:+ itoa (random_suffix (tick w))) in *; unfold Mkdir, syscall;
    (destruct (broken _ _); [done|]); unfold enter; cbn [nodes tick next_ino];
    rewrite locate_joinPath by done; rewrite parent_child;
    destruct (nodes w !! child (locate dir) name) eqn:Hl.
  - done.
  - destruct (nodes w !! locate dir) as [d|] eqn:Hp; [|done].
    destruct (is_dir d) eqn:Hdd; [|done]. rewrite locate_joinPath by done.
    split_and!; [by apply joinPath_nonempty|done|apply parent_child| |done|done].
    unfold dir_at. by rewrite Hp.
  - specialize (IH (mkWorld (nodes w) (S (tick w)) (next_ino w))).
    destruct (mkdirTemp _ _ _ _) as [[name'|e] w']; [|exact IH]. exact IH.
  - destruct (nodes w !! locate dir) as [d|] eqn:Hp; [|done].
    destruct (is_dir d) eqn:Hdd; [|done]. rewrite locate_joinPath by done.
    split_and!; [by apply joinPath_nonempty|done|apply parent_child| |done|done].
    unfold dir_at. by rewrite Hp.
Qed.

(** * What a run may touch *)

Section touched.
Context (owned : key → Prop).

(** Everything below [dir] may change. *)
Definition covers (dir : string) : Prop :=
  dir ≠ "" ∧ ∀ k, within (locate dir) k = true → owned k.

Lemma covers_self dir : covers dir → owned (locate dir).
Proof. intros [_ Ho]. apply Ho, within_refl. Qed.

Lemma covers_Join dir name : covers dir → simple name = true → owned (locate (Join dir name)).
Proof. intros [Hd Ho] Hn. rewrite locate_Join by done. apply Ho, within_child. Qed.

Lemma writeNewSecret_keeps dir name contents :
  covers dir → simple name = true → keeps owned (writeNewSecret dir name contents).
Proof.
  intros Hd Hn. pose proof (covers_Join _ _ Hd Hn) as Ho.
  apply keeps_bind; [by auto with fs|]. intros [] w. unfold write_and_close.
  pose proof (Write_keeps owned (Join dir name) contents Ho w) as Hw.
  destruct (Write _ _ w) as [[[]|e] w']; (etransitivity; [exact Hw|]).
  - apply (keeps_or_fail owned), CloseFile_keeps.
  - apply (CloseFile_keeps owned).
Qed.

Lemma write_passwords_keeps dir names passwords :
  covers dir → Forall (λ name, simple name = true) names →
  keeps owned (write_passwords dir names passwords).
Proof.
  intros Hd Hn. revert passwords. induction Hn as [|name names Hn _ IH]; intros passwords.
  { apply keeps_ret. }
  apply keeps_bind; [|intros value; apply keeps_bind; [by apply writeNewSecret_keeps|done]].
  intros w. unfold randomBase64URL. cbn. destruct (entropy _); by apply frame_nodes.
Qed.

Lemma randomBase64_keeps : keeps owned randomBase64.
Proof. intros w. unfold randomBase64. cbn. destruct (entropy _); by apply frame_nodes. Qed.

Lemma write_inventory_keeps dir : covers dir → keeps owned (write_inventory dir).
Proof.
  intros Hd. unfold write_inventory, writeJSONSecret. cbn [write_rings].
  repeat first
    [ apply keeps_ret | apply randomBase64_keeps
    | apply write_passwords_keeps; [done|]; repeat constructor
    | apply writeNewSecret_keeps; [done|reflexivity]
    | apply keeps_bind; [|intros ?] ].
Qed.

Lemma rename_loop_keeps tmp dir names :
  covers tmp → covers dir → Forall (λ name, simple name = true) names →
  keeps owned (rename_loop tmp dir names).
Proof.
  intros Ht Hd Hn. induction Hn as [|name names Hn _ IH]; [apply keeps_ret|].
  apply keeps_bind; [|done]. apply keeps_or_fail, Rename_keeps; by apply covers_Join.
Qed.

Lemma devSecretFiles_simple : Forall (λ name, simple name = true) devSecretFiles.
Proof. repeat constructor. Qed.

Lemma publish_keeps tmp dir : covers tmp → covers dir → keeps owned (publish tmp dir).
Proof.
  intros Ht Hd. apply keeps_bind; [|intros _; apply keeps_bind; [|intros _]].
  - apply keeps_or_fail, Mkdir_keeps. by apply covers_self.
  - apply rename_loop_keeps; [done..|]. apply devSecretFiles_simple.
  - apply keeps_or_fail, Remove_keeps. by apply covers_self.
Qed.

Lemma validated_nodes message dir w :
  nodes (validated message dir w).2 = nodes w.
Proof. unfold validated, reading. by destruct (ValidateDevSecrets dir). Qed.

Lemma chmod_fill_keeps tmp : covers tmp →
  keeps owned (_ ← or_fail "protect development secret directory: unavailable" (Chmod tmp 448);
               write_inventory tmp).
Proof.
  intros Ht. apply keeps_bind; [|intros _; by apply write_inventory_keeps].
  apply keeps_or_fail, Chmod_keeps; [by apply covers_self|done].
Qed.

Lemma fill_and_publish_keeps tmp dir :
  covers tmp → covers dir → keeps owned (fill_and_publish tmp dir).
Proof.
  intros Ht Hd. apply keeps_bind; [|intros _; apply keeps_bind; [|intros _; apply keeps_bind]].
  - apply keeps_or_fail, Chmod_keeps; [by apply covers_self|done].
  - by apply write_inventory_keeps.
  - intros w. apply frame_nodes, validated_nodes.
  - intros _. by apply publish_keeps.
Qed.
End touched.

(** A run changes nothing, or fills a temporary directory of its own. *)
Record fresh_temporary (directory tmp : string) (w w1 : world) : Prop := {
  ft_directory : directory ≠ "" ∧ nodes w !! locate directory = None;
  ft_name : tmp ≠ "" ∧ nodes w !! locate tmp = None;
  ft_parent : parent (locate tmp) = locate (Dir directory) ∧ dir_at (locate (Dir directory)) w = true;
  ft_nodes : nodes w1 =
    <[locate tmp := mkNode (Z.lor ModeDir (Z.ldiff 448 umask)) (next_ino w) ""]> (nodes w)
}.

Definition ticked (w : world) : world := mkWorld (nodes w) (S (tick w)) (next_ino w).

Lemma lstat_exists_cases path w :
  (∃ e, lstat_exists path w = (inr e, ticked w)) ∨
  (nodes w !! locate path ≠ None ∧ lstat_exists path w = (inl true, ticked w)) ∨
  (nodes w !! locate path = None ∧ lstat_exists path w = (inl false, ticked w)).
Proof.
  unfold lstat_exists, syscall. destruct (broken _ _); [left; by eexists|]. cbn [nodes].
  destruct (nodes w !! locate path) eqn:Hl; [by right; left|].
  destruct (obstructed _ _ _); [left; by eexists|by right; right].
Qed.

Lemma generate_cases directory w :
  (nodes (GenerateDevSecrets directory w).2 = nodes w ∧
   ((GenerateDevSecrets directory w).1 = Ok tt → nodes w !! locate directory ≠ None)) ∨
  ∃ tmp w1, fresh_temporary directory tmp w w1 ∧
    GenerateDevSecrets directory w =
    unless_ok (RemoveAll tmp) (fill_and_publish tmp directory) w1.
Proof.
  unfold GenerateDevSecrets. destruct (String.eqb_spec directory "") as [->|Hd]; [by left|].
  destruct (lstat_exists_cases directory w) as [[e ->]|[[Hl ->]|[Hl ->]]]; [by left|left|].
  { split; [|done]. apply (validated_nodes _ _ (ticked w)). }
  unfold mbind, gen_bind, reading.
  destruct (parent_available _ _) as [[]|e]; [|by left].
  fold (ticked (ticked w)). unfold or_fail, MkdirTemp.
  pose proof (mkdirTemp_new retries (Dir directory) ".nexusrelay-dev-secrets-" (ticked (ticked w))
    (Dir_nonempty _) temporary_simple) as Hm.
  destruct (mkdirTemp _ _ _ _) as [[tmp|e] w1]; [right|left; by split; [apply Hm|]].
  destruct Hm as (Hne & Ht & Hp & Hdir & Hn & _). exists tmp, w1. split; [|done]. by split.
Qed.

(** ** No file that was there before is touched *)

Definition touched (directory tmp : string) (k : key) : Prop :=
  within (locate tmp) k = true ∨ within (locate directory) k = true.

Lemma unless_ok_keeps directory tmp w1 : tmp ≠ "" → directory ≠ "" →
  frame (touched directory tmp) w1
    (unless_ok (RemoveAll tmp) (fill_and_publish tmp directory) w1).2.
Proof.
  intros Ht Hd.
  assert (Hct : covers (touched directory tmp) tmp) by (split; [done|intros k; by left]).
  assert (Hcd : covers (touched directory tmp) directory) by (split; [done|intros k; by right]).
  apply keeps_unless_ok; [by apply fill_and_publish_keeps|].
  intros w. apply RemoveAll_keeps. intros k. by left.
Qed.

Lemma fresh_frame directory tmp w w1 :
  fresh_temporary directory tmp w w1 → frame (touched directory tmp) w w1.
Proof.
  intros [[Hd Hdn] [Ht Htn] [Hp Hdir] Hn]. split.
  - intros k Hk. rewrite Hn, lookup_insert_ne; [done|]. intros <-. apply Hk. left. apply within_refl.
  - pose proof (enter_keeps (λ _, True) (locate tmp) (Z.lor ModeDir (Z.ldiff 448 umask)) I w) as [_ He].
    unfold enter in He. rewrite Htn, Hp in He. apply dir_at_some in Hdir as (d & Hdl & Hdd).
    rewrite Hdl, Hdd in He. intros Hw. eapply fs_ok_nodes; [|by apply He]. by rewrite Hn.
Qed.

Lemma generate_frame directory w w' r :
  GenerateDevSecrets directory w = (r, w') → fs_ok w →
  fs_ok w' ∧ nodes w ⊆ nodes w' ∧
  (nodes w !! locate directory ≠ None → nodes w' = nodes w) ∧
  ∃ tmp, ∀ k, nodes w' !! k ≠ nodes w !! k →
    within (locate directory) k = true ∨
    within (locate tmp) k = true ∧ nodes w !! locate tmp = None ∧
      parent (locate tmp) = locate (Dir directory).
Proof.
  intros Hr Hw. assert (Hw' : w' = (GenerateDevSecrets directory w).2) by by rewrite Hr.
  clear Hr. destruct (generate_cases directory w) as [[Hn _]|(tmp & w1 & Hf & Hg)].
  - rewrite <- Hw' in Hn. split_and!; [by eapply fs_ok_nodes|by rewrite Hn|done|].
    exists "". by rewrite Hn.
  - pose proof Hf as [[Hd Hdn] [Ht Htn] [Hp _] _].
    pose proof (fresh_frame _ _ _ _ Hf) as Hfr.
    pose proof (unless_ok_keeps _ _ w1 Ht Hd) as Hk. rewrite <- Hg, <- Hw' in Hk.
    assert (frame (touched directory tmp) w w') as [Hkk Hok] by by etransitivity.
    split_and!; [auto| |done|].
    + apply map_subseteq_spec. intros k n Hl. rewrite Hkk; [done|].
      intros [Hin|Hin]; eapply none_within in Hin; eauto; congruence.
    + exists tmp. intros k Hne. destruct (within (locate directory) k) eqn:Hdk; [by left|right].
      destruct (within (locate tmp) k) eqn:Htk; [done|]. destruct Hne. apply Hkk.
      unfold touched. rewrite Hdk, Htk. by intros [].
Qed.

(** ** What a successful run has published *)

Lemma bind_gen_ok {A B} (m : Gen A) (f : A → Gen B) w b w' :
  (m ≫= f) w = (Ok b, w') ↔ ∃ a w1, m w = (Ok a, w1) ∧ f a w1 = (Ok b, w').
Proof.
  unfold mbind, gen_bind. destruct (m w) as [[a|e] w1]; split; naive_solver.
Qed.

Lemma or_fail_ok {A} message (call : world → (A + errno) * world) w a w' :
  or_fail message call w = (Ok a, w') ↔ call w = (inl a, w').
Proof. unfold or_fail. destruct (call w) as [[a'|e] w1]; naive_solver. Qed.

Lemma syscall_ok {A} k (body : world → (A + errno) * world) w a w' :
  syscall k body w = (inl a, w') → body (ticked w) = (inl a, w').
Proof. unfold syscall. by destruct (broken _ _). Qed.

Lemma enter_ok k mode w w' : enter k mode w = (inl tt, w') →
  nodes w !! k = None ∧ nodes w' = <[k := mkNode mode (next_ino w) ""]> (nodes w).
Proof.
  unfold enter. destruct (nodes w !! k); [done|]. destruct (nodes w !! parent k) as [d|]; [|done].
  destruct (is_dir d); [|done]. by intros [= <-].
Qed.

Lemma Rename_ok from to w w' : Rename from to w = (inl tt, w') →
  ∃ n, nodes w !! locate from = Some n ∧ is_dir n = false ∧
    nodes w' = <[locate to := n]> (delete (locate from) (nodes w)).
Proof.
  unfold Rename. intros Hs%syscall_ok. cbn [nodes ticked] in Hs.
  destruct (nodes w !! locate from) as [n|] eqn:Hl; [|done]. exists n.
  destruct (is_dir n || _ || _) eqn:Hg; [done|]. injection Hs as <-.
  rewrite !orb_false_iff in Hg. by destruct Hg as [[? _] _].
Qed.

Lemma Remove_ok path w w' : Remove path w = (inl tt, w') →
  nodes w' = delete (locate path) (nodes w).
Proof.
  unfold Remove. intros Hs%syscall_ok. cbn [nodes ticked] in Hs.
  destruct (nodes w !! locate path) as [n|]; [|done].
  destruct (is_dir n && _); [done|]. by injection Hs as <-.
Qed.

(** The moves: every file is where it was in the other directory. *)
Lemma rename_loop_ok tmp dir names : ∀ w w',
  tmp ≠ "" → dir ≠ "" → locate tmp ≠ locate dir →
  Forall (λ name, simple name = true) names → NoDup names →
  rename_loop tmp dir names w = (Ok tt, w') →
  (∀ name, name ∈ names → ∃ n, nodes w !! child (locate tmp) name = Some n ∧ is_dir n = false ∧
     nodes w' !! child (locate dir) name = Some n ∧ nodes w' !! child (locate tmp) name = None) ∧
  (∀ k, (∀ name, name ∈ names → k ≠ child (locate tmp) name ∧ k ≠ child (locate dir) name) →
     nodes w' !! k = nodes w !! k).
Proof.
  induction names as [|name names IH]; intros w w' Ht Hd Hne Hs Hnd Hr.
  { injection Hr as <-. split; [by intros ? ?%elem_of_nil|done]. }
  apply Forall_cons in Hs as [Hn Hs]. apply NoDup_cons in Hnd as [Hni Hnd].
  cbn [rename_loop] in Hr. apply bind_gen_ok in Hr as ([] & w1 & Hm%or_fail_ok & Hr).
  apply Rename_ok in Hm as (n & Hl & Hnn & Hw1). rewrite (locate_Join tmp) in Hl, Hw1 by done.
  rewrite (locate_Join dir) in Hw1 by done.
  apply IH in Hr as [Hin Hout]; [|done..].
  assert (Hsep : ∀ x y, child (locate tmp) x ≠ child (locate dir) y) by (by intros x y []%child_inj).
  assert (Hsame : ∀ x, x ∈ names → x ≠ name) by (intros x Hx ->; done).
  assert (Hinj : ∀ k x, x ∈ names → child k name ≠ child k x).
  { intros k x Hx [_ E]%child_inj. by apply (Hsame x). }
  split.
  - intros x [->|Hx]%elem_of_cons.
    + exists n. split_and!; [done..| |].
      * etransitivity; [apply Hout|by rewrite Hw1, lookup_insert_eq].
        intros x Hx. split; [by apply not_eq_sym, Hsep|by apply Hinj].
      * etransitivity; [apply Hout|].
        -- intros x Hx. split; [by apply Hinj|apply Hsep].
        -- rewrite Hw1, lookup_insert_ne by (by apply not_eq_sym, Hsep). apply lookup_delete_eq.
    + apply Hin in Hx as Hx'. destruct Hx' as (m & Hm & Hmd & Hm' & Hm2). exists m.
      split_and!; [|done..]. rewrite Hw1 in Hm.
      rewrite lookup_insert_ne, lookup_delete_ne in Hm; [done| |].
      * by apply Hinj.
      * by apply not_eq_sym, Hsep.
  - intros k Hk. destruct (Hk name ltac:(by left)) as [Hk1 Hk2].
    rewrite Hout by (intros x Hx; apply Hk; by right).
    by rewrite Hw1, lookup_insert_ne, lookup_delete_ne by done.
Qed.

Lemma devSecretFiles_NoDup : NoDup devSecretFiles.
Proof. apply (bool_decide_unpack _). vm_compute. exact I. Qed.

(** Publication moves every file of the inventory and the temporary directory
    is gone. *)
Record published (tmp dir : string) (w w' : world) : Prop := {
  pub_absent : nodes w !! locate dir = None;
  pub_dir : ∃ ino, nodes w' !! locate dir =
    Some (mkNode (Z.lor ModeDir (Z.ldiff 448 umask)) ino "");
  pub_files : ∀ name, name ∈ devSecretFiles → ∃ n,
    nodes w !! child (locate tmp) name = Some n ∧ nodes w' !! child (locate dir) name = Some n;
  pub_only : ∀ k, within (locate dir) k = true → is_Some (nodes w' !! k) →
    k = locate dir ∨ ∃ name, name ∈ devSecretFiles ∧ k = child (locate dir) name;
  pub_tmp : ∀ k, within (locate tmp) k = true → nodes w' !! k = None;
  pub_else : ∀ k, within (locate tmp) k = false → within (locate dir) k = false →
    nodes w' !! k = nodes w !! k
}.

Lemma publish_ok tmp dir w w' :
  tmp ≠ "" → dir ≠ "" → within (locate tmp) (locate dir) = false → fs_ok w →
  nodes w !! locate tmp ≠ None →
  publish tmp dir w = (Ok tt, w') → published tmp dir w w'.
Proof.
  intros Ht Hd Hsep Hw Htn Hp.
  pose proof (publish_keeps (λ _, True) tmp dir (conj Ht (λ _ _, I)) (conj Hd (λ _ _, I)) w)
    as [_ Hw']. rewrite Hp in Hw'. cbn [snd] in Hw'. specialize (Hw' Hw).
  unfold publish in Hp. apply bind_gen_ok in Hp as ([] & w1 & Hm%or_fail_ok & Hp).
  apply bind_gen_ok in Hp as ([] & w2 & Hl & Hrm%or_fail_ok).
  unfold Mkdir in Hm. apply syscall_ok, enter_ok in Hm as [Hdn Hw1]. cbn [nodes ticked next_ino] in Hdn, Hw1.
  assert (Hdisj : ∀ k, within (locate tmp) k = true → within (locate dir) k = false).
  { intros k Hk. destruct (within (locate dir) k) eqn:Hdk; [|done].
    destruct (within_both _ _ _ Hk Hdk) as [E|E]; [congruence|].
    by rewrite (none_within w (locate dir)) in Htn. }
  assert (Hdt : ∀ k, within (locate dir) k = true → within (locate tmp) k = false).
  { intros k Hk. destruct (within (locate tmp) k) eqn:Hdk; [|done]. apply Hdisj in Hdk. congruence. }
  apply rename_loop_ok in Hl as [Hin Hout]; [|done|done| |apply devSecretFiles_simple|apply devSecretFiles_NoDup].
  2: { intros E. rewrite E, within_refl in Hsep. done. }
  apply Remove_ok in Hrm.
  assert (Hrm' : ∀ k, within (locate dir) k = true → nodes w' !! k = nodes w2 !! k).
  { intros k Hk. rewrite Hrm, lookup_delete_ne; [done|]. intros <-.
    apply Hdt in Hk. by rewrite within_refl in Hk. }
  assert (Hdir : nodes w' !! locate dir = nodes w1 !! locate dir).
  { rewrite Hrm' by apply within_refl. apply Hout. intros name _.
    split; [|by apply not_eq_sym, child_not_self]. intros E.
    pose proof (within_child (locate tmp) name) as Hc. rewrite <- E in Hc. congruence. }
  split.
  - done.
  - eexists. rewrite Hdir, Hw1. apply lookup_insert_eq.
  - intros name Hname. destruct (Hin name Hname) as (n & Hn & _ & Hn' & _). exists n. split.
    + rewrite Hw1, lookup_insert_ne in Hn; [done|]. intros E.
      pose proof (within_child (locate tmp) name) as Hc. rewrite <- E in Hc. congruence.
    + rewrite Hrm' by apply within_child. done.
  - intros k Hk Hs. rewrite Hrm' in Hs by done.
    destruct (decide (k = locate dir)) as [->|Hne]; [by left|right].
    destruct (decide (k ∈ child (locate dir) <$> devSecretFiles)) as [Hyes|Hno].
    { apply list_elem_of_fmap in Hyes as (name & -> & Hname). by exists name. }
    rewrite Hout, Hw1, lookup_insert_ne in Hs.
    + by rewrite (none_within w (locate dir)) in Hs by done; destruct Hs.
    + congruence.
    + intros name Hname. split; [|intros ->; by apply Hno, list_elem_of_fmap_2].
      intros ->. apply Hdt in Hk. by rewrite within_child in Hk.
  - intros k Hk. apply (none_within w' (locate tmp)); [done| |done].
    rewrite Hrm. apply lookup_delete_eq.
  - intros k Hk1 Hk2. rewrite Hrm, lookup_delete_ne.
    + rewrite Hout, Hw1, lookup_insert_ne; [done| |].
      * intros <-. by rewrite within_refl in Hk2.
      * intros name _. split; intros ->; rewrite within_child in *; done.
    + intros <-. by rewrite within_refl in Hk1.
Qed.
End generation.

(** * The published inventory *)

(** A host on which nothing fails, like [h] in everything validation asks. *)
Definition quiet (h h2 : HostOS) : Prop :=
  @host_GOOS h2 = @host_GOOS h ∧ ∀ n k, @broken h2 n k = false.

Lemma NoDup_omap {A B} (f : A → option B) l :
  (∀ x y z, x ∈ l → y ∈ l → f x = Some z → f y = Some z → x = y) → NoDup l → NoDup (omap f l).
Proof.
  intros Hinj Hnd. induction Hnd as [|x l Hni Hnd IH]; [constructor|]. cbn.
  assert (IH' : NoDup (omap f l)).
  { apply IH. intros a b z Ha Hb. apply Hinj; by right. }
  destruct (f x) as [z|] eqn:Hz; [|done]. constructor; [|done].
  intros (y & Hy & Hfy)%list_elem_of_omap. apply Hni.
  by rewrite (Hinj x y z) by (done || (by left) || by right).
Qed.

Lemma entry_child k k' name w : k' ∈ entries k w → head k'.2 = Some name → k' = child k name.
Proof.
  intros (<- & _ & _)%elem_of_entries Hh. destruct k' as [b [|n s]]; [done|].
  by injection Hh as <-.
Qed.

Lemma elem_of_entry_names k name w :
  name ∈ entry_names k w ↔ name ≠ ".." ∧ is_Some (nodes w !! child k name).
Proof.
  unfold entry_names. rewrite list_elem_of_filter, list_elem_of_omap. split.
  - intros [Hne (k' & Hk' & Hh)]. split; [done|]. rewrite <- (entry_child _ _ _ _ Hk' Hh).
    apply elem_of_entries in Hk'. tauto.
  - intros [Hne Hs]. split; [done|]. exists (child k name). split; [|done].
    apply elem_of_entries. split_and!; [apply parent_child|apply child_not_self|done].
Qed.

Lemma NoDup_entry_names k w : NoDup (entry_names k w).
Proof.
  apply NoDup_filter, NoDup_omap.
  - intros x y name Hx Hy Hfx Hfy. by rewrite (entry_child _ _ _ _ Hx Hfx), (entry_child _ _ _ _ Hy Hfy).
  - apply NoDup_filter, NoDup_fst_map_to_list.
Qed.

Lemma devSecretFiles_sorted : Sorted String.le devSecretFiles.
Proof. repeat constructor. Qed.

(** A directory that holds exactly the inventory. *)
Lemma sort_inventory names : NoDup names → (∀ name, name ∈ names ↔ name ∈ devSecretFiles) →
  sort_strings names = devSecretFiles.
Proof.
  intros Hnd Hiff. apply (Sorted_unique String.le).
  - apply (Sorted_merge_sort _).
  - apply devSecretFiles_sorted.
  - unfold sort_strings. rewrite (merge_sort_Permutation _). by apply NoDup_Permutation; [|apply devSecretFiles_NoDup|].
Qed.

Section guarantees.
Context {tables : UnicodeTables} {order : MapOrder}.

Lemma modes_loop_ok {os : OS} d names : modes_loop d names = Ok tt →
  ∀ name, name ∈ names → ∃ i, Lstat (Join d name) = Some i ∧ has_mode (fi_mode i) ModeSymlink = false.
Proof.
  induction names as [|n names IH]; [by intros _ ? ?%elem_of_nil|]. cbn [modes_loop].
  destruct (Lstat (Join d n)) as [i|] eqn:Hl; [|done]. rewrite !reject_ok.
  intros ([_ Hs]%orb_false_iff & _ & Hrest) name [->|Hin]%elem_of_cons; [by exists i|by apply IH].
Qed.

Lemma ValidateDevSecrets_ok {os : OS} d : ValidateDevSecrets d = Ok tt →
  is_Some (Lstat d) ∧ modes_loop d devSecretFiles = Ok tt.
Proof.
  unfold ValidateDevSecrets. destruct (Lstat d) as [i|]; [|done]. rewrite !reject_ok.
  intros (_ & _ & H). destruct (ReadDir d); [|done]. apply reject_ok in H as [_ H].
  apply bind_ok in H as ([] & H & _). split; [by eexists|done].
Qed.

Lemma view_Lstat (h : HostOS) w path i :
  @Lstat (view w) path = Some i → ∃ n, nodes w !! locate path = Some n ∧ i = info_of n.
Proof.
  unfold view. cbn [Lstat]. destruct (negb _); [|done].
  intros (n & Hn & ->)%fmap_Some. by exists n.
Qed.

(** Files that were moved look as they did. *)
Lemma moved_sees (h h2 : HostOS) tmp dir name w w' n :
  (∀ n k, @broken h2 n k = false) → tmp ≠ "" → dir ≠ "" → simple name = true →
  nodes w !! child (locate tmp) name = Some n → nodes w' !! child (locate dir) name = Some n →
  has_mode (n_mode n) ModeSymlink = false →
  sees (@view h w) (@view h2 w') (Join tmp name) (Join dir name).
Proof.
  intros Hq Ht Hd Hs Hn Hn' Hm. split; [by apply Join_nonempty|].
  assert (Hfol : ∀ w k, nodes w !! k = Some n → follow 40 k w = Some n).
  { intros w0 k Hk. by apply follow_plain. }
  unfold view. cbn [Lstat Open]. rewrite !locate_Join, Hn, Hn', !Hfol, !Hq by done.
  cbn [negb]. split; intros x; (destruct (negb _); [exact id|discriminate]).
Qed.

Lemma ldiff_benign a b : Z.land a b = 0 → Z.ldiff a b = a.
Proof. intros H. by rewrite <- (Z.lor_ldiff_and a b) at 2; rewrite H, Z.lor_0_r. Qed.

Lemma published_private (h h2 : HostOS) tmp dir w w' :
  (∀ n k, @broken h2 n k = false) → Z.land 448 (@umask h) = 0 → dir ≠ "" → published (H := h) tmp dir w w' →
  private_dir (@view h2 w') dir.
Proof.
  intros Hq Hu Hd Hpub. destruct (pub_dir _ _ _ _ Hpub) as [ino Hdir].
  rewrite ldiff_benign in Hdir by done.
  eexists _, _. unfold view. cbn [Lstat ReadDir]. rewrite !Hq. cbn [negb andb].
  rewrite Hdir. unfold dir_at. rewrite Hdir. split_and!; [done|done| |done|].
  { unfold wrong_mode. cbn. by rewrite andb_false_r. }
  apply sort_inventory; [apply NoDup_entry_names|]. intros name.
  rewrite elem_of_entry_names. split.
  - intros [_ Hs]. apply (pub_only _ _ _ _ Hpub) in Hs; [|apply within_child].
    destruct Hs as [E|(n & Hn & [_ ->]%child_inj)]; [by apply child_not_self in E|done].
  - intros Hin. destruct (pub_files _ _ _ _ Hpub name Hin) as (n & _ & Hn).
    split; [|by exists n]. intros ->. revert Hin. apply (bool_decide_unpack _). vm_compute. exact I.
Qed.

(** The temporary directory does not contain the destination. *)
Lemma temporary_apart directory tmp w :
  nodes w !! locate directory = None → nodes w !! locate tmp = None →
  parent (locate tmp) = locate (Dir directory) → dir_at (locate (Dir directory)) w = true →
  locate tmp ≠ locate directory → within (locate tmp) (locate directory) = false.
Proof.
  intros Hd Ht Hp Hdir Hne. destruct (within (locate tmp) (locate directory)) eqn:Hw; [|done].
  destruct Hne. apply within_length; [done|].
  destruct (locate_Dir directory) as [name ->]. cbn [snd].
  etransitivity; [apply clean_step_length|]. rewrite <- Hp. unfold parent. cbn [snd].
  destruct (locate tmp).2 as [|n s] eqn:E; [|done]. exfalso.
  assert (Hpt : parent (locate tmp) = locate tmp).
  { unfold parent. rewrite E. destruct (locate tmp) as [b s]. cbn in *. by subst. }
  rewrite <- Hp, Hpt in Hdir. unfold dir_at in Hdir. by rewrite Ht in Hdir.
Qed.

(** A run that succeeds where nothing was has filled, validated and published a
    temporary directory. *)
Lemma generate_ok `{HostOS} directory w w' :
  GenerateDevSecrets directory w = (Ok tt, w') → nodes w !! locate directory = None → fs_ok w →
  ∃ tmp w2 w3, fresh_temporary directory tmp w w2 ∧
    (∀ k, within (locate tmp) k = false → nodes w3 !! k = nodes w !! k) ∧
    ValidateDevSecrets (os := view w3) tmp = Ok tt ∧ published tmp directory w3 w'.
Proof.
  intros Hg Hdn Hw. destruct (generate_cases directory w) as [[_ Hok]|(tmp & w1 & Hf & Heq)].
  { rewrite Hg in Hok. by destruct Hok. }
  rewrite Hg in Heq. symmetry in Heq. unfold unless_ok in Heq.
  destruct (fill_and_publish tmp directory w1) as [[[]|e] w5] eqn:Hfill; [|done].
  injection Heq as ->. pose proof Hf as [[Hd _] [Ht Htn] [Hp Hdir] Hn1].
  unfold fill_and_publish in Hfill.
  apply bind_gen_ok in Hfill as ([] & w2 & Hchmod & Hfill).
  apply bind_gen_ok in Hfill as ([] & w3 & Hinv & Hfill).
  apply bind_gen_ok in Hfill as ([] & w4 & Hval & Hpub).
  assert (Hc : covers (λ k, within (locate tmp) k = true) tmp) by done.
  pose proof (chmod_fill_keeps _ tmp Hc w1) as Hk.
  unfold mbind, gen_bind in Hk. rewrite Hchmod, Hinv in Hk. cbn [snd] in Hk. destruct Hk as [Hk Hok].
  pose proof (fresh_frame _ _ _ _ Hf) as [_ Hw1]. specialize (Hok (Hw1 Hw)).
  pose proof (validated_nodes (String.append "validate generated development secret inventory: ") tmp w3)
    as Hn. rewrite Hval in Hn. cbn [snd] in Hn.
  unfold validated, reading in Hval.
  destruct (ValidateDevSecrets tmp) as [[]|e] eqn:Hv; [|done].
  exists tmp, w1, w3. split_and!; [done| |done|].
  - intros k Hkt. rewrite Hk, Hn1, lookup_insert_ne; [done| |by rewrite Hkt].
    intros <-. by rewrite within_refl in Hkt.
  - apply ValidateDevSecrets_ok in Hv as [[i Hi] _]. apply view_Lstat in Hi as (n & Htmp & _).
    assert (Hpub3 : published tmp directory w4 w').
    { apply publish_ok; try done.
      - apply (temporary_apart _ _ w); [done..|]. intros E.
        unfold publish in Hpub. apply bind_gen_ok in Hpub as ([] & w5 & Hm%or_fail_ok & _).
        unfold Mkdir in Hm. apply syscall_ok, enter_ok in Hm as [Hm _]. cbn [nodes ticked] in Hm.
        rewrite <- E, Hn in Hm. congruence.
      - by eapply fs_ok_nodes.
      - rewrite Hn. congruence. }
    destruct Hpub3 as [H1 H2 H3 H4 H5 H6]. rewrite Hn in H1, H3, H6. by split.
Qed.

Lemma generate_validates `{h : HostOS} directory w w' :
  GenerateDevSecrets directory w = (Ok tt, w') → nodes w !! locate directory = None → fs_ok w →
  Z.land 448 umask = 0 → ∀ h2 w2, quiet h h2 → nodes w2 = nodes w' →
  ValidateDevSecrets (os := @view h2 w2) directory = Ok tt.
Proof.
  intros Hg Hdn Hw Hu h2 w2 [Hgoos Hq] Hw2.
  destruct (generate_ok _ _ _ Hg Hdn Hw) as (tmp & w1 & w3 & Hf & _ & Hv & Hpub).
  assert (Hpub2 : published (H := h) tmp directory w3 w2).
  { destruct Hpub as [H1 H2 H3 H4 H5 H6]. rewrite <- Hw2 in H2, H3, H4, H5, H6. by split. }
  pose proof Hf as [[Hd _] [Ht _] _ _].
  pose proof (ValidateDevSecrets_ok _ Hv) as [_ Hmodes].
  refine (ValidateDevSecrets_sees (@view h w3) (@view h2 w2) (eq_sym Hgoos) tmp directory _ _ tt Hv).
  - by apply (published_private h h2 tmp directory w3).
  - intros name Hin. destruct (pub_files _ _ _ _ Hpub2 name Hin) as (n & Hn & Hn').
    assert (Hs : simple name = true) by (by eapply Forall_forall in Hin; [|apply devSecretFiles_simple]).
    apply (moved_sees h h2 _ _ _ _ _ n); try done.
    destruct (modes_loop_ok _ _ Hmodes name Hin) as (i & Hi & Hm).
    apply view_Lstat in Hi as (n' & Hl & ->). rewrite locate_Join, Hn in Hl by done. by injection Hl as <-.
Qed.

(** An inventory that validated once validates whenever nothing fails. *)
Lemma validates_quietly (h h2 : HostOS) directory w w2 :
  ValidateDevSecrets (os := @view h w) directory = Ok tt → directory ≠ "" →
  quiet h h2 → nodes w2 = nodes w → ValidateDevSecrets (os := @view h2 w2) directory = Ok tt.
Proof.
  intros Hv Hd [Hgoos Hq] Hn.
  assert (Hnodes : ∀ fuel k, follow fuel k w2 = follow fuel k w).
  { induction fuel as [|f IH]; intros k; cbn [follow]; rewrite Hn; [done|].
    destruct (nodes w !! k); [|done]. cbn. by rewrite IH. }
  assert (Hl : ∀ path i, Lstat (OS := @view h w) path = Some i → Lstat (OS := @view h2 w2) path = Some i).
  { intros path i. cbn [Lstat view]. rewrite Hq, Hn. cbn [negb]. destruct (broken (tick w) _); [discriminate 1|exact id]. }
  assert (Ho : ∀ path f, Open (OS := @view h w) path = Some f → Open (OS := @view h2 w2) path = Some f).
  { intros path f. cbn [Open view]. rewrite Hq, Hnodes. generalize (follow 40 (locate path) w).
    intros o. cbn [negb].
    destruct (broken (tick w) _); [discriminate 1|exact id]. }
  assert (Hs : ∀ name, name ∈ devSecretFiles →
            sees (@view h w) (@view h2 w2) (Join directory name) (Join directory name)).
  { intros name _. split_and!; [by apply Join_nonempty|apply Hl|apply Ho]. }
  revert Hv. unfold ValidateDevSecrets at 1.
  destruct (Lstat directory) as [i|] eqn:Hi; [|done]. rewrite !reject_ok. intros (Hp & Hm & Hv).
  destruct (ReadDir directory) as [names|] eqn:Hnames; [|done]. apply reject_ok in Hv as [Hj Hv].
  unfold ValidateDevSecrets. rewrite (Hl _ _ Hi), Hp.
  replace (wrong_mode (os := @view h2 w2) i 448) with (wrong_mode (os := @view h w) i 448)
    by (unfold wrong_mode; cbn; by rewrite Hgoos).
  rewrite Hm.
  assert (ReadDir (OS := @view h2 w2) directory = Some names) as ->.
  { revert Hnames. cbn [ReadDir view]. rewrite Hq. unfold dir_at, entry_names, entries. rewrite Hn.
    cbn [negb andb]. destruct (broken (tick w) _); [discriminate 1|exact id]. }
  cbv zeta. rewrite Hj. revert Hv. apply implies_ok_bind.
  - by apply modes_loop_sees.
  - intros _. by apply validate_contents_sees.
Qed.

(** Exactly the directory and its files are new. *)
Lemma generate_adds `{HostOS} directory w w' :
  GenerateDevSecrets directory w = (Ok tt, w') → nodes w !! locate directory = None → fs_ok w →
  ∀ k, is_Some (nodes w' !! k) ↔
    is_Some (nodes w !! k) ∨ k = locate directory ∨
    ∃ name, name ∈ devSecretFiles ∧ k = child (locate directory) name.
Proof.
  intros Hg Hdn Hw k. destruct (generate_ok _ _ _ Hg Hdn Hw) as (tmp & w2 & w3 & Hf & Hn3 & _ & Hpub).
  pose proof Hf as [[Hd _] [Ht Htn] _ _]. destruct Hpub as [H1 [ino H2] H3 H4 H5 H6]. split.
  - intros Hs. destruct (within (locate directory) k) eqn:Hkd; [right; auto|].
    destruct (within (locate tmp) k) eqn:Hkt; [by rewrite H5 in Hs by done; destruct Hs|].
    left. by rewrite <- Hn3, <- H6.
  - intros [Hs|[->|(name & Hin & ->)]].
    + assert (within (locate directory) k = false).
      { destruct (within (locate directory) k) eqn:E; [|done].
        by rewrite (none_within w (locate directory)) in Hs by done; destruct Hs. }
      assert (within (locate tmp) k = false).
      { destruct (within (locate tmp) k) eqn:E; [|done].
        by rewrite (none_within w (locate tmp)) in Hs by done; destruct Hs. }
      by rewrite H6, Hn3.
    + by eexists.
    + destruct (H3 name Hin) as (n & _ & Hn). by exists n.
Qed.
End guarantees.

(** * Resolution *)

Section resolution.
Context {os : OS} {tables : UnicodeTables} {order : MapOrder}.

Definition logical (filename : string) : string := "/run/secrets/" +:+ filename.

Lemma insert_union_fmap root (resolved : gmap string string) setting filename settings :
  setting ∉ settings.*1 →
  (Join root <$> list_to_map settings) ∪ <[setting := Join root filename]> resolved =
  (Join root <$> (list_to_map ((setting, filename) :: settings) : gmap string string)) ∪ resolved.
Proof.
  intros Hni. cbn [list_to_map foldr fst snd]. rewrite fmap_insert.
  rewrite <- insert_union_l, insert_union_r; [done|].
  rewrite lookup_fmap, not_elem_of_list_to_map_1 by done. done.
Qed.

Lemma resolve_loop_iff root settings : ∀ resolved r, NoDup settings.*1 →
  resolve_loop root resolved settings = Ok r ↔
  (∀ setting filename, (setting, filename) ∈ settings →
     default (logical filename) (resolved !! setting) = logical filename) ∧
  r = (Join root <$> list_to_map settings) ∪ resolved.
Proof.
  induction settings as [|[s f] settings IH]; intros resolved r Hnd.
  - cbn. rewrite fmap_empty, (left_id_L ∅ (∪)). split; [intros [= <-]|intros [_ ->]; done].
    split; [|done]. by intros ? ? ?%elem_of_nil.
  - apply NoDup_cons in Hnd as [Hni Hnd]. cbn [resolve_loop]. fold (logical f).
    rewrite reject_ok, negb_false_iff, String.eqb_eq, (IH _ _ Hnd), insert_union_fmap by done.
    setoid_rewrite elem_of_cons. split.
    + intros (Hs & Hall & ->). split; [|done]. intros s' f' [[= -> ->]|Hin]; [done|].
      specialize (Hall s' f' Hin). rewrite lookup_insert_ne in Hall; [done|].
      intros ->. apply Hni, list_elem_of_fmap. by exists (s', f').
    + intros (Hall & ->). split_and!; [by apply Hall; left| |done]. intros s' f' Hin.
      rewrite lookup_insert_ne; [apply Hall; by right|].
      intros ->. apply Hni, list_elem_of_fmap. by exists (s', f').
Qed.

Lemma cloudflare_loop_iff root settings : ∀ resolved r, NoDup settings.*1 →
  cloudflare_loop root resolved settings = Ok r ↔
  (∀ setting filename, (setting, filename) ∈ settings →
     (default "" (resolved !! setting) = "" ∨ default "" (resolved !! setting) = logical filename) ∧
     validateProtectedFile setting (Join root filename) = Ok tt) ∧
  r = (Join root <$> list_to_map settings) ∪ resolved.
Proof.
  induction settings as [|[s f] settings IH]; intros resolved r Hnd.
  - cbn. rewrite fmap_empty, (left_id_L ∅ (∪)). split; [intros [= <-]|intros [_ ->]; done].
    split; [|done]. by intros ? ? ?%elem_of_nil.
  - apply NoDup_cons in Hnd as [Hni Hnd]. cbn [cloudflare_loop]. fold (logical f).
    rewrite reject_ok, andb_false_iff, !negb_false_iff, !String.eqb_eq, bind_ok.
    setoid_rewrite (IH _ _ Hnd). rewrite insert_union_fmap by done.
    setoid_rewrite elem_of_cons. split.
    + intros (Hs & [] & Hv & Hall & ->). split; [|done]. intros s' f' [[= -> ->]|Hin]; [done|].
      specialize (Hall s' f' Hin). rewrite lookup_insert_ne in Hall; [done|].
      intros ->. apply Hni, list_elem_of_fmap. by exists (s', f').
    + intros (Hall & ->). destruct (Hall s f ltac:(by left)) as [Hs Hv].
      split; [done|]. exists tt. split_and!; [done| |done]. intros s' f' Hin.
      rewrite lookup_insert_ne; [apply Hall; by right|].
      intros ->. apply Hni, list_elem_of_fmap. by exists (s', f').
Qed.

Lemma list_to_map_range {A} (m : gmap string A) : list_to_map (map_range m) = m.
Proof.
  rewrite <- (list_to_map_to_list m) at 2. apply list_to_map_proper; [|apply map_range_perm].
  apply NoDup_map_range_fst.
Qed.

Lemma resolve_iff values root resolved :
  ResolveDeploymentSecretRoot values root = Ok resolved ↔
  ValidateDevSecrets root = Ok tt ∧
  map_Forall (λ setting filename,
    default (logical filename) (values !! setting) = logical filename) deploymentSecretFiles ∧
  resolved = (Join root <$> deploymentSecretFiles) ∪ values.
Proof.
  unfold ResolveDeploymentSecretRoot. rewrite bind_ok.
  setoid_rewrite (resolve_loop_iff root _ values resolved (NoDup_map_range_fst _)).
  rewrite list_to_map_range. setoid_rewrite elem_of_map_range. split.
  - intros ([] & Hv & Hall & ->). by split_and!.
  - intros (Hv & Hall & ->). by exists tt.
Qed.

(** The same of the secrets of the optional ingress: their settings may also be
    empty, and both files must be protected. *)
Lemma cloudflare_root_resolves values root resolved :
  ResolveCloudflareSecretRoot values root = Ok resolved →
  map_Forall (λ setting filename,
    (default "" (values !! setting) = "" ∨ default "" (values !! setting) = logical filename) ∧
    validateProtectedFile setting (Join root filename) = Ok tt) cloudflare_settings ∧
  resolved = (Join root <$> cloudflare_settings) ∪ values.
Proof.
  unfold ResolveCloudflareSecretRoot. rewrite reject_ok. intros [_ H].
  destruct (Lstat root); [|done]. rewrite !reject_ok in H. destruct H as (_ & _ & H).
  destruct (ReadDir root) as [names|]; [|done]. rewrite !reject_ok in H. destruct H as (_ & _ & H).
  apply (cloudflare_loop_iff root _ values resolved (NoDup_map_range_fst _)) in H as [Hall ->].
  rewrite list_to_map_range. split; [|done]. intros s' f' Hsf. by apply Hall, elem_of_map_range.
Qed.
End resolution.
