(* ===== verification/GeneratorSuccess.v ===== *)
(** The generator on a host where nothing fails: every call of a run succeeds,
    what was written passes the validation, and the inventory is published. *)
From stdpp Require Import sorting.
From S2P Require Import Prelude GoStrings Strconv Net Url UrlFacts Regex Base64 Os Json Secrets StrictJson JsonPrint Fs FsFacts DevSecrets GeneratedFiles DevSecretsFacts.

Local Open Scope string_scope.
Local Open Scope Z_scope.

(** A host without faults, whose umask leaves the owner's permissions alone and
    whose entropy does not repeat within the 64 calls from [first] on. *)
Record calm (h : HostOS) (first : nat) : Prop := {
  calm_broken : ∀ n k, @broken h n k = false;
  calm_umask : Z.land 448 (@umask h) = 0;
  calm_entropy : ∀ n, ∃ bytes, @entropy h n = Some bytes ∧ String.length bytes = 32%nat;
  calm_fresh : ∀ m n, (first ≤ m < first + 64)%nat → (first ≤ n < first + 64)%nat →
    @entropy h m = @entropy h n → m = n
}.

(** The directory [tk] is a directory of the generator and holds exactly
    [files], as regular files of mode 0600. *)
Definition holds (tk : key) (files : gmap string string) (w : world) : Prop :=
  (∃ ino, nodes w !! tk = Some (mkNode (Z.lor ModeDir 448) ino "")) ∧
  ∀ name, (λ n, (n_mode n, n_data n)) <$> nodes w !! child tk name = pair 384 <$> files !! name.

Lemma holds_nodes tk files w w' : nodes w' = nodes w → holds tk files w → holds tk files w'.
Proof. unfold holds. by intros ->. Qed.

Section calm.
Context `{h : HostOS} {tables : UnicodeTables} {order : MapOrder}.
Variable first : nat.
Hypothesis Hcalm : calm h first.

Lemma calm_syscall {A} k (body : world → (A + errno) * world) w :
  syscall k body w = body (ticked w).
Proof. unfold syscall. by rewrite (calm_broken _ _ Hcalm). Qed.

Lemma calm_perm : Z.ldiff 448 umask = 448 ∧ Z.ldiff 384 umask = 384.
Proof.
  pose proof (calm_umask _ _ Hcalm) as Hu. split; apply ldiff_benign; [done|].
  change 384 with (Z.land 384 448). by rewrite <- Z.land_assoc, Hu.
Qed.

(** * Writing *)

Lemma write_step tmp name contents files w :
  tmp ≠ "" → simple name = true → holds (locate tmp) files w → files !! name = None →
  ∃ w', writeNewSecret tmp name contents w = (Ok tt, w') ∧
    holds (locate tmp) (<[name := contents]> files) w' ∧ tick w' = (3 + tick w)%nat.
Proof.
  intros Ht Hs [[ino Hdir] Hf] Hn. pose proof (Hf name) as Hnone. rewrite Hn in Hnone.
  apply fmap_None in Hnone. unfold writeNewSecret, mbind, gen_bind, or_fail, OpenExcl.
  rewrite calm_syscall, locate_Join by done. destruct calm_perm as [_ ->].
  unfold enter. cbn [nodes ticked]. rewrite Hnone, parent_child, Hdir.
  assert (is_dir (mkNode (Z.lor ModeDir 448) ino "") = true) as -> by done.
  unfold write_and_close, Write. rewrite (calm_broken _ _ Hcalm), locate_Join by done.
  unfold or_fail, CloseFile. rewrite calm_syscall. eexists. split; [reflexivity|].
  cbn [put_data set_nodes nodes tick ticked next_ino]. split; [|done]. split.
  - exists ino. cbn [put_data set_nodes nodes ticked]. rewrite lookup_alter_ne, lookup_insert_ne by
      (apply child_not_self). done.
  - intros name'. cbn [put_data set_nodes nodes ticked].
    destruct (decide (name' = name)) as [->|Hne].
    + by rewrite lookup_alter_eq, !lookup_insert_eq.
    + rewrite (lookup_insert_ne files), <- Hf by congruence.
      rewrite lookup_alter_ne, lookup_insert_ne; [done|..]; by intros [_ E]%child_inj.
Qed.

Lemma randomBase64URL_calm w : ∃ bytes,
  randomBase64URL w = (Ok (RawURLEncode bytes), ticked w) ∧
  entropy (tick w) = Some bytes ∧ String.length bytes = 32%nat.
Proof.
  destruct (calm_entropy _ _ Hcalm (tick w)) as (bytes & Hb & Hl). exists bytes.
  unfold randomBase64URL, rand_Read. by rewrite Hb.
Qed.

Lemma randomBase64_calm w : ∃ bytes,
  randomBase64 w = (Ok (StdEncode bytes), ticked w) ∧ String.length bytes = 32%nat.
Proof.
  destruct (calm_entropy _ _ Hcalm (tick w)) as (bytes & Hb & Hl). exists bytes.
  unfold randomBase64, rand_Read. by rewrite Hb.
Qed.

(** Entropy drawn from the call number [n] on, where it does not repeat. *)
Definition drawn (n : nat) (bytes : string) : Prop :=
  String.length bytes = 32%nat ∧ ∃ t, (n ≤ t < first + 64)%nat ∧ entropy t = Some bytes.

Definition password_files (names bytes : list string) : gmap string string :=
  list_to_map (zip names (RawURLEncode <$> bytes)).

Lemma write_passwords_calm tmp names : ∀ files passwords w,
  tmp ≠ "" → Forall (λ name, simple name = true) names → NoDup names →
  holds (locate tmp) files w → (∀ name, name ∈ names → files !! name = None) →
  (first ≤ tick w)%nat → (tick w + 4 * length names ≤ first + 64)%nat →
  ∃ bytes w', write_passwords tmp names passwords w =
      (Ok (password_files names bytes ∪ passwords), w') ∧
    length bytes = length names ∧ NoDup bytes ∧ Forall (drawn (tick w)) bytes ∧
    holds (locate tmp) (password_files names bytes ∪ files) w'.
Proof.
  induction names as [|name names IH]; intros files passwords w Ht Hs Hnd Hh Hfr Hlo Hhi.
  { exists [], w. cbn. unfold password_files. cbn. rewrite !(left_id_L ∅ (∪)).
    split_and!; [done|done|constructor|constructor|done]. }
  apply Forall_cons in Hs as [Hn Hs]. apply NoDup_cons in Hnd as [Hni Hnd].
  cbn [write_passwords]. destruct (randomBase64URL_calm w) as (b & Hr & Hb & Hlb).
  destruct (write_step tmp name (RawURLEncode b) files (ticked w)) as (w1 & Hw & Hh1 & Ht1);
    [done|done|by eapply holds_nodes|apply Hfr; by left|].
  destruct (IH (<[name := RawURLEncode b]> files) (<[name := RawURLEncode b]> passwords) w1)
    as (bytes & w' & Hrun & Hl & Hnd' & Hd & Hh'); [done..| |cbn in Ht1; lia|cbn in Ht1, Hhi; lia|].
  { intros x Hx. rewrite lookup_insert_ne; [apply Hfr; by right|]. by intros ->. }
  cbn [tick ticked] in Ht1. exists (b :: bytes), w'.
  assert (Hmap : ∀ m : gmap string string, password_files names bytes ∪ <[name := RawURLEncode b]> m =
    password_files (name :: names) (b :: bytes) ∪ m).
  { intros m. unfold password_files. cbn. rewrite <- insert_union_l, insert_union_r; [done|].
    apply not_elem_of_list_to_map_1. intros (x & -> & Hx)%list_elem_of_fmap.
    apply Hni. destruct x. by apply elem_of_zip_l in Hx. }
  rewrite Hmap in Hrun, Hh'. split_and!; [| |constructor| |done].
  - unfold mbind at 1, gen_bind at 1. rewrite Hr.
    unfold mbind at 1, gen_bind at 1. rewrite Hw. exact Hrun.
  - by cbn; rewrite Hl.
  - intros Hin. rewrite Forall_forall in Hd. destruct (Hd b Hin) as (_ & t & Ht2 & Hbt).
    rewrite <- Hb in Hbt. cbn in Hhi. apply (calm_fresh _ _ Hcalm) in Hbt; lia.
  - done.
  - cbn in Hhi. constructor; [split; [done|exists (tick w); split; [lia|done]]|].
    eapply Forall_impl; [exact Hd|]. intros x (Hx & t & Hxt & Hex). split; [done|]. exists t. split; [lia|done].
Qed.

(** What the eleven files hold: the entropy of the six passwords, and of the
    four keys. *)
Record draws := mkDraws {
  admin : string; migration : string; gateway : string; control_plane : string; worker : string;
  redis : string; provider : string; pepper : string; csrf : string; session : string
}.

Definition draws_ok (d : draws) : Prop :=
  NoDup [admin d; migration d; gateway d; control_plane d; worker d; redis d] ∧
  Forall (λ b, String.length b = 32%nat)
    [admin d; migration d; gateway d; control_plane d; worker d; redis d;
     provider d; pepper d; csrf d; session d].

Definition inventory (d : draws) : gmap string string :=
  <["session_secret" := StdEncode (session d)]>
  (<["csrf_secret_ring" := Marshal (wire "csrf-dev-1" (StdEncode (csrf d)))]>
  (<["api_key_pepper_ring" := Marshal (wire "api-pepper-dev-1" (StdEncode (pepper d)))]>
  (<["provider_master_keyring" := Marshal (providerRing (StdEncode (provider d)))]>
  (<["redis_url" := URL_String (redisURL (RawURLEncode (redis d)))]>
  (password_files generated_passwords
     [admin d; migration d; gateway d; control_plane d; worker d; redis d]))))).

Lemma gen_step {A B} (m : Gen A) (f : A → Gen B) w a w1 :
  m w = (Ok a, w1) → (m ≫= f) w = f a w1.
Proof. intros Hm. unfold mbind, gen_bind. by rewrite Hm. Qed.

Lemma write_inventory_calm tmp w :
  tmp ≠ "" → holds (locate tmp) ∅ w → (first ≤ tick w ≤ first + 40)%nat →
  ∃ d w', write_inventory tmp w = (Ok tt, w') ∧ draws_ok d ∧ holds (locate tmp) (inventory d) w'.
Proof.
  intros Ht Hh Hw.
  destruct (write_passwords_calm tmp generated_passwords ∅ ∅ w Ht) as
    (bytes & w1 & Hr1 & Hl & Hnd & Hd & Hh1);
    [repeat constructor|apply (bool_decide_unpack _); vm_compute; exact I|done|done|lia|cbn; lia|].
  destruct bytes as [|b1 [|b2 [|b3 [|b4 [|b5 [|b6 [|]]]]]]]; try discriminate Hl.
  set (bytes := [b1; b2; b3; b4; b5; b6]) in *.
  rewrite (right_id_L ∅ (∪)) in Hr1, Hh1.
  assert (Hred : default "" (password_files generated_passwords bytes !! "redis_password") =
    RawURLEncode b6) by reflexivity.
  destruct (write_step tmp "redis_url" (URL_String (redisURL (RawURLEncode b6))) _ w1 Ht eq_refl Hh1
    eq_refl) as (w2 & Hr2 & Hh2 & _).
  destruct (randomBase64_calm w2) as (kp & Hr3 & Hkp).
  destruct (write_step tmp "provider_master_keyring" (Marshal (providerRing (StdEncode kp))) _
    (ticked w2) Ht eq_refl (holds_nodes _ _ w2 (ticked w2) eq_refl Hh2) eq_refl) as (w4 & Hr4 & Hh4 & _).
  destruct (randomBase64_calm w4) as (ka & Hr5 & Hka).
  destruct (write_step tmp "api_key_pepper_ring" (Marshal (wire "api-pepper-dev-1" (StdEncode ka))) _
    (ticked w4) Ht eq_refl (holds_nodes _ _ w4 (ticked w4) eq_refl Hh4) eq_refl) as (w6 & Hr6 & Hh6 & _).
  destruct (randomBase64_calm w6) as (kc & Hr7 & Hkc).
  destruct (write_step tmp "csrf_secret_ring" (Marshal (wire "csrf-dev-1" (StdEncode kc))) _
    (ticked w6) Ht eq_refl (holds_nodes _ _ w6 (ticked w6) eq_refl Hh6) eq_refl) as (w8 & Hr8 & Hh8 & _).
  destruct (randomBase64_calm w8) as (ks & Hr9 & Hks).
  destruct (write_step tmp "session_secret" (StdEncode ks) _
    (ticked w8) Ht eq_refl (holds_nodes _ _ w8 (ticked w8) eq_refl Hh8) eq_refl) as (w10 & Hr10 & Hh10 & _).
  exists (mkDraws b1 b2 b3 b4 b5 b6 kp ka kc ks), w10. split_and!; [| |exact Hh10].
  - unfold write_inventory, writeJSONSecret. erewrite gen_step by exact Hr1. rewrite Hred.
    erewrite gen_step by exact Hr2. erewrite gen_step by exact Hr3. erewrite gen_step by exact Hr4.
    cbn [write_rings]. unfold writeJSONSecret.
    erewrite gen_step.
    2: { erewrite gen_step by exact Hr5. erewrite gen_step by exact Hr6.
         erewrite gen_step by exact Hr7. erewrite gen_step by exact Hr8. reflexivity. }
    erewrite gen_step by exact Hr9. exact Hr10.
  - split; [exact Hnd|]. rewrite !Forall_cons, Forall_nil. cbn.
    subst bytes. rewrite !Forall_cons in Hd.
    destruct Hd as ([? _] & [? _] & [? _] & [? _] & [? _] & [? _] & _). by split_and!.
Qed.

(** * Validating what was written *)

Lemma holds_node tk files w name contents :
  holds tk files w → files !! name = Some contents →
  ∃ ino, nodes w !! child tk name = Some (mkNode 384 ino contents).
Proof.
  intros [_ Hf] Hc. specialize (Hf name). rewrite Hc in Hf.
  destruct (nodes w !! child tk name) as [[m ino c]|]; [|done]. injection Hf as -> ->. by exists ino.
Qed.

Lemma view_calm w path n : nodes w !! locate path = Some n → has_mode (n_mode n) ModeSymlink = false →
  @Lstat (view w) path = Some (info_of n) ∧
  @Open (view w) path = Some {| f_stat := Some (info_of n); f_content := n_data n; f_fault := None;
                                f_close := Ok tt |} ∧
  @Stat (view w) path = Some (info_of n).
Proof.
  intros Hn Hm. pose proof (follow_plain 40 _ _ _ Hn Hm) as Hf.
  unfold view. cbn [Lstat Open Stat]. rewrite !(calm_broken _ _ Hcalm), Hn. cbn [negb].
  generalize dependent (follow 40 (locate path) w). intros o ->. done.
Qed.

Lemma holds_shows tmp files w name contents :
  tmp ≠ "" → simple name = true → holds (locate tmp) files w → files !! name = Some contents →
  shows (os := view w) (Join tmp name) contents.
Proof.
  intros Ht Hs Hh Hc. destruct (holds_node _ _ _ _ _ Hh Hc) as [ino Hn].
  rewrite <- locate_Join in Hn by done.
  destruct (view_calm w (Join tmp name) _ Hn eq_refl) as (Hl & Ho & _).
  match type of Ho with _ = Some ?file => exists file end. split; [|done].
  split; [by apply Join_nonempty|]. eexists _, _. split_and!; [exact Hl| |exact Ho|done|].
  - split_and!; [done|done|by right].
  - unfold SameFile, info_of. cbn. by rewrite Z.eqb_refl.
Qed.

Lemma modes_loop_calm tmp files w names :
  tmp ≠ "" → holds (locate tmp) files w →
  (∀ name, name ∈ names → simple name = true ∧ is_Some (files !! name)) →
  modes_loop (os := view w) tmp names = Ok tt.
Proof.
  intros Ht Hh. induction names as [|name names IH]; intros Hall; [done|]. cbn [modes_loop].
  destruct (Hall name ltac:(by left)) as [Hs [c Hc]].
  destruct (holds_node _ _ _ _ _ Hh Hc) as [ino Hn]. rewrite <- locate_Join in Hn by done.
  destruct (view_calm w (Join tmp name) _ Hn eq_refl) as (-> & _).
  unfold wrong_mode. cbn [info_of fi_mode n_mode].
  assert (IsRegular 384 = true) as -> by done. assert (has_mode 384 ModeSymlink = false) as -> by done.
  assert ((Perm 384 =? 384) = true) as -> by done. rewrite andb_false_r. cbn [negb orb].
  apply IH. intros n Hin. apply Hall. by right.
Qed.

(** The settings of the inventory in any order: the database passwords are read
    one after the other, and differ. *)
Lemma passwords_loop_calm {os : OS} dir (value : string → string) settings : ∀ seen,
  (∀ setting filename, (setting, filename) ∈ settings → setting ∈ database_settings →
     ReadSimpleSecret setting (Join dir filename) (4 * 1024) = Ok (mkSecret (value filename))) →
  NoDup (value ∘ snd <$> filter (λ sf, sf.1 ∈ database_settings) settings) →
  (∀ v, v ∈ value ∘ snd <$> filter (λ sf, sf.1 ∈ database_settings) settings → seen !! v = None) →
  passwords_loop dir seen settings = Ok tt.
Proof.
  induction settings as [|[s f] settings IH]; intros seen Hread Hnd Hseen; [done|].
  cbn [passwords_loop]. case_bool_decide as Hs.
  - rewrite filter_cons_True in Hnd, Hseen by done. cbn [fmap list_fmap] in Hnd, Hseen.
    apply NoDup_cons in Hnd as [Hni Hnd].
    rewrite (Hread s f ltac:(by left) Hs). cbn [mbind res_bind Reveal secret_value].
    rewrite bool_decide_eq_false_2.
    + apply IH; [intros s' f' Hin; apply Hread; by right|done|].
      intros v Hv. rewrite lookup_insert_ne; [apply Hseen; by right|]. by intros <-.
    + rewrite (Hseen (value f)) by by left. by intros [].
  - rewrite filter_cons_False in Hnd, Hseen by done.
    apply IH; [|done|done]. intros s' f' Hin. apply Hread. by right.
Qed.

Definition value_of (d : draws) (filename : string) : string := default "" (inventory d !! filename).

Lemma database_files : (snd <$> filter (λ sf, sf.1 ∈ database_settings) (map_to_list deploymentSecretFiles))
  = ["postgres_worker_password"; "postgres_gateway_password"; "postgres_control_plane_password";
     "postgres_migration_password"; "postgres_cluster_admin_password"].
Proof. vm_compute. reflexivity. Qed.

Lemma database_values_distinct d : draws_ok d →
  NoDup (value_of d ∘ snd <$> filter (λ sf, sf.1 ∈ database_settings) (map_range deploymentSecretFiles)).
Proof.
  intros [Hnd Hl]. rewrite (map_range_perm deploymentSecretFiles), list_fmap_compose, database_files.
  change (NoDup (RawURLEncode <$> [worker d; gateway d; control_plane d; migration d; admin d])).
  rewrite !Forall_cons in Hl. destruct Hl as (H1 & H2 & H3 & H4 & H5 & _).
  apply NoDup_fmap_2_strong.
  - assert (Hlen : Forall (λ b, String.length b = 32%nat)
      [worker d; gateway d; control_plane d; migration d; admin d]) by by repeat constructor.
    rewrite Forall_forall in Hlen. intros x y Hx Hy. apply RawURLEncode_inj.
    by rewrite (Hlen x Hx), (Hlen y Hy).
  - rewrite !NoDup_cons, !not_elem_of_cons in Hnd. rewrite !NoDup_cons, !not_elem_of_cons.
    pose proof (not_elem_of_nil (A := string)). pose proof (NoDup_nil_2 (A := string)). naive_solver.
Qed.

Lemma draws_password d filename :
  filename ∈ generated_passwords → ∃ bytes, inventory d !! filename = Some (RawURLEncode bytes) ∧
    (draws_ok d → String.length bytes = 32%nat).
Proof.
  intros Hin. unfold generated_passwords in Hin. rewrite !elem_of_cons, elem_of_nil in Hin.
  destruct Hin as [->|[->|[->|[->|[->|[->|[]]]]]]]; eexists; (split; [reflexivity|]);
    intros [_ Hl]; rewrite !Forall_cons in Hl; tauto.
Qed.

Lemma password_file_read {os : OS} setting path bytes :
  shows path (RawURLEncode bytes) → String.length bytes = 32%nat → setting ≠ "" →
  ReadSimpleSecret setting path (4 * 1024) = Ok (mkSecret (RawURLEncode bytes)).
Proof.
  intros Hsh Hb Hs. pose proof (RawURLEncode_32 bytes Hb) as Hl.
  apply ReadSimpleSecret_plain; try done.
  - apply RawURLEncode_plain.
  - intros E. by rewrite E in Hl.
  - unfold len. rewrite Hl. lia.
Qed.

Lemma session_file_read {os : OS} setting path bytes :
  shows path (StdEncode bytes) → String.length bytes = 32%nat → setting ≠ "" →
  ReadBase64Key setting path (4 * 1024) = Ok (mkSecret (StdEncode bytes)).
Proof.
  intros Hsh Hb Hs. pose proof (StdEncode_32 bytes Hb) as Hl. pose proof (key_text bytes) as [_ Hp].
  unfold ReadBase64Key. apply bind_ok. exists (mkSecret (StdEncode bytes)). split.
  - apply ReadSimpleSecret_plain; try done.
    + intros E. by rewrite E in Hl.
    + unfold len. rewrite Hl. lia.
  - cbn [secret_value]. by rewrite (proj2 (canonical_key_iff _ bytes)).
Qed.

Lemma validate_contents_calm tmp d w :
  tmp ≠ "" → draws_ok d → holds (locate tmp) (inventory d) w →
  validate_contents (os := view w) tmp = Ok tt.
Proof.
  intros Ht Hd Hh.
  assert (Hshow : ∀ name c, inventory d !! name = Some c → simple name = true →
    shows (os := view w) (Join tmp name) c).
  { intros name c Hc Hs. by eapply holds_shows. }
  pose proof Hd as [_ Hlen]. rewrite !Forall_cons in Hlen.
  destruct Hlen as (_ & _ & _ & _ & _ & Hredis & Hprov & Hpep & Hcsrf & Hsess & _).
  assert (Hurl : ∃ s u, ReadURISecret (os := view w) "REDIS_URL_FILE" (Join tmp "redis_url") (4 * 1024) ["redis"] =
    Ok (s, u) ∧ redis_url_ok (RawURLEncode (redis d)) u).
  { apply ReadURISecret_redis; [by apply Hshow|done|apply RawURLEncode_chars|].
    rewrite RawURLEncode_32 by done. lia. }
  destruct Hurl as (s & u & Hurl & _ & Hpw & Hhost & Hpath & _).
  unfold validate_contents.
  rewrite (passwords_loop_calm tmp (value_of d)); [| |by apply database_values_distinct|done].
  2: { intros setting filename Hin%elem_of_map_range Hdb.
       assert (Hf : filename ∈ generated_passwords ∧ simple filename = true ∧ setting ≠ "").
       { revert setting filename Hin Hdb. apply (bool_decide_unpack
           (map_Forall (λ s f, s ∈ database_settings → f ∈ generated_passwords ∧ simple f = true ∧ s ≠ "")
             deploymentSecretFiles)). vm_compute. exact I. }
       destruct Hf as (Hf & Hs & Hne). destruct (draws_password d filename Hf) as (b & Hb & Hlb).
       unfold value_of. rewrite Hb. apply password_file_read; auto. }
  cbn [mbind res_bind].
  rewrite (password_file_read "REDIS_PASSWORD_FILE" _ (redis d)) by (done || by apply Hshow).
  cbn [mbind res_bind Reveal secret_value]. unfold len. rewrite (RawURLEncode_32 (redis d)) by done.
  rewrite trim_RawURLEncode, Hurl. cbn [mbind res_bind]. rewrite Hpw, Hhost, Hpath.
  rewrite bool_decide_eq_true_2 by done. apply reject_ok. split; [done|].
  apply bind_ok. eexists. split.
  { apply (ReadProviderKeyRing_generated _ (provider d)); [by apply Hshow|exact Hprov]. }
  apply bind_ok. eexists. split.
  { apply (ReadKeyRing_wire _ _ "api-pepper-dev-1" (pepper d));
      [by apply Hshow|done|vm_compute; reflexivity|exact Hpep]. }
  apply bind_ok. eexists. split.
  { apply (session_file_read _ _ (session d)); [by apply Hshow|exact Hsess|done]. }
  apply bind_ok. eexists. split; [|done].
  apply (ReadKeyRing_wire _ _ "csrf-dev-1" (csrf d));
    [by apply Hshow|done|vm_compute; reflexivity|exact Hcsrf].
Qed.

Lemma inventory_names d name : is_Some (inventory d !! name) ↔ name ∈ devSecretFiles.
Proof.
  rewrite <- elem_of_dom.
  assert (Hdom : dom (inventory d) = list_to_set devSecretFiles :> gset string).
  { unfold inventory, password_files, generated_passwords. cbn [zip zip_with fmap list_fmap list_to_map foldr fst snd].
    rewrite !dom_insert_L, dom_empty_L. apply (bool_decide_unpack _). vm_compute. exact I. }
  rewrite Hdom. apply elem_of_list_to_set.
Qed.

Lemma holds_names tmp d w : holds (locate tmp) (inventory d) w →
  ∀ name, is_Some (nodes w !! child (locate tmp) name) ↔ name ∈ devSecretFiles.
Proof.
  intros [_ Hf] name. rewrite <- inventory_names with (d := d), <- !not_eq_None_Some.
  specialize (Hf name). destruct (nodes w !! _), (inventory d !! name); done.
Qed.

Lemma validate_calm tmp d w :
  tmp ≠ "" → draws_ok d → holds (locate tmp) (inventory d) w →
  ValidateDevSecrets (os := view w) tmp = Ok tt.
Proof.
  intros Ht Hd Hh. pose proof (holds_names _ _ _ Hh) as Hnames. pose proof Hh as [[ino Hdir] _].
  destruct (view_calm w tmp _ Hdir eq_refl) as (Hl & _).
  assert (Hrd : @ReadDir (view w) tmp = Some (entry_names (locate tmp) w)).
  { unfold view. cbn [ReadDir]. rewrite (calm_broken _ _ Hcalm). unfold dir_at. by rewrite Hdir. }
  unfold ValidateDevSecrets. rewrite Hl, Hrd.
  apply reject_ok. split; [done|]. apply reject_ok. split.
  { unfold wrong_mode. cbn [info_of fi_mode n_mode]. assert ((Perm (Z.lor ModeDir 448) =? 448) = true) as -> by done.
    by rewrite andb_false_r. }
  rewrite sort_inventory; [| |]; [|apply NoDup_entry_names|].
  2: { intros name. rewrite elem_of_entry_names, Hnames. split; [tauto|]. intros Hin. split; [|done].
       intros ->. revert Hin. apply (bool_decide_unpack _). vm_compute. exact I. }
  apply reject_ok. split; [by rewrite String.eqb_refl|].
  apply bind_ok. exists tt. split; [|by eapply validate_contents_calm].
  apply (modes_loop_calm _ (inventory d)); [done..|]. intros name Hin. split.
  - by eapply Forall_forall in Hin; [|apply devSecretFiles_simple].
  - by apply inventory_names.
Qed.

(** * Publishing *)

Lemma Rename_calm from to n w :
  nodes w !! locate from = Some n → is_dir n = false → dir_at (locate to) w = false →
  dir_at (parent (locate to)) w = true →
  Rename from to w =
  (inl tt, mkWorld (<[locate to := n]> (delete (locate from) (nodes w))) (S (tick w)) (next_ino w)).
Proof.
  intros Hn Hd Ht Hp. unfold Rename. rewrite calm_syscall. cbn [nodes ticked]. rewrite Hn, Hd.
  unfold dir_at in *. cbn [nodes ticked]. by rewrite Ht, Hp.
Qed.

Lemma rename_loop_calm tmp dir names : ∀ w,
  tmp ≠ "" → dir ≠ "" → locate tmp ≠ locate dir →
  Forall (λ name, simple name = true) names → NoDup names →
  (∀ name, name ∈ names → ∃ n, nodes w !! child (locate tmp) name = Some n ∧ is_dir n = false) →
  (∀ name, name ∈ names → nodes w !! child (locate dir) name = None) →
  dir_at (locate dir) w = true →
  (∀ x, x ∈ names → locate dir ≠ child (locate tmp) x) →
  ∃ w', rename_loop tmp dir names w = (Ok tt, w').
Proof.
  induction names as [|name names IH]; intros w Ht Hd Hne Hs Hnd Hfiles Hfree Hdir Hapart; [by eexists|].
  apply Forall_cons in Hs as [Hn Hs]. apply NoDup_cons in Hnd as [Hni Hnd].
  destruct (Hfiles name ltac:(by left)) as (n & Hln & Hnd').
  cbn [rename_loop]. erewrite gen_step.
  2: { unfold or_fail. rewrite (Rename_calm _ _ n).
       - reflexivity.
       - by rewrite locate_Join.
       - done.
       - rewrite locate_Join by done. unfold dir_at. by rewrite Hfree by by left.
       - by rewrite locate_Join, parent_child. }
  rewrite (locate_Join tmp), (locate_Join dir) by done.
  assert (Hsep : ∀ x y, child (locate tmp) x ≠ child (locate dir) y) by (by intros x y []%child_inj).
  assert (Hinj : ∀ k x, x ∈ names → child k name ≠ child k x).
  { intros k x Hx [_ ->]%child_inj. done. }
  apply IH; try done; cbn [nodes].
  - intros x Hx. destruct (Hfiles x ltac:(by right)) as (m & Hm & Hmd). exists m. split; [|done].
    rewrite lookup_insert_ne, lookup_delete_ne; [done|by apply Hinj|by apply not_eq_sym, Hsep].
  - intros x Hx. rewrite lookup_insert_ne, lookup_delete_ne; [apply Hfree; by right|apply Hsep|by apply Hinj].
  - unfold dir_at in *. cbn [nodes]. rewrite lookup_insert_ne by apply child_not_self.
    rewrite lookup_delete_ne; [done|]. apply not_eq_sym, Hapart. by left.
  - intros x Hx. apply Hapart. by right.
Qed.

Lemma Mkdir_calm path perm w :
  nodes w !! locate path = None → dir_at (parent (locate path)) w = true →
  Mkdir path perm w =
  (inl tt, mkWorld (<[locate path := mkNode (Z.lor ModeDir (Z.ldiff perm umask)) (next_ino w) ""]> (nodes w))
             (S (tick w)) (next_ino w + 1)).
Proof.
  intros Hn Hp. unfold Mkdir. rewrite calm_syscall. unfold enter. cbn [nodes ticked]. rewrite Hn.
  apply dir_at_some in Hp as (d & -> & ->). done.
Qed.

Lemma publish_calm tmp dir d w :
  tmp ≠ "" → dir ≠ "" → within (locate tmp) (locate dir) = false → fs_ok w →
  holds (locate tmp) (inventory d) w → nodes w !! locate dir = None →
  dir_at (parent (locate dir)) w = true →
  ∃ w', publish tmp dir w = (Ok tt, w').
Proof.
  intros Ht Hd Hap Hw Hh Hdn Hp. pose proof (holds_names _ _ _ Hh) as Hnames.
  assert (Hne : locate tmp ≠ locate dir) by (intros E; by rewrite E, within_refl in Hap).
  assert (Hch : ∀ x, locate dir ≠ child (locate tmp) x).
  { intros x E. pose proof (within_child (locate tmp) x) as Hc. rewrite <- E in Hc. congruence. }
  unfold publish. erewrite gen_step by (unfold or_fail; by rewrite Mkdir_calm).
  set (w1 := mkWorld _ _ _).
  assert (Hout1 : ∀ k, k ≠ locate dir → nodes w1 !! k = nodes w !! k).
  { intros k Hk. cbn. by rewrite lookup_insert_ne by congruence. }
  destruct (rename_loop_calm tmp dir devSecretFiles w1) as [w2 Hl]; try done.
  - apply devSecretFiles_simple.
  - apply devSecretFiles_NoDup.
  - intros name Hin. apply (inventory_names d) in Hin as [c Hc].
    destruct (holds_node _ _ _ _ _ Hh Hc) as [ino Hn]. eexists. rewrite Hout1 by (by apply not_eq_sym, Hch).
    by split.
  - intros name _. rewrite Hout1 by apply child_not_self.
    apply (none_within w (locate dir)); [done..|apply within_child].
  - unfold dir_at. cbn [nodes w1]. rewrite lookup_insert_eq. destruct calm_perm as [-> _]. done.
  - erewrite gen_step by exact Hl.
    apply rename_loop_ok in Hl as [Hin Hout]; [|done..|apply devSecretFiles_simple|apply devSecretFiles_NoDup].
    pose proof Hh as [[ino Hdir] _].
    assert (Htk : nodes w2 !! locate tmp = Some (mkNode (Z.lor ModeDir 448) ino "")).
    { rewrite Hout, Hout1; [done|done|]. intros x _. split; [by apply not_eq_sym, child_not_self|].
      intros E. assert (Hc : within (locate dir) (locate tmp) = true) by (rewrite E; apply within_child).
      rewrite (none_within w (locate dir)) in Hdir; done. }
    assert (Hempty : entries (locate tmp) (ticked w2) = []).
    { destruct (entries _ _) as [|k l] eqn:He; [done|]. exfalso.
      assert (Hk : k ∈ entries (locate tmp) (ticked w2)) by (rewrite He; by left).
      apply elem_of_entries in Hk as (Hpk & Hkn & Hs). cbn [nodes ticked] in Hs.
      assert (Hname : ∃ name, k = child (locate tmp) name).
      { rewrite <- Hpk. destruct k as [b [|name s]]; [by destruct Hkn|]. by exists name. }
      destruct Hname as [name ->]. destruct (decide (name ∈ devSecretFiles)) as [Hi|Hi].
      - destruct (Hin name Hi) as (_ & _ & _ & _ & Hnone). rewrite Hnone in Hs. by destruct Hs.
      - rewrite Hout, Hout1 in Hs; [by apply Hnames in Hs|by apply not_eq_sym, Hch|].
        intros x Hx. split; [by intros [_ ->]%child_inj|by intros [? _]%child_inj]. }
    eexists. unfold or_fail, Remove. rewrite calm_syscall. cbn [nodes ticked]. rewrite Htk.
    rewrite Hempty. cbn [length Nat.eqb negb]. by rewrite andb_false_r.
Qed.

(** * A whole run *)

(** Where a directory of secrets can be generated: nothing has its name, the
    directory around it is there, and no temporary name is taken. *)
Record available (directory : string) (w : world) : Prop := {
  av_name : directory ≠ "" ∧ nodes w !! locate directory = None;
  av_parent : dir_at (parent (locate directory)) w = true;
  av_Dir : ∃ n, nodes w !! locate (Dir directory) = Some n ∧ is_dir n = true ∧
    has_mode (n_mode n) ModeSymlink = false;
  av_tmp : ∀ z, let tmp := child (locate (Dir directory)) (".nexusrelay-dev-secrets-" +:+ itoa z) in
    nodes w !! tmp = None ∧ tmp ≠ locate directory
}.

Lemma mkdirTemp_calm tries directory w : available directory w →
  ∃ tmp w1, mkdirTemp tries (Dir directory) ".nexusrelay-dev-secrets-" w = (inl tmp, w1) ∧
    locate tmp ≠ locate directory ∧ tick w1 = S (tick w).
Proof.
  intros [_ _ (n & Hn & Hd & _) Htmp]. pose proof (Htmp (random_suffix (tick w))) as [Hnone Hne].
  set (name := ".nexusrelay-dev-secrets-" +:+ itoa (random_suffix (tick w))) in *.
  assert (Hs : simple name = true) by apply temporary_simple.
  eassert (Hm : Mkdir (joinPath (Dir directory) name) 448 w = (inl tt, _)).
  { apply Mkdir_calm; rewrite locate_joinPath by (done || apply Dir_nonempty); [done|].
    rewrite parent_child. unfold dir_at. by rewrite Hn. }
  eexists _, _. split.
  - destruct tries; cbn [mkdirTemp]; rewrite joinPath_app; fold name; by rewrite Hm.
  - split; [|done]. by rewrite locate_joinPath by (done || apply Dir_nonempty).
Qed.

Lemma fill_and_publish_calm tmp directory w w1 :
  fs_ok w → available directory w → fresh_temporary directory tmp w w1 →
  locate tmp ≠ locate directory → (first ≤ tick w1 < first + 40)%nat →
  ∃ w', fill_and_publish tmp directory w1 = (Ok tt, w').
Proof.
  intros Hw Hav Hf Hne Htick. pose proof Hf as [[Hd Hdn] [Ht Htn] [Hp Hdir] Hn1].
  pose proof (temporary_apart directory tmp w Hdn Htn Hp Hdir Hne) as Hap.
  pose proof (fresh_frame _ _ _ _ Hf) as [_ Hw1]. specialize (Hw1 Hw).
  set (w2 := (Chmod tmp 448 w1).2).
  assert (Hchmod : Chmod tmp 448 w1 = (inl tt, w2) ∧ holds (locate tmp) ∅ w2).
  { unfold w2, Chmod. rewrite calm_syscall. cbn [nodes ticked]. rewrite Hn1, lookup_insert_eq.
    split; [done|]. destruct calm_perm as [-> _]. split.
    - eexists. cbn [set_nodes nodes snd]. by rewrite lookup_insert_eq.
    - intros name. cbn [set_nodes nodes snd ticked].
      rewrite !lookup_insert_ne by (apply not_eq_sym, child_not_self).
      by rewrite (none_within w (locate tmp)) by (done || apply within_child). }
  destruct Hchmod as [Hchmod Hh].
  assert (Ht2 : tick w2 = S (tick w1)).
  { unfold w2, Chmod. rewrite calm_syscall. cbn [nodes ticked]. by rewrite Hn1, lookup_insert_eq. }
  destruct (write_inventory_calm tmp w2 Ht Hh) as (d & w3 & Hinv & Hdraws & Hh3); [lia|].
  assert (Hc : covers (λ k, within (locate tmp) k = true) tmp) by done.
  pose proof (chmod_fill_keeps _ tmp Hc w1) as Hk.
  rewrite (gen_step _ _ _ tt w2) in Hk by (unfold or_fail; by rewrite Hchmod).
  rewrite Hinv in Hk. cbn [snd] in Hk. destruct Hk as [Hk Hok]. specialize (Hok Hw1).
  assert (Hsame : ∀ k, within (locate tmp) k = false → nodes w3 !! k = nodes w !! k).
  { intros k Hkt. rewrite Hk, Hn1, lookup_insert_ne; [done| |by rewrite Hkt].
    intros <-. by rewrite within_refl in Hkt. }
  assert (Hpar : dir_at (parent (locate directory)) w3 = true).
  { pose proof (av_parent _ _ Hav) as Hpd. unfold dir_at. rewrite Hsame; [exact Hpd|].
    destruct (within (locate tmp) (parent (locate directory))) eqn:E; [|done]. apply dir_at_some in Hpd as (n & Hn & _).
    by rewrite (none_within w (locate tmp)) in Hn. }
  destruct (publish_calm tmp directory d (ticked w3)) as [w' Hpub]; try done.
  - by rewrite <- Hdn, <- Hsame.
  - exists w'. unfold fill_and_publish.
    erewrite gen_step by (unfold or_fail; by rewrite Hchmod).
    erewrite gen_step by exact Hinv.
    rewrite (gen_step _ _ _ tt (ticked w3)); [exact Hpub|].
    unfold validated, reading. by rewrite (validate_calm tmp d).
Qed.

Lemma generate_calm directory w :
  fs_ok w → available directory w → tick w = first →
  ∃ w', GenerateDevSecrets directory w = (Ok tt, w').
Proof.
  intros Hw Hav Hfirst. pose proof Hav as [[Hd Hdn] Hpar (n & Hn & Hnd & Hns) _].
  unfold GenerateDevSecrets. rewrite (proj2 (String.eqb_neq _ _) Hd).
  assert (lstat_exists directory w = (inl false, ticked w)) as ->.
  { unfold lstat_exists. rewrite calm_syscall. cbn [nodes ticked]. rewrite Hdn.
    by rewrite unobstructed. }
  assert (Hread : reading (λ os, parent_available os (Dir directory)) (ticked w) =
    (Ok tt, ticked (ticked w))).
  { unfold reading, parent_available.
    destruct (view_calm (ticked w) (Dir directory) n Hn Hns) as (_ & _ & ->).
    unfold IsDir. cbn [info_of fi_mode]. fold (is_dir n). by rewrite Hnd. }
  erewrite gen_step by exact Hread.
  assert (Hav2 : available directory (ticked (ticked w))) by by destruct Hav.
  destruct (mkdirTemp_calm retries directory (ticked (ticked w)) Hav2) as (tmp & w1 & Hm & Hne & Ht1).
  pose proof (mkdirTemp_new retries (Dir directory) ".nexusrelay-dev-secrets-" (ticked (ticked w))
    (Dir_nonempty _) temporary_simple) as Hnew.
  rewrite Hm in Hnew. destruct Hnew as (Ht & Htn & Hp & Hdir & Hn1 & _).
  erewrite gen_step by (unfold or_fail, MkdirTemp; by rewrite Hm).
  destruct (fill_and_publish_calm tmp directory w w1) as [w' Hrun]; [done..| |done| |].
  - by split.
  - cbn [tick ticked] in Ht1. lia.
  - exists w'. unfold unless_ok. by rewrite Hrun.
Qed.
End calm.
