(* ===== verification/Policies.v ===== *)
(** The policy parsers of [internal/config/config.go] that read settings only:
    readiness, gateway, worker, password, agent export, HTTP listener, logging
    and the shared deployment identity.  Each parser is the source's sequence
    of reads and cross-field checks, in the source's order. *)
From S2P Require Import Prelude GoStrings Strconv Duration Settings Net Regex.

Local Open Scope string_scope.
Local Open Scope Z_scope.

Record SharedDeployment := { sd_Environment : string; sd_Version : string }.

Record HTTP := {
  http_Address : string;
  http_Port : Z;
  http_ShutdownGrace : Duration
}.

Record DependencyReadiness := {
  dr_StartupTimeout : Duration;
  dr_ProbeTimeout : Duration;
  dr_ProbeInterval : Duration;
  dr_RetryMinimum : Duration;
  dr_RetryMaximum : Duration
}.

Record PasswordPolicy := {
  pp_Argon2MemoryKiB : Z;   (* uint32 *)
  pp_Argon2Iterations : Z;  (* uint32 *)
  pp_Argon2Parallelism : Z  (* uint8 *)
}.

Record GatewayPolicy := {
  gp_RequestBodyMaxBytes : Z;
  gp_UpstreamConnectTimeout : Duration;
  gp_UpstreamFirstByteTimeout : Duration;
  gp_UpstreamIdleTimeout : Duration;
  gp_UpstreamTotalTimeout : Duration;
  gp_MaxUpstreamAttempts : Z
}.

Record WorkerPolicy := {
  wp_RequestRetentionDays : Z;
  wp_AuditRetentionDays : Z;
  wp_HealthObservationRetentionDays : Z;
  wp_ProcessedOutboxRetentionDays : Z;
  wp_AnalyticsTargetLag : Duration;
  wp_StaleRequestReconciliationInterval : Duration;
  wp_Concurrency : Z;
  wp_OutboxLeaseDuration : Duration;
  wp_OutboxRetryBaseDelay : Duration;
  wp_OutboxRetryMaxDelay : Duration;
  wp_HealthProbeInterval : Duration;
  wp_HealthFastWindow : Duration;
  wp_HealthStabilizingWindow : Duration;
  wp_HealthMinSamples : Z;
  wp_HealthPolicyVersion : Z;
  wp_HealthUnavailableEntryThresholdBPS : Z;
  wp_HealthUnavailableExitThresholdBPS : Z;
  wp_HealthConsecutiveFailures : Z;
  wp_HealthConsecutiveSuccesses : Z;
  wp_RetentionBatchSize : Z;
  wp_MaximumRequestDuration : Duration
}.

Record AgentExport := {
  ae_APIKeyEnvironment : string;
  ae_OpenCodeProviderID : string;
  ae_OpenCodeProviderName : string
}.

Record Tailscale := { ts_Enabled : bool }.

(** The part of [Observability] that [parseLogging] fills in. *)
Record Logging := { log_Level : string; log_Format : string }.

Definition parseShared (v : env) : res SharedDeployment :=
  let shared := {|
    sd_Environment := value v "NEXUSRELAY_ENV" "development";
    sd_Version := value v "NEXUSRELAY_VERSION" "dev" |} in
  _ ← validateEnvironment (sd_Environment shared);
  _ ← cleanNonempty "NEXUSRELAY_VERSION" (sd_Version shared);
  mret shared.

Definition parseHTTP (v : env) : res HTTP :=
  let bind := value v "HTTP_BIND_ADDRESS" "0.0.0.0" in
  reject "HTTP_BIND_ADDRESS must be an IP address"
    when bool_decide (ParseIP bind = None) ;;
  port ← integer v "HTTP_PORT" 8080 1 65535;
  grace ← duration v "SHUTDOWN_GRACE_PERIOD" (30 * Second) Second (5 * Minute);
  mret {| http_Address := JoinHostPort bind (itoa port);
          http_Port := port; http_ShutdownGrace := grace |}.

Definition parseDependencyReadiness (v : env) : res DependencyReadiness :=
  startup ← duration v "DEPENDENCY_STARTUP_TIMEOUT" (60 * Second) Second (10 * Minute);
  probe ← duration v "DEPENDENCY_PROBE_TIMEOUT" (3 * Second) (100 * Millisecond) Minute;
  interval ← duration v "DEPENDENCY_PROBE_INTERVAL" (5 * Second) Second Minute;
  minimum ← duration v "DEPENDENCY_RETRY_MIN_DELAY" (100 * Millisecond) (10 * Millisecond) Minute;
  maximum ← duration v "DEPENDENCY_RETRY_MAX_DELAY" (2 * Second) (10 * Millisecond) Minute;
  reject "DEPENDENCY_PROBE_TIMEOUT must be less than DEPENDENCY_STARTUP_TIMEOUT"
    when startup <=? probe ;;
  reject "DEPENDENCY_RETRY_MIN_DELAY must not exceed DEPENDENCY_RETRY_MAX_DELAY"
    when maximum <? minimum ;;
  mret {| dr_StartupTimeout := startup; dr_ProbeTimeout := probe;
          dr_ProbeInterval := interval; dr_RetryMinimum := minimum;
          dr_RetryMaximum := maximum |}.

Definition parsePasswordPolicy (v : env) : res PasswordPolicy :=
  memory ← integer v "PASSWORD_ARGON2_MEMORY_KIB" 65536 8 (4 * 1024 * 1024);
  iterations ← integer v "PASSWORD_ARGON2_ITERATIONS" 3 1 100;
  parallelism ← integer v "PASSWORD_ARGON2_PARALLELISM" 2 1 255;
  reject "PASSWORD_ARGON2_MEMORY_KIB must be at least 8 times PASSWORD_ARGON2_PARALLELISM"
    when memory <? wrap64 (8 * parallelism) ;;
  mret {| pp_Argon2MemoryKiB := uint32 memory;
          pp_Argon2Iterations := uint32 iterations;
          pp_Argon2Parallelism := uint8 parallelism |}.

Definition parseGatewayPolicy (v : env) : res GatewayPolicy :=
  body ← int64Value v "REQUEST_BODY_MAX_BYTES" 10485760 1 (1024 * 1024 * 1024);
  connect ← duration v "UPSTREAM_CONNECT_TIMEOUT" (10 * Second) Millisecond (10 * Minute);
  first ← duration v "UPSTREAM_FIRST_BYTE_TIMEOUT" (60 * Second) Millisecond (30 * Minute);
  idle ← duration v "UPSTREAM_IDLE_TIMEOUT" (60 * Second) Millisecond (30 * Minute);
  total ← duration v "UPSTREAM_TOTAL_TIMEOUT" (10 * Minute) Millisecond (24 * Hour);
  reject "each upstream stage timeout must not exceed UPSTREAM_TOTAL_TIMEOUT"
    when (total <? connect) || (total <? first) || (total <? idle) ;;
  attempts ← integer v "MAX_UPSTREAM_ATTEMPTS" 3 1 20;
  mret {| gp_RequestBodyMaxBytes := body; gp_UpstreamConnectTimeout := connect;
          gp_UpstreamFirstByteTimeout := first; gp_UpstreamIdleTimeout := idle;
          gp_UpstreamTotalTimeout := total; gp_MaxUpstreamAttempts := attempts |}.

Definition parseWorkerPolicy (v : env) : res WorkerPolicy :=
  requestDays ← integer v "REQUEST_RETENTION_DAYS" 90 1 36500;
  auditDays ← integer v "AUDIT_RETENTION_DAYS" 365 1 36500;
  healthDays ← integer v "HEALTH_OBSERVATION_RETENTION_DAYS" 14 1 36500;
  outboxDays ← integer v "PROCESSED_OUTBOX_RETENTION_DAYS" 7 1 36500;
  lag ← duration v "ANALYTICS_TARGET_LAG" (5 * Minute) Second (24 * Hour);
  reconcile ← duration v "STALE_REQUEST_RECONCILIATION_INTERVAL" Minute Second (24 * Hour);
  concurrency ← integer v "WORKER_CONCURRENCY" 4 1 1024;
  lease ← duration v "OUTBOX_LEASE_DURATION" (30 * Second) Second Hour;
  base ← duration v "OUTBOX_RETRY_BASE_DELAY" Second Millisecond Hour;
  max ← duration v "OUTBOX_RETRY_MAX_DELAY" (5 * Minute) Millisecond (24 * Hour);
  reject "OUTBOX_RETRY_BASE_DELAY must not exceed OUTBOX_RETRY_MAX_DELAY"
    when max <? base ;;
  probe ← duration v "HEALTH_PROBE_INTERVAL" Minute Second (24 * Hour);
  fast ← duration v "HEALTH_FAST_WINDOW" (5 * Minute) Second (24 * Hour);
  stable ← duration v "HEALTH_STABILIZING_WINDOW" (30 * Minute) Second (7 * 24 * Hour);
  reject "HEALTH_FAST_WINDOW must not exceed HEALTH_STABILIZING_WINDOW"
    when stable <? fast ;;
  samples ← integer v "HEALTH_MIN_SAMPLES" 20 1 1000000;
  version ← integer v "HEALTH_POLICY_VERSION" 1 1 2147483647;
  entryThreshold ← integer v "HEALTH_UNAVAILABLE_ENTRY_THRESHOLD_BPS" 5000 0 10000;
  exitThreshold ← integer v "HEALTH_UNAVAILABLE_EXIT_THRESHOLD_BPS" 9000 0 10000;
  reject "HEALTH_UNAVAILABLE_ENTRY_THRESHOLD_BPS must be less than HEALTH_UNAVAILABLE_EXIT_THRESHOLD_BPS"
    when exitThreshold <=? entryThreshold ;;
  consecutiveFailures ← integer v "HEALTH_CONSECUTIVE_FAILURES" 3 1 1000;
  consecutiveSuccesses ← integer v "HEALTH_CONSECUTIVE_SUCCESSES" 3 1 1000;
  batch ← integer v "RETENTION_BATCH_SIZE" 1000 1 100000;
  maximumRequestDuration ← duration v "UPSTREAM_TOTAL_TIMEOUT" (10 * Minute) Millisecond (24 * Hour);
  mret {| wp_RequestRetentionDays := requestDays; wp_AuditRetentionDays := auditDays;
          wp_HealthObservationRetentionDays := healthDays;
          wp_ProcessedOutboxRetentionDays := outboxDays;
          wp_AnalyticsTargetLag := lag;
          wp_StaleRequestReconciliationInterval := reconcile;
          wp_Concurrency := concurrency; wp_OutboxLeaseDuration := lease;
          wp_OutboxRetryBaseDelay := base; wp_OutboxRetryMaxDelay := max;
          wp_HealthProbeInterval := probe; wp_HealthFastWindow := fast;
          wp_HealthStabilizingWindow := stable; wp_HealthMinSamples := samples;
          wp_HealthPolicyVersion := version;
          wp_HealthUnavailableEntryThresholdBPS := entryThreshold;
          wp_HealthUnavailableExitThresholdBPS := exitThreshold;
          wp_HealthConsecutiveFailures := consecutiveFailures;
          wp_HealthConsecutiveSuccesses := consecutiveSuccesses;
          wp_RetentionBatchSize := batch;
          wp_MaximumRequestDuration := maximumRequestDuration |}.

(** [^[A-Za-z_][A-Za-z0-9_]*$] and [^[a-z0-9][a-z0-9_-]*$] *)
Definition agentEnvPattern : re :=
  Cat (Cls (either AZ (either az (oneof "_")))) (Star (Cls (either alnum (oneof "_")))).
Definition providerIDPattern : re :=
  Cat (Cls (either az digit09)) (Star (Cls (either az (either digit09 (oneof "_-"))))).

Definition parseAgent (v : env) : res AgentExport :=
  let environment := value v "AGENT_API_KEY_ENV" "NEXUSRELAY_API_KEY" in
  reject "AGENT_API_KEY_ENV must be an environment variable name"
    when negb (MatchString agentEnvPattern environment) ;;
  let id := value v "OPENCODE_PROVIDER_ID" "nexusrelay" in
  reject "OPENCODE_PROVIDER_ID has invalid format"
    when negb (MatchString providerIDPattern id) ;;
  let name := value v "OPENCODE_PROVIDER_NAME" "NexusRelay" in
  _ ← cleanNonempty "OPENCODE_PROVIDER_NAME" name;
  mret {| ae_APIKeyEnvironment := environment; ae_OpenCodeProviderID := id;
          ae_OpenCodeProviderName := name |}.

Definition parseLogging (v : env) : res Logging :=
  let level := value v "LOG_LEVEL" "info" in
  reject "LOG_LEVEL must be debug, info, warn, or error"
    when negb (oneOf level ["debug"; "info"; "warn"; "error"]) ;;
  let format := value v "LOG_FORMAT" "json" in
  reject "LOG_FORMAT must be json or text"
    when negb (oneOf format ["json"; "text"]) ;;
  mret {| log_Level := level; log_Format := format |}.

Definition parseDatabaseSSLMode (v : env) (environment : string) : res string :=
  let sslmode := value v "DATABASE_SSLMODE" "disable" in
  reject "DATABASE_SSLMODE must be disable, require, verify-ca, or verify-full"
    when negb (oneOf sslmode ["disable"; "require"; "verify-ca"; "verify-full"]) ;;
  reject "production DATABASE_SSLMODE must be require, verify-ca, or verify-full"
    when isProductionGrade environment && String.eqb sslmode "disable" ;;
  mret sslmode.

(** Tailscale is refused until its decision record is accepted. *)
Definition parseTailscale (v : env) : res Tailscale :=
  enabled ← boolean v "ENABLE_TAILSCALE_PRIVATE_ADMIN" false;
  if enabled : bool
  then Err "ENABLE_TAILSCALE_PRIVATE_ADMIN=true is unsupported while ADR 0002 is Proposed"
  else mret {| ts_Enabled := false |}.

(** * What an accepted policy guarantees *)

(** Turn every successful read of a numeric setting into its bounds. *)
Ltac read_bounds :=
  repeat match goal with
  | H : duration _ _ _ _ _ = Ok _ |- _ => apply duration_bounds in H
  | H : integer _ _ _ _ _ = Ok _ |- _ => apply integer_bounds in H
  | H : int64Value _ _ _ _ _ = Ok _ |- _ => apply int64Value_bounds in H
  end.

(** Evaluate reads whose setting is absent. *)
Ltac read_defaults :=
  repeat first
    [ rewrite duration_default by (first [eassumption | vm_compute; done | unfold Hour, Minute, Second, Millisecond; lia])
    | rewrite integer_default by (first [eassumption | unfold int64_min, int64_max; lia])
    | rewrite int64Value_default by (first [eassumption | unfold int64_min, int64_max; lia])
    | rewrite boolean_default by eassumption ].

Definition readiness_ok (p : DependencyReadiness) : Prop :=
  Second ≤ dr_StartupTimeout p ≤ 10 * Minute ∧
  100 * Millisecond ≤ dr_ProbeTimeout p ≤ Minute ∧
  Second ≤ dr_ProbeInterval p ≤ Minute ∧
  10 * Millisecond ≤ dr_RetryMinimum p ≤ dr_RetryMaximum p ∧
  dr_RetryMaximum p ≤ Minute ∧
  dr_ProbeTimeout p < dr_StartupTimeout p.

Lemma parseDependencyReadiness_ok v p :
  parseDependencyReadiness v = Ok p → readiness_ok p.
Proof.
  unfold parseDependencyReadiness. intros H. res_inv H. subst p.
  read_bounds. zbool. unfold readiness_ok. simpl. lia.
Qed.

Definition gateway_policy_ok (p : GatewayPolicy) : Prop :=
  1 ≤ gp_RequestBodyMaxBytes p ≤ 1024 * 1024 * 1024 ∧
  Millisecond ≤ gp_UpstreamConnectTimeout p ≤ gp_UpstreamTotalTimeout p ∧
  gp_UpstreamConnectTimeout p ≤ 10 * Minute ∧
  Millisecond ≤ gp_UpstreamFirstByteTimeout p ≤ gp_UpstreamTotalTimeout p ∧
  gp_UpstreamFirstByteTimeout p ≤ 30 * Minute ∧
  Millisecond ≤ gp_UpstreamIdleTimeout p ≤ gp_UpstreamTotalTimeout p ∧
  gp_UpstreamIdleTimeout p ≤ 30 * Minute ∧
  gp_UpstreamTotalTimeout p ≤ 24 * Hour ∧
  1 ≤ gp_MaxUpstreamAttempts p ≤ 20.

Lemma parseGatewayPolicy_ok v p : parseGatewayPolicy v = Ok p → gateway_policy_ok p.
Proof.
  unfold parseGatewayPolicy. intros H. res_inv H. subst p.
  read_bounds. zbool. unfold gateway_policy_ok. simpl. lia.
Qed.

Definition worker_policy_ok (p : WorkerPolicy) : Prop :=
  (1 ≤ wp_RequestRetentionDays p ≤ 36500 ∧ 1 ≤ wp_AuditRetentionDays p ≤ 36500 ∧
   1 ≤ wp_HealthObservationRetentionDays p ≤ 36500 ∧
   1 ≤ wp_ProcessedOutboxRetentionDays p ≤ 36500 ∧
   1 ≤ wp_RetentionBatchSize p ≤ 100000) ∧
  (Second ≤ wp_AnalyticsTargetLag p ≤ 24 * Hour ∧
   Second ≤ wp_StaleRequestReconciliationInterval p ≤ 24 * Hour ∧
   1 ≤ wp_Concurrency p ≤ 1024) ∧
  (Second ≤ wp_OutboxLeaseDuration p ≤ Hour ∧
   Millisecond ≤ wp_OutboxRetryBaseDelay p ≤ wp_OutboxRetryMaxDelay p ∧
   wp_OutboxRetryBaseDelay p ≤ Hour ∧ wp_OutboxRetryMaxDelay p ≤ 24 * Hour) ∧
  (Second ≤ wp_HealthProbeInterval p ≤ 24 * Hour ∧
   Second ≤ wp_HealthFastWindow p ≤ wp_HealthStabilizingWindow p ∧
   wp_HealthFastWindow p ≤ 24 * Hour ∧ wp_HealthStabilizingWindow p ≤ 7 * 24 * Hour ∧
   1 ≤ wp_HealthMinSamples p ≤ 1000000 ∧ 1 ≤ wp_HealthPolicyVersion p ≤ 2147483647) ∧
  (0 ≤ wp_HealthUnavailableEntryThresholdBPS p < wp_HealthUnavailableExitThresholdBPS p ∧
   wp_HealthUnavailableExitThresholdBPS p ≤ 10000 ∧
   1 ≤ wp_HealthConsecutiveFailures p ≤ 1000 ∧ 1 ≤ wp_HealthConsecutiveSuccesses p ≤ 1000) ∧
  Millisecond ≤ wp_MaximumRequestDuration p ≤ 24 * Hour.

Lemma parseWorkerPolicy_ok v p : parseWorkerPolicy v = Ok p → worker_policy_ok p.
Proof.
  unfold parseWorkerPolicy. intros H. res_inv H. subst p.
  read_bounds. zbool. unfold worker_policy_ok. simpl. lia.
Qed.

(** The narrowing conversions [uint32(memory)], [uint8(parallelism)] keep the
    values that were checked. *)
Lemma parsePasswordPolicy_ok v p :
  parsePasswordPolicy v = Ok p →
  ∃ memory iterations parallelism,
    integer v "PASSWORD_ARGON2_MEMORY_KIB" 65536 8 (4 * 1024 * 1024) = Ok memory ∧
    integer v "PASSWORD_ARGON2_ITERATIONS" 3 1 100 = Ok iterations ∧
    integer v "PASSWORD_ARGON2_PARALLELISM" 2 1 255 = Ok parallelism ∧
    p = {| pp_Argon2MemoryKiB := memory; pp_Argon2Iterations := iterations;
           pp_Argon2Parallelism := parallelism |} ∧
    8 * parallelism ≤ memory.
Proof.
  unfold parsePasswordPolicy. intros H. res_inv H.
  rename a into m, a0 into i, a1 into k. exists m, i, k.
  do 3 (split; [assumption|]). read_bounds. zbool.
  rewrite wrap64_id in * by (unfold int64_min, int64_max; lia).
  split; [|lia]. subst p. by rewrite !uint32_id, uint8_id by lia.
Qed.

Lemma parseTailscale_refuses v t : parseTailscale v = Ok t → ts_Enabled t = false.
Proof. unfold parseTailscale. intros H. res_inv H. destruct a; by simplify_eq. Qed.

Lemma parseHTTP_ok v h :
  parseHTTP v = Ok h →
  1 ≤ http_Port h ≤ 65535 ∧ Second ≤ http_ShutdownGrace h ≤ 5 * Minute ∧
  ∃ bind ip, ParseIP bind = Some ip ∧ http_Address h = JoinHostPort bind (itoa (http_Port h)).
Proof.
  unfold parseHTTP. intros H. res_inv H. subst h. read_bounds. simpl.
  split; [done|]. split; [done|].
  apply bool_decide_eq_false in Hg.
  destruct (ParseIP _) as [ip|] eqn:Hip; [|done]. eauto.
Qed.

Lemma parseShared_ok v s :
  parseShared v = Ok s →
  sd_Environment s = value v "NEXUSRELAY_ENV" "development" ∧
  (sd_Environment s = "development" ∨ sd_Environment s = "test" ∨ sd_Environment s = "production").
Proof.
  unfold parseShared. intros H. res_inv H. subst s. simpl in *. destruct a.
  split; [done|]. by apply oneOf_production.
Qed.
