(* ===== verification/Endpoints.v ===== *)
(** The URL, origin and proxy settings of [internal/config/config.go]:
    [absoluteURL], [originURL], [parseOrigins], [parseNamedCIDRs],
    [validateAdminOrigins], the three endpoint parsers, [parseObservability]
    and [validatePublicTunnelHosts]. *)
From S2P Require Import Prelude GoStrings Strconv Duration Settings Net Url Policies.

Local Open Scope string_scope.
Local Open Scope Z_scope.

(** A nil [*url.URL] is [None]. *)
Record Endpoints := {
  PublicAPIBaseURL : option URL;
  AdminBaseURL : option URL;
  PublicAPIHost : string;
  AdminHost : string;
  AdminExposure : string;
  AdminOrigins : list URL;
  TrustedProxies : list IPNet
}.

(** [Endpoints{}] *)
Definition no_endpoints : Endpoints := {|
  PublicAPIBaseURL := None; AdminBaseURL := None; PublicAPIHost := "";
  AdminHost := ""; AdminExposure := ""; AdminOrigins := []; TrustedProxies := [] |}.

Record Observability := {
  obs_LogLevel : string;
  obs_LogFormat : string;
  obs_Metrics : bool;
  obs_OTel : bool;
  obs_OTLPEndpoint : option URL
}.

Definition absoluteURL (name raw : string) : res URL :=
  match url_Parse raw with
  | None => Err (name +:+ " must be an absolute HTTP(S) URL")
  | Some u =>
      reject (name +:+ " must be an absolute HTTP(S) URL")
        when negb (IsAbs u) || String.eqb (Host u) "" ||
             negb (oneOf (Scheme u) ["http"; "https"]) ;;
      mret u
  end.

Definition originURL (name raw : string) : res URL :=
  u ← absoluteURL name raw;
  reject (name +:+ " must be an origin without path, query, fragment, or userinfo")
    when bool_decide (is_Some (User u)) ||
         (negb (String.eqb (Path u) "") && negb (String.eqb (Path u) "/")) ||
         negb (String.eqb (RawQuery u) "") || negb (String.eqb (Fragment u) "") ;;
  mret (set_path_raw u "" (RawPath u)).

(** The loop over the comma-separated parts; [seen] holds the printed form of
    the origins accepted so far. *)
Fixpoint origins_loop (seen : list string) (parts : list string) : res (list URL) :=
  match parts with
  | [] => Ok []
  | part :: rest =>
      reject "ADMIN_ORIGINS must be comma-separated origins without whitespace"
        when negb (String.eqb (trim_space part) part) || String.eqb part "" ;;
      origin ← originURL "ADMIN_ORIGINS" part;
      reject "ADMIN_ORIGINS contains a duplicate origin"
        when mem (URL_String origin) seen ;;
      result ← origins_loop (URL_String origin :: seen) rest;
      mret (origin :: result)
  end.

Definition parseOrigins (raw : string) : res (list URL) :=
  reject "ADMIN_ORIGINS must contain at least one explicit origin"
    when String.eqb raw "" ;;
  origins_loop [] (split "," raw).

Fixpoint cidrs_loop (name : string) (parts : list string) : res (list IPNet) :=
  match parts with
  | [] => Ok []
  | part :: rest =>
      reject (name +:+ " must be comma-separated CIDRs without whitespace")
        when negb (String.eqb (trim_space part) part) || String.eqb part "" ;;
      match ParseCIDR part with
      | None => Err (name +:+ " contains an invalid CIDR")
      | Some network =>
          result ← cidrs_loop name rest;
          mret (network :: result)
      end
  end.

Definition parseNamedCIDRs (name raw : string) : res (list IPNet) :=
  if String.eqb raw "" then Ok [] else cidrs_loop name (split "," raw).

Definition parseCIDRs (raw : string) : res (list IPNet) :=
  parseNamedCIDRs "TRUSTED_PROXY_CIDRS" raw.

(** The loop of [validateAdminOrigins]: [adminAllowed] accumulates, a plain
    HTTP origin in production ends it. *)
Fixpoint admin_origins_loop (admin : URL) (environment : string) (adminAllowed : bool)
    (origins : list URL) : res bool :=
  match origins with
  | [] => Ok adminAllowed
  | origin :: rest =>
      let adminAllowed := adminAllowed || String.eqb (URL_String origin) (URL_String admin) in
      reject "production ADMIN_ORIGINS entries must use https"
        when isProductionGrade environment && negb (String.eqb (Scheme origin) "https") ;;
      admin_origins_loop admin environment adminAllowed rest
  end.

Definition validateAdminOrigins (admin : URL) (origins : list URL) (environment : string)
    : res unit :=
  adminAllowed ← admin_origins_loop admin environment false origins;
  reject "ADMIN_ORIGINS must include ADMIN_BASE_URL" when negb adminAllowed ;;
  mret tt.

Definition public_url_bad (public : URL) : bool :=
  negb (String.eqb (Path public) "/v1") || negb (String.eqb (RawQuery public) "") ||
  negb (String.eqb (Fragment public) "") || bool_decide (is_Some (User public)).

Definition parsePublicAPIURL (v : env) (environment : string) : res URL :=
  public ← absoluteURL "PUBLIC_API_BASE_URL"
             (value v "PUBLIC_API_BASE_URL" "http://localhost:8080/v1");
  reject "PUBLIC_API_BASE_URL must be an absolute HTTP(S) URL ending exactly in /v1"
    when public_url_bad public ;;
  reject "production PUBLIC_API_BASE_URL must use https"
    when isProductionGrade environment && negb (String.eqb (Scheme public) "https") ;;
  mret public.

Definition parseGatewayEndpoints (v : env) (environment : string) : res Endpoints :=
  public ← parsePublicAPIURL v environment;
  proxies ← parseCIDRs (value v "TRUSTED_PROXY_CIDRS" "");
  mret {| PublicAPIBaseURL := Some public; AdminBaseURL := None; PublicAPIHost := "";
          AdminHost := ""; AdminExposure := ""; AdminOrigins := [];
          TrustedProxies := proxies |}.

Definition parseControlPlaneEndpoints (v : env) (environment : string) : res Endpoints :=
  public ← parsePublicAPIURL v environment;
  admin ← originURL "ADMIN_BASE_URL" (value v "ADMIN_BASE_URL" "http://localhost:8080");
  reject "production ADMIN_BASE_URL must use https"
    when isProductionGrade environment && negb (String.eqb (Scheme admin) "https") ;;
  origins ← parseOrigins (value v "ADMIN_ORIGINS" "http://localhost:8080");
  _ ← validateAdminOrigins admin origins environment;
  proxies ← parseCIDRs (value v "TRUSTED_PROXY_CIDRS" "");
  mret {| PublicAPIBaseURL := Some public; AdminBaseURL := Some admin; PublicAPIHost := "";
          AdminHost := ""; AdminExposure := ""; AdminOrigins := origins;
          TrustedProxies := proxies |}.

Section with_tables.
Context {tables : UnicodeTables}.

Definition parseEndpoints (v : env) (environment : string) : res Endpoints :=
  public ← absoluteURL "PUBLIC_API_BASE_URL"
             (value v "PUBLIC_API_BASE_URL" "http://localhost:8080/v1");
  reject "PUBLIC_API_BASE_URL must be an absolute HTTP(S) URL ending exactly in /v1"
    when public_url_bad public ;;
  admin ← originURL "ADMIN_BASE_URL" (value v "ADMIN_BASE_URL" "http://localhost:8080");
  let publicHost := value v "PUBLIC_API_HOST" "localhost" in
  let adminHost := value v "ADMIN_HOST" "localhost" in
  reject "PUBLIC_API_HOST must match PUBLIC_API_BASE_URL hostname"
    when negb (equal_fold (Hostname public) publicHost) ;;
  reject "ADMIN_HOST must match ADMIN_BASE_URL hostname"
    when negb (equal_fold (Hostname admin) adminHost) ;;
  let exposure := value v "ADMIN_EXPOSURE_MODE" "local" in
  reject "ADMIN_EXPOSURE_MODE must be local, private, or public"
    when negb (oneOf exposure ["local"; "private"; "public"]) ;;
  reject "production PUBLIC_API_BASE_URL and ADMIN_BASE_URL must use https"
    when isProductionGrade environment &&
         (negb (String.eqb (Scheme public) "https") || negb (String.eqb (Scheme admin) "https")) ;;
  origins ← parseOrigins (value v "ADMIN_ORIGINS" "http://localhost:8080");
  _ ← validateAdminOrigins admin origins environment;
  proxies ← parseCIDRs (value v "TRUSTED_PROXY_CIDRS" "");
  mret {| PublicAPIBaseURL := Some public; AdminBaseURL := Some admin;
          PublicAPIHost := publicHost; AdminHost := adminHost; AdminExposure := exposure;
          AdminOrigins := origins; TrustedProxies := proxies |}.

Definition validatePublicTunnelHosts (endpoints : Endpoints) : res unit :=
  if negb (equal_fold (PublicAPIHost endpoints) (AdminHost endpoints)) then Ok tt else
  reject "ENABLE_CLOUDFLARE_TUNNEL cannot publish the private ADMIN_HOST"
    when String.eqb (AdminExposure endpoints) "private" ;;
  Err "ENABLE_CLOUDFLARE_TUNNEL requires PUBLIC_API_HOST and ADMIN_HOST to differ".

End with_tables.

Definition parseObservability (v : env) : res Observability :=
  logging ← parseLogging v;
  metrics ← boolean v "METRICS_ENABLED" true;
  otel ← boolean v "OTEL_ENABLED" false;
  let raw := value v "OTEL_EXPORTER_OTLP_ENDPOINT" "" in
  endpoint ←
    (if String.eqb raw "" then mret None
     else
       endpoint ← absoluteURL "OTEL_EXPORTER_OTLP_ENDPOINT" raw;
       reject "OTEL_EXPORTER_OTLP_ENDPOINT must not contain userinfo, query, or fragment"
         when bool_decide (is_Some (User endpoint)) ||
              negb (String.eqb (RawQuery endpoint) "") ||
              negb (String.eqb (Fragment endpoint) "") ;;
       mret (Some endpoint));
  reject "OTEL_EXPORTER_OTLP_ENDPOINT is required when OTEL_ENABLED=true"
    when otel && bool_decide (endpoint = None) ;;
  mret {| obs_LogLevel := log_Level logging; obs_LogFormat := log_Format logging;
          obs_Metrics := metrics; obs_OTel := otel; obs_OTLPEndpoint := endpoint |}.

Definition parseServiceCommon (v : env) : res (SharedDeployment * HTTP * Observability) :=
  shared ← parseShared v;
  http ← parseHTTP v;
  obs ← parseObservability v;
  mret (shared, http, obs).

(** * Lemmas *)

Definition http_scheme (s : string) : Prop := s = "http" ∨ s = "https".

Lemma absoluteURL_ok name raw u :
  absoluteURL name raw = Ok u →
  url_Parse raw = Some u ∧ http_scheme (Scheme u) ∧ Host u ≠ "".
Proof.
  unfold absoluteURL. destruct (url_Parse raw) as [w|]; [|done]. intros H. res_inv H. subst w.
  apply orb_false_iff in Hg as [[_ Hh]%orb_false_iff Hs%negb_false_iff].
  apply oneOf_spec in Hs. apply String.eqb_neq in Hh.
  split; [done|]. split; [|done]. unfold http_scheme. set_solver.
Qed.

(** An origin as RFC 6454 has it: scheme and authority, nothing else. *)
Definition wf_origin (u : URL) : Prop :=
  http_scheme (Scheme u) ∧ Host u ≠ "" ∧ User u = None ∧ Path u = "" ∧
  RawQuery u = "" ∧ Fragment u = "".

Lemma originURL_ok name raw u : originURL name raw = Ok u → wf_origin u.
Proof.
  unfold originURL. intros H. res_inv H. subst u.
  apply absoluteURL_ok in Hr as (_ & Hs & Hh).
  rewrite !orb_false_iff, !negb_false_iff, !String.eqb_eq in Hg.
  destruct Hg as [[[Hu _] Hq] Hf]. apply bool_decide_eq_false in Hu.
  apply eq_None_not_Some in Hu. by unfold wf_origin.
Qed.

Lemma origins_loop_ok seen parts l :
  origins_loop seen parts = Ok l →
  Forall wf_origin l ∧ NoDup (URL_String <$> l) ∧
  (∀ u, u ∈ l → URL_String u ∉ seen) ∧ length l = length parts.
Proof.
  revert seen l. induction parts as [|part parts IH]; intros seen l; cbn [origins_loop].
  - intros [= <-]. repeat split; [constructor|constructor|set_solver].
  - intros H. res_inv H. subst l. rename a into o, a0 into l.
    apply originURL_ok in Hr. apply IH in Hr0 as (Hw & Hn & Hs & Hl).
    assert (URL_String o ∉ seen) as Ho.
    { intros Hin%mem_spec. by rewrite Hin in Hg0. }
    rewrite fmap_cons, NoDup_cons, Forall_cons. simpl. split; [done|]. split; [|split].
    + split; [|done]. intros (u & Hu & Hin)%list_elem_of_fmap.
      apply (Hs u Hin). rewrite <-Hu. by left.
    + intros u [->|Hin]%elem_of_cons; [done|]. specialize (Hs u Hin). set_solver.
    + by rewrite Hl.
Qed.

Lemma parseOrigins_ok raw l :
  parseOrigins raw = Ok l →
  Forall wf_origin l ∧ NoDup (URL_String <$> l) ∧ l ≠ [].
Proof.
  unfold parseOrigins. intros H. res_inv H.
  apply origins_loop_ok in H as (Hw & Hn & _ & Hl).
  destruct (split_cons "," raw) as (x & xs & Hsp). rewrite Hsp in Hl.
  split; [done|]. split; [done|]. by destruct l.
Qed.

Lemma cidrs_loop_ok name parts l :
  cidrs_loop name parts = Ok l → Forall wf_net l ∧ length l = length parts.
Proof.
  revert l. induction parts as [|part parts IH]; intros l; cbn [cidrs_loop].
  - intros [= <-]. done.
  - intros H. res_inv H. destruct (ParseCIDR part) as [n|] eqn:Hn; [|done].
    res_inv H. subst l. apply IH in Hr as [Hw Hl]. apply ParseCIDR_wf in Hn.
    split; [by constructor|simpl; by rewrite Hl].
Qed.

Lemma parseCIDRs_ok raw l : parseCIDRs raw = Ok l → Forall wf_net l.
Proof.
  unfold parseCIDRs, parseNamedCIDRs. destruct (String.eqb raw ""); [by intros [= <-]|].
  intros H%cidrs_loop_ok. apply H.
Qed.

Lemma admin_origins_loop_ok admin e acc origins b :
  admin_origins_loop admin e acc origins = Ok b →
  b = acc || existsb (λ o, String.eqb (URL_String o) (URL_String admin)) origins ∧
  (isProductionGrade e = true → Forall (λ o, Scheme o = "https") origins).
Proof.
  revert acc. induction origins as [|o os IH]; intros acc; cbn [admin_origins_loop existsb].
  - intros [= ->]. by rewrite orb_false_r.
  - intros H. res_inv H. apply IH in H as [-> Hs]. rewrite orb_assoc. split; [done|].
    intros He. rewrite He in Hg. apply negb_false_iff, String.eqb_eq in Hg.
    constructor; [done|by apply Hs].
Qed.

Lemma validateAdminOrigins_ok admin origins e :
  validateAdminOrigins admin origins e = Ok tt →
  (∃ o, o ∈ origins ∧ URL_String o = URL_String admin) ∧
  (isProductionGrade e = true → Forall (λ o, Scheme o = "https") origins).
Proof.
  unfold validateAdminOrigins. intros H. res_inv H.
  apply admin_origins_loop_ok in Hr as [-> Hs]. split; [|done].
  apply negb_false_iff in Hg. simpl in Hg. apply existsb_exists in Hg as (o & Ho & He).
  exists o. split; [by apply list_elem_of_In|by apply String.eqb_eq].
Qed.

(** The public base URL: no credentials, query or fragment, path [/v1]. *)
Definition wf_public (u : URL) : Prop :=
  http_scheme (Scheme u) ∧ Host u ≠ "" ∧ User u = None ∧ Path u = "/v1" ∧
  RawQuery u = "" ∧ Fragment u = "".

Lemma public_url_ok name raw u :
  absoluteURL name raw = Ok u → public_url_bad u = false → wf_public u.
Proof.
  intros (_ & Hs & Hh)%absoluteURL_ok. unfold public_url_bad.
  rewrite !orb_false_iff, !negb_false_iff, !String.eqb_eq. intros [[[Hp Hq] Hf] Hu].
  apply bool_decide_eq_false, eq_None_not_Some in Hu. by unfold wf_public.
Qed.

Lemma https_guard e s :
  isProductionGrade e && negb (String.eqb s "https") = false →
  isProductionGrade e = true → s = "https".
Proof. intros H He. rewrite He in H. by apply negb_false_iff, String.eqb_eq in H. Qed.

Lemma parsePublicAPIURL_ok v e u :
  parsePublicAPIURL v e = Ok u →
  wf_public u ∧ (isProductionGrade e = true → Scheme u = "https").
Proof.
  unfold parsePublicAPIURL. intros H. res_inv H. subst a.
  split; [by eapply public_url_ok|by apply https_guard].
Qed.

(** What all three endpoint parsers promise about the parts they fill in. *)
Definition endpoints_ok (e : string) (ep : Endpoints) : Prop :=
  (∀ u, PublicAPIBaseURL ep = Some u →
     wf_public u ∧ (isProductionGrade e = true → Scheme u = "https")) ∧
  (∀ u, AdminBaseURL ep = Some u →
     wf_origin u ∧ (isProductionGrade e = true → Scheme u = "https") ∧
     ∃ o, o ∈ AdminOrigins ep ∧ URL_String o = URL_String u) ∧
  Forall wf_origin (AdminOrigins ep) ∧ NoDup (URL_String <$> AdminOrigins ep) ∧
  (isProductionGrade e = true → Forall (λ o, Scheme o = "https") (AdminOrigins ep)) ∧
  Forall wf_net (TrustedProxies ep).

Lemma parseGatewayEndpoints_ok v e ep :
  parseGatewayEndpoints v e = Ok ep → endpoints_ok e ep ∧ is_Some (PublicAPIBaseURL ep).
Proof.
  unfold parseGatewayEndpoints. intros H. res_inv H. subst ep.
  apply parsePublicAPIURL_ok in Hr. apply parseCIDRs_ok in Hr0.
  split; [|by eexists]. unfold endpoints_ok. simpl.
  split; [by intros u [= <-]|]. split; [done|].
  split; [constructor|]. split; [apply NoDup_nil_2|]. split; [by constructor|done].
Qed.

Lemma parseControlPlaneEndpoints_ok v e ep :
  parseControlPlaneEndpoints v e = Ok ep →
  endpoints_ok e ep ∧ is_Some (PublicAPIBaseURL ep) ∧ is_Some (AdminBaseURL ep).
Proof.
  unfold parseControlPlaneEndpoints. intros H. res_inv H. subst ep. destruct a2.
  apply parsePublicAPIURL_ok in Hr. apply originURL_ok in Hr0.
  apply parseOrigins_ok in Hr1 as (Hw & Hn & _).
  apply validateAdminOrigins_ok in Hr2 as [Hin Hs]. apply parseCIDRs_ok in Hr3.
  split; [|split; by eexists]. unfold endpoints_ok. simpl.
  split; [by intros u [= <-]|]. split; [|done].
  intros u [= <-]. split; [done|]. split; [by apply https_guard|done].
Qed.

Section with_tables_lemmas.
Context {tables : UnicodeTables}.

Lemma parseEndpoints_ok v e ep :
  parseEndpoints v e = Ok ep →
  endpoints_ok e ep ∧
  ∃ public admin,
    PublicAPIBaseURL ep = Some public ∧ AdminBaseURL ep = Some admin ∧
    equal_fold (Hostname public) (PublicAPIHost ep) = true ∧
    equal_fold (Hostname admin) (AdminHost ep) = true ∧
    AdminExposure ep ∈ ["local"; "private"; "public"].
Proof.
  unfold parseEndpoints. intros H. res_inv H. subst ep. destruct a2.
  pose proof (public_url_ok _ _ _ Hr Hg) as Hp. apply originURL_ok in Hr0.
  apply parseOrigins_ok in Hr1 as (Hw & Hn & _).
  apply validateAdminOrigins_ok in Hr2 as [Hin Hs]. apply parseCIDRs_ok in Hr3.
  apply negb_false_iff in Hg0, Hg1, Hg2. apply oneOf_spec in Hg2.
  assert (isProductionGrade e = true → Scheme a = "https" ∧ Scheme a0 = "https") as Htls.
  { intros He. rewrite He in Hg3. apply orb_false_iff in Hg3 as [H1 H2].
    apply negb_false_iff, String.eqb_eq in H1, H2. done. }
  split; [|by exists a, a0].
  unfold endpoints_ok. simpl. split; [intros u [= <-]; naive_solver|].
  split; [|done]. intros u [= <-]. naive_solver.
Qed.
End with_tables_lemmas.

(** ** What "absolute HTTP(S) URL" still lets through

    [net/url] separates an empty query, [?], from no query, and compares the
    decoded path: both texts below pass although neither ends in [/v1]. *)
Example public_force_query :
  is_ok (parsePublicAPIURL {["PUBLIC_API_BASE_URL" := "http://h/v1?"]} "development") = true.
Proof. vm_compute. reflexivity. Qed.
Example public_escaped_path :
  is_ok (parsePublicAPIURL {["PUBLIC_API_BASE_URL" := "http://h/%76%31"]} "development") = true.
Proof. vm_compute. reflexivity. Qed.
