(* ===== verification/Config.v ===== *)
(** The configuration of each process, [internal/config/config.go]: database,
    Redis and session settings, TLS, the deployment inventory, and the five
    top-level parsers. *)
From S2P Require Import Prelude GoStrings Strconv Duration Settings Net Url Regex Os Secrets Policies Endpoints.

Local Open Scope string_scope.
Local Open Scope Z_scope.

Definition clusterAdminUser : string := "nexusrelay_cluster_admin".
Definition migrationUser : string := "nexusrelay_migration".
Definition gatewayUser : string := "nexusrelay_gateway".
Definition controlPlaneUser : string := "nexusrelay_control_plane".
Definition workerUser : string := "nexusrelay_worker".

(** [net/mail]: the address that [ParseAddress] extracts from a text, if it
    accepts it.  The RFC 5322 reader is a parameter of the development. *)
Class MailParser := { ParseAddress : string → option string }.

Record TLS := {
  tls_Mode : string;
  tls_CertificateFile : string;
  tls_KeyFile : string;
  tls_ACMEEmail : string;
  tls_ACMEDNSProvider : string;
  tls_ACMEDNSAPIToken : Secret
}.

Record Database := {
  db_Host : string;
  db_Port : Z;
  db_Name : string;
  db_User : string;
  db_Password : Secret;
  db_SSLMode : string;
  db_MinConnections : Z;
  db_MaxConnections : Z;
  db_StatementTimeout : Duration;
  db_TransactionTimeout : Duration
}.

Record databaseProcessSettings := {
  userSetting : string;
  passwordSetting : string;
  minSetting : string;
  maxSetting : string;
  ds_user : string;
  defaultMax : Z
}.

Definition gatewayDatabaseSettings : databaseProcessSettings := {|
  userSetting := "DATABASE_GATEWAY_USER"; passwordSetting := "DATABASE_GATEWAY_PASSWORD_FILE";
  minSetting := "DATABASE_MIN_CONNECTIONS_GATEWAY";
  maxSetting := "DATABASE_MAX_CONNECTIONS_GATEWAY";
  ds_user := gatewayUser; defaultMax := 30 |}.

Definition controlPlaneDatabaseSettings : databaseProcessSettings := {|
  userSetting := "DATABASE_CONTROL_PLANE_USER";
  passwordSetting := "DATABASE_CONTROL_PLANE_PASSWORD_FILE";
  minSetting := "DATABASE_MIN_CONNECTIONS_CONTROL_PLANE";
  maxSetting := "DATABASE_MAX_CONNECTIONS_CONTROL_PLANE";
  ds_user := controlPlaneUser; defaultMax := 20 |}.

Definition workerDatabaseSettings : databaseProcessSettings := {|
  userSetting := "DATABASE_WORKER_USER"; passwordSetting := "DATABASE_WORKER_PASSWORD_FILE";
  minSetting := "DATABASE_MIN_CONNECTIONS_WORKER";
  maxSetting := "DATABASE_MAX_CONNECTIONS_WORKER";
  ds_user := workerUser; defaultMax := 10 |}.

Record Redis := { redis_URL : Secret; redis_MaxConnections : Z }.

Record SessionPolicy := {
  sp_CookieName : string;
  sp_IdleTTL : Duration;
  sp_AbsoluteTTL : Duration;
  sp_LastSeenWriteInterval : Duration;
  sp_Secret : Secret;
  sp_CSRFKeys : KeyRing;
  sp_Argon2MemoryKiB : Z;
  sp_Argon2Iterations : Z;
  sp_Argon2Parallelism : Z
}.

Record OptionalIngress := { CloudflareEnabled : bool; TailscaleEnabled : bool }.
Definition no_ingress : OptionalIngress :=
  {| CloudflareEnabled := false; TailscaleEnabled := false |}.

Record Cloudflare := {
  cf_Enabled : bool;
  cf_TunnelID : string;
  cf_CredentialsFile : string
}.

Record DatabaseInventory := {
  di_Name : string;
  di_ClusterAdmin : string;
  di_MigrationUser : string;
  di_GatewayUser : string;
  di_ControlUser : string;
  di_WorkerUser : string;
  di_PasswordFiles : gmap string string;
  di_SSLMode : string
}.

Record Deployment := {
  dep_Shared : SharedDeployment;
  dep_Endpoints : Endpoints;
  dep_HTTP : HTTP;
  dep_HTTPSPort : Z;
  dep_TLS : TLS;
  dep_Database : DatabaseInventory;
  dep_RedisPassword : Secret;
  dep_Cloudflare : Cloudflare;
  dep_Tailscale : Tailscale
}.

Record Gateway := {
  gw_Shared : SharedDeployment;
  gw_Endpoints : Endpoints;
  gw_HTTP : HTTP;
  gw_Database : Database;
  gw_Redis : Redis;
  gw_Readiness : DependencyReadiness;
  gw_Observability : Observability;
  gw_Policy : GatewayPolicy;
  gw_ProviderKeys : ProviderKeyRing;
  gw_APIKeyPeppers : KeyRing;
  gw_Ingress : OptionalIngress
}.

Record ControlPlane := {
  cp_Shared : SharedDeployment;
  cp_Endpoints : Endpoints;
  cp_HTTP : HTTP;
  cp_Database : Database;
  cp_Redis : Redis;
  cp_Readiness : DependencyReadiness;
  cp_Observability : Observability;
  cp_Sessions : SessionPolicy;
  cp_ProviderKeys : ProviderKeyRing;
  cp_APIKeyPeppers : KeyRing;
  cp_AgentExport : AgentExport;
  cp_Ingress : OptionalIngress
}.

Record Worker := {
  wk_Shared : SharedDeployment;
  wk_Endpoints : Endpoints;
  wk_HTTP : HTTP;
  wk_Database : Database;
  wk_Redis : Redis;
  wk_Readiness : DependencyReadiness;
  wk_Observability : Observability;
  wk_Policy : WorkerPolicy;
  wk_ProviderKeys : ProviderKeyRing;
  wk_Ingress : OptionalIngress
}.

Record Bootstrap := {
  bs_Shared : SharedDeployment;
  bs_Database : Database;
  bs_Observability : Observability;
  bs_PasswordPolicy : PasswordPolicy;
  bs_OwnerEmail : string;
  bs_OwnerName : string;
  bs_OrganizationName : string;
  bs_OrganizationSlug : string;
  bs_Password : Secret
}.

(** [^[!#$%&'*+.^_`|~0-9A-Za-z-]+$], [^[a-z0-9](?:[a-z0-9-]{0,61}[a-z0-9])?$]
    and [^[A-Za-z0-9_-]{32,}$] *)
Definition cookieNamePattern : re := plus (Cls (either (oneof "!#$%&'*+.^_`|~-") alnum)).
Definition slug_end : ascii → bool := either az digit09.
Definition slugPattern : re :=
  Cat (Cls slug_end)
    (opt (Cat (upto 61 (Cls (either slug_end (oneof "-")))) (Cls slug_end))).
Definition redisPasswordPattern : re := atleast 32 (Cls (either alnum (oneof "_-"))).

(** The copy that [Inventory] hands out, built entry by entry; the consumers are
    appended to a nil slice. *)
Definition copy_class (class : SettingClass) : SettingClass :=
  {| class_Secret := class_Secret class; class_Consumers := ([] ++ class_Consumers class)%list |}.
Definition Inventory {order : MapOrder} : gmap string SettingClass :=
  fold_left (λ copy '(name, class), <[name := copy_class class]> copy) (map_range inventory) ∅.

Definition defaultPasswordPath (setting : string) : string :=
  if String.eqb setting "DATABASE_GATEWAY_PASSWORD_FILE"
  then "/run/secrets/postgres_gateway_password"
  else if String.eqb setting "DATABASE_CONTROL_PLANE_PASSWORD_FILE"
  then "/run/secrets/postgres_control_plane_password"
  else if String.eqb setting "DATABASE_WORKER_PASSWORD_FILE"
  then "/run/secrets/postgres_worker_password"
  else "".

Section parsers.
Context {os : OS} {tables : UnicodeTables} {mail : MailParser} {order : MapOrder}.

Definition readableRegular (name path : string) : res unit :=
  reject (name +:+ " is required") when (String.eqb path "") ;;
  match Stat path with
  | None => Err (name +:+ " must name a readable regular file")
  | Some info =>
      reject (name +:+ " must name a readable regular file")
        when (negb (IsRegular (fi_mode info))) ;;
      match Open (Clean path) with
      | None => Err (name +:+ " must name a readable regular file")
      | Some _ => Ok tt
      end
  end.

Definition parseDatabase (v : env) (settings : databaseProcessSettings) : res Database :=
  let databaseName := value v "DATABASE_NAME" "nexusrelay" in
  _ ← cleanNonempty "DATABASE_NAME" databaseName;
  let host := value v "DATABASE_HOST" "postgres" in
  _ ← cleanNonempty "DATABASE_HOST" host;
  port ← integer v "DATABASE_PORT" 5432 1 65535;
  sslmode ← parseDatabaseSSLMode v (value v "NEXUSRELAY_ENV" "development");
  statement ← duration v "DATABASE_STATEMENT_TIMEOUT" (30 * Second) Millisecond (30 * Minute);
  transaction ← duration v "DATABASE_TRANSACTION_TIMEOUT" (30 * Second) Millisecond (30 * Minute);
  reject (userSetting settings +:+ " must equal " +:+ ds_user settings)
    when (negb (String.eqb (value v (userSetting settings) (ds_user settings))
                  (ds_user settings))) ;;
  min ← integer v (minSetting settings) 2 0 10000;
  max ← integer v (maxSetting settings) (defaultMax settings) 1 10000;
  reject (minSetting settings +:+ " must not exceed " +:+ maxSetting settings)
    when (max <? min) ;;
  password ← ReadSimpleSecret (passwordSetting settings)
    (requiredPath v (passwordSetting settings) (defaultPasswordPath (passwordSetting settings)))
    (4 * 1024);
  mret {| db_Host := host; db_Port := port; db_Name := databaseName;
          db_User := ds_user settings; db_Password := password; db_SSLMode := sslmode;
          db_MinConnections := min; db_MaxConnections := max;
          db_StatementTimeout := statement; db_TransactionTimeout := transaction |}.

Definition parseRedis (v : env) (maxSetting : string) (defaultMax : Z) : res Redis :=
  '(secret, parsed) ← ReadURISecret "REDIS_URL_FILE"
    (requiredPath v "REDIS_URL_FILE" "/run/secrets/redis_url") (4 * 1024) ["redis"; "rediss"];
  reject "REDIS_URL_FILE must contain an absolute Redis URI" when (String.eqb (Host parsed) "") ;;
  max ← integer v maxSetting defaultMax 1 10000;
  mret {| redis_URL := secret; redis_MaxConnections := max |}.

Definition parseSessionPolicy (v : env) : res SessionPolicy :=
  idle ← duration v "SESSION_IDLE_TTL" (12 * Hour) Minute (30 * 24 * Hour);
  abs ← duration v "SESSION_ABSOLUTE_TTL" (168 * Hour) Minute (365 * 24 * Hour);
  interval ← duration v "SESSION_LAST_SEEN_WRITE_INTERVAL" (5 * Minute) Second idle;
  reject "SESSION_IDLE_TTL must not exceed SESSION_ABSOLUTE_TTL" when (abs <? idle) ;;
  let cookie := value v "SESSION_COOKIE_NAME" "nexusrelay_session" in
  reject "SESSION_COOKIE_NAME is not a valid cookie name"
    when (negb (MatchString cookieNamePattern cookie)) ;;
  passwordPolicy ← parsePasswordPolicy v;
  secret ← ReadBase64Key "SESSION_SECRET_FILE"
    (requiredPath v "SESSION_SECRET_FILE" "/run/secrets/session_secret") (4 * 1024);
  csrf ← ReadKeyRing "CSRF_SECRET_RING_FILE"
    (requiredPath v "CSRF_SECRET_RING_FILE" "/run/secrets/csrf_secret_ring");
  mret {| sp_CookieName := cookie; sp_IdleTTL := idle; sp_AbsoluteTTL := abs;
          sp_LastSeenWriteInterval := interval; sp_Secret := secret; sp_CSRFKeys := csrf;
          sp_Argon2MemoryKiB := pp_Argon2MemoryKiB passwordPolicy;
          sp_Argon2Iterations := pp_Argon2Iterations passwordPolicy;
          sp_Argon2Parallelism := pp_Argon2Parallelism passwordPolicy |}.

Definition ParseGateway (v : env) : res Gateway :=
  _ ← preflight v ProcessGateway;
  '(shared, http, obs) ← parseServiceCommon v;
  endpoints ← parseGatewayEndpoints v (sd_Environment shared);
  db ← parseDatabase v gatewayDatabaseSettings;
  redis ← parseRedis v "REDIS_MAX_CONNECTIONS_GATEWAY" 50;
  readiness ← parseDependencyReadiness v;
  provider ← ReadProviderKeyRing
    (requiredPath v "MASTER_KEYRING_FILE" "/run/secrets/provider_master_keyring");
  peppers ← ReadKeyRing "API_KEY_PEPPER_RING_FILE"
    (requiredPath v "API_KEY_PEPPER_RING_FILE" "/run/secrets/api_key_pepper_ring");
  policy ← parseGatewayPolicy v;
  mret {| gw_Shared := shared; gw_Endpoints := endpoints; gw_HTTP := http; gw_Database := db;
          gw_Redis := redis; gw_Readiness := readiness; gw_Observability := obs;
          gw_Policy := policy; gw_ProviderKeys := provider; gw_APIKeyPeppers := peppers;
          gw_Ingress := no_ingress |}.

Definition ParseControlPlane (v : env) : res ControlPlane :=
  _ ← preflight v ProcessControlPlane;
  '(shared, http, obs) ← parseServiceCommon v;
  endpoints ← parseControlPlaneEndpoints v (sd_Environment shared);
  db ← parseDatabase v controlPlaneDatabaseSettings;
  redis ← parseRedis v "REDIS_MAX_CONNECTIONS_CONTROL_PLANE" 20;
  readiness ← parseDependencyReadiness v;
  provider ← ReadProviderKeyRing
    (requiredPath v "MASTER_KEYRING_FILE" "/run/secrets/provider_master_keyring");
  peppers ← ReadKeyRing "API_KEY_PEPPER_RING_FILE"
    (requiredPath v "API_KEY_PEPPER_RING_FILE" "/run/secrets/api_key_pepper_ring");
  sessions ← parseSessionPolicy v;
  reject "SESSION_COOKIE_NAME must use the __Host- prefix in production"
    when (isProductionGrade (sd_Environment shared) &&
          negb (has_prefix (sp_CookieName sessions) "__Host-")) ;;
  agent ← parseAgent v;
  mret {| cp_Shared := shared; cp_Endpoints := endpoints; cp_HTTP := http; cp_Database := db;
          cp_Redis := redis; cp_Readiness := readiness; cp_Observability := obs;
          cp_Sessions := sessions; cp_ProviderKeys := provider; cp_APIKeyPeppers := peppers;
          cp_AgentExport := agent; cp_Ingress := no_ingress |}.

Definition ParseWorker (v : env) : res Worker :=
  _ ← preflight v ProcessWorker;
  '(shared, http, obs) ← parseServiceCommon v;
  db ← parseDatabase v workerDatabaseSettings;
  redis ← parseRedis v "REDIS_MAX_CONNECTIONS_WORKER" 20;
  readiness ← parseDependencyReadiness v;
  provider ← ReadProviderKeyRing
    (requiredPath v "MASTER_KEYRING_FILE" "/run/secrets/provider_master_keyring");
  policy ← parseWorkerPolicy v;
  mret {| wk_Shared := shared; wk_Endpoints := no_endpoints; wk_HTTP := http; wk_Database := db;
          wk_Redis := redis; wk_Readiness := readiness; wk_Observability := obs;
          wk_Policy := policy; wk_ProviderKeys := provider; wk_Ingress := no_ingress |}.

Definition ParseBootstrap (v : env) : res Bootstrap :=
  _ ← preflight v ProcessBootstrap;
  shared ← parseShared v;
  logging ← parseLogging v;
  db ← parseDatabase v controlPlaneDatabaseSettings;
  passwordPolicy ← parsePasswordPolicy v;
  email ← requiredText v "BOOTSTRAP_OWNER_EMAIL";
  reject "BOOTSTRAP_OWNER_EMAIL must be one valid email address"
    when (negb (bool_decide (ParseAddress email = Some email))) ;;
  name ← requiredText v "BOOTSTRAP_OWNER_NAME";
  org ← requiredText v "BOOTSTRAP_ORGANIZATION_NAME";
  slug ← requiredText v "BOOTSTRAP_ORGANIZATION_SLUG";
  reject "BOOTSTRAP_ORGANIZATION_SLUG has invalid format"
    when (negb (MatchString slugPattern slug)) ;;
  password ← ReadSimpleSecret "BOOTSTRAP_PASSWORD_FILE"
    (requiredPath v "BOOTSTRAP_PASSWORD_FILE" "/run/secrets/bootstrap_password") (4 * 1024);
  mret {| bs_Shared := shared; bs_Database := db;
          bs_Observability := {| obs_LogLevel := log_Level logging;
                                 obs_LogFormat := log_Format logging; obs_Metrics := false;
                                 obs_OTel := false; obs_OTLPEndpoint := None |};
          bs_PasswordPolicy := passwordPolicy; bs_OwnerEmail := email; bs_OwnerName := name;
          bs_OrganizationName := org; bs_OrganizationSlug := slug; bs_Password := password |}.

(** ** The deployment inventory *)

(** A pointer dereference: the endpoints of a deployment are never nil. *)
Definition scheme_of (u : option URL) : string :=
  match u with Some u => Scheme u | None => "" end.

Definition parseTLS (v : env) (environment : string) (endpoints : Endpoints) : res TLS :=
  let mode := value v "TLS_MODE" "disabled" in
  let certificateFile := value v "TLS_CERT_FILE" "" in
  let keyFile := value v "TLS_KEY_FILE" "" in
  let acmeEmail := value v "ACME_EMAIL" "" in
  let acmeDNSProvider := value v "ACME_DNS_PROVIDER" "" in
  reject "TLS_MODE must be disabled, files, or acme"
    when (negb (oneOf mode ["disabled"; "files"; "acme"])) ;;
  _ ← (if String.eqb mode "files" then
         _ ← readableRegular "TLS_CERT_FILE" certificateFile;
         validateProtectedFile "TLS_KEY_FILE" keyFile
       else Ok tt);
  token ← (if String.eqb mode "acme" then
             reject "ACME_EMAIL must be a valid email address in acme mode"
               when (negb (bool_decide (is_Some (ParseAddress acmeEmail)))) ;;
             _ ← cleanNonempty "ACME_DNS_PROVIDER" acmeDNSProvider;
             ReadSimpleSecret "ACME_DNS_API_TOKEN_FILE"
               (requiredPath v "ACME_DNS_API_TOKEN_FILE" "/run/secrets/acme_dns_api_token")
               (8 * 1024)
           else Ok (mkSecret ""));
  reject "production endpoints require https"
    when (isProductionGrade environment &&
          (negb (String.eqb (scheme_of (PublicAPIBaseURL endpoints)) "https") ||
           negb (String.eqb (scheme_of (AdminBaseURL endpoints)) "https"))) ;;
  mret {| tls_Mode := mode; tls_CertificateFile := certificateFile; tls_KeyFile := keyFile;
          tls_ACMEEmail := acmeEmail; tls_ACMEDNSProvider := acmeDNSProvider;
          tls_ACMEDNSAPIToken := token |}.

Definition fixed_users : gmap string string := list_to_map [
  ("POSTGRES_USER", clusterAdminUser); ("DATABASE_MIGRATION_USER", migrationUser);
  ("DATABASE_GATEWAY_USER", gatewayUser); ("DATABASE_CONTROL_PLANE_USER", controlPlaneUser);
  ("DATABASE_WORKER_USER", workerUser)].

Fixpoint fixed_loop (v : env) (fixed : list (string * string)) : res unit :=
  match fixed with
  | [] => Ok tt
  | (name, expected) :: rest =>
      reject (name +:+ " must equal " +:+ expected)
        when (negb (String.eqb (value v name expected) expected)) ;;
      fixed_loop v rest
  end.

Definition password_paths (v : env) : gmap string string := list_to_map [
  ("POSTGRES_PASSWORD_FILE",
     value v "POSTGRES_PASSWORD_FILE" "/run/secrets/postgres_cluster_admin_password");
  ("DATABASE_MIGRATION_PASSWORD_FILE",
     value v "DATABASE_MIGRATION_PASSWORD_FILE" "/run/secrets/postgres_migration_password");
  ("DATABASE_GATEWAY_PASSWORD_FILE",
     value v "DATABASE_GATEWAY_PASSWORD_FILE" "/run/secrets/postgres_gateway_password");
  ("DATABASE_CONTROL_PLANE_PASSWORD_FILE",
     value v "DATABASE_CONTROL_PLANE_PASSWORD_FILE"
       "/run/secrets/postgres_control_plane_password");
  ("DATABASE_WORKER_PASSWORD_FILE",
     value v "DATABASE_WORKER_PASSWORD_FILE" "/run/secrets/postgres_worker_password")].

(** The loop over [paths], with its two maps [seen] and [seenValues]. *)
Fixpoint paths_loop (seen seenValues : gmap string string) (paths : list (string * string))
    : res unit :=
  match paths with
  | [] => Ok tt
  | (name, path) :: rest =>
      reject (name +:+ " must name a secret file") when (String.eqb path "") ;;
      let cleaned := Clean path in
      match seen !! cleaned with
      | Some previous => Err (previous +:+ " and " +:+ name +:+ " must name distinct files")
      | None =>
          secret ← ReadSimpleSecret name path (4 * 1024);
          match seenValues !! Reveal secret with
          | Some previous =>
              Err (previous +:+ " and " +:+ name +:+ " must contain distinct passwords")
          | None => paths_loop (<[cleaned := name]> seen) (<[Reveal secret := name]> seenValues) rest
          end
      end
  end.

Definition parseDatabaseInventory (v : env) (environment : string) : res DatabaseInventory :=
  let postgresDB := value v "POSTGRES_DB" "nexusrelay" in
  reject "POSTGRES_DB must equal DATABASE_NAME"
    when (negb (String.eqb postgresDB (value v "DATABASE_NAME" "nexusrelay"))) ;;
  _ ← fixed_loop v (map_range fixed_users);
  let paths := password_paths v in
  _ ← paths_loop ∅ ∅ (map_range paths);
  sslmode ← parseDatabaseSSLMode v environment;
  mret {| di_Name := postgresDB; di_ClusterAdmin := clusterAdminUser;
          di_MigrationUser := migrationUser; di_GatewayUser := gatewayUser;
          di_ControlUser := controlPlaneUser; di_WorkerUser := workerUser;
          di_PasswordFiles := paths; di_SSLMode := sslmode |}.

Definition parseCloudflare (v : env) (endpoints : Endpoints) (tls : TLS) : res Cloudflare :=
  enabled ← boolean v "ENABLE_CLOUDFLARE_TUNNEL" false;
  let config := {| cf_Enabled := enabled; cf_TunnelID := value v "CLOUDFLARE_TUNNEL_ID" "";
    cf_CredentialsFile := value v "CLOUDFLARE_TUNNEL_CREDENTIALS_FILE"
                            "/run/secrets/cloudflare_tunnel_credentials.json" |} in
  if negb enabled then mret config else
  reject "ENABLE_CLOUDFLARE_TUNNEL requires PUBLIC_API_BASE_URL to use https"
    when (negb (String.eqb (scheme_of (PublicAPIBaseURL endpoints)) "https")) ;;
  reject "ENABLE_CLOUDFLARE_TUNNEL requires TLS_MODE=acme and ACME_DNS_PROVIDER=cloudflare"
    when (negb (String.eqb (tls_Mode tls) "acme") ||
          negb (String.eqb (tls_ACMEDNSProvider tls) "cloudflare")) ;;
  _ ← validatePublicTunnelHosts endpoints;
  _ ← cleanNonempty "CLOUDFLARE_TUNNEL_ID" (cf_TunnelID config);
  credentials ← ReadCloudflareCredentials (cf_CredentialsFile config);
  reject "CLOUDFLARE_TUNNEL_CREDENTIALS_FILE must match CLOUDFLARE_TUNNEL_ID"
    when (negb (String.eqb (cred_TunnelID credentials) (cf_TunnelID config))) ;;
  mret config.

Definition parseRedisDeployment (v : env) : res Secret :=
  password ← ReadSimpleSecret "REDIS_PASSWORD_FILE"
    (requiredPath v "REDIS_PASSWORD_FILE" "/run/secrets/redis_password") (4 * 1024);
  reject "REDIS_PASSWORD_FILE must contain at least 32 base64url characters"
    when (negb (MatchString redisPasswordPattern (Reveal password))) ;;
  '(_, redisURL) ← ReadURISecret "REDIS_URL_FILE"
    (requiredPath v "REDIS_URL_FILE" "/run/secrets/redis_url") (4 * 1024) ["redis"; "rediss"];
  match User redisURL with
  | None => Err "REDIS_URL_FILE must contain Redis authentication credentials"
  | Some user =>
      reject "REDIS_URL_FILE username must be empty or default"
        when (negb (String.eqb (ui_username user) "") &&
              negb (String.eqb (ui_username user) "default")) ;;
      reject "REDIS_PASSWORD_FILE must match the password in REDIS_URL_FILE"
        when (negb (ui_passwordSet user) ||
              negb (String.eqb (ui_password user) (Reveal password))) ;;
      mret password
  end.

Definition ParseDeployment (v : env) : res Deployment :=
  _ ← preflight v ProcessDeployment;
  shared ← parseShared v;
  endpoints ← parseEndpoints v (sd_Environment shared);
  http ← parseHTTP v;
  httpsPort ← integer v "HTTPS_PORT" 8443 1 65535;
  tls ← parseTLS v (sd_Environment shared) endpoints;
  database ← parseDatabaseInventory v (sd_Environment shared);
  redisPassword ← parseRedisDeployment v;
  cloudflare ← parseCloudflare v endpoints tls;
  tailscale ← parseTailscale v;
  mret {| dep_Shared := shared; dep_Endpoints := endpoints; dep_HTTP := http;
          dep_HTTPSPort := httpsPort; dep_TLS := tls; dep_Database := database;
          dep_RedisPassword := redisPassword; dep_Cloudflare := cloudflare;
          dep_Tailscale := tailscale |}.

(** ** The process environment *)

(** The body of the loop of [environment] on one [NAME=VALUE] entry. *)
Definition add_entry (values : env) (entry : string) : env :=
  match cut "=" entry with
  | Some (name, value) => <[name := value]> values
  | None => values
  end.

Definition environment : env := foldl add_entry ∅ Environ.

Definition LoadGateway : res Gateway := ParseGateway environment.
Definition LoadControlPlane : res ControlPlane := ParseControlPlane environment.
Definition LoadWorker : res Worker := ParseWorker environment.
Definition LoadBootstrap : res Bootstrap := ParseBootstrap environment.
Definition LoadDeployment : res Deployment := ParseDeployment environment.

End parsers.

(** * The order of Go maps does not matter

    [parseDatabaseInventory] ranges over two maps.  Which error it reports may
    depend on the order; whether it succeeds, and with what, does not. *)

Section order.
Context {os : OS}.

Lemma fixed_loop_iff v l :
  fixed_loop v l = Ok tt ↔ Forall (λ e, value v e.1 e.2 = e.2) l.
Proof.
  induction l as [|[name expected] l IH]; cbn [fixed_loop]; [by rewrite Forall_nil|].
  by rewrite reject_ok, negb_false_iff, String.eqb_eq, Forall_cons, IH.
Qed.

(** The password a file of the inventory holds. *)
Definition password_of (e : string * string) : res Secret := ReadSimpleSecret e.1 e.2 (4 * 1024).
Definition password_text (e : string * string) : string :=
  match password_of e with Ok s => Reveal s | Err _ => "" end.

Lemma paths_loop_cons seen sv name path l :
  paths_loop seen sv ((name, path) :: l) = Ok tt ↔
  (path ≠ "" ∧ is_ok (password_of (name, path)) = true) ∧
  seen !! Clean path = None ∧ sv !! password_text (name, path) = None ∧
  paths_loop (<[Clean path := name]> seen) (<[password_text (name, path) := name]> sv) l = Ok tt.
Proof.
  cbn [paths_loop]. rewrite reject_ok, String.eqb_neq.
  unfold password_text, password_of. cbn [fst snd].
  destruct (seen !! Clean path) as [prev|]; [naive_solver|].
  rewrite bind_ok. destruct (ReadSimpleSecret name path (4 * 1024)) as [s|e]; [|naive_solver].
  cbn [is_ok]. destruct (sv !! Reveal s) as [prev|] eqn:Hv.
  - split; [|by intros (_ & _ & ? & _)]. intros (_ & s' & Hs & H).
    injection Hs as <-. rewrite Hv in H. discriminate H.
  - split.
    + intros (Hne & s' & Hs & H). injection Hs as <-. by rewrite Hv in H.
    + intros ((Hne & _) & _ & _ & H). split; [done|]. exists s. by rewrite Hv.
Qed.

Lemma insert_none_iff (l : list string) (m : gmap string string) k x :
  (∀ p, p ∈ l → (<[k := x]> m) !! p = None) ↔ (k ∉ l) ∧ ∀ p, p ∈ l → m !! p = None.
Proof. setoid_rewrite lookup_insert_None. naive_solver. Qed.

Lemma cons_none_iff (l : list string) (m : gmap string string) k :
  (∀ p, p ∈ k :: l → m !! p = None) ↔ m !! k = None ∧ ∀ p, p ∈ l → m !! p = None.
Proof. setoid_rewrite elem_of_cons. naive_solver. Qed.

Lemma paths_loop_iff l : ∀ seen sv,
  paths_loop seen sv l = Ok tt ↔
  Forall (λ e, e.2 ≠ "" ∧ is_ok (password_of e) = true) l ∧
  NoDup ((λ e, Clean e.2) <$> l) ∧ (∀ p, p ∈ (λ e, Clean e.2) <$> l → seen !! p = None) ∧
  NoDup (password_text <$> l) ∧ (∀ s, s ∈ password_text <$> l → sv !! s = None).
Proof.
  induction l as [|[name path] l IH]; intros seen sv.
  { cbn. split; [intros _|done]. split_and!; try constructor; set_solver. }
  rewrite paths_loop_cons, IH, !fmap_cons, Forall_cons, !NoDup_cons, !cons_none_iff,
    !insert_none_iff. cbn [snd]. tauto.
Qed.

Lemma fixed_loop_perm v l l' : l ≡ₚ l' → fixed_loop v l = Ok tt → fixed_loop v l' = Ok tt.
Proof. intros Hp. rewrite !fixed_loop_iff. by rewrite Hp. Qed.

Lemma paths_loop_perm l l' : l ≡ₚ l' → paths_loop ∅ ∅ l = Ok tt → paths_loop ∅ ∅ l' = Ok tt.
Proof.
  intros Hp. rewrite !paths_loop_iff. intros (H1 & H2 & _ & H4 & _).
  split_and!; try (intros; apply lookup_empty); by rewrite <- Hp.
Qed.

Lemma range_perm {A} (o o' : MapOrder) (m : gmap string A) :
  @map_range o A m ≡ₚ @map_range o' A m.
Proof. by rewrite !map_range_perm. Qed.

Lemma parseDatabaseInventory_order (o o' : MapOrder) v environment d :
  @parseDatabaseInventory os o v environment = Ok d →
  @parseDatabaseInventory os o' v environment = Ok d.
Proof.
  unfold parseDatabaseInventory. rewrite !reject_ok. intros [Hdb H]. split; [exact Hdb|].
  rewrite !bind_ok in H |- *. destruct H as ([] & Hf & H). exists tt.
  split; [exact (fixed_loop_perm v _ _ (range_perm o o' fixed_users) Hf)|].
  rewrite !bind_ok in H |- *. destruct H as ([] & Hp & H). exists tt.
  split; [exact (paths_loop_perm _ _ (range_perm o o' (password_paths v)) Hp)|]. exact H.
Qed.

Lemma preflight_order (o o' : MapOrder) v p :
  @preflight o v p = Ok tt → @preflight o' v p = Ok tt.
Proof. by rewrite !preflight_iff. Qed.
End order.

(** * What the parsers guarantee *)

Definition sslmode_ok (environment mode : string) : Prop :=
  mode ∈ ["disable"; "require"; "verify-ca"; "verify-full"] ∧
  (isProductionGrade environment = true → mode ≠ "disable").

(** The modes of a production-grade environment: all of them encrypt. *)
Lemma sslmode_production environment mode :
  isProductionGrade environment = true → sslmode_ok environment mode →
  mode ∈ ["require"; "verify-ca"; "verify-full"].
Proof. intros He [Hm Hne]. apply elem_of_cons in Hm as [Hm|Hm]; [by apply Hne in He|done]. Qed.

Lemma parseDatabaseSSLMode_ok v e mode :
  parseDatabaseSSLMode v e = Ok mode → sslmode_ok e mode.
Proof.
  unfold parseDatabaseSSLMode, sslmode_ok. intros H. res_inv H. subst mode.
  apply negb_false_iff, oneOf_spec in Hg. split; [exact Hg|].
  intros He Hm. rewrite He, Hm in Hg0. discriminate Hg0.
Qed.

Definition database_ok (environment : string) (settings : databaseProcessSettings)
    (d : Database) : Prop :=
  db_User d = ds_user settings ∧ 1 ≤ db_Port d ≤ 65535 ∧
  0 ≤ db_MinConnections d ≤ db_MaxConnections d ∧ 1 ≤ db_MaxConnections d ≤ 10000 ∧
  Millisecond ≤ db_StatementTimeout d ≤ 30 * Minute ∧
  Millisecond ≤ db_TransactionTimeout d ≤ 30 * Minute ∧
  sslmode_ok environment (db_SSLMode d).

Section guarantees.
Context {os : OS} {tables : UnicodeTables} {mail : MailParser} {order : MapOrder}.

Lemma parseDatabase_ok v settings d :
  parseDatabase v settings = Ok d →
  database_ok (value v "NEXUSRELAY_ENV" "development") settings d.
Proof.
  unfold parseDatabase. intros H. res_inv H. subst d.
  apply parseDatabaseSSLMode_ok in Hr2. read_bounds. zbool.
  unfold database_ok. cbn. split_and!; try done; lia.
Qed.

Definition session_ok (s : SessionPolicy) : Prop :=
  MatchString cookieNamePattern (sp_CookieName s) = true ∧
  Minute ≤ sp_IdleTTL s ≤ sp_AbsoluteTTL s ∧ sp_AbsoluteTTL s ≤ 365 * 24 * Hour ∧
  Second ≤ sp_LastSeenWriteInterval s ≤ sp_IdleTTL s ∧
  (∃ key, String.length key = 32%nat ∧ Reveal (sp_Secret s) = Base64.StdEncode key) ∧
  8 * sp_Argon2Parallelism s ≤ sp_Argon2MemoryKiB s.

Lemma parseSessionPolicy_ok v s : parseSessionPolicy v = Ok s → session_ok s.
Proof.
  unfold parseSessionPolicy. intros H. res_inv H. subst s.
  apply parsePasswordPolicy_ok in Hr2 as (m & i & k & _ & _ & _ & -> & Hmem).
  apply ReadBase64Key_ok in Hr3. apply negb_false_iff in Hg0. read_bounds. zbool.
  unfold session_ok. cbn. split_and!; try done; lia.
Qed.

(** The parts of a service that depend on the environment it runs in. *)
Lemma parseServiceCommon_ok v s h o :
  parseServiceCommon v = Ok (s, h, o) →
  sd_Environment s = value v "NEXUSRELAY_ENV" "development".
Proof.
  unfold parseServiceCommon. intros H. res_inv H. subst.
  by apply parseShared_ok in Hr as [? _].
Qed.

Lemma ParseGateway_parts v g :
  ParseGateway v = Ok g →
  sd_Environment (gw_Shared g) = value v "NEXUSRELAY_ENV" "development" ∧
  endpoints_ok (sd_Environment (gw_Shared g)) (gw_Endpoints g) ∧
  is_Some (PublicAPIBaseURL (gw_Endpoints g)) ∧
  database_ok (sd_Environment (gw_Shared g)) gatewayDatabaseSettings (gw_Database g).
Proof.
  unfold ParseGateway. intros H. res_inv H. subst g. cbn.
  apply parseServiceCommon_ok in Hr0. apply parseGatewayEndpoints_ok in Hr1 as [Hep Hp].
  apply parseDatabase_ok in Hr2. rewrite Hr0 in *. done.
Qed.

Lemma ParseControlPlane_parts v c :
  ParseControlPlane v = Ok c →
  sd_Environment (cp_Shared c) = value v "NEXUSRELAY_ENV" "development" ∧
  endpoints_ok (sd_Environment (cp_Shared c)) (cp_Endpoints c) ∧
  is_Some (PublicAPIBaseURL (cp_Endpoints c)) ∧ is_Some (AdminBaseURL (cp_Endpoints c)) ∧
  database_ok (sd_Environment (cp_Shared c)) controlPlaneDatabaseSettings (cp_Database c) ∧
  session_ok (cp_Sessions c) ∧
  (isProductionGrade (sd_Environment (cp_Shared c)) = true →
   has_prefix (sp_CookieName (cp_Sessions c)) "__Host-" = true).
Proof.
  unfold ParseControlPlane. intros H. res_inv H. subst c. cbn.
  apply parseServiceCommon_ok in Hr0.
  apply parseControlPlaneEndpoints_ok in Hr1 as (Hep & Hp & Ha).
  apply parseDatabase_ok in Hr2. apply parseSessionPolicy_ok in Hr7. rewrite Hr0 in *.
  split_and!; try done. intros He. rewrite He in Hg. by apply negb_false_iff in Hg.
Qed.

Lemma ParseWorker_parts v w :
  ParseWorker v = Ok w →
  sd_Environment (wk_Shared w) = value v "NEXUSRELAY_ENV" "development" ∧
  database_ok (sd_Environment (wk_Shared w)) workerDatabaseSettings (wk_Database w) ∧
  readiness_ok (wk_Readiness w) ∧ worker_policy_ok (wk_Policy w).
Proof.
  unfold ParseWorker. intros H. res_inv H. subst w. cbn.
  apply parseServiceCommon_ok in Hr0. apply parseDatabase_ok in Hr1.
  apply parseDependencyReadiness_ok in Hr3. apply parseWorkerPolicy_ok in Hr5.
  rewrite Hr0 in *. done.
Qed.

(** ** The inventory of passwords *)

(** Five distinct files with five distinct passwords. *)
Definition passwords_distinct (paths : gmap string string) : Prop :=
  ∀ n1 p1 n2 p2, paths !! n1 = Some p1 → paths !! n2 = Some p2 → n1 ≠ n2 →
    Clean p1 ≠ Clean p2 ∧
    ∃ s1 s2, ReadSimpleSecret n1 p1 (4 * 1024) = Ok s1 ∧
             ReadSimpleSecret n2 p2 (4 * 1024) = Ok s2 ∧ Reveal s1 ≠ Reveal s2.

Lemma NoDup_fmap_distinct {A B} (f : A → B) l x y :
  NoDup (f <$> l) → x ∈ l → y ∈ l → x ≠ y → f x ≠ f y.
Proof.
  intros Hnd [i Hi]%list_elem_of_lookup [j Hj]%list_elem_of_lookup Hne Heq.
  assert (i = j) as ->; [|congruence].
  apply (NoDup_lookup (f <$> l) i j (f x)); [done|by rewrite list_lookup_fmap, Hi|].
  by rewrite list_lookup_fmap, Hj, Heq.
Qed.

Lemma parseDatabaseInventory_ok v environment d :
  parseDatabaseInventory v environment = Ok d →
  passwords_distinct (di_PasswordFiles d) ∧ di_PasswordFiles d = password_paths v ∧
  sslmode_ok environment (di_SSLMode d) ∧
  di_Name d = value v "DATABASE_NAME" "nexusrelay".
Proof.
  unfold parseDatabaseInventory. intros H. res_inv H. subst d. cbn. destruct a, a0.
  apply negb_false_iff, String.eqb_eq in Hg. apply parseDatabaseSSLMode_ok in Hr1.
  split_and!; [|done|done|done].
  apply paths_loop_iff in Hr0 as (Hok & Hclean & _ & Htext & _).
  intros n1 p1 n2 p2 H1 H2 Hne. apply elem_of_map_range in H1, H2.
  assert (Hne' : (n1, p1) ≠ (n2, p2)) by congruence.
  split; [exact (NoDup_fmap_distinct _ _ _ _ Hclean H1 H2 Hne')|].
  pose proof (NoDup_fmap_distinct _ _ _ _ Htext H1 H2 Hne') as Hd.
  rewrite Forall_forall in Hok. apply Hok in H1 as [_ H1], H2 as [_ H2].
  unfold password_text, password_of in *. cbn in *.
  destruct (ReadSimpleSecret n1 p1 _) as [s1|]; [|discriminate H1].
  destruct (ReadSimpleSecret n2 p2 _) as [s2|]; [|discriminate H2].
  by exists s1, s2.
Qed.
End guarantees.
