(* ===== verification/EnvFile.v ===== *)
(** [internal/config/envfile.go]: the environment file of a deployment, and
    the complete validation of its contents. *)
From S2P Require Import Prelude GoStrings Strconv Settings Regex Os Policies Endpoints Config.

Local Open Scope string_scope.
Local Open Scope Z_scope.

Definition maximumEnvironmentFileBytes : Z := 1024 * 1024.

(** [^[A-Z][A-Z0-9_]*$] *)
Definition env_name_tail : ascii → bool := either AZ (either digit09 (oneof "_")).
Definition environmentNamePattern : re := Cat (Cls AZ) (Star (Cls env_name_tail)).

Definition newline : ascii := "010"%char.
Definition carriage_return : string := String "013" "".

(** [bufio.ScanLines] on a reader: the text between line feeds; nothing after
    the last one when it ends the input. *)
Definition raw_lines (s : string) : list string :=
  let pieces := split newline s in
  match reverse pieces with
  | last :: before => if String.eqb last "" then reverse before else pieces
  | [] => []
  end.

(** A line longer than this fills the 64 KiB buffer of the scanner before its
    end is seen: [bufio.ErrTooLong]. *)
Definition max_line : nat := Z.to_nat 65535.

Definition line_error (n : Z) (what : string) : string :=
  "environment file line " +:+ itoa n +:+ ": " +:+ what.

Section envfile.
Context {os : OS} {tables : UnicodeTables} {mail : MailParser} {order : MapOrder}.

(** The body of the loop on one line, already stripped of its carriage
    returns: the new map, or the error. *)
Definition parse_line (lineNumber : Z) (values : env) (line : string) : res env :=
  reject (line_error lineNumber "contains a control character")
    when (existsb (λ c, (c =? 0) || is_control c) (Utf8.runes line)) ;;
  if String.eqb line "" || has_prefix line "#" then Ok values else
  reject (line_error lineNumber "export syntax is unsupported")
    when (has_prefix line "export ") ;;
  match cut "=" line with
  | None => Err (line_error lineNumber "expected KEY=VALUE")
  | Some (name, value) =>
      reject (line_error lineNumber ("invalid key " +:+ quote name))
        when (negb (MatchString environmentNamePattern name)) ;;
      reject (line_error lineNumber ("unknown key " +:+ name)) when (negb (known name)) ;;
      reject (line_error lineNumber ("duplicate key " +:+ name))
        when (bool_decide (is_Some (values !! name))) ;;
      Ok (<[name := value]> values)
  end.

(** [scanner.Text()] has lost one carriage return to the scanner; the loop
    trims another. *)
Definition line_text (raw : string) : string :=
  trim_suffix (trim_suffix raw carriage_return) carriage_return.

Fixpoint scan_lines (lineNumber : Z) (values : env) (lines : list string) : res env :=
  match lines with
  | [] => Ok values
  | raw :: rest =>
      reject "read environment file: malformed input" when (max_line <? String.length raw)%nat ;;
      values ← parse_line (lineNumber + 1) values (line_text raw);
      scan_lines (lineNumber + 1) values rest
  end.

(** [parseEnvironmentFile] on what [io.ReadAll(reader)] returns. *)
Definition parseEnvironmentFile (input : option string) : res env :=
  match input with
  | None => Err "read environment file: unreadable"
  | Some limited =>
      reject ("read environment file: exceeds " +:+ itoa maximumEnvironmentFileBytes +:+ " bytes")
        when (maximumEnvironmentFileBytes <? len limited) ;;
      reject "read environment file: must contain valid UTF-8" when (negb (Utf8.valid limited)) ;;
      scan_lines 0 ∅ (raw_lines limited)
  end.

Definition ReadEnvironmentFile (path : string) : res env :=
  reject "--env-file is required" when (String.eqb path "") ;;
  match Open path with
  | None => Err "read environment file: unavailable"
  | Some file =>
      match f_stat file with
      | None => Err "read environment file: must be a regular file"
      | Some info =>
          reject "read environment file: must be a regular file"
            when (negb (IsRegular (fi_mode info))) ;;
          parseEnvironmentFile (read_limited file (maximumEnvironmentFileBytes + 1))
      end
  end.

Definition ValidateComplete (values : env) : res unit :=
  _ ← ParseDeployment (ValuesForProcess values ProcessDeployment);
  _ ← ParseGateway (ValuesForProcess values ProcessGateway);
  _ ← ParseControlPlane (ValuesForProcess values ProcessControlPlane);
  _ ← ParseWorker (ValuesForProcess values ProcessWorker);
  Ok tt.

End envfile.

(** Two carriage returns at the end of a line are dropped. *)
Example two_returns :
  line_text ("A=b" +:+ carriage_return +:+ carriage_return) = "A=b". Proof. reflexivity. Qed.
Example lines_end : raw_lines ("a" +:+ String newline "b" +:+ String newline "") = ["a"; "b"].
Proof. reflexivity. Qed.
Example lines_open : raw_lines ("a" +:+ String newline "b") = ["a"; "b"]. Proof. reflexivity. Qed.
Example lines_none : raw_lines "" = []. Proof. reflexivity. Qed.

(** * What an accepted file holds *)

Lemma parse_line_known {tables : UnicodeTables} n values line values' :
  parse_line n values line = Ok values' →
  (∀ name, is_Some (values !! name) → known name = true) →
  ∀ name, is_Some (values' !! name) → known name = true.
Proof.
  unfold parse_line. rewrite reject_ok. intros [_ H] Hv.
  destruct (_ || _)%bool; [by injection H as <-|].
  rewrite reject_ok in H. destruct H as [_ H].
  destruct (cut "=" line) as [[name value]|]; [|discriminate H].
  rewrite !reject_ok, !negb_false_iff in H. destruct H as (_ & Hk & _ & [= <-]).
  intros name'. rewrite lookup_insert_is_Some. intros [->|[_ Hn]]; [exact Hk|exact (Hv _ Hn)].
Qed.

Lemma scan_lines_known {tables : UnicodeTables} lines : ∀ n values values',
  scan_lines n values lines = Ok values' →
  (∀ name, is_Some (values !! name) → known name = true) →
  ∀ name, is_Some (values' !! name) → known name = true.
Proof.
  induction lines as [|raw lines IH]; intros n values values'; cbn [scan_lines].
  - by intros [= <-].
  - rewrite reject_ok, bind_ok. intros (_ & v & Hl & Hr) Hv.
    exact (IH _ _ _ Hr (parse_line_known _ _ _ _ Hl Hv)).
Qed.

Lemma parseEnvironmentFile_known {tables : UnicodeTables} input values :
  parseEnvironmentFile input = Ok values →
  ∀ name, is_Some (values !! name) → known name = true.
Proof.
  unfold parseEnvironmentFile. destruct input as [s|]; [|discriminate].
  rewrite !reject_ok. intros (_ & _ & H). apply (scan_lines_known _ _ _ _ H).
  intros name. rewrite lookup_empty. by intros [].
Qed.

(** * Printing and parsing *)

(** Printable ASCII. *)
Definition printable (c : ascii) : bool := (32 <=? byte c) && (byte c <=? 126).

Definition render_entry (entry : string * string) : string := entry.1 +:+ "=" +:+ entry.2.
Definition render (entries : list (string * string)) : string :=
  concat_strings ((λ e, render_entry e +:+ String newline "") <$> entries).

(** An assignment that has a line of its own. *)
Definition renderable (entry : string * string) : Prop :=
  known entry.1 = true ∧ all_bytes printable entry.2 = true ∧
  (String.length (render_entry entry) ≤ max_line)%nat.

Definition name_char (c : ascii) : bool := printable c && negb (Ascii.eqb c "=").

Lemma known_name name : known name = true →
  MatchString environmentNamePattern name = true ∧ all_bytes name_char name = true ∧
  has_prefix (name +:+ "=") "#" = false.
Proof.
  unfold known. rewrite bool_decide_eq_true. intros [class Hin].
  apply inventory_entry in Hin.
  assert (forallb (λ e, MatchString environmentNamePattern e.1 &&
            all_bytes name_char e.1 && negb (has_prefix (e.1 +:+ "=") "#")) inventory_entries = true) as Hall
    by (vm_compute; reflexivity).
  rewrite forallb_forall in Hall. apply list_elem_of_In, Hall in Hin. cbn [fst] in Hin.
  rewrite !andb_true_iff, !negb_true_iff in Hin. tauto.
Qed.

Lemma has_prefix_app s t p :
  (String.length p ≤ String.length s)%nat → has_prefix (s +:+ t) p = has_prefix s p.
Proof.
  revert s. induction p as [|c p IH]; intros [|d s]; cbn; try done;
    intros Hl; [by destruct t|lia|]. f_equal. apply IH. lia.
Qed.

Lemma raw_lines_render entries :
  Forall (λ e, all_bytes printable (render_entry e) = true) entries →
  raw_lines (render entries) = render_entry <$> entries.
Proof.
  intros Hall.
  assert (split newline (render entries) = (render_entry <$> entries) ++ [""])%list as Hs.
  { induction Hall as [|e entries He Hall IH]; [done|].
    unfold render. cbn [fmap list_fmap concat_strings foldr].
    change (foldr String.append "" ?l) with (concat_strings l).
    rewrite sapp_assoc. cbn [String.append]. rewrite split_app, split_free; [cbn; f_equal; exact IH|].
    revert He. apply all_bytes_impl. intros c. unfold printable.
    rewrite andb_true_iff, !Z.leb_le, negb_true_iff, Ascii.eqb_neq.
    intros Hc ->. change (byte newline) with 10 in Hc. lia. }
  unfold raw_lines. rewrite Hs, reverse_app. change (reverse [""]) with [""].
  cbn [app String.eqb]. apply reverse_involutive.
Qed.

Lemma no_trailing_return s :
  all_bytes printable s = true → trim_suffix s carriage_return = s.
Proof.
  unfold trim_suffix, has_suffix. intros Hs.
  destruct (_ && _)%bool eqn:E; [|done]. exfalso.
  rewrite andb_true_iff, String.eqb_eq in E. destruct E as [_ E].
  rewrite <- (take_drop (String.length s - String.length carriage_return) s) in Hs.
  rewrite E, all_bytes_app, andb_true_iff in Hs. destruct Hs as [_ Hs]. discriminate Hs.
Qed.

Lemma printable_runes s :
  all_bytes printable s = true → existsb (λ c, (c =? 0) || is_control c) (Utf8.runes s) = false.
Proof.
  intros Hs. unfold Utf8.runes. rewrite Utf8.runes_from_ascii.
  2:{ revert Hs. apply all_bytes_impl. intros c. unfold printable.
      rewrite andb_true_iff, !Z.leb_le, Z.ltb_lt. lia. }
  induction s as [|c s IH]; [done|]. cbn in *. apply andb_true_iff in Hs as [Hc Hs].
  rewrite IH by done. unfold printable in Hc. rewrite andb_true_iff, !Z.leb_le in Hc.
  rewrite orb_false_r. unfold is_control.
  rewrite !orb_false_iff, !andb_false_iff, Z.eqb_neq, !Z.leb_gt. lia.
Qed.

Lemma render_entry_printable e : renderable e → all_bytes printable (render_entry e) = true.
Proof.
  intros (Hk & Hv & _). unfold render_entry. rewrite !all_bytes_app, Hv.
  apply known_name in Hk as (_ & Hn & _).
  rewrite (all_bytes_impl name_char printable); [done| |done].
  intros c. unfold name_char. by intros [? _]%andb_true_iff.
Qed.

Lemma parse_line_entry {tables : UnicodeTables} n values e :
  renderable e → values !! e.1 = None →
  parse_line n values (line_text (render_entry e)) = Ok (<[e.1 := e.2]> values).
Proof.
  intros He Hnew. pose proof (render_entry_printable _ He) as Hp.
  destruct He as (Hk & Hv & _). unfold line_text.
  rewrite !(no_trailing_return (render_entry e)) by exact Hp.
  unfold parse_line. rewrite printable_runes by done.
  pose proof (known_name _ Hk) as (Hpat & Hch & Hhash).
  assert (Hcut : cut "=" (render_entry e) = Some (e.1, e.2)).
  { apply cut_spec. split; [done|]. revert Hch. apply all_bytes_impl.
    intros c. unfold name_char. by intros [_ ?]%andb_true_iff. }
  assert (Hne : String.eqb (render_entry e) "" = false).
  { unfold render_entry. by destruct (e.1). }
  assert (Hh : has_prefix (render_entry e) "#" = false).
  { transitivity (has_prefix (e.1 +:+ "=") "#"); [|exact Hhash].
    unfold render_entry. rewrite <- (sapp_assoc (e.1) "=" (e.2)).
    apply has_prefix_app. rewrite slen_app. cbn. lia. }
  rewrite Hne, Hh. cbn [orb].
  assert (He : has_prefix (render_entry e) "export " = false).
  { destruct (has_prefix (render_entry e) "export ") eqn:E; [|done].
    apply has_prefix_spec in E as [t E]. unfold render_entry in E.
    apply MatchString_lang, lang_cls_cat in Hpat as (c & s & Hn & Hc & _).
    rewrite Hn in E. injection E as -> _. discriminate Hc. }
  rewrite He, Hcut, Hpat, Hk, Hnew. done.
Qed.

Lemma scan_lines_render {tables : UnicodeTables} entries : ∀ n values,
  Forall renderable entries → NoDup entries.*1 →
  (∀ k, k ∈ entries.*1 → values !! k = None) →
  scan_lines n values (render_entry <$> entries) = Ok (list_to_map entries ∪ values).
Proof.
  induction entries as [|[k x] entries IH]; intros n values Hall Hnd Hdis.
  { cbn. by rewrite (left_id_L ∅ (∪)). }
  rewrite fmap_cons in Hnd, Hdis |- *. cbn [fst scan_lines] in *.
  apply Forall_cons in Hall as [He Hall]. apply NoDup_cons in Hnd as [Hk Hnd].
  destruct (Nat.ltb_spec max_line (String.length (render_entry (k, x)))) as [Hlt|_].
  { destruct He as (_ & _ & Hl). lia. }
  rewrite (parse_line_entry _ _ (k, x)) by (try exact He; apply Hdis; by left).
  cbn [mbind res_bind fst snd]. rewrite IH; [|done|done|].
  - cbn [list_to_map foldr]. f_equal.
    rewrite <- insert_union_r, insert_union_l; [done|].
    by apply not_elem_of_list_to_map.
  - intros k' Hin. rewrite lookup_insert_ne; [apply Hdis; by right|]. by intros <-.
Qed.

(** Printing assignments, one per line, and reading them back. *)
Lemma parse_render {tables : UnicodeTables} entries :
  Forall renderable entries → NoDup entries.*1 →
  len (render entries) ≤ maximumEnvironmentFileBytes →
  parseEnvironmentFile (Some (render entries)) = Ok (list_to_map entries).
Proof.
  intros Hall Hnd Hlen. unfold parseEnvironmentFile.
  destruct (Z.ltb_spec maximumEnvironmentFileBytes (len (render entries))); [lia|].
  assert (Hp : Forall (λ e, all_bytes printable (render_entry e) = true) entries).
  { eapply Forall_impl; [done|]. apply render_entry_printable. }
  assert (Hv : Utf8.valid (render entries) = true).
  { apply Utf8.valid_ascii. clear -Hp. unfold render, concat_strings.
    induction Hp as [|e l He _ IH]; [done|]. cbn [fmap list_fmap foldr].
    rewrite !all_bytes_app, IH, !andb_true_iff. split_and!; try done.
    revert He. apply all_bytes_impl. intros c. unfold printable.
    rewrite andb_true_iff, !Z.leb_le, Z.ltb_lt. lia. }
  rewrite Hv, raw_lines_render by done. cbn [negb].
  rewrite scan_lines_render; [by rewrite (right_id_L ∅ (∪))|done|done|].
  intros k _. apply lookup_empty.
Qed.
