(* ===== verification/Isolation.v ===== *)
(** Each process reads the settings that [inventory] declares it a consumer
    of, and no others: two environments that agree on these, and pass the
    preflight, give the same configuration.  Hence the complete validation of
    a deployment's environment file speaks for every service at its start. *)
From S2P Require Import Prelude GoStrings Strconv Duration Settings Net Url Regex Os Secrets Policies Endpoints Config EnvFile.
Local Open Scope string_scope.
Local Open Scope Z_scope.
(** The two environments agree on the settings in [P]; on those of [p]. *)
Definition agree_on (P : string → bool) (v v' : env) : Prop :=
  ∀ name, P name = true → v !! name = v' !! name.
Definition agree (p : Process) : env → env → Prop := agree_on (consumed_by p).

Section agreement.
Context {P : string → bool} {v v' : env} (Hagree : agree_on P v v').

Lemma value_agree name fallback :
  P name = true → value v name fallback = value v' name fallback.
Proof. intros Hc. unfold value. by rewrite (Hagree name Hc). Qed.

Lemma requiredPath_agree name fallback :
  P name = true → requiredPath v name fallback = requiredPath v' name fallback.
Proof. apply value_agree. Qed.

Lemma duration_agree name fallback min max :
  P name = true → duration v name fallback min max = duration v' name fallback min max.
Proof. intros Hc. unfold duration. by rewrite (value_agree name) by done. Qed.

Lemma integer_agree name fallback min max :
  P name = true → integer v name fallback min max = integer v' name fallback min max.
Proof. intros Hc. unfold integer. by rewrite (value_agree name) by done. Qed.

Lemma int64Value_agree name fallback min max :
  P name = true →
  int64Value v name fallback min max = int64Value v' name fallback min max.
Proof. intros Hc. unfold int64Value. by rewrite (value_agree name) by done. Qed.

Lemma boolean_agree name fallback :
  P name = true → boolean v name fallback = boolean v' name fallback.
Proof. intros Hc. unfold boolean. by rewrite (value_agree name) by done. Qed.

Lemma requiredText_agree name :
  P name = true → requiredText v name = requiredText v' name.
Proof. intros Hc. unfold requiredText. by rewrite (Hagree name Hc). Qed.
End agreement.

(** ** Reading under agreement *)

Lemma bind_agree {A B} (m m' : res A) (f f' : A → res B) :
  m = m' → (∀ a, m' = Ok a → f a = f' a) → m ≫= f = m' ≫= f'.
Proof. intros -> Hf. destruct m' as [a|e]; [exact (Hf a eq_refl)|done]. Qed.

Ltac consumed := vm_compute; reflexivity.

(** Replace the first environment of [H] by the second in every read of a
    setting with a constant name. *)
Ltac agree_reads H :=
  rewrite ?(duration_agree H), ?(integer_agree H), ?(int64Value_agree H), ?(boolean_agree H),
    ?(requiredText_agree H), ?(requiredPath_agree H), ?(value_agree H) by consumed.

Section isolation.
Context {os : OS} {tables : UnicodeTables} {mail : MailParser} {order : MapOrder}.
Implicit Types v w : env.

Lemma parseServiceCommon_agree p v w :
  agree p v w → long_running p = true → parseServiceCommon v = parseServiceCommon w.
Proof.
  intros H Hp.
  unfold parseServiceCommon, parseShared, parseHTTP, parseObservability, parseLogging.
  destruct p; try discriminate Hp; agree_reads H; reflexivity.
Qed.

Lemma parseDependencyReadiness_agree p v w :
  agree p v w → long_running p = true →
  parseDependencyReadiness v = parseDependencyReadiness w.
Proof.
  intros H Hp. unfold parseDependencyReadiness.
  destruct p; try discriminate Hp; agree_reads H; reflexivity.
Qed.

Lemma parseDatabase_agree v w p settings :
  agree p v w →
  (p, settings) ∈ [(ProcessGateway, gatewayDatabaseSettings);
                   (ProcessControlPlane, controlPlaneDatabaseSettings);
                   (ProcessWorker, workerDatabaseSettings);
                   (ProcessBootstrap, controlPlaneDatabaseSettings)] →
  parseDatabase v settings = parseDatabase w settings.
Proof.
  intros H Hin. rewrite !elem_of_cons, elem_of_nil in Hin.
  unfold parseDatabase, parseDatabaseSSLMode.
  destruct Hin as [[= -> ->]|[[= -> ->]|[[= -> ->]|[[= -> ->]|[]]]]];
    cbn [userSetting passwordSetting minSetting maxSetting ds_user defaultMax
         gatewayDatabaseSettings controlPlaneDatabaseSettings workerDatabaseSettings];
    agree_reads H; reflexivity.
Qed.

Lemma ParseGateway_agree v w :
  agree ProcessGateway v w →
  preflight v ProcessGateway = preflight w ProcessGateway → ParseGateway v = ParseGateway w.
Proof.
  intros H Hp. unfold ParseGateway. rewrite Hp.
  rewrite (parseServiceCommon_agree _ _ _ H eq_refl).
  rewrite (parseDependencyReadiness_agree _ _ _ H eq_refl).
  rewrite (parseDatabase_agree v w ProcessGateway) by (exact H || by left).
  unfold parseGatewayEndpoints, parsePublicAPIURL, parseRedis, parseGatewayPolicy.
  agree_reads H. reflexivity.
Qed.

Lemma parsePasswordPolicy_agree v w p :
  agree p v w → p = ProcessControlPlane ∨ p = ProcessBootstrap →
  parsePasswordPolicy v = parsePasswordPolicy w.
Proof.
  intros H Hp. unfold parsePasswordPolicy.
  destruct Hp as [-> | ->]; agree_reads H; reflexivity.
Qed.

Lemma parseSessionPolicy_agree v w :
  agree ProcessControlPlane v w → parseSessionPolicy v = parseSessionPolicy w.
Proof.
  intros H. unfold parseSessionPolicy. agree_reads H.
  apply bind_agree; [reflexivity|]. intros idle _.
  apply bind_agree; [reflexivity|]. intros abs _. agree_reads H.
  rewrite (parsePasswordPolicy_agree _ _ _ H) by (by left). reflexivity.
Qed.

Lemma ParseControlPlane_agree v w :
  agree ProcessControlPlane v w →
  preflight v ProcessControlPlane = preflight w ProcessControlPlane →
  ParseControlPlane v = ParseControlPlane w.
Proof.
  intros H Hp. unfold ParseControlPlane. rewrite Hp.
  rewrite (parseServiceCommon_agree _ _ _ H eq_refl).
  rewrite (parseDependencyReadiness_agree _ _ _ H eq_refl).
  rewrite (parseDatabase_agree v w ProcessControlPlane) by (exact H || by right; left).
  rewrite (parseSessionPolicy_agree _ _ H).
  unfold parseControlPlaneEndpoints, parsePublicAPIURL, parseRedis, parseAgent.
  agree_reads H. reflexivity.
Qed.

Lemma ParseWorker_agree v w :
  agree ProcessWorker v w →
  preflight v ProcessWorker = preflight w ProcessWorker → ParseWorker v = ParseWorker w.
Proof.
  intros H Hp. unfold ParseWorker. rewrite Hp.
  rewrite (parseServiceCommon_agree _ _ _ H eq_refl).
  rewrite (parseDependencyReadiness_agree _ _ _ H eq_refl).
  rewrite (parseDatabase_agree v w ProcessWorker) by (exact H || by right; right; left).
  unfold parseRedis, parseWorkerPolicy. agree_reads H. reflexivity.
Qed.

Lemma ParseBootstrap_agree v w :
  agree ProcessBootstrap v w →
  preflight v ProcessBootstrap = preflight w ProcessBootstrap → ParseBootstrap v = ParseBootstrap w.
Proof.
  intros H Hp. unfold ParseBootstrap. rewrite Hp.
  rewrite (parseDatabase_agree v w ProcessBootstrap) by (exact H || by right; right; right; left).
  rewrite (parsePasswordPolicy_agree _ _ _ H) by (by right).
  unfold parseShared, parseLogging. agree_reads H. reflexivity.
Qed.

Lemma parseDatabaseInventory_agree v w environment :
  agree ProcessDeployment v w →
  parseDatabaseInventory v environment = parseDatabaseInventory w environment.
Proof.
  intros H. unfold parseDatabaseInventory, password_paths, parseDatabaseSSLMode.
  assert (Hl : ∀ l, Forall (λ e, consumed_by ProcessDeployment e.1 = true) l →
            fixed_loop v l = fixed_loop w l).
  { induction 1 as [|[name x] l Hc _ IH]; [done|]. cbn [fixed_loop]. cbn [fst] in Hc.
    by rewrite (value_agree H name _ Hc), IH. }
  rewrite Hl.
  - agree_reads H. reflexivity.
  - rewrite map_range_perm.
    assert (forallb (λ e, consumed_by ProcessDeployment e.1) (map_to_list fixed_users) = true)
      as Hall by consumed.
    apply Forall_forall. intros e Hin. rewrite forallb_forall in Hall.
    exact (Hall e (proj1 (list_elem_of_In _ _) Hin)).
Qed.

Lemma ParseDeployment_agree v w :
  agree ProcessDeployment v w →
  preflight v ProcessDeployment = preflight w ProcessDeployment →
  ParseDeployment v = ParseDeployment w.
Proof.
  intros H Hp. unfold ParseDeployment. rewrite Hp.
  unfold parseShared, parseEndpoints, parseHTTP, parseTLS, parseRedisDeployment,
    parseCloudflare, parseTailscale.
  agree_reads H. apply bind_agree; [done|]. intros _ _.
  apply bind_agree; [done|]. intros shared _. apply bind_agree; [done|]. intros endpoints _.
  apply bind_agree; [done|]. intros http _. apply bind_agree; [done|]. intros httpsPort _.
  apply bind_agree; [done|]. intros tls _.
  by rewrite (parseDatabaseInventory_agree _ _ _ H).
Qed.

(** ** Filtering *)

Lemma agree_filtered p values : agree p (ValuesForProcess values p) values.
Proof. intros name Hc. by rewrite ValuesForProcess_lookup, Hc. Qed.

(** What is filtered for a process always passes its preflight. *)
Lemma preflight_filtered p values : preflight (ValuesForProcess values p) p = Ok tt.
Proof.
  apply preflight_iff. split.
  - intros name [x Hx]. rewrite ValuesForProcess_lookup in Hx.
    destruct (consumed_by p name) eqn:Hc; [|discriminate Hx].
    exact (foreign_known _ (consumed_known _ _ Hc)).
  - intros Hl name Hin. rewrite ValuesForProcess_lookup.
    by rewrite (commandOnly_not_consumed _ _ Hin Hl).
Qed.

Lemma agree_sym p v w : agree p v w → agree p w v.
Proof. intros H name Hc. symmetry. by apply H. Qed.

Lemma agree_trans p u v w : agree p u v → agree p v w → agree p u w.
Proof. intros H1 H2 name Hc. by rewrite (H1 name Hc), (H2 name Hc). Qed.

End isolation.
