(* ===== verification/Fixtures.v ===== *)
(** A concrete machine for the witnesses: a file system that holds the secrets
    of a development deployment, and the parameters of the model. *)
From S2P Require Import Prelude GoStrings Settings Os Json Secrets Policies Endpoints Config EnvFile.

Local Open Scope string_scope.
Local Open Scope Z_scope.

Definition dq : string := String "034" "".

(** A key of 32 zero bytes. *)
Definition zero_key : string := "AAAAAAAAAAAAAAAAAAAAAAAAAAAAAAAAAAAAAAAAAAA=".

Definition json_string (s : string) : string := dq +:+ s +:+ dq.
Definition json_field (name value : string) : string := json_string name +:+ ":" +:+ value.

Definition ring_json (extra : string) : string :=
  "{" +:+ json_field "version" "1" +:+ "," +:+ extra +:+
  json_field "active_key_id" (json_string "k1") +:+ "," +:+
  json_field "keys" ("[{" +:+ json_field "key_id" (json_string "k1") +:+ "," +:+
                     json_field "key" (json_string zero_key) +:+ "}]") +:+ "}".

Definition provider_json : string := ring_json (json_field "expected_epoch" "7" +:+ ",").

Definition redis_secret : string := "0123456789abcdefghijklmnopqrstuvwxyz".

Definition secret_files : list (string * string) := [
  ("/run/secrets/postgres_cluster_admin_password", "admin-password");
  ("/run/secrets/postgres_migration_password", "migration-password");
  ("/run/secrets/postgres_gateway_password", "gateway-password" +:+ String "010" "");
  ("/run/secrets/postgres_control_plane_password", "control-password");
  ("/run/secrets/postgres_worker_password", "worker-password");
  ("/run/secrets/redis_password", redis_secret);
  ("/run/secrets/redis_url", "redis://:" +:+ redis_secret +:+ "@redis:6379/0");
  ("/run/secrets/provider_master_keyring", provider_json);
  ("/run/secrets/api_key_pepper_ring", ring_json "");
  ("/run/secrets/session_secret", zero_key);
  ("/run/secrets/csrf_secret_ring", ring_json "");
  ("/run/secrets/bootstrap_password", "correct horse battery staple")].

(** Regular files of mode 0600, one inode each; reading never fails. *)
Definition file_of (files : list (string * string)) (path : string) : option (FileInfo * File) :=
  '(i, (_, content)) ← list_find (λ e, fst e = path) files;
  let info := {| fi_mode := 384; fi_dev := 1; fi_ino := Z.of_nat i; fi_size := len content |} in
  Some (info, {| f_stat := Some info; f_content := content; f_fault := None; f_close := Ok tt |}).

Definition machine (files : list (string * string)) (environ : list string) : OS := {|
  GOOS := "linux";
  Environ := environ;
  Lstat path := fst <$> file_of files path;
  Stat path := fst <$> file_of files path;
  Open path := snd <$> file_of files path;
  ReadDir _ := None |}.

Definition dev_machine : OS := machine secret_files [].

(** Accept a text that is an address already. *)
Definition plain_mail : MailParser := {|
  ParseAddress s := if contains_byte "@" s then Some s else None |}.
