(* ===== verification/Readiness.v ===== *)
(** [internal/dependency/readiness.go]: the readiness loop of a service.

    [Run] is a goroutine that shares with its environment two contexts, the
    channel on which [serve] sends its result, and timers.  Its state is the
    record [state]; every statement that communicates, and every [setReady],
    is one transition.  [exec] performs one transition chosen by the
    environment: which case of a [select] is taken, what the probes answer and
    in which order they finish, when [serve] returns, when a context ends. *)
From S2P Require Import Prelude GoStrings Duration Settings Policies.

Local Open Scope string_scope.
Local Open Scope Z_scope.

Definition DefaultStartupTimeout : Z := 60 * Second.
Definition DefaultProbeTimeout : Z := 3 * Second.
Definition DefaultProbeInterval : Z := 5 * Second.
Definition DefaultRetryMinimum : Z := 100 * Millisecond.
Definition DefaultRetryMaximum : Z := 2 * Second.

Record ReadinessPolicy := {
  StartupTimeout : Duration;
  ProbeTimeout : Duration;
  ProbeInterval : Duration;
  RetryMinimum : Duration;
  RetryMaximum : Duration
}.

Definition DefaultReadinessPolicy : ReadinessPolicy := {|
  StartupTimeout := DefaultStartupTimeout; ProbeTimeout := DefaultProbeTimeout;
  ProbeInterval := DefaultProbeInterval; RetryMinimum := DefaultRetryMinimum;
  RetryMaximum := DefaultRetryMaximum |}.

Definition validate (p : ReadinessPolicy) : res unit :=
  reject "invalid dependency readiness policy"
    when ((StartupTimeout p <=? 0) || (ProbeTimeout p <=? 0) || (ProbeInterval p <=? 0) ||
          (RetryMinimum p <=? 0) || (RetryMaximum p <? RetryMinimum p)) ;;
  Ok tt.

(** A probe: its name, and whether its two functions are non-nil. *)
Record Probe := { p_Name : string; p_Ping : bool; p_Observe : bool }.

(** * One round of probes

    The goroutines finish in the order [completion], a list of indices;
    [outcomes] says which pings return an error.  Each goroutine writes its
    own element of [failed] and then reports to [Observe]. *)
Definition complete (n : nat) (completion : list nat) : bool :=
  bool_decide (NoDup completion) && (length completion =? n)%nat &&
  forallb (λ i, (i <? n)%nat) completion.

Definition observation (probes : list Probe) (outcomes : list bool) (i : nat)
    : option (string * bool) :=
  match probes !! i, outcomes !! i with
  | Some probe, Some failed => if p_Observe probe then Some (p_Name probe, failed) else None
  | _, _ => None
  end.

Definition failed_flags (outcomes : list bool) (completion : list nat) : list bool :=
  foldl (λ failed i, <[i := default false (outcomes !! i)]> failed)
    (replicate (length outcomes) false) completion.

Fixpoint failed_names (probes : list Probe) (failed : list bool) : list string :=
  match probes, failed with
  | probe :: probes, isFailed :: failed =>
      if isFailed : bool then p_Name probe :: failed_names probes failed
      else failed_names probes failed
  | _, _ => []
  end.

Definition runProbes (probes : list Probe) (outcomes : list bool) (completion : list nat)
    : list string * list (string * bool) :=
  (failed_names probes (failed_flags outcomes completion),
   omap (observation probes outcomes) completion).

(** * The loop *)

(** An [error] value: [None] is nil. *)
Abbreviation error := (option string).

Inductive serve_state := Serve_running | Serve_sent (err : error) | Serve_received.

Inductive pc_t :=
| Probing                        (* about to call runProbes in the first loop *)
| Waiting (failed : list string) (* the select of the first loop *)
| Draining (failed : list string) (* cancelServe was called; <-serveResult *)
| Monitoring                     (* the select of the second loop *)
| Reprobing                      (* the ticker fired *)
| Cancelling                     (* after setReady(false), before cancelServe *)
| Stopping                       (* return <-serveResult *)
| Returning (err : error)        (* the deferred cancelServe is next *)
| Clearing (err : error)         (* the deferred setReady(false) is next *)
| Returned (err : error).

(** What the outside sees, newest first. *)
Inductive event :=
| EvReady (b : bool) | EvRound (failed : list string) (observed : list (string * bool))
| EvCancelServe.

Record state := {
  pc : pc_t;
  ready : bool;
  serve : serve_state;
  cancelled : bool;      (* serveContext *)
  ctx_done : bool;       (* ctx *)
  startup_done : bool;   (* startupContext, a child of ctx *)
  retryDelay : Duration;
  trace : list event
}.

(** [retryDelay = min(retryDelay*2, policy.RetryMaximum)] *)
Definition next_delay (policy : ReadinessPolicy) (delay : Duration) : Duration :=
  Z.min (wrap64 (delay * 2)) (RetryMaximum policy).

(** The checks before anything is started. *)
Definition check_probes (probes : list Probe) : res unit :=
  reject "dependency readiness requires at least one probe" when (length probes =? 0)%nat ;;
  reject "dependency readiness probe is invalid"
    when (existsb (λ probe, String.eqb (p_Name probe) "" || negb (p_Ping probe)) probes) ;;
  Ok tt.

(** [setReady(false)], the contexts, and the goroutine that runs [serve]. *)
Definition start (policy : ReadinessPolicy) (probes : list Probe) (ctx : bool) : res state :=
  _ ← validate policy;
  _ ← check_probes probes;
  Ok {| pc := Probing; ready := false; serve := Serve_running; cancelled := false;
        ctx_done := ctx; startup_done := ctx; retryDelay := RetryMinimum policy;
        trace := [EvReady false] |}.

(** The error of the startup timeout. *)
Definition drain_result (failed : list string) (ctx : bool) (serveErr : error) : error :=
  if ctx then serveErr
  else match serveErr with
       | Some e => Some e
       | None => Some ("dependency readiness startup timeout: " +:+ join ", " failed
                       +:+ " unavailable")
       end.

(** A choice of the environment or of the scheduler. *)
Inductive choice :=
| ServeReturns (err : error)
| CtxCancelled
| StartupExpires
| ProbesAnswer (outcomes : list bool) (completion : list nat)
| TakeResult      (* receive from serveResult *)
| TakeDone        (* the Done case of a select *)
| TakeTimer       (* the timer or ticker case *)
| Continue.       (* the next statement, no choice *)

Definition set_pc (p : pc_t) (s : state) : state := {|
  pc := p; ready := ready s; serve := serve s; cancelled := cancelled s;
  ctx_done := ctx_done s; startup_done := startup_done s; retryDelay := retryDelay s;
  trace := trace s |}.
Definition set_ready (b : bool) (s : state) : state := {|
  pc := pc s; ready := b; serve := serve s; cancelled := cancelled s;
  ctx_done := ctx_done s; startup_done := startup_done s; retryDelay := retryDelay s;
  trace := EvReady b :: trace s |}.
Definition set_serve (sv : serve_state) (s : state) : state := {|
  pc := pc s; ready := ready s; serve := sv; cancelled := cancelled s;
  ctx_done := ctx_done s; startup_done := startup_done s; retryDelay := retryDelay s;
  trace := trace s |}.
Definition cancel_serve (s : state) : state := {|
  pc := pc s; ready := ready s; serve := serve s; cancelled := true;
  ctx_done := ctx_done s; startup_done := startup_done s; retryDelay := retryDelay s;
  trace := EvCancelServe :: trace s |}.
Definition set_done (ctx startup : bool) (s : state) : state := {|
  pc := pc s; ready := ready s; serve := serve s; cancelled := cancelled s;
  ctx_done := ctx; startup_done := startup; retryDelay := retryDelay s; trace := trace s |}.
Definition set_delay (d : Duration) (s : state) : state := {|
  pc := pc s; ready := ready s; serve := serve s; cancelled := cancelled s;
  ctx_done := ctx_done s; startup_done := startup_done s; retryDelay := d; trace := trace s |}.
Definition log_round (round : list string * list (string * bool)) (s : state) : state := {|
  pc := pc s; ready := ready s; serve := serve s; cancelled := cancelled s;
  ctx_done := ctx_done s; startup_done := startup_done s; retryDelay := retryDelay s;
  trace := EvRound round.1 round.2 :: trace s |}.

Section run.
Variables (policy : ReadinessPolicy) (probes : list Probe).

(** One transition; [None] when the choice is not possible in the state. *)
Definition exec (c : choice) (s : state) : option state :=
  match c, pc s with
  | ServeReturns err, _ =>
      match serve s with
      | Serve_running => Some (set_serve (Serve_sent err) s)
      | _ => None
      end
  | CtxCancelled, _ => Some (set_done true true s)
  | StartupExpires, _ => Some (set_done (ctx_done s) true s)
  | ProbesAnswer outcomes completion, Probing =>
      if (length outcomes =? length probes)%nat && complete (length probes) completion then
        let round := runProbes probes outcomes completion in
        let s := log_round round s in
        if (length round.1 =? 0)%nat then Some (set_pc Monitoring (set_ready true s))
        else Some (set_pc (Waiting round.1) s)
      else None
  | ProbesAnswer outcomes completion, Reprobing =>
      if (length outcomes =? length probes)%nat && complete (length probes) completion then
        let round := runProbes probes outcomes completion in
        Some (set_pc Monitoring
                (set_ready (length round.1 =? 0)%nat (log_round round s)))
      else None
  | TakeResult, Waiting _ | TakeResult, Monitoring | TakeResult, Stopping =>
      match serve s with
      | Serve_sent err => Some (set_pc (Returning err) (set_serve Serve_received s))
      | _ => None
      end
  | TakeResult, Draining failed =>
      match serve s with
      | Serve_sent err =>
          Some (set_pc (Returning (drain_result failed (ctx_done s) err))
                  (set_serve Serve_received s))
      | _ => None
      end
  | TakeDone, Waiting failed =>
      if startup_done s then Some (set_pc (Draining failed) (cancel_serve s)) else None
  | TakeDone, Monitoring =>
      if ctx_done s then Some (set_pc Cancelling (set_ready false s)) else None
  | TakeTimer, Waiting _ =>
      Some (set_pc Probing (set_delay (next_delay policy (retryDelay s)) s))
  | TakeTimer, Monitoring => Some (set_pc Reprobing s)
  | Continue, Cancelling => Some (set_pc Stopping (cancel_serve s))
  | Continue, Returning err => Some (set_pc (Clearing err) (cancel_serve s))
  | Continue, Clearing err => Some (set_pc (Returned err) (set_ready false s))
  | _, _ => None
  end.

Fixpoint execs (choices : list choice) (s : state) : option state :=
  match choices with
  | [] => Some s
  | c :: rest => exec c s ≫= execs rest
  end.

Definition step (s s' : state) : Prop := ∃ c, exec c s = Some s'.

(** The states of a run of the loop. *)
Definition reachable (s : state) : Prop :=
  ∃ ctx s0, start policy probes ctx = Ok s0 ∧ rtc step s0 s.

End run.

Lemma execs_rtc policy probes choices : ∀ s s',
  execs policy probes choices s = Some s' → rtc (step policy probes) s s'.
Proof.
  induction choices as [|c cs IH]; intros s s'; cbn; [by intros [= <-]|].
  destruct (exec policy probes c s) as [s1|] eqn:Hc; [|done]. cbn. intros H.
  eapply rtc_l; [by exists c|]. by apply IH.
Qed.

(** * A round does not depend on the order in which the probes finish *)

Lemma complete_spec n completion :
  complete n completion = true ↔ NoDup completion ∧ length completion = n ∧
    Forall (λ i, i < n)%nat completion.
Proof.
  unfold complete. rewrite !andb_true_iff, bool_decide_eq_true, Nat.eqb_eq, forallb_forall.
  rewrite Forall_forall. setoid_rewrite Nat.ltb_lt. setoid_rewrite list_elem_of_In. tauto.
Qed.

(** A complete order visits every index. *)
Lemma complete_all n completion i :
  complete n completion = true → (i < n)%nat → i ∈ completion.
Proof.
  rewrite complete_spec. intros (Hnd & Hlen & Hlt) Hi.
  assert (completion ≡ₚ seq 0 n) as ->.
  { apply submseteq_length_Permutation.
    - apply NoDup_submseteq; [done|]. rewrite Forall_forall in Hlt.
      intros j Hj. apply elem_of_seq. specialize (Hlt _ Hj). lia.
    - by rewrite length_seq, Hlen. }
  apply elem_of_seq. lia.
Qed.

Lemma lookup_writes {A} (g : nat → A) completion : ∀ (l : list A) j,
  foldl (λ l i, <[i := g i]> l) l completion !! j =
  if decide (j ∈ completion ∧ (j < length l)%nat) then Some (g j) else l !! j.
Proof.
  induction completion as [|i completion IH]; intros l j; cbn [foldl].
  { rewrite decide_False by set_solver. done. }
  rewrite IH, length_insert. destruct (decide (j < length l)%nat) as [Hj|Hj].
  - destruct (decide (j ∈ completion)) as [Hin|Hin].
    + rewrite !decide_True by set_solver. done.
    + rewrite decide_False by tauto. destruct (decide (i = j)) as [->|Hne].
      * rewrite list_lookup_insert_eq by done. by rewrite decide_True by set_solver.
      * rewrite list_lookup_insert_ne by done. by rewrite decide_False by set_solver.
  - rewrite !decide_False by tauto. rewrite list_lookup_insert_None || idtac.
    rewrite !(lookup_ge_None_2 _ j); [done|lia|rewrite length_insert; lia].
Qed.

Lemma failed_flags_outcomes outcomes completion :
  complete (length outcomes) completion = true →
  failed_flags outcomes completion = outcomes.
Proof.
  intros Hc. apply list_eq. intros j. unfold failed_flags.
  rewrite lookup_writes, length_replicate.
  destruct (decide (j < length outcomes)%nat) as [Hj|Hj].
  - rewrite decide_True by (split; [by eapply complete_all|done]).
    destruct (lookup_lt_is_Some_2 outcomes j Hj) as [b Hb]. by rewrite Hb.
  - rewrite decide_False by tauto. rewrite !lookup_ge_None_2; [done|lia|].
    rewrite length_replicate. lia.
Qed.

Lemma failed_names_nil probes outcomes :
  length outcomes = length probes →
  failed_names probes outcomes = [] ↔ Forall (λ failed, failed = false) outcomes.
Proof.
  revert outcomes. induction probes as [|p probes IH]; intros [|b outcomes]; try done.
  cbn. intros [= Hl]. rewrite Forall_cons, <- IH by done. destruct b; naive_solver.
Qed.

(** The probes that failed, as a selection of probes with their outcomes. *)
Lemma failed_names_zip probes outcomes :
  failed_names probes outcomes =
  (λ pf, p_Name pf.1) <$> base.filter (λ pf, pf.2 = true) (zip probes outcomes).
Proof.
  revert outcomes. induction probes as [|p probes IH]; intros [|b outcomes]; try done.
  change (zip (p :: probes) (b :: outcomes)) with ((p, b) :: zip probes outcomes).
  cbn [failed_names]. rewrite filter_cons, IH. by destruct b.
Qed.

(** The observations, made in the order of the probes. *)
Lemma observations_in_order probes : ∀ outcomes,
  length outcomes = length probes →
  omap (observation probes outcomes) (seq 0 (length probes)) =
  (λ pf, (p_Name pf.1, pf.2)) <$> base.filter (λ pf, p_Observe pf.1 = true) (zip probes outcomes).
Proof.
  induction probes as [|p probes IH]; intros [|b outcomes]; try done. intros [= Hl].
  set (f := observation (p :: probes) (b :: outcomes)).
  assert (Hcons : ∀ i (l : list nat),
            omap f (i :: l) = match f i with Some y => y :: omap f l | None => omap f l end) by done.
  assert (Hshift : ∀ l : list nat, omap f (S <$> l) = omap (observation probes outcomes) l).
  { induction l as [|i l IHl]; [done|]. rewrite fmap_cons, Hcons, IHl. done. }
  cbn [length]. rewrite <- cons_seq, <- fmap_S_seq, Hcons, Hshift, (IH outcomes Hl). unfold f.
  change (zip (p :: probes) (b :: outcomes)) with ((p, b) :: zip probes outcomes).
  rewrite filter_cons. cbn. by destruct (p_Observe p).
Qed.

(** Every complete order makes them all. *)
Lemma complete_perm n completion : complete n completion = true → completion ≡ₚ seq 0 n.
Proof.
  intros Hc. pose proof Hc as Hc'. apply complete_spec in Hc as (Hnd & Hlen & Hlt).
  apply submseteq_length_Permutation; [|by rewrite length_seq, Hlen].
  apply NoDup_submseteq; [done|]. rewrite Forall_forall in Hlt.
  intros i Hi. apply elem_of_seq. specialize (Hlt i Hi). lia.
Qed.

(** * The invariant of the loop *)

(** [setReady(true)] happens right after a round in which no probe failed. *)
Fixpoint ready_after_success (t : list event) : Prop :=
  match t with
  | [] => True
  | EvReady true :: rest =>
      (∃ observed, head rest = Some (EvRound [] observed)) ∧ ready_after_success rest
  | _ :: rest => ready_after_success rest
  end.

Fixpoint last_ready (t : list event) : option bool :=
  match t with
  | [] => None
  | EvReady b :: _ => Some b
  | _ :: rest => last_ready rest
  end.

Fixpoint last_round (t : list event) : option (list string) :=
  match t with
  | [] => None
  | EvRound failed _ :: _ => Some failed
  | _ :: rest => last_round rest
  end.

(** Where readiness may be set, where the serve context is cancelled and where
    the result of [serve] has been received. *)
Definition may_be_ready (p : pc_t) : bool :=
  match p with Monitoring | Reprobing | Returning _ | Clearing _ => true | _ => false end.
Definition must_be_cancelled (p : pc_t) : bool :=
  match p with Draining _ | Stopping | Clearing _ | Returned _ => true | _ => false end.
Definition never_cancelled (p : pc_t) : bool :=
  match p with
  | Probing | Waiting _ | Monitoring | Reprobing | Cancelling => true
  | _ => false
  end.
Definition has_received (p : pc_t) : bool :=
  match p with Returning _ | Clearing _ | Returned _ => true | _ => false end.
Definition pc_failed (p : pc_t) : option (list string) :=
  match p with Waiting failed | Draining failed => Some failed | _ => None end.

Record loop_inv (s : state) : Prop := {
  inv_ready : ready s = true → may_be_ready (pc s) = true;
  inv_cancel : must_be_cancelled (pc s) = true → cancelled s = true;
  inv_live : never_cancelled (pc s) = true → cancelled s = false;
  inv_serve : has_received (pc s) = true ↔ serve s = Serve_received;
  inv_failed : ∀ failed, pc_failed (pc s) = Some failed →
    failed ≠ [] ∧ last_round (trace s) = Some failed;
  inv_trace : last_ready (trace s) = Some (ready s);
  inv_success : ready_after_success (trace s)
}.

Lemma length_zero_nil {A} (l : list A) : (length l =? 0)%nat = true → l = [].
Proof. by destruct l. Qed.
Lemma length_zero_false {A} (l : list A) : (length l =? 0)%nat = false → l ≠ [].
Proof. by destruct l. Qed.

(** Split the result of one transition into its cases. *)
Ltac exec_cases H :=
  unfold exec in H;
  repeat (match type of H with
    | match ?x with _ => _ end = Some _ => destruct x eqn:?; try discriminate H
    | (if ?x then _ else _) = Some _ => destruct x eqn:?; try discriminate H
    end); injection H as <-.

Section invariant.
Context {policy : ReadinessPolicy} {probes : list Probe}.

Lemma start_inv ctx s : start policy probes ctx = Ok s → loop_inv s.
Proof.
  unfold start. rewrite !bind_ok. intros (_ & _ & H). rewrite bind_ok in H.
  destruct H as (_ & _ & [= <-]). by split.
Qed.

Lemma exec_inv c s s' : loop_inv s → exec policy probes c s = Some s' → loop_inv s'.
Proof.
  intros [Hr Hc Hl Hs Hf Ht Ha] H. destruct s as [p r sv ca cd sd rd tr]. cbn in *.
  exec_cases H; cbn in *; subst; split; cbn in *; try done.
  all: try (split; intros; congruence).
  all: try (by intros; simplify_eq; auto).
  - rewrite Hs. split; congruence.
  - split; [|done]. eexists. by erewrite (length_zero_nil (failed_names _ _)).
  - intros failed [= <-]. split; [|done]. by apply length_zero_false.
  - destruct (length _ =? 0)%nat eqn:E; [|done]. split; [|done].
    eexists. by erewrite (length_zero_nil (failed_names _ _)).
Qed.

Lemma reachable_inv s : reachable policy probes s → loop_inv s.
Proof.
  intros (ctx & s0 & Hs & Hrun). apply start_inv in Hs. revert Hs.
  induction Hrun as [s|s s1 s2 [c Hc] _ IH]; [done|]. intros Hs. apply IH.
  by apply (exec_inv c s).
Qed.

(** * Retry delays *)

(** The doubling cannot wrap around below 2^62 ns, about 146 years. *)
Definition no_wrap : Prop := RetryMaximum policy < 2 ^ 62.

Definition delay_ok (s : state) : Prop :=
  RetryMinimum policy ≤ retryDelay s ≤ RetryMaximum policy.

Lemma validate_ok : validate policy = Ok tt ↔
  0 < StartupTimeout policy ∧ 0 < ProbeTimeout policy ∧ 0 < ProbeInterval policy ∧
  0 < RetryMinimum policy ≤ RetryMaximum policy.
Proof.
  unfold validate. rewrite reject_ok, !orb_false_iff, !Z.leb_gt, Z.ltb_ge. naive_solver lia.
Qed.

Lemma next_delay_exact d :
  no_wrap → 0 < d ≤ RetryMaximum policy →
  next_delay policy d = Z.min (2 * d) (RetryMaximum policy).
Proof.
  unfold no_wrap, next_delay. intros Hw Hd.
  rewrite wrap64_id; [lia|]. unfold int64_min, int64_max. lia.
Qed.

Lemma exec_delay c s s' :
  no_wrap → 0 < RetryMinimum policy → delay_ok s → exec policy probes c s = Some s' → delay_ok s'.
Proof.
  unfold delay_ok. intros Hw Hmin Hd H. destruct s as [p r sv ca cd sd rd tr]. cbn in *.
  exec_cases H; cbn; try done.
  rewrite next_delay_exact by (done || lia). lia.
Qed.

Lemma reachable_delay s : no_wrap → reachable policy probes s → delay_ok s.
Proof.
  intros Hw (ctx & s0 & Hs & Hrun). unfold start in Hs. rewrite !bind_ok in Hs.
  destruct Hs as ([] & Hv & Hs). apply validate_ok in Hv.
  rewrite bind_ok in Hs. destruct Hs as (_ & _ & [= <-]).
  revert Hrun. apply rtc_ind_r; [unfold delay_ok; cbn; lia|].
  intros s1 s2 _ [c Hc] IH. apply (exec_delay c s1); (done || lia).
Qed.

(** * Shutting down *)

(** Choices other than a tick of a timer and the end of a context. *)
Definition quiet (c : choice) : bool :=
  match c with TakeTimer | CtxCancelled | StartupExpires => false | _ => true end.

Definition pc_rank (p : pc_t) : nat :=
  match p with
  | Probing => 9 | Reprobing => 8 | Waiting _ => 7 | Monitoring => 6 | Cancelling => 5
  | Draining _ => 4 | Stopping => 4 | Returning _ => 2 | Clearing _ => 1 | Returned _ => 0
  end.
Definition serve_rank (sv : serve_state) : nat :=
  match sv with Serve_running => 1 | _ => 0 end.
Definition rank (s : state) : nat := (pc_rank (pc s) + serve_rank (serve s))%nat.

(** Between two ticks the loop makes at most [rank s] transitions. *)
Lemma quiet_decreases c s s' :
  quiet c = true → exec policy probes c s = Some s' → (rank s' < rank s)%nat.
Proof.
  intros Hq H. destruct s as [p r sv ca cd sd rd tr]. unfold rank. cbn in *.
  exec_cases H; try discriminate Hq; cbn in *; subst; cbn; lia.
Qed.

(** The situation of a shutdown: the contexts are done and [serve] has returned. *)
Definition shutting_down (s : state) : Prop :=
  ctx_done s = true ∧ startup_done s = true ∧ serve s ≠ Serve_running.

Lemma quiet_shutting_down c s s' :
  shutting_down s → exec policy probes c s = Some s' → shutting_down s'.
Proof.
  unfold shutting_down. intros (Hc & Hs & Hv) H. destruct s as [p r sv ca cd sd rd tr].
  cbn in *. exec_cases H; cbn; done.
Qed.

Lemma complete_seq n : complete n (seq 0 n) = true.
Proof.
  apply complete_spec. rewrite length_seq. split_and!; [apply NoDup_seq|done|].
  apply Forall_forall. intros i Hi%elem_of_seq. lia.
Qed.

(** The loop always has a next transition then, until it has returned. *)
Lemma quiet_progress s :
  loop_inv s → shutting_down s →
  (∃ err, pc s = Returned err) ∨ ∃ c s', quiet c = true ∧ exec policy probes c s = Some s'.
Proof.
  intros [_ _ _ Hs _ _ _] (Hc & Hd & Hv).
  set (outcomes := replicate (length probes) true).
  assert (Hl : (length outcomes =? length probes)%nat &&
               complete (length probes) (seq 0 (length probes)) = true).
  { unfold outcomes. by rewrite length_replicate, Nat.eqb_refl, complete_seq. }
  assert (Hsent : has_received (pc s) = false → ∃ err, serve s = Serve_sent err).
  { intros Hn. destruct (serve s) as [|err|]; [done|by exists err|].
    destruct Hs as [_ Hs]. by rewrite Hs in Hn. }
  destruct (pc s) as [|f|f| | | | |e|e|e] eqn:Hpc; [right..|left; by exists e]; cbn in Hsent.
  - exists (ProbesAnswer outcomes (seq 0 (length probes))). unfold exec. rewrite Hpc, Hl.
    destruct (length _ =? 0)%nat; by eexists.
  - exists TakeDone. unfold exec. rewrite Hpc, Hd. by eexists.
  - exists TakeResult. unfold exec. destruct Hsent as [err Hx]; [done|].
    rewrite Hpc, Hx. by eexists.
  - exists TakeDone. unfold exec. rewrite Hpc, Hc. by eexists.
  - exists (ProbesAnswer outcomes (seq 0 (length probes))). unfold exec. rewrite Hpc, Hl.
    by eexists.
  - exists Continue. unfold exec. rewrite Hpc. by eexists.
  - exists TakeResult. unfold exec. destruct Hsent as [err Hx]; [done|].
    rewrite Hpc, Hx. by eexists.
  - exists Continue. unfold exec. rewrite Hpc. by eexists.
  - exists Continue. unfold exec. rewrite Hpc. by eexists.
Qed.

(** Every run without ticks is shorter than the rank, and can be continued
    until [Run] has returned. *)
Lemma shutdown_returns s :
  loop_inv s → shutting_down s →
  ∃ choices s' err, (length choices ≤ rank s)%nat ∧ Forall (λ c, quiet c = true) choices ∧
    execs policy probes choices s = Some s' ∧ pc s' = Returned err.
Proof.
  remember (rank s) as n eqn:Hn. revert s Hn.
  induction (lt_wf n) as [n _ IH]. intros s -> Hinv Hsd.
  destruct (quiet_progress s Hinv Hsd) as [[err Hpc]|(c & s1 & Hq & Hc)].
  - exists [], s, err. cbn. split_and!; [lia|constructor|done|done].
  - pose proof (quiet_decreases _ _ _ Hq Hc) as Hlt.
    destruct (IH _ Hlt s1 eq_refl) as (cs & s' & err & Hl & Hall & Hrun & Hpc).
    { by apply (exec_inv c s). }
    { by apply (quiet_shutting_down c s). }
    exists (c :: cs), s', err. cbn [length execs]. rewrite Hc. cbn.
    split_and!; [lia|by constructor|done|done].
Qed.
End invariant.

(** * The policy that configuration yields *)

(** The conversion the services make in their [main]. *)
Definition policy_of (p : DependencyReadiness) : ReadinessPolicy := {|
  StartupTimeout := dr_StartupTimeout p; ProbeTimeout := dr_ProbeTimeout p;
  ProbeInterval := dr_ProbeInterval p; RetryMinimum := dr_RetryMinimum p;
  RetryMaximum := dr_RetryMaximum p |}.

Lemma configured_policy v p :
  parseDependencyReadiness v = Ok p →
  validate (policy_of p) = Ok tt ∧ no_wrap (policy := policy_of p).
Proof.
  intros H. apply parseDependencyReadiness_ok in H. unfold readiness_ok in H.
  unfold no_wrap. rewrite validate_ok. cbn.
  unfold Minute, Second, Millisecond in *. lia.
Qed.
