(* ===== verification/ReadinessSpec.v ===== *)
(** What the readiness loop promises to the service around it, as a contract
    on what the service can observe: readiness, the outcome of the last round
    of probes, the serving function and its context, the result.  The loop
    refines the contract by a forward simulation; and left alone it
    brings the service to readiness. *)
From S2P Require Import Prelude GoStrings Duration Settings Policies Readiness.

Local Open Scope string_scope.
Local Open Scope Z_scope.

(** * The contract *)

Record contract := mkContract {
  c_ready : bool;
  c_failed : option (list string);  (* the last round, if there was one *)
  c_serve : option error;           (* the result of [serve], once it has one *)
  c_cancelled : bool;               (* the context [serve] runs in *)
  c_result : option error           (* the result of [Run] *)
}.

Definition timeout_text (failed : list string) : string :=
  "dependency readiness startup timeout: " +:+ join ", " failed +:+ " unavailable".

(** The result is that of [serve], or that of a startup that timed out on the
    probes that failed last. *)
Definition result_of (c : contract) (served err : error) : Prop :=
  err = served ∨
  served = None ∧ ∃ failed, c_failed c = Some failed ∧ failed ≠ [] ∧ err = Some (timeout_text failed).

Inductive contract_step : contract → contract → Prop :=
| Round c failed :                (* readiness is the outcome of the round *)
    c_cancelled c = false → c_result c = None →
    contract_step c (mkContract (length failed =? 0)%nat (Some failed) (c_serve c) false None)
| ServeEnds c err :
    c_serve c = None →
    contract_step c (mkContract (c_ready c) (c_failed c) (Some err) (c_cancelled c) (c_result c))
| Clear c :
    contract_step c (mkContract false (c_failed c) (c_serve c) (c_cancelled c) (c_result c))
| Cancel c :                      (* nobody is told ready while it is cancelled *)
    c_ready c = false ∨ is_Some (c_serve c) →
    contract_step c (mkContract (c_ready c) (c_failed c) (c_serve c) true (c_result c))
| Finish c served err :
    c_ready c = false → c_cancelled c = true → c_serve c = Some served → result_of c served err →
    c_result c = None →
    contract_step c (mkContract false (c_failed c) (c_serve c) true (Some err)).

Definition contract_init : contract := mkContract false None None false None.

(** * The simulation *)

Definition serve_related (sv : serve_state) (served : option error) : Prop :=
  match sv with
  | Serve_running => served = None
  | Serve_sent err => served = Some err
  | Serve_received => is_Some served
  end.

Definition pc_related (p : pc_t) (c : contract) : Prop :=
  match p with
  | Returning err | Clearing err =>
      c_result c = None ∧ ∃ served, c_serve c = Some served ∧ result_of c served err
  | Returned err => c_result c = Some err
  | _ => c_result c = None
  end.

Record related (s : state) (c : contract) : Prop := {
  rel_ready : c_ready c = ready s;
  rel_failed : c_failed c = last_round (trace s);
  rel_serve : serve_related (serve s) (c_serve c);
  rel_cancelled : c_cancelled c = cancelled s;
  rel_pc : pc_related (pc s) c
}.

Lemma related_result p c err : pc_related p c → p = Returned err ↔ c_result c = Some err.
Proof. destruct p; cbn; naive_solver. Qed.

Lemma start_related policy probes ctx s :
  start policy probes ctx = Ok s → related s contract_init.
Proof.
  unfold start. rewrite !bind_ok. intros (_ & _ & H). rewrite bind_ok in H.
  destruct H as (_ & _ & [= <-]). by split.
Qed.

Section simulation.
Context {policy : ReadinessPolicy} {probes : list Probe}.

(** The error that [drain_result] gives is one the contract allows. *)
Lemma drained_result c failed ctx served :
  c_failed c = Some failed → failed ≠ [] → result_of c served (drain_result failed ctx served).
Proof.
  intros Hf Hne. unfold drain_result. destruct ctx; [by left|].
  destruct served as [e|]; [by left|]. right. split; [done|]. by exists failed.
Qed.

(** One step of the contract, or none. *)
Local Ltac stutter := eexists; split; [apply rtc_refl|split; cbn; eauto].
Local Ltac by_step r :=
  eexists; split; [apply rtc_once; eapply r; cbn; eauto|split; cbn; eauto].

(** The result of [serve] is the result of the loop. *)
Local Ltac taken := split; [done|]; eexists; split; [eassumption|by left].

Lemma exec_simulated ch s c s' :
  loop_inv s → related s c → exec policy probes ch s = Some s' →
  ∃ c', rtc contract_step c c' ∧ related s' c'.
Proof.
  intros [Hr Hc Hl Hs Hf _ _] [Er Ef Es Ec Ep] H.
  assert (Hnr : may_be_ready (pc s) = false → ready s = false).
  { intros Hm. apply not_true_is_false. intros Ht. specialize (Hr Ht). congruence. }
  destruct s as [p r sv ca cd sd rd tr], c as [cr cf cs cc cres]. cbn in * |-. subst.
  exec_cases H; cbn in * |-; subst; cbn in * |-.
  - by_step ServeEnds. destruct p; try done; by destruct Hs as [Hs _]; specialize (Hs eq_refl).
  - stutter.
  - stutter.
  - by_step Round. symmetry. by apply Hl.
  - by_step Round; [by rewrite Hnr|symmetry; by apply Hl].
  - by_step Round. symmetry. by apply Hl.
  - stutter. taken.
  - stutter. split; [done|]. exists err. split; [done|]. by apply drained_result; apply Hf.
  - stutter. taken.
  - stutter. taken.
  - by_step Cancel.
  - by_step Clear.
  - stutter.
  - stutter.
  - by_step Cancel.
  - by_step Cancel. right. destruct Ep as (_ & served & -> & _). by eexists.
  - destruct Ep as (Hres & served & Hsv & Hof). eexists. split.
    { eapply rtc_l; [apply Clear|]. apply rtc_once. by apply (Finish _ served err); cbn; auto. }
    split; cbn; auto. symmetry. by apply Hc.
Qed.
End simulation.

(** * Left undisturbed *)

Section undisturbed.
Context {policy : ReadinessPolicy} {probes : list Probe}.

(** The two loops, and the second. *)
Definition looping (p : pc_t) : bool :=
  match p with Probing | Waiting _ | Monitoring | Reprobing => true | _ => false end.
Definition monitoring (p : pc_t) : bool :=
  match p with Monitoring | Reprobing => true | _ => false end.

(** What happens to a service that is left alone: its timers fire, its pings
    succeed, and the loop takes whichever case of a [select] it can; but [serve]
    does not return and nobody cancels [ctx].  The startup timer fires once,
    and not before the first loop is over. *)
Definition favourable (c : choice) (s : state) : bool :=
  match c with
  | ServeReturns _ | CtxCancelled => false
  | StartupExpires => monitoring (pc s) && negb (startup_done s)
  | ProbesAnswer outcomes _ => forallb negb outcomes
  | TakeResult | TakeDone | TakeTimer | Continue => true
  end.

Definition favourable_step (s s' : state) : Prop :=
  ∃ c, favourable c s = true ∧ exec policy probes c s = Some s'.

(** However the run goes on, it reaches a state of [P], and it can go on until
    then. *)
Inductive eventually (P : state → Prop) (s : state) : Prop :=
| Now : P s → eventually P s
| Later :
    (∃ s', favourable_step s s') → (∀ s', favourable_step s s' → eventually P s') →
    eventually P s.

Definition ever_after (P : state → Prop) (s : state) : Prop :=
  ∀ s', rtc favourable_step s s' → P s'.

Lemma clean_round outcomes completion :
  (length outcomes =? length probes)%nat && complete (length probes) completion = true →
  forallb negb outcomes = true →
  failed_names probes (failed_flags outcomes completion) = [].
Proof.
  intros [Hl%Nat.eqb_eq Hc]%andb_prop Hn. rewrite failed_flags_outcomes by by rewrite Hl.
  apply failed_names_nil; [done|]. apply Forall_forall. intros b Hb.
  rewrite forallb_forall in Hn. apply negb_true_iff, Hn. by apply list_elem_of_In.
Qed.

(** [serve] runs, [ctx] is live, and the first loop is within its time. *)
Definition calm (s : state) : Prop :=
  looping (pc s) = true ∧ serve s = Serve_running ∧ ctx_done s = false ∧
  (monitoring (pc s) = true ∨ startup_done s = false).

(** The second loop, after a round without failures. *)
Definition up (s : state) : Prop :=
  calm s ∧ monitoring (pc s) = true ∧ ready s = true.

(** What is left to do: a timer, a round, and the startup timer meanwhile. *)
Definition to_go (s : state) : nat :=
  (match pc s with Waiting _ | Monitoring => 4 | _ => 2 end + if startup_done s then 0 else 1)%nat.

Lemma calm_step s s' :
  calm s → favourable_step s s' →
  calm s' ∧ (up s' ∨ (to_go s' < to_go s)%nat) ∧ (up s → up s').
Proof.
  intros (Hl & Hs & Hc & Hm) (c & Hf & H). destruct s as [p r sv ca cd sd rd tr].
  unfold up, calm, to_go. cbn in * |-.
  exec_cases H; cbn in * |-; simplify_eq; cbn in *; simplify_eq.
  all: try (destruct Hm; discriminate).
  all: rewrite ?clean_round in * by done; cbn in *; try discriminate.
  all: try (apply andb_prop in Hf as [Hf Hsd]).
  all: split; [by intuition congruence|]; split; [|by intuition congruence].
  all: first [left; by intuition congruence | right; destruct sd; (discriminate || lia)].
Qed.

(** The round of probes that succeeds in the state. *)
Lemma round_possible s :
  pc s = Probing ∨ pc s = Reprobing → ∃ s', favourable_step s s'.
Proof.
  intros Hpc. set (outcomes := replicate (length probes) false).
  assert (Hl : (length outcomes =? length probes)%nat &&
               complete (length probes) (seq 0 (length probes)) = true).
  { unfold outcomes. by rewrite length_replicate, Nat.eqb_refl, complete_seq. }
  assert (Hq : favourable (ProbesAnswer outcomes (seq 0 (length probes))) s = true).
  { cbn. unfold outcomes. clear. by induction (length probes). }
  enough (∃ s', exec policy probes (ProbesAnswer outcomes (seq 0 (length probes))) s = Some s')
    as [s' Hs'] by (exists s'; by eexists).
  unfold exec. destruct Hpc as [-> | ->]; rewrite Hl; [destruct (length _ =? 0)%nat|]; by eexists.
Qed.

Lemma calm_goes_on s : calm s → ∃ s', favourable_step s s'.
Proof.
  intros (Hl & _). destruct (pc s) as [|failed|failed| | | | | | |] eqn:Hpc; try discriminate Hl.
  - apply round_possible. by left.
  - eexists _, TakeTimer. split; [done|]. unfold exec. by rewrite Hpc.
  - eexists _, TakeTimer. split; [done|]. unfold exec. by rewrite Hpc.
  - apply round_possible. by right.
Qed.

Lemma up_stays s : up s → ever_after up s.
Proof.
  intros Hup s' Hrun. induction Hrun as [s|s s1 s' Hstep _ IH]; [done|].
  apply IH. destruct (calm_step s s1 (proj1 Hup) Hstep) as (_ & _ & H). auto.
Qed.

Lemma calm_comes_up s : calm s → eventually (ever_after up) s.
Proof.
  remember (to_go s) as n eqn:Hn. revert s Hn.
  induction (lt_wf n) as [n _ IH]. intros s -> Hcalm.
  apply Later; [by apply calm_goes_on|]. intros s' Hstep.
  destruct (calm_step s s' Hcalm Hstep) as (Hc' & [Hup|Hlt] & _).
  - by apply Now, up_stays.
  - by apply (IH (to_go s')).
Qed.
End undisturbed.

(** * What a running service shows *)

Section evidence.
Context {policy : ReadinessPolicy} {probes : list Probe}.

(** A service is ready on the strength of its last round of probes. *)
Definition ready_by_last_round (s : state) : Prop :=
  ready s = true → last_round (trace s) = Some [].

Lemma exec_last_round c s s' :
  loop_inv s → ready_by_last_round s → exec policy probes c s = Some s' → ready_by_last_round s'.
Proof.
  intros [Hr _ _ _ _ _ _] Hl H. unfold ready_by_last_round in *.
  destruct s as [p r sv ca cd sd rd tr]. cbn in * |-.
  exec_cases H; cbn in * |- *; subst; try done; intros Hz.
  - by rewrite (length_zero_nil (failed_names _ _)).
  - specialize (Hr Hz). done.
  - by rewrite (length_zero_nil (failed_names _ _)).
Qed.

Lemma reachable_last_round s : reachable policy probes s → ready_by_last_round s.
Proof.
  intros (ctx & s0 & Hs & Hrun).
  assert (Hrs : ∀ s1, rtc (step policy probes) s0 s1 → loop_inv s1).
  { intros s1 H1. apply (reachable_inv (policy := policy) (probes := probes)). by exists ctx, s0. }
  revert Hrun. apply rtc_ind_r.
  - unfold start in Hs. rewrite !bind_ok in Hs. destruct Hs as (_ & _ & Hs).
    rewrite bind_ok in Hs. by destruct Hs as (_ & _ & [= <-]).
  - intros s1 s2 H1 [c Hc] IH. by apply (exec_last_round c s1 s2 (Hrs s1 H1)).
Qed.
End evidence.

(** * The properties *)

Section properties.
Context {policy : ReadinessPolicy} {probes : list Probe}.

(** C5: the loop refines its contract: it starts in the contract's initial
    state, every transition from a state it can reach is matched by
    transitions of the contract, and so each of its runs has a run of the
    contract with the same readiness, cancellation, last round and result. *)
Theorem loop_refines_contract ctx s0 :
  start policy probes ctx = Ok s0 →
  related s0 contract_init ∧
  (∀ s s' c, rtc (step policy probes) s0 s → step policy probes s s' → related s c →
     ∃ c', rtc contract_step c c' ∧ related s' c') ∧
  (∀ s, rtc (step policy probes) s0 s →
     ∃ c, rtc contract_step contract_init c ∧ c_ready c = ready s ∧ c_cancelled c = cancelled s ∧
       c_failed c = last_round (trace s) ∧
       ∀ err, pc s = Returned err ↔ c_result c = Some err).
Proof.
  intros Hstart. pose proof (start_related _ _ _ _ Hstart) as Hinit.
  assert (Hinv : ∀ s, rtc (step policy probes) s0 s → loop_inv s).
  { intros s Hs. apply (reachable_inv (policy := policy) (probes := probes)). by exists ctx, s0. }
  assert (Hsim : ∀ s, rtc (step policy probes) s0 s →
            ∃ c, rtc contract_step contract_init c ∧ related s c).
  { apply rtc_ind_r; [exists contract_init; split; [apply rtc_refl|done]|].
    intros s s' Hs [ch Hch] (c & Hc & Hrel).
    destruct (exec_simulated ch s c s' (Hinv s Hs) Hrel Hch) as (c' & Hcc & Hrel').
    exists c'. split; [by etrans|done]. }
  split_and!; [done| |].
  - intros s s' c Hs [ch Hch] Hrel. exact (exec_simulated ch s c s' (Hinv s Hs) Hrel Hch).
  - intros s Hs. destruct (Hsim s Hs) as (c & Hc & [Er Ef _ Ec Ep]).
    exists c. split_and!; [done..|]. intros err. exact (related_result _ _ err Ep).
Qed.

(** C8: a service that is left alone becomes ready.  Take any state of the two
    loops that a run can reach, whatever rounds failed before, in which [serve]
    runs, [ctx] is live and the first loop, if it is still in it, is within the
    startup time.  If from then on the pings succeed, [serve] goes on, [ctx]
    stays live and the startup timer does not fire before the first loop is
    over, then every way to go on comes to a state from which on the service is
    ready, on the strength of its last round, with a live serve context, for
    as long as this lasts; no way gets stuck before; and that the startup
    timer fires once the service monitors changes nothing. *)
Theorem undisturbed_service_becomes_ready s :
  reachable policy probes s → looping (pc s) = true →
  serve s = Serve_running → ctx_done s = false →
  monitoring (pc s) = true ∨ startup_done s = false →
  eventually (policy := policy) (probes := probes)
    (ever_after (policy := policy) (probes := probes)
       (λ s, ready s = true ∧ last_round (trace s) = Some [] ∧ cancelled s = false)) s.
Proof.
  intros Hreach Hl Hs Hc Hm.
  assert (He := calm_comes_up (policy := policy) (probes := probes) s (conj Hl (conj Hs (conj Hc Hm)))).
  assert (Hkeep : ∀ s s', reachable policy probes s →
            favourable_step (policy := policy) (probes := probes) s s' → reachable policy probes s').
  { intros s1 s2 (ctx & s0 & Hs0 & Hrun) (c & _ & Hstep). exists ctx, s0. split; [done|].
    eapply rtc_r; [exact Hrun|]. by exists c. }
  clear Hl Hs Hc Hm. revert Hreach. induction He as [s Hever|s Hcan Hnext IH]; intros Hreach.
  - apply Now. intros s' Hrun. destruct (Hever s' Hrun) as ((Hl & _) & Hm & Hr).
    assert (Hreach' : reachable policy probes s').
    { clear -Hrun Hreach Hkeep. induction Hrun as [s|s s1 s' Hstep _ IH]; [done|]. eauto. }
    split_and!; [done|exact (reachable_last_round s' Hreach' Hr)|].
    apply (inv_live _ (reachable_inv s' Hreach')). by destruct (pc s').
  - apply Later; [done|]. intros s' Hstep. apply (IH s' Hstep). eauto.
Qed.
End properties.

(** ** The hypotheses can hold *)

Definition demo_probes : list Probe :=
  [{| p_Name := "postgres"; p_Ping := true; p_Observe := true |};
   {| p_Name := "redis"; p_Ping := true; p_Observe := true |}].
Definition demo_start (ctx : bool) : res state := start DefaultReadinessPolicy demo_probes ctx.

(** One probe fails, the startup time is over, [serve] gives up. *)
Definition demo_timeout : list choice :=
  [ProbesAnswer [true; false] [1; 0]%nat; StartupExpires; TakeDone; ServeReturns None; TakeResult;
   Continue; Continue].

Lemma loop_refines_contract_witness :
  ∃ c, rtc contract_step contract_init c ∧ c_result c = Some (Some (timeout_text ["postgres"])).
Proof.
  destruct (demo_start false) as [s0|e] eqn:Hs; [|vm_compute in Hs; discriminate Hs].
  destruct (execs DefaultReadinessPolicy demo_probes demo_timeout s0) as [s|] eqn:He;
    [|vm_compute in Hs; injection Hs as <-; vm_compute in He; discriminate He].
  destruct (@loop_refines_contract DefaultReadinessPolicy demo_probes false s0 Hs) as (_ & _ & H).
  destruct (H s (execs_rtc _ _ _ _ _ He)) as (c & Hc & _ & _ & _ & Hres).
  exists c. split; [exact Hc|]. apply Hres.
  vm_compute in Hs. injection Hs as <-. vm_compute in He. injection He as <-. vm_compute. reflexivity.
Defined.

(** A service whose first round failed. *)
Lemma becomes_ready_witness :
  ∃ s, reachable DefaultReadinessPolicy demo_probes s ∧
    last_round (trace s) = Some ["postgres"] ∧
    eventually (policy := DefaultReadinessPolicy) (probes := demo_probes)
      (ever_after (policy := DefaultReadinessPolicy) (probes := demo_probes)
         (λ s, ready s = true ∧ last_round (trace s) = Some [] ∧ cancelled s = false)) s.
Proof.
  destruct (demo_start false) as [s0|e] eqn:Hs; [|vm_compute in Hs; discriminate Hs].
  destruct (execs DefaultReadinessPolicy demo_probes [ProbesAnswer [true; false] [1; 0]%nat] s0)
    as [s|] eqn:He; [|vm_compute in Hs; injection Hs as <-; vm_compute in He; discriminate He].
  assert (Hreach : reachable DefaultReadinessPolicy demo_probes s).
  { exists false, s0. split; [exact Hs|exact (execs_rtc _ _ _ _ _ He)]. }
  exists s. vm_compute in Hs. injection Hs as <-. vm_compute in He. injection He as <-.
  split; [exact Hreach|]. split; [reflexivity|].
  exact (undisturbed_service_becomes_ready _ Hreach eq_refl eq_refl eq_refl (or_intror eq_refl)).
Defined.
