(* ===== verification/Dependency.v ===== *)
(** [internal/dependency/dependency.go]: the clients of PostgreSQL and Redis
    that a service opens, and the probes it watches them with.

    The client libraries are third-party code, arguments of the model: what
    they make of a connection URL ([Pgx], [GoRedis]) and whether a pool can be
    created.  The calls made on them are recorded. *)
From S2P Require Import Prelude GoStrings Strconv Duration Net Url Secrets Config Readiness.

Local Open Scope string_scope.
Local Open Scope Z_scope.

(** [pgxpool.ParseConfig]: a configuration, as far as nobody here looks into
    it; [pgxpool.NewWithConfig] can fail. *)
Class Pgx := {
  PgxConfig : Type;
  pgxpool_ParseConfig : string → option PgxConfig
}.

(** [redis.ParseURL]: the number of the database and all other options. *)
Class GoRedis := {
  RedisParsed : Type;
  redis_ParseURL : string → option (Z * RedisParsed)
}.

Section clients.
Context `{Pgx} `{GoRedis}.

(** [pgxpool.Config]: what was parsed, and the fields set afterwards. *)
Record PoolConfig := {
  pc_parsed : PgxConfig;
  MinConns : Z;
  MaxConns : Z;
  ConnectTimeout : Duration
}.

(** [redis.Options] *)
Record Options := {
  ro_parsed : RedisParsed;
  DB : Z;
  Protocol : Z;
  DisableIdentity : bool;
  MaintNotifications : bool;
  MaxRetries : Z;
  DialerRetries : Z;
  DialTimeout : Duration;
  ReadTimeout : Duration;
  WriteTimeout : Duration;
  ContextTimeoutEnabled : bool;
  PoolSize : Z;
  MaxActiveConns : Z
}.

(** A nil pointer is [None]. *)
Record Clients := { PostgreSQL : option PoolConfig; RedisClient : option Options }.

Definition connectionURL (database : Database) : URL := {|
  Scheme := "postgres"; Opaque_ := "";
  User := Some {| ui_username := db_User database;
                  ui_password := Reveal (db_Password database); ui_passwordSet := true |};
  Host := JoinHostPort (db_Host database) (itoa (db_Port database));
  Path := db_Name database; RawPath := ""; OmitHost := false; ForceQuery := false;
  RawQuery := encode_value "sslmode" (db_SSLMode database);
  Fragment := ""; RawFragment := "" |}.

Definition postgresPoolConfig (database : Database) (probeTimeout : Duration)
    : option PoolConfig :=
  match pgxpool_ParseConfig (URL_String (connectionURL database)) with
  | None => None
  | Some parsed => Some {|
      pc_parsed := parsed;
      MinConns := int32 (db_MinConnections database);
      MaxConns := int32 (db_MaxConnections database);
      ConnectTimeout := probeTimeout |}
  end.

Definition redisOptions (redisConfig : Redis) (probeTimeout : Duration) : option Options :=
  match redis_ParseURL (Reveal (redis_URL redisConfig)) with
  | None => None
  | Some (db, parsed) =>
      if negb (db =? 0) then None
      else Some {|
        ro_parsed := parsed; DB := db; Protocol := 2; DisableIdentity := true;
        MaintNotifications := false; MaxRetries := -1; DialerRetries := 1;
        DialTimeout := probeTimeout; ReadTimeout := probeTimeout;
        WriteTimeout := probeTimeout; ContextTimeoutEnabled := true;
        PoolSize := redis_MaxConnections redisConfig;
        MaxActiveConns := redis_MaxConnections redisConfig |}
  end.

(** The calls on the clients. *)
Inductive client_call :=
| CreatePool (c : PoolConfig) | ClosePool (c : PoolConfig)
| CreateRedis (o : Options) | CloseRedis (o : Options).

(** [Open]; [pool_ok] is whether the pool can be created. *)
Definition Open (pool_ok : bool) (database : Database) (redisConfig : Redis)
    (probeTimeout : Duration) : list client_call * res Clients :=
  match postgresPoolConfig database probeTimeout with
  | None => ([], Err "configure PostgreSQL client")
  | Some postgresConfig =>
      if negb pool_ok then ([CreatePool postgresConfig], Err "configure PostgreSQL client")
      else match redisOptions redisConfig probeTimeout with
      | None => ([CreatePool postgresConfig; ClosePool postgresConfig],
                 Err "configure Redis client")
      | Some options =>
          ([CreatePool postgresConfig; CreateRedis options],
           Ok {| PostgreSQL := Some postgresConfig; RedisClient := Some options |})
      end
  end.

Definition Close (c : option Clients) : list client_call :=
  match c with
  | None => []
  | Some c =>
      ((match RedisClient c with Some o => [CloseRedis o] | None => [] end) ++
       (match PostgreSQL c with Some p => [ClosePool p] | None => [] end))%list
  end.

(** [Clients.Probes]: both clients are pinged and observed. *)
Definition Probes : list Probe :=
  [{| p_Name := "postgresql"; p_Ping := true; p_Observe := true |};
   {| p_Name := "redis"; p_Ping := true; p_Observe := true |}].
End clients.
