(* ===== verification/Connection.v ===== *)
(** The connection URL of PostgreSQL: what the driver reads from it is what
    the configuration put in. *)
From S2P Require Import Prelude GoStrings Strconv Duration Settings Net Url UrlFacts Os Secrets Policies Config Readiness Dependency.

Local Open Scope string_scope.
Local Open Scope Z_scope.

(** A DNS name or an IPv4 address; an IPv6 address without zone. *)
Definition name_byte (c : ascii) : bool := is_alnum c || among c "-._~".
Definition host_name (h : string) : Prop := h ≠ "" ∧ all_bytes name_byte h = true.

Definition ipv6_byte (c : ascii) : bool := is_alnum c || among c ".:".
Definition host_ipv6 (h : string) : Prop :=
  contains_byte ":" h = true ∧ all_bytes ipv6_byte h = true ∧
  ∃ a, ParseAddr h = Some a ∧ Is4 a = false.

Definition port_text (port : Z) : string := String ":" (itoa port).

Lemma itoa_digits port : 0 ≤ port → all_bytes is_digit (itoa port) = true.
Proof.
  intros H. unfold itoa. destruct (Z.ltb_spec port 0); [lia|]. by apply format_uint_digits.
Qed.

Lemma port_text_ok port : 0 ≤ port →
  ParseURL.validOptionalPort (port_text port) = true ∧
  all_bytes host_byte (port_text port) = true.
Proof.
  intros H. apply itoa_digits in H. unfold port_text. cbn [ParseURL.validOptionalPort all_bytes].
  split; [by rewrite H|]. change (host_byte ":") with true. cbn [andb].
  revert H. apply all_bytes_impl. apply (ascii_impl is_digit host_byte). vm_compute. done.
Qed.

Lemma zone_index_free s : free "%" s = true → ParseURL.zone_index s = None.
Proof.
  induction s as [|c s IH]; [done|]. intros [Hc Hs]%free_cons.
  cbn [ParseURL.zone_index has_prefix].
  rewrite (proj2 (Ascii.eqb_neq "%" c)) by congruence. cbn [andb]. by rewrite IH.
Qed.

Lemma free_of (P : ascii → bool) c s : all_bytes P s = true → P c = false → free c s = true.
Proof.
  intros Hs Hc. eapply all_bytes_impl; [|exact Hs]. intros d Hd. apply negb_true_iff.
  apply Ascii.eqb_neq. by intros ->; rewrite Hc in Hd.
Qed.

Lemma join_host_name h port : host_name h → 0 ≤ port →
  host_ok (JoinHostPort h (itoa port)).
Proof.
  intros [Hne Hb] Hp. apply port_text_ok in Hp as [Hv Hpb].
  assert (Hh : all_bytes host_byte h = true).
  { revert Hb. apply all_bytes_impl. apply (ascii_impl name_byte host_byte). vm_compute. done. }
  unfold JoinHostPort.
  rewrite contains_byte_free by (by apply (free_of name_byte)).
  change (h +:+ ":" +:+ itoa port) with (h +:+ port_text port).
  assert (Ha : all_bytes host_byte (h +:+ port_text port) = true)
    by (by rewrite all_bytes_app, Hh, Hpb).
  destruct (host_plain _ Ha) as [He Hu]. split_and!.
  - by destruct h.
  - revert Ha. apply all_bytes_impl. intros c. unfold hostport_byte. by intros ->.
  - exact He.
  - unfold ParseURL.parseHost.
    rewrite last_index_free by (by apply (free_of host_byte)).
    assert (last_index ":" (h +:+ port_text port) = Some (String.length h)) as ->.
    { apply last_index_app. apply (free_of is_digit); [|done].
      unfold port_text in Hv. cbn in Hv. exact Hv. }
    by rewrite sdrop_app, Hv.
Qed.

(** A bracketed IPv6 address with its port. *)
Lemma join_host_ipv6 h port : host_ipv6 h → 0 ≤ port →
  host_ok (JoinHostPort h (itoa port)).
Proof.
  intros (Hc & Hb & a & Ha & H4) Hp. apply port_text_ok in Hp as [Hv Hpb].
  assert (Hh : all_bytes host_byte h = true).
  { revert Hb. apply all_bytes_impl. apply (ascii_impl ipv6_byte host_byte). vm_compute. done. }
  unfold JoinHostPort. rewrite Hc.
  set (host := "[" +:+ h +:+ "]:" +:+ itoa port).
  assert (Hhost : host = String "[" (h +:+ String "]" (port_text port))) by done.
  clearbody host. subst host.
  destruct (host_plain h Hh) as [He Hu], (host_plain _ Hpb) as [Hep Hup].
  assert (Happ : ∀ s t, escape (s +:+ t) encodeHost = escape s encodeHost +:+ escape t encodeHost).
  { induction s as [|c s IH]; intros t; [done|]. cbn [String.append escape].
    rewrite IH. by destruct (shouldEscape c encodeHost). }
  split_and!.
  - done.
  - cbn [all_bytes]. rewrite all_bytes_app. cbn [all_bytes].
    assert (K : ∀ s, all_bytes host_byte s = true → all_bytes hostport_byte s = true).
    { intros s. apply all_bytes_impl. intros c. unfold hostport_byte. by intros ->. }
    by rewrite (K h Hh), (K _ Hpb).
  - cbn [escape]. change (shouldEscape "[" encodeHost) with false. cbn iota.
    rewrite Happ, He. cbn [escape]. change (shouldEscape "]" encodeHost) with false. cbn iota.
    by rewrite Hep.
  - unfold ParseURL.parseHost.
    assert (last_index "[" (String "[" (h +:+ String "]" (port_text port))) = Some 0%nat) as ->.
    { apply (last_index_app "[" ""). rewrite free_app.
      rewrite (free_of ipv6_byte "[" h) by done.
      cbn [andb]. apply free_cons. split; [done|]. by apply (free_of host_byte). }
    assert (last_index "]" (String "[" (h +:+ String "]" (port_text port))) =
      Some (S (String.length h))) as ->.
    { apply (last_index_app "]" (String "[" h)). by apply (free_of host_byte). }
    cbn [Nat.eqb negb].
    change (drop (S (S (String.length h))) (String "[" (h +:+ String "]" (port_text port))))
      with (drop (S (String.length h)) (h +:+ String "]" (port_text port))).
    rewrite sdrop_app_S, Hv. cbn [negb drop].
    cbn [Nat.sub]. rewrite Nat.sub_0_r, stake_app.
    rewrite zone_index_free by (by apply (free_of ipv6_byte)). by rewrite Hup, Hu, Ha, H4.
Qed.

(** The modes of TLS are printed as they are. *)
Lemma sslmode_query environment mode : sslmode_ok environment mode →
  encode_value "sslmode" mode = "sslmode=" +:+ mode ∧ query_ok (encode_value "sslmode" mode).
Proof.
  intros [Hm _]. rewrite !elem_of_cons, elem_of_nil in Hm.
  by destruct Hm as [->|[->|[->|[->|[]]]]].
Qed.

Lemma parseDatabase_name {os : OS} v settings d :
  parseDatabase v settings = Ok d → db_Name d ≠ "".
Proof.
  unfold parseDatabase. intros H. res_inv H. subst d. cbn.
  unfold cleanNonempty in Hr. res_inv Hr. apply orb_false_iff in Hg1 as [Hne _].
  by apply String.eqb_neq.
Qed.

Lemma connection_built d : host_name (db_Host d) ∨ host_ipv6 (db_Host d) → 0 ≤ db_Port d →
  db_Name d ≠ "" → query_ok (encode_value "sslmode" (db_SSLMode d)) →
  ∃ raw, url_Parse (URL_String (connectionURL d)) =
    Some (set_path_raw (connectionURL d) (rooted (db_Name d)) raw).
Proof.
  intros Hh Hp Hn Hq. apply url_Parse_built; [done| |done|done].
  destruct Hh as [Hh|Hh]; [by apply join_host_name|by apply join_host_ipv6].
Qed.
