(* ===== verification/Lifecycle.v ===== *)
(** The life of a service around its readiness loop: [internal/runtime],
    [internal/httpserver] and [internal/buildinfo]. *)
From S2P Require Import Prelude GoStrings Duration.

Local Open Scope string_scope.
Local Open Scope Z_scope.

(** * [internal/httpserver/health.go] *)
Module Health.

Record Health := { ready : bool }.
Definition SetReady (ready : bool) (h : Health) : Health := {| ready := ready |}.
Definition Ready (h : Health) : bool := ready h.

(** What a handler writes: status, headers in the order they are set, body. *)
Record response := { status : Z; headers : list (string * string); body : string }.

Definition StatusOK : Z := 200.
Definition StatusServiceUnavailable : Z := 503.

Definition quoted (s : string) : string := String "034" s +:+ String "034" "".

(** [json.Encoder.Encode] of a map with one plain entry, and its line feed. *)
Definition encode_status (state : string) : string :=
  "{" +:+ quoted "status" +:+ ":" +:+ quoted state +:+ "}" +:+ String "010" "".

Definition writeHealth (status : Z) (state : string) : response := {|
  status := status;
  headers := [("Cache-Control", "no-store"); ("Content-Type", "application/json")];
  body := encode_status state |}.

Definition live : response := writeHealth StatusOK "live".

Definition readiness (h : Health) : response :=
  if negb (ready h) then writeHealth StatusServiceUnavailable "not_ready"
  else writeHealth StatusOK "ready".

End Health.

(** * [internal/httpserver/server.go] *)
Module HttpServer.

Abbreviation error := (option string).

(** The errors that [http.Server.Serve] returns: [errors.Is] tells the first
    one from the rest. *)
Inductive serve_err := ErrServerClosed | OtherError (text : string).

Definition serve_text (e : serve_err) : string :=
  match e with ErrServerClosed => "http: Server closed" | OtherError text => text end.

(** What the goroutines and the library do during one call of [Serve]: the
    serve goroutine ends first, or the context does, and then [Shutdown] and
    the serve goroutine have results of their own. *)
Inductive observed :=
| ServeEnds (err : option serve_err)
| ContextEnds (shutdown : error) (err : option serve_err).

Inductive call := CallShutdown (grace : Duration) | CallClose | AwaitServe.

(** The [http.Server] with its handler, and the grace it is given. *)
Record Server (H : Type) := mkServer {
  Addr : string; server_Handler : H; ReadHeaderTimeout : Duration; shutdownGrace : Duration
}.
Arguments mkServer {H}.
Arguments Addr {H}.
Arguments server_Handler {H}.
Arguments ReadHeaderTimeout {H}.
Arguments shutdownGrace {H}.

Definition New {H} (address : string) (handler : H) (shutdownGrace : Duration) : Server H :=
  mkServer address handler (10 * Second) shutdownGrace.

Definition Serve {H} (s : Server H) (o : observed) : list call * error :=
  match o with
  | ServeEnds (Some ErrServerClosed) => ([AwaitServe], None)
  | ServeEnds (Some e) => ([AwaitServe], Some ("serve operational HTTP: " +:+ serve_text e))
  | ServeEnds None => ([AwaitServe], Some "serve operational HTTP: %!w(<nil>)")
  | ContextEnds (Some e) _ =>
      ([CallShutdown (shutdownGrace s); CallClose; AwaitServe],
       Some ("shut down operational HTTP: " +:+ e))
  | ContextEnds None (Some (OtherError e)) =>
      ([CallShutdown (shutdownGrace s); AwaitServe], Some ("serve operational HTTP: " +:+ e))
  | ContextEnds None _ => ([CallShutdown (shutdownGrace s); AwaitServe], None)
  end.

(** [Run]: bind the listener, then serve; [Listen] is [net.Listen] on TCP. *)
Definition Run {H} (s : Server H) (Listen : string → error) (o : observed) : list call * error :=
  match Listen (Addr s) with
  | Some e => ([], Some ("listen on operational HTTP address: " +:+ e))
  | None => Serve s o
  end.

End HttpServer.

(** * [internal/buildinfo] *)
Module BuildInfo.

Definition defaultVersion : string := "dev".
Definition defaultRevision : string := "unknown".

(** [Version] and [Revision] are set by the linker. *)
Section build.
Variables (Version Revision : string).

Definition GetVersion : string := if String.eqb Version "" then defaultVersion else Version.
Definition GetRevision : string := if String.eqb Revision "" then defaultRevision else Revision.

(** The line written, if the only argument asks for the version. *)
Definition WriteVersion (arguments : list string) (name : string) : option string :=
  match arguments with
  | [argument] =>
      if String.eqb argument "-v" || String.eqb argument "--version" ||
         String.eqb argument "version"
      then Some (name +:+ " " +:+ GetVersion +:+ " (revision " +:+ GetRevision +:+ ")"
                 +:+ String "010" "")
      else None
  | _ => None
  end.
End build.
End BuildInfo.

(** * [internal/runtime] *)
Module Runtime.

Abbreviation error := (option string).

(** [Run]: the calls of package [os/signal] around [run], and its result. *)
Inductive signal_call := NotifyContext (signals : list string) | RunProcess | StopNotify.
Definition Run (run : error) : list signal_call * error :=
  ([NotifyContext ["SIGINT"; "SIGTERM"]; RunProcess; StopNotify], run).

(** [RunWithoutReadiness]: the calls of [setReady] around [run]. *)
Inductive action := SetReady (b : bool) | RunService.
Definition RunWithoutReadiness (run : error) : list action * error :=
  ([SetReady false; RunService; SetReady false], run).

(** [RunInitialized] is two goroutines: the caller, which runs the service,
    and a watcher of the context. *)
Inductive main_pc :=
| M_check | M_refuse | M_ready | M_spawn | M_running
| M_close (err : error) | M_clear (err : error) | M_cancel (err : error)
| M_returned (err : error).
Inductive watch_pc := W_none | W_select | W_clear | W_cancel | W_exit.

Record state := {
  main : main_pc;
  watch : watch_pc;
  ready : bool;
  ctx_err : error;      (* nil until the context ends *)
  cancelled : bool;     (* serveContext *)
  finished : bool       (* the channel is closed *)
}.

(** The caller's first statement is next; readiness is what it was before. *)
Definition init (was_ready : bool) : state := {|
  main := M_check; watch := W_none; ready := was_ready; ctx_err := None;
  cancelled := false; finished := false |}.

Inductive choice :=
| CtxEnds (err : string)
| Main                      (* the next statement of the caller *)
| RunReturns (err : error)  (* run returns *)
| WatchDone                 (* the watcher takes the ctx.Done case *)
| WatchFinished             (* the watcher takes the finished case *)
| Watch.                    (* the next statement of the watcher *)

Definition with_main (m : main_pc) (s : state) : state := {|
  main := m; watch := watch s; ready := ready s; ctx_err := ctx_err s;
  cancelled := cancelled s; finished := finished s |}.
Definition with_watch (w : watch_pc) (s : state) : state := {|
  main := main s; watch := w; ready := ready s; ctx_err := ctx_err s;
  cancelled := cancelled s; finished := finished s |}.
Definition with_ready (b : bool) (s : state) : state := {|
  main := main s; watch := watch s; ready := b; ctx_err := ctx_err s;
  cancelled := cancelled s; finished := finished s |}.
Definition with_cancel (s : state) : state := {|
  main := main s; watch := watch s; ready := ready s; ctx_err := ctx_err s;
  cancelled := true; finished := finished s |}.
Definition with_finished (s : state) : state := {|
  main := main s; watch := watch s; ready := ready s; ctx_err := ctx_err s;
  cancelled := cancelled s; finished := true |}.
Definition with_ctx (e : error) (s : state) : state := {|
  main := main s; watch := watch s; ready := ready s; ctx_err := e;
  cancelled := cancelled s; finished := finished s |}.

Definition exec (c : choice) (s : state) : option state :=
  match c with
  | CtxEnds err =>
      match ctx_err s with None => Some (with_ctx (Some err) s) | Some _ => None end
  | Main =>
      match main s with
      | M_check =>
          match ctx_err s with
          | Some _ => Some (with_main M_refuse s)
          | None => Some (with_main M_ready s)
          end
      | M_refuse => Some (with_main (M_returned (ctx_err s)) (with_ready false s))
      | M_ready => Some (with_main M_spawn (with_ready true s))
      | M_spawn => Some (with_main M_running (with_watch W_select s))
      | M_running => None
      | M_close err => Some (with_main (M_clear err) (with_finished s))
      | M_clear err => Some (with_main (M_cancel err) (with_ready false s))
      | M_cancel err => Some (with_main (M_returned err) (with_cancel s))
      | M_returned _ => None
      end
  | RunReturns err =>
      match main s with M_running => Some (with_main (M_close err) s) | _ => None end
  | WatchDone =>
      match watch s, ctx_err s with
      | W_select, Some _ => Some (with_watch W_clear s)
      | _, _ => None
      end
  | WatchFinished =>
      match watch s with
      | W_select => if finished s then Some (with_watch W_exit s) else None
      | _ => None
      end
  | Watch =>
      match watch s with
      | W_clear => Some (with_watch W_cancel (with_ready false s))
      | W_cancel => Some (with_watch W_exit (with_cancel s))
      | _ => None
      end
  end.

Fixpoint execs (choices : list choice) (s : state) : option state :=
  match choices with
  | [] => Some s
  | c :: rest => exec c s ≫= execs rest
  end.

Definition step (s s' : state) : Prop := ∃ c, exec c s = Some s'.
Definition reachable (s : state) : Prop := ∃ was_ready, rtc step (init was_ready) s.

(** ** Invariant *)

(** The caller has called [setReady(true)] and not yet cleared it. *)
Definition in_service (m : main_pc) : bool :=
  match m with M_spawn | M_running | M_close _ | M_clear _ => true | _ => false end.
Definition before_service (m : main_pc) : bool :=
  match m with M_check | M_refuse | M_ready => true | _ => false end.
Definition watcher_cleared (w : watch_pc) : bool :=
  match w with W_cancel => true | _ => false end.
Definition started (m : main_pc) : bool :=
  match m with M_check | M_refuse | M_ready | M_spawn => false | _ => true end.

Record inv (s : state) : Prop := {
  inv_ready : ready s = true → in_service (main s) = true ∨ before_service (main s) = true;
  inv_before : before_service (main s) = true →
    watch s = W_none ∧ cancelled s = false ∧ finished s = false;
  inv_spawn : main s = M_spawn → watch s = W_none ∧ cancelled s = false ∧ ready s = true;
  inv_cancel : cancelled s = true → ready s = false;
  inv_watch : watcher_cleared (watch s) = true → ready s = false
}.

Lemma init_inv b : inv (init b).
Proof. split; cbn; auto; discriminate. Qed.

Lemma exec_keeps_inv c s s' : inv s → exec c s = Some s' → inv s'.
Proof.
  intros [Hr Hb Hsp Hc Hw] H. destruct s as [m w r ce ca fi]. cbn in *.
  destruct c; cbn in H;
    repeat (match type of H with
      | match ?x with _ => _ end = Some _ => destruct x eqn:?; try discriminate H
      end); injection H as <-; cbn in *; subst; split; cbn in *; try done; try tauto.
  all: intros E; first
    [ exact (Hw E)
    | destruct (Hb E) as (? & ? & ?); congruence
    | destruct (Hsp E) as (? & ? & ?); congruence
    | destruct (Hb eq_refl) as (? & ? & ?); congruence
    | destruct (Hb eq_refl) as (-> & ? & ?); discriminate E
    | destruct r; [destruct (Hr eq_refl); discriminate|done] ].
Qed.

Lemma reachable_has_inv s : reachable s → inv s.
Proof.
  intros [b Hrun]. pose proof (init_inv b) as Hi. revert Hi.
  induction Hrun as [s|s s1 s2 [c Hc] _ IH]; [done|]. intros Hi. apply IH.
  by apply (exec_keeps_inv c s).
Qed.

(** The watcher is not leaked: once the caller has returned, it has finished,
    was never started, or can still finish. *)
Definition watcher_can_exit (s : state) : Prop :=
  watch s = W_none ∨ ∃ choices s', execs choices s = Some s' ∧ watch s' = W_exit.

Record inv_exit (s : state) : Prop := {
  ie_finished : match main s with M_clear _ | M_cancel _ => finished s = true | _ => True end;
  ie_returned : ∀ err, main s = M_returned err → watch s = W_none ∨ finished s = true
}.

Lemma exec_inv_exit c s s' : inv s → inv_exit s → exec c s = Some s' → inv_exit s'.
Proof.
  intros [_ Hb _ _ _] [Hf Hr] H. destruct s as [m w r ce ca fi]. cbn in *.
  destruct c; cbn in H;
    repeat (match type of H with
      | match ?x with _ => _ end = Some _ => destruct x eqn:?; try discriminate H
      end); injection H as <-; cbn in *; subst; split; cbn in *; try done; auto.
  all: intros err' E;
    first [destruct (Hr _ E) as [?|?]; [discriminate|by right] | left; by destruct Hb].
Qed.

Lemma returned_watcher s err :
  inv_exit s → main s = M_returned err → watcher_can_exit s.
Proof.
  intros [_ Hr] Hm. unfold watcher_can_exit.
  destruct (Hr err Hm) as [Hw|Hf]; [by left|].
  destruct (watch s) eqn:Hw; [by left|right..].
  - exists [WatchFinished]. cbn. rewrite Hw, Hf. cbn. by eexists.
  - exists [Watch; Watch]. cbn. rewrite Hw. cbn. by eexists.
  - exists [Watch]. cbn. rewrite Hw. cbn. by eexists.
  - exists []. cbn. by eexists.
Qed.

Lemma reachable_inv_exit s : reachable s → inv_exit s.
Proof.
  intros [b Hrun]. assert (Hi : inv (init b) ∧ inv_exit (init b)).
  { split; [apply init_inv|]. split; cbn; [done|discriminate]. }
  revert Hi. induction Hrun as [s|s s1 s2 [c Hc] _ IH]; [by intros []|].
  intros [Hi He]. apply IH. split; [by apply (exec_keeps_inv c s)|by apply (exec_inv_exit c s)].
Qed.

End Runtime.
