(* ===== verification/Observability.v ===== *)
(** [internal/observability]: the redacting log handler, the HTTP middleware
    with its bounded labels, and the readiness metrics.

    [log/slog] is modelled as far as the handler looks into it: attributes,
    records and the calls made on the handler underneath.  The metric and
    tracing libraries are third-party: the calls made on them are recorded. *)
From S2P Require Import Prelude GoStrings Strconv Duration.

Local Open Scope string_scope.
Local Open Scope Z_scope.

(** * Logging *)
Module Logging.

(** [slog.Value]; a [LogValuer] is represented by the value it yields, a value
    of kind [Any] by nothing at all. *)
Inductive value :=
| VString (s : string) | VInt64 (z : Z) | VUint64 (z : Z) | VFloat64 (text : string)
| VBool (b : bool) | VDuration (d : Duration) | VTime (nanos offset : Z)
| VAny | VGroup (attrs : list (string * value)) | VLogValuer (v : value).

Abbreviation attr := (string * value)%type.

(** [Value.Resolve]: [maxLogValues] rounds, each of which returns a value that is
    no [LogValuer] and otherwise calls [LogValue]; what is left after the last
    round is not looked at: the result is an error, a value of kind [Any]. *)
Fixpoint resolve (n : nat) (v : value) : value :=
  match n with
  | O => VAny
  | S n => match v with VLogValuer w => resolve n w | _ => v end
  end.
Definition maxLogValues : nat := 100.
Definition Resolve (v : value) : value := resolve maxLogValues v.

(** A chain of 99 is resolved, one of 100 is not. *)
Example resolve_99 : Resolve (Nat.iter 99 VLogValuer (VString "x")) = VString "x".
Proof. reflexivity. Qed.
Example resolve_100 : Resolve (Nat.iter 100 VLogValuer (VString "x")) = VAny.
Proof. reflexivity. Qed.

Definition redactedValue : string := "[REDACTED]".

Definition allowedEvents : list string :=
  ["http.request.completed"; "service.stopped"; "telemetry.shutdown.failed"].

Definition allowedAttributes : list string :=
  ["service"; "version"; "event"; "request_id"; "trace_id";
   "organization_id"; "operation"; "route"; "status"; "duration_ms";
   "error_category"; "error_code"; "error_message"; "dependency"; "outcome"].

Definition forbiddenKeyParts : list string :=
  ["authorization"; "cookie"; "password"; "credential"; "secret"; "api_key"; "apikey";
   "prompt"; "completion"; "tool_argument"; "tool_result"; "request_body"; "response_body";
   "upstream_body"; "image"; "audio"; "token"].

(** [safeError.LogValue] *)
Definition SafeError (err : option string) : value :=
  VLogValuer (VString match err with None => "" | Some e => e end).

Definition containsForbiddenKeyPart (key : string) : bool :=
  existsb (contains key) forbiddenKeyParts.

Definition in_list (s : string) (l : list string) : bool := existsb (String.eqb s) l.

Section redaction.
Context {tables : UnicodeTables}.

Definition redactAttribute (a : attr) : attr :=
  let v := Resolve (snd a) in
  let key := to_lower (fst a) in
  if negb (in_list key allowedAttributes) || containsForbiddenKeyPart key
  then (fst a, VString redactedValue)
  else match v with
       | VAny => (fst a, VString redactedValue)
       | _ => (fst a, v)
       end.

(** A record, as far as the handler reads it. *)
Record record := {
  r_Time : Z; r_Level : Z; r_Message : string; r_PC : Z; r_Attrs : list attr
}.

Definition is_empty_group (a : attr) : bool :=
  match snd a with VGroup [] => true | _ => false end.

(** [Record.AddAttrs] leaves empty groups out. *)
Definition AddAttrs (r : record) (attrs : list attr) : record := {|
  r_Time := r_Time r; r_Level := r_Level r; r_Message := r_Message r; r_PC := r_PC r;
  r_Attrs := r_Attrs r ++ base.filter (λ a, is_empty_group a = false) attrs |}.

(** The handler underneath, as the calls that derived it from the first. *)
Inductive derivation := DAttrs (attrs : list attr) | DGroup (name : string).
Record redactingHandler := { next : list derivation }.

(** The record passed on to [h.next.Handle]. *)
Definition Handle (h : redactingHandler) (rec : record) : list derivation * record :=
  let message := if in_list (r_Message rec) allowedEvents then r_Message rec
                 else redactedValue in
  let redacted := {| r_Time := r_Time rec; r_Level := r_Level rec; r_Message := message;
                     r_PC := r_PC rec; r_Attrs := [] |} in
  (next h, foldl (λ acc a, AddAttrs acc [redactAttribute a]) redacted (r_Attrs rec)).

Definition WithAttrs (h : redactingHandler) (attrs : list attr) : redactingHandler :=
  {| next := next h ++ [DAttrs (redactAttribute <$> attrs)] |}.

Definition WithGroup (h : redactingHandler) (name : string) : redactingHandler :=
  {| next := next h ++ [DGroup name] |}.

Definition LevelDebug : Z := -4.
Definition LevelInfo : Z := 0.
Definition LevelWarn : Z := 4.
Definition LevelError : Z := 8.

Inductive format := JSONHandler | TextHandler.

(** A logger: its minimum level, the format of the handler at the bottom, and
    the redacting handler on top. *)
Record Logger := { minimum : Z; bottom : format; handler : redactingHandler }.

Definition Enabled (l : Logger) (level : Z) : bool := minimum l <=? level.

Definition newLogger (service version level fmt : string) : res Logger :=
  minimum ← (if String.eqb level "debug" then Ok LevelDebug
             else if String.eqb level "info" then Ok LevelInfo
             else if String.eqb level "warn" then Ok LevelWarn
             else if String.eqb level "error" then Ok LevelError
             else Err "unsupported log level");
  bottom ← (if String.eqb fmt "json" then Ok JSONHandler
            else if String.eqb fmt "text" then Ok TextHandler
            else Err "unsupported log format");
  Ok {| minimum := minimum; bottom := bottom;
        handler := WithAttrs {| next := [] |}
                     [("service", VString service); ("version", VString version)] |}.
End redaction.

(** [ReplaceAttr] of the built-in handlers; [None] is a panic: [Value.Time] on
    a value of another kind. *)
Definition normalizeBuiltInAttribute (a : attr) : option attr :=
  if String.eqb (fst a) "time" then
    match snd a with VTime nanos _ => Some ("timestamp", VTime nanos 0) | _ => None end
  else if String.eqb (fst a) "level" then Some ("severity", snd a)
  else if String.eqb (fst a) "msg" then Some ("event", snd a)
  else Some a.

End Logging.

(** * HTTP *)
Module Http.

Definition boundedRoute (method path : string) : string :=
  if String.eqb method "GET" && String.eqb path "/health/live" then "health.live"
  else if String.eqb method "GET" && String.eqb path "/health/ready" then "health.ready"
  else if String.eqb method "GET" && String.eqb path "/metrics" then "metrics"
  else "unknown".

Definition boundedMethod (method : string) : string :=
  if Logging.in_list method ["GET"; "HEAD"; "POST"; "PUT"; "PATCH"; "DELETE"; "OPTIONS"]
  then method else "OTHER".

Definition boundedStatus (status : Z) : string :=
  if (status <? 100) || (599 <? status) then "unknown"
  else itoa (Z.quot status 100) +:+ "xx".

(** [statusWriter] and the calls it makes on the writer underneath. *)
Inductive write_call := CallWriteHeader (status : Z) | CallWrite (body : string).
Record statusWriter := { sw_status : Z; sw_wroteHeader : bool; sw_calls : list write_call }.

Definition WriteHeader (status : Z) (w : statusWriter) : statusWriter :=
  if sw_wroteHeader w then w
  else {| sw_status := status; sw_wroteHeader := true;
          sw_calls := sw_calls w ++ [CallWriteHeader status] |}.

Definition Write (body : string) (w : statusWriter) : statusWriter :=
  let w := if negb (sw_wroteHeader w) then WriteHeader 200 w else w in
  {| sw_status := sw_status w; sw_wroteHeader := sw_wroteHeader w;
     sw_calls := sw_calls w ++ [CallWrite body] |}.

Definition write_op (w : statusWriter) (op : write_call) : statusWriter :=
  match op with CallWriteHeader s => WriteHeader s w | CallWrite b => Write b w end.

Definition new_writer : statusWriter :=
  {| sw_status := 200; sw_wroteHeader := false; sw_calls := [] |}.

(** The calls on the metric vectors and on the span. *)
Inductive telemetry_call :=
| CountRequest (route status : string) | ObserveLatency (route : string)
| SpanStart (name method route : string) | SpanStatus (code : Z) | SpanError | SpanEnd
| ObserveProbe (dependency outcome : string) | SetDependencyReady (dependency : string) (v : Z)
| SetServiceReady (v : Z).

(** One request through [HTTPMiddleware]: [ops] is what the wrapped handler
    does with its writer, [elapsed] the measured milliseconds and [trace_id]
    the trace of a valid span context. *)
Definition HTTPMiddleware (metrics : bool) (method path : string) (ops : list write_call)
    (elapsed : Z) (trace_id : option string)
    : list write_call * list telemetry_call * (string * list Logging.attr) :=
  let route := boundedRoute method path in
  let writer := foldl write_op new_writer ops in
  let status := boundedStatus (sw_status writer) in
  (sw_calls writer,
   [SpanStart route (boundedMethod method) route; SpanStatus (sw_status writer)] ++
   (if 500 <=? sw_status writer then [SpanError] else []) ++
   (if metrics : bool then [CountRequest route status; ObserveLatency route] else []) ++
   [SpanEnd],
   ("http.request.completed",
    [("route", Logging.VString route); ("status", Logging.VInt64 (sw_status writer));
     ("duration_ms", Logging.VInt64 elapsed)] ++
    match trace_id with Some id => [("trace_id", Logging.VString id)] | None => [] end))%list.

Definition boundedDependency (name : string) : string :=
  if String.eqb name "postgresql" || String.eqb name "redis" then name else "unknown".

Definition SetReady (metrics ready : bool) : list telemetry_call :=
  if metrics then [SetServiceReady (if ready then 1 else 0)] else [].

Definition ObserveDependency (metrics : bool) (name : string) (failed : bool)
    : list telemetry_call :=
  if metrics then
    let dependency := boundedDependency name in
    [ObserveProbe dependency (if failed then "failure" else "success");
     SetDependencyReady dependency (if failed then 0 else 1)]
  else [].

End Http.

(** * Lemmas *)
Module Redaction.
Import Logging.

Section lemmas.
Context {tables : UnicodeTables}.

(** What may leave the handler under a key: the redaction mark, or the value
    of an allowed attribute, resolved and of a known kind. *)
Definition safe_attr (a : attr) : Prop :=
  snd a = VString redactedValue ∨
  (in_list (to_lower (fst a)) allowedAttributes = true ∧
   containsForbiddenKeyPart (to_lower (fst a)) = false ∧
   snd a ≠ VAny ∧ ∀ v, snd a ≠ VLogValuer v).

Lemma resolve_not_valuer n v : ∀ w, resolve n v ≠ VLogValuer w.
Proof. revert v. induction n as [|n IH]; intros v w; cbn; [done|]. by destruct v. Qed.

Lemma redactAttribute_safe a : safe_attr (redactAttribute a).
Proof.
  unfold redactAttribute, safe_attr.
  destruct (in_list (to_lower (fst a)) allowedAttributes) eqn:Ha; cbn [negb orb]; [|by left].
  destruct (containsForbiddenKeyPart (to_lower (fst a))) eqn:Hf; [by left|].
  pose proof (resolve_not_valuer maxLogValues (snd a)) as Hv. fold (Resolve (snd a)) in Hv.
  destruct (Resolve (snd a)) eqn:E; cbn [fst snd].
  all: first
    [ by left
    | right; split_and!; [exact Ha|exact Hf|discriminate|exact Hv] ].
Qed.

Lemma redactAttribute_key a : fst (redactAttribute a) = fst a.
Proof. unfold redactAttribute. destruct (_ || _)%bool; [done|]. by destruct (Resolve _). Qed.

(** The loop over the attributes of a record. *)
Lemma Handle_attrs l r :
  foldl (λ acc a, AddAttrs acc [redactAttribute a]) r l =
  {| r_Time := r_Time r; r_Level := r_Level r; r_Message := r_Message r; r_PC := r_PC r;
     r_Attrs := r_Attrs r ++ base.filter (λ a, is_empty_group a = false)
                               (redactAttribute <$> l) |}.
Proof.
  revert r. induction l as [|a l IH]; intros [t lv m pc at_]; cbn [foldl].
  - cbn. by rewrite app_nil_r.
  - rewrite IH. unfold AddAttrs. cbn [r_Time r_Level r_Message r_PC r_Attrs].
    f_equal. rewrite <- app_assoc. f_equal. rewrite fmap_cons, !filter_cons, filter_nil. by destruct (decide _).
Qed.

End lemmas.
End Redaction.

Module Writer.
Import Http.

(** Once the header is out, the writer only passes bodies on. *)

Definition is_body (op : write_call) : bool :=
  match op with CallWrite _ => true | CallWriteHeader _ => false end.

Lemma ops_after_header ops : ∀ w,
  sw_wroteHeader w = true →
  foldl write_op w ops =
  {| sw_status := sw_status w; sw_wroteHeader := true;
     sw_calls := sw_calls w ++ List.filter is_body ops |}.
Proof.
  induction ops as [|op ops IH]; intros [st wr cs] Hw; cbn in Hw; subst wr; cbn [foldl].
  - cbn. by rewrite app_nil_r.
  - rewrite IH; [|by destruct op]. destruct op; cbn; [done|].
    by rewrite <- app_assoc.
Qed.

(** The status a list of writes amounts to: that of the first call. *)
Definition first_status (ops : list write_call) : Z :=
  match ops with CallWriteHeader s :: _ => s | _ => 200 end.

Lemma writer_result ops :
  foldl write_op new_writer ops =
  match ops with
  | [] => new_writer
  | _ => {| sw_status := first_status ops; sw_wroteHeader := true;
            sw_calls := CallWriteHeader (first_status ops) :: List.filter is_body ops |}
  end.
Proof. destruct ops as [|[s|b] ops]; [done|..]; cbn [foldl]; by rewrite ops_after_header. Qed.

Lemma written_status ops : sw_status (foldl write_op new_writer ops) = first_status ops.
Proof. rewrite writer_result. by destruct ops. Qed.

(** The calls on the metric vectors, and not on the span. *)
Definition is_metric (c : telemetry_call) : bool :=
  match c with SpanStart _ _ _ | SpanStatus _ | SpanError | SpanEnd => false | _ => true end.

(** The label of a status is its class. *)
Lemma boundedStatus_spec status :
  (∃ k, 100 * k ≤ status < 100 * (k + 1) ∧
     (k, boundedStatus status) ∈ [(1, "1xx"); (2, "2xx"); (3, "3xx"); (4, "4xx"); (5, "5xx")]) ∨
  boundedStatus status = "unknown" ∧ (status < 100 ∨ 599 < status).
Proof.
  unfold boundedStatus.
  destruct (Z.ltb_spec status 100); [right; by auto|].
  destruct (Z.ltb_spec 599 status); [right; by auto|]. left. cbn [orb].
  exists (Z.quot status 100). split.
  { rewrite Z.quot_div_nonneg by lia. Z.to_euclidean_division_equations; lia. }
  assert (Z.quot status 100 = 1 ∨ Z.quot status 100 = 2 ∨ Z.quot status 100 = 3 ∨
          Z.quot status 100 = 4 ∨ Z.quot status 100 = 5) as Hq
    by (rewrite Z.quot_div_nonneg by lia; Z.to_euclidean_division_equations; lia).
  destruct Hq as [-> |[-> |[-> |[-> | ->]]]];
    match goal with |- context [itoa ?k] =>
      let t := eval vm_compute in (itoa k) in change (itoa k) with t end; set_solver.
Qed.

(** The label of a route is its name, for a [GET] of its path. *)
Lemma boundedRoute_spec method path :
  method = "GET" ∧
    (path, boundedRoute method path) ∈ [("/health/live", "health.live");
      ("/health/ready", "health.ready"); ("/metrics", "metrics")] ∨
  boundedRoute method path = "unknown" ∧
    (method ≠ "GET" ∨ path ∉ ["/health/live"; "/health/ready"; "/metrics"]).
Proof.
  unfold boundedRoute. destruct (String.eqb_spec method "GET") as [->|Hm]; [|right; by auto].
  destruct (String.eqb_spec path "/health/live") as [->|H1]; [left; set_solver|].
  destruct (String.eqb_spec path "/health/ready") as [->|H2]; [left; set_solver|].
  destruct (String.eqb_spec path "/metrics") as [->|H3]; [left; set_solver|].
  right. split; [done|]. right. set_solver.
Qed.

Lemma boundedStatus_cases status :
  boundedStatus status ∈ ["1xx"; "2xx"; "3xx"; "4xx"; "5xx"; "unknown"].
Proof.
  unfold boundedStatus.
  destruct (Z.ltb_spec status 100); [set_solver|].
  destruct (Z.ltb_spec 599 status); [set_solver|]. cbn [orb].
  assert (Z.quot status 100 = 1 ∨ Z.quot status 100 = 2 ∨ Z.quot status 100 = 3 ∨
          Z.quot status 100 = 4 ∨ Z.quot status 100 = 5) as Hq
    by (rewrite Z.quot_div_nonneg by lia; Z.to_euclidean_division_equations; lia).
  destruct Hq as [-> |[-> |[-> |[-> | ->]]]]; vm_compute; set_solver.
Qed.

Lemma boundedRoute_cases method path :
  boundedRoute method path ∈ ["health.live"; "health.ready"; "metrics"; "unknown"].
Proof. unfold boundedRoute. repeat case_match; set_solver. Qed.

End Writer.
