(* ===== verification/Telemetry.v ===== *)
(** [internal/observability/observability.go]: how a process builds its
    telemetry, and the metric vectors it registers.

    The metric and tracing libraries are third-party code: a vector is known by
    its name and labels, and the outcome of the library's constructors is an
    argument. *)
From S2P Require Import Prelude GoStrings Strconv Duration Settings Url Policies Endpoints Observability.

Local Open Scope string_scope.
Local Open Scope Z_scope.

Import Logging Http.

(** A registered collector: its kind, its full name, its constant labels and
    its variable labels. *)
Inductive kind := CounterVec | HistogramVec | GaugeVec | Gauge.
Record collector := {
  c_kind : kind;
  c_name : string;
  c_const : list (string * string);
  c_labels : list string
}.

Definition metric (k : kind) (service version name : string) (labels : list string) : collector := {|
  c_kind := k; c_name := "nexusrelay_" +:+ name;
  c_const := [("service", service); ("version", version)]; c_labels := labels |}.

Definition httpMetric service version :=
  metric CounterVec service version "http_requests_total" ["route"; "status"].
Definition httpLatency service version :=
  metric HistogramVec service version "http_request_duration_seconds" ["route"].
Definition dependencyMetric service version :=
  metric HistogramVec service version "dependency_probe_duration_seconds" ["dependency"; "outcome"].
Definition dependencyReady service version :=
  metric GaugeVec service version "dependency_ready" ["dependency"].
Definition serviceReady service version :=
  metric Gauge service version "service_ready" [].

(** The collectors of the repository that [configureMetrics] registers. *)
Definition configureMetrics (service version : string) : list collector :=
  [httpMetric service version; httpLatency service version; dependencyMetric service version;
   dependencyReady service version; serviceReady service version].

(** What the constructors of the exporter and of the resource return. *)
Inductive tracing := TracingOk | ExporterFails (e : string) | ResourceFails (e : string).

(** A tracer provider: the no-op one, or one that exports to the endpoint. *)
Inductive tracer_provider := Noop | Exporting (endpoint : option URL) (service version : string).

(** The process-wide settings that are replaced. *)
Inductive global_call :=
| SetTracerProvider (p : tracer_provider) | SetDefaultLogger (l : Logger) | SetTextMapPropagator.

Record Runtime := {
  rt_logger : Logger;
  rt_registry : option (list collector);
  rt_provider : option tracer_provider
}.

(** [configureTracing]: the provider that [Shutdown] will shut down, nil unless
    it exports. *)
Definition configureTracing (service version : string) (settings : Observability) (t : tracing)
    : list global_call * res (option tracer_provider) :=
  if negb (obs_OTel settings) then ([SetTracerProvider Noop], Ok None)
  else match t with
  | ExporterFails e => ([], Err ("configure OTLP/HTTP trace exporter: " +:+ e))
  | ResourceFails e => ([], Err ("configure trace resource: " +:+ e))
  | TracingOk =>
      let provider := Exporting (obs_OTLPEndpoint settings) service version in
      ([SetTracerProvider provider], Ok (Some provider))
  end.

Section telemetry.
Context {tables : UnicodeTables}.

Definition InstallBootstrapLogger (service : string) : list global_call :=
  match newLogger service "unknown" "info" "json" with
  | Ok logger => [SetDefaultLogger logger]
  | Err _ => []
  end.

Definition New (service version : string) (settings : Observability) (t : tracing)
    : list global_call * res Runtime :=
  match newLogger service version (obs_LogLevel settings) (obs_LogFormat settings) with
  | Err e => ([], Err e)
  | Ok logger =>
      let registry := if obs_Metrics settings then Some (configureMetrics service version)
                      else None in
      match configureTracing service version settings t with
      | (calls, Err e) => (calls, Err e)
      | (calls, Ok provider) =>
          ((calls ++ [SetDefaultLogger logger; SetTextMapPropagator])%list,
           Ok {| rt_logger := logger; rt_registry := registry; rt_provider := provider |})
      end
  end.
End telemetry.

(** [MetricsHandler] is nil without a registry. *)
Definition MetricsHandler (r : Runtime) : option (list collector) := rt_registry r.

(** [Shutdown]; [outcome] is what the provider's own shutdown returns. *)
Definition Shutdown (r : Runtime) (outcome : option string) : option string :=
  match rt_provider r with
  | None => None
  | Some _ => match outcome with
              | None => None
              | Some e => Some ("shut down trace provider: " +:+ e)
              end
  end.

(** * The routes of the operational server *)

(** [Health.Handler]: the patterns registered with the router. *)
Inductive handler := LiveHandler | ReadinessHandler | Metrics.
Definition Handler (metrics : bool) : list (option string * string * handler) :=
  ([(Some "GET", "/health/live", LiveHandler); (Some "GET", "/health/ready", ReadinessHandler)] ++
   (if metrics then [(None, "/metrics", Metrics)] else []))%list.

(** An [http.Handler]: the router of [Health.Handler], or a handler inside
    [Runtime.HTTPMiddleware], whose requests are answered as
    [Http.HTTPMiddleware] says around what the handler inside does; [metrics]
    is whether the runtime has its vectors. *)
Inductive http_handler :=
| Routes (routes : list (option string * string * handler))
| Instrumented (metrics : bool) (next : http_handler).

Definition HTTPMiddleware (r : Runtime) (next : http_handler) : http_handler :=
  Instrumented (bool_decide (is_Some (rt_registry r))) next.

(** * Lemmas *)

(** The vector a call is made on, and the label values it is given. *)
Definition labelled (service version : string) (c : telemetry_call)
    : option (collector * list string) :=
  match c with
  | CountRequest route status => Some (httpMetric service version, [route; status])
  | ObserveLatency route => Some (httpLatency service version, [route])
  | ObserveProbe dependency outcome =>
      Some (dependencyMetric service version, [dependency; outcome])
  | SetDependencyReady dependency _ => Some (dependencyReady service version, [dependency])
  | SetServiceReady _ => Some (serviceReady service version, [])
  | SpanStart _ _ _ | SpanStatus _ | SpanError | SpanEnd => None
  end.

(** The values a label may take. *)
Definition label_values (label : string) : list string :=
  if String.eqb label "route" then ["health.live"; "health.ready"; "metrics"; "unknown"]
  else if String.eqb label "status" then ["1xx"; "2xx"; "3xx"; "4xx"; "5xx"; "unknown"]
  else if String.eqb label "dependency" then ["postgresql"; "redis"; "unknown"]
  else if String.eqb label "outcome" then ["success"; "failure"]
  else [].

(** A call that the registry accepts: its vector is registered, and it gives
    every label one of the label's values. *)
Definition well_labelled (service version : string) (registry : list collector)
    (c : telemetry_call) : Prop :=
  match labelled service version c with
  | None => True
  | Some (vector, values) =>
      vector ∈ registry ∧ Forall2 (λ label value, value ∈ label_values label)
                            (c_labels vector) values
  end.

Lemma newLogger_ok {tables : UnicodeTables} service version level fmt :
  level ∈ ["debug"; "info"; "warn"; "error"] → fmt ∈ ["json"; "text"] →
  is_ok (newLogger service version level fmt) = true.
Proof.
  rewrite !elem_of_cons, !elem_of_nil.
  intros [->|[->|[->|[->|[]]]]] [->|[->|[]]]; done.
Qed.

(** Settings that the configuration accepts make a logger, so only the tracing
    library can fail. *)
Definition observability_ok (o : Observability) : Prop :=
  obs_LogLevel o ∈ ["debug"; "info"; "warn"; "error"] ∧ obs_LogFormat o ∈ ["json"; "text"] ∧
  (obs_OTel o = true → is_Some (obs_OTLPEndpoint o)).

Lemma parseObservability_ok v o : parseObservability v = Ok o → observability_ok o.
Proof.
  unfold parseObservability, parseLogging, observability_ok. intros H. res_inv H. subst.
  res_inv Hr. subst. cbn. apply negb_false_iff, oneOf_spec in Hg0, Hg1.
  split_and!; [done|done|]. intros ->. cbn [andb] in Hg.
  apply bool_decide_eq_false in Hg. by destruct a2; [eexists|].
Qed.

Lemma New_ok {tables : UnicodeTables} service version o :
  observability_ok o → ∃ calls r, New service version o TracingOk = (calls, Ok r) ∧
    rt_registry r = (if obs_Metrics o then Some (configureMetrics service version) else None).
Proof.
  intros (Hl & Hf & _). unfold New.
  pose proof (newLogger_ok service version _ _ Hl Hf) as Hlog. apply is_ok_true in Hlog as [l ->].
  unfold configureTracing. destruct (obs_OTel o); cbn; by eexists _, _.
Qed.

Lemma boundedDependency_cases name : boundedDependency name ∈ ["postgresql"; "redis"; "unknown"].
Proof.
  unfold boundedDependency. destruct (String.eqb_spec name "postgresql") as [->|_]; [left|].
  destruct (String.eqb_spec name "redis") as [->|_]; cbn [orb]; set_solver.
Qed.

(** ** Calls with their labels *)

Section labels.
Variables service version : string.

Definition all_labelled (calls : list telemetry_call) : Prop :=
  Forall (well_labelled service version (configureMetrics service version)) calls.

(** One membership per label and per vector. *)
Local Ltac each_label :=
  repeat first [apply Forall2_nil_2; exact I | apply Forall2_cons; split];
  cbn; try assumption; try set_solver.

Lemma middleware_labelled method path ops elapsed trace_id :
  let '(_, calls, _) := Http.HTTPMiddleware true method path ops elapsed trace_id in
  all_labelled calls.
Proof.
  unfold Http.HTTPMiddleware, all_labelled. cbn.
  assert (Hr := Writer.boundedRoute_cases method path).
  assert (Hs := Writer.boundedStatus_cases (sw_status (foldl write_op new_writer ops))).
  rewrite !Forall_cons, Forall_app. split_and!; [done|done| |].
  - destruct (500 <=? _); by repeat constructor.
  - rewrite !Forall_cons, Forall_nil. unfold well_labelled. cbn.
    split_and!; try done; each_label.
Qed.

Lemma observation_labelled name failed : all_labelled (ObserveDependency true name failed).
Proof.
  unfold ObserveDependency, all_labelled, well_labelled. cbn.
  pose proof (boundedDependency_cases name) as Hd.
  rewrite !Forall_cons, Forall_nil. cbn. destruct failed; split_and!; try done; each_label.
Qed.

Lemma ready_labelled ready : all_labelled (SetReady true ready).
Proof.
  unfold all_labelled, SetReady. rewrite Forall_cons, Forall_nil. split; [|done].
  unfold well_labelled. cbn. split; each_label.
Qed.
End labels.
