(* ===== verification/Service.v ===== *)
(** The entry points of the three services, [apps/gateway/main.go],
    [apps/control-plane/main.go] and [apps/worker/main.go], and of the
    bootstrap command, [apps/bootstrap/main.go]: which components are built, in
    which order, and what is released on the way out.

    The three [run] functions differ in the settings they load and in the name
    they give; [run_service] is their common text. *)
From S2P Require Import Prelude GoStrings Strconv Duration Settings Os Secrets Policies Endpoints Config Readiness Dependency Lifecycle Observability Telemetry.

Local Open Scope string_scope.
Local Open Scope Z_scope.

Abbreviation error := (option string).

(** The part of a service's configuration that [run] uses. *)
Record ServiceSettings := {
  ss_Shared : SharedDeployment;
  ss_HTTP : HTTP;
  ss_Database : Database;
  ss_Redis : Redis;
  ss_Readiness : DependencyReadiness;
  ss_Observability : Observability
}.

Definition gateway_settings (g : Gateway) : ServiceSettings := {|
  ss_Shared := gw_Shared g; ss_HTTP := gw_HTTP g; ss_Database := gw_Database g;
  ss_Redis := gw_Redis g; ss_Readiness := gw_Readiness g;
  ss_Observability := gw_Observability g |}.
Definition control_plane_settings (c : ControlPlane) : ServiceSettings := {|
  ss_Shared := cp_Shared c; ss_HTTP := cp_HTTP c; ss_Database := cp_Database c;
  ss_Redis := cp_Redis c; ss_Readiness := cp_Readiness c;
  ss_Observability := cp_Observability c |}.
Definition worker_settings (w : Worker) : ServiceSettings := {|
  ss_Shared := wk_Shared w; ss_HTTP := wk_HTTP w; ss_Database := wk_Database w;
  ss_Redis := wk_Redis w; ss_Readiness := wk_Readiness w;
  ss_Observability := wk_Observability w |}.

Section service.
Context `{Pgx} `{GoRedis} {tables : UnicodeTables}.

(** What a run of a service does, in order. *)
Inductive event :=
| Globals (calls : list global_call)
| OnClients (calls : list client_call)
| EnterLoop (policy : ReadinessPolicy) (probes : list Probe)
    (server : HttpServer.Server http_handler)
| ShutdownTelemetry (logged : error).

(** What the libraries and the readiness loop return. *)
Record outcomes := {
  o_tracing : tracing;
  o_pool : bool;
  o_loop : error;
  o_shutdown : error
}.

(** [dependency.Run]: the error of its checks, or how the loop ended. *)
Definition loop_result (policy : ReadinessPolicy) (probes : list Probe) (o : outcomes) : error :=
  match start policy probes false with
  | Err e => Some e
  | Ok _ => o_loop o
  end.

Definition run_service (name : string) (loaded : res ServiceSettings) (o : outcomes)
    : list event * error :=
  match loaded with
  | Err e => ([], Some e)
  | Ok settings =>
      match New name (sd_Version (ss_Shared settings)) (ss_Observability settings)
              (o_tracing o) with
      | (globals, Err e) => ([Globals globals], Some e)
      | (globals, Ok telemetry) =>
          let shutdownTelemetry := ShutdownTelemetry (Shutdown telemetry (o_shutdown o)) in
          let server := HttpServer.New (http_Address (ss_HTTP settings))
            (HTTPMiddleware telemetry
               (Routes (Handler (bool_decide (is_Some (MetricsHandler telemetry))))))
            (http_ShutdownGrace (ss_HTTP settings)) in
          let policy := policy_of (ss_Readiness settings) in
          match Dependency.Open (o_pool o) (ss_Database settings) (ss_Redis settings)
                  (ProbeTimeout policy) with
          | (opened, Err e) => ([Globals globals; OnClients opened; shutdownTelemetry], Some e)
          | (opened, Ok clients) =>
              ([Globals globals; OnClients opened;
                EnterLoop policy Probes server;
                OnClients (Close (Some clients)); shutdownTelemetry],
               loop_result policy Probes o)
          end
      end
  end.

(** [setReady]: the health endpoint first, then the metric. *)
Definition setReady (metrics ready : bool) (health : Health.Health)
    : Health.Health * list Http.telemetry_call :=
  (Health.SetReady ready health, Http.SetReady metrics ready).

(** [main]: the version, or a run with its error logged and its exit code. *)
Record exit := { x_output : string; x_globals : list global_call; x_events : list event;
                 x_logged : error; x_code : Z }.

Definition service_main (Version Revision name binary : string) (arguments : list string)
    (loaded : res ServiceSettings) (o : outcomes) : exit :=
  match BuildInfo.WriteVersion Version Revision arguments binary with
  | Some line => {| x_output := line; x_globals := []; x_events := []; x_logged := None;
                    x_code := 0 |}
  | None =>
      let '(events, err) := run_service name loaded o in
      let err := (Runtime.Run err).2 in
      {| x_output := ""; x_globals := InstallBootstrapLogger name; x_events := events;
         x_logged := err; x_code := match err with Some _ => 1 | None => 0 end |}
  end.

Section processes.
Context {os : OS} {order : MapOrder}.

Definition gateway_run (o : outcomes) : list event * error :=
  run_service "gateway" (gateway_settings <$> LoadGateway) o.
Definition control_plane_run (o : outcomes) : list event * error :=
  run_service "control-plane" (control_plane_settings <$> LoadControlPlane) o.
Definition worker_run (o : outcomes) : list event * error :=
  run_service "worker" (worker_settings <$> LoadWorker) o.

Definition gateway_main (Version Revision : string) (arguments : list string) (o : outcomes) : exit :=
  service_main Version Revision "gateway" "nexusrelay-gateway" arguments
    (gateway_settings <$> LoadGateway) o.
Definition control_plane_main (Version Revision : string) (arguments : list string) (o : outcomes)
    : exit :=
  service_main Version Revision "control-plane" "nexusrelay-control-plane" arguments
    (control_plane_settings <$> LoadControlPlane) o.
Definition worker_main (Version Revision : string) (arguments : list string) (o : outcomes) : exit :=
  service_main Version Revision "worker" "nexusrelay-worker" arguments
    (worker_settings <$> LoadWorker) o.
End processes.
End service.

(** * The bootstrap command *)

Definition bootstrap_usage : list string :=
  ["Usage: nexusrelay-bootstrap <command>"; ""; "Commands:";
   "  owner     Reserved initial-owner bootstrap command (not implemented)";
   "  help      Show this help"; "  version   Show the binary version"].

Definition writeUsage : string :=
  foldr (λ line rest, line +:+ String "010" rest) "" bootstrap_usage.

Definition errNotImplemented : string :=
  "owner bootstrap is reserved for Phase 4 and is not implemented".

(** The output and the error. *)
Definition bootstrap_run {tables : UnicodeTables} (Version Revision : string)
    (arguments : list string) : string * error :=
  match BuildInfo.WriteVersion Version Revision arguments "nexusrelay-bootstrap" with
  | Some line => (line, None)
  | None =>
      match arguments with
      | [] => (writeUsage, Some "a bootstrap command is required")
      | first :: rest =>
          if (length rest =? 0)%nat && Logging.in_list first ["-h"; "--help"; "help"]
          then (writeUsage, None)
          else if (length rest =? 0)%nat && String.eqb first "owner"
          then ("", Some errNotImplemented)
          else (writeUsage, Some ("unknown bootstrap command " +:+ quote first))
      end
  end.

(** [main]: the output, the text after the time stamp of the log line, and the
    exit code. *)
Definition bootstrap_main {tables : UnicodeTables} (Version Revision : string)
    (arguments : list string) : string * error * Z :=
  match bootstrap_run Version Revision arguments with
  | (output, Some e) => (output, Some ("bootstrap stopped: " +:+ e), 1)
  | (output, None) => (output, None, 0)
  end.

(** * Lemmas *)

Section balance.
Context `{Pgx} `{GoRedis} {tables : UnicodeTables}.

(** The calls on the clients, in order. *)
Definition client_calls (events : list event) : list client_call :=
  events ≫= λ e, match e with OnClients calls => calls | _ => [] end.

(** The call that releases what a call has created, if it has. *)
Definition release (pool_ok : bool) (c : client_call) : option client_call :=
  match c with
  | CreatePool c => if pool_ok then Some (ClosePool c) else None
  | CreateRedis o => Some (CloseRedis o)
  | _ => None
  end.

Definition balanced (pool_ok : bool) (calls : list client_call) : Prop :=
  ∀ opened closed, opened ∈ calls → release pool_ok opened = Some closed → closed ∈ calls.

Lemma run_service_balanced name loaded o :
  balanced (o_pool o) (client_calls (run_service name loaded o).1).
Proof.
  unfold run_service, balanced. destruct loaded as [s|e]; [|set_solver].
  destruct (New _ _ _ _) as [g [t|e]]; [|cbn; set_solver].
  unfold Dependency.Open.
  destruct (postgresPoolConfig _ _) as [pc|]; [|cbn; set_solver].
  destruct (o_pool o); cbn [negb].
  - destruct (redisOptions _ _) as [ro|]; cbn; intros opened closed;
      rewrite !elem_of_cons, elem_of_nil;
      intros Hin Hr; destruct_or!; subst; try done; injection Hr as <-; set_solver.
  - cbn. intros opened closed. rewrite !elem_of_cons, elem_of_nil.
    intros Hin Hr. destruct_or!; subst; done.
Qed.

End balance.

(** * Settings under which a service starts *)

Definition startable {tables : UnicodeTables} (s : ServiceSettings) : Prop :=
  observability_ok (ss_Observability s) ∧
  ∃ v, parseDependencyReadiness v = Ok (ss_Readiness s).

Section loaded.
Context {os : OS} {tables : UnicodeTables} {order : MapOrder}.

Lemma parseServiceCommon_observability v s h o :
  parseServiceCommon v = Ok (s, h, o) → observability_ok o.
Proof.
  unfold parseServiceCommon. intros H. res_inv H. subst. by apply (parseObservability_ok v).
Qed.

Lemma gateway_startable v g : ParseGateway v = Ok g → startable (gateway_settings g).
Proof.
  unfold ParseGateway. intros H. res_inv H. subst g. cbn.
  split; [by eapply parseServiceCommon_observability|by exists v].
Qed.

Lemma control_plane_startable v c :
  ParseControlPlane v = Ok c → startable (control_plane_settings c).
Proof.
  unfold ParseControlPlane. intros H. res_inv H. subst c. cbn.
  split; [by eapply parseServiceCommon_observability|by exists v].
Qed.

Lemma worker_startable v w : ParseWorker v = Ok w → startable (worker_settings w).
Proof.
  unfold ParseWorker. intros H. res_inv H. subst w. cbn.
  split; [by eapply parseServiceCommon_observability|by exists v].
Qed.
End loaded.

Lemma Probes_ok : check_probes Probes = Ok tt.
Proof. reflexivity. Qed.

Lemma start_configured v p ctx : parseDependencyReadiness v = Ok p →
  ∃ s0, start (policy_of p) Probes ctx = Ok s0.
Proof.
  intros [Hv _]%configured_policy. unfold start. rewrite Hv, Probes_ok. by eexists.
Qed.
