(* ===== verification/ConfigGuarantees.v ===== *)
(** What configuration guarantees: the properties of [internal/config], stated
    of the parsers a process calls, with concrete inputs that meet their
    hypotheses. *)
From S2P Require Import Prelude GoStrings Strconv Duration Settings Net Url Regex Base64 Os Json Secrets StrictJson Policies Endpoints Config EnvFile Isolation Fixtures.

Local Open Scope string_scope.
Local Open Scope Z_scope.

(** * Validation before deployment *)

Section startup.
Context {os : OS} {tables : UnicodeTables} {mail : MailParser} {order : MapOrder}.

(** C2: when [ValidateComplete] accepts the values of an environment file, the
    gateway, the control plane and the worker each start with the very
    configuration it computed, in any environment that gives the process the
    settings it consumes and passes its preflight, on the same files. *)
Theorem validated_services_start values :
  ValidateComplete values = Ok tt →
  (∀ v, agree ProcessGateway v values → preflight v ProcessGateway = Ok tt →
     ∃ g, ParseGateway v = Ok g ∧
          ParseGateway (ValuesForProcess values ProcessGateway) = Ok g) ∧
  (∀ v, agree ProcessControlPlane v values → preflight v ProcessControlPlane = Ok tt →
     ∃ c, ParseControlPlane v = Ok c ∧
          ParseControlPlane (ValuesForProcess values ProcessControlPlane) = Ok c) ∧
  (∀ v, agree ProcessWorker v values → preflight v ProcessWorker = Ok tt →
     ∃ w, ParseWorker v = Ok w ∧
          ParseWorker (ValuesForProcess values ProcessWorker) = Ok w).
Proof.
  unfold ValidateComplete. intros H. res_inv H. clear H.
  split_and!; intros v Hagree Hpre; eexists; (split; [|eassumption]).
  - rewrite (ParseGateway_agree v (ValuesForProcess values ProcessGateway)); [eassumption| |].
    + exact (agree_trans _ _ _ _ Hagree (agree_sym _ _ _ (agree_filtered _ _))).
    + by rewrite Hpre, preflight_filtered.
  - rewrite (ParseControlPlane_agree v (ValuesForProcess values ProcessControlPlane));
      [eassumption| |].
    + exact (agree_trans _ _ _ _ Hagree (agree_sym _ _ _ (agree_filtered _ _))).
    + by rewrite Hpre, preflight_filtered.
  - rewrite (ParseWorker_agree v (ValuesForProcess values ProcessWorker)); [eassumption| |].
    + exact (agree_trans _ _ _ _ Hagree (agree_sym _ _ _ (agree_filtered _ _))).
    + by rewrite Hpre, preflight_filtered.
Qed.

(** C3: a process is not influenced by settings it does not consume: two
    environments with the same consumed settings and the same preflight give
    the same result, value or error, for each of the five parsers. *)
Theorem parsers_are_isolated v w :
  (agree ProcessGateway v w → preflight v ProcessGateway = preflight w ProcessGateway →
     ParseGateway v = ParseGateway w) ∧
  (agree ProcessControlPlane v w →
     preflight v ProcessControlPlane = preflight w ProcessControlPlane →
     ParseControlPlane v = ParseControlPlane w) ∧
  (agree ProcessWorker v w → preflight v ProcessWorker = preflight w ProcessWorker →
     ParseWorker v = ParseWorker w) ∧
  (agree ProcessBootstrap v w → preflight v ProcessBootstrap = preflight w ProcessBootstrap →
     ParseBootstrap v = ParseBootstrap w) ∧
  (agree ProcessDeployment v w →
     preflight v ProcessDeployment = preflight w ProcessDeployment →
     ParseDeployment v = ParseDeployment w).
Proof.
  split_and!.
  - apply ParseGateway_agree.
  - apply ParseControlPlane_agree.
  - apply ParseWorker_agree.
  - apply ParseBootstrap_agree.
  - apply ParseDeployment_agree.
Qed.

Lemma bind_mono {A B} (m m' : res A) (f f' : A → res B) b :
  (∀ a, m = Ok a → m' = Ok a) → (∀ a, f a = Ok b → f' a = Ok b) →
  m ≫= f = Ok b → m' ≫= f' = Ok b.
Proof.
  intros Hm Hf. rewrite !bind_ok. intros (a & Ha & Hb). exists a. split; [by apply Hm|by apply Hf].
Qed.

End startup.

(** C19: Go visits the entries of a map in an unspecified order; the deployment
    parser ranges over three of them, and yields the same configuration in
    every order in which it yields one. *)
Theorem deployment_independent_of_map_order {os : OS} {tables : UnicodeTables}
    {mail : MailParser} (o o' : MapOrder) v d :
  @ParseDeployment os tables mail o v = Ok d → @ParseDeployment os tables mail o' v = Ok d.
Proof.
  unfold ParseDeployment. apply bind_mono; [intros []; apply preflight_order|]. intros _.
  do 5 (apply bind_mono; [done|]; intros ?).
  apply bind_mono; [intros inv; apply parseDatabaseInventory_order|]. done.
Qed.

(** * Secrets *)

Section secrets.
Context {os : OS} {tables : UnicodeTables}.

(** C4: a secret is read from the file that was checked.  Reading succeeds with
    [contents] exactly when [path] names, at the [Lstat], a regular file that
    is no symbolic link and is closed to group and world (the last not on
    Windows); the file then opened has the same device and inode, however it
    got there; and what it holds is at most [maximumBytes] of valid UTF-8
    that is [contents], without surrounding white space and not empty, followed
    by nothing, by a line feed, or by a carriage return and a line feed. *)
Theorem secret_is_read_from_the_checked_file setting path maximumBytes contents :
  readSecretBytes setting path maximumBytes = Ok contents ↔
  setting ≠ "" ∧ 0 < maximumBytes ∧ path ≠ "" ∧
  ∃ linkInfo file openedInfo raw,
    Lstat path = Some linkInfo ∧
    has_mode (fi_mode linkInfo) ModeSymlink = false ∧ IsRegular (fi_mode linkInfo) = true ∧
    (GOOS = "windows" ∨ Z.land (Perm (fi_mode linkInfo)) 63 = 0) ∧
    Open path = Some file ∧ f_stat file = Some openedInfo ∧
    SameFile linkInfo openedInfo = true ∧
    read_limited file (wrap64 (maximumBytes + 1)) = Some raw ∧ len raw ≤ maximumBytes ∧
    Utf8.valid raw = true ∧ contents ≠ "" ∧ trim_space contents = contents ∧
    raw ∈ [contents; contents +:+ LF; contents +:+ CRLF].
Proof.
  rewrite readSecretBytes_iff. unfold protected, safe_mode, secret_contents.
  pose proof (strip_line_end_spec contents) as Hs.
  split.
  - intros (H1 & H2 & file & (H3 & li & oi & H4 & (H5 & H6 & H7) & H8 & H9 & H10) & raw & H11 & H12 & H13 & H14 & H15 & H16).
    apply Hs in H14; [|done]. split_and!; [done..|]. exists li, file, oi, raw. by split_and!.
  - intros (H1 & H2 & H3 & li & file & oi & raw & H4 & H5 & H6 & H7 & H8 & H9 & H10 & H11 & H12 & H13 & H14 & H15 & H16).
    apply Hs in H16; [|done]. split_and!; [done..|]. exists file. split.
    + split; [done|]. exists li, oi. by split_and!.
    + exists raw. by split_and!.
Qed.

(** C20: [validateRing] in full: it accepts a version 1 ring when every entry
    has a well-formed identifier, used once, and the canonical padded base64
    of 32 bytes, and the active identifier is among them; the ring then maps
    each identifier to its 32 bytes. *)
Theorem key_ring_validation setting version active entries ring :
  validateRing setting version active entries = Ok ring ↔
  version = 1 ∧ ∃ bytes : list (string * string),
    Forall2 (λ e kv, kv.1 = e_KeyID e ∧ MatchString keyIDPattern (e_KeyID e) = true ∧
               String.length kv.2 = 32%nat ∧ e_Key e = StdEncode kv.2) entries bytes ∧
    NoDup (e_KeyID <$> entries) ∧ active ∈ e_KeyID <$> entries ∧
    ring = mkKeyRing active (list_to_map bytes).
Proof.
  rewrite validateRing_iff.
  assert (Hids : ∀ kvs, Forall2 entry_ok entries kvs → kvs.*1 = e_KeyID <$> entries).
  { induction 1 as [|e kv es kvs [Hk _] _ IH]; [done|]. by rewrite !fmap_cons, IH, Hk. }
  split; intros (Hv & kvs & Hf & Hnd & Ha & Hr); (split; [exact Hv|]); exists kvs;
    pose proof (Hids kvs Hf) as E; rewrite <- ?E in *; [|rewrite E in *]; done.
Qed.

(** The expected epoch is a signed 64-bit integer wherever it came from. *)
Definition epoch_fits (w : ring_wire) : Prop := int64_min ≤ w_ExpectedEpoch w ≤ int64_max.

Lemma wire_epoch_fits tree w :
  Tree.into_struct (wire_setters true) (mkWire 0 0 "" []) tree = Some w → epoch_fits w.
Proof.
  apply Tree.into_struct_inv; [unfold epoch_fits, int64_min, int64_max; cbn; lia|].
  assert (K : ∀ {A} (o : option A) (f : A → ring_wire) w0 w',
    epoch_fits w0 → (∀ x, w_ExpectedEpoch (f x) = w_ExpectedEpoch w0) →
    f <$> o = Some w' → epoch_fits w').
  { intros A o f w0 w' Hw Hx. destruct o as [x|]; [|done]. intros [= <-].
    unfold epoch_fits. by rewrite Hx. }
  refine (proj1 (Forall_forall _ _) _). unfold wire_setters. cbn [app].
  rewrite !Forall_cons, Forall_nil. split_and!; try done; intros w1 j w' Hw; cbn;
    try (by apply (K _ _ _ w1)).
  destruct j; cbn; try done; [by intros [= <-]|].
  destruct (parse_int lexeme) as [z|] eqn:Hz; [|done]. intros [= <-].
  by apply parse_int_range in Hz.
Qed.

(** C17: a provider key ring that is read has an active key, only well-formed
    identifiers and 32-byte keys, and a positive epoch that fits in 64 bits;
    and its file is one JSON text in which every object, at every level, has
    known fields only and none of them twice. *)
Theorem provider_key_ring_is_sound path r :
  ReadProviderKeyRing path = Ok r →
  is_Some (keys (pkr_KeyRing r) !! ActiveKeyID (pkr_KeyRing r)) ∧
  (∀ id key, keys (pkr_KeyRing r) !! id = Some key →
     MatchString keyIDPattern id = true ∧ String.length key = 32%nat) ∧
  1 ≤ ExpectedEpoch r ≤ int64_max ∧
  ∃ contents tree rest,
    readSecretBytes "MASTER_KEYRING_FILE" path keyRingMaximumBytes = Ok contents ∧
    Tree.parse contents = Some (tree, rest) ∧ Tree.skip_space rest = "" ∧
    conforms (ring_schema true) tree.
Proof.
  unfold ReadProviderKeyRing. intros H. res_inv H. subst r.
  apply strictJSON_ok in Hr0 as (tree & rest & Hp & Hs & Hc & Hd).
  apply validateRing_ok in Hr1 as [[Hact Hall] _]. apply wire_epoch_fits in Hd.
  unfold epoch_fits in Hd. cbn [pkr_KeyRing ExpectedEpoch expectedEpoch]. zbool.
  split_and!; [exact Hact|exact Hall|lia|lia|]. by exists a, tree, rest.
Qed.

(** The strict reader is total: on every input the scan finishes within
    the fuel [strictJSON] gives it. *)
Theorem json_scan_terminates contents schema :
  ∃ r, scanJSONValue (S (2 * String.length contents)) (Tokens.NewDecoder contents) schema
       = Some r.
Proof. apply scan_terminates. Qed.

(** The session secret is the canonical padded base64 of exactly 32 bytes:
    a file is accepted if and only if it is a simple secret and its text is
    the encoding of a 32-byte string, which is then unique. *)
Theorem base64_key_is_canonical setting path maximumBytes s :
  ReadBase64Key setting path maximumBytes = Ok s ↔
  ReadSimpleSecret setting path maximumBytes = Ok s ∧
  ∃ key, String.length key = 32%nat ∧ Reveal s = StdEncode key ∧
    ∀ key', StdEncode key' = Reveal s → key' = key.
Proof.
  unfold ReadBase64Key. rewrite bind_ok. split.
  - intros (s' & Hs & H). destruct (canonical_key (secret_value s')) as [key|] eqn:Hk; [|done].
    injection H as <-. split; [exact Hs|]. apply canonical_key_iff in Hk as [Hl Hk].
    exists key. split_and!; [exact Hl|exact Hk|]. intros key' Hk'.
    unfold Reveal in Hk'. rewrite Hk in Hk'. apply (f_equal StrictDecode) in Hk'.
    rewrite !StrictDecode_StdEncode in Hk'. congruence.
  - intros [Hs (key & Hl & Hk & _)]. exists s. split; [exact Hs|].
    assert (canonical_key (secret_value s) = Some key) as -> by (by apply canonical_key_iff).
    done.
Qed.

(** C35: the error of a key ring whose first field is unknown spells that field
    out: text of the secret file becomes part of the message. *)
Theorem key_ring_error_quotes_the_file setting path name rest :
  readSecretBytes setting path keyRingMaximumBytes =
    Ok (String "{" (String Scan.dquote (name +:+ String Scan.dquote rest))) →
  all_bytes legible name = true → name ∉ ["version"; "active_key_id"; "keys"] →
  ReadKeyRing setting path =
    Err ("read " +:+ setting +:+ ": invalid JSON: unknown field " +:+
         String Scan.dquote name +:+ String Scan.dquote "").
Proof.
  intros Hread Hn Hnin. unfold ReadKeyRing. rewrite Hread. cbn [mbind res_bind].
  unfold strictJSON.
  replace (2 * String.length (String "{" (String Scan.dquote (name +:+ String Scan.dquote rest))))%nat
    with (S (2 * String.length (name +:+ String Scan.dquote rest) + 3)) by (cbn; lia).
  unfold ring_schema. rewrite scan_unknown_field; [done|done|].
  unfold schema_field. cbn [app].
  repeat (case_match; [match goal with H : String.eqb _ _ = true |- _ =>
    apply String.eqb_eq in H; subst name; set_solver end|]). done.
Qed.
End secrets.

(** * Processes *)

Section processes.
Context {os : OS} {tables : UnicodeTables} {mail : MailParser} {order : MapOrder}.

(** C13: in production a gateway and a control plane that start use https for
    their public and administrative URLs and for every allowed origin, reach
    the database in a mode that insists on TLS, and the session cookie carries the [__Host-]
    prefix. *)
Theorem production_is_hardened v :
  value v "NEXUSRELAY_ENV" "development" = "production" →
  (∀ g, ParseGateway v = Ok g →
     (∃ u, PublicAPIBaseURL (gw_Endpoints g) = Some u ∧ Scheme u = "https") ∧
     db_SSLMode (gw_Database g) ∈ ["require"; "verify-ca"; "verify-full"]) ∧
  (∀ c, ParseControlPlane v = Ok c →
     (∃ u, PublicAPIBaseURL (cp_Endpoints c) = Some u ∧ Scheme u = "https") ∧
     (∃ u, AdminBaseURL (cp_Endpoints c) = Some u ∧ Scheme u = "https") ∧
     Forall (λ o, Scheme o = "https") (AdminOrigins (cp_Endpoints c)) ∧
     db_SSLMode (cp_Database c) ∈ ["require"; "verify-ca"; "verify-full"] ∧
     has_prefix (sp_CookieName (cp_Sessions c)) "__Host-" = true).
Proof.
  intros Henv. split.
  - intros g Hg. apply ParseGateway_parts in Hg as (He & (Hpub & _) & [u Hu] & Hdb).
    rewrite Henv in He. rewrite He in *. split; [|by apply (sslmode_production "production"), Hdb].
    exists u. split; [exact Hu|]. by apply (Hpub u Hu).
  - intros c Hc.
    apply ParseControlPlane_parts in Hc as (He & Hep & [u Hu] & [a Ha] & Hdb & _ & Hcookie).
    rewrite Henv in He. rewrite He in *. destruct Hep as (Hpub & Hadm & _ & _ & Hor & _).
    split_and!.
    + exists u. split; [exact Hu|]. by apply (Hpub u Hu).
    + exists a. split; [exact Ha|]. by apply (Hadm a Ha).
    + by apply Hor.
    + by apply (sslmode_production "production"), Hdb.
    + by apply Hcookie.
Qed.

(** C28: a worker that starts runs within the documented limits: its policy is
    ordered and bounded, its readiness policy is one the readiness loop
    accepts, and its connection pool is not empty nor inverted. *)
Theorem worker_runs_within_limits v w :
  ParseWorker v = Ok w →
  worker_policy_ok (wk_Policy w) ∧ readiness_ok (wk_Readiness w) ∧
  0 ≤ db_MinConnections (wk_Database w) ≤ db_MaxConnections (wk_Database w) ∧
  1 ≤ db_MaxConnections (wk_Database w) ≤ 10000 ∧ db_User (wk_Database w) = workerUser.
Proof.
  intros (_ & Hdb & Hr & Hp)%ParseWorker_parts. destruct Hdb as (Hu & _ & Hmin & Hmax & _).
  done.
Qed.

(** C12: a deployment that is accepted keeps its roles apart: the five database
    roles have pairwise distinct password files holding pairwise distinct
    passwords, each in the file its own setting names, the Redis password is the one in the Redis URL, and no tailnet
    is enabled. *)
Theorem deployment_separates_credentials v d :
  ParseDeployment v = Ok d →
  di_PasswordFiles (dep_Database d) = list_to_map
    [("POSTGRES_PASSWORD_FILE",
        value v "POSTGRES_PASSWORD_FILE" "/run/secrets/postgres_cluster_admin_password");
     ("DATABASE_MIGRATION_PASSWORD_FILE",
        value v "DATABASE_MIGRATION_PASSWORD_FILE" "/run/secrets/postgres_migration_password");
     ("DATABASE_GATEWAY_PASSWORD_FILE",
        value v "DATABASE_GATEWAY_PASSWORD_FILE" "/run/secrets/postgres_gateway_password");
     ("DATABASE_CONTROL_PLANE_PASSWORD_FILE",
        value v "DATABASE_CONTROL_PLANE_PASSWORD_FILE"
          "/run/secrets/postgres_control_plane_password");
     ("DATABASE_WORKER_PASSWORD_FILE",
        value v "DATABASE_WORKER_PASSWORD_FILE" "/run/secrets/postgres_worker_password")] ∧
  passwords_distinct (di_PasswordFiles (dep_Database d)) ∧
  (∃ url_secret u user,
     ReadURISecret "REDIS_URL_FILE" (requiredPath v "REDIS_URL_FILE" "/run/secrets/redis_url")
       (4 * 1024) ["redis"; "rediss"] = Ok (url_secret, u) ∧
     User u = Some user ∧ ui_password user = Reveal (dep_RedisPassword d) ∧
     (ui_username user = "" ∨ ui_username user = "default")) ∧
  ts_Enabled (dep_Tailscale d) = false.
Proof.
  unfold ParseDeployment. intros H. res_inv H. subst d.
  cbn [dep_Database dep_RedisPassword dep_Tailscale].
  apply parseDatabaseInventory_ok in Hr5 as (Hpw & Hpaths & _).
  split_and!; [exact Hpaths|exact Hpw| |exact (parseTailscale_refuses _ _ Hr8)].
  unfold parseRedisDeployment in Hr6. res_inv Hr6.
  destruct (User u) as [user|] eqn:Hu; [|discriminate Hr6]. res_inv Hr6. rewrite <- Hr6.
  exists s, u, user. split_and!; [assumption|exact Hu| |].
  - apply orb_false_iff in Hg1 as [_ Hg1]. by apply negb_false_iff, String.eqb_eq in Hg1.
  - apply andb_false_iff in Hg0. rewrite !negb_false_iff, !String.eqb_eq in Hg0. exact Hg0.
Qed.

(** C27: a tunnel is only ever enabled over https, with certificates from the
    Cloudflare DNS challenge, for a public host that is not the admin host,
    and with credentials for the tunnel that is named. *)
Theorem tunnel_is_guarded v endpoints tls c :
  parseCloudflare v endpoints tls = Ok c → cf_Enabled c = true →
  scheme_of (PublicAPIBaseURL endpoints) = "https" ∧
  tls_Mode tls = "acme" ∧ tls_ACMEDNSProvider tls = "cloudflare" ∧
  equal_fold (PublicAPIHost endpoints) (AdminHost endpoints) = false ∧
  cf_TunnelID c ≠ "" ∧
  ∃ credentials, ReadCloudflareCredentials (cf_CredentialsFile c) = Ok credentials ∧
    cred_TunnelID credentials = cf_TunnelID c.
Proof.
  unfold parseCloudflare. intros H He. res_inv H. destruct a; cbn [negb] in H.
  2:{ res_inv H. subst c. discriminate He. }
  res_inv H. subst c. cbn [cf_Enabled cf_TunnelID cf_CredentialsFile] in *.
  apply negb_false_iff, String.eqb_eq in Hg.
  rewrite orb_false_iff, !negb_false_iff, !String.eqb_eq in Hg0.
  apply negb_false_iff, String.eqb_eq in Hg1.
  split_and!; try tauto.
  - unfold validatePublicTunnelHosts in Hr0.
    destruct (equal_fold _ _); [|done]. cbn [negb] in Hr0. res_inv Hr0. discriminate Hr0.
  - unfold cleanNonempty in Hr1. res_inv Hr1. apply orb_false_iff in Hg2 as [Hg2 _].
    by apply String.eqb_neq.
  - eexists. split; [eassumption|done].
Qed.

(** The bootstrap command accepts an organization slug exactly as
    documented: 1 to 63 lower-case letters, digits and hyphens, the first and
    the last of them no hyphen. *)
Theorem bootstrap_slug_format slug :
  MatchString slugPattern slug = true ↔
  (1 ≤ String.length slug ≤ 63)%nat ∧
  all_bytes (either slug_end (oneof "-")) slug = true ∧
  (∃ c t, slug = String c t ∧ slug_end c = true) ∧
  (∃ t c, slug = t +:+ String c "" ∧ slug_end c = true).
Proof.
  rewrite MatchString_lang. unfold slugPattern. rewrite lang_cls_cat.
  setoid_rewrite lang_opt. setoid_rewrite lang_cat_inv.
  setoid_rewrite lang_upto_cls. setoid_rewrite lang_cls_inv.
  assert (Hend : ∀ c, slug_end c = true → either slug_end (oneof "-") c = true)
    by (unfold either; by intros c ->).
  split.
  - intros (c & t & -> & Hc & [->|(s1 & s2 & -> & [Ha Hl] & e & -> & He)]).
    + cbn. rewrite (Hend c Hc). split_and!; [lia|lia|done|by exists c, ""|by exists "", c].
    + cbn [String.length all_bytes]. rewrite !slen_app, (Hend c Hc), all_bytes_app, Ha. cbn.
      rewrite (Hend e He). split_and!; [lia|lia|done| |].
      * by exists c, (s1 +:+ String e "").
      * by exists (String c s1), e.
  - intros (Hl & Hall & (c & t & -> & Hc) & (t' & e & Ht & He)).
    exists c, t. split_and!; [done|done|]. destruct t' as [|c' t'].
    + injection Ht as _ ->. by left.
    + injection Ht as <- ->. right. exists t', (String e "").
      cbn [String.length all_bytes] in Hl, Hall. rewrite slen_app in Hl.
      rewrite all_bytes_app, !andb_true_iff in Hall. cbn in Hl.
      split_and!; [done|tauto|lia|by exists e].
Qed.
End processes.

(** * The environment file *)

(** C22: assignments of printable values to distinct documented settings,
    printed one per line, are read back as the same settings. *)
Theorem environment_file_round_trip {tables : UnicodeTables} entries :
  Forall (λ e : string * string, known e.1 = true ∧ all_bytes printable e.2 = true ∧
            (String.length (e.1 +:+ "=" +:+ e.2) ≤ max_line)%nat) entries →
  NoDup entries.*1 → len (render entries) ≤ maximumEnvironmentFileBytes →
  ∃ values, parseEnvironmentFile (Some (render entries)) = Ok values ∧
    ∀ name value, values !! name = Some value ↔ (name, value) ∈ entries.
Proof.
  intros Hall Hnd Hlen. exists (list_to_map entries).
  split; [by apply parse_render|]. intros name x. symmetry. by apply elem_of_list_to_map.
Qed.

(** Whatever an environment file holds, the values read from it pass every
    process's preflight once they are filtered for it, and the filtered values
    are the consumed settings and nothing else. *)
Theorem filtered_values_pass_preflight {tables : UnicodeTables} {order : MapOrder} input values :
  parseEnvironmentFile input = Ok values →
  ∀ p, preflight (ValuesForProcess values p) p = Ok tt ∧
    (∀ name, ValuesForProcess values p !! name =
       if consumed_by p name then values !! name else None) ∧
    (long_running p = false → preflight values p = Ok tt).
Proof.
  intros Hv p. split_and!; [apply preflight_filtered|apply ValuesForProcess_lookup|].
  intros Hp. apply preflight_iff. rewrite Hp. split; [|done].
  intros name Hn. exact (foreign_known _ (parseEnvironmentFile_known _ _ Hv name Hn)).
Qed.

(** The preflight accepts an environment exactly when it holds no obsolete
    and no undocumented name of NexusRelay's own, and, for a long-running
    service, no setting of the bootstrap command; in any order of the map. *)
Theorem preflight_accepts {order : MapOrder} v p :
  preflight v p = Ok tt ↔
  (∀ name, is_Some (v !! name) → inventory !! name = None →
     (name ∉ obsoleteSettings) ∧ ∀ prefix, prefix ∈ unmistakableOwnedPrefixes →
       has_prefix name prefix = false) ∧
  (p ∈ [ProcessGateway; ProcessControlPlane; ProcessWorker] →
   ∀ name, name ∈ commandOnlySettings → v !! name = None).
Proof.
  rewrite preflight_iff.
  assert (Hl : long_running p = true ↔ p ∈ [ProcessGateway; ProcessControlPlane; ProcessWorker]).
  { rewrite !elem_of_cons, elem_of_nil. destruct p; cbn; intuition discriminate. }
  assert (Hf : ∀ name, foreign name = false ↔ (inventory !! name = None →
     (name ∉ obsoleteSettings) ∧ ∀ prefix, prefix ∈ unmistakableOwnedPrefixes →
       has_prefix name prefix = false)).
  { intros name. unfold foreign, known.
    rewrite andb_false_iff, negb_false_iff, bool_decide_eq_true, orb_false_iff.
    rewrite <- not_true_iff_false, mem_spec.
    assert (Hx : existsb (has_prefix name) unmistakableOwnedPrefixes = false ↔
      ∀ prefix, prefix ∈ unmistakableOwnedPrefixes → has_prefix name prefix = false).
    { rewrite <- not_true_iff_false, existsb_exists. setoid_rewrite <- list_elem_of_In.
      setoid_rewrite <- not_true_iff_false. naive_solver. }
    rewrite Hx, <- not_eq_None_Some. destruct (inventory !! name); naive_solver. }
  setoid_rewrite Hf. rewrite Hl. done.
Qed.

(** * Defaults *)

(** With none of its settings given, a policy is the default one: every
    default survives being printed and parsed, and lies within its bounds. *)
Theorem default_policies v :
  (agree ProcessGateway v ∅ → parseGatewayPolicy v = Ok {|
     gp_RequestBodyMaxBytes := 10485760; gp_UpstreamConnectTimeout := 10 * Second;
     gp_UpstreamFirstByteTimeout := Minute; gp_UpstreamIdleTimeout := Minute;
     gp_UpstreamTotalTimeout := 10 * Minute; gp_MaxUpstreamAttempts := 3 |}) ∧
  (agree ProcessGateway v ∅ → parseDependencyReadiness v = Ok {|
     dr_StartupTimeout := Minute; dr_ProbeTimeout := 3 * Second;
     dr_ProbeInterval := 5 * Second; dr_RetryMinimum := 100 * Millisecond;
     dr_RetryMaximum := 2 * Second |}) ∧
  (agree ProcessControlPlane v ∅ → parsePasswordPolicy v = Ok {|
     pp_Argon2MemoryKiB := 65536; pp_Argon2Iterations := 3; pp_Argon2Parallelism := 2 |}) ∧
  (agree ProcessControlPlane v ∅ → parseAgent v = Ok {|
     ae_APIKeyEnvironment := "NEXUSRELAY_API_KEY"; ae_OpenCodeProviderID := "nexusrelay";
     ae_OpenCodeProviderName := "NexusRelay" |}).
Proof.
  split_and!; intros H.
  - unfold parseGatewayPolicy. agree_reads H. vm_compute. reflexivity.
  - unfold parseDependencyReadiness. agree_reads H. vm_compute. reflexivity.
  - unfold parsePasswordPolicy. agree_reads H. vm_compute. reflexivity.
  - unfold parseAgent. agree_reads H. vm_compute. reflexivity.
Qed.

(** * The hypotheses can hold *)

(** An environment that gives no process any setting. *)
Definition bare : env := {["PATH" := "/bin"]}.

Lemma agree_bare p : agree p bare ∅.
Proof.
  intros name Hc. unfold bare. destruct (decide (name = "PATH")) as [->|Hne].
  - destruct p; vm_compute in Hc; discriminate Hc.
  - by rewrite lookup_singleton_ne, lookup_empty by congruence.
Qed.

(** A run that succeeds, by evaluation. *)
Ltac runs m :=
  let H := fresh in
  assert (H : is_ok m = true) by (vm_compute; reflexivity);
  apply is_ok_true in H as [x Hx].

Lemma validated_services_start_witness :
  ∃ g, @ParseGateway dev_machine identity_tables forward_order bare = Ok g.
Proof.
  assert (Hv : @ValidateComplete dev_machine identity_tables plain_mail forward_order ∅ = Ok tt)
    by (vm_compute; reflexivity).
  assert (Hp : @preflight forward_order bare ProcessGateway = Ok tt) by (vm_compute; reflexivity).
  destruct (validated_services_start _ Hv) as (H & _ & _).
  destruct (H bare (agree_bare _) Hp) as (g & Hg & _).
  exact (ex_intro _ g Hg).
Defined.

Lemma parsers_are_isolated_witness :
  @ParseGateway dev_machine identity_tables forward_order bare =
  @ParseGateway dev_machine identity_tables forward_order ∅.
Proof.
  assert (Hp : @preflight forward_order bare ProcessGateway =
               @preflight forward_order ∅ ProcessGateway) by (vm_compute; reflexivity).
  exact (proj1 (@parsers_are_isolated dev_machine identity_tables plain_mail forward_order bare ∅)
           (agree_bare _) Hp).
Defined.

Lemma deployment_order_witness :
  ∃ d, @ParseDeployment dev_machine identity_tables plain_mail backward_order ∅ = Ok d.
Proof.
  runs (@ParseDeployment dev_machine identity_tables plain_mail forward_order ∅).
  exists x. exact (deployment_independent_of_map_order forward_order backward_order _ _ Hx).
Defined.

Lemma provider_key_ring_witness :
  ∃ r, @ReadProviderKeyRing dev_machine identity_tables "/run/secrets/provider_master_keyring"
       = Ok r ∧ 1 ≤ ExpectedEpoch r ≤ int64_max.
Proof.
  runs (@ReadProviderKeyRing dev_machine identity_tables "/run/secrets/provider_master_keyring").
  exists x. split; [exact Hx|].
  exact (proj1 (proj2 (proj2 (provider_key_ring_is_sound _ _ Hx)))).
Defined.

Lemma key_ring_error_witness :
  @ReadKeyRing (machine [("/ring", "{" +:+ json_field "hunter2" "1" +:+ "}")] [])
    identity_tables "MASTER_KEYRING_FILE" "/ring" =
  Err ("read MASTER_KEYRING_FILE: invalid JSON: unknown field " +:+ json_string "hunter2").
Proof.
  refine (key_ring_error_quotes_the_file (os := machine [("/ring", _)] []) _ _ "hunter2" ":1}"
            _ _ _).
  - vm_compute. reflexivity.
  - vm_compute. reflexivity.
  - apply (bool_decide_unpack _). vm_compute. exact I.
Defined.

Definition production_env : env := {[
  "NEXUSRELAY_ENV" := "production"; "PUBLIC_API_BASE_URL" := "https://api.example/v1";
  "ADMIN_BASE_URL" := "https://admin.example"; "ADMIN_ORIGINS" := "https://admin.example";
  "DATABASE_SSLMODE" := "verify-full"; "SESSION_COOKIE_NAME" := "__Host-session" ]}.

Lemma production_is_hardened_witness :
  (∃ c, @ParseControlPlane dev_machine identity_tables forward_order production_env = Ok c ∧
     has_prefix (sp_CookieName (cp_Sessions c)) "__Host-" = true) ∧
  ∃ g, @ParseGateway dev_machine identity_tables forward_order production_env = Ok g ∧
     db_SSLMode (gw_Database g) ∈ ["require"; "verify-ca"; "verify-full"].
Proof.
  assert (He : value production_env "NEXUSRELAY_ENV" "development" = "production")
    by (vm_compute; reflexivity).
  destruct (@production_is_hardened dev_machine identity_tables forward_order production_env He)
    as [Hg Hc].
  split.
  - runs (@ParseControlPlane dev_machine identity_tables forward_order production_env).
    exists x. split; [exact Hx|]. exact (proj2 (proj2 (proj2 (proj2 (Hc _ Hx))))).
  - runs (@ParseGateway dev_machine identity_tables forward_order production_env).
    exists x. split; [exact Hx|]. exact (proj2 (Hg _ Hx)).
Defined.

Lemma worker_runs_within_limits_witness :
  ∃ w, @ParseWorker dev_machine identity_tables forward_order ∅ = Ok w ∧
     worker_policy_ok (wk_Policy w).
Proof.
  runs (@ParseWorker dev_machine identity_tables forward_order ∅).
  exists x. split; [exact Hx|]. exact (proj1 (worker_runs_within_limits _ _ Hx)).
Defined.

Lemma deployment_separates_witness :
  ∃ d, @ParseDeployment dev_machine identity_tables plain_mail forward_order ∅ = Ok d ∧
     passwords_distinct (os := dev_machine) (di_PasswordFiles (dep_Database d)).
Proof.
  runs (@ParseDeployment dev_machine identity_tables plain_mail forward_order ∅).
  exists x. split; [exact Hx|]. exact (proj1 (proj2 (deployment_separates_credentials _ _ Hx))).
Defined.

(** Credentials of a tunnel named t. *)
Definition tunnel_machine : OS := machine
  [("/run/secrets/cloudflare_tunnel_credentials.json",
    "{" +:+ json_field "AccountTag" (json_string "a") +:+ "," +:+
    json_field "TunnelSecret" (json_string "s") +:+ "," +:+
    json_field "TunnelID" (json_string "t") +:+ "}")] [].

Definition tunnel_env : env :=
  {[ "ENABLE_CLOUDFLARE_TUNNEL" := "true"; "CLOUDFLARE_TUNNEL_ID" := "t" ]}.

Definition tunnel_endpoints : Endpoints := {|
  PublicAPIBaseURL := url_Parse "https://api.example/v1"; AdminBaseURL := None;
  PublicAPIHost := "api.example"; AdminHost := "admin.example"; AdminExposure := "public";
  AdminOrigins := []; TrustedProxies := [] |}.

Definition tunnel_tls : TLS := {|
  tls_Mode := "acme"; tls_CertificateFile := ""; tls_KeyFile := ""; tls_ACMEEmail := "a@b";
  tls_ACMEDNSProvider := "cloudflare"; tls_ACMEDNSAPIToken := mkSecret "x" |}.

Lemma tunnel_is_guarded_witness :
  let c := {| cf_Enabled := true; cf_TunnelID := "t";
              cf_CredentialsFile := "/run/secrets/cloudflare_tunnel_credentials.json" |} in
  @parseCloudflare tunnel_machine identity_tables tunnel_env tunnel_endpoints tunnel_tls = Ok c ∧
  cf_TunnelID c ≠ "".
Proof.
  intros c. assert (Hc : @parseCloudflare tunnel_machine identity_tables tunnel_env
    tunnel_endpoints tunnel_tls = Ok c) by (vm_compute; reflexivity).
  split; [exact Hc|].
  exact (proj1 (proj2 (proj2 (proj2 (proj2 (tunnel_is_guarded _ _ _ _ Hc eq_refl)))))).
Defined.

Lemma environment_file_round_trip_witness :
  ∃ values, parseEnvironmentFile (tables := identity_tables)
      (Some (render [("LOG_LEVEL", "debug"); ("HTTP_PORT", "8081")])) = Ok values ∧
    values !! "HTTP_PORT" = Some "8081".
Proof.
  destruct (environment_file_round_trip (tables := identity_tables)
    [("LOG_LEVEL", "debug"); ("HTTP_PORT", "8081")]) as (values & Hp & Hv).
  - apply Forall_cons; split; [|apply Forall_cons; split; [|apply Forall_nil; exact I]];
      (split; [vm_compute; reflexivity|split; [vm_compute; reflexivity|]]);
      apply Nat.leb_le; vm_compute; reflexivity.
  - apply (bool_decide_unpack _). vm_compute. exact I.
  - apply Z.leb_le. vm_compute. reflexivity.
  - exists values. split; [exact Hp|]. apply Hv. right. left.
Defined.

Lemma filtered_values_witness :
  ∃ values, parseEnvironmentFile (tables := identity_tables) (Some "LOG_LEVEL=debug") = Ok values ∧
    @preflight forward_order (@ValuesForProcess forward_order values ProcessGateway)
      ProcessGateway = Ok tt.
Proof.
  runs (parseEnvironmentFile (tables := identity_tables) (Some "LOG_LEVEL=debug")).
  exists x. split; [exact Hx|].
  exact (proj1 (filtered_values_pass_preflight (order := forward_order) _ _ Hx ProcessGateway)).
Defined.

Lemma default_policies_witness : is_ok (parseGatewayPolicy bare) = true.
Proof. by rewrite (proj1 (default_policies bare) (agree_bare _)). Defined.
