(* ===== verification/ServiceGuarantees.v ===== *)
(** What a running service guarantees: the properties of the readiness loop,
    of the process runtime and of observability, with concrete runs that meet
    their hypotheses. *)
From S2P Require Import Prelude GoStrings Strconv Duration Settings Policies Readiness Lifecycle Observability.

Local Open Scope string_scope.
Local Open Scope Z_scope.

(** * The readiness loop *)

Section readiness.
Variables (policy : ReadinessPolicy) (probes : list Probe).

(** C6: the service is ready only on evidence.  In every reachable state of
    [Run], each [setReady(true)] so far came right after a round of probes in
    which none failed, and while the service is ready the context of [serve]
    is live, unless [serve] has already returned. *)
Theorem ready_only_on_evidence s :
  reachable policy probes s →
  ready_after_success (trace s) ∧
  last_ready (trace s) = Some (ready s) ∧
  (ready s = true → cancelled s = true → serve s = Serve_received).
Proof.
  intros [Hr _ Hl Hs _ Ht Ha]%reachable_inv. split_and!; [exact Ha|exact Ht|].
  intros Hready Hcan. specialize (Hr Hready). apply Hs.
  destruct (pc s); try discriminate Hr; try done; by rewrite Hcan in Hl; discriminate Hl.
Qed.

(** C7: when [Run] has returned, the service is not ready, the context of
    [serve] is cancelled, and [serve] has returned: no goroutine outlives it. *)
Theorem run_leaves_nothing_behind s err :
  reachable policy probes s → pc s = Returned err →
  ready s = false ∧ cancelled s = true ∧ serve s = Serve_received.
Proof.
  intros [Hr Hc _ Hs _ _ _]%reachable_inv Hpc. rewrite Hpc in *. cbn in *.
  split_and!; [|by apply Hc|by apply Hs].
  destruct (ready s); [by specialize (Hr eq_refl)|done].
Qed.

(** C18: once the context is done and [serve] has returned, [Run] returns: it
    can always go on, it needs at most [rank s] transitions, and no run
    without ticks of a timer is longer. *)
Theorem run_returns_after_shutdown s :
  reachable policy probes s → shutting_down s →
  (∃ choices s' err, (length choices ≤ rank s)%nat ∧
     Forall (λ c, quiet c = true) choices ∧
     execs policy probes choices s = Some s' ∧ pc s' = Returned err) ∧
  (∀ choices s', Forall (λ c, quiet c = true) choices →
     execs policy probes choices s = Some s' → (length choices + rank s' ≤ rank s)%nat).
Proof.
  intros Hinv%reachable_inv Hsd. split; [by apply shutdown_returns|].
  intros choices. clear. revert s. induction choices as [|c cs IH]; intros s s' Hall; cbn.
  - intros [= <-]. lia.
  - apply Forall_cons in Hall as [Hq Hall].
    destruct (exec policy probes c s) as [s1|] eqn:Hc; [|done]. cbn. intros H.
    apply (IH s1) in H; [|done]. pose proof (quiet_decreases _ _ _ Hq Hc). lia.
Qed.

(** C23: a round of probes has one outcome, whatever the order in which its
    goroutines finish: it returns the names of the probes whose ping failed, in
    the order of the probes, and each probe that has an observer is observed
    once, with its own outcome. *)
Theorem probe_round_is_deterministic outcomes completion :
  length outcomes = length probes → complete (length probes) completion = true →
  (runProbes probes outcomes completion).1 =
    ((λ pf, p_Name pf.1) <$> base.filter (λ pf, pf.2 = true) (zip probes outcomes)) ∧
  (runProbes probes outcomes completion).2 ≡ₚ
    ((λ pf, (p_Name pf.1, pf.2)) <$>
       base.filter (λ pf, p_Observe pf.1 = true) (zip probes outcomes)).
Proof.
  intros Hl Hc. unfold runProbes. cbn [fst snd]. split.
  - rewrite failed_flags_outcomes by by rewrite Hl. apply failed_names_zip.
  - rewrite (complete_perm _ _ Hc). by rewrite observations_in_order.
Qed.

(** C25: what the loop returns once its startup has timed out.  It has
    cancelled the context of [serve] and waits for its result; when that
    arrives, an error of [serve] is returned as it is, and so is any result
    after a shutdown was asked for; but if there was no shutdown and [serve]
    returned nil, the error names the probes that failed in the last round, of
    which there is at least one. *)
Theorem startup_timeout_names_the_failures s failed served s' :
  reachable policy probes s → pc s = Draining failed → serve s = Serve_sent served →
  exec policy probes TakeResult s = Some s' →
  last_round (trace s) = Some failed ∧ failed ≠ [] ∧ cancelled s = true ∧
  ∃ err, pc s' = Returning err ∧
    (ctx_done s = true ∨ served ≠ None → err = served) ∧
    (ctx_done s = false → served = None →
     err = Some ("dependency readiness startup timeout: " +:+ join ", " failed +:+ " unavailable")).
Proof.
  intros [_ Hcan _ _ Hf _ _]%reachable_inv Hpc Hs H.
  destruct (Hf failed) as [Hne Hlast]; [by rewrite Hpc|].
  unfold exec in H. rewrite Hpc, Hs in H. injection H as <-.
  split_and!; [done|done|apply Hcan; by rewrite Hpc|].
  eexists. split; [done|]. unfold drain_result.
  destruct (ctx_done s), served as [e|]; split; try done; by intros [|].
Qed.
End readiness.


(** A policy that [validate] accepts although its delays wrap around. *)
Definition overflowing_policy : ReadinessPolicy := {|
  StartupTimeout := Minute; ProbeTimeout := Second; ProbeInterval := Second;
  RetryMinimum := 2 ^ 62; RetryMaximum := 2 ^ 62 |}.

Definition one_probe : list Probe := [{| p_Name := "redis"; p_Ping := true; p_Observe := true |}].

(** The state after a list of choices, from the start. *)
Definition run_from policy probes choices : option state :=
  match start policy probes false with
  | Ok s0 => execs policy probes choices s0
  | Err _ => None
  end.

Lemma run_reachable policy probes choices s :
  run_from policy probes choices = Some s → reachable policy probes s.
Proof.
  unfold run_from. destruct (start policy probes false) as [s0|] eqn:H0; [|done].
  intros H. exists false, s0. split; [done|]. by eapply execs_rtc.
Qed.

(** Evaluate a run and name the state it ends in. *)
Ltac run_to m :=
  let H := fresh in
  assert (H : match m with Some _ => true | None => false end = true) by (vm_compute; reflexivity);
  destruct m as [x|] eqn:Hx; [clear H|discriminate H].

(** C36: [ReadinessPolicy.validate] alone does not bound the delays: it accepts
    a policy under which a failed round leads to a negative retry delay. *)
Theorem validate_admits_overflow :
  validate overflowing_policy = Ok tt ∧
  ∃ s, reachable overflowing_policy one_probe s ∧ retryDelay s < 0.
Proof.
  split; [reflexivity|].
  assert (Hd : retryDelay <$> run_from overflowing_policy one_probe
                 [ProbesAnswer [true] [0%nat]; TakeTimer] = Some (- 2 ^ 63))
    by (vm_compute; reflexivity).
  destruct (run_from _ _ _) as [s|] eqn:Hs; [|discriminate Hd].
  exists s. split; [by eapply run_reachable|]. injection Hd as ->. reflexivity.
Qed.

(** * The process runtime *)

(** C24: [RunInitialized] clears readiness before the service's context is
    cancelled, in every interleaving of its two goroutines; when it has
    returned the service is not ready, and its watcher is done or can finish. *)
Theorem readiness_is_cleared_before_cancellation s :
  Runtime.reachable s →
  (Runtime.cancelled s = true → Runtime.ready s = false) ∧
  (∀ err, Runtime.main s = Runtime.M_returned err →
     Runtime.ready s = false ∧ Runtime.watcher_can_exit s).
Proof.
  intros Hs. pose proof (Runtime.reachable_has_inv s Hs) as [Hr _ _ Hc _].
  split; [exact Hc|]. intros err Hm. split.
  - rewrite Hm in Hr. destruct (Runtime.ready s); [|done].
    by destruct (Hr eq_refl).
  - by apply (Runtime.returned_watcher s err); [apply Runtime.reachable_inv_exit|].
Qed.

(** C31: a server's [Run] reports success exactly when it could listen and the
    listener ended by an orderly close.  A server that cannot listen does
    nothing; one that listens waits for its serving goroutine last.  The
    graceful shutdown is asked for exactly when the context ends, first of all
    and with the configured grace, and connections are forced closed exactly
    when it failed; nothing is done twice. *)
Theorem serve_result {H} (s : HttpServer.Server H) Listen o :
  let '(calls, err) := HttpServer.Run s Listen o in
  let listens := Listen (HttpServer.Addr s) = None in
  (err = None ↔ listens ∧ (o = HttpServer.ServeEnds (Some HttpServer.ErrServerClosed) ∨
                           o = HttpServer.ContextEnds None (Some HttpServer.ErrServerClosed) ∨
                           o = HttpServer.ContextEnds None None)) ∧
  (¬ listens → calls = []) ∧
  (listens → last calls = Some HttpServer.AwaitServe) ∧
  (∀ grace, HttpServer.CallShutdown grace ∈ calls ↔
     listens ∧ grace = HttpServer.shutdownGrace s ∧ ∃ e err, o = HttpServer.ContextEnds e err) ∧
  (∀ e err, listens → o = HttpServer.ContextEnds e err →
     head calls = Some (HttpServer.CallShutdown (HttpServer.shutdownGrace s))) ∧
  (HttpServer.CallClose ∈ calls ↔
     listens ∧ ∃ e err, o = HttpServer.ContextEnds (Some e) err) ∧
  NoDup calls.
Proof.
  unfold HttpServer.Run. destruct (Listen (HttpServer.Addr s)) as [e0|].
  { cbn. setoid_rewrite elem_of_nil. split_and!; try done; try naive_solver. constructor. }
  destruct o as [[[|e]|]|[e|] [[|e']|]]; cbn;
    repeat setoid_rewrite elem_of_cons; repeat setoid_rewrite elem_of_nil;
    rewrite ?NoDup_cons, ?NoDup_nil; split_and!; try set_solver; naive_solver.
Qed.

(** The readiness endpoint answers 200 exactly when the process has set
    readiness, 503 otherwise, liveness always answers 200, and no answer may
    be cached. *)
Theorem health_answers h :
  (Health.status (Health.readiness h) = 200 ↔ Health.Ready h = true) ∧
  (Health.status (Health.readiness h) = 503 ↔ Health.Ready h = false) ∧
  Health.status Health.live = 200 ∧
  ("Cache-Control", "no-store") ∈ Health.headers (Health.readiness h) ∧
  (∀ b, Health.Ready (Health.SetReady b h) = b).
Proof. destruct h as [[|]]; cbn; split_and!; try done; try naive_solver; left. Qed.

(** * Observability *)

Section observability.
Context {tables : UnicodeTables}.

(** C29: whatever a caller logs, the record that reaches the handler underneath
    carries a known event name or the redaction mark, and every attribute is
    the redaction mark or the value of an allowed attribute whose name holds
    no forbidden part; attributes given to the logger are treated alike. *)
Theorem log_records_are_redacted h r attrs :
  let '(_, out) := Logging.Handle h r in
  (Logging.in_list (Logging.r_Message out) Logging.allowedEvents = true ∨
   Logging.r_Message out = Logging.redactedValue) ∧
  Forall Redaction.safe_attr (Logging.r_Attrs out) ∧
  ∃ added, Logging.next (Logging.WithAttrs h attrs) =
             (Logging.next h ++ [Logging.DAttrs added])%list ∧ Forall Redaction.safe_attr added.
Proof.
  unfold Logging.Handle. rewrite Redaction.Handle_attrs.
  cbn [Logging.r_Message Logging.r_Attrs app]. split_and!.
  - destruct (Logging.in_list (Logging.r_Message r) Logging.allowedEvents) eqn:E; auto.
  - apply Forall_forall. intros a Ha. apply list_elem_of_filter in Ha as [_ Ha].
    apply list_elem_of_fmap in Ha as (b & -> & _). apply Redaction.redactAttribute_safe.
  - eexists. split; [done|]. apply Forall_fmap, Forall_forall. intros a _.
    apply Redaction.redactAttribute_safe.
Qed.

(** C32: the promise stops at the first level: a group under an allowed name
    reaches the handler underneath with the attributes inside it as they were,
    whatever their names and values. *)
Theorem groups_are_not_redacted h r key nested :
  Logging.in_list (to_lower key) Logging.allowedAttributes = true →
  Logging.containsForbiddenKeyPart (to_lower key) = false → nested ≠ [] →
  (key, Logging.VGroup nested) ∈ Logging.r_Attrs r →
  (key, Logging.VGroup nested) ∈ Logging.r_Attrs (Logging.Handle h r).2.
Proof.
  intros Ha Hf Hne Hin. unfold Logging.Handle. rewrite Redaction.Handle_attrs. cbn.
  apply list_elem_of_filter. split; [by destruct nested|].
  apply list_elem_of_fmap. exists (key, Logging.VGroup nested). split; [|exact Hin].
  unfold Logging.redactAttribute. cbn [fst snd]. by rewrite Ha, Hf.
Qed.

(** C33: a record with an attribute of the caller named time leaves the
    redactor with an attribute on which the normalization of the built-in
    attributes panics: it is taken for the record's own time. *)
Theorem time_attribute_panics h r v :
  ("time", v) ∈ Logging.r_Attrs r →
  ∃ a, a ∈ Logging.r_Attrs (Logging.Handle h r).2 ∧ Logging.normalizeBuiltInAttribute a = None.
Proof.
  intros Hin. exists ("time", Logging.VString Logging.redactedValue). split; [|reflexivity].
  unfold Logging.Handle. rewrite Redaction.Handle_attrs. cbn.
  apply list_elem_of_filter. split; [done|].
  apply list_elem_of_fmap. by exists ("time", v).
Qed.

(** The record of a completed request passes the redactor unchanged: the
    middleware logs nothing that is then thrown away. *)
Theorem request_record_survives_redaction metrics method path ops elapsed trace_id h time level pc :
  let '(_, _, (message, attrs)) :=
    Http.HTTPMiddleware metrics method path ops elapsed trace_id in
  let r := {| Logging.r_Time := time; Logging.r_Level := level;
              Logging.r_Message := message; Logging.r_PC := pc; Logging.r_Attrs := attrs |} in
  Logging.Handle h r = (Logging.next h, r).
Proof.
  unfold Http.HTTPMiddleware, Logging.Handle. rewrite Redaction.Handle_attrs.
  destruct trace_id; reflexivity.
Qed.
End observability.

(** C30: a request makes two metric calls, its count and its latency, or none
    when metrics are off, and their labels are bounded: the route is one of
    the three served for a [GET] of its path and [unknown] for everything else,
    and the status is the class, one of five or [unknown], of the status of the
    handler's first write, which is also the one the span gets. *)
Theorem request_metrics_are_bounded metrics method path ops elapsed trace_id :
  let '(_, calls, _) := Http.HTTPMiddleware metrics method path ops elapsed trace_id in
  let first := Writer.first_status ops in
  ∃ route status,
    List.filter Writer.is_metric calls =
      (if metrics then [Http.CountRequest route status; Http.ObserveLatency route] else []) ∧
    (method = "GET" ∧
       (path, route) ∈ [("/health/live", "health.live"); ("/health/ready", "health.ready");
                        ("/metrics", "metrics")] ∨
     route = "unknown" ∧
       (method ≠ "GET" ∨ path ∉ ["/health/live"; "/health/ready"; "/metrics"])) ∧
    ((∃ k, 100 * k ≤ first < 100 * (k + 1) ∧
       (k, status) ∈ [(1, "1xx"); (2, "2xx"); (3, "3xx"); (4, "4xx"); (5, "5xx")]) ∨
     status = "unknown" ∧ (first < 100 ∨ 599 < first)) ∧
    Http.SpanStatus first ∈ calls.
Proof.
  unfold Http.HTTPMiddleware. cbv zeta. rewrite Writer.written_status.
  exists (Http.boundedRoute method path), (Http.boundedStatus (Writer.first_status ops)).
  split_and!; [|apply Writer.boundedRoute_spec|apply Writer.boundedStatus_spec|set_solver].
  rewrite !List.filter_app. destruct (500 <=? _), metrics; done.
Qed.

(** C34: the first [WriteHeader] wins, an informational one included: after an
    early hint with status 103, the handler's own status is neither passed on
    nor recorded. *)
Theorem informational_status_hides_the_final final rest :
  let w := foldl Http.write_op Http.new_writer
             (Http.CallWriteHeader 103 :: Http.CallWriteHeader final :: rest) in
  Http.sw_status w = 103 ∧ Http.boundedStatus (Http.sw_status w) = "1xx" ∧
  Http.sw_calls w = Http.CallWriteHeader 103 :: List.filter Writer.is_body rest.
Proof. cbv zeta. by rewrite Writer.writer_result. Qed.

(** * The hypotheses can hold *)

(** One failed round, a retry, a successful round. *)
Definition to_ready : list choice :=
  [ProbesAnswer [true] [0%nat]; TakeTimer; ProbesAnswer [false] [0%nat]].

Lemma ready_only_on_evidence_witness :
  ∃ s, reachable DefaultReadinessPolicy one_probe s ∧ ready s = true ∧
    ready_after_success (trace s).
Proof.
  assert (Hr : ready <$> run_from DefaultReadinessPolicy one_probe to_ready = Some true)
    by (vm_compute; reflexivity).
  run_to (run_from DefaultReadinessPolicy one_probe to_ready).
  injection Hr as Hr. apply run_reachable in Hx as Hreach.
  exists x. split; [exact Hreach|]. split; [exact Hr|].
  exact (proj1 (ready_only_on_evidence _ _ _ Hreach)).
Defined.

(** Shutdown of a ready service. *)
Definition to_returned : list choice :=
  (to_ready ++ [CtxCancelled; TakeDone; Continue; ServeReturns None; TakeResult; Continue;
                Continue])%list.

Lemma run_leaves_nothing_behind_witness :
  ∃ s, reachable DefaultReadinessPolicy one_probe s ∧ ready s = false.
Proof.
  assert (Hp : pc <$> run_from DefaultReadinessPolicy one_probe to_returned =
               Some (Returned None)) by (vm_compute; reflexivity).
  run_to (run_from DefaultReadinessPolicy one_probe to_returned).
  injection Hp as Hp. apply run_reachable in Hx as Hreach.
  exists x. split; [exact Hreach|].
  exact (proj1 (run_leaves_nothing_behind _ _ _ _ Hreach Hp)).
Defined.

(** The context ends and [serve] returns while the service is ready. *)
Definition to_shutdown : list choice := (to_ready ++ [CtxCancelled; ServeReturns None])%list.

Lemma run_returns_after_shutdown_witness :
  ∃ s choices s' err, reachable DefaultReadinessPolicy one_probe s ∧
    execs DefaultReadinessPolicy one_probe choices s = Some s' ∧ pc s' = Returned err.
Proof.
  assert (Hp : (λ s, (ctx_done s, startup_done s, match serve s with
                        Serve_running => true | _ => false end))
                 <$> run_from DefaultReadinessPolicy one_probe to_shutdown =
               Some (true, true, false)) by (vm_compute; reflexivity).
  run_to (run_from DefaultReadinessPolicy one_probe to_shutdown).
  injection Hp as Hc Hs Hv. apply run_reachable in Hx as Hreach.
  assert (Hsd : shutting_down x).
  { split; [exact Hc|]. split; [exact Hs|]. intros E. rewrite E in Hv. discriminate Hv. }
  destruct (proj1 (run_returns_after_shutdown _ _ _ Hreach Hsd))
    as (cs & s' & err & _ & _ & Hrun & Hpc).
  exists x, cs, s', err. split; [exact Hreach|]. split; [exact Hrun|exact Hpc].
Defined.

Definition two_probes : list Probe :=
  [{| p_Name := "postgresql"; p_Ping := true; p_Observe := true |};
   {| p_Name := "redis"; p_Ping := true; p_Observe := true |}].

Lemma probe_round_witness :
  (runProbes two_probes [true; false] [1%nat; 0%nat]).1 = ["postgresql"].
Proof.
  refine (proj1 (probe_round_is_deterministic two_probes [true; false] [1%nat; 0%nat] _ _));
    vm_compute; reflexivity.
Defined.

(** The startup deadline passes while the probe fails, and [serve] returns nil. *)
Definition to_draining : list choice :=
  [ProbesAnswer [true] [0%nat]; StartupExpires; TakeDone; ServeReturns None].

Lemma startup_timeout_witness :
  ∃ s s', exec DefaultReadinessPolicy one_probe TakeResult s = Some s' ∧
    pc s' = Returning (Some "dependency readiness startup timeout: redis unavailable").
Proof.
  assert (Hp : (λ s, (pc s, serve s, ctx_done s))
                 <$> run_from DefaultReadinessPolicy one_probe to_draining =
               Some (Draining ["redis"], Serve_sent None, false)) by (vm_compute; reflexivity).
  run_to (run_from DefaultReadinessPolicy one_probe to_draining).
  injection Hp as Hpc Hs Hc. apply run_reachable in Hx as Hreach.
  assert (He : exec DefaultReadinessPolicy one_probe TakeResult x =
    Some (set_pc (Returning (drain_result ["redis"] (ctx_done x) None))
            (set_serve Serve_received x))) by (unfold exec; by rewrite Hpc, Hs).
  exists x. eexists. split; [exact He|].
  destruct (startup_timeout_names_the_failures _ _ _ _ _ _ Hreach Hpc Hs He)
    as (_ & _ & _ & err & Hret & _ & Htext).
  rewrite (Htext Hc eq_refl) in Hret. exact Hret.
Defined.



(** The context ends, the watcher cancels, the service returns. *)
Definition runtime_choices : list Runtime.choice :=
  [Runtime.Main; Runtime.Main; Runtime.Main; Runtime.CtxEnds "context canceled";
   Runtime.WatchDone; Runtime.Watch; Runtime.RunReturns None; Runtime.Main; Runtime.Main;
   Runtime.Main].

Lemma runtime_execs_rtc choices : ∀ s s',
  Runtime.execs choices s = Some s' → rtc Runtime.step s s'.
Proof.
  induction choices as [|c cs IH]; intros s s'; cbn; [by intros [= <-]|].
  destruct (Runtime.exec c s) as [s1|] eqn:Hc; [|done]. cbn. intros H.
  eapply rtc_l; [by exists c|]. by apply IH.
Qed.

Lemma readiness_is_cleared_witness :
  ∃ s, Runtime.reachable s ∧ Runtime.ready s = false ∧ Runtime.watcher_can_exit s.
Proof.
  assert (Hp : Runtime.main <$> Runtime.execs runtime_choices (Runtime.init false) =
               Some (Runtime.M_returned None)) by (vm_compute; reflexivity).
  run_to (Runtime.execs runtime_choices (Runtime.init false)).
  injection Hp as Hp. apply runtime_execs_rtc in Hx.
  assert (Hr : Runtime.reachable x) by (exists false; exact Hx).
  exists x. split; [exact Hr|].
  exact (proj2 (readiness_is_cleared_before_cancellation _ Hr) _ Hp).
Defined.

(** A record of one attribute. *)
Definition record_of (a : Logging.attr) : Logging.record := {|
  Logging.r_Time := 0; Logging.r_Level := Logging.LevelInfo;
  Logging.r_Message := "http.request.completed"; Logging.r_PC := 0; Logging.r_Attrs := [a] |}.

Definition password_group : list Logging.attr := [("password", Logging.VString "hunter2")].

Lemma groups_witness :
  ("status", Logging.VGroup password_group) ∈
    Logging.r_Attrs (Logging.Handle (tables := identity_tables) {| Logging.next := [] |}
                       (record_of ("status", Logging.VGroup password_group))).2.
Proof.
  apply (groups_are_not_redacted (tables := identity_tables));
    [vm_compute; reflexivity|vm_compute; reflexivity|discriminate|left].
Defined.

Lemma time_attribute_witness :
  ∃ a, a ∈ Logging.r_Attrs (Logging.Handle (tables := identity_tables)
         {| Logging.next := [] |} (record_of ("time", Logging.VInt64 3))).2 ∧
    Logging.normalizeBuiltInAttribute a = None.
Proof. apply (time_attribute_panics _ _ (Logging.VInt64 3)). left. Defined.
