(* ===== verification/StartupGuarantees.v ===== *)
(** What a service guarantees from its entry point on: the properties of the
    clients, of telemetry and of the processes that put the components
    together. *)
From S2P Require Import Prelude GoStrings Strconv Duration Settings Net Url UrlFacts Regex Os Json Secrets Policies Endpoints Config EnvFile Fixtures Readiness Dependency Connection Lifecycle Observability Telemetry Service.

Local Open Scope string_scope.
Local Open Scope Z_scope.

(** * The database connection *)

(** C37: what the driver reads from the connection URL is what the
    configuration put in: for a host that is a name or an IPv6 address, which
    the configuration does not insist on (a socket directory is neither),
    [url.Parse] of the URL [postgresPoolConfig] prints gives back the user, the
    password byte for byte, the host and port, the database under the path, and
    the TLS mode.  The pool is then configured, whenever the driver accepts that
    URL, with what the driver made of it, the sizes of the configuration, none
    changed by the conversion to 32 bits and none in the place of the other,
    and the given timeout. *)
Theorem connection_round_trip {os : OS} {pgx : Pgx} v settings database :
  parseDatabase v settings = Ok database →
  host_name (db_Host database) ∨ host_ipv6 (db_Host database) →
  (∃ u, url_Parse (URL_String (connectionURL database)) = Some u ∧
    Scheme u = "postgres" ∧
    User u = Some {| ui_username := db_User database;
                     ui_password := Reveal (db_Password database); ui_passwordSet := true |} ∧
    Host u = JoinHostPort (db_Host database) (itoa (db_Port database)) ∧
    Path u = rooted (db_Name database) ∧
    RawQuery u = "sslmode=" +:+ db_SSLMode database ∧ Fragment u = "") ∧
  (∀ timeout, pgxpool_ParseConfig (URL_String (connectionURL database)) = None ↔
     postgresPoolConfig database timeout = None) ∧
  (∀ timeout c, postgresPoolConfig database timeout = Some c →
     pgxpool_ParseConfig (URL_String (connectionURL database)) = Some (pc_parsed c) ∧
     MinConns c = db_MinConnections database ∧ MaxConns c = db_MaxConnections database ∧
     ConnectTimeout c = timeout).
Proof.
  intros Hp Hhost. pose proof (parseDatabase_name _ _ _ Hp) as Hn.
  apply parseDatabase_ok in Hp as (_ & Hport & Hmin & Hmax & _ & _ & Hmode).
  apply sslmode_query in Hmode as [Hq Hqok]. split.
  - destruct (connection_built database Hhost) as [raw ->]; [lia|done|done|].
    eexists. split; [reflexivity|]. cbn -[encode_value]. by rewrite Hq.
  - unfold postgresPoolConfig. destruct (pgxpool_ParseConfig _) as [parsed|]; [|done].
    split; [done|]. intros timeout c [= <-]. cbn [pc_parsed MinConns MaxConns ConnectTimeout].
    split_and!; [done|apply int32_id; lia|apply int32_id; lia|done].
Qed.

(** * The services *)

Section services.
Context `{Pgx} `{GoRedis} {tables : UnicodeTables}.

(** C38: a service whose configuration loads runs: if the tracing library and
    the client libraries do their part, the service enters the readiness loop
    with the five durations of its configuration, the probes of both clients,
    each with its ping and its observer, and a server at the configured address
    with the configured grace, which answers its routes, the one of the metrics
    when these are on, inside the middleware; the loop accepts the policy and
    the probes whether or not the context is already done, and the service
    returns what the loop returns. *)
Theorem loaded_services_enter_the_loop {os : OS} {order : MapOrder} name v s o :
  (∃ g, ParseGateway v = Ok g ∧ s = gateway_settings g) ∨
  (∃ c, ParseControlPlane v = Ok c ∧ s = control_plane_settings c) ∨
  (∃ w, ParseWorker v = Ok w ∧ s = worker_settings w) →
  o_tracing o = TracingOk →
  is_ok (Dependency.Open (o_pool o) (ss_Database s) (ss_Redis s)
           (dr_ProbeTimeout (ss_Readiness s))).2 = true →
  (run_service name (Ok s) o).2 = o_loop o ∧
  ∃ policy probes server,
    EnterLoop policy probes server ∈ (run_service name (Ok s) o).1 ∧
    StartupTimeout policy = dr_StartupTimeout (ss_Readiness s) ∧
    ProbeTimeout policy = dr_ProbeTimeout (ss_Readiness s) ∧
    ProbeInterval policy = dr_ProbeInterval (ss_Readiness s) ∧
    RetryMinimum policy = dr_RetryMinimum (ss_Readiness s) ∧
    RetryMaximum policy = dr_RetryMaximum (ss_Readiness s) ∧
    p_Name <$> probes = ["postgresql"; "redis"] ∧
    Forall (λ probe, p_Ping probe = true ∧ p_Observe probe = true) probes ∧
    HttpServer.Addr server = http_Address (ss_HTTP s) ∧
    HttpServer.shutdownGrace server = http_ShutdownGrace (ss_HTTP s) ∧
    (let metrics := obs_Metrics (ss_Observability s) in
     HttpServer.server_Handler server = Instrumented metrics (Routes
       ([(Some "GET", "/health/live", LiveHandler);
         (Some "GET", "/health/ready", ReadinessHandler)] ++
        if metrics then [(None, "/metrics", Metrics)] else [])%list)) ∧
    ∀ ctx, is_ok (start policy probes ctx) = true.
Proof.
  intros Hs Ht Hopen.
  assert (Hok : startable s).
  { destruct Hs as [(g & Hg & ->)|[(c & Hc & ->)|(w & Hw & ->)]];
      [by eapply gateway_startable|by eapply control_plane_startable|by eapply worker_startable]. }
  destruct Hok as [Hobs [v' Hr]].
  assert (Hstart : ∀ ctx, is_ok (start (policy_of (ss_Readiness s)) Probes ctx) = true).
  { intros ctx. destruct (start_configured v' _ ctx Hr) as [s0 ->]. done. }
  destruct (New_ok name (sd_Version (ss_Shared s)) _ Hobs) as (calls & r & Hnew & Hreg).
  unfold run_service. rewrite Ht, Hnew. cbn [ProbeTimeout policy_of].
  destruct (Dependency.Open _ _ _ _) as [opened [clients|e]]; [|discriminate Hopen].
  cbn [fst snd]. split.
  - unfold loop_result. specialize (Hstart false). by destruct (start _ _ _).
  - assert (Hm : bool_decide (is_Some (rt_registry r)) = obs_Metrics (ss_Observability s)).
    { rewrite Hreg. destruct (obs_Metrics _); [by apply bool_decide_eq_true_2|].
      apply bool_decide_eq_false_2. by intros []. }
    do 3 eexists. split; [right; right; left|].
    split_and!; [done..| |done|done| |exact Hstart]; [by repeat constructor|].
    unfold MetricsHandler. cbn. unfold HTTPMiddleware. by rewrite Hm.
Qed.

(** C39: a service releases what it has opened: however a run goes, every pool
    and every Redis client it created is closed, and once its telemetry
    exists, shutting telemetry down is the last thing it does. *)
Theorem services_release_their_clients name loaded o :
  balanced (o_pool o) (client_calls (run_service name loaded o).1) ∧
  ((∃ calls, OnClients calls ∈ (run_service name loaded o).1) →
   ∃ logged, last (run_service name loaded o).1 = Some (ShutdownTelemetry logged)).
Proof.
  split; [apply run_service_balanced|]. unfold run_service.
  destruct loaded as [s|e]; [|set_solver].
  destruct (New _ _ _ _) as [g [t|e]]; [|cbn; set_solver]. intros _.
  destruct (Dependency.Open _ _ _ _) as [opened [clients|e]]; by eexists.
Qed.

End services.

(** * The hypotheses can hold *)

(** Client libraries that accept every URL. *)
Definition plain_pgx : Pgx := {| PgxConfig := string; pgxpool_ParseConfig s := Some s |}.
Definition plain_redis : GoRedis := {| RedisParsed := string; redis_ParseURL s := Some (0, s) |}.

Definition plain_outcomes : outcomes :=
  {| o_tracing := TracingOk; o_pool := true; o_loop := Some "stopped"; o_shutdown := None |}.

Lemma connection_round_trip_witness :
  ∃ d u c, parseDatabase (os := dev_machine) ∅ gatewayDatabaseSettings = Ok d ∧
    url_Parse (URL_String (connectionURL d)) = Some u ∧ Host u = "postgres:5432" ∧
    postgresPoolConfig (H := plain_pgx) d (3 * Second) = Some c ∧ MaxConns c = 30.
Proof.
  assert (Hk : is_ok (parseDatabase (os := dev_machine) ∅ gatewayDatabaseSettings) = true)
    by (vm_compute; reflexivity).
  apply is_ok_true in Hk as [d Hd].
  assert (Hj : (λ d, (db_Host d, JoinHostPort (db_Host d) (itoa (db_Port d)), db_MaxConnections d))
                 <$> parseDatabase (os := dev_machine) ∅ gatewayDatabaseSettings =
               Ok ("postgres", "postgres:5432", 30)) by (vm_compute; reflexivity).
  rewrite Hd in Hj. injection Hj as Hh Hj Hmax.
  destruct (connection_round_trip (pgx := plain_pgx) _ _ _ Hd)
    as ((u & Hu & _ & _ & Hhost & _) & Hnone & Hpool).
  - left. rewrite Hh. split; [discriminate|vm_compute; reflexivity].
  - destruct (postgresPoolConfig (H := plain_pgx) d (3 * Second)) as [c|] eqn:Hc.
    + exists d, u, c. destruct (Hpool _ _ Hc) as (_ & _ & Hm & _).
      split; [exact Hd|]. split; [exact Hu|]. split; [by rewrite Hhost|].
      split; [exact Hc|]. by rewrite Hm.
    + apply Hnone in Hc. discriminate Hc.
Defined.

Lemma loaded_services_witness :
  ∃ w, @ParseWorker dev_machine identity_tables forward_order ∅ = Ok w ∧
    (@run_service plain_pgx plain_redis identity_tables "worker" (Ok (worker_settings w))
       plain_outcomes).2 = Some "stopped".
Proof.
  assert (Hk : is_ok (@ParseWorker dev_machine identity_tables forward_order ∅) = true)
    by (vm_compute; reflexivity).
  apply is_ok_true in Hk as [w Hw]. exists w. split; [exact Hw|].
  refine (proj1 (@loaded_services_enter_the_loop plain_pgx plain_redis identity_tables dev_machine
    forward_order "worker" ∅ (worker_settings w) plain_outcomes _ eq_refl _)).
  - right. right. exact (ex_intro _ w (conj Hw eq_refl)).
  - reflexivity.
Defined.
