(* ===== verification/SecretGuarantees.v ===== *)
(** What the generator of development secrets guarantees: to the files around
    its directory, to the deployment that uses the directory, and to whoever
    runs it again. *)
From stdpp Require Import sorting.
From S2P Require Import Prelude GoStrings Strconv Net Url Regex Base64 Os Json Secrets StrictJson JsonPrint Fs FsFacts DevSecrets GeneratedFiles DevSecretsFacts GeneratorSuccess Fixtures.

Local Open Scope string_scope.
Local Open Scope Z_scope.

Section generator.
Context `{h : HostOS} {tables : UnicodeTables} {order : MapOrder}.

(** C9: whatever fails during a run, no file that existed before is changed or
    removed, the file system keeps its shape, an existing destination means
    that nothing changes at all, and what is new lies in the destination or in
    one temporary directory that was made next to it. *)
Theorem generation_is_confined directory w r w' :
  GenerateDevSecrets directory w = (r, w') → fs_ok w →
  fs_ok w' ∧ nodes w ⊆ nodes w' ∧
  (nodes w !! locate directory ≠ None → nodes w' = nodes w) ∧
  ∃ tmp, ∀ k, nodes w' !! k ≠ nodes w !! k →
    within (locate directory) k = true ∨
    within (locate tmp) k = true ∧ nodes w !! locate tmp = None ∧
      parent (locate tmp) = locate (Dir directory).
Proof. apply generate_frame. Qed.

(** C10: a run that reports success on a new destination has added exactly the
    directory and its eleven files, whatever failed on the way, and the
    directory passes the validation. *)
Theorem generation_publishes_a_valid_inventory directory w w' :
  GenerateDevSecrets directory w = (Ok tt, w') →
  nodes w !! locate directory = None → fs_ok w → Z.land 448 umask = 0 →
  (∀ k, is_Some (nodes w' !! k) ↔
     is_Some (nodes w !! k) ∨ k = locate directory ∨
     ∃ name, name ∈ devSecretFiles ∧ k = child (locate directory) name) ∧
  (∀ h2 w2, quiet h h2 → nodes w2 = nodes w' →
     ValidateDevSecrets (os := @view h2 w2) directory = Ok tt).
Proof.
  intros Hg Hdn Hw Hu. split; [by apply generate_adds|].
  intros h2 w2 Hq Hn. exact (generate_validates directory w w' Hg Hdn Hw Hu h2 w2 Hq Hn).
Qed.

(** C11: where the destination is free and nothing fails, the generator
    succeeds, what it wrote validates, and running it again changes nothing
    and succeeds. *)
Theorem generation_succeeds directory w :
  calm h (tick w) → fs_ok w → available directory w →
  ∃ w' w2, GenerateDevSecrets directory w = (Ok tt, w') ∧
    ValidateDevSecrets (os := view w') directory = Ok tt ∧
    GenerateDevSecrets directory w' = (Ok tt, w2) ∧ nodes w2 = nodes w'.
Proof.
  intros Hcalm Hw Hav. destruct (generate_calm (tick w) Hcalm directory w Hw Hav eq_refl) as [w' Hg].
  pose proof Hav as [[Hd Hdn] _ _ _].
  assert (Hval : ∀ w2, nodes w2 = nodes w' → ValidateDevSecrets (os := view w2) directory = Ok tt).
  { intros w2. apply (generate_validates directory w w' Hg Hdn Hw (calm_umask _ _ Hcalm)).
    split; [done|apply (calm_broken _ _ Hcalm)]. }
  exists w', (ticked (ticked w')). split_and!; [done|by apply Hval| |done].
  unfold GenerateDevSecrets at 1. rewrite (proj2 (String.eqb_neq _ _) Hd).
  assert (Hex : lstat_exists directory w' = (inl true, ticked w')).
  { destruct (generate_adds directory w w' Hg Hdn Hw (locate directory)) as [_ Hs].
    destruct (Hs (or_intror (or_introl eq_refl))) as [n Hn].
    unfold lstat_exists. rewrite (calm_syscall _ Hcalm). cbn [nodes ticked]. by rewrite Hn. }
  rewrite Hex. unfold validated, reading. by rewrite Hval.
Qed.
End generator.

Section generator_again.
Context `{h : HostOS} {tables : UnicodeTables} {order : MapOrder}.

(** A destination that exists is never written: the run succeeds exactly
    when the directory holds a complete and valid inventory, and refuses
    otherwise. *)
Theorem existing_inventory_is_reused_or_refused directory w r w' :
  GenerateDevSecrets directory w = (r, w') →
  directory ≠ "" → nodes w !! locate directory ≠ None → broken (tick w) (locate directory) = false →
  nodes w' = nodes w ∧
  r = match ValidateDevSecrets (os := view (ticked w)) directory with
      | Ok _ => Ok tt
      | Err _ => Err "existing development secret inventory is not complete and valid; refusing to overwrite"
      end.
Proof.
  intros Hg Hd Hex Hb. unfold GenerateDevSecrets in Hg.
  rewrite (proj2 (String.eqb_neq _ _) Hd) in Hg.
  destruct (lstat_exists_cases directory w) as [[e He]|[[_ He]|[Hno _]]]; [| |done].
  - exfalso. unfold lstat_exists, syscall in He. rewrite Hb in He. cbn [nodes] in He.
    by destruct (nodes w !! locate directory).
  - rewrite He in Hg. unfold validated, reading in Hg.
    by destruct (ValidateDevSecrets directory); injection Hg as <- <-.
Qed.

(** C21: the two kinds of key ring the generator prints with [json.Marshal] are
    read back by the readers of the configuration, to the key that was
    generated. *)
Theorem generated_key_rings_are_read {os : OS} setting path id bytes :
  String.length bytes = 32%nat → MatchString keyIDPattern id = true → setting ≠ "" →
  (shows path (Marshal (wire id (StdEncode bytes))) →
   ReadKeyRing setting path = Ok (mkKeyRing id {[id := bytes]})) ∧
  (shows path (Marshal (providerRing (StdEncode bytes))) →
   ReadProviderKeyRing path =
   Ok (mkProviderKeyRing (mkKeyRing "provider-dev-1" {["provider-dev-1" := bytes]}) 1)).
Proof.
  intros Hb Hid Hs. split; intros Hsh.
  - by apply ReadKeyRing_wire.
  - by apply ReadProviderKeyRing_generated.
Qed.
End generator_again.

(** * Resolution *)

Section resolution.
Context {os : OS} {tables : UnicodeTables} {order : MapOrder}.

(** C16: a secret root is used exactly when it holds a valid inventory and every
    setting of the inventory that the environment file gives names its logical
    path; the eleven settings then name the files under the root, and all
    others are as they were, whatever the order of the map. *)
Theorem secret_root_resolves values root resolved :
  ResolveDeploymentSecretRoot values root = Ok resolved ↔
  ValidateDevSecrets root = Ok tt ∧
  map_Forall (λ setting filename,
    default (logical filename) (values !! setting) = logical filename) deploymentSecretFiles ∧
  resolved = (Join root <$> deploymentSecretFiles) ∪ values.
Proof. apply resolve_iff. Qed.
End resolution.

(** * The hypotheses can hold *)

(** Hosts: the byte of the call number 32 times is the entropy; [faulty] fails
    from a given call on. *)
Definition demo_host (faults : nat → key → bool) : HostOS := {|
  host_GOOS := "linux"; umask := 18; broken := faults; written _ := 3%nat;
  random_suffix := Z.of_nat;
  entropy n := Some (concat_strings (repeat (String (chr (Z.of_nat n `mod` 256)) "") 32)) |}.
Definition quiet_host : HostOS := demo_host (λ _ _, false).
Definition faulty_host (from : nat) : HostOS := demo_host (λ n _, (from <=? n)%nat).

Definition empty_world : world :=
  mkWorld {[ (false, []) := mkNode (Z.lor ModeDir 493) 1 "" ]} 0 2.

Definition generate_on (host : HostOS) (w : world) : res unit * world :=
  @GenerateDevSecrets host identity_tables forward_order DevSecretDirectoryName w.

Lemma empty_world_ok : fs_ok empty_world.
Proof.
  intros k n Hl Hne. cbn in Hl. apply lookup_singleton_Some in Hl as [<- _]. done.
Defined.

(** A destination below a file is not missing: it cannot be inspected. *)
Example destination_below_a_file :
  (@GenerateDevSecrets quiet_host identity_tables forward_order "notes/secrets"
     (mkWorld {[ (false, []) := mkNode (Z.lor ModeDir 493) 1 "";
                 locate "notes" := mkNode 420 2 "text" ]} 0 3)).1 =
  Err "inspect development secret directory: unavailable".
Proof. vm_compute. reflexivity. Qed.

Lemma generated_names_absent : nodes empty_world !! locate DevSecretDirectoryName = None.
Proof. vm_compute. reflexivity. Defined.

Lemma run_pair host w :
  @GenerateDevSecrets host identity_tables forward_order DevSecretDirectoryName w =
  ((generate_on host w).1, (generate_on host w).2).
Proof. unfold generate_on. by destruct (GenerateDevSecrets _ _). Defined.

(** The disk fails at the twentieth call: four passwords are written, the
    cleanup fails as well, and nothing that was there has changed. *)
Lemma generation_is_confined_witness :
  (generate_on (faulty_host 20) empty_world).1 =
    Err "create development secret file: unavailable" ∧
  nodes empty_world ⊆ nodes (generate_on (faulty_host 20) empty_world).2.
Proof.
  split; [vm_compute; reflexivity|].
  destruct (@generation_is_confined (faulty_host 20) identity_tables forward_order
    DevSecretDirectoryName empty_world _ _ (run_pair (faulty_host 20) empty_world) empty_world_ok)
    as (_ & Hsub & _).
  exact Hsub.
Defined.

Lemma generation_publishes_witness :
  @ValidateDevSecrets (@view quiet_host (generate_on quiet_host empty_world).2) identity_tables
    forward_order DevSecretDirectoryName = Ok tt.
Proof.
  assert (Hr : (generate_on quiet_host empty_world).1 = Ok tt) by (vm_compute; reflexivity).
  pose proof (run_pair quiet_host empty_world) as Hg. rewrite Hr in Hg.
  exact (proj2 (@generation_publishes_a_valid_inventory quiet_host identity_tables forward_order
    DevSecretDirectoryName empty_world _ Hg generated_names_absent empty_world_ok eq_refl)
    quiet_host _ (conj eq_refl (λ _ _, eq_refl)) eq_refl).
Defined.

(** With a slash at its end a new destination is its own parent. *)
Example trailing_slash_is_refused :
  (@GenerateDevSecrets quiet_host identity_tables forward_order "out/" empty_world).1 =
    Err "output parent directory is unavailable" ∧
  is_ok (@GenerateDevSecrets quiet_host identity_tables forward_order "out" empty_world).1 = true.
Proof. split; vm_compute; reflexivity. Qed.

Lemma quiet_calm : calm quiet_host 0.
Proof.
  split.
  - done.
  - reflexivity.
  - intros n. eexists. split; [reflexivity|]. cbn. done.
  - intros m n Hm Hn He. cbn [entropy quiet_host demo_host] in He. injection He as He _.
    apply (f_equal byte) in He. rewrite !byte_chr in He; Z.to_euclidean_division_equations; lia.
Defined.

Lemma empty_world_available : available DevSecretDirectoryName empty_world.
Proof.
  assert (Hroot : ∀ k, k ≠ (false, []) → nodes empty_world !! k = None).
  { intros k Hk. cbn. by rewrite lookup_singleton_ne. }
  split.
  - split; [done|]. by apply Hroot.
  - reflexivity.
  - eexists. split_and!; reflexivity.
  - intros z. cbv zeta. split; [by apply Hroot|]. done.
Defined.

Lemma generation_succeeds_witness :
  ∃ w' w2, generate_on quiet_host empty_world = (Ok tt, w') ∧
    generate_on quiet_host w' = (Ok tt, w2).
Proof.
  destruct (@generation_succeeds quiet_host identity_tables forward_order DevSecretDirectoryName
    empty_world quiet_calm empty_world_ok empty_world_available) as (w' & w2 & Hg & _ & Hg2 & _).
  exists w', w2. split; [exact Hg|exact Hg2].
Defined.

(** A generated inventory with one file more is refused, and left as it is. *)
Definition tampered_world : world :=
  (or_fail "" (OpenExcl (H := quiet_host) ".local-secrets/extra" 384)
     (generate_on quiet_host empty_world).2).2.

Lemma existing_inventory_witness :
  (generate_on quiet_host tampered_world).1 =
    Err "existing development secret inventory is not complete and valid; refusing to overwrite" ∧
  nodes (generate_on quiet_host tampered_world).2 = nodes tampered_world.
Proof.
  assert (Hex : nodes tampered_world !! locate DevSecretDirectoryName ≠ None)
    by (vm_compute; discriminate).
  pose proof (@existing_inventory_is_reused_or_refused quiet_host identity_tables forward_order
    DevSecretDirectoryName tampered_world _ _ (run_pair quiet_host tampered_world)
    ltac:(discriminate) Hex eq_refl) as [Hn Hr].
  split; [|exact Hn]. rewrite Hr. vm_compute. reflexivity.
Defined.

(** A file with a ring of one key of 32 bytes. *)
Definition ring_file : string := Marshal (wire "key-1" (StdEncode (concat_strings (repeat "k" 32)))).
Definition ring_machine : OS := machine [("/ring", ring_file)] [].

Lemma ring_machine_shows : @shows ring_machine "/ring" ring_file.
Proof.
  pose (info := {| fi_mode := 384; fi_dev := 1; fi_ino := 0; fi_size := len ring_file |}).
  exists {| f_stat := Some info; f_content := ring_file; f_fault := None; f_close := Ok tt |}.
  split; [|done]. split; [discriminate|]. exists info, info.
  split_and!; [reflexivity| |reflexivity..]. split; [reflexivity|]. split; [reflexivity|by right].
Defined.

Lemma generated_key_rings_witness :
  @ReadKeyRing ring_machine identity_tables "API_KEY_PEPPER_RING_FILE" "/ring" =
  Ok (mkKeyRing "key-1" {["key-1" := concat_strings (repeat "k" 32)]}).
Proof.
  assert (Hid : MatchString keyIDPattern "key-1" = true) by (vm_compute; reflexivity).
  refine (proj1 (@generated_key_rings_are_read identity_tables ring_machine "API_KEY_PEPPER_RING_FILE"
    "/ring" "key-1" (concat_strings (repeat "k" 32)) eq_refl Hid ltac:(discriminate)) _).
  exact ring_machine_shows.
Defined.
