(* ===== verification/Flag.v ===== *)
(** Package [flag] of the Go library, as the commands use it: a [FlagSet] of
    string, boolean and duration flags that continues on errors.  A set is a
    finite map from the names to the flags; [Parse] returns the set with the
    values given, the arguments left, and what was printed on the output. *)
From stdpp Require Import sorting.
From S2P Require Import Prelude GoStrings Strconv Duration.

Local Open Scope string_scope.
Local Open Scope Z_scope.

(** [stringValue], [boolValue] and [durationValue], with the current value. *)
Inductive flag_value :=
| StringFlag (s : string)
| BoolFlag (b : bool)
| DurationFlag (d : Duration).

Record Flag := mkFlag { f_usage : string; f_default : flag_value; f_value : flag_value }.
Abbreviation FlagSet := (gmap string Flag).

(** [flags.String], [flags.Bool], [flags.Duration] *)
Definition define (usage : string) (v : flag_value) : Flag := mkFlag usage v v.

(** The variable that a definition returned, after the parse. *)
Definition get_string (set : FlagSet) (name : string) : string :=
  match f_value <$> set !! name with Some (StringFlag s) => s | _ => "" end.
Definition get_bool (set : FlagSet) (name : string) : bool :=
  match f_value <$> set !! name with Some (BoolFlag b) => b | _ => false end.
Definition get_duration (set : FlagSet) (name : string) : Duration :=
  match f_value <$> set !! name with Some (DurationFlag d) => d | _ => 0 end.

(** [strconv.ParseBool] *)
Definition ParseBool (s : string) : option bool :=
  if bool_decide (s ∈ ["1"; "t"; "T"; "true"; "TRUE"; "True"]) then Some true
  else if bool_decide (s ∈ ["0"; "f"; "F"; "false"; "FALSE"; "False"]) then Some false
  else None.

(** [Value.Set]; the error of the two parsers is ["parse error"]. *)
Definition set_value (f : Flag) (text : string) : option Flag :=
  v ← match f_default f with
      | StringFlag _ => Some (StringFlag text)
      | BoolFlag _ => BoolFlag <$> ParseBool text
      | DurationFlag _ => DurationFlag <$> parse_duration text
      end;
  Some (mkFlag (f_usage f) (f_default f) v).

Definition is_bool_flag (f : Flag) : bool :=
  match f_default f with BoolFlag _ => true | _ => false end.

(** * Usage *)

Definition newline : string := String "010" "".
Definition tab : string := String "009" "".

(** The default of a flag, unless it is the zero value of its type. *)
Definition shown_default {tables : UnicodeTables} (v : flag_value) : string :=
  match v with
  | StringFlag s => if String.eqb s "" then "" else " (default " +:+ quote s +:+ ")"
  | BoolFlag b => if b then " (default true)" else ""
  | DurationFlag d => if d =? 0 then "" else " (default " +:+ show_duration d +:+ ")"
  end.

(** The usage texts of the commands hold no back quote and no line feed. *)
Definition flag_usage {tables : UnicodeTables} (name : string) (f : Flag) : string :=
  let kind := match f_default f with
              | StringFlag _ => " string" | BoolFlag _ => "" | DurationFlag _ => " duration" end in
  let head := "  -" +:+ name +:+ kind in
  head +:+ (if len head <=? 4 then tab else newline +:+ "    " +:+ tab) +:+
  f_usage f +:+ shown_default (f_default f) +:+ newline.

(** [VisitAll] goes by the order of the names. *)
Definition print_defaults {tables : UnicodeTables} (set : FlagSet) : string :=
  concat_strings
    ((λ name, from_option (flag_usage name) "" (set !! name)) <$>
     merge_sort String.le (map_to_list set).*1).

Definition usage {tables : UnicodeTables} (command : string) (set : FlagSet) : string :=
  "Usage of " +:+ command +:+ ":" +:+ newline +:+ print_defaults set.

(** * Parsing *)

(** What the beginning of one argument says. *)
Inductive argument :=
| Operand                                        (* the flags end before it *)
| Terminator                                     (* the flags end after it *)
| BadSyntax
| Named (name : string) (value : option string).

Definition read_argument (s : string) : argument :=
  match s with
  | String "-" (String c rest) =>
      if String.eqb s "--" then Terminator
      else
        let name := if Ascii.eqb c "-" then rest else String c rest in
        match name with
        | String c1 rest1 =>
            if Ascii.eqb c1 "-" || Ascii.eqb c1 "=" then BadSyntax
            else match cut "=" rest1 with
                 | Some (before, value) => Named (String c1 before) (Some value)
                 | None => Named name None
                 end
        | "" => BadSyntax
        end
  | _ => Operand
  end.

Record parsed := mkParsed { p_set : FlagSet; p_args : list string; p_output : string;
                            p_err : option string }.

Section parse.
Context {tables : UnicodeTables} (command : string).

(** [failf]: the message and the usage are printed. *)
Definition failf (set : FlagSet) (args : list string) (message : string) : parsed :=
  mkParsed set args (message +:+ newline +:+ usage command set) (Some message).

Definition undefined (set : FlagSet) (args : list string) (name : string) : parsed :=
  if String.eqb name "help" || String.eqb name "h"
  then mkParsed set args (usage command set) (Some "flag: help requested")
  else failf set args ("flag provided but not defined: -" +:+ name).

Definition invalid_value (what value name : string) : string :=
  "invalid " +:+ what +:+ quote value +:+ " for " +:+ name +:+ ": parse error".

(** The loop of [Parse] around [parseOne]. *)
Fixpoint Parse (set : FlagSet) (args : list string) : parsed :=
  match args with
  | [] => mkParsed set [] "" None
  | s :: rest =>
      match read_argument s with
      | Operand => mkParsed set args "" None
      | Terminator => mkParsed set rest "" None
      | BadSyntax => failf set args ("bad flag syntax: " +:+ s)
      | Named name given =>
          match set !! name with
          | None => undefined set rest name
          | Some f =>
              if is_bool_flag f then
                match set_value f (default "true" given) with
                | Some f' => Parse (<[name := f']> set) rest
                | None =>
                    failf set rest
                      (invalid_value "boolean value " (default "true" given) ("-" +:+ name))
                end
              else
                match given, rest with
                | Some value, _ =>
                    match set_value f value with
                    | Some f' => Parse (<[name := f']> set) rest
                    | None => failf set rest (invalid_value "value " value ("flag -" +:+ name))
                    end
                | None, value :: rest' =>
                    match set_value f value with
                    | Some f' => Parse (<[name := f']> set) rest'
                    | None => failf set rest' (invalid_value "value " value ("flag -" +:+ name))
                    end
                | None, [] => failf set [] ("flag needs an argument: -" +:+ name)
                end
          end
      end
  end.
End parse.

(** * Facts *)

(** A flag keeps its type, so that the getters read what was set. *)
Lemma set_value_default f text f' : set_value f text = Some f' → f_default f' = f_default f.
Proof.
  unfold set_value. destruct (f_default f); cbn; [by intros [= <-]| |].
  - destruct (ParseBool text); [by intros [= <-]|done].
  - destruct (parse_duration text); [by intros [= <-]|done].
Qed.

Section facts.
Context {tables : UnicodeTables} (command : string).

(** Of an argument, what is not its own name and value stays. *)
Lemma Parse_dom set args : dom (p_set (Parse command set args)) = dom set.
Proof.
  remember (length args) as n eqn:Hn. revert set args Hn.
  induction (lt_wf n) as [n _ IH]. intros set args ->. destruct args as [|s rest]; [done|]. cbn [Parse].
  destruct (read_argument s) as [| | |name given]; try done.
  destruct (set !! name) as [f|] eqn:Hf; [|unfold undefined; by destruct (_ || _)%bool].
  assert (Hdom : ∀ f' args', (length args' < length (s :: rest))%nat →
            dom (p_set (Parse command (<[name := f']> set) args')) = dom set).
  { intros f' args' Hl. rewrite (IH _ Hl _ _ eq_refl). rewrite dom_insert_L.
    apply elem_of_dom_2 in Hf. set_solver. }
  destruct (is_bool_flag f).
  { destruct (set_value _ _); [apply Hdom; cbn; lia|done]. }
  destruct given as [v|]; [destruct (set_value _ _); [apply Hdom; cbn; lia|done]|].
  destruct rest as [|v rest]; [done|].
  destruct (set_value _ _); [apply Hdom; cbn; lia|done].
Qed.
End facts.

(** Both spellings of a flag, and both ways to give its value. *)
Definition example_set : FlagSet := list_to_map
  [("n", define "a name" (StringFlag "x")); ("t", define "a time" (DurationFlag Second));
   ("b", define "a switch" (BoolFlag false))].
Definition example_parse := Parse (tables := identity_tables) "tool" example_set.
Example flags_given :
  let p := example_parse ["-n"; "-b"; "--t=2s"; "-b"; "rest"; "-b"] in
  (get_string (p_set p) "n", get_duration (p_set p) "t", get_bool (p_set p) "b",
   p_args p, p_err p) = ("-b", 2 * Second, true, ["rest"; "-b"], None).
Proof. vm_compute. reflexivity. Qed.
Example flag_unknown :
  p_err (example_parse ["-b=maybe"]) =
  Some ("invalid boolean value " +:+ quote (tables := identity_tables) "maybe" +:+ " for -b: parse error").
Proof. vm_compute. reflexivity. Qed.
Example flag_help : p_output (example_parse ["-help"]) =
  "Usage of tool:" +:+ newline +:+
  "  -b" +:+ tab +:+ "a switch" +:+ newline +:+
  "  -n string" +:+ newline +:+ "    " +:+ tab +:+ "a name (default " +:+ quote (tables := identity_tables) "x" +:+ ")" +:+ newline +:+
  "  -t duration" +:+ newline +:+ "    " +:+ tab +:+ "a time (default 1s)" +:+ newline.
Proof. vm_compute. reflexivity. Qed.
Example flag_end : p_args (example_parse ["--"; "-b"]) = ["-b"]. Proof. vm_compute. reflexivity. Qed.
Example flag_operand : p_args (example_parse ["-"; "-b"]) = ["-"; "-b"]. Proof. vm_compute. reflexivity. Qed.
