(* ===== verification/Commands.v ===== *)
(** The commands beside the services: [internal/config/cmd/validate-deployment],
    [internal/config/cmd/generate-dev-secrets] and [apps/health-probe].  Each
    is its [run] and its [main], with the flags it defines. *)
From S2P Require Import Prelude GoStrings Strconv Duration Settings Url Os Secrets Policies Endpoints Config EnvFile Flag Fs DevSecrets.

Local Open Scope string_scope.
Local Open Scope Z_scope.

Abbreviation error := (option string).

(** An [io.Writer]: what was written to it, and which writes fail, after how
    many bytes and with which error. *)
Record Writer := mkWriter { w_text : string; w_fault : string → option (nat * string) }.

Definition Fprint (text : string) (w : Writer) : Writer * error :=
  match w_fault w text with
  | None => (mkWriter (w_text w +:+ text) (w_fault w), None)
  | Some (n, e) => (mkWriter (w_text w +:+ take n text) (w_fault w), Some e)
  end.

(** A print whose error the code ignores. *)
Definition print (text : string) (w : Writer) : Writer :=
  if String.eqb text "" then w else (Fprint text w).1.

Definition unexpected_arguments : string := "unexpected positional arguments".

(** [if err := run(...); err != nil { os.Exit(1) }] *)
Definition exit_code (err : error) : Z := match err with Some _ => 1 | None => 0 end.

(** * [validate-deployment] *)
Module ValidateDeployment.
Section command.
Context {os : OS} {tables : UnicodeTables} {mail : MailParser} {order : MapOrder}.

Definition flags : FlagSet := list_to_map
  [("env-file", define "path to the complete NexusRelay deployment environment file" (StringFlag ""));
   ("secret-root", define "source directory corresponding to logical /run/secrets paths" (StringFlag ""));
   ("cloudflare-secret-root",
    define "source directory for the optional Cloudflare and ACME secrets" (StringFlag ""));
   ("core-only",
    define "validate the core deployment while optional ingress has a separate profile preflight"
      (BoolFlag false))].

(** What [-core-only] overrides. *)
Definition core_values (values : env) : env :=
  <["ACME_DNS_PROVIDER" := ""]>
    (<["ACME_EMAIL" := ""]>
       (<["TLS_MODE" := "disabled"]> (<["ENABLE_CLOUDFLARE_TUNNEL" := "false"]> values))).

(** The values that are validated. *)
Definition effective_values (set : FlagSet) : res env :=
  values ← ReadEnvironmentFile (get_string set "env-file");
  let values := if get_bool set "core-only" then core_values values else values in
  let secretRoot := get_string set "secret-root" in
  values ← (if String.eqb secretRoot "" then Ok values
            else ResolveDeploymentSecretRoot values secretRoot);
  let cloudflareSecretRoot := get_string set "cloudflare-secret-root" in
  if String.eqb cloudflareSecretRoot "" then Ok values
  else ResolveCloudflareSecretRoot values cloudflareSecretRoot.

Definition validation (set : FlagSet) : res unit :=
  values ← effective_values set; ValidateComplete values.

Definition invalid (err : string) : string :=
  "deployment configuration invalid: " +:+ err +:+ newline.

(** The error, standard output and standard error. *)
Definition run (arguments : list string) (stdout stderr : Writer) : error * Writer * Writer :=
  let p := Parse "validate-deployment" flags arguments in
  let stderr := print (p_output p) stderr in
  match p_err p with
  | Some e => (Some e, stdout, stderr)
  | None =>
      if negb (length (p_args p) =? 0)%nat
      then (Some unexpected_arguments, stdout, print (invalid unexpected_arguments) stderr)
      else
        match validation (p_set p) with
        | Err e => (Some e, stdout, print (invalid e) stderr)
        | Ok _ => (None, print ("deployment configuration valid" +:+ newline) stdout, stderr)
        end
  end.

Definition main (arguments : list string) (stdout stderr : Writer) : Z * Writer * Writer :=
  let '(err, stdout, stderr) := run arguments stdout stderr in (exit_code err, stdout, stderr).
End command.
End ValidateDeployment.

(** * [generate-dev-secrets] *)
Module GenerateCommand.
Section command.
Context `{HostOS} {tables : UnicodeTables} {order : MapOrder}.

Definition flags : FlagSet := list_to_map
  [("output-dir",
    define "directory for the exact development secret inventory" (StringFlag DevSecretDirectoryName))].

(** The two error paths: the error is printed, and a failure to print it is
    the error. *)
Definition report (err : string) (stderr : Writer) : error * Writer :=
  match Fprint ("development secret generation failed: " +:+ err +:+ newline) stderr with
  | (stderr, Some e) => (Some ("write development secret generation error: " +:+ e), stderr)
  | (stderr, None) => (Some err, stderr)
  end.

Definition run (arguments : list string) (stdout stderr : Writer) (w : world)
    : (error * Writer * Writer) * world :=
  let p := Parse "generate-dev-secrets" flags arguments in
  let stderr := print (p_output p) stderr in
  match p_err p with
  | Some e => (Some e, stdout, stderr, w)
  | None =>
      if negb (length (p_args p) =? 0)%nat then
        let '(err, stderr) := report unexpected_arguments stderr in (err, stdout, stderr, w)
      else
        let outputDirectory := get_string (p_set p) "output-dir" in
        match GenerateDevSecrets outputDirectory w with
        | (Err e, w) => let '(err, stderr) := report e stderr in (err, stdout, stderr, w)
        | (Ok _, w) =>
            match Fprint ("development secret inventory ready at " +:+ outputDirectory +:+ newline)
                    stdout with
            | (stdout, Some e) =>
                (Some ("write development secret generation result: " +:+ e), stdout, stderr, w)
            | (stdout, None) => (None, stdout, stderr, w)
            end
        end
  end.

Definition main (arguments : list string) (stdout stderr : Writer) (w : world)
    : (Z * Writer * Writer) * world :=
  let '((err, stdout, stderr), w) := run arguments stdout stderr w in
  (exit_code err, stdout, stderr, w).
End command.
End GenerateCommand.

(** * [health-probe] *)
Module HealthProbe.

Definition defaultProbeURL : string := "http://127.0.0.1:8080/health/ready".

(** What the code sees of a response: the status and the error of closing the
    body.  [client.Do] on a GET within a time limit is the parameter [Do], the
    network and the server at its end; [None] is an error. *)
Record reply := mkReply { StatusCode : Z; close_error : error }.
Class Client := { Do : Duration → URL → option reply }.

Section command.
Context {client : Client} {tables : UnicodeTables}.

Definition flags : FlagSet := list_to_map
  [("url", define "health endpoint URL" (StringFlag defaultProbeURL));
   ("timeout", define "probe timeout" (DurationFlag (3 * Second)))].

(** After the flags are parsed; [http.NewRequestWithContext] with the method
    GET and a context fails on a URL that does not parse. *)
Definition probe (probeURL : string) (timeout : Duration) : error :=
  if timeout <=? 0 then Some "timeout must be positive"
  else
    match url_Parse probeURL with
    | None => Some "health probe URL is invalid"
    | Some target =>
        match Do timeout target with
        | None => Some "health probe request failed"
        | Some response =>
            match close_error response with
            | Some e => Some ("close health probe response: " +:+ e)
            | None =>
                if negb (StatusCode response =? 200)
                then Some ("health probe returned status " +:+ itoa (StatusCode response))
                else None
            end
        end
    end.

(** Positional arguments are ignored. *)
Definition run (arguments : list string) (output : Writer) : error * Writer :=
  let p := Parse "nexusrelay-health-probe" flags arguments in
  let output := print (p_output p) output in
  match p_err p with
  | Some e => (Some e, output)
  | None => (probe (get_string (p_set p) "url") (get_duration (p_set p) "timeout"), output)
  end.

Definition main (arguments : list string) (stderr : Writer) : Z * Writer :=
  match run arguments stderr with
  | (Some e, stderr) => (1, print (e +:+ newline) stderr)
  | (None, stderr) => (0, stderr)
  end.
End command.
End HealthProbe.
