(* ===== verification/Mounting.v ===== *)
(** The container of a service sees the secret root of its host under
    [/run/secrets].  A configuration parser that is given the resolved paths on
    the host and one that is given the logical paths in the container read the
    same files, and hence return the same result. *)
From S2P Require Import Prelude GoStrings Strconv Duration Settings Net Url Regex Os Secrets Policies Endpoints Config EnvFile Isolation Fs DevSecrets DevSecretsFacts.

Local Open Scope string_scope.
Local Open Scope Z_scope.

Definition secret_setting (name : string) : bool :=
  match deploymentSecretFiles !! name with Some _ => true | None => false end.

(** * One file under two names *)

Section same_file.
Context {host container : OS}.

Record same_file (path path' : string) : Prop := {
  same_named : path ≠ "" ∧ path' ≠ "";
  same_lstat : Lstat (OS := container) path' = Lstat (OS := host) path;
  same_open : Open (OS := container) path' = Open (OS := host) path
}.

(** Every secret of the inventory is mounted at its logical path. *)
Record mounted (root : string) : Prop := {
  mounted_system : GOOS (OS := container) = GOOS (OS := host);
  mounted_file filename : filename ∈ devSecretFiles →
    same_file (Join root filename) (logical filename)
}.

Context (Hsystem : GOOS (OS := container) = GOOS (OS := host)).

Lemma openProtectedFile_same setting path path' :
  same_file path path' →
  openProtectedFile (os := container) setting path' = openProtectedFile (os := host) setting path.
Proof.
  intros [[Hp Hp'] Hl Ho]. unfold openProtectedFile. rewrite Hsystem, Hl, Ho.
  by rewrite (proj2 (String.eqb_neq _ _) Hp), (proj2 (String.eqb_neq _ _) Hp').
Qed.

Lemma readSecretBytes_same setting path path' maximum :
  same_file path path' →
  readSecretBytes (os := container) setting path' maximum =
  readSecretBytes (os := host) setting path maximum.
Proof. intros Hs. unfold readSecretBytes. by rewrite (openProtectedFile_same _ _ _ Hs). Qed.

Lemma ReadSimpleSecret_same {tables : UnicodeTables} setting path path' maximum :
  same_file path path' →
  ReadSimpleSecret (os := container) setting path' maximum =
  ReadSimpleSecret (os := host) setting path maximum.
Proof.
  intros Hs. unfold ReadSimpleSecret, ReadSecretFile. by rewrite (readSecretBytes_same _ _ _ _ Hs).
Qed.

Lemma ReadURISecret_same {tables : UnicodeTables} setting path path' maximum schemes :
  same_file path path' →
  ReadURISecret (os := container) setting path' maximum schemes =
  ReadURISecret (os := host) setting path maximum schemes.
Proof. intros Hs. unfold ReadURISecret. by rewrite (ReadSimpleSecret_same _ _ _ _ Hs). Qed.

Lemma ReadBase64Key_same {tables : UnicodeTables} setting path path' maximum :
  same_file path path' →
  ReadBase64Key (os := container) setting path' maximum =
  ReadBase64Key (os := host) setting path maximum.
Proof. intros Hs. unfold ReadBase64Key. by rewrite (ReadSimpleSecret_same _ _ _ _ Hs). Qed.

Lemma ReadKeyRing_same {tables : UnicodeTables} setting path path' :
  same_file path path' →
  ReadKeyRing (os := container) setting path' = ReadKeyRing (os := host) setting path.
Proof. intros Hs. unfold ReadKeyRing. by rewrite (readSecretBytes_same _ _ _ _ Hs). Qed.

Lemma ReadProviderKeyRing_same {tables : UnicodeTables} path path' :
  same_file path path' →
  ReadProviderKeyRing (os := container) path' = ReadProviderKeyRing (os := host) path.
Proof. intros Hs. unfold ReadProviderKeyRing. by rewrite (readSecretBytes_same _ _ _ _ Hs). Qed.
End same_file.
Arguments same_file : clear implicits.
Arguments mounted : clear implicits.

(** * The services *)

(** The environments of [p] on the host, [v], and in the container, [w]: the
    secret settings name the resolved and the logical paths, all others agree. *)
Record deployed (p : Process) (root : string) (v w : env) : Prop := {
  deployed_plain : agree_on (λ name, consumed_by p name && negb (secret_setting name)) v w;
  deployed_secret setting filename :
    deploymentSecretFiles !! setting = Some filename → consumed_by p setting = true →
    v !! setting = Some (Join root filename) ∧
    default (logical filename) (w !! setting) = logical filename
}.

Section services.
Context {host container : OS} {tables : UnicodeTables}.
Context {p : Process} {root : string} {v w : env}.
Context (Hm : mounted host container root) (Hd : deployed p root v w).

(** What the two environments name for a secret is one file. *)
Lemma secret_paths setting filename fallback :
  deploymentSecretFiles !! setting = Some filename → consumed_by p setting = true →
  bool_decide (filename ∈ devSecretFiles) = true → fallback = logical filename →
  same_file host container (requiredPath v setting fallback) (requiredPath w setting fallback).
Proof.
  intros Hs Hc Hin%bool_decide_eq_true ->. unfold requiredPath, value.
  destruct (deployed_secret _ _ _ _ Hd _ _ Hs Hc) as [-> Hw].
  destruct (w !! setting) as [x|]; [cbn in Hw; subst x|]; exact (mounted_file _ Hm _ Hin).
Qed.

(** A parser reads a secret setting: the same in the container as on the host. *)
Definition mounts (setting fallback : string) : bool :=
  match deploymentSecretFiles !! setting with
  | Some filename =>
      bool_decide (filename ∈ devSecretFiles) && String.eqb fallback (logical filename)
  | None => false
  end.

Context (setting fallback : string).
Context (Hmounts : mounts setting fallback = true) (Hc : consumed_by p setting = true).

Lemma setting_same :
  same_file host container (requiredPath v setting fallback) (requiredPath w setting fallback).
Proof.
  revert Hmounts. unfold mounts. destruct (_ !! setting) as [filename|] eqn:Hs; [|done].
  rewrite andb_true_iff, String.eqb_eq. intros [Hin Hf]. by eapply secret_paths.
Qed.

Lemma simple_mounted maximum :
  ReadSimpleSecret (os := container) setting (requiredPath w setting fallback) maximum =
  ReadSimpleSecret (os := host) setting (requiredPath v setting fallback) maximum.
Proof. apply (ReadSimpleSecret_same (mounted_system _ Hm)), setting_same. Qed.

Lemma uri_mounted maximum schemes :
  ReadURISecret (os := container) setting (requiredPath w setting fallback) maximum schemes =
  ReadURISecret (os := host) setting (requiredPath v setting fallback) maximum schemes.
Proof. apply (ReadURISecret_same (mounted_system _ Hm)), setting_same. Qed.

Lemma base64_mounted maximum :
  ReadBase64Key (os := container) setting (requiredPath w setting fallback) maximum =
  ReadBase64Key (os := host) setting (requiredPath v setting fallback) maximum.
Proof. apply (ReadBase64Key_same (mounted_system _ Hm)), setting_same. Qed.

Lemma ring_mounted :
  ReadKeyRing (os := container) setting (requiredPath w setting fallback) =
  ReadKeyRing (os := host) setting (requiredPath v setting fallback).
Proof. apply (ReadKeyRing_same (mounted_system _ Hm)), setting_same. Qed.

Lemma provider_mounted :
  ReadProviderKeyRing (os := container) (requiredPath w setting fallback) =
  ReadProviderKeyRing (os := host) (requiredPath v setting fallback).
Proof. apply (ReadProviderKeyRing_same (mounted_system _ Hm)), setting_same. Qed.
End services.

Section parsers.
Context {host container : OS} {tables : UnicodeTables} {order : MapOrder}.
Context {root : string} (Hm : mounted host container root).
Implicit Types v w : env.

(** Every read of the environment in the container becomes one on the host. *)
Local Ltac mounted_reads Hd :=
  rewrite ?(simple_mounted Hm Hd), ?(uri_mounted Hm Hd), ?(base64_mounted Hm Hd),
    ?(ring_mounted Hm Hd), ?(provider_mounted Hm Hd) by consumed;
  repeat match goal with
  | |- context [requiredPath ?v ?name ?path] => generalize (requiredPath v name path); intro
  end;
  agree_reads (deployed_plain _ _ _ _ Hd).

Lemma parseDatabase_mounted p settings v w :
  deployed p root v w →
  (p, settings) ∈ [(ProcessGateway, gatewayDatabaseSettings);
                   (ProcessControlPlane, controlPlaneDatabaseSettings);
                   (ProcessWorker, workerDatabaseSettings)] →
  parseDatabase (os := container) w settings = parseDatabase (os := host) v settings.
Proof.
  intros Hd Hin. rewrite !elem_of_cons, elem_of_nil in Hin.
  unfold parseDatabase, parseDatabaseSSLMode.
  destruct Hin as [[= -> ->]|[[= -> ->]|[[= -> ->]|[]]]];
    cbn [userSetting passwordSetting minSetting maxSetting ds_user defaultMax
         gatewayDatabaseSettings controlPlaneDatabaseSettings workerDatabaseSettings];
    mounted_reads Hd; reflexivity.
Qed.

Lemma parseServiceCommon_mounted p v w :
  deployed p root v w → long_running p = true → parseServiceCommon w = parseServiceCommon v.
Proof.
  intros Hd Hp.
  unfold parseServiceCommon, parseShared, parseHTTP, parseObservability, parseLogging.
  destruct p; try discriminate Hp; mounted_reads Hd; reflexivity.
Qed.

Lemma parseDependencyReadiness_mounted p v w :
  deployed p root v w → long_running p = true →
  parseDependencyReadiness w = parseDependencyReadiness v.
Proof.
  intros Hd Hp. unfold parseDependencyReadiness.
  destruct p; try discriminate Hp; mounted_reads Hd; reflexivity.
Qed.

Lemma ParseGateway_mounted v w :
  deployed ProcessGateway root v w →
  preflight w ProcessGateway = preflight v ProcessGateway →
  ParseGateway (os := container) w = ParseGateway (os := host) v.
Proof.
  intros Hd Hp. unfold ParseGateway. rewrite Hp.
  rewrite (parseServiceCommon_mounted _ _ _ Hd eq_refl).
  rewrite (parseDependencyReadiness_mounted _ _ _ Hd eq_refl).
  rewrite (parseDatabase_mounted ProcessGateway _ v w Hd) by by left.
  unfold parseGatewayEndpoints, parsePublicAPIURL, parseRedis, parseGatewayPolicy.
  mounted_reads Hd. reflexivity.
Qed.

Lemma parseSessionPolicy_mounted v w :
  deployed ProcessControlPlane root v w →
  parseSessionPolicy (os := container) w = parseSessionPolicy (os := host) v.
Proof.
  intros Hd. unfold parseSessionPolicy, parsePasswordPolicy. mounted_reads Hd.
  apply bind_agree; [reflexivity|]. intros idle _.
  apply bind_agree; [reflexivity|]. intros abs _.
  agree_reads (deployed_plain _ _ _ _ Hd). reflexivity.
Qed.

Lemma ParseControlPlane_mounted v w :
  deployed ProcessControlPlane root v w →
  preflight w ProcessControlPlane = preflight v ProcessControlPlane →
  ParseControlPlane (os := container) w = ParseControlPlane (os := host) v.
Proof.
  intros Hd Hp. unfold ParseControlPlane. rewrite Hp.
  rewrite (parseServiceCommon_mounted _ _ _ Hd eq_refl).
  rewrite (parseDependencyReadiness_mounted _ _ _ Hd eq_refl).
  rewrite (parseDatabase_mounted ProcessControlPlane _ v w Hd) by by right; left.
  rewrite (parseSessionPolicy_mounted _ _ Hd).
  unfold parseControlPlaneEndpoints, parsePublicAPIURL, parseRedis, parseAgent.
  mounted_reads Hd. reflexivity.
Qed.

Lemma ParseWorker_mounted v w :
  deployed ProcessWorker root v w →
  preflight w ProcessWorker = preflight v ProcessWorker →
  ParseWorker (os := container) w = ParseWorker (os := host) v.
Proof.
  intros Hd Hp. unfold ParseWorker. rewrite Hp.
  rewrite (parseServiceCommon_mounted _ _ _ Hd eq_refl).
  rewrite (parseDependencyReadiness_mounted _ _ _ Hd eq_refl).
  rewrite (parseDatabase_mounted ProcessWorker _ v w Hd) by by right; right; left.
  unfold parseRedis, parseWorkerPolicy. mounted_reads Hd. reflexivity.
Qed.
End parsers.
