(* ===== verification/CommandGuarantees.v ===== *)
(** What the commands guarantee to whoever runs them: that a validated
    deployment starts, that the generator's exit code tells whether an
    inventory is in place, and what the health probe has seen. *)
From S2P Require Import Prelude GoStrings Strconv Duration Settings Net Url Regex Os Secrets Policies Endpoints Config EnvFile Isolation Readiness ReadinessSpec Lifecycle Fs FsFacts DevSecrets DevSecretsFacts GeneratorSuccess Flag Commands Mounting Fixtures SecretGuarantees.

Local Open Scope string_scope.
Local Open Scope Z_scope.

(** * A validated deployment *)

Definition service (p : Process) : bool :=
  match p with ProcessGateway | ProcessControlPlane | ProcessWorker => true | _ => false end.

(** No service reads a setting that the command overrides or resolves beside
    the secrets of the inventory. *)
Lemma core_values_agree p values :
  service p = true → agree p (ValidateDeployment.core_values values) values.
Proof.
  intros Hp name Hc. unfold ValidateDeployment.core_values.
  rewrite !lookup_insert_ne; [done|..]; intros <-; destruct p; try discriminate Hp;
    vm_compute in Hc; discriminate Hc.
Qed.

Lemma cloudflare_agree p root values :
  service p = true → agree p ((Join root <$> cloudflare_settings) ∪ values) values.
Proof.
  intros Hp name Hc. apply lookup_union_r. rewrite lookup_fmap.
  destruct (cloudflare_settings !! name) as [filename|] eqn:Hn; [|done]. exfalso.
  unfold cloudflare_settings in Hn. cbn [list_to_map foldr uncurry fst snd] in Hn.
  rewrite !lookup_insert_Some, lookup_empty in Hn.
  destruct Hn as [[<- _]|[_ [[<- _]|[_ Hn]]]]; [..|discriminate Hn];
    destruct p; try discriminate Hp; vm_compute in Hc; discriminate Hc.
Qed.

Section deployment.
Context {host : OS} {tables : UnicodeTables} {mail : MailParser} {order : MapOrder}.

(** What a successful validation with a secret root has seen. *)
Lemma validation_with_root set :
  ValidateDeployment.validation set = Ok tt → get_string set "secret-root" ≠ "" →
  ∃ values final, ReadEnvironmentFile (get_string set "env-file") = Ok values ∧
    ValidateComplete final = Ok tt ∧
    ∀ p w, service p = true → agree p w values →
      deployed p (get_string set "secret-root") (ValuesForProcess final p) w.
Proof.
  unfold ValidateDeployment.validation, ValidateDeployment.effective_values. intros H Hroot.
  rewrite bind_ok in H. destruct H as (final & H & Hv).
  rewrite bind_ok in H. destruct H as (values & Hread & H).
  rewrite (proj2 (String.eqb_neq _ _) Hroot), bind_ok in H. destruct H as (resolved & Hres & Hfin).
  apply resolve_iff in Hres as (_ & Hall & ->).
  exists values, final. split_and!; [done|done|]. intros p w Hp Hw.
  set (values1 := if get_bool set "core-only" then _ else values) in *.
  assert (Hcore : agree p values1 values).
  { unfold values1. destruct (get_bool set "core-only"); [exact (core_values_agree p values Hp)|].
    intros name _. reflexivity. }
  set (files := Join _ <$> deploymentSecretFiles) in *.
  assert (Hcloud : agree p final (files ∪ values1)).
  { destruct (String.eqb (get_string set "cloudflare-secret-root") ""); 
    [injection Hfin as <-; intros name _; reflexivity|].
    apply cloudflare_root_resolves in Hfin as [_ ->]. by apply cloudflare_agree. }
  split.
  - intros name [Hc Hs]%andb_prop. rewrite ValuesForProcess_lookup, Hc, (Hcloud name Hc), (Hw name Hc).
    rewrite <- (Hcore name Hc). apply lookup_union_r. unfold files. rewrite lookup_fmap.
    unfold secret_setting in Hs. by destruct (deploymentSecretFiles !! name).
  - intros setting filename Hs Hc. split.
    + rewrite ValuesForProcess_lookup, Hc, (Hcloud setting Hc). apply lookup_union_Some_l.
      unfold files. by rewrite lookup_fmap, Hs.
    + rewrite (Hw setting Hc), <- (Hcore setting Hc). exact (Hall _ _ Hs).
Qed.
End deployment.

Section validated.
Context {host : OS} {tables : UnicodeTables} {mail : MailParser} {order : MapOrder}.
Variables (arguments : list string) (stdout stderr : Writer).
Let set := p_set (Parse "validate-deployment" ValidateDeployment.flags arguments).

(** C1: a deployment that [validate-deployment] accepts starts: when the command
    succeeds with a secret root, then in every container that has the root
    mounted at [/run/secrets], and whose environment gives the service its
    settings of the environment file and passes its preflight, the gateway,
    the control plane and the worker load their configuration. *)
Theorem validated_deployment_loads :
  (ValidateDeployment.run arguments stdout stderr).1.1 = None →
  get_string set "secret-root" ≠ "" →
  ∃ values, ReadEnvironmentFile (get_string set "env-file") = Ok values ∧
    ∀ container, mounted host container (get_string set "secret-root") →
      let v := environment (os := container) in
      (agree ProcessGateway v values → preflight v ProcessGateway = Ok tt →
         ∃ g, LoadGateway (os := container) = Ok g) ∧
      (agree ProcessControlPlane v values → preflight v ProcessControlPlane = Ok tt →
         ∃ c, LoadControlPlane (os := container) = Ok c) ∧
      (agree ProcessWorker v values → preflight v ProcessWorker = Ok tt →
         ∃ w, LoadWorker (os := container) = Ok w).
Proof.
  unfold ValidateDeployment.run. fold set. intros Hrun Hroot.
  destruct (p_err _); [discriminate Hrun|].
  destruct (negb _); [discriminate Hrun|].
  destruct (ValidateDeployment.validation set) as [[]|e] eqn:Hv; [|discriminate Hrun].
  destruct (validation_with_root set Hv Hroot) as (values & final & Hread & Hc & Hd).
  exists values. split; [exact Hread|]. intros container Hm. set (v := environment (os := container)). cbv zeta.
  unfold ValidateComplete in Hc. res_inv Hc. clear Hc.
  split_and!; intros Hagree Hpre; eexists.
  - unfold LoadGateway. fold v. rewrite (ParseGateway_mounted Hm _ v (Hd ProcessGateway v eq_refl Hagree));
      [eassumption|]. by rewrite Hpre, preflight_filtered.
  - unfold LoadControlPlane. fold v.
    rewrite (ParseControlPlane_mounted Hm _ v (Hd ProcessControlPlane v eq_refl Hagree)); [eassumption|].
    by rewrite Hpre, preflight_filtered.
  - unfold LoadWorker. fold v. rewrite (ParseWorker_mounted Hm _ v (Hd ProcessWorker v eq_refl Hagree));
      [eassumption|]. by rewrite Hpre, preflight_filtered.
Qed.
End validated.

(** * The generator's exit code *)

Section generator_command.
Context `{h : HostOS} {tables : UnicodeTables} {order : MapOrder}.

(** A run that succeeds leaves a valid inventory, new or found. *)
Lemma inventory_in_place directory w w' :
  GenerateDevSecrets directory w = (Ok tt, w') → fs_ok w → Z.land 448 umask = 0 →
  ∀ h2 w2, quiet h h2 → nodes w2 = nodes w' →
    ValidateDevSecrets (os := @view h2 w2) directory = Ok tt.
Proof.
  intros Hg Hw Hu. destruct (nodes w !! locate directory) as [n|] eqn:Hl.
  - assert (Hd : directory ≠ "").
    { intros ->. unfold GenerateDevSecrets in Hg. cbn in Hg. discriminate Hg. }
    unfold GenerateDevSecrets in Hg. rewrite (proj2 (String.eqb_neq _ _) Hd) in Hg.
    destruct (lstat_exists_cases directory w) as [[e He]|[[_ He]|[Hno _]]]; [| |congruence];
      rewrite He in Hg; [discriminate Hg|].
    unfold validated, reading in Hg.
    destruct (ValidateDevSecrets directory) as [[]|e] eqn:Hv; [|discriminate Hg].
    injection Hg as <-. intros h2 w2 Hq Hn. exact (validates_quietly h h2 directory _ w2 Hv Hd Hq Hn).
  - exact (generate_validates directory w w' Hg Hl Hw Hu).
Qed.

(** C15: the exit code of [generate-dev-secrets] can be relied on: 0 means that
    the directory it names on its standard output holds a complete and valid
    inventory, whether it was there or has just been generated; and whatever
    the code, no file that existed is changed or removed. *)
Theorem generator_exit_code arguments stdout stderr w code out err w' :
  GenerateCommand.main arguments stdout stderr w = ((code, out, err), w') →
  fs_ok w → Z.land 448 umask = 0 →
  let directory := get_string (p_set (Parse "generate-dev-secrets" GenerateCommand.flags arguments))
                     "output-dir" in
  nodes w ⊆ nodes w' ∧
  (code = 0 →
     w_text out = w_text stdout +:+ "development secret inventory ready at " +:+ directory +:+ newline ∧
     ∀ h2 w2, quiet h h2 → nodes w2 = nodes w' →
       ValidateDevSecrets (os := @view h2 w2) directory = Ok tt).
Proof.
  unfold GenerateCommand.main, GenerateCommand.run. intros Hmain Hw Hu.
  set (p := Parse _ _ _) in *. cbv zeta. set (directory := get_string (p_set p) "output-dir") in *.
  destruct (p_err p) as [e|]; [injection Hmain as <- <- <- <-; by split|].
  destruct (negb _).
  { destruct (GenerateCommand.report _ _) as [e se] eqn:Hrep. injection Hmain as <- <- <- <-.
    split; [done|]. unfold GenerateCommand.report in Hrep.
    destruct (Fprint _ _) as [se1 [e1|]]; by injection Hrep as <- <-. }
  destruct (GenerateDevSecrets directory w) as [r w1] eqn:Hg.
  destruct (generate_frame _ _ _ _ Hg Hw) as (_ & Hsub & _).
  destruct r as [[]|e].
  - unfold Fprint in Hmain. destruct (w_fault stdout _) as [[n e]|];
      injection Hmain as <- <- <- <-; (split; [done|]); [done|].
    intros _. split; [done|]. intros h2 w2 Hq Hn. by apply (inventory_in_place directory w w1).
  - destruct (GenerateCommand.report _ _) as [e1 se] eqn:Hrep. injection Hmain as <- <- <- <-.
    split; [done|]. unfold GenerateCommand.report in Hrep.
    destruct (Fprint _ _) as [se1 [e2|]]; by injection Hrep as <- <-.
Qed.
End generator_command.

(** * The health probe *)

Section probe.
Context {client : HealthProbe.Client} {tables : UnicodeTables}.

(** The client reaches a service with this readiness on the address and path
    of the default URL. *)
Definition reaches (h : Health.Health) : Prop :=
  ∀ timeout u, Scheme u = "http" → Host u = "127.0.0.1:8080" → Path u = "/health/ready" →
    HealthProbe.Do timeout u = Some (HealthProbe.mkReply (Health.status (Health.readiness h)) None).

(** The arguments of the container health checks, and none at all. *)
Definition probe_arguments : list (list string) :=
  [[]; ["-url"; HealthProbe.defaultProbeURL; "-timeout"; "3s"]].

Lemma probe_runs arguments stderr :
  arguments ∈ probe_arguments →
  HealthProbe.run arguments stderr =
  (HealthProbe.probe HealthProbe.defaultProbeURL (3 * Second), stderr).
Proof.
  unfold probe_arguments. rewrite !elem_of_cons, elem_of_nil. intros Hin.
  assert (let p := Parse "nexusrelay-health-probe" HealthProbe.flags arguments in
          (p_err p, p_output p, get_string (p_set p) "url", get_duration (p_set p) "timeout") =
          (None, "", HealthProbe.defaultProbeURL, 3 * Second)) as Hp
    by (destruct Hin as [->|[->|[]]]; vm_compute; reflexivity).
  unfold HealthProbe.run. cbv zeta in *. injection Hp as He Ho Hurl Ht.
  by rewrite He, Ho, Hurl, Ht.
Qed.

(** C14: the health check of a container sees the readiness loop: where the
    probe reaches the service, it exits with 0 exactly while the loop has set
    readiness, and then no probe failed in the loop's last round; otherwise it
    reports the status 503. *)
Theorem health_probe_sees_readiness policy probes s arguments stderr :
  reachable policy probes s → arguments ∈ probe_arguments →
  reaches {| Health.ready := Readiness.ready s |} →
  ((HealthProbe.main arguments stderr).1 = 0 ↔ Readiness.ready s = true) ∧
  ((HealthProbe.main arguments stderr).1 = 0 → last_round (trace s) = Some []) ∧
  (HealthProbe.run arguments stderr).1 =
    (if Readiness.ready s then None else Some "health probe returned status 503").
Proof.
  intros Hreach Hin Hclient.
  assert (Hrun : HealthProbe.run arguments stderr =
            (if Readiness.ready s then None else Some "health probe returned status 503", stderr)).
  { rewrite (probe_runs arguments stderr Hin). f_equal. unfold HealthProbe.probe.
    destruct (url_Parse HealthProbe.defaultProbeURL) as [u|] eqn:Hu; [|discriminate Hu].
    cbn [Z.leb]. assert ((3 * Second <=? 0) = false) as -> by reflexivity.
    assert (Scheme u = "http" ∧ Host u = "127.0.0.1:8080" ∧ Path u = "/health/ready") as (Hs & Hh & Hp).
    { vm_compute in Hu. injection Hu as <-. done. }
    rewrite (Hclient _ u Hs Hh Hp). cbn. by destruct (Readiness.ready s). }
  unfold HealthProbe.main. rewrite Hrun. cbn [fst].
  destruct (Readiness.ready s) eqn:Hr; cbn [fst]; split_and!; try done.
  intros _. by apply (reachable_last_round (policy := policy) (probes := probes) s Hreach).
Qed.
End probe.

(** * The hypotheses can hold *)

(** A host with a generated inventory and an environment file, and a container
    with the inventory mounted. *)
Definition env_text : string := "LOG_LEVEL=debug" +:+ String "010" "".
Definition deployed_world : world :=
  let w := (generate_on quiet_host empty_world).2 in
  set_nodes (<[locate "deploy.env" := mkNode 420 99 env_text]> (nodes w)) w.
Definition deployed_host : OS := @view quiet_host deployed_world.

Definition mount (host : OS) (root : string) (environ : list string) : OS :=
  let at_host path :=
    if has_prefix path "/run/secrets/" then Join root (drop 13 path) else path in
  {| GOOS := GOOS (OS := host); Environ := environ;
     Lstat path := Lstat (OS := host) (at_host path);
     Stat path := Stat (OS := host) (at_host path);
     Open path := Open (OS := host) (at_host path);
     ReadDir path := ReadDir (OS := host) (at_host path) |}.
Definition demo_container : OS :=
  mount deployed_host DevSecretDirectoryName ["PATH=/bin"; "LOG_LEVEL=debug"].

Lemma mount_mounted host root environ :
  forallb (λ filename, negb (String.eqb (Join root filename) "")) devSecretFiles = true →
  mounted host (mount host root environ) root.
Proof.
  intros Hne. split; [done|]. intros filename Hin. rewrite forallb_forall in Hne.
  specialize (Hne filename (proj1 (list_elem_of_In _ _) Hin)).
  rewrite negb_true_iff, String.eqb_neq in Hne.
  assert (Hat : (if has_prefix (logical filename) "/run/secrets/"
                 then Join root (drop 13 (logical filename)) else logical filename) =
                Join root filename) by (by destruct filename).
  split; [by split|..]; cbn [mount Lstat Open]; by rewrite Hat.
Defined.

Definition silent : Writer := mkWriter "" (λ _, None).
Definition demo_arguments : list string :=
  ["--env-file"; "deploy.env"; "-secret-root=.local-secrets"; "--core-only"].

Lemma deployed_agree p :
  agree p (@environment demo_container) {["LOG_LEVEL" := "debug"]}.
Proof.
  assert (@environment demo_container = <["LOG_LEVEL" := "debug"]> {["PATH" := "/bin"]}) as ->
    by (vm_compute; reflexivity).
  intros name Hc. destruct (decide (name = "LOG_LEVEL")) as [->|Hne].
  { by rewrite lookup_insert_eq, lookup_singleton_eq. }
  rewrite lookup_insert_ne, !lookup_singleton_ne; [done|congruence| |congruence].
  intros <-. destruct p; vm_compute in Hc; discriminate Hc.
Defined.

Lemma validated_deployment_witness :
  ∃ g, @LoadGateway demo_container identity_tables forward_order = Ok g.
Proof.
  assert (Hrun : (@ValidateDeployment.run deployed_host identity_tables plain_mail forward_order
            demo_arguments silent silent).1.1 = None) by (vm_compute; reflexivity).
  assert (Hroot : get_string (p_set (@Parse identity_tables "validate-deployment"
            ValidateDeployment.flags demo_arguments)) "secret-root" = DevSecretDirectoryName)
    by (vm_compute; reflexivity).
  assert (Hpre : @preflight forward_order (@environment demo_container) ProcessGateway = Ok tt)
    by (vm_compute; reflexivity).
  assert (Hread : @ReadEnvironmentFile deployed_host identity_tables "deploy.env" =
            Ok {["LOG_LEVEL" := "debug"]}) by (vm_compute; reflexivity).
  destruct (@validated_deployment_loads deployed_host identity_tables plain_mail forward_order
    demo_arguments silent silent Hrun) as (values & Hv & Hall).
  { rewrite Hroot. discriminate. }
  assert (Hfile : get_string (p_set (@Parse identity_tables "validate-deployment"
            ValidateDeployment.flags demo_arguments)) "env-file" = "deploy.env")
    by (vm_compute; reflexivity).
  rewrite Hfile, Hread in Hv. injection Hv as Hv. rewrite Hroot in Hall.
  assert (Hm : mounted deployed_host demo_container DevSecretDirectoryName)
    by (apply mount_mounted; vm_compute; reflexivity).
  destruct (Hall demo_container Hm) as [Hg _].
  apply Hg; [rewrite <- Hv; exact (deployed_agree _)|exact Hpre].
Defined.

(** The generator, run with its default directory on an empty file system. *)
Lemma generator_exit_code_witness :
  @ValidateDevSecrets (@view quiet_host (@GenerateCommand.main quiet_host identity_tables forward_order
    [] silent silent empty_world).2) identity_tables forward_order DevSecretDirectoryName = Ok tt.
Proof.
  destruct (@GenerateCommand.main quiet_host identity_tables forward_order [] silent silent empty_world)
    as [[[code out] err] w'] eqn:Hmain.
  assert (Hcode : (@GenerateCommand.main quiet_host identity_tables forward_order
            [] silent silent empty_world).1.1.1 = 0) by (vm_compute; reflexivity).
  rewrite Hmain in Hcode.
  destruct (@generator_exit_code quiet_host identity_tables forward_order [] silent silent
    empty_world code out err w' Hmain empty_world_ok eq_refl) as [_ H].
  destruct (H Hcode) as [_ Hv].
  exact (Hv quiet_host w' (conj eq_refl (λ _ _, eq_refl)) eq_refl).
Defined.

(** A client that reaches a service which is not ready. *)
Definition unready_client : HealthProbe.Client := {|
  HealthProbe.Do _ _ := Some (HealthProbe.mkReply 503 None) |}.

Lemma health_probe_witness :
  (@HealthProbe.main unready_client identity_tables [] silent).1 = 1 ∧
  (@HealthProbe.run unready_client identity_tables [] silent).1 =
    Some "health probe returned status 503".
Proof.
  split; [vm_compute; reflexivity|].
  destruct (start DefaultReadinessPolicy demo_probes false) as [s0|e] eqn:Hs;
    [|vm_compute in Hs; discriminate Hs].
  assert (Hreach : reachable DefaultReadinessPolicy demo_probes s0).
  { exists false, s0. split; [exact Hs|apply rtc_refl]. }
  vm_compute in Hs. injection Hs as <-.
  exact (proj2 (proj2 (@health_probe_sees_readiness unready_client identity_tables _ _ _ [] silent
    Hreach ltac:(left) (λ _ _ _ _ _, eq_refl)))).
Defined.
